(* ===== verification/_CoqProject ===== *)
-Q . S2P
Prelude.v
Memory.v
Machine.v
Registers.v
SimpleCpu.v
Strings.v
Console.v
PageUse.v
PageAllocator.v
Arena.v
VmxInstructions.v
VmxMsr.v
VmTracking.v
VmxPages.v
VmxEpt.v
VmxEptSpec.v
EptCorrect.v
VmManager.v
Uart.v
IoPorts.v
GuestPaging.v
EmulatedInstructions.v
VmExit.v
Descriptors.v
Vmcs.v
Setup.v
GuestMemory.v
LinuxLoader.v
Main.v
MainFrame.v
MainGuest.v
MainLaunch.v
MainCorrect.v
BootFirmware.v
BootPaging.v
BootMain.v
SimpleFirmware.v
BootTables.v
BootPhysical.v
BootMmap.v
BootLoad.v
BootCorrect.v
BootToGuest.v
