(* ===== verification/Prelude.v ===== *)
(** * Verification of rkhv, a small hypervisor for Intel processors

    ** The program

    rkhv is started by its boot loader (src/boot), an application of UEFI: it loads the
    sections of the hypervisor and a Linux image if there is one, builds page tables, leaves
    the boot services and jumps to [hvmain] with a chainload page that describes the memory of
    the machine. [hvmain] (src/hv/src/main.c) sets up the descriptor tables, XSAVE,
    the page allocator and VMX, creates one VM, gives it 64 MiB of memory, loads a guest,
    creates its VMCS, attaches two emulated serial ports and starts it. From then on the
    hypervisor only runs in the VM-exit handler. All the code runs on one processor, never
    allocates outside of [mm_get_free_page] once the boot loader is left, and stops with [PANIC] when something is wrong.

    ** Conventions

    A C function becomes a function of the same name in the state monad [M] of this file: it
    returns, panics with a message, dereferences an unmapped address ([Fault]) or does what C
    leaves undefined ([Undefined]). [wp m E Q s] says that [m] returns with [Q] or panics
    with a message in [E], and nothing else: a theorem that gives [Ok] or [wp] is also a proof
    of termination and of the absence of faults. Integers are [Z], with [u8] ... [u64] where the
    C types wrap; flags are tested with the bit operations of the code. The static variables
    of the C files are the fields of the record [machine] (Machine.v). Arenas, VMs, devices and
    UARTs, which the code links by pointers, are typed heaps indexed by their addresses (so
    that aliasing and dangling pointers are visible); everything else is the byte memory
    [m_mem], reached through the identity window at [RKHV_PHYSICAL_MEMORY_BASE].

    The processor is a parameter: the class [Hardware] (Machine.v) and its companions
    [DescriptorInstructions] and [XcrInstructions] are the instructions that the C code reaches
    through assembly; [VmxLaws], [VmcsLaws], [SerialLaws], [DescriptorLaws] and [SetupLaws] are
    what the code relies on of them. SimpleCpu.v is a processor that satisfies the laws, on
    which the witnesses run. The addresses that the linker chooses are [KernelImage].
    [MainLaws] (MainFrame.v) says what each instruction leaves alone, for the whole of [hvmain].

    The boot loader runs in the same monad on its own state [boot_machine] (BootFirmware.v).
    The services of UEFI are the class [Firmware], and [FirmwareLaws] is what the loader relies
    on of them: fresh pages below 512 GiB, reads that stay in their buffer, a finite number of
    refusals of [ExitBootServices]. SimpleFirmware.v satisfies the laws. [VERIFY_EFI] and
    [RETURN_EFI] are an error monad over the status. The chainload page, the pool of tables and
    the memory map are structures, not bytes; which bytes a file holds is not tracked.

    ** Files

    - Prelude.v: the monad, [wp] and its tactic [wp_step], record update, fixed-width
      integers, masks, and linked lists in a typed heap.
    - Memory.v (common/include/rkhv/mem.h, paging.h, memory_map.h): bytes, [memcpy], [memset],
      page-table constants; Machine.v (chainload.h, arena.h, vm_manager.h, ...): the state;
      Registers.v (cr_msr.h, rflags.h, segments.h, vmx_vmcs.h): registers and fields.
    - Strings.v, Console.v (string.c, stdio.c, serial.c): numbers, the format language, the
      serial console. The class [Console] is the interface that the other parts print through.
    - PageUse.v, PageAllocator.v (hv/src/memory_management): which pages are in use, the
      allocation of pages and [mm_setup]; Arena.v: arenas.
    - VmxInstructions.v, VmxMsr.v, VmxPages.v: VMX instructions and their errors, the MSRs of host and guest,
      pages for VMX.
    - VmTracking.v, VmManager.v (hv/src/vmm/vm_manager.c): the pages that belong to a VM,
      creation of VMs, guest memory, devices.
    - VmxEpt.v, VmxEptSpec.v, EptCorrect.v (vmx_ept.c): extended page tables, the abstract
      translation they implement, and the proofs.
    - Uart.v, IoPorts.v (devices/vmd_8250uart.c, vm_ioports.c): the emulated UART and the
      dispatch of port accesses.
    - GuestPaging.v, EmulatedInstructions.v, VmExit.v (vm_guest_paging.c,
      vm_emulated_instructions.c, vmx_vmexit.c): what happens on a VM exit.
    - Descriptors.v (segments.c, interrupts.c, panic.c), Vmcs.v (vmx_vmcs.c), Setup.v
      (vmx_init.c, xsave.c): setup of the processor and of the VMCS.

    - GuestMemory.v, LinuxLoader.v (guest_linux_loader.c): pages of a guest that the
      hypervisor writes, and the loader of a bzImage.
    - Main.v (main.c): [hvmain], cut into the stages [hvmain_setup], [hvmain_guest] and
      [hvmain_launch] at statements of the function; MainFrame.v (the setup, and what the
      stages leave alone), MainGuest.v (the VM, its memory and the two guests), MainLaunch.v
      (VMCS, devices, launch) and MainCorrect.v are its proofs.
    - BootFirmware.v, BootPaging.v, BootMain.v (boot/src): the services of the firmware with
      fs.c, stdio.c and string.c, then paging.c, then main.c with chainload.asm; BootTables.v,
      BootPhysical.v, BootMmap.v, BootLoad.v and BootCorrect.v are their proofs: the tables
      page by page, the 2 MiB window, the memory map, the files, the whole of [efi_main].
    - BootToGuest.v: the boot loader and the hypervisor together.

    ** What is shown

    - From power-on to the guest. [efi_main_correct]: the boot loader always ends, with an
      error status or with the registers, sections, tables and memory map that [hvmain] relies
      on. [hvmain_correct]: [hvmain] fails in the ways of its setup or ends with its guest
      running. [boot_to_guest] composes the two: the chainload page that the first leaves
      satisfies the assumptions of the second, and the second never overwrites what the first
      left, the tables of the host and the sections among it.
    - The tables of the boot loader. [paging_map_page] adds one leaf to the four-level
      translation [walk_leaf], [paging_map_physical] the window of physical memory; the memory
      map becomes its maximal runs ([merge_runs]).

    - Ownership of memory. [mm_wf], [arenas_wf], [tracked_wf] and [vmm_wf] are the invariants
      of the allocator, the arenas and the VM manager: no page has two owners. Every
      operation keeps them; [mm_get_free_page] returns a page that nobody uses whenever there
      is one; tracking, untracking, creation and allocation do exactly what they mean to do.
    - Translation. The EPT code refines the abstract translation [ept_translate]: mapping
      changes one page and no other translation, and never writes outside of the EPT pages of
      its VM. The tables built for the guest are the identity for the processor
      ([guest_walk]); pointers of the guest only resolve to memory of the guest.
    - Isolation. The MSR bitmaps intercept all but the listed MSRs, and the host has its own
      MSRs back after each exit; CR4.VMXE is hidden from the guest; XCR0 is legal.
    - The VM-exit handler decodes every qualification, skips the instruction and writes the
      state back.
    - Output. The formatted output, the serial port and the emulated UART print what they are
      given, in order, and always end. [mm_setup_correct], [vmx_perror_correct] and
      [arena_debug_print_tree_correct] give the lines of the code that mostly prints.
    - Setup. Each field of the VMCS has the value of the table, control bits are adjusted to
      the processor; unusable processors are refused; the descriptor tables are well formed.
    - Defects. [vmx_msr_bitmaps_overlap_vmcs] (the first VMCS region is also given out as the
      page of the MSR bitmaps), [mm_get_free_page_no_usable_region] (an unsigned index makes
      the search leave the array), [vm_manager_register_device_twice] (a cycle of devices) and
      [vm_emulated_instruction_cpuid_high_rax] (the 64 bits of RAX select a CPUID leaf).

    ** Fuel

    Loops over lists use the number of nodes of the heap, [mm_get_free_page] the number of
    usable pages and one more ([mm_get_free_page_fuel]): [mm_get_free_page_correct] and
    [list_search_linked] show that this is enough. The polling of the serial port takes its
    bound from [PollFuel], for which [SerialLaws] says that the port is ready. REP instructions
    take RCX as their fuel. The loop around [ExitBootServices] takes a fuel above
    [efi_attempts], the number of times that the firmware will refuse.

    ** Not modelled

    - Assembly (the stubs of interrupts, [vmx_vmlaunch] and the entry of the VM-exit handler):
      only what it does to the state of the model is, as in [segments_set_new_segs] and
      [chainload]. The bytes of guest_hello_world.asm are an argument of [hvmain].
    - What is printed before a [PANIC] stops the machine, except in Descriptors.v: [panic] itself
      and the call of [vmx_perror] in [VMX_ASSERT]. All the other log lines are in the model.
    - What the guest executes after the launch: VmExit.v starts at an arbitrary exit.
    - The contents of the files that the boot loader reads, and the services of UEFI. *)
From Stdlib Require Export ZArith Lia Bool.
From stdpp Require Export base tactics numbers gmap strings option.
From stdpp Require Export list.
#[global] Open Scope Z_scope.

(** * Outcomes of a computation of the hypervisor

    - [Ok a]: the code returned [a];
    - [Panic msg]: [PANIC(msg)] was reached ([panic] never returns);
    - [Fault va]: a pointer outside of the mapped identity window was dereferenced;
    - [Undefined]: the C code left the behaviour of the language (an array read
      out of bounds, a dangling pointer, a division by zero);
    - [OutOfFuel]: a loop did not end within the fuel of the model. *)
Inductive outcome (A : Type) : Type :=
  | Ok (a : A)
  | Panic (msg : string)
  | Fault (va : Z)
  | Undefined
  | OutOfFuel.
Arguments Ok {A} a.
Arguments Panic {A} msg.
Arguments Fault {A} va.
Arguments Undefined {A}.
Arguments OutOfFuel {A}.

(** Whether a computation returned; for evaluations on concrete states. *)
Definition is_ok {A} (o : outcome A) : bool :=
  match o with Ok _ => true | _ => false end.

Lemma is_ok_inv {A S} (o : outcome (A * S)) : is_ok o = true → ∃ a s, o = Ok (a, s).
Proof. destruct o as [[a s]| | | |]; try done. by exists a, s. Qed.

(** A stateful computation. *)
Definition M (St A : Type) : Type := St → outcome (A * St).

#[export] Instance M_ret {St} : MRet (M St) := λ A a s, Ok (a, s).
#[export] Instance M_bind {St} : MBind (M St) := λ A B k m s,
  match m s with
  | Ok (a, s') => k a s'
  | Panic msg => Panic msg
  | Fault va => Fault va
  | Undefined => Undefined
  | OutOfFuel => OutOfFuel
  end.

Section operations.
Context {St : Type}.
Definition mget : M St St := λ s, Ok (s, s).
Definition mgets {A} (f : St → A) : M St A := λ s, Ok (f s, s).
Definition mmodify (f : St → St) : M St () := λ s, Ok ((), f s).
Definition mpanic {A} (msg : string) : M St A := λ _, Panic msg.
Definition mfault {A} (va : Z) : M St A := λ _, Fault va.
Definition mundefined {A} : M St A := λ _, Undefined.
Definition mout_of_fuel {A} : M St A := λ _, OutOfFuel.
Definition mlift {A} (o : outcome A) : M St A := λ s,
  match o with
  | Ok a => Ok (a, s)
  | Panic msg => Panic msg
  | Fault va => Fault va
  | Undefined => Undefined
  | OutOfFuel => OutOfFuel
  end.

(** [for (i = start; i < start + n; i++) body(i)] *)
Fixpoint mfor_from (n : nat) (i : Z) (body : Z → M St ()) : M St () :=
  match n with
  | O => mret ()
  | S n' => body i;; mfor_from n' (i + 1) body
  end.
Definition mfor (n : Z) (body : Z → M St ()) : M St () := mfor_from (Z.to_nat n) 0 body.
End operations.

(** * Weakest preconditions

    [wp m E Q s]: from [s], the computation [m] either returns a result that
    satisfies [Q] or panics with a message in [E]; it never faults, has no
    undefined behaviour and does not run out of fuel. *)
Definition wp {St A} (m : M St A) (E : string → Prop) (Q : A → St → Prop) (s : St) : Prop :=
  match m s with
  | Ok (a, s') => Q a s'
  | Panic msg => E msg
  | _ => False
  end.

(** No panic is allowed. *)
Definition no_panic (_ : string) : Prop := False.

Section wp.
Context {St : Type}.
Implicit Types (E : string → Prop) (s : St).

Lemma wp_ret {A} (a : A) E Q s : Q a s → wp (mret a) E Q s.
Proof. done. Qed.

Lemma wp_bind {A B} (m : M St A) (k : A → M St B) E Q s :
  wp m E (λ a s', wp (k a) E Q s') s → wp (m ≫= k) E Q s.
Proof. unfold wp, mbind, M_bind. destruct (m s) as [[a s']| | | |]; done. Qed.

Lemma wp_mono {A} (m : M St A) E E' (Q Q' : A → St → Prop) s :
  wp m E Q s → (∀ msg, E msg → E' msg) → (∀ a s', Q a s' → Q' a s') → wp m E' Q' s.
Proof. unfold wp. destruct (m s) as [[a s']| | | |]; naive_solver. Qed.

Lemma wp_post {A} (m : M St A) E (Q Q' : A → St → Prop) s :
  wp m E Q s → (∀ a s', Q a s' → Q' a s') → wp m E Q' s.
Proof. intros H1 H2. eapply wp_mono; eauto. Qed.

Lemma wp_get E Q s : Q s s → wp mget E Q s.
Proof. done. Qed.
Lemma wp_gets {A} (f : St → A) E Q s : Q (f s) s → wp (mgets f) E Q s.
Proof. done. Qed.
Lemma wp_modify f E Q s : Q () (f s) → wp (mmodify f) E Q s.
Proof. done. Qed.
Lemma wp_panic {A} msg E (Q : A → St → Prop) s : E msg → wp (mpanic msg) E Q s.
Proof. done. Qed.

Lemma wp_eq_ok {A} (m : M St A) E (Q : A → St → Prop) s a s' :
  m s = Ok (a, s') → Q a s' → wp m E Q s.
Proof. unfold wp. by intros ->. Qed.

Lemma wp_ok_inv {A} (m : M St A) E (Q : A → St → Prop) s a s' :
  wp m E Q s → m s = Ok (a, s') → Q a s'.
Proof. unfold wp. intros H Heq. by rewrite Heq in H. Qed.

Lemma wp_no_panic_ok {A} (m : M St A) (Q : A → St → Prop) s :
  wp m no_panic Q s → ∃ a s', m s = Ok (a, s') ∧ Q a s'.
Proof. unfold wp, no_panic. destruct (m s) as [[a s']| | | |]; try done. eauto. Qed.

Lemma wp_no_panic_unit (m : M St ()) (Q : St → Prop) s :
  wp m no_panic (λ _ s', Q s') s → ∃ s', m s = Ok ((), s') ∧ Q s'.
Proof. intros ([] & s' & ? & ?)%wp_no_panic_ok. eauto. Qed.

Lemma bind_ok {A B} (m : M St A) (k : A → M St B) s a s' :
  m s = Ok (a, s') → (m ≫= k) s = k a s'.
Proof. unfold mbind, M_bind. by intros ->. Qed.

(** Sequencing is associative, as an equation between weakest preconditions. *)
Lemma wp_bind_assoc {A B C} (m : M St A) (k : A → M St B) (k' : B → M St C) E Q s :
  wp ((m ≫= k) ≫= k') E Q s ↔ wp (m ≫= λ a, k a ≫= k') E Q s.
Proof. unfold wp, mbind, M_bind. by destruct (m s) as [[a s']| | | |]. Qed.

Lemma bind_ok_inv {A B} (m : M St A) (k : A → M St B) s b s'' :
  (m ≫= k) s = Ok (b, s'') → ∃ a s', m s = Ok (a, s') ∧ k a s' = Ok (b, s'').
Proof. unfold mbind, M_bind. destruct (m s) as [[a s']| | | |]; naive_solver. Qed.

Lemma wp_for_from (Inv : Z → St → Prop) (body : Z → M St ()) E (n : nat) i0 s :
  Inv i0 s →
  (∀ i s, i0 ≤ i < i0 + Z.of_nat n → Inv i s → wp (body i) E (λ _ s', Inv (i + 1) s') s) →
  wp (mfor_from n i0 body) E (λ _ s', Inv (i0 + Z.of_nat n) s') s.
Proof.
  revert i0 s. induction n as [|n IH]; intros i0 s H0 Hstep; simpl.
  - apply wp_ret. by replace (i0 + Z.of_nat 0) with i0 by lia.
  - apply wp_bind. eapply wp_post; [apply Hstep; [lia|done]|].
    intros [] s' H'. simpl. eapply wp_post.
    + apply IH; [done|]. intros. apply Hstep; [lia|done].
    + intros [] s''. simpl. by replace (i0 + 1 + Z.of_nat n) with (i0 + Z.of_nat (S n)) by lia.
Qed.

Lemma wp_for (Inv : Z → St → Prop) (body : Z → M St ()) E (n : Z) s :
  0 ≤ n → Inv 0 s →
  (∀ i s, 0 ≤ i < n → Inv i s → wp (body i) E (λ _ s', Inv (i + 1) s') s) →
  wp (mfor n body) E (λ _ s', Inv n s') s.
Proof.
  intros Hn H0 Hstep. unfold mfor. eapply wp_post.
  - apply (wp_for_from Inv); [done|]. intros. apply Hstep; [lia|done].
  - intros [] s'. simpl. by rewrite Z2Nat.id by lia.
Qed.
End wp.

(** Pointwise implication of postconditions is respected by [wp]. *)
#[export] Instance wp_proper {St A} (m : M St A) :
  Proper (pointwise_relation _ impl ==>
          pointwise_relation _ (pointwise_relation _ impl) ==>
          pointwise_relation _ impl) (wp m).
Proof. intros E E' HE Q Q' HQ s H. eapply wp_mono; eauto; apply HQ. Qed.

(** One step of symbolic execution of a [wp] goal. *)
Ltac wp_step :=
  lazymatch goal with
  | |- wp (mbind _ _) _ _ _ => apply wp_bind
  | |- wp (mret _) _ _ _ => apply wp_ret
  | |- wp mget _ _ _ => apply wp_get
  | |- wp (mgets _) _ _ _ => apply wp_gets
  | |- wp (mmodify _) _ _ _ => apply wp_modify
  | |- wp (mpanic _) _ _ _ => apply wp_panic
  | |- wp (if ?b then _ else _) _ _ _ => let E := fresh "E" in destruct b eqn:E
  end.

(** * Record update

    [r <| f := v |>] is the record [r] with the field [f] replaced, as an
    assignment to a member of a C structure does. *)
Class Setter {R T : Type} (proj : R → T) : Type := upd : (T → T) → R → R.
#[export] Hint Mode Setter ! ! ! : typeclass_instances.
Arguments upd {R T} proj {_} _ _ / : assert.
Declare Scope record_scope.
Notation "r '<|' p ':=' v '|>'" := (upd p (λ _, v) r)
  (at level 1, left associativity, p at level 9, v at level 200) : record_scope.
#[global] Open Scope record_scope.

(** * Fixed-width integers *)

(** Unsigned wrap-around at [w] bits. *)
Definition wrap (w x : Z) : Z := x mod 2 ^ w.
Abbreviation u64 := (wrap 64).
Abbreviation u56 := (wrap 56).
Abbreviation u32 := (wrap 32).
Abbreviation u16 := (wrap 16).
Abbreviation u8 := (wrap 8).

(** C's truth value of an integer expression. *)
Definition truthy (x : Z) : bool := negb (x =? 0).

(** The byte values of a C string literal. *)
Definition bytes_of_string (s : string) : list Z :=
  map (λ a, Z.of_N (Ascii.N_of_ascii a)) (String.list_ascii_of_string s).

Lemma wrap_small w x : 0 ≤ x < 2 ^ w → wrap w x = x.
Proof. intros H. unfold wrap. by apply Z.mod_small. Qed.

Lemma wrap_bound w x : 0 ≤ w → 0 ≤ wrap w x < 2 ^ w.
Proof. intros H. unfold wrap. apply Z.mod_pos_bound. lia. Qed.

Lemma wrap_add_l w x y : wrap w (wrap w x + y) = wrap w (x + y).
Proof. unfold wrap. apply Zplus_mod_idemp_l. Qed.

Lemma wrap_sub_l w x y : wrap w (wrap w x - y) = wrap w (x - y).
Proof. unfold wrap. apply Zminus_mod_idemp_l. Qed.

(** * Masks, shifts and flags as arithmetic *)

(** A contiguous mask of [n] bits from bit [k] selects the [n]-bit digit at
    weight [2^k]. *)
Lemma land_mask_range k n a :
  0 ≤ k → 0 ≤ n → Z.land a (Z.shiftl (Z.ones n) k) = (a / 2 ^ k) mod 2 ^ n * 2 ^ k.
Proof.
  intros Hk Hn. rewrite <-Z.land_ones, <-Z.shiftr_div_pow2, <-Z.shiftl_mul_pow2 by lia.
  apply Z.bits_inj'. intros i Hi.
  rewrite Z.land_spec, !Z.shiftl_spec by lia.
  destruct (Z.ltb_spec i k).
  - rewrite !(Z.testbit_neg_r _ (i - k)) by lia. by rewrite andb_false_r.
  - rewrite Z.land_spec, Z.shiftr_spec by lia. by replace (i - k + k) with i by lia.
Qed.

(** The same mask followed by the shift down. *)
Lemma shiftr_land_mask_range k n a :
  0 ≤ k → 0 ≤ n →
  Z.shiftr (Z.land a (Z.shiftl (Z.ones n) k)) k = (a / 2 ^ k) mod 2 ^ n.
Proof.
  intros Hk Hn. rewrite land_mask_range, Z.shiftr_div_pow2 by lia.
  apply Z.div_mul. lia.
Qed.

Lemma land_1 a : Z.land a 1 = a mod 2.
Proof. by apply (Z.land_ones a 1). Qed.

(** Testing a flag. *)
Lemma truthy_land_bit e k : 0 ≤ k → truthy (Z.land e (2 ^ k)) = Z.testbit e k.
Proof.
  intros Hk. unfold truthy. destruct (Z.testbit e k) eqn:Hb.
  - apply negb_true_iff, Z.eqb_neq. intros H0. apply (f_equal (λ x, Z.testbit x k)) in H0.
    rewrite Z.land_spec, Z.pow2_bits_true, Hb, Z.bits_0 in H0 by done. done.
  - apply negb_false_iff, Z.eqb_eq, Z.bits_inj'. intros i Hi.
    rewrite Z.land_spec, Z.pow2_bits_eqb, Z.bits_0 by done.
    destruct (Z.eqb_spec k i) as [<-|]; [by rewrite Hb|apply andb_false_r].
Qed.

(** Clearing the low [k] bits with a complemented mask. *)
Lemma land_lnot_ones k a : 0 ≤ k → Z.land a (Z.lnot (Z.ones k)) = a / 2 ^ k * 2 ^ k.
Proof.
  intros Hk. rewrite <-Z.shiftr_div_pow2, <-Z.shiftl_mul_pow2 by lia.
  apply Z.bits_inj'. intros i Hi.
  rewrite Z.land_spec, Z.lnot_spec, Z.shiftl_spec by lia.
  destruct (Z.ltb_spec i k).
  - rewrite Z.ones_spec_low, (Z.testbit_neg_r _ (i - k)) by lia. by rewrite andb_false_r.
  - rewrite Z.ones_spec_high, Z.shiftr_spec by lia. replace (i - k + k) with i by lia.
    by rewrite andb_true_r.
Qed.

(** [lor] of numbers with disjoint supports is addition. *)
Lemma lor_disjoint k a b : 0 ≤ k → a mod 2 ^ k = 0 → 0 ≤ b < 2 ^ k → Z.lor a b = a + b.
Proof.
  intros Hk Ha Hb. rewrite <-Z.lxor_lor, <-Z.add_nocarry_lxor; [done| |];
    apply Z.bits_inj'; intros i Hi; rewrite Z.land_spec, Z.testbit_0_l;
    (destruct (Z.ltb_spec i k);
     [rewrite <-(Z.mod_pow2_bits_low a k i), Ha, Z.testbit_0_l by lia; done
     |rewrite <-(Z.mod_small b (2 ^ k)), (Z.mod_pow2_bits_high b k i) by lia;
      apply andb_false_r]).
Qed.

Lemma lor_disjoint_l k a b : 0 ≤ k → a mod 2 ^ k = 0 → 0 ≤ b < 2 ^ k → Z.lor b a = a + b.
Proof. intros. rewrite Z.lor_comm. by apply lor_disjoint with k. Qed.

(** [lia] with [/] and [mod] replaced by their defining equations. *)
Ltac zlia := Z.div_mod_to_equations; lia.

(** * Linked lists in a typed heap

    C lists linked by pointers are kept as a finite map from addresses to nodes;
    address 0 is [NULL]. [linked heap next p l]: the list that starts at [p] has
    exactly the nodes at the addresses [l], in this order. *)
Section linked.
Context {N : Type} (next : N → Z).
Implicit Types (heap : gmap Z N).

Inductive linked heap : Z → list Z → Prop :=
  | linked_null : linked heap 0 []
  | linked_node p n l :
      p ≠ 0 → heap !! p = Some n → linked heap (next n) l → linked heap p (p :: l).

(** [for (it = p; it != NULL; it = it->next) if (test(it)) return true; return false;] *)
Fixpoint list_search (fuel : nat) heap (test : Z → N → outcome bool) (p : Z) : outcome bool :=
  if p =? 0 then Ok false
  else match fuel with
       | O => OutOfFuel
       | S fuel' =>
         match heap !! p with
         | None => Undefined
         | Some n =>
           match test p n with
           | Ok true => Ok true
           | Ok false => list_search fuel' heap test (next n)
           | err => err
           end
         end
       end.

Lemma linked_det heap p l1 l2 : linked heap p l1 → linked heap p l2 → l1 = l2.
Proof.
  intros H. revert l2. induction H as [|p n l Hp Hn H IH]; intros l2 H2.
  - by inversion H2.
  - inversion H2; simplify_eq/=. f_equal. naive_solver.
Qed.

Lemma linked_not_null heap p l : linked heap p l → 0 ∉ l.
Proof. induction 1; set_solver. Qed.

Lemma linked_lookup heap p l q : linked heap p l → q ∈ l → is_Some (heap !! q).
Proof. induction 1; set_solver. Qed.

Lemma linked_suffix heap p l l1 q l2 :
  linked heap p l → l = l1 ++ q :: l2 → linked heap q (q :: l2).
Proof.
  intros H. revert l1. induction H as [|p n l Hp Hn H IH]; intros l1 Heq.
  - by destruct l1.
  - destruct l1 as [|x l1]; simplify_eq/=; [by econstructor|eauto].
Qed.

(** A list that ends with [NULL] visits no node twice. *)
Lemma linked_nodup heap p l : linked heap p l → NoDup l.
Proof.
  intros H. induction H as [|p n l Hp Hn H IH]; constructor; [|done].
  intros Hin. apply list_elem_of_split in Hin as (l1 & l2 & ->).
  pose proof (linked_suffix _ _ _ _ _ _ H eq_refl) as H2.
  assert (linked heap p (p :: l1 ++ p :: l2)) as H3 by by econstructor.
  pose proof (linked_det _ _ _ _ H2 H3) as Heq. simplify_eq/=.
  apply (f_equal length) in Heq. rewrite length_app in Heq. simpl in Heq. lia.
Qed.

Lemma linked_length heap p l : linked heap p l → (length l ≤ size heap)%nat.
Proof.
  intros H. rewrite <-size_dom.
  rewrite <-(size_list_to_set (C:=gset Z) l) by by eapply linked_nodup.
  apply subseteq_size. intros q Hq%elem_of_list_to_set.
  apply elem_of_dom. by eapply linked_lookup.
Qed.

(** With a test that always answers, the search is [existsb] over the nodes. *)
Lemma list_search_linked heap p l test (btest : Z → bool) fuel :
  linked heap p l → (length l < fuel)%nat →
  (∀ q n, q ∈ l → heap !! q = Some n → test q n = Ok (btest q)) →
  list_search fuel heap test p = Ok (existsb btest l).
Proof.
  intros H. revert fuel. induction H as [|p n l Hp Hn H IH]; intros fuel Hf Ht.
  - by destruct fuel.
  - destruct fuel as [|fuel]; simpl in *; [lia|].
    destruct (Z.eqb_spec p 0); [done|]. rewrite Hn, (Ht p n) by set_solver.
    destruct (btest p); [done|]. apply IH; [lia|set_solver].
Qed.

(** A heap update outside of the list does not change it. *)
Lemma linked_insert_ne heap p l q n :
  linked heap p l → q ∉ l → linked (<[q:=n]> heap) p l.
Proof.
  induction 1 as [|p m l Hp Hn H IH]; intros Hq; [constructor|].
  econstructor; [done| |apply IH; set_solver].
  by rewrite lookup_insert_ne by set_solver.
Qed.

(** A heap update that keeps the link of a node does not change the list. *)
Lemma linked_insert_same heap p l q n n' :
  heap !! q = Some n → next n' = next n → linked heap p l → linked (<[q:=n']> heap) p l.
Proof.
  intros Hq Hn. induction 1 as [|p m l Hp Hm H IH]; [constructor|].
  destruct (decide (q = p)) as [->|Hne].
  - econstructor; [done|apply lookup_insert_eq|]. by replace (next n') with (next m) by congruence.
  - econstructor; [done|by rewrite lookup_insert_ne by done|done].
Qed.
End linked.
