(* ===== verification/Memory.v ===== *)
(** Physical memory and addresses.

    - the constants and macros of common/include/rkhv/paging.h and
      common/include/rkhv/memory_map.h;
    - physical memory as a finite map from byte addresses to bytes, with
      little-endian loads and stores of 1, 2, 4 and 8 bytes;
    - [memcpy] and [memset] of common/include/rkhv/mem.h, as their loops;
    - the lemmas that turn masks and shifts of addresses into [/] and [mod]. *)
From S2P Require Import Prelude.

(** * common/include/rkhv/paging.h *)

Definition PAGE_SIZE : Z := 0x1000.
Definition PAGE_MASK : Z := Z.lnot 0xfff.
Definition PAGE_TABLE_ENTRIES : Z := PAGE_SIZE / 8.
Definition LINEAR_ADDRESS_PML4_MASK : Z := 0x0000ff8000000000.
Definition LINEAR_ADDRESS_DP_MASK : Z := 0x0000007fc0000000.
Definition LINEAR_ADDRESS_D_MASK : Z := 0x000000003fe00000.
Definition LINEAR_ADDRESS_TABLE_MASK : Z := 0x00000000001ff000.
Definition LINEAR_ADDRESS_OFFSET_MASK : Z := 0x0000000000000fff.
Definition LINEAR_ADDRESS_PML4_SHIFT : Z := 39.
Definition LINEAR_ADDRESS_DP_SHIFT : Z := 30.
Definition LINEAR_ADDRESS_D_SHIFT : Z := 21.
Definition LINEAR_ADDRESS_TABLE_SHIFT : Z := 12.
Definition LINEAR_ADDRESS_OFFSET_SHIFT : Z := 0.
Definition PTE_PRESENT : Z := 0x0000000000000001.
Definition PTE_READ_WRITE : Z := 0x0000000000000002.
Definition PTE_USER_SUPERVISOR : Z := 0x0000000000000004.
Definition PTE_PAGE_LEVEL_WRITE_THROUGH : Z := 0x0000000000000008.
Definition PTE_PAGE_LEVEL_CACHE_DISABLE : Z := 0x0000000000000010.
Definition PTE_ACCESSED : Z := 0x0000000000000020.
Definition PTE_DIRTY : Z := 0x0000000000000040.
Definition PTE_PAGE_ATTRIBUTE_TABLE : Z := 0x0000000000000080.
Definition PTE_GLOBAL : Z := 0x0000000000000100.
Definition PTE_PHYSICAL_ADDRESS_PAGE : Z := 0x000ffffffffff000.
Definition PTE_EXECUTE_DISABLE : Z := 0x8000000000000000.
Definition PDE_PRESENT : Z := PTE_PRESENT.
Definition PDE_READ_WRITE : Z := PTE_READ_WRITE.
Definition PDE_USER_SUPERVISOR : Z := PTE_USER_SUPERVISOR.
Definition PDE_PAGE_LEVEL_WRITE_THROUGH : Z := PTE_PAGE_LEVEL_WRITE_THROUGH.
Definition PDE_PAGE_LEVEL_CACHE_DISABLE : Z := PTE_PAGE_LEVEL_CACHE_DISABLE.
Definition PDE_ACCESSED : Z := PTE_ACCESSED.
Definition PDE_PAGE_SIZE : Z := 0x0000000000000080.
Definition PDE_EXECUTE_DISABLE : Z := PTE_EXECUTE_DISABLE.
Definition PDE_DIRTY : Z := PTE_DIRTY.
Definition PDE_GLOBAL : Z := PTE_GLOBAL.
Definition PDE_PAGE_ATTRIBUTE_TABLE : Z := 0x0000000000001000.
Definition PDE_PHYSICAL_ADDRESS_PAGE : Z := 0x000fffffffe00000.
Definition PDE_PHYSICAL_ADDRESS_PT : Z := PTE_PHYSICAL_ADDRESS_PAGE.
Definition PDPTE_PRESENT : Z := PTE_PRESENT.
Definition PDPTE_READ_WRITE : Z := PTE_READ_WRITE.
Definition PDPTE_USER_SUPERVISOR : Z := PTE_USER_SUPERVISOR.
Definition PDPTE_PAGE_LEVEL_WRITE_THROUGH : Z := PTE_PAGE_LEVEL_WRITE_THROUGH.
Definition PDPTE_PAGE_LEVEL_CACHE_DISABLE : Z := PTE_PAGE_LEVEL_CACHE_DISABLE.
Definition PDPTE_ACCESSED : Z := PTE_ACCESSED.
Definition PDPTE_PAGE_SIZE : Z := PDE_PAGE_SIZE.
Definition PDPTE_EXECUTE_DISABLE : Z := PTE_EXECUTE_DISABLE.
Definition PDPTE_DIRTY : Z := PTE_DIRTY.
Definition PDPTE_GLOBAL : Z := PTE_GLOBAL.
Definition PDPTE_PAGE_ATTRIBUTE_TABLE : Z := PDE_PAGE_ATTRIBUTE_TABLE.
Definition PDPTE_PHYSICAL_ADDRESS_PAGE : Z := 0x000fffffc0000000.
Definition PDPTE_PHYSICAL_ADDRESS_PD : Z := PTE_PHYSICAL_ADDRESS_PAGE.
Definition PML4E_PRESENT : Z := PTE_PRESENT.
Definition PML4E_READ_WRITE : Z := PTE_READ_WRITE.
Definition PML4E_USER_SUPERVISOR : Z := PTE_USER_SUPERVISOR.
Definition PML4E_PAGE_LEVEL_WRITE_THROUGH : Z := PTE_PAGE_LEVEL_WRITE_THROUGH.
Definition PML4E_PAGE_LEVEL_CACHE_DISABLE : Z := PTE_PAGE_LEVEL_CACHE_DISABLE.
Definition PML4E_ACCESSED : Z := PTE_ACCESSED.
Definition PML4E_PHYSICAL_ADDRESS_PDPT : Z := PTE_PHYSICAL_ADDRESS_PAGE.
Definition PML4E_EXECUTE_DISABLE : Z := PTE_EXECUTE_DISABLE.

Definition LINEAR_ADDRESS_GET_PML4 (x : Z) : Z :=
  Z.shiftr (Z.land x LINEAR_ADDRESS_PML4_MASK) LINEAR_ADDRESS_PML4_SHIFT.
Definition LINEAR_ADDRESS_GET_DIRECTORY_PTR (x : Z) : Z :=
  Z.shiftr (Z.land x LINEAR_ADDRESS_DP_MASK) LINEAR_ADDRESS_DP_SHIFT.
Definition LINEAR_ADDRESS_GET_DIRECTORY (x : Z) : Z :=
  Z.shiftr (Z.land x LINEAR_ADDRESS_D_MASK) LINEAR_ADDRESS_D_SHIFT.
Definition LINEAR_ADDRESS_GET_TABLE (x : Z) : Z :=
  Z.shiftr (Z.land x LINEAR_ADDRESS_TABLE_MASK) LINEAR_ADDRESS_TABLE_SHIFT.
Definition LINEAR_ADDRESS_GET_OFFSET (x : Z) : Z :=
  Z.shiftr (Z.land x LINEAR_ADDRESS_OFFSET_MASK) LINEAR_ADDRESS_OFFSET_SHIFT.

(** * common/include/rkhv/memory_map.h *)

Definition RKHV_PHYSICAL_MEMORY_BASE : Z := 0x0000010000000000.
Definition RKHV_RX_BASE : Z := 0xffffff0000000000.
Definition RKHV_RO_BASE : Z := 0xffffff0000100000.
Definition RKHV_RW_BASE : Z := 0xffffff0000200000.
Definition RKHV_STACK_BASE : Z := 0xfffffffffff00000.
Definition RKHV_STACK_TOP : Z := 0xfffffffffffffff8.

Definition P2V_IDENTITY_MAP (pa : Z) : Z := u64 (pa + RKHV_PHYSICAL_MEMORY_BASE).
Definition V2P_IDENTITY_MAP (va : Z) : Z := u64 (va - RKHV_PHYSICAL_MEMORY_BASE).

(** * Bytes of physical memory *)

Abbreviation mem := (gmap Z Z).

(** Memory that the model says nothing about reads as zero. *)
Definition load_byte (m : mem) (a : Z) : Z := default 0 (m !! a) mod 256.

Fixpoint load_le (n : nat) (m : mem) (a : Z) : Z :=
  match n with
  | O => 0
  | S n' => load_byte m a + 256 * load_le n' m (a + 1)
  end.

Fixpoint store_le (n : nat) (m : mem) (a v : Z) : mem :=
  match n with
  | O => m
  | S n' => store_le n' (<[a := v mod 256]> m) (a + 1) (v / 256)
  end.

(** * common/include/rkhv/mem.h *)

Fixpoint memcpy_loop (n : nat) (i : Z) (m : mem) (dest src : Z) : mem :=
  match n with
  | O => m
  | S n' => memcpy_loop n' (i + 1) (<[dest + i := load_byte m (src + i)]> m) dest src
  end.
Definition memcpy (m : mem) (dest src n : Z) : mem := memcpy_loop (Z.to_nat n) 0 m dest src.

Fixpoint memset_loop (n : nat) (i : Z) (m : mem) (s c : Z) : mem :=
  match n with
  | O => m
  | S n' => memset_loop n' (i + 1) (<[s + i := c mod 256]> m) s c
  end.
Definition memset (m : mem) (s c n : Z) : mem := memset_loop (Z.to_nat n) 0 m s c.

(** * Loads and stores *)

Lemma load_byte_bound m a : 0 ≤ load_byte m a < 256.
Proof. unfold load_byte. apply Z.mod_pos_bound. lia. Qed.

Lemma load_byte_insert m a b v :
  load_byte (<[a:=v]> m) b = if decide (a = b) then v mod 256 else load_byte m b.
Proof. unfold load_byte. rewrite lookup_insert. by case_decide. Qed.

Lemma load_le_bound n m a : 0 ≤ load_le n m a < 256 ^ Z.of_nat n.
Proof.
  revert a. induction n as [|n IH]; intros a; cbn [load_le]; [done|].
  pose proof (load_byte_bound m a). specialize (IH (a + 1)).
  rewrite Nat2Z.inj_succ, Z.pow_succ_r by lia. lia.
Qed.

(** Two memories with the same bytes in [a, a+n) give the same value. *)
Lemma load_le_ext n m m' a :
  (∀ b, a ≤ b < a + Z.of_nat n → load_byte m b = load_byte m' b) →
  load_le n m a = load_le n m' a.
Proof.
  revert a. induction n as [|n IH]; intros a H; cbn [load_le]; [done|].
  rewrite (H a) by lia. rewrite (IH (a + 1)); [done|]. intros. apply H. lia.
Qed.

Lemma load_byte_store_other n m a v b :
  b < a ∨ a + Z.of_nat n ≤ b → load_byte (store_le n m a v) b = load_byte m b.
Proof.
  revert m a v. induction n as [|n IH]; intros m a v Hb; cbn [store_le]; [done|].
  rewrite IH by lia. rewrite load_byte_insert. case_decide; [lia|done].
Qed.

Lemma load_store_other n k m a v b :
  b + Z.of_nat n ≤ a ∨ a + Z.of_nat k ≤ b →
  load_le n (store_le k m a v) b = load_le n m b.
Proof. intros H. apply load_le_ext. intros c Hc. apply load_byte_store_other. lia. Qed.

Lemma load_store_same n m a v :
  load_le n (store_le n m a v) a = v mod 256 ^ Z.of_nat n.
Proof.
  revert m a v. induction n as [|n IH]; intros m a v; cbn [store_le load_le].
  - by rewrite Z.mod_1_r.
  - rewrite IH, load_byte_store_other by lia.
    rewrite load_byte_insert, decide_True, Z.mod_mod by done.
    rewrite Nat2Z.inj_succ, Z.pow_succ_r by lia.
    rewrite Z.rem_mul_r by lia. lia.
Qed.

Lemma load_store_same_small n m a v :
  0 ≤ v < 256 ^ Z.of_nat n → load_le n (store_le n m a v) a = v.
Proof. intros H. by rewrite load_store_same, Z.mod_small. Qed.

Lemma load_byte_memset_loop n i m s c a :
  load_byte (memset_loop n i m s c) a =
  if decide (s + i ≤ a < s + i + Z.of_nat n) then c mod 256 else load_byte m a.
Proof.
  revert i m. induction n as [|n IH]; intros i m; cbn [memset_loop].
  - rewrite decide_False by lia. done.
  - rewrite IH, load_byte_insert. repeat case_decide; try lia.
    rewrite Z.mod_mod; lia.
Qed.

Lemma load_byte_memset m s c n a :
  load_byte (memset m s c n) a =
  if decide (s ≤ a < s + n) then c mod 256 else load_byte m a.
Proof.
  unfold memset. rewrite load_byte_memset_loop. repeat case_decide; try done; lia.
Qed.

Lemma load_memset_other k m s c n a :
  a + Z.of_nat k ≤ s ∨ s + n ≤ a → load_le k (memset m s c n) a = load_le k m a.
Proof.
  intros H. apply load_le_ext. intros b Hb. rewrite load_byte_memset.
  case_decide; [lia|done].
Qed.

Lemma load_memset_zero k m s n a :
  s ≤ a → a + Z.of_nat k ≤ s + n → load_le k (memset m s 0 n) a = 0.
Proof.
  revert a. induction k as [|k IH]; intros a H1 H2; cbn [load_le]; [done|].
  rewrite IH, load_byte_memset by lia. rewrite decide_True by lia. done.
Qed.

(** [memcpy] between ranges that do not overlap copies byte by byte. *)
Lemma load_byte_memcpy_loop n i m dest src a :
  (dest + i + Z.of_nat n ≤ src ∨ src + i + Z.of_nat n ≤ dest ∨ n = O) →
  0 ≤ i →
  (dest + i + Z.of_nat n ≤ src ∨ src + i + Z.of_nat n ≤ dest + i ∨ n = O) →
  load_byte (memcpy_loop n i m dest src) a =
  if decide (dest + i ≤ a < dest + i + Z.of_nat n)
  then load_byte m (src + (a - dest)) else load_byte m a.
Proof.
  revert i m. induction n as [|n IH]; intros i m H1 Hi H2; cbn [memcpy_loop].
  - by rewrite decide_False by lia.
  - rewrite IH by lia. rewrite !load_byte_insert.
    repeat case_decide; try lia; try done.
    + rewrite Z.mod_small by apply load_byte_bound. f_equal. lia.
Qed.

Lemma load_byte_memcpy m dest src n a :
  0 ≤ n → dest + n ≤ src ∨ src + n ≤ dest →
  load_byte (memcpy m dest src n) a =
  if decide (dest ≤ a < dest + n) then load_byte m (src + (a - dest)) else load_byte m a.
Proof.
  intros Hn H. unfold memcpy. rewrite load_byte_memcpy_loop by lia.
  repeat case_decide; try done; lia.
Qed.

(** * Addresses *)

Lemma LINEAR_ADDRESS_GET_PML4_spec x : LINEAR_ADDRESS_GET_PML4 x = (x / 2 ^ 39) mod 512.
Proof. apply (shiftr_land_mask_range 39 9 x); lia. Qed.
Lemma LINEAR_ADDRESS_GET_DIRECTORY_PTR_spec x :
  LINEAR_ADDRESS_GET_DIRECTORY_PTR x = (x / 2 ^ 30) mod 512.
Proof. apply (shiftr_land_mask_range 30 9 x); lia. Qed.
Lemma LINEAR_ADDRESS_GET_DIRECTORY_spec x :
  LINEAR_ADDRESS_GET_DIRECTORY x = (x / 2 ^ 21) mod 512.
Proof. apply (shiftr_land_mask_range 21 9 x); lia. Qed.
Lemma LINEAR_ADDRESS_GET_TABLE_spec x : LINEAR_ADDRESS_GET_TABLE x = (x / 2 ^ 12) mod 512.
Proof. apply (shiftr_land_mask_range 12 9 x); lia. Qed.
Lemma LINEAR_ADDRESS_GET_OFFSET_spec x : LINEAR_ADDRESS_GET_OFFSET x = x mod 4096.
Proof.
  unfold LINEAR_ADDRESS_GET_OFFSET.
  replace (x mod 4096) with ((x / 2 ^ 0) mod 2 ^ 12) by (by rewrite Z.div_1_r).
  apply (shiftr_land_mask_range 0 12 x); lia.
Qed.

(** A page: aligned, and inside the 512 GiB identity window. *)
Definition page_ok (p : Z) : Prop := p mod PAGE_SIZE = 0 ∧ 0 ≤ p < 2 ^ 39.

Lemma PAGE_MASK_spec x : Z.land x PAGE_MASK = x / 4096 * 4096.
Proof. apply (land_lnot_ones 12 x). lia. Qed.

Lemma land_PTE_PHYSICAL_ADDRESS_PAGE x :
  Z.land x PTE_PHYSICAL_ADDRESS_PAGE = (x / 2 ^ 12) mod 2 ^ 40 * 4096.
Proof. apply (land_mask_range 12 40 x); lia. Qed.

Lemma P2V_V2P va : 0 ≤ va < 2 ^ 64 → P2V_IDENTITY_MAP (V2P_IDENTITY_MAP va) = va.
Proof.
  intros H. unfold P2V_IDENTITY_MAP, V2P_IDENTITY_MAP. rewrite wrap_add_l.
  rewrite wrap_small; lia.
Qed.
Lemma V2P_P2V pa : 0 ≤ pa < 2 ^ 64 → V2P_IDENTITY_MAP (P2V_IDENTITY_MAP pa) = pa.
Proof.
  intros H. unfold P2V_IDENTITY_MAP, V2P_IDENTITY_MAP. rewrite wrap_sub_l.
  rewrite wrap_small; lia.
Qed.

(** A page is not moved by the physical-address mask of an entry. *)
Lemma page_ok_mask p : page_ok p → Z.land p PTE_PHYSICAL_ADDRESS_PAGE = p.
Proof.
  intros [Ha Hb]. unfold PAGE_SIZE in *. rewrite land_PTE_PHYSICAL_ADDRESS_PAGE.
  rewrite Z.mod_small by zlia. zlia.
Qed.
