(* ===== verification/Machine.v ===== *)
(** The state of the hypervisor.

    The structures of common/include/rkhv/chainload.h, hv/src/memory_management/arena.h,
    hv/include/rkhv/vmm/vm_manager.h, hv/include/rkhv/vmm/vmx_vmcs.h,
    hv/src/vmm/vmx_msr.h and hv/src/vmm/devices/vmd_8250uart.h as records, the static
    and global variables of the C files as the fields of [machine], and the
    dereferences of the code as operations of the state monad.

    Objects that the code allocates in arenas and links by pointers ([arena_header_t],
    [vm_t], [vm_device_t], [vmd_8250uart_t]) are kept in typed heaps, finite maps from
    the address of the object to its value; every other access goes to the bytes of
    physical memory. The processor is a parameter, the class [Hardware]. *)
From S2P Require Import Prelude Memory.

(** * common/include/rkhv/chainload.h *)

Definition RKHV_MAX_SECTIONS : Z := 4.
Definition RKHV_MAX_PAGE_TABLE_REGIONS : Z := 16.
Definition RKHV_MAX_ATTACHMENTS : Z := 4.
Definition RKHV_MAX_EFI_MMAP_DESCRIPTORS : Z := 231.

(** [usable] is a 1-bit field, kept as a boolean. *)
Record chainload_mmap_desc_t := mk_mmap_desc {
  md_physical_address : Z;
  md_pages : Z;
  md_usable : bool;
}.

Record chainload_page_table_region_t := mk_page_table_region {
  ptr_physical_address : Z;
  ptr_pages : Z;
}.

Definition CHAINLOAD_ATTACHMENT_END : Z := 0.
Definition CHAINLOAD_ATTACHMENT_LINUX_BZIMAGE : Z := 0x4c.

Record chainload_attachment_t := mk_attachment {
  at_physical_address : Z;
  at_size : Z;
  at_attachment_type : Z;
}.

Record chainload_section_t := mk_section {
  sec_physical_address : Z;
  sec_pages : Z;
}.

Record chainload_page_t := mk_chainload_page {
  rkhv_sections : list chainload_section_t;
  chainload_page_physical_address : Z;
  attachments : list chainload_attachment_t;
  page_table_regions : list chainload_page_table_region_t;
  efi_mmap_usable : list chainload_mmap_desc_t;
}.

(** * hv/src/memory_management/arena.h *)

(** The header at the start of the page of an arena. *)
Record arena_header_t := mk_arena_header {
  arena_prev : Z;
  arena_next : Z;
  arena_subarenas : Z;
  arena_used_size : Z;
}.
#[export] Instance set_arena_prev : Setter arena_prev := λ f r, mk_arena_header (f (arena_prev r)) (arena_next r) (arena_subarenas r) (arena_used_size r).
#[export] Instance set_arena_next : Setter arena_next := λ f r, mk_arena_header (arena_prev r) (f (arena_next r)) (arena_subarenas r) (arena_used_size r).
#[export] Instance set_arena_subarenas : Setter arena_subarenas := λ f r, mk_arena_header (arena_prev r) (arena_next r) (f (arena_subarenas r)) (arena_used_size r).
#[export] Instance set_arena_used_size : Setter arena_used_size := λ f r, mk_arena_header (arena_prev r) (arena_next r) (arena_subarenas r) (f (arena_used_size r)).

(** The header of a sub-arena. *)
Record arena_sub_header_t := mk_arena_sub_header {
  sub_next : Z;
  sub_used_size : Z;
}.

(** * hv/include/rkhv/vmm/vm_manager.h and hv/include/rkhv/vmm/vmx_vmcs.h *)

Definition VM_T_FLAG_VMCS_INITIALIZED : Z := Z.shiftl 1 0.
Definition VM_T_FLAG_EPT_PML4_INITIALIZED : Z := Z.shiftl 1 1.

Inductive vm_page_type_t := VM_PAGE_TYPE_EPT | VM_PAGE_TYPE_GUEST_PHYSICAL.
#[export] Instance vm_page_type_t_eq_dec : EqDecision vm_page_type_t.
Proof. solve_decision. Defined.

(** A run of consecutive pages tracked for a VM; [next] is the position in the list
    [vm_tracked_pages], whose nodes only its VM points to. *)
Record vm_page_list_t := mk_page_list {
  pl_physical_address : Z;
  pl_pages : Z;
  pl_page_type : vm_page_type_t;
  pl_reserved_pool : bool;
}.
#[export] Instance set_pl_physical_address : Setter pl_physical_address := λ f r, mk_page_list (f (pl_physical_address r)) (pl_pages r) (pl_page_type r) (pl_reserved_pool r).
#[export] Instance set_pl_pages : Setter pl_pages := λ f r, mk_page_list (pl_physical_address r) (f (pl_pages r)) (pl_page_type r) (pl_reserved_pool r).
#[export] Instance set_pl_page_type : Setter pl_page_type := λ f r, mk_page_list (pl_physical_address r) (pl_pages r) (f (pl_page_type r)) (pl_reserved_pool r).
#[export] Instance set_pl_reserved_pool : Setter pl_reserved_pool := λ f r, mk_page_list (pl_physical_address r) (pl_pages r) (pl_page_type r) (f (pl_reserved_pool r)).

Definition VM_DEVICE_T_MAX_PORTS : Z := 16.

(** The function pointers stored in a device: the only handlers of the source are
    those of the 8250 UART. *)
Inductive vm_device_handler := vmd_8250uart_outb | vmd_8250uart_inb.

(** A device; [None] is a [NULL] handler. *)
Record vm_device_t := mk_device {
  dev_next : Z;
  dev_ports : list Z;
  dev_ports_len : Z;
  dev_device_data : Z;
  dev_outb_handler : option vm_device_handler;
  dev_outw_handler : option vm_device_handler;
  dev_outd_handler : option vm_device_handler;
  dev_inb_handler : option vm_device_handler;
  dev_inw_handler : option vm_device_handler;
  dev_ind_handler : option vm_device_handler;
}.
#[export] Instance set_dev_next : Setter dev_next := λ f r, mk_device (f (dev_next r)) (dev_ports r) (dev_ports_len r) (dev_device_data r) (dev_outb_handler r) (dev_outw_handler r) (dev_outd_handler r) (dev_inb_handler r) (dev_inw_handler r) (dev_ind_handler r).
#[export] Instance set_dev_ports : Setter dev_ports := λ f r, mk_device (dev_next r) (f (dev_ports r)) (dev_ports_len r) (dev_device_data r) (dev_outb_handler r) (dev_outw_handler r) (dev_outd_handler r) (dev_inb_handler r) (dev_inw_handler r) (dev_ind_handler r).
#[export] Instance set_dev_ports_len : Setter dev_ports_len := λ f r, mk_device (dev_next r) (dev_ports r) (f (dev_ports_len r)) (dev_device_data r) (dev_outb_handler r) (dev_outw_handler r) (dev_outd_handler r) (dev_inb_handler r) (dev_inw_handler r) (dev_ind_handler r).
#[export] Instance set_dev_device_data : Setter dev_device_data := λ f r, mk_device (dev_next r) (dev_ports r) (dev_ports_len r) (f (dev_device_data r)) (dev_outb_handler r) (dev_outw_handler r) (dev_outd_handler r) (dev_inb_handler r) (dev_inw_handler r) (dev_ind_handler r).
#[export] Instance set_dev_outb_handler : Setter dev_outb_handler := λ f r, mk_device (dev_next r) (dev_ports r) (dev_ports_len r) (dev_device_data r) (f (dev_outb_handler r)) (dev_outw_handler r) (dev_outd_handler r) (dev_inb_handler r) (dev_inw_handler r) (dev_ind_handler r).
#[export] Instance set_dev_outw_handler : Setter dev_outw_handler := λ f r, mk_device (dev_next r) (dev_ports r) (dev_ports_len r) (dev_device_data r) (dev_outb_handler r) (f (dev_outw_handler r)) (dev_outd_handler r) (dev_inb_handler r) (dev_inw_handler r) (dev_ind_handler r).
#[export] Instance set_dev_outd_handler : Setter dev_outd_handler := λ f r, mk_device (dev_next r) (dev_ports r) (dev_ports_len r) (dev_device_data r) (dev_outb_handler r) (dev_outw_handler r) (f (dev_outd_handler r)) (dev_inb_handler r) (dev_inw_handler r) (dev_ind_handler r).
#[export] Instance set_dev_inb_handler : Setter dev_inb_handler := λ f r, mk_device (dev_next r) (dev_ports r) (dev_ports_len r) (dev_device_data r) (dev_outb_handler r) (dev_outw_handler r) (dev_outd_handler r) (f (dev_inb_handler r)) (dev_inw_handler r) (dev_ind_handler r).
#[export] Instance set_dev_inw_handler : Setter dev_inw_handler := λ f r, mk_device (dev_next r) (dev_ports r) (dev_ports_len r) (dev_device_data r) (dev_outb_handler r) (dev_outw_handler r) (dev_outd_handler r) (dev_inb_handler r) (f (dev_inw_handler r)) (dev_ind_handler r).
#[export] Instance set_dev_ind_handler : Setter dev_ind_handler := λ f r, mk_device (dev_next r) (dev_ports r) (dev_ports_len r) (dev_device_data r) (dev_outb_handler r) (dev_outw_handler r) (dev_outd_handler r) (dev_inb_handler r) (dev_inw_handler r) (f (dev_ind_handler r)).

(** [gdtr_t] and [idtr_t]. *)
Record table_register := mk_table_register {
  tr_size : Z;
  tr_offset : Z;
}.

(** The [guest_state] member of [vmx_initial_vmcs_config_t]. *)
Record vmx_guest_state_t := mk_guest_state {
  gs_rip : Z;
  gs_rsp : Z;
  gs_cr0 : Z;
  gs_cr3 : Z;
  gs_cr4 : Z;
  gs_ia32_efer : Z;
  gs_cs : Z;
  gs_ds : Z;
  gs_gdtr : table_register;
  gs_idtr : table_register;
}.
#[export] Instance set_gs_rip : Setter gs_rip := λ f r, mk_guest_state (f (gs_rip r)) (gs_rsp r) (gs_cr0 r) (gs_cr3 r) (gs_cr4 r) (gs_ia32_efer r) (gs_cs r) (gs_ds r) (gs_gdtr r) (gs_idtr r).
#[export] Instance set_gs_rsp : Setter gs_rsp := λ f r, mk_guest_state (gs_rip r) (f (gs_rsp r)) (gs_cr0 r) (gs_cr3 r) (gs_cr4 r) (gs_ia32_efer r) (gs_cs r) (gs_ds r) (gs_gdtr r) (gs_idtr r).
#[export] Instance set_gs_cr0 : Setter gs_cr0 := λ f r, mk_guest_state (gs_rip r) (gs_rsp r) (f (gs_cr0 r)) (gs_cr3 r) (gs_cr4 r) (gs_ia32_efer r) (gs_cs r) (gs_ds r) (gs_gdtr r) (gs_idtr r).
#[export] Instance set_gs_cr3 : Setter gs_cr3 := λ f r, mk_guest_state (gs_rip r) (gs_rsp r) (gs_cr0 r) (f (gs_cr3 r)) (gs_cr4 r) (gs_ia32_efer r) (gs_cs r) (gs_ds r) (gs_gdtr r) (gs_idtr r).
#[export] Instance set_gs_cr4 : Setter gs_cr4 := λ f r, mk_guest_state (gs_rip r) (gs_rsp r) (gs_cr0 r) (gs_cr3 r) (f (gs_cr4 r)) (gs_ia32_efer r) (gs_cs r) (gs_ds r) (gs_gdtr r) (gs_idtr r).
#[export] Instance set_gs_ia32_efer : Setter gs_ia32_efer := λ f r, mk_guest_state (gs_rip r) (gs_rsp r) (gs_cr0 r) (gs_cr3 r) (gs_cr4 r) (f (gs_ia32_efer r)) (gs_cs r) (gs_ds r) (gs_gdtr r) (gs_idtr r).
#[export] Instance set_gs_cs : Setter gs_cs := λ f r, mk_guest_state (gs_rip r) (gs_rsp r) (gs_cr0 r) (gs_cr3 r) (gs_cr4 r) (gs_ia32_efer r) (f (gs_cs r)) (gs_ds r) (gs_gdtr r) (gs_idtr r).
#[export] Instance set_gs_ds : Setter gs_ds := λ f r, mk_guest_state (gs_rip r) (gs_rsp r) (gs_cr0 r) (gs_cr3 r) (gs_cr4 r) (gs_ia32_efer r) (gs_cs r) (f (gs_ds r)) (gs_gdtr r) (gs_idtr r).
#[export] Instance set_gs_gdtr : Setter gs_gdtr := λ f r, mk_guest_state (gs_rip r) (gs_rsp r) (gs_cr0 r) (gs_cr3 r) (gs_cr4 r) (gs_ia32_efer r) (gs_cs r) (gs_ds r) (f (gs_gdtr r)) (gs_idtr r).
#[export] Instance set_gs_idtr : Setter gs_idtr := λ f r, mk_guest_state (gs_rip r) (gs_rsp r) (gs_cr0 r) (gs_cr3 r) (gs_cr4 r) (gs_ia32_efer r) (gs_cs r) (gs_ds r) (gs_gdtr r) (f (gs_idtr r)).

(** The configuration a VMCS is initialised from. *)
Record vmx_initial_vmcs_config_t := mk_vmcs_config {
  eptp : Z;
  guest_state : vmx_guest_state_t;
}.
#[export] Instance set_eptp : Setter eptp := λ f r, mk_vmcs_config (f (eptp r)) (guest_state r).
#[export] Instance set_guest_state : Setter guest_state := λ f r, mk_vmcs_config (eptp r) (f (guest_state r)).

(** General-purpose registers: [vmx_initial_gpr_state_t] and [vmx_vmexit_reg_state_t]
    have the same layout. *)
Record vmx_gpr_state_t := mk_gpr_state {
  reg_r15 : Z;
  reg_r14 : Z;
  reg_r13 : Z;
  reg_r12 : Z;
  reg_r11 : Z;
  reg_r10 : Z;
  reg_r9 : Z;
  reg_r8 : Z;
  reg_rdi : Z;
  reg_rsi : Z;
  reg_rbp : Z;
  reg_rdx : Z;
  reg_rcx : Z;
  reg_rbx : Z;
  reg_rax : Z;
}.
#[export] Instance set_reg_r15 : Setter reg_r15 := λ f r, mk_gpr_state (f (reg_r15 r)) (reg_r14 r) (reg_r13 r) (reg_r12 r) (reg_r11 r) (reg_r10 r) (reg_r9 r) (reg_r8 r) (reg_rdi r) (reg_rsi r) (reg_rbp r) (reg_rdx r) (reg_rcx r) (reg_rbx r) (reg_rax r).
#[export] Instance set_reg_r14 : Setter reg_r14 := λ f r, mk_gpr_state (reg_r15 r) (f (reg_r14 r)) (reg_r13 r) (reg_r12 r) (reg_r11 r) (reg_r10 r) (reg_r9 r) (reg_r8 r) (reg_rdi r) (reg_rsi r) (reg_rbp r) (reg_rdx r) (reg_rcx r) (reg_rbx r) (reg_rax r).
#[export] Instance set_reg_r13 : Setter reg_r13 := λ f r, mk_gpr_state (reg_r15 r) (reg_r14 r) (f (reg_r13 r)) (reg_r12 r) (reg_r11 r) (reg_r10 r) (reg_r9 r) (reg_r8 r) (reg_rdi r) (reg_rsi r) (reg_rbp r) (reg_rdx r) (reg_rcx r) (reg_rbx r) (reg_rax r).
#[export] Instance set_reg_r12 : Setter reg_r12 := λ f r, mk_gpr_state (reg_r15 r) (reg_r14 r) (reg_r13 r) (f (reg_r12 r)) (reg_r11 r) (reg_r10 r) (reg_r9 r) (reg_r8 r) (reg_rdi r) (reg_rsi r) (reg_rbp r) (reg_rdx r) (reg_rcx r) (reg_rbx r) (reg_rax r).
#[export] Instance set_reg_r11 : Setter reg_r11 := λ f r, mk_gpr_state (reg_r15 r) (reg_r14 r) (reg_r13 r) (reg_r12 r) (f (reg_r11 r)) (reg_r10 r) (reg_r9 r) (reg_r8 r) (reg_rdi r) (reg_rsi r) (reg_rbp r) (reg_rdx r) (reg_rcx r) (reg_rbx r) (reg_rax r).
#[export] Instance set_reg_r10 : Setter reg_r10 := λ f r, mk_gpr_state (reg_r15 r) (reg_r14 r) (reg_r13 r) (reg_r12 r) (reg_r11 r) (f (reg_r10 r)) (reg_r9 r) (reg_r8 r) (reg_rdi r) (reg_rsi r) (reg_rbp r) (reg_rdx r) (reg_rcx r) (reg_rbx r) (reg_rax r).
#[export] Instance set_reg_r9 : Setter reg_r9 := λ f r, mk_gpr_state (reg_r15 r) (reg_r14 r) (reg_r13 r) (reg_r12 r) (reg_r11 r) (reg_r10 r) (f (reg_r9 r)) (reg_r8 r) (reg_rdi r) (reg_rsi r) (reg_rbp r) (reg_rdx r) (reg_rcx r) (reg_rbx r) (reg_rax r).
#[export] Instance set_reg_r8 : Setter reg_r8 := λ f r, mk_gpr_state (reg_r15 r) (reg_r14 r) (reg_r13 r) (reg_r12 r) (reg_r11 r) (reg_r10 r) (reg_r9 r) (f (reg_r8 r)) (reg_rdi r) (reg_rsi r) (reg_rbp r) (reg_rdx r) (reg_rcx r) (reg_rbx r) (reg_rax r).
#[export] Instance set_reg_rdi : Setter reg_rdi := λ f r, mk_gpr_state (reg_r15 r) (reg_r14 r) (reg_r13 r) (reg_r12 r) (reg_r11 r) (reg_r10 r) (reg_r9 r) (reg_r8 r) (f (reg_rdi r)) (reg_rsi r) (reg_rbp r) (reg_rdx r) (reg_rcx r) (reg_rbx r) (reg_rax r).
#[export] Instance set_reg_rsi : Setter reg_rsi := λ f r, mk_gpr_state (reg_r15 r) (reg_r14 r) (reg_r13 r) (reg_r12 r) (reg_r11 r) (reg_r10 r) (reg_r9 r) (reg_r8 r) (reg_rdi r) (f (reg_rsi r)) (reg_rbp r) (reg_rdx r) (reg_rcx r) (reg_rbx r) (reg_rax r).
#[export] Instance set_reg_rbp : Setter reg_rbp := λ f r, mk_gpr_state (reg_r15 r) (reg_r14 r) (reg_r13 r) (reg_r12 r) (reg_r11 r) (reg_r10 r) (reg_r9 r) (reg_r8 r) (reg_rdi r) (reg_rsi r) (f (reg_rbp r)) (reg_rdx r) (reg_rcx r) (reg_rbx r) (reg_rax r).
#[export] Instance set_reg_rdx : Setter reg_rdx := λ f r, mk_gpr_state (reg_r15 r) (reg_r14 r) (reg_r13 r) (reg_r12 r) (reg_r11 r) (reg_r10 r) (reg_r9 r) (reg_r8 r) (reg_rdi r) (reg_rsi r) (reg_rbp r) (f (reg_rdx r)) (reg_rcx r) (reg_rbx r) (reg_rax r).
#[export] Instance set_reg_rcx : Setter reg_rcx := λ f r, mk_gpr_state (reg_r15 r) (reg_r14 r) (reg_r13 r) (reg_r12 r) (reg_r11 r) (reg_r10 r) (reg_r9 r) (reg_r8 r) (reg_rdi r) (reg_rsi r) (reg_rbp r) (reg_rdx r) (f (reg_rcx r)) (reg_rbx r) (reg_rax r).
#[export] Instance set_reg_rbx : Setter reg_rbx := λ f r, mk_gpr_state (reg_r15 r) (reg_r14 r) (reg_r13 r) (reg_r12 r) (reg_r11 r) (reg_r10 r) (reg_r9 r) (reg_r8 r) (reg_rdi r) (reg_rsi r) (reg_rbp r) (reg_rdx r) (reg_rcx r) (f (reg_rbx r)) (reg_rax r).
#[export] Instance set_reg_rax : Setter reg_rax := λ f r, mk_gpr_state (reg_r15 r) (reg_r14 r) (reg_r13 r) (reg_r12 r) (reg_r11 r) (reg_r10 r) (reg_r9 r) (reg_r8 r) (reg_rdi r) (reg_rsi r) (reg_rbp r) (reg_rdx r) (reg_rcx r) (reg_rbx r) (f (reg_rax r)).

(** A virtual machine; [permanent_state] only has the member [xcr0]. *)
Record vm_t := mk_vm {
  vm_next : Z;
  vm_name : list Z;
  vm_flags : Z;
  vm_vmcs_region : Z;
  vm_vmcs_config : vmx_initial_vmcs_config_t;
  vm_initial_gpr_state : vmx_gpr_state_t;
  vm_guest_physical_pages : Z;
  vm_used_by_initial_setup : Z;
  vm_tracked_pages : list vm_page_list_t;
  vm_devices : Z;
  vm_permanent_xcr0 : Z;
}.
#[export] Instance set_vm_next : Setter vm_next := λ f r, mk_vm (f (vm_next r)) (vm_name r) (vm_flags r) (vm_vmcs_region r) (vm_vmcs_config r) (vm_initial_gpr_state r) (vm_guest_physical_pages r) (vm_used_by_initial_setup r) (vm_tracked_pages r) (vm_devices r) (vm_permanent_xcr0 r).
#[export] Instance set_vm_name : Setter vm_name := λ f r, mk_vm (vm_next r) (f (vm_name r)) (vm_flags r) (vm_vmcs_region r) (vm_vmcs_config r) (vm_initial_gpr_state r) (vm_guest_physical_pages r) (vm_used_by_initial_setup r) (vm_tracked_pages r) (vm_devices r) (vm_permanent_xcr0 r).
#[export] Instance set_vm_flags : Setter vm_flags := λ f r, mk_vm (vm_next r) (vm_name r) (f (vm_flags r)) (vm_vmcs_region r) (vm_vmcs_config r) (vm_initial_gpr_state r) (vm_guest_physical_pages r) (vm_used_by_initial_setup r) (vm_tracked_pages r) (vm_devices r) (vm_permanent_xcr0 r).
#[export] Instance set_vm_vmcs_region : Setter vm_vmcs_region := λ f r, mk_vm (vm_next r) (vm_name r) (vm_flags r) (f (vm_vmcs_region r)) (vm_vmcs_config r) (vm_initial_gpr_state r) (vm_guest_physical_pages r) (vm_used_by_initial_setup r) (vm_tracked_pages r) (vm_devices r) (vm_permanent_xcr0 r).
#[export] Instance set_vm_vmcs_config : Setter vm_vmcs_config := λ f r, mk_vm (vm_next r) (vm_name r) (vm_flags r) (vm_vmcs_region r) (f (vm_vmcs_config r)) (vm_initial_gpr_state r) (vm_guest_physical_pages r) (vm_used_by_initial_setup r) (vm_tracked_pages r) (vm_devices r) (vm_permanent_xcr0 r).
#[export] Instance set_vm_initial_gpr_state : Setter vm_initial_gpr_state := λ f r, mk_vm (vm_next r) (vm_name r) (vm_flags r) (vm_vmcs_region r) (vm_vmcs_config r) (f (vm_initial_gpr_state r)) (vm_guest_physical_pages r) (vm_used_by_initial_setup r) (vm_tracked_pages r) (vm_devices r) (vm_permanent_xcr0 r).
#[export] Instance set_vm_guest_physical_pages : Setter vm_guest_physical_pages := λ f r, mk_vm (vm_next r) (vm_name r) (vm_flags r) (vm_vmcs_region r) (vm_vmcs_config r) (vm_initial_gpr_state r) (f (vm_guest_physical_pages r)) (vm_used_by_initial_setup r) (vm_tracked_pages r) (vm_devices r) (vm_permanent_xcr0 r).
#[export] Instance set_vm_used_by_initial_setup : Setter vm_used_by_initial_setup := λ f r, mk_vm (vm_next r) (vm_name r) (vm_flags r) (vm_vmcs_region r) (vm_vmcs_config r) (vm_initial_gpr_state r) (vm_guest_physical_pages r) (f (vm_used_by_initial_setup r)) (vm_tracked_pages r) (vm_devices r) (vm_permanent_xcr0 r).
#[export] Instance set_vm_tracked_pages : Setter vm_tracked_pages := λ f r, mk_vm (vm_next r) (vm_name r) (vm_flags r) (vm_vmcs_region r) (vm_vmcs_config r) (vm_initial_gpr_state r) (vm_guest_physical_pages r) (vm_used_by_initial_setup r) (f (vm_tracked_pages r)) (vm_devices r) (vm_permanent_xcr0 r).
#[export] Instance set_vm_devices : Setter vm_devices := λ f r, mk_vm (vm_next r) (vm_name r) (vm_flags r) (vm_vmcs_region r) (vm_vmcs_config r) (vm_initial_gpr_state r) (vm_guest_physical_pages r) (vm_used_by_initial_setup r) (vm_tracked_pages r) (f (vm_devices r)) (vm_permanent_xcr0 r).
#[export] Instance set_vm_permanent_xcr0 : Setter vm_permanent_xcr0 := λ f r, mk_vm (vm_next r) (vm_name r) (vm_flags r) (vm_vmcs_region r) (vm_vmcs_config r) (vm_initial_gpr_state r) (vm_guest_physical_pages r) (vm_used_by_initial_setup r) (vm_tracked_pages r) (vm_devices r) (f (vm_permanent_xcr0 r)).

(** * hv/src/vmm/vmx_msr.h *)

(** The members that [VMX_MSR_LIST] generates. *)
Record vmx_msr_state_t := mk_msr_state {
  msr_ia32_efer : Z;
  msr_ia32_fs_base : Z;
  msr_ia32_gs_base : Z;
  msr_ia32_misc_enable : Z;
  msr_ia32_bios_sign_id : Z;
  msr_ia32_xss : Z;
  msr_ia32_kernel_gs_base : Z;
}.
#[export] Instance set_msr_ia32_efer : Setter msr_ia32_efer := λ f r, mk_msr_state (f (msr_ia32_efer r)) (msr_ia32_fs_base r) (msr_ia32_gs_base r) (msr_ia32_misc_enable r) (msr_ia32_bios_sign_id r) (msr_ia32_xss r) (msr_ia32_kernel_gs_base r).
#[export] Instance set_msr_ia32_fs_base : Setter msr_ia32_fs_base := λ f r, mk_msr_state (msr_ia32_efer r) (f (msr_ia32_fs_base r)) (msr_ia32_gs_base r) (msr_ia32_misc_enable r) (msr_ia32_bios_sign_id r) (msr_ia32_xss r) (msr_ia32_kernel_gs_base r).
#[export] Instance set_msr_ia32_gs_base : Setter msr_ia32_gs_base := λ f r, mk_msr_state (msr_ia32_efer r) (msr_ia32_fs_base r) (f (msr_ia32_gs_base r)) (msr_ia32_misc_enable r) (msr_ia32_bios_sign_id r) (msr_ia32_xss r) (msr_ia32_kernel_gs_base r).
#[export] Instance set_msr_ia32_misc_enable : Setter msr_ia32_misc_enable := λ f r, mk_msr_state (msr_ia32_efer r) (msr_ia32_fs_base r) (msr_ia32_gs_base r) (f (msr_ia32_misc_enable r)) (msr_ia32_bios_sign_id r) (msr_ia32_xss r) (msr_ia32_kernel_gs_base r).
#[export] Instance set_msr_ia32_bios_sign_id : Setter msr_ia32_bios_sign_id := λ f r, mk_msr_state (msr_ia32_efer r) (msr_ia32_fs_base r) (msr_ia32_gs_base r) (msr_ia32_misc_enable r) (f (msr_ia32_bios_sign_id r)) (msr_ia32_xss r) (msr_ia32_kernel_gs_base r).
#[export] Instance set_msr_ia32_xss : Setter msr_ia32_xss := λ f r, mk_msr_state (msr_ia32_efer r) (msr_ia32_fs_base r) (msr_ia32_gs_base r) (msr_ia32_misc_enable r) (msr_ia32_bios_sign_id r) (f (msr_ia32_xss r)) (msr_ia32_kernel_gs_base r).
#[export] Instance set_msr_ia32_kernel_gs_base : Setter msr_ia32_kernel_gs_base := λ f r, mk_msr_state (msr_ia32_efer r) (msr_ia32_fs_base r) (msr_ia32_gs_base r) (msr_ia32_misc_enable r) (msr_ia32_bios_sign_id r) (msr_ia32_xss r) (f (msr_ia32_kernel_gs_base r)).

(** * hv/src/vmm/devices/vmd_8250uart.h *)

Definition VMD_8250UART_T_OUTPUT_BUFFER_CAPACITY : Z := 128.

(** The state of an emulated UART. *)
Record vmd_8250uart_t := mk_uart {
  uart_output_buffer : list Z;
  uart_output_buffer_size : Z;
  uart_port_name : list Z;
  uart_port_base : Z;
  uart_baud_rate_divisor : Z;
  uart_int_enable_reg : Z;
  uart_fifo_control_reg : Z;
  uart_line_control_reg : Z;
  uart_modem_control_reg : Z;
}.
#[export] Instance set_uart_output_buffer : Setter uart_output_buffer := λ f r, mk_uart (f (uart_output_buffer r)) (uart_output_buffer_size r) (uart_port_name r) (uart_port_base r) (uart_baud_rate_divisor r) (uart_int_enable_reg r) (uart_fifo_control_reg r) (uart_line_control_reg r) (uart_modem_control_reg r).
#[export] Instance set_uart_output_buffer_size : Setter uart_output_buffer_size := λ f r, mk_uart (uart_output_buffer r) (f (uart_output_buffer_size r)) (uart_port_name r) (uart_port_base r) (uart_baud_rate_divisor r) (uart_int_enable_reg r) (uart_fifo_control_reg r) (uart_line_control_reg r) (uart_modem_control_reg r).
#[export] Instance set_uart_port_name : Setter uart_port_name := λ f r, mk_uart (uart_output_buffer r) (uart_output_buffer_size r) (f (uart_port_name r)) (uart_port_base r) (uart_baud_rate_divisor r) (uart_int_enable_reg r) (uart_fifo_control_reg r) (uart_line_control_reg r) (uart_modem_control_reg r).
#[export] Instance set_uart_port_base : Setter uart_port_base := λ f r, mk_uart (uart_output_buffer r) (uart_output_buffer_size r) (uart_port_name r) (f (uart_port_base r)) (uart_baud_rate_divisor r) (uart_int_enable_reg r) (uart_fifo_control_reg r) (uart_line_control_reg r) (uart_modem_control_reg r).
#[export] Instance set_uart_baud_rate_divisor : Setter uart_baud_rate_divisor := λ f r, mk_uart (uart_output_buffer r) (uart_output_buffer_size r) (uart_port_name r) (uart_port_base r) (f (uart_baud_rate_divisor r)) (uart_int_enable_reg r) (uart_fifo_control_reg r) (uart_line_control_reg r) (uart_modem_control_reg r).
#[export] Instance set_uart_int_enable_reg : Setter uart_int_enable_reg := λ f r, mk_uart (uart_output_buffer r) (uart_output_buffer_size r) (uart_port_name r) (uart_port_base r) (uart_baud_rate_divisor r) (f (uart_int_enable_reg r)) (uart_fifo_control_reg r) (uart_line_control_reg r) (uart_modem_control_reg r).
#[export] Instance set_uart_fifo_control_reg : Setter uart_fifo_control_reg := λ f r, mk_uart (uart_output_buffer r) (uart_output_buffer_size r) (uart_port_name r) (uart_port_base r) (uart_baud_rate_divisor r) (uart_int_enable_reg r) (f (uart_fifo_control_reg r)) (uart_line_control_reg r) (uart_modem_control_reg r).
#[export] Instance set_uart_line_control_reg : Setter uart_line_control_reg := λ f r, mk_uart (uart_output_buffer r) (uart_output_buffer_size r) (uart_port_name r) (uart_port_base r) (uart_baud_rate_divisor r) (uart_int_enable_reg r) (uart_fifo_control_reg r) (f (uart_line_control_reg r)) (uart_modem_control_reg r).
#[export] Instance set_uart_modem_control_reg : Setter uart_modem_control_reg := λ f r, mk_uart (uart_output_buffer r) (uart_output_buffer_size r) (uart_port_name r) (uart_port_base r) (uart_baud_rate_divisor r) (uart_int_enable_reg r) (uart_fifo_control_reg r) (uart_line_control_reg r) (f (uart_modem_control_reg r)).

(** * Descriptor tables: hv/include/rkhv/segments.h and hv/include/rkhv/interrupts.h *)

Record gdt_segment_descriptor_t := mk_segment_descriptor {
  sd_segment_limit_low : Z;
  sd_base_address_low : Z;
  sd_base_address_mid : Z;
  sd_access : Z;
  sd_flags : Z;
  sd_base_address_high : Z;
}.
#[export] Instance set_sd_access : Setter sd_access := λ f r, mk_segment_descriptor (sd_segment_limit_low r) (sd_base_address_low r) (sd_base_address_mid r) (f (sd_access r)) (sd_flags r) (sd_base_address_high r).

Record idt_gate_descriptor_t := mk_idt_gate {
  gate_offset_low : Z;
  gate_segment_selector : Z;
  gate_ist : Z;
  gate_bitfield : Z;
  gate_offset_mid : Z;
  gate_offset_high : Z;
  gate_reserved : Z;
}.
#[export] Instance set_gate_offset_low : Setter gate_offset_low := λ f r, mk_idt_gate (f (gate_offset_low r)) (gate_segment_selector r) (gate_ist r) (gate_bitfield r) (gate_offset_mid r) (gate_offset_high r) (gate_reserved r).
#[export] Instance set_gate_segment_selector : Setter gate_segment_selector := λ f r, mk_idt_gate (gate_offset_low r) (f (gate_segment_selector r)) (gate_ist r) (gate_bitfield r) (gate_offset_mid r) (gate_offset_high r) (gate_reserved r).
#[export] Instance set_gate_ist : Setter gate_ist := λ f r, mk_idt_gate (gate_offset_low r) (gate_segment_selector r) (f (gate_ist r)) (gate_bitfield r) (gate_offset_mid r) (gate_offset_high r) (gate_reserved r).
#[export] Instance set_gate_bitfield : Setter gate_bitfield := λ f r, mk_idt_gate (gate_offset_low r) (gate_segment_selector r) (gate_ist r) (f (gate_bitfield r)) (gate_offset_mid r) (gate_offset_high r) (gate_reserved r).
#[export] Instance set_gate_offset_mid : Setter gate_offset_mid := λ f r, mk_idt_gate (gate_offset_low r) (gate_segment_selector r) (gate_ist r) (gate_bitfield r) (f (gate_offset_mid r)) (gate_offset_high r) (gate_reserved r).
#[export] Instance set_gate_offset_high : Setter gate_offset_high := λ f r, mk_idt_gate (gate_offset_low r) (gate_segment_selector r) (gate_ist r) (gate_bitfield r) (gate_offset_mid r) (f (gate_offset_high r)) (gate_reserved r).

(** * The processor

    What the code executes through inline assembly and hv/src/vmm/vmx_instructions.asm.
    Instructions that set the flags of VMX return the [vmx_inst_error_t] of
    [vmx_error_check]: 0 for VMsucceed. *)
Class Hardware := {
  hw_state : Type;
  hw_rdmsr : Z → hw_state → Z;
  hw_wrmsr : Z → Z → hw_state → hw_state;
  hw_cr0 : hw_state → Z;
  hw_cr3 : hw_state → Z;
  hw_cr4 : hw_state → Z;
  hw_cr4_write : Z → hw_state → hw_state;
  hw_cpuid : Z → Z → hw_state → Z * Z * Z * Z;
  hw_xsetbv : Z → hw_state → hw_state;
  hw_sgdt : hw_state → table_register;
  hw_sidt : hw_state → table_register;
  hw_inb : Z → hw_state → Z * hw_state;
  hw_outb : Z → Z → hw_state → hw_state;
  hw_vmxon : Z → hw_state → Z * hw_state;
  hw_vmclear : Z → hw_state → Z * hw_state;
  hw_vmptrld : Z → hw_state → Z * hw_state;
  hw_vmptrst : hw_state → Z * Z;
  hw_vmread : Z → hw_state → Z * Z;
  hw_vmwrite : Z → Z → hw_state → Z * hw_state;
}.

Section machine.
Context `{HW : Hardware}.

(** The variables of the hypervisor. *)
Record machine := mk_machine {
  m_mem : mem;
  m_chainload : chainload_page_t;
  m_last_returned_region_index : Z;
  m_last_returned_page_index : Z;
  m_arena_head : Z;
  m_arenas : gmap Z arena_header_t;
  m_subarenas : gmap Z arena_sub_header_t;
  m_vmxon_region_valid : bool;
  m_vmxon_region : Z;
  m_msr_bitmaps_page_valid : bool;
  m_msr_bitmaps_page : Z;
  m_vm_manager_arena : Z;
  m_vm_list : Z;
  m_current_vm : Z;
  m_vms : gmap Z vm_t;
  m_vmd_device_arena : Z;
  m_devices : gmap Z vm_device_t;
  m_uarts : gmap Z vmd_8250uart_t;
  m_msr_host_backup : vmx_msr_state_t;
  m_serial_initialized : bool;
  m_xsave_host_xcr0 : Z;
  m_xsave_area_size : Z;
  m_GDT : list gdt_segment_descriptor_t;
  m_IDT : list idt_gate_descriptor_t;
  m_hw : hw_state;
}.
End machine.

#[export] Instance set_m_mem `{HW : Hardware} : Setter m_mem := λ f r, mk_machine (f (m_mem r)) (m_chainload r) (m_last_returned_region_index r) (m_last_returned_page_index r) (m_arena_head r) (m_arenas r) (m_subarenas r) (m_vmxon_region_valid r) (m_vmxon_region r) (m_msr_bitmaps_page_valid r) (m_msr_bitmaps_page r) (m_vm_manager_arena r) (m_vm_list r) (m_current_vm r) (m_vms r) (m_vmd_device_arena r) (m_devices r) (m_uarts r) (m_msr_host_backup r) (m_serial_initialized r) (m_xsave_host_xcr0 r) (m_xsave_area_size r) (m_GDT r) (m_IDT r) (m_hw r).
#[export] Instance set_m_chainload `{HW : Hardware} : Setter m_chainload := λ f r, mk_machine (m_mem r) (f (m_chainload r)) (m_last_returned_region_index r) (m_last_returned_page_index r) (m_arena_head r) (m_arenas r) (m_subarenas r) (m_vmxon_region_valid r) (m_vmxon_region r) (m_msr_bitmaps_page_valid r) (m_msr_bitmaps_page r) (m_vm_manager_arena r) (m_vm_list r) (m_current_vm r) (m_vms r) (m_vmd_device_arena r) (m_devices r) (m_uarts r) (m_msr_host_backup r) (m_serial_initialized r) (m_xsave_host_xcr0 r) (m_xsave_area_size r) (m_GDT r) (m_IDT r) (m_hw r).
#[export] Instance set_m_last_returned_region_index `{HW : Hardware} : Setter m_last_returned_region_index := λ f r, mk_machine (m_mem r) (m_chainload r) (f (m_last_returned_region_index r)) (m_last_returned_page_index r) (m_arena_head r) (m_arenas r) (m_subarenas r) (m_vmxon_region_valid r) (m_vmxon_region r) (m_msr_bitmaps_page_valid r) (m_msr_bitmaps_page r) (m_vm_manager_arena r) (m_vm_list r) (m_current_vm r) (m_vms r) (m_vmd_device_arena r) (m_devices r) (m_uarts r) (m_msr_host_backup r) (m_serial_initialized r) (m_xsave_host_xcr0 r) (m_xsave_area_size r) (m_GDT r) (m_IDT r) (m_hw r).
#[export] Instance set_m_last_returned_page_index `{HW : Hardware} : Setter m_last_returned_page_index := λ f r, mk_machine (m_mem r) (m_chainload r) (m_last_returned_region_index r) (f (m_last_returned_page_index r)) (m_arena_head r) (m_arenas r) (m_subarenas r) (m_vmxon_region_valid r) (m_vmxon_region r) (m_msr_bitmaps_page_valid r) (m_msr_bitmaps_page r) (m_vm_manager_arena r) (m_vm_list r) (m_current_vm r) (m_vms r) (m_vmd_device_arena r) (m_devices r) (m_uarts r) (m_msr_host_backup r) (m_serial_initialized r) (m_xsave_host_xcr0 r) (m_xsave_area_size r) (m_GDT r) (m_IDT r) (m_hw r).
#[export] Instance set_m_arena_head `{HW : Hardware} : Setter m_arena_head := λ f r, mk_machine (m_mem r) (m_chainload r) (m_last_returned_region_index r) (m_last_returned_page_index r) (f (m_arena_head r)) (m_arenas r) (m_subarenas r) (m_vmxon_region_valid r) (m_vmxon_region r) (m_msr_bitmaps_page_valid r) (m_msr_bitmaps_page r) (m_vm_manager_arena r) (m_vm_list r) (m_current_vm r) (m_vms r) (m_vmd_device_arena r) (m_devices r) (m_uarts r) (m_msr_host_backup r) (m_serial_initialized r) (m_xsave_host_xcr0 r) (m_xsave_area_size r) (m_GDT r) (m_IDT r) (m_hw r).
#[export] Instance set_m_arenas `{HW : Hardware} : Setter m_arenas := λ f r, mk_machine (m_mem r) (m_chainload r) (m_last_returned_region_index r) (m_last_returned_page_index r) (m_arena_head r) (f (m_arenas r)) (m_subarenas r) (m_vmxon_region_valid r) (m_vmxon_region r) (m_msr_bitmaps_page_valid r) (m_msr_bitmaps_page r) (m_vm_manager_arena r) (m_vm_list r) (m_current_vm r) (m_vms r) (m_vmd_device_arena r) (m_devices r) (m_uarts r) (m_msr_host_backup r) (m_serial_initialized r) (m_xsave_host_xcr0 r) (m_xsave_area_size r) (m_GDT r) (m_IDT r) (m_hw r).
#[export] Instance set_m_subarenas `{HW : Hardware} : Setter m_subarenas := λ f r, mk_machine (m_mem r) (m_chainload r) (m_last_returned_region_index r) (m_last_returned_page_index r) (m_arena_head r) (m_arenas r) (f (m_subarenas r)) (m_vmxon_region_valid r) (m_vmxon_region r) (m_msr_bitmaps_page_valid r) (m_msr_bitmaps_page r) (m_vm_manager_arena r) (m_vm_list r) (m_current_vm r) (m_vms r) (m_vmd_device_arena r) (m_devices r) (m_uarts r) (m_msr_host_backup r) (m_serial_initialized r) (m_xsave_host_xcr0 r) (m_xsave_area_size r) (m_GDT r) (m_IDT r) (m_hw r).
#[export] Instance set_m_vmxon_region_valid `{HW : Hardware} : Setter m_vmxon_region_valid := λ f r, mk_machine (m_mem r) (m_chainload r) (m_last_returned_region_index r) (m_last_returned_page_index r) (m_arena_head r) (m_arenas r) (m_subarenas r) (f (m_vmxon_region_valid r)) (m_vmxon_region r) (m_msr_bitmaps_page_valid r) (m_msr_bitmaps_page r) (m_vm_manager_arena r) (m_vm_list r) (m_current_vm r) (m_vms r) (m_vmd_device_arena r) (m_devices r) (m_uarts r) (m_msr_host_backup r) (m_serial_initialized r) (m_xsave_host_xcr0 r) (m_xsave_area_size r) (m_GDT r) (m_IDT r) (m_hw r).
#[export] Instance set_m_vmxon_region `{HW : Hardware} : Setter m_vmxon_region := λ f r, mk_machine (m_mem r) (m_chainload r) (m_last_returned_region_index r) (m_last_returned_page_index r) (m_arena_head r) (m_arenas r) (m_subarenas r) (m_vmxon_region_valid r) (f (m_vmxon_region r)) (m_msr_bitmaps_page_valid r) (m_msr_bitmaps_page r) (m_vm_manager_arena r) (m_vm_list r) (m_current_vm r) (m_vms r) (m_vmd_device_arena r) (m_devices r) (m_uarts r) (m_msr_host_backup r) (m_serial_initialized r) (m_xsave_host_xcr0 r) (m_xsave_area_size r) (m_GDT r) (m_IDT r) (m_hw r).
#[export] Instance set_m_msr_bitmaps_page_valid `{HW : Hardware} : Setter m_msr_bitmaps_page_valid := λ f r, mk_machine (m_mem r) (m_chainload r) (m_last_returned_region_index r) (m_last_returned_page_index r) (m_arena_head r) (m_arenas r) (m_subarenas r) (m_vmxon_region_valid r) (m_vmxon_region r) (f (m_msr_bitmaps_page_valid r)) (m_msr_bitmaps_page r) (m_vm_manager_arena r) (m_vm_list r) (m_current_vm r) (m_vms r) (m_vmd_device_arena r) (m_devices r) (m_uarts r) (m_msr_host_backup r) (m_serial_initialized r) (m_xsave_host_xcr0 r) (m_xsave_area_size r) (m_GDT r) (m_IDT r) (m_hw r).
#[export] Instance set_m_msr_bitmaps_page `{HW : Hardware} : Setter m_msr_bitmaps_page := λ f r, mk_machine (m_mem r) (m_chainload r) (m_last_returned_region_index r) (m_last_returned_page_index r) (m_arena_head r) (m_arenas r) (m_subarenas r) (m_vmxon_region_valid r) (m_vmxon_region r) (m_msr_bitmaps_page_valid r) (f (m_msr_bitmaps_page r)) (m_vm_manager_arena r) (m_vm_list r) (m_current_vm r) (m_vms r) (m_vmd_device_arena r) (m_devices r) (m_uarts r) (m_msr_host_backup r) (m_serial_initialized r) (m_xsave_host_xcr0 r) (m_xsave_area_size r) (m_GDT r) (m_IDT r) (m_hw r).
#[export] Instance set_m_vm_manager_arena `{HW : Hardware} : Setter m_vm_manager_arena := λ f r, mk_machine (m_mem r) (m_chainload r) (m_last_returned_region_index r) (m_last_returned_page_index r) (m_arena_head r) (m_arenas r) (m_subarenas r) (m_vmxon_region_valid r) (m_vmxon_region r) (m_msr_bitmaps_page_valid r) (m_msr_bitmaps_page r) (f (m_vm_manager_arena r)) (m_vm_list r) (m_current_vm r) (m_vms r) (m_vmd_device_arena r) (m_devices r) (m_uarts r) (m_msr_host_backup r) (m_serial_initialized r) (m_xsave_host_xcr0 r) (m_xsave_area_size r) (m_GDT r) (m_IDT r) (m_hw r).
#[export] Instance set_m_vm_list `{HW : Hardware} : Setter m_vm_list := λ f r, mk_machine (m_mem r) (m_chainload r) (m_last_returned_region_index r) (m_last_returned_page_index r) (m_arena_head r) (m_arenas r) (m_subarenas r) (m_vmxon_region_valid r) (m_vmxon_region r) (m_msr_bitmaps_page_valid r) (m_msr_bitmaps_page r) (m_vm_manager_arena r) (f (m_vm_list r)) (m_current_vm r) (m_vms r) (m_vmd_device_arena r) (m_devices r) (m_uarts r) (m_msr_host_backup r) (m_serial_initialized r) (m_xsave_host_xcr0 r) (m_xsave_area_size r) (m_GDT r) (m_IDT r) (m_hw r).
#[export] Instance set_m_current_vm `{HW : Hardware} : Setter m_current_vm := λ f r, mk_machine (m_mem r) (m_chainload r) (m_last_returned_region_index r) (m_last_returned_page_index r) (m_arena_head r) (m_arenas r) (m_subarenas r) (m_vmxon_region_valid r) (m_vmxon_region r) (m_msr_bitmaps_page_valid r) (m_msr_bitmaps_page r) (m_vm_manager_arena r) (m_vm_list r) (f (m_current_vm r)) (m_vms r) (m_vmd_device_arena r) (m_devices r) (m_uarts r) (m_msr_host_backup r) (m_serial_initialized r) (m_xsave_host_xcr0 r) (m_xsave_area_size r) (m_GDT r) (m_IDT r) (m_hw r).
#[export] Instance set_m_vms `{HW : Hardware} : Setter m_vms := λ f r, mk_machine (m_mem r) (m_chainload r) (m_last_returned_region_index r) (m_last_returned_page_index r) (m_arena_head r) (m_arenas r) (m_subarenas r) (m_vmxon_region_valid r) (m_vmxon_region r) (m_msr_bitmaps_page_valid r) (m_msr_bitmaps_page r) (m_vm_manager_arena r) (m_vm_list r) (m_current_vm r) (f (m_vms r)) (m_vmd_device_arena r) (m_devices r) (m_uarts r) (m_msr_host_backup r) (m_serial_initialized r) (m_xsave_host_xcr0 r) (m_xsave_area_size r) (m_GDT r) (m_IDT r) (m_hw r).
#[export] Instance set_m_vmd_device_arena `{HW : Hardware} : Setter m_vmd_device_arena := λ f r, mk_machine (m_mem r) (m_chainload r) (m_last_returned_region_index r) (m_last_returned_page_index r) (m_arena_head r) (m_arenas r) (m_subarenas r) (m_vmxon_region_valid r) (m_vmxon_region r) (m_msr_bitmaps_page_valid r) (m_msr_bitmaps_page r) (m_vm_manager_arena r) (m_vm_list r) (m_current_vm r) (m_vms r) (f (m_vmd_device_arena r)) (m_devices r) (m_uarts r) (m_msr_host_backup r) (m_serial_initialized r) (m_xsave_host_xcr0 r) (m_xsave_area_size r) (m_GDT r) (m_IDT r) (m_hw r).
#[export] Instance set_m_devices `{HW : Hardware} : Setter m_devices := λ f r, mk_machine (m_mem r) (m_chainload r) (m_last_returned_region_index r) (m_last_returned_page_index r) (m_arena_head r) (m_arenas r) (m_subarenas r) (m_vmxon_region_valid r) (m_vmxon_region r) (m_msr_bitmaps_page_valid r) (m_msr_bitmaps_page r) (m_vm_manager_arena r) (m_vm_list r) (m_current_vm r) (m_vms r) (m_vmd_device_arena r) (f (m_devices r)) (m_uarts r) (m_msr_host_backup r) (m_serial_initialized r) (m_xsave_host_xcr0 r) (m_xsave_area_size r) (m_GDT r) (m_IDT r) (m_hw r).
#[export] Instance set_m_uarts `{HW : Hardware} : Setter m_uarts := λ f r, mk_machine (m_mem r) (m_chainload r) (m_last_returned_region_index r) (m_last_returned_page_index r) (m_arena_head r) (m_arenas r) (m_subarenas r) (m_vmxon_region_valid r) (m_vmxon_region r) (m_msr_bitmaps_page_valid r) (m_msr_bitmaps_page r) (m_vm_manager_arena r) (m_vm_list r) (m_current_vm r) (m_vms r) (m_vmd_device_arena r) (m_devices r) (f (m_uarts r)) (m_msr_host_backup r) (m_serial_initialized r) (m_xsave_host_xcr0 r) (m_xsave_area_size r) (m_GDT r) (m_IDT r) (m_hw r).
#[export] Instance set_m_msr_host_backup `{HW : Hardware} : Setter m_msr_host_backup := λ f r, mk_machine (m_mem r) (m_chainload r) (m_last_returned_region_index r) (m_last_returned_page_index r) (m_arena_head r) (m_arenas r) (m_subarenas r) (m_vmxon_region_valid r) (m_vmxon_region r) (m_msr_bitmaps_page_valid r) (m_msr_bitmaps_page r) (m_vm_manager_arena r) (m_vm_list r) (m_current_vm r) (m_vms r) (m_vmd_device_arena r) (m_devices r) (m_uarts r) (f (m_msr_host_backup r)) (m_serial_initialized r) (m_xsave_host_xcr0 r) (m_xsave_area_size r) (m_GDT r) (m_IDT r) (m_hw r).
#[export] Instance set_m_serial_initialized `{HW : Hardware} : Setter m_serial_initialized := λ f r, mk_machine (m_mem r) (m_chainload r) (m_last_returned_region_index r) (m_last_returned_page_index r) (m_arena_head r) (m_arenas r) (m_subarenas r) (m_vmxon_region_valid r) (m_vmxon_region r) (m_msr_bitmaps_page_valid r) (m_msr_bitmaps_page r) (m_vm_manager_arena r) (m_vm_list r) (m_current_vm r) (m_vms r) (m_vmd_device_arena r) (m_devices r) (m_uarts r) (m_msr_host_backup r) (f (m_serial_initialized r)) (m_xsave_host_xcr0 r) (m_xsave_area_size r) (m_GDT r) (m_IDT r) (m_hw r).
#[export] Instance set_m_xsave_host_xcr0 `{HW : Hardware} : Setter m_xsave_host_xcr0 := λ f r, mk_machine (m_mem r) (m_chainload r) (m_last_returned_region_index r) (m_last_returned_page_index r) (m_arena_head r) (m_arenas r) (m_subarenas r) (m_vmxon_region_valid r) (m_vmxon_region r) (m_msr_bitmaps_page_valid r) (m_msr_bitmaps_page r) (m_vm_manager_arena r) (m_vm_list r) (m_current_vm r) (m_vms r) (m_vmd_device_arena r) (m_devices r) (m_uarts r) (m_msr_host_backup r) (m_serial_initialized r) (f (m_xsave_host_xcr0 r)) (m_xsave_area_size r) (m_GDT r) (m_IDT r) (m_hw r).
#[export] Instance set_m_xsave_area_size `{HW : Hardware} : Setter m_xsave_area_size := λ f r, mk_machine (m_mem r) (m_chainload r) (m_last_returned_region_index r) (m_last_returned_page_index r) (m_arena_head r) (m_arenas r) (m_subarenas r) (m_vmxon_region_valid r) (m_vmxon_region r) (m_msr_bitmaps_page_valid r) (m_msr_bitmaps_page r) (m_vm_manager_arena r) (m_vm_list r) (m_current_vm r) (m_vms r) (m_vmd_device_arena r) (m_devices r) (m_uarts r) (m_msr_host_backup r) (m_serial_initialized r) (m_xsave_host_xcr0 r) (f (m_xsave_area_size r)) (m_GDT r) (m_IDT r) (m_hw r).
#[export] Instance set_m_GDT `{HW : Hardware} : Setter m_GDT := λ f r, mk_machine (m_mem r) (m_chainload r) (m_last_returned_region_index r) (m_last_returned_page_index r) (m_arena_head r) (m_arenas r) (m_subarenas r) (m_vmxon_region_valid r) (m_vmxon_region r) (m_msr_bitmaps_page_valid r) (m_msr_bitmaps_page r) (m_vm_manager_arena r) (m_vm_list r) (m_current_vm r) (m_vms r) (m_vmd_device_arena r) (m_devices r) (m_uarts r) (m_msr_host_backup r) (m_serial_initialized r) (m_xsave_host_xcr0 r) (m_xsave_area_size r) (f (m_GDT r)) (m_IDT r) (m_hw r).
#[export] Instance set_m_IDT `{HW : Hardware} : Setter m_IDT := λ f r, mk_machine (m_mem r) (m_chainload r) (m_last_returned_region_index r) (m_last_returned_page_index r) (m_arena_head r) (m_arenas r) (m_subarenas r) (m_vmxon_region_valid r) (m_vmxon_region r) (m_msr_bitmaps_page_valid r) (m_msr_bitmaps_page r) (m_vm_manager_arena r) (m_vm_list r) (m_current_vm r) (m_vms r) (m_vmd_device_arena r) (m_devices r) (m_uarts r) (m_msr_host_backup r) (m_serial_initialized r) (m_xsave_host_xcr0 r) (m_xsave_area_size r) (m_GDT r) (f (m_IDT r)) (m_hw r).
#[export] Instance set_m_hw `{HW : Hardware} : Setter m_hw := λ f r, mk_machine (m_mem r) (m_chainload r) (m_last_returned_region_index r) (m_last_returned_page_index r) (m_arena_head r) (m_arenas r) (m_subarenas r) (m_vmxon_region_valid r) (m_vmxon_region r) (m_msr_bitmaps_page_valid r) (m_msr_bitmaps_page r) (m_vm_manager_arena r) (m_vm_list r) (m_current_vm r) (m_vms r) (m_vmd_device_arena r) (m_devices r) (m_uarts r) (m_msr_host_backup r) (m_serial_initialized r) (m_xsave_host_xcr0 r) (m_xsave_area_size r) (m_GDT r) (m_IDT r) (f (m_hw r)).
Section accessors.
Context `{HW : Hardware}.

(** * Dereferences

    Physical memory is mapped for 512 GiB from [RKHV_PHYSICAL_MEMORY_BASE] (see
    [paging_map_physical]); an access outside of this window faults. *)
Definition IDENTITY_WINDOW_SIZE : Z := 2 ^ 39.
Definition in_window (va n : Z) : bool :=
  (RKHV_PHYSICAL_MEMORY_BASE <=? va) &&
  (va + n <=? RKHV_PHYSICAL_MEMORY_BASE + IDENTITY_WINDOW_SIZE).

(** Read and write an unsigned integer of [n] bytes. *)
Definition deref_load (n : nat) (va : Z) : M machine Z :=
  s ← mget;
  if in_window va (Z.of_nat n) then mret (load_le n (m_mem s) (V2P_IDENTITY_MAP va))
  else mfault va.
Definition deref_store (n : nat) (va v : Z) : M machine () :=
  s ← mget;
  if in_window va (Z.of_nat n)
  then mmodify (λ s, s <| m_mem := store_le n (m_mem s) (V2P_IDENTITY_MAP va) v |>)
  else mfault va.
Definition memset_va (va c n : Z) : M machine () :=
  s ← mget;
  if in_window va n
  then mmodify (λ s, s <| m_mem := memset (m_mem s) (V2P_IDENTITY_MAP va) c n |>)
  else mfault va.
Definition memcpy_va (dest src n : Z) : M machine () :=
  s ← mget;
  if in_window dest n && in_window src n
  then mmodify (λ s, s <| m_mem := memcpy (m_mem s) (V2P_IDENTITY_MAP dest)
                                          (V2P_IDENTITY_MAP src) n |>)
  else mfault dest.

(** [p[i]] for [uint64_t* p]. *)
Definition ptr64 (va i : Z) : Z := u64 (va + 8 * i).

(** * Objects in the typed heaps *)
Definition vm_get (vm : Z) : M machine vm_t :=
  s ← mget;
  match m_vms s !! vm with Some v => mret v | None => mundefined end.
Definition vm_modify (vm : Z) (f : vm_t → vm_t) : M machine () :=
  v ← vm_get vm;
  mmodify (λ s, s <| m_vms := <[vm := f v]> (m_vms s) |>).

End accessors.

(** [SIZE_MAX], the value of [(size_t)-1]. *)
Definition SIZE_MAX : Z := 2 ^ 64 - 1.

(** * Lemmas on dereferences *)

Lemma P2V_page p i :
  page_ok p → 0 ≤ i ≤ PAGE_SIZE →
  u64 (P2V_IDENTITY_MAP p + i) = p + i + RKHV_PHYSICAL_MEMORY_BASE.
Proof.
  unfold page_ok, PAGE_SIZE, P2V_IDENTITY_MAP, RKHV_PHYSICAL_MEMORY_BASE. intros [? ?] ?.
  rewrite wrap_add_l, wrap_small; lia.
Qed.

Lemma P2V_page_ok p : page_ok p → P2V_IDENTITY_MAP p = p + RKHV_PHYSICAL_MEMORY_BASE.
Proof.
  unfold page_ok, P2V_IDENTITY_MAP, RKHV_PHYSICAL_MEMORY_BASE. intros [? ?].
  apply wrap_small. lia.
Qed.

Lemma V2P_P2V_page p : page_ok p → V2P_IDENTITY_MAP (P2V_IDENTITY_MAP p) = p.
Proof. intros [? ?]. apply V2P_P2V. lia. Qed.

Lemma V2P_window a :
  0 ≤ a < 2 ^ 40 → V2P_IDENTITY_MAP (a + RKHV_PHYSICAL_MEMORY_BASE) = a.
Proof.
  unfold V2P_IDENTITY_MAP, RKHV_PHYSICAL_MEMORY_BASE. intros H.
  rewrite wrap_small; lia.
Qed.

Lemma in_window_page p i n :
  page_ok p → 0 ≤ i → 0 ≤ n → i + n ≤ PAGE_SIZE →
  in_window (p + i + RKHV_PHYSICAL_MEMORY_BASE) n = true.
Proof.
  unfold page_ok, PAGE_SIZE, in_window, IDENTITY_WINDOW_SIZE, RKHV_PHYSICAL_MEMORY_BASE.
  intros [? ?] ???. apply andb_true_intro. split; apply Z.leb_le; [lia|zlia].
Qed.

Section deref_lemmas.
Context `{HW : Hardware}.
Implicit Types (s : machine) (E : string → Prop).

Lemma set_m_mem_id s : s <| m_mem := m_mem s |> = s.
Proof. by destruct s. Qed.
Lemma set_m_hw_id s : s <| m_hw := m_hw s |> = s.
Proof. by destruct s. Qed.

(** Accesses inside of a page, at the offset [i]. *)
Lemma wp_load_at n p i E Q s :
  page_ok p → 0 ≤ i → i + Z.of_nat n ≤ PAGE_SIZE →
  Q (load_le n (m_mem s) (p + i)) s →
  wp (deref_load n (u64 (P2V_IDENTITY_MAP p + i))) E Q s.
Proof.
  intros Hp Hi Hn HQ. unfold deref_load. rewrite P2V_page by (done || lia).
  wp_step. wp_step. rewrite in_window_page by (done || lia).
  rewrite V2P_window; [done|]. destruct Hp. unfold PAGE_SIZE in *. lia.
Qed.

Lemma wp_store_at n p i v E (Q : () → machine → Prop) s :
  page_ok p → 0 ≤ i → i + Z.of_nat n ≤ PAGE_SIZE →
  Q () (s <| m_mem := store_le n (m_mem s) (p + i) v |>) →
  wp (deref_store n (u64 (P2V_IDENTITY_MAP p + i)) v) E Q s.
Proof.
  intros Hp Hi Hn HQ. unfold deref_store. rewrite P2V_page by (done || lia).
  wp_step. wp_step. rewrite in_window_page by (done || lia).
  rewrite V2P_window; [done|]. destruct Hp. unfold PAGE_SIZE in *. lia.
Qed.

Lemma wp_memset_at p i c n E (Q : () → machine → Prop) s :
  page_ok p → 0 ≤ i → 0 ≤ n → i + n ≤ PAGE_SIZE →
  Q () (s <| m_mem := memset (m_mem s) (p + i) c n |>) →
  wp (memset_va (u64 (P2V_IDENTITY_MAP p + i)) c n) E Q s.
Proof.
  intros Hp Hi Hn Hin HQ. unfold memset_va. rewrite P2V_page by (done || lia).
  wp_step. wp_step. rewrite in_window_page by (done || lia).
  rewrite V2P_window; [done|]. destruct Hp. unfold PAGE_SIZE in *. lia.
Qed.

Lemma wp_load64 p i E Q s :
  page_ok p → 0 ≤ i < 512 →
  Q (load_le 8 (m_mem s) (p + 8 * i)) s →
  wp (deref_load 8 (ptr64 (P2V_IDENTITY_MAP p) i)) E Q s.
Proof. intros. apply wp_load_at; unfold PAGE_SIZE; (done || lia). Qed.

Lemma wp_store64 p i v E (Q : () → machine → Prop) s :
  page_ok p → 0 ≤ i < 512 →
  Q () (s <| m_mem := store_le 8 (m_mem s) (p + 8 * i) v |>) →
  wp (deref_store 8 (ptr64 (P2V_IDENTITY_MAP p) i) v) E Q s.
Proof. intros. apply wp_store_at; unfold PAGE_SIZE; (done || lia). Qed.

Lemma wp_memset_page p c E (Q : () → machine → Prop) s :
  page_ok p →
  Q () (s <| m_mem := memset (m_mem s) p c PAGE_SIZE |>) →
  wp (memset_va (P2V_IDENTITY_MAP p) c PAGE_SIZE) E Q s.
Proof.
  intros Hp HQ. pose proof (wp_memset_at p 0 c PAGE_SIZE E Q s) as H.
  rewrite !Z.add_0_r in H. rewrite P2V_page_ok, wrap_small in H.
  - rewrite P2V_page_ok by done. apply H; unfold PAGE_SIZE; (done || lia).
  - destruct Hp. unfold RKHV_PHYSICAL_MEMORY_BASE. lia.
  - done.
Qed.

Lemma wp_store_page n p v E (Q : () → machine → Prop) s :
  page_ok p → Z.of_nat n ≤ PAGE_SIZE →
  Q () (s <| m_mem := store_le n (m_mem s) p v |>) →
  wp (deref_store n (P2V_IDENTITY_MAP p) v) E Q s.
Proof.
  intros Hp Hn HQ. pose proof (wp_store_at n p 0 v E Q s) as H.
  rewrite !Z.add_0_r in H. rewrite P2V_page_ok, wrap_small in H.
  - rewrite P2V_page_ok by done. apply H; (done || lia).
  - destruct Hp. unfold RKHV_PHYSICAL_MEMORY_BASE. lia.
  - done.
Qed.

Lemma wp_vm_get vm v E Q s : m_vms s !! vm = Some v → Q v s → wp (vm_get vm) E Q s.
Proof. intros Hv HQ. unfold vm_get. wp_step. wp_step. by rewrite Hv. Qed.

Lemma wp_vm_modify vm v f E (Q : () → machine → Prop) s :
  m_vms s !! vm = Some v →
  Q () (s <| m_vms := <[vm := f v]> (m_vms s) |>) → wp (vm_modify vm f) E Q s.
Proof. intros Hv HQ. unfold vm_modify. wp_step. by eapply wp_vm_get. Qed.

End deref_lemmas.
