(* ===== verification/Registers.v ===== *)
(** Registers of the processor: control registers, model-specific registers
    (common/include/rkhv/cr_msr.h), [RFLAGS] (common/include/rkhv/rflags.h), the
    segment descriptors (hv/include/rkhv/segments.h) and the fields of the VMCS
    (hv/src/vmm/vmx_vmcs.h), with the operations that read and write them. *)
From S2P Require Import Prelude Memory Machine.

(** A value of type [int]: [1 << 31] is the negative number that conversions to
    64 bits extend with ones. *)
Definition int32 (x : Z) : Z := if u32 x <? 2 ^ 31 then u32 x else u32 x - 2 ^ 32.

(** * common/include/rkhv/cr_msr.h *)

Definition IA32_BIOS_SIGN_ID : Z := 0x8B.
Definition IA32_MISC_ENABLE : Z := 0x1A0.
Definition IA32_XSS : Z := 0xDA0.
Definition IA32_EFER : Z := 0xC0000080.
Definition IA32_FS_BASE : Z := 0xC0000100.
Definition IA32_GS_BASE : Z := 0xC0000101.
Definition IA32_KERNEL_GS_BASE : Z := 0xC0000102.
Definition IA32_VMX_BASIC : Z := 0x480.
Definition IA32_VMX_PINBASED_CTLS : Z := 0x481.
Definition IA32_VMX_PROCBASED_CTLS : Z := 0x482.
Definition IA32_VMX_EXIT_CTLS : Z := 0x483.
Definition IA32_VMX_CR0_FIXED0 : Z := 0x486.
Definition IA32_VMX_ENTRY_CTLS : Z := 0x484.
Definition IA32_VMX_CR0_FIXED1 : Z := 0x487.
Definition IA32_VMX_CR4_FIXED0 : Z := 0x488.
Definition IA32_VMX_CR4_FIXED1 : Z := 0x489.
Definition IA32_VMX_EPT_VPID_CAP : Z := 0x48C.
Definition IA32_VMX_PROCBASED_CTLS2 : Z := 0x48B.
Definition CR0_PE : Z := Z.shiftl 1 0.
Definition CR0_MP : Z := Z.shiftl 1 1.
Definition CR0_EM : Z := Z.shiftl 1 2.
Definition CR0_TS : Z := Z.shiftl 1 3.
Definition CR0_ET : Z := Z.shiftl 1 4.
Definition CR0_NE : Z := Z.shiftl 1 5.
Definition CR0_WP : Z := Z.shiftl 1 16.
Definition CR0_AM : Z := Z.shiftl 1 18.
Definition CR0_NW : Z := Z.shiftl 1 29.
Definition CR0_CD : Z := Z.shiftl 1 30.
Definition CR0_PG : Z := int32 (Z.shiftl 1 31).
Definition CR4_VME : Z := Z.shiftl 1 0.
Definition CR4_PVI : Z := Z.shiftl 1 1.
Definition CR4_TSD : Z := Z.shiftl 1 2.
Definition CR4_DE : Z := Z.shiftl 1 3.
Definition CR4_PSE : Z := Z.shiftl 1 4.
Definition CR4_PAE : Z := Z.shiftl 1 5.
Definition CR4_MCE : Z := Z.shiftl 1 6.
Definition CR4_PGE : Z := Z.shiftl 1 7.
Definition CR4_PCE : Z := Z.shiftl 1 8.
Definition CR4_OSFXSR : Z := Z.shiftl 1 9.
Definition CR4_OSXMMEXCPT : Z := Z.shiftl 1 10.
Definition CR4_UMIP : Z := Z.shiftl 1 11.
Definition CR4_LA57 : Z := Z.shiftl 1 12.
Definition CR4_VMXE : Z := Z.shiftl 1 13.
Definition CR4_SMXE : Z := Z.shiftl 1 14.
Definition CR4_FSGSBASE : Z := Z.shiftl 1 16.
Definition CR4_PCIDE : Z := Z.shiftl 1 17.
Definition CR4_OSXSAVE : Z := Z.shiftl 1 18.
Definition CR4_KL : Z := Z.shiftl 1 19.
Definition CR4_SMEP : Z := Z.shiftl 1 20.
Definition CR4_SMAP : Z := Z.shiftl 1 21.
Definition CR4_PKE : Z := Z.shiftl 1 22.
Definition CR4_CET : Z := Z.shiftl 1 23.
Definition CR4_PKS : Z := Z.shiftl 1 24.
Definition CR4_UINTR : Z := Z.shiftl 1 25.
Definition IA32_EFER_SCE : Z := Z.shiftl 1 0.
Definition IA32_EFER_LME : Z := Z.shiftl 1 8.
Definition IA32_EFER_LMA : Z := Z.shiftl 1 10.
Definition IA32_EFER_NXE : Z := Z.shiftl 1 11.

(** * common/include/rkhv/rflags.h *)

Definition RFLAGS_CF : Z := Z.shiftl 1 0.
Definition RFLAGS_RESERVED : Z := Z.shiftl 1 1.
Definition RFLAGS_PF : Z := Z.shiftl 1 2.
Definition RFLAGS_AF : Z := Z.shiftl 1 4.
Definition RFLAGS_ZF : Z := Z.shiftl 1 6.
Definition RFLAGS_SF : Z := Z.shiftl 1 7.
Definition RFLAGS_TF : Z := Z.shiftl 1 8.
Definition RFLAGS_IF : Z := Z.shiftl 1 9.
Definition RFLAGS_DF : Z := Z.shiftl 1 10.
Definition RFLAGS_OF : Z := Z.shiftl 1 11.
Definition RFLAGS_IOPL : Z := Z.shiftl 3 12.
Definition RFLAGS_NT : Z := Z.shiftl 1 14.
Definition RFLAGS_RF : Z := Z.shiftl 1 16.
Definition RFLAGS_VM : Z := Z.shiftl 1 17.
Definition RFLAGS_AC : Z := Z.shiftl 1 18.
Definition RFLAGS_VIF : Z := Z.shiftl 1 19.
Definition RFLAGS_VIP : Z := Z.shiftl 1 20.
Definition RFLAGS_ID : Z := Z.shiftl 1 21.

(** * hv/include/rkhv/segments.h *)

Definition RKHV_DS : Z := 0x08.
Definition RKHV_CS : Z := 0x10.
Definition GDT_SEGMENT_DESCRIPTOR_ACCESS_ACCESSED : Z := 0x01.
Definition GDT_SEGMENT_DESCRIPTOR_ACCESS_RW : Z := 0x02.
Definition GDT_SEGMENT_DESCRIPTOR_ACCESS_DIRECTION : Z := 0x04.
Definition GDT_SEGMENT_DESCRIPTOR_ACCESS_CONFORMING : Z := 0x04.
Definition GDT_SEGMENT_DESCRIPTOR_ACCESS_EXEC : Z := 0x08.
Definition GDT_SEGMENT_DESCRIPTOR_ACCESS_SYSTEM : Z := 0x00.
Definition GDT_SEGMENT_DESCRIPTOR_ACCESS_NOT_SYSTEM : Z := 0x10.
Definition GDT_SEGMENT_DESCRIPTOR_ACCESS_PRESENT : Z := 0x80.
Definition GDT_SEGMENT_DESCRIPTOR_FLAGS_GRANULARITY_BYTE : Z := 0x00.
Definition GDT_SEGMENT_DESCRIPTOR_FLAGS_GRANULARITY_PAGES : Z := 0x80.
Definition GDT_SEGMENT_DESCRIPTOR_FLAGS_SIZE_16BITS : Z := 0x00.
Definition GDT_SEGMENT_DESCRIPTOR_FLAGS_SIZE_32BITS : Z := 0x40.
Definition GDT_SEGMENT_DESCRIPTOR_FLAGS_LONG_MODE_CODE : Z := 0x20.
Definition GDT_SEGMENT_DESCRIPTOR_SYSTEM_TYPE_LDT : Z := 0x2.
Definition GDT_SEGMENT_DESCRIPTOR_SYSTEM_TYPE_TSS_AVAILABLE : Z := 0x9.
Definition GDT_SEGMENT_DESCRIPTOR_SYSTEM_TYPE_TSS_BUSY : Z := 0xb.
Definition GDT_SEGMENT_DESCRIPTOR_SYSTEM_TYPE_CALL_GATE : Z := 0xc.
Definition GDT_SEGMENT_DESCRIPTOR_SYSTEM_TYPE_INTERRUPT_GATE : Z := 0xe.
Definition GDT_SEGMENT_DESCRIPTOR_SYSTEM_TYPE_TRAP_GATE : Z := 0xf.

Definition GDT_SEGMENT_DESCRIPTOR_ACCESS_DPL (x : Z) : Z := Z.shiftl (Z.land x 3) 5.
Definition GDT_SEGMENT_DESCRIPTOR_FLAGS_LIMIT_HIGH (x : Z) : Z := Z.land x 0xf.

(** The initial value of [GDT] in hv/src/segments.c: the null, data and code segments. *)
Definition GDT_initial : list gdt_segment_descriptor_t := [
  mk_segment_descriptor 0 0 0 0 0 0;
  mk_segment_descriptor 0xffff 0 0
    (Z.lor (Z.lor (Z.lor GDT_SEGMENT_DESCRIPTOR_ACCESS_RW GDT_SEGMENT_DESCRIPTOR_ACCESS_NOT_SYSTEM)
       (GDT_SEGMENT_DESCRIPTOR_ACCESS_DPL 0)) GDT_SEGMENT_DESCRIPTOR_ACCESS_PRESENT)
    (Z.lor (Z.lor GDT_SEGMENT_DESCRIPTOR_FLAGS_GRANULARITY_PAGES GDT_SEGMENT_DESCRIPTOR_FLAGS_SIZE_32BITS)
       (GDT_SEGMENT_DESCRIPTOR_FLAGS_LIMIT_HIGH 0xf)) 0;
  mk_segment_descriptor 0xffff 0 0
    (Z.lor (Z.lor (Z.lor (Z.lor GDT_SEGMENT_DESCRIPTOR_ACCESS_RW GDT_SEGMENT_DESCRIPTOR_ACCESS_EXEC)
       GDT_SEGMENT_DESCRIPTOR_ACCESS_NOT_SYSTEM) (GDT_SEGMENT_DESCRIPTOR_ACCESS_DPL 0))
       GDT_SEGMENT_DESCRIPTOR_ACCESS_PRESENT)
    (Z.lor (Z.lor GDT_SEGMENT_DESCRIPTOR_FLAGS_GRANULARITY_PAGES GDT_SEGMENT_DESCRIPTOR_FLAGS_LONG_MODE_CODE)
       (GDT_SEGMENT_DESCRIPTOR_FLAGS_LIMIT_HIGH 0xf)) 0
].

(** * hv/include/rkhv/interrupts.h *)

Definition IDT_LEN : Z := 256.
Definition IDT_GATE_DESCRIPTOR_BITFIELD_PRESENT : Z := 0x80.
Definition IDT_GATE_DESCRIPTOR_BITFIELD_DPL (x : Z) : Z := Z.shiftl (Z.land x 3) 5.
Definition IDT_GATE_DESCRIPTOR_BITFIELD_GATE_INT : Z := 0x0E.
Definition IDT_GATE_DESCRIPTOR_BITFIELD_GATE_TRAP : Z := 0x0F.

(** The initial value of the static [IDT] of hv/src/interrupts.c. *)
Definition IDT_initial : list idt_gate_descriptor_t :=
  replicate (Z.to_nat IDT_LEN) (mk_idt_gate 0 0 0 0 0 0 0).

(** * hv/src/vmm/vmx_vmcs.h *)

Definition VMCS_CF_VPID : Z := 0x00000000.
Definition VMCS_CF_POSTED_INTERRUPT_NOTIFICATION_VECTOR : Z := 0x00000002.
Definition VMCS_CF_EPTP_INDEX : Z := 0x00000004.
Definition VMCS_CF_HLAT_PREFIX_SIZE : Z := 0x00000006.
Definition VMCS_CF_LAST_PID_POINTER_INDEX : Z := 0x00000008.
Definition VMCS_CF_ADDRESS_OF_MSR_BITMAPS : Z := 0x00002004.
Definition VMCS_CF_VM_EXIT_MSR_STORE_ADDRESS : Z := 0x00002006.
Definition VMCS_CF_VM_EXIT_MSR_LOAD_ADDRESS : Z := 0x00002008.
Definition VMCS_CF_VM_ENTRY_MSR_LOAD_ADDRESS : Z := 0x0000200A.
Definition VMCS_CF_EXECUTIVE_VMCS_POINTER : Z := 0x0000200C.
Definition VMCS_CF_PML_ADDRESS : Z := 0x0000200E.
Definition VMCS_CF_TSC_OFFSET : Z := 0x00002010.
Definition VMCS_CF_VIRTUAL_APIC_ADDRESS : Z := 0x00002012.
Definition VMCS_CF_APIC_ACCESS_ADDRESS : Z := 0x00002014.
Definition VMCS_CF_POSTED_INTERRUPT_DESCRIPTOR_ADDRESS : Z := 0x00002016.
Definition VMCS_CF_VM_FUNCTION_CONTROLS : Z := 0x00002018.
Definition VMCS_CF_EPT_POINTER : Z := 0x0000201A.
Definition VMCS_CF_EOI_EXIT_BITMAP_0 : Z := 0x0000201C.
Definition VMCS_CF_EOI_EXIT_BITMAP_1 : Z := 0x0000201E.
Definition VMCS_CF_EOI_EXIT_BITMAP_2 : Z := 0x00002020.
Definition VMCS_CF_EOI_EXIT_BITMAP_3 : Z := 0x00002022.
Definition VMCS_CF_EPTP_LIST_ADDRESS : Z := 0x00002024.
Definition VMCS_CF_VMREAD_BITMAP_ADDRESS : Z := 0x00002026.
Definition VMCS_CF_VMWRITE_BITMAP_ADDRESS : Z := 0x00002028.
Definition VMCS_CF_VIRTUALIZATION_EXCEPTION_INFORMATION_ADDRESS : Z := 0x0000202A.
Definition VMCS_CF_XSS_EXITING_BITMAP : Z := 0x0000202C.
Definition VMCS_CF_ENCLS_EXITING_BITMAP : Z := 0x0000202E.
Definition VMCS_CF_SUB_PAGE_PERMISSION_TABLE_POINTER : Z := 0x00002030.
Definition VMCS_CF_TSC_MULTIPLIER : Z := 0x00002032.
Definition VMCS_CF_TERTIARY_PROCESSOR_BASED_VM_EXECUTION_CONTROLS : Z := 0x00002034.
Definition VMCS_CF_ENCLV_EXITING_BITMAP : Z := 0x00002036.
Definition VMCS_CF_LOW_PASID_DIRECTORY_ADDRESS : Z := 0x00002038.
Definition VMCS_CF_HIGH_PASID_DIRECTORY_ADDRESS : Z := 0x0000203A.
Definition VMCS_CF_SHARED_EPT_POINTER : Z := 0x0000203C.
Definition VMCS_CF_PCONFIG_EXITING_BITMAP : Z := 0x0000203E.
Definition VMCS_CF_HYPERVISOR_MANAGED_LINEAR_ADDRESS_TRANSLATION_POINTER : Z := 0x00002040.
Definition VMCS_CF_PID_POINTER_TABLE_ADDRESS : Z := 0x00002042.
Definition VMCS_CF_SECONDARY_VM_EXIT_CONTROLS : Z := 0x00002044.
Definition VMCS_CF_PIN_BASED_VM_EXECUTION_CONTROLS : Z := 0x00004000.
Definition VMCS_CF_PRIMARY_PROCESSOR_BASED_VM_EXECUTION_CONTROLS : Z := 0x00004002.
Definition VMCS_CF_EXCEPTION_BITMAP : Z := 0x00004004.
Definition VMCS_CF_PAGE_FAULT_ERROR_CODE_MASK : Z := 0x00004006.
Definition VMCS_CF_PAGE_FAULT_ERROR_CODE_MATCH : Z := 0x00004008.
Definition VMCS_CF_CR3_TARGET_COUNT : Z := 0x0000400A.
Definition VMCS_CF_PRIMARY_VM_EXIT_CONTROLS : Z := 0x0000400C.
Definition VMCS_CF_VM_EXIT_MSR_STORE_COUNT : Z := 0x0000400E.
Definition VMCS_CF_VM_EXIT_MSR_LOAD_COUNT : Z := 0x00004010.
Definition VMCS_CF_VM_ENTRY_CONTROLS : Z := 0x00004012.
Definition VMCS_CF_VM_ENTRY_MSR_LOAD_COUNT : Z := 0x00004014.
Definition VMCS_CF_VM_ENTRY_INTERRUPTION_INFORMATION_FIELD : Z := 0x00004016.
Definition VMCS_CF_VM_ENTRY_EXCEPTION_ERROR_CODE : Z := 0x00004018.
Definition VMCS_CF_VM_ENTRY_INSTRUCTION_LENGTH : Z := 0x0000401A.
Definition VMCS_CF_TPR_THRESHOLD : Z := 0x0000401C.
Definition VMCS_CF_SECONDARY_PROCESSOR_BASED_VM_EXECUTION_CONTROLS : Z := 0x0000401E.
Definition VMCS_CF_PLE_GAP : Z := 0x00004020.
Definition VMCS_CF_PLE_WINDOW : Z := 0x00004022.
Definition VMCS_CF_CR0_GUEST_HOST_MASK : Z := 0x00006000.
Definition VMCS_CF_CR4_GUEST_HOST_MASK : Z := 0x00006002.
Definition VMCS_CF_CR0_READ_SHADOW : Z := 0x00006004.
Definition VMCS_CF_CR4_READ_SHADOW : Z := 0x00006006.
Definition VMCS_CF_CR3_TARGET_VALUE_0 : Z := 0x00006008.
Definition VMCS_CF_CR3_TARGET_VALUE_1 : Z := 0x0000600A.
Definition VMCS_CF_CR3_TARGET_VALUE_2 : Z := 0x0000600C.
Definition VMCS_CF_CR3_TARGET_VALUE_3 : Z := 0x0000600E.
Definition VMCS_CF_PPBVMEC_HLT_EXITING : Z := Z.shiftl 1 7.
Definition VMCS_CF_PPBVMEC_UNCONDITIONAL_IO_EXITING : Z := Z.shiftl 1 24.
Definition VMCS_CF_PPBVMEC_USE_MSR_BITMAPS : Z := Z.shiftl 1 28.
Definition VMCS_CF_PPBVMEC_ACTIVATE_SECONDARY_CONTROLS : Z := int32 (Z.shiftl 1 31).
Definition VMCS_CF_SPBVMEC_ENABLE_EPT : Z := Z.shiftl 1 1.
Definition VMCS_CF_SPBVMEC_UNRESTRICTED_GUEST : Z := Z.shiftl 1 7.
Definition VMCS_CF_SPBVMEC_ENABLE_INVPCID : Z := Z.shiftl 1 12.
Definition VMCS_CF_SPBVMEC_ENABLE_XSAVES_XRSTORS : Z := Z.shiftl 1 20.
Definition VMCS_CF_EPTP_UNCACHEABLE : Z := 0.
Definition VMCS_CF_EPTP_WRITE_BACK : Z := 6.
Definition VMCS_CF_EPTP_PAGE_WALK_LENGTH_4 : Z := Z.shiftl 3 3.
Definition VMCS_CF_EPTP_ACCESSED_DIRTY_FLAGS : Z := Z.shiftl 1 6.
Definition VMCS_CF_EPTP_SUPERVISOR_SHADOW_STACK : Z := Z.shiftl 1 7.
Definition VMCS_CF_EPTP_PHYSICAL_ADDRESS_PML4 : Z := Z.lnot 0xfff.
Definition VMCS_CF_VMEX_HOST_ADDRESS_SPACE_SIZE : Z := Z.shiftl 1 9.
Definition VMCS_CF_VMEX_SAVE_IA32_EFER : Z := Z.shiftl 1 20.
Definition VMCS_CF_VMEX_LOAD_IA32_EFER : Z := Z.shiftl 1 21.
Definition VMCS_CF_VMEN_IA_32E_MODE_GUEST : Z := Z.shiftl 1 9.
Definition VMCS_CF_VMEN_LOAD_IA32_EFER : Z := Z.shiftl 1 15.
Definition VMCS_HOST_ES : Z := 0x00000C00.
Definition VMCS_HOST_CS : Z := 0x00000C02.
Definition VMCS_HOST_SS : Z := 0x00000C04.
Definition VMCS_HOST_DS : Z := 0x00000C06.
Definition VMCS_HOST_FS : Z := 0x00000C08.
Definition VMCS_HOST_GS : Z := 0x00000C0A.
Definition VMCS_HOST_TR : Z := 0x00000C0C.
Definition VMCS_HOST_CR0 : Z := 0x00006C00.
Definition VMCS_HOST_CR3 : Z := 0x00006C02.
Definition VMCS_HOST_CR4 : Z := 0x00006C04.
Definition VMCS_HOST_FS_BASE : Z := 0x00006C06.
Definition VMCS_HOST_GS_BASE : Z := 0x00006C08.
Definition VMCS_HOST_TR_BASE : Z := 0x00006C0A.
Definition VMCS_HOST_GDTR_BASE : Z := 0x00006C0C.
Definition VMCS_HOST_IDTR_BASE : Z := 0x00006C0E.
Definition VMCS_HOST_IA32_SYSENTER_ESP : Z := 0x00006C10.
Definition VMCS_HOST_IA32_SYSENTER_EIP : Z := 0x00006C12.
Definition VMCS_HOST_RSP : Z := 0x00006C14.
Definition VMCS_HOST_RIP : Z := 0x00006C16.
Definition VMCS_HOST_IA32_S_CET : Z := 0x00006C18.
Definition VMCS_HOST_SSP1 : Z := 0x00006C1A.
Definition VMCS_HOST_IA32_INTERRUPT_SSP_TABLE_ADDR1 : Z := 0x00006C1C.
Definition VMCS_HOST_IA32_PAT : Z := 0x00002C00.
Definition VMCS_HOST_IA32_EFER : Z := 0x00002C02.
Definition VMCS_HOST_IA32_PERF_GLOBAL_CTRL : Z := 0x00002C04.
Definition VMCS_HOST_IA32_PKRS : Z := 0x00002C06.
Definition VMCS_GUEST_ES : Z := 0x00000800.
Definition VMCS_GUEST_CS : Z := 0x00000802.
Definition VMCS_GUEST_SS : Z := 0x00000804.
Definition VMCS_GUEST_DS : Z := 0x00000806.
Definition VMCS_GUEST_FS : Z := 0x00000808.
Definition VMCS_GUEST_GS : Z := 0x0000080A.
Definition VMCS_GUEST_LDTR : Z := 0x0000080C.
Definition VMCS_GUEST_TR : Z := 0x0000080E.
Definition VMCS_GUEST_INTERRUPT_STATUS : Z := 0x00000810.
Definition VMCS_GUEST_PML_INDEX : Z := 0x00000812.
Definition VMCS_GUEST_UINV : Z := 0x00000814.
Definition VMCS_GUEST_VMCS_LINK_POINTER : Z := 0x00002800.
Definition VMCS_GUEST_IA32_DEBUGCTL : Z := 0x00002802.
Definition VMCS_GUEST_IA32_EFER : Z := 0x00002806.
Definition VMCS_GUEST_ES_LIMIT : Z := 0x00004800.
Definition VMCS_GUEST_CS_LIMIT : Z := 0x00004802.
Definition VMCS_GUEST_SS_LIMIT : Z := 0x00004804.
Definition VMCS_GUEST_DS_LIMIT : Z := 0x00004806.
Definition VMCS_GUEST_FS_LIMIT : Z := 0x00004808.
Definition VMCS_GUEST_GS_LIMIT : Z := 0x0000480A.
Definition VMCS_GUEST_LDTR_LIMIT : Z := 0x0000480C.
Definition VMCS_GUEST_TR_LIMIT : Z := 0x0000480E.
Definition VMCS_GUEST_GDTR_LIMIT : Z := 0x00004810.
Definition VMCS_GUEST_IDTR_LIMIT : Z := 0x00004812.
Definition VMCS_GUEST_ES_ACCESS_RIGHTS : Z := 0x00004814.
Definition VMCS_GUEST_CS_ACCESS_RIGHTS : Z := 0x00004816.
Definition VMCS_GUEST_SS_ACCESS_RIGHTS : Z := 0x00004818.
Definition VMCS_GUEST_DS_ACCESS_RIGHTS : Z := 0x0000481A.
Definition VMCS_GUEST_FS_ACCESS_RIGHTS : Z := 0x0000481C.
Definition VMCS_GUEST_GS_ACCESS_RIGHTS : Z := 0x0000481E.
Definition VMCS_GUEST_LDTR_ACCESS_RIGHTS : Z := 0x00004820.
Definition VMCS_GUEST_TR_ACCESS_RIGHTS : Z := 0x00004822.
Definition VMCS_GUEST_INTERRUPTIBILITY_STATE : Z := 0x00004824.
Definition VMCS_GUEST_ACTIVITY_STATE : Z := 0x00004826.
Definition VMCS_GUEST_SMBASE : Z := 0x00004828.
Definition VMCS_GUEST_IA32_SYSENTER_CS : Z := 0x0000482A.
Definition VMCS_GUEST_VMX_PREEMPTION_TIMER_VALUE : Z := 0x0000482E.
Definition VMCS_GUEST_CR0 : Z := 0x00006800.
Definition VMCS_GUEST_CR3 : Z := 0x00006802.
Definition VMCS_GUEST_CR4 : Z := 0x00006804.
Definition VMCS_GUEST_ES_BASE : Z := 0x00006806.
Definition VMCS_GUEST_CS_BASE : Z := 0x00006808.
Definition VMCS_GUEST_SS_BASE : Z := 0x0000680A.
Definition VMCS_GUEST_DS_BASE : Z := 0x0000680C.
Definition VMCS_GUEST_FS_BASE : Z := 0x0000680E.
Definition VMCS_GUEST_GS_BASE : Z := 0x00006810.
Definition VMCS_GUEST_LDTR_BASE : Z := 0x00006812.
Definition VMCS_GUEST_TR_BASE : Z := 0x00006814.
Definition VMCS_GUEST_GDTR_BASE : Z := 0x00006816.
Definition VMCS_GUEST_IDTR_BASE : Z := 0x00006818.
Definition VMCS_GUEST_DR7 : Z := 0x0000681A.
Definition VMCS_GUEST_RSP : Z := 0x0000681C.
Definition VMCS_GUEST_RIP : Z := 0x0000681E.
Definition VMCS_GUEST_RFLAGS : Z := 0x00006820.
Definition VMCS_GUEST_PENDING_DEBUG_EXCEPTIONS : Z := 0x00006822.
Definition VMCS_GUEST_IA32_SYSENTER_ESP : Z := 0x00006824.
Definition VMCS_GUEST_IA32_SYSENTER_EIP : Z := 0x00006826.
Definition VMCS_GUEST_IA32_S_CET : Z := 0x00006828.
Definition VMCS_GUEST_SSP : Z := 0x0000682A.
Definition VMCS_GUEST_IA32_INTERRUPT_SSP_TABLE_ADDR : Z := 0x0000682C.
Definition VMCS_INVALID_LINK_POINTER : Z := 0xffffffffffffffff.
Definition VMCS_UNUSABLE_SEGMENT : Z := Z.shiftl 1 16.
Definition VMCS_EXIT_REASON : Z := 0x00004402.
Definition VMCS_VM_EXIT_INSTRUCTION_LENGTH : Z := 0x0000440C.
Definition VMCS_EXIT_QUALIFICATION : Z := 0x00006400.
Definition VMCS_MSR_BITMAPS_READ_LOW : Z := 0.
Definition VMCS_MSR_BITMAPS_READ_HIGH : Z := 1024.
Definition VMCS_MSR_BITMAPS_WRITE_LOW : Z := 2048.
Definition VMCS_MSR_BITMAPS_WRITE_HIGH : Z := 3072.
Definition VMCS_MSR_BITMAPS_HIGH_BASE : Z := 0xc0000000.

Definition VMCS_MSR_BITMAPS_LOW_OFFSET (x : Z) : Z := x / 8.
Definition VMCS_MSR_BITMAPS_LOW_SHIFT (x : Z) : Z := x mod 8.
Definition VMCS_MSR_BITMAPS_HIGH_OFFSET (x : Z) : Z := (x - VMCS_MSR_BITMAPS_HIGH_BASE) / 8.
Definition VMCS_MSR_BITMAPS_HIGH_SHIFT (x : Z) : Z := (x - VMCS_MSR_BITMAPS_HIGH_BASE) mod 8.

(** * Instructions *)

Section instructions.
Context `{HW : Hardware}.

Definition rdmsr (msr : Z) : M machine Z := mgets (λ s, hw_rdmsr msr (m_hw s)).
Definition wrmsr (msr value : Z) : M machine () :=
  mmodify (λ s, s <| m_hw := hw_wrmsr msr value (m_hw s) |>).
Definition cr0_read : M machine Z := mgets (λ s, hw_cr0 (m_hw s)).
Definition cr3_read : M machine Z := mgets (λ s, hw_cr3 (m_hw s)).
Definition cr4_read : M machine Z := mgets (λ s, hw_cr4 (m_hw s)).
Definition cr4_write (value : Z) : M machine () :=
  mmodify (λ s, s <| m_hw := hw_cr4_write value (m_hw s) |>).

End instructions.
