(* ===== verification/SimpleCpu.v ===== *)
(** A concrete processor.

    An instance of [Hardware] with finite maps for the model-specific registers and
    the fields of the VMCSs, and an always-ready serial port that records what is
    sent to COM1. It shows that the hypotheses made on the hardware can hold, and
    lets the definitions be run on concrete states. *)
From S2P Require Import Prelude Memory Machine Registers.

Record cpu := mk_cpu {
  cpu_msrs : gmap Z Z;
  cpu_cr0 : Z;
  cpu_cr3 : Z;
  cpu_cr4 : Z;
  cpu_xcr0 : Z;
  cpu_gdtr : table_register;
  cpu_idtr : table_register;
  cpu_current_vmcs : Z;
  cpu_vmcs_fields : gmap (Z * Z) Z;
  cpu_serial_output : list Z;
  cpu_com1_line_control : Z;
}.
#[export] Instance set_cpu_msrs : Setter cpu_msrs := λ f r, mk_cpu (f (cpu_msrs r)) (cpu_cr0 r) (cpu_cr3 r) (cpu_cr4 r) (cpu_xcr0 r) (cpu_gdtr r) (cpu_idtr r) (cpu_current_vmcs r) (cpu_vmcs_fields r) (cpu_serial_output r) (cpu_com1_line_control r).
#[export] Instance set_cpu_cr4 : Setter cpu_cr4 := λ f r, mk_cpu (cpu_msrs r) (cpu_cr0 r) (cpu_cr3 r) (f (cpu_cr4 r)) (cpu_xcr0 r) (cpu_gdtr r) (cpu_idtr r) (cpu_current_vmcs r) (cpu_vmcs_fields r) (cpu_serial_output r) (cpu_com1_line_control r).
#[export] Instance set_cpu_xcr0 : Setter cpu_xcr0 := λ f r, mk_cpu (cpu_msrs r) (cpu_cr0 r) (cpu_cr3 r) (cpu_cr4 r) (f (cpu_xcr0 r)) (cpu_gdtr r) (cpu_idtr r) (cpu_current_vmcs r) (cpu_vmcs_fields r) (cpu_serial_output r) (cpu_com1_line_control r).
#[export] Instance set_cpu_gdtr : Setter cpu_gdtr := λ f r, mk_cpu (cpu_msrs r) (cpu_cr0 r) (cpu_cr3 r) (cpu_cr4 r) (cpu_xcr0 r) (f (cpu_gdtr r)) (cpu_idtr r) (cpu_current_vmcs r) (cpu_vmcs_fields r) (cpu_serial_output r) (cpu_com1_line_control r).
#[export] Instance set_cpu_idtr : Setter cpu_idtr := λ f r, mk_cpu (cpu_msrs r) (cpu_cr0 r) (cpu_cr3 r) (cpu_cr4 r) (cpu_xcr0 r) (cpu_gdtr r) (f (cpu_idtr r)) (cpu_current_vmcs r) (cpu_vmcs_fields r) (cpu_serial_output r) (cpu_com1_line_control r).
#[export] Instance set_cpu_current_vmcs : Setter cpu_current_vmcs := λ f r, mk_cpu (cpu_msrs r) (cpu_cr0 r) (cpu_cr3 r) (cpu_cr4 r) (cpu_xcr0 r) (cpu_gdtr r) (cpu_idtr r) (f (cpu_current_vmcs r)) (cpu_vmcs_fields r) (cpu_serial_output r) (cpu_com1_line_control r).
#[export] Instance set_cpu_vmcs_fields : Setter cpu_vmcs_fields := λ f r, mk_cpu (cpu_msrs r) (cpu_cr0 r) (cpu_cr3 r) (cpu_cr4 r) (cpu_xcr0 r) (cpu_gdtr r) (cpu_idtr r) (cpu_current_vmcs r) (f (cpu_vmcs_fields r)) (cpu_serial_output r) (cpu_com1_line_control r).
#[export] Instance set_cpu_serial_output : Setter cpu_serial_output := λ f r, mk_cpu (cpu_msrs r) (cpu_cr0 r) (cpu_cr3 r) (cpu_cr4 r) (cpu_xcr0 r) (cpu_gdtr r) (cpu_idtr r) (cpu_current_vmcs r) (cpu_vmcs_fields r) (f (cpu_serial_output r)) (cpu_com1_line_control r).
#[export] Instance set_cpu_com1_line_control : Setter cpu_com1_line_control := λ f r, mk_cpu (cpu_msrs r) (cpu_cr0 r) (cpu_cr3 r) (cpu_cr4 r) (cpu_xcr0 r) (cpu_gdtr r) (cpu_idtr r) (cpu_current_vmcs r) (cpu_vmcs_fields r) (cpu_serial_output r) (f (cpu_com1_line_control r)).

(** COM1: the line status register always says that the transmitter is empty; a byte is
    sent when the divisor latch is not selected. *)
#[export] Instance simple_hardware : Hardware := {|
  hw_state := cpu;
  hw_rdmsr := λ msr c, default 0 (cpu_msrs c !! msr);
  hw_wrmsr := λ msr v c, c <| cpu_msrs := <[msr := v]> (cpu_msrs c) |>;
  hw_cr0 := cpu_cr0;
  hw_cr3 := cpu_cr3;
  hw_cr4 := cpu_cr4;
  hw_cr4_write := λ v c, c <| cpu_cr4 := v |>;
  hw_cpuid := λ eax ecx c, (eax, 0, ecx, 0);
  hw_xsetbv := λ v c, c <| cpu_xcr0 := v |>;
  hw_sgdt := cpu_gdtr;
  hw_sidt := cpu_idtr;
  hw_inb := λ port c, (if port =? 0x3FD then 0x60 else 0, c);
  hw_outb := λ port v c,
    if port =? 0x3FB then c <| cpu_com1_line_control := v |>
    else if (port =? 0x3F8) && negb (Z.testbit (cpu_com1_line_control c) 7)
    then c <| cpu_serial_output := cpu_serial_output c ++ [v] |> else c;
  hw_vmxon := λ _ c, (0, c);
  hw_vmclear := λ _ c, (0, c);
  hw_vmptrld := λ p c, (0, c <| cpu_current_vmcs := p |>);
  hw_vmptrst := λ c, (0, cpu_current_vmcs c);
  hw_vmread := λ f c, (0, default 0 (cpu_vmcs_fields c !! (cpu_current_vmcs c, f)));
  hw_vmwrite := λ f v c,
    (0, c <| cpu_vmcs_fields := <[(cpu_current_vmcs c, f) := v]> (cpu_vmcs_fields c) |>);
|}.

Definition initial_cpu : cpu :=
  mk_cpu ∅ 0x80050033 0 0x2620 1 (mk_table_register 23 0) (mk_table_register 4095 0) 0 ∅ [] 0.

(** The state of the hypervisor when [hvmain] is entered: the static variables have
    their initial values. *)
Definition initial_machine (cp : chainload_page_t) (m : mem) : machine :=
  mk_machine m cp SIZE_MAX SIZE_MAX 0 ∅ ∅ false 0 false 0 0 0 0 ∅ 0 ∅ ∅
    (mk_msr_state 0 0 0 0 0 0 0) false 0 0 GDT_initial IDT_initial initial_cpu.

(** A memory map of two usable regions, pages 0 to 3 and pages 16 to [15 + n], and a
    reserved one in between. *)
Definition small_mmap (n : Z) : list chainload_mmap_desc_t :=
  [mk_mmap_desc 0 4 true; mk_mmap_desc 0x4000 12 false; mk_mmap_desc 0x10000 n true]
  ++ replicate 228 (mk_mmap_desc 0 0 false).

(** The chainload page is at page 1; the kernel section at page 2. *)
Definition small_chainload_page (n : Z) : chainload_page_t :=
  mk_chainload_page [mk_section 0x2000 1; mk_section 0 0; mk_section 0 0; mk_section 0 0]
    0x1000 (replicate 4 (mk_attachment 0 0 0)) (replicate 16 (mk_page_table_region 0 0))
    (small_mmap n).

Definition small_machine (n : Z) : machine := initial_machine (small_chainload_page n) ∅.
