(* ===== verification/Strings.v ===== *)
(** Number formatting and the formatted output language (hv/src/string.c,
    hv/include/rkhv/string.h).

    A C string is the list of its bytes with the terminating NUL; a local array is a
    list whose writes are checked. [str_printf_core] is proved to print what the comment
    of string.h says of each conversion, for any pair of handlers. *)
From S2P Require Import Prelude.

(** * The code *)

(** A pointer to a string, [None] for [NULL]; the bytes up to the terminating NUL. *)
Abbreviation c_string := (option (list Z)).

(** What the callers of a [va_list] function pass. *)
Inductive printf_arg := ArgString (str : c_string) | ArgInt (value : Z).

Section code.
Context {St : Type}.
Implicit Types (buffer fmt : list Z) (args : list printf_arg).

(** [buffer[index] = v] *)
Definition buffer_store buffer (index v : Z) : M St (list Z) :=
  if (0 <=? index) && (index <? Z.of_nat (length buffer))
  then mret (<[Z.to_nat index := v]> buffer) else mundefined.

(** The bytes from a pointer up to the first NUL. *)
Fixpoint bytes_to_nul buffer : M St (list Z) :=
  match buffer with
  | [] => mundefined
  | c :: buffer => if c =? 0 then mret [] else l ← bytes_to_nul buffer; mret (c :: l)
  end.
Definition string_at buffer (start : Z) : M St c_string :=
  l ← bytes_to_nul (drop (Z.to_nat start) buffer); mret (Some l).

(** [u'0' + nibble] or [u'a' + nibble - 10] *)
Definition hex_digit (nibble : Z) : Z := if nibble <? 10 then 0x30 + nibble else 0x61 + nibble - 10.

(** The iterations for the indices below [n]; [out_string] is the index of the first
    digit in the array. *)
Fixpoint str_itoh_loop (n : nat) buffer (out_string value : Z) (trimmed_start : option Z) :
    M St (list Z * option Z) :=
  match n with
  | O => mret (buffer, trimmed_start)
  | S n' =>
    let index := Z.of_nat n' in
    let nibble := Z.land value 0xf in
    buffer ← buffer_store buffer (out_string + index) (hex_digit nibble);
    let value := Z.shiftr value 4 in
    let trimmed_start := if (value =? 0) && negb (bool_decide (is_Some trimmed_start))
                         then Some (out_string + index) else trimmed_start in
    str_itoh_loop n' buffer out_string value trimmed_start
  end.

(** Returns the array and the pointer that the C function returns, [None] for [NULL]. *)
Definition str_itoh buffer (out_string value size : Z) : M St (list Z * option Z) :=
  str_itoh_loop (Z.to_nat size) buffer out_string value None.

(** The loop ends at the index 0 even when [value] is not 0. *)
Fixpoint str_utoa_loop (index : nat) buffer (value : Z) : M St (list Z * Z) :=
  buffer ← buffer_store buffer (Z.of_nat index) (0x30 + value mod 10);
  let value := value / 10 in
  match index with
  | O => mret (buffer, 0)
  | S index' => if value =? 0 then mret (buffer, Z.of_nat index)
                else str_utoa_loop index' buffer value
  end.

Definition str_utoa buffer (value buffer_size : Z) : M St (list Z * Z) :=
  if buffer_size =? 0 then mundefined
  else str_utoa_loop (Z.to_nat (buffer_size - 1)) buffer value.

Definition va_arg_string args : M St (c_string * list printf_arg) :=
  match args with ArgString str :: args => mret (str, args) | _ => mundefined end.
Definition va_arg_uintptr args : M St (Z * list printf_arg) :=
  match args with ArgInt v :: args => mret (v, args) | _ => mundefined end.

(** [char buffer[] = "0x????????????????";] *)
Definition hex_buffer : list Z := [0x30; 0x78] ++ replicate 16 0x3F ++ [0].

(** The number of digits of the length character. *)
Definition hex_length (len_char : Z) : Z :=
  if len_char =? 0x62 (* b *) then 2
  else if len_char =? 0x77 (* w *) then 4
  else if len_char =? 0x64 (* d *) then 8
  else if len_char =? 0x71 (* q *) then 16
  else 16.

Section printf.
Variable char_handler : Z → M St ().
Variable string_handler : c_string → M St ().

(** The cases [s], [p] and [u] of the [switch]. *)
Definition str_printf_string args : M St (list printf_arg) :=
  '(substr, args) ← va_arg_string args; string_handler substr;; mret args.
Definition str_printf_pointer args : M St (list printf_arg) :=
  '(value, args) ← va_arg_uintptr args;
  '(buffer, _) ← str_itoh hex_buffer 2 value 16;
  str ← string_at buffer 0; string_handler str;; mret args.
Definition str_printf_unsigned args : M St (list printf_arg) :=
  '(value, args) ← va_arg_uintptr args;
  '(buffer, start) ← str_utoa (replicate 32 0x3F) value 31;
  buffer ← buffer_store buffer 31 0;
  str ← string_at buffer start; string_handler str;; mret args.

(** The case [x]. *)
Definition str_printf_hex (prefixed_char len_char : Z) args : M St (list printf_arg) :=
  '(value, args) ← va_arg_uintptr args;
  let len := hex_length len_char in
  buffer ← buffer_store hex_buffer (len + 2) 0;
  '(buffer, trimmed_start) ← str_itoh buffer 2 value len;
  str ← (if prefixed_char =? 0x74 (* t *) then
           match trimmed_start with None => mret None | Some i => string_at buffer i end
         else if prefixed_char =? 0x70 (* p *) then string_at buffer 0
         else string_at buffer 2);
  string_handler str;; mret args.

(** [fmt] is read up to its NUL; to read after its end is undefined. *)
Fixpoint str_printf_core_loop (read_z : bool) fmt args : M St () :=
  match fmt with
  | [] => mundefined
  | c :: fmt' =>
    if c =? 0 then mret ()
    else if negb (c =? 0x25 (* % *)) && negb read_z
    then char_handler c;; str_printf_core_loop read_z fmt' args
    else
    match (if read_z then fmt else fmt') with
    | [] => mundefined
    | type :: fmt =>
      if type =? 0x73 (* s *) then
        args ← str_printf_string args; str_printf_core_loop false fmt args
      else if type =? 0x70 (* p *) then
        args ← str_printf_pointer args; str_printf_core_loop false fmt args
      else if type =? 0x75 (* u *) then
        args ← str_printf_unsigned args; str_printf_core_loop false fmt args
      else if type =? 0x78 (* x *) then
        match fmt with
        | prefixed_char :: len_char :: fmt =>
          args ← str_printf_hex prefixed_char len_char args;
          str_printf_core_loop false fmt args
        | _ => mundefined
        end
      else if type =? 0x7A (* z *) then str_printf_core_loop true fmt args
      else char_handler type;; str_printf_core_loop false fmt args
    end
  end.

Definition str_printf_core fmt args : M St () := str_printf_core_loop false fmt args.
End printf.

(** [str_strlen]: the number of bytes before the NUL. *)
Fixpoint str_strlen_loop (n : Z) (s : list Z) : M St Z :=
  match s with
  | [] => mundefined
  | c :: s => if c =? 0 then mret n else str_strlen_loop (u64 (n + 1)) s
  end.
Definition str_strlen (s : list Z) : M St Z := str_strlen_loop 0 s.
End code.

(** * Number formatting *)

(** The [n] low hexadecimal digits of [v], most significant first. *)
Fixpoint hex_digits (n : nat) (v : Z) : list Z :=
  match n with O => [] | S n' => hex_digits n' (v / 16) ++ [hex_digit (v mod 16)] end.

(** The decimal digits of [v], at most [n + 1] of them, without leading zeros. *)
Fixpoint dec_digits (n : nat) (v : Z) : list Z :=
  match n with
  | O => [0x30 + v mod 10]
  | S n' => if v / 10 =? 0 then [0x30 + v mod 10] else dec_digits n' (v / 10) ++ [0x30 + v mod 10]
  end.

(** The value of a digit and of a string of digits. *)
Definition digit_value (c : Z) : Z := if c <? 0x3A then c - 0x30 else c - 0x61 + 10.
Definition parse_digits (base : Z) (l : list Z) : Z := foldl (λ acc c, acc * base + digit_value c) 0 l.

(** Leading zeros removed, keeping one digit. *)
Fixpoint trim_zeros (l : list Z) : list Z :=
  match l with
  | c :: (_ :: _) as l' => if c =? 0x30 then trim_zeros l' else l
  | _ => l
  end.

Section digits.

Lemma parse_digits_snoc base l c : parse_digits base (l ++ [c]) = parse_digits base l * base + digit_value c.
Proof. unfold parse_digits. by rewrite foldl_app. Qed.

Lemma digit_value_hex x : 0 ≤ x < 16 → digit_value (hex_digit x) = x.
Proof.
  intros Hx. unfold digit_value, hex_digit.
  destruct (Z.ltb_spec x 10); case_match eqn:E; (apply Z.ltb_lt in E || apply Z.ltb_ge in E); lia.
Qed.

Lemma digit_value_dec x : 0 ≤ x < 10 → digit_value (0x30 + x) = x.
Proof. intros Hx. unfold digit_value. destruct (Z.ltb_spec (0x30 + x) 0x3A); lia. Qed.

Lemma hex_digits_length n v : length (hex_digits n v) = n.
Proof. revert v. induction n as [|n IH]; intros v; simpl; [done|]. rewrite length_app, IH. simpl. lia. Qed.

Lemma hex_digit_not_nul x : 0 ≤ x → hex_digit x ≠ 0.
Proof. intros Hx. unfold hex_digit. case_match; lia. Qed.

Lemma hex_digits_not_nul n v : 0 ≤ v → 0 ∉ hex_digits n v.
Proof.
  revert v. induction n as [|n IH]; intros v Hv; simpl; [apply not_elem_of_nil|].
  rewrite elem_of_app, list_elem_of_singleton. intros [Hin|Hin].
  - eapply IH; [|done]. by apply Z.div_pos.
  - symmetry in Hin. revert Hin. apply hex_digit_not_nul. by apply Z.mod_pos_bound.
Qed.

Lemma parse_hex_digits n v : 0 ≤ v → parse_digits 16 (hex_digits n v) = v mod 16 ^ Z.of_nat n.
Proof.
  revert v. induction n as [|n IH]; intros v Hv.
  - by rewrite Z.mod_1_r.
  - cbn [hex_digits]. rewrite parse_digits_snoc, IH by (apply Z.div_pos; lia).
    rewrite digit_value_hex by (apply Z.mod_pos_bound; lia).
    rewrite Nat2Z.inj_succ, Z.pow_succ_r, Z.rem_mul_r by lia. lia.
Qed.

Lemma parse_dec_digits n v :
  0 ≤ v < 10 ^ Z.of_nat (S n) → parse_digits 10 (dec_digits n v) = v.
Proof.
  revert v. induction n as [|n IH]; intros v Hv.
  - cbn [dec_digits]. unfold parse_digits. simpl foldl.
    change (10 ^ Z.of_nat 1) with 10 in Hv. rewrite Z.mod_small, digit_value_dec by lia. lia.
  - cbn [dec_digits]. rewrite Nat2Z.inj_succ, Z.pow_succ_r in Hv by lia.
    destruct (Z.eqb_spec (v / 10) 0) as [H0|H0].
    + unfold parse_digits. simpl foldl. rewrite digit_value_dec by (apply Z.mod_pos_bound; lia). zlia.
    + rewrite parse_digits_snoc, IH by zlia.
      rewrite digit_value_dec by (apply Z.mod_pos_bound; lia). zlia.
Qed.

Lemma dec_digits_not_nul n v : 0 ≤ v → 0 ∉ dec_digits n v.
Proof.
  revert v. induction n as [|n IH]; intros v Hv; simpl.
  - rewrite list_elem_of_singleton. zlia.
  - destruct (v / 10 =? 0); [rewrite list_elem_of_singleton; zlia|].
    rewrite elem_of_app, list_elem_of_singleton. intros [Hin|Hin]; [|zlia].
    eapply IH; [|done]. by apply Z.div_pos.
Qed.

(** Only the number 0 is written with a leading zero. *)
Lemma dec_digits_head n v :
  0 < v < 10 ^ Z.of_nat (S n) → ∃ c l, dec_digits n v = c :: l ∧ c ≠ 0x30.
Proof.
  revert v. induction n as [|n IH]; intros v Hv; cbn [dec_digits].
  - exists (0x30 + v mod 10), []. split; [done|]. change (10 ^ Z.of_nat 1) with 10 in Hv. zlia.
  - rewrite Nat2Z.inj_succ, Z.pow_succ_r in Hv by lia.
    destruct (Z.eqb_spec (v / 10) 0) as [H0|H0].
    + exists (0x30 + v mod 10), []. split; [done|]. zlia.
    + destruct (IH (v / 10)) as (c & l & -> & Hc); [zlia|]. by eexists c, _.
Qed.

Lemma trim_zeros_cons c c' l :
  trim_zeros (c :: c' :: l) = if c =? 0x30 then trim_zeros (c' :: l) else c :: c' :: l.
Proof. done. Qed.

(** [trim_zeros] keeps the value. *)
Lemma parse_trim_zeros base l : parse_digits base (trim_zeros l) = parse_digits base l.
Proof.
  induction l as [|c [|c' l] IH]; [done..|]. rewrite trim_zeros_cons.
  destruct (Z.eqb_spec c 0x30) as [->|]; [|done]. by rewrite IH.
Qed.

Lemma trim_zeros_snoc_zeros n d : trim_zeros (hex_digits n 0 ++ [d]) = [d].
Proof.
  assert (hex_digits n 0 = replicate n 0x30) as ->.
  { induction n as [|n IH]; [done|]. cbn [hex_digits]. change (0 / 16) with 0. rewrite IH.
    change (hex_digit (0 mod 16)) with 0x30. by rewrite <-replicate_cons_app. }
  induction n as [|n IH]; [done|]. simpl replicate. simpl app.
  destruct n as [|n]; [done|]. exact IH.
Qed.

Lemma parse_digits_nonzero base l : parse_digits base l ≠ 0 → ∃ c, c ∈ l ∧ c ≠ 0x30.
Proof.
  induction l as [|c l IH] using rev_ind; [done|]. rewrite parse_digits_snoc. intros Hp.
  destruct (decide (c = 0x30)) as [->|Hc].
  - change (digit_value 0x30) with 0 in Hp. destruct IH as (x & Hx & Hx0); [nia|].
    exists x. split; [|done]. apply elem_of_app. by left.
  - exists c. split; [|done]. apply elem_of_app. right. by apply list_elem_of_singleton.
Qed.

Lemma trim_zeros_snoc n v d :
  0 < v < 16 ^ Z.of_nat n → trim_zeros (hex_digits n v ++ [d]) = trim_zeros (hex_digits n v) ++ [d].
Proof.
  intros Hv. destruct (parse_digits_nonzero 16 (hex_digits n v)) as (c & Hc & Hc0).
  { rewrite parse_hex_digits, Z.mod_small by lia. lia. }
  clear Hv. induction (hex_digits n v) as [|x l IH]; [by apply elem_of_nil in Hc|].
  destruct l as [|y l].
  - apply list_elem_of_singleton in Hc as ->. simpl. by destruct (Z.eqb_spec x 0x30).
  - change ((x :: y :: l) ++ [d]) with (x :: y :: (l ++ [d])). rewrite !trim_zeros_cons.
    destruct (Z.eqb_spec x 0x30) as [->|]; [|done].
    apply elem_of_cons in Hc as [->|Hc]; [done|]. by apply IH.
Qed.

Lemma buffer_store_app {St} pre x post i v (s : St) :
  i = Z.of_nat (length pre) → buffer_store (pre ++ x :: post) i v s = Ok (pre ++ v :: post, s).
Proof.
  intros ->. unfold buffer_store.
  destruct (Z.leb_spec 0 (Z.of_nat (length pre))); [|lia].
  destruct (Z.ltb_spec (Z.of_nat (length pre)) (Z.of_nat (length (pre ++ x :: post)))) as [|Hl];
    [|rewrite length_app in Hl; simpl in Hl; lia].
  simpl. unfold mret, M_ret. by rewrite Nat2Z.id, insert_app_r_alt, Nat.sub_diag by lia.
Qed.

(** The pointer that [str_itoh] returns points to the first significant digit. *)
Definition trimmed_spec (off : Z) (n : nat) (v : Z) (t : option Z) : Prop :=
  match t with
  | None => n = O ∨ 16 ^ Z.of_nat n ≤ v
  | Some i => v < 16 ^ Z.of_nat n ∧ ∃ k, (k < n)%nat ∧ i = off + Z.of_nat k ∧
              drop k (hex_digits n v) = trim_zeros (hex_digits n v)
  end.

Lemma trimmed_spec_step off n v t :
  0 ≤ v → v / 16 ≠ 0 → trimmed_spec off n (v / 16) t → trimmed_spec off (S n) v t.
Proof.
  intros Hv Hd. unfold trimmed_spec. rewrite Nat2Z.inj_succ, Z.pow_succ_r by lia.
  destruct t as [i|].
  - intros (Hlt & k & Hk & -> & Hdrop). split; [zlia|]. exists k. split_and!; [lia|done|].
    cbn [hex_digits]. rewrite drop_app_le by (rewrite hex_digits_length; lia).
    rewrite Hdrop, trim_zeros_snoc; [done|]. split; [zlia|done].
  - intros [->|H]; right; [simpl|]; zlia.
Qed.

(** The loop of [str_itoh] fills [mid]. *)
Lemma str_itoh_loop_digits {St} n pre mid post v t (s : St) :
  0 ≤ v → length mid = n →
  ∃ t', str_itoh_loop n (pre ++ mid ++ post) (Z.of_nat (length pre)) v t s =
        Ok ((pre ++ hex_digits n v ++ post, t'), s) ∧
        match t with Some i => t' = Some i | None => trimmed_spec (Z.of_nat (length pre)) n v t' end.
Proof.
  revert mid post v t. induction n as [|n IH]; intros mid post v t Hv Hlen.
  - destruct mid; [|done]. exists t. split; [done|]. destruct t; [done|]. by left.
  - destruct mid as [|x mid _] using rev_ind; [done|].
    rewrite length_app in Hlen. simpl in Hlen. cbn [str_itoh_loop].
    rewrite <-app_assoc, (app_assoc pre mid ([x] ++ post)). simpl app.
    erewrite bind_ok; [|apply buffer_store_app; rewrite length_app; lia].
    change 15 with (Z.ones 4). rewrite Z.land_ones, Z.shiftr_div_pow2 by lia.
    change (2 ^ 4) with 16. rewrite <-app_assoc.
    set (t1 := if _ && _ then _ else t).
    destruct (IH mid (hex_digit (v mod 16) :: post) (v / 16) t1) as (t' & Heq & Ht');
      [by apply Z.div_pos|lia|].
    exists t'. split.
    + rewrite Heq. cbn [hex_digits]. by rewrite <-!app_assoc.
    + destruct t as [i|]; [by unfold t1 in Ht'; rewrite andb_false_r in Ht'|].
      unfold t1 in Ht'. rewrite andb_true_r in Ht'.
      destruct (Z.eqb_spec (v / 16) 0) as [H0|H0]; [subst t'|by apply trimmed_spec_step].
      split.
      * rewrite Nat2Z.inj_succ, Z.pow_succ_r by lia. zlia.
      * exists n. split_and!; [lia|lia|]. cbn [hex_digits]. rewrite H0, trim_zeros_snoc_zeros.
        rewrite drop_app_length'; [done|]. by rewrite hex_digits_length.
Qed.

(** The loop of [str_utoa] writes the digits at the end of [l ++ [x]]. *)
Lemma str_utoa_loop_digits {St} n l x post v (s : St) :
  0 ≤ v → length l = n →
  ∃ l', str_utoa_loop n (l ++ x :: post) v s =
        Ok ((l' ++ dec_digits n v ++ post, Z.of_nat (length l')), s) ∧
        (length l' + length (dec_digits n v) = S n)%nat.
Proof.
  revert l x post v. induction n as [|n IH]; intros l x post v Hv Hlen; cbn [str_utoa_loop dec_digits].
  - destruct l; [|done]. exists []. erewrite bind_ok; [|by apply buffer_store_app]. done.
  - erewrite bind_ok; [|apply buffer_store_app; lia].
    destruct (v / 10 =? 0); [exists l; rewrite <-Hlen; split; [done|simpl; lia]|].
    destruct l as [|y l _] using rev_ind; [done|]. rewrite length_app in Hlen. simpl in Hlen.
    rewrite <-app_assoc. simpl app.
    destruct (IH l y ((0x30 + v mod 10) :: post) (v / 10)) as (l' & Heq & Hl'); [by apply Z.div_pos|lia|].
    exists l'. rewrite Heq, length_app. split; [by rewrite <-!app_assoc|simpl; lia].
Qed.
End digits.

(** C33: [str_itoh] writes [length mid] hexadecimal digits of the value, in the place of
    [mid], and no other byte: read back, they are the value modulo [16 ^ length mid].
    The pointer returned is the first digit that is not a leading zero; it is [NULL]
    exactly when the value does not fit (or there is no digit to write). *)
Theorem str_itoh_correct {St} pre mid post v (s : St) :
  0 ≤ v →
  ∃ ds t, str_itoh (pre ++ mid ++ post) (Z.of_nat (length pre)) v (Z.of_nat (length mid)) s =
          Ok ((pre ++ ds ++ post, t), s) ∧
    length ds = length mid ∧ parse_digits 16 ds = v mod 16 ^ Z.of_nat (length mid) ∧
    match t with
    | None => mid = [] ∨ 16 ^ Z.of_nat (length mid) ≤ v
    | Some i => v < 16 ^ Z.of_nat (length mid) ∧
        ∃ k, i = Z.of_nat (length pre) + Z.of_nat k ∧ drop k ds = trim_zeros ds
    end.
Proof.
  intros Hv. unfold str_itoh. rewrite Nat2Z.id.
  destruct (str_itoh_loop_digits (length mid) pre mid post v None s Hv eq_refl) as (t & Heq & Ht).
  exists (hex_digits (length mid) v), t.
  split_and!; [done|by apply hex_digits_length|by apply parse_hex_digits|].
  destruct t as [i|]; [destruct Ht as (? & k & _ & ? & ?); eauto|].
  destruct Ht as [Ht|Ht]; [left; by apply length_zero_iff_nil|by right].
Qed.

(** Witness: a byte. *)
Lemma str_itoh_correct_witness :
  ∃ ds t, str_itoh [0x30; 0x78; 0x3F; 0x3F; 0] 2 0xA5 2 () =
          Ok (([0x30; 0x78] ++ ds ++ [0], t), ()) ∧ parse_digits 16 ds = 0xA5.
Proof.
  destruct (str_itoh_correct [0x30; 0x78] [0x3F; 0x3F] [0] 0xA5 ()) as (ds & t & H1 & _ & H2 & _); [lia|].
  exists ds, t. split; [exact H1|exact H2].
Defined.

(** [str_utoa] writes the decimal representation of a value that fits in the buffer
    at the end of it, without a leading zero unless the value is 0, and returns the index
    of its first digit. *)
Theorem str_utoa_correct {St} buffer post v (s : St) :
  buffer ≠ [] → 0 ≤ v < 10 ^ Z.of_nat (length buffer) →
  ∃ l ds, str_utoa (buffer ++ post) v (Z.of_nat (length buffer)) s =
          Ok ((l ++ ds ++ post, Z.of_nat (length l)), s) ∧
    (length l + length ds = length buffer)%nat ∧ parse_digits 10 ds = v ∧
    (v = 0 → ds = [0x30]) ∧ (v ≠ 0 → ∃ c ds', ds = c :: ds' ∧ c ≠ 0x30).
Proof.
  intros Hb Hv. unfold str_utoa. destruct buffer as [|x b _] using rev_ind; [done|].
  destruct (Z.eqb_spec (Z.of_nat (length (b ++ [x]))) 0) as [H0|_];
    [rewrite length_app in H0; simpl in H0; lia|].
  rewrite length_app in *. simpl length in *. rewrite Nat.add_1_r in *.
  replace (Z.to_nat (Z.of_nat (S (length b)) - 1)) with (length b) by lia.
  rewrite <-app_assoc. simpl app.
  destruct (str_utoa_loop_digits (length b) b x post v s) as (l & Heq & Hl); [lia|done|].
  exists l, (dec_digits (length b) v). split_and!; [done|done|by apply parse_dec_digits| |].
  - intros ->. by destruct (length b).
  - intros Hv0. apply dec_digits_head. lia.
Qed.

(** Witness: the number 1234 in the buffer of [str_printf_core]. *)
Lemma str_utoa_correct_witness :
  ∃ l ds, str_utoa (replicate 31 0 ++ [0]) 1234 31 () = Ok ((l ++ ds ++ [0], Z.of_nat (length l)), ()) ∧
    parse_digits 10 ds = 1234.
Proof.
  destruct (str_utoa_correct (replicate 31 0) [0] 1234 ()) as (l & ds & H1 & _ & H2 & _).
  - discriminate.
  - rewrite length_replicate. vm_compute. split; [discriminate|reflexivity].
  - exists l, ds. split; [exact H1|exact H2].
Defined.

(** * The output language

    The conversions that the comment of string.h lists, the calls of the handlers that
    each stands for, and the format strings they are written as. *)

Inductive hex_prefix := HexPrefixed | HexUnprefixed | HexTrimmed.
Inductive hex_size := HexByte | HexWord | HexDword | HexQword.
Inductive conversion :=
  | ConvPercent | ConvString | ConvPointer | ConvUnsigned
  | ConvHex (p : hex_prefix) (sz : hex_size)
  | ConvZ (c : conversion).
Inductive format_item := Literal (c : Z) | Conversion (c : conversion).

(** The syntax of the language. *)
Definition prefix_char (p : hex_prefix) : Z :=
  match p with HexPrefixed => 0x70 | HexUnprefixed => 0x75 | HexTrimmed => 0x74 end.
Definition size_char (sz : hex_size) : Z :=
  match sz with HexByte => 0x62 | HexWord => 0x77 | HexDword => 0x64 | HexQword => 0x71 end.
Fixpoint print_conversion (c : conversion) : list Z :=
  match c with
  | ConvPercent => [0x25] | ConvString => [0x73] | ConvPointer => [0x70] | ConvUnsigned => [0x75]
  | ConvHex p sz => [0x78; prefix_char p; size_char sz]
  | ConvZ c => 0x7A :: print_conversion c
  end.
Definition print_item (i : format_item) : list Z :=
  match i with Literal c => [c] | Conversion c => 0x25 :: print_conversion c end.
Definition print_format (items : list format_item) : list Z := concat (map print_item items).

(** The meaning of the language: the calls of the handlers, in order. *)
Inductive handler_call := CallChar (c : Z) | CallString (str : c_string).

Definition hex_width (sz : hex_size) : nat :=
  match sz with HexByte => 2 | HexWord => 4 | HexDword => 8 | HexQword => 16 end.
Definition hex_string (p : hex_prefix) (sz : hex_size) (v : Z) : c_string :=
  let ds := hex_digits (hex_width sz) v in
  match p with
  | HexPrefixed => Some ([0x30; 0x78] ++ ds)
  | HexUnprefixed => Some ds
  | HexTrimmed => if v <? 16 ^ Z.of_nat (hex_width sz) then Some (trim_zeros ds) else None
  end.
Fixpoint conversion_call (c : conversion) (args : list printf_arg) :
    option (handler_call * list printf_arg) :=
  match c, args with
  | ConvPercent, _ => Some (CallChar 0x25, args)
  | ConvString, ArgString str :: args => Some (CallString str, args)
  | ConvPointer, ArgInt v :: args => Some (CallString (hex_string HexPrefixed HexQword v), args)
  | ConvUnsigned, ArgInt v :: args => Some (CallString (Some (dec_digits 30 v)), args)
  | ConvHex p sz, ArgInt v :: args => Some (CallString (hex_string p sz v), args)
  | ConvZ c, _ => conversion_call c args
  | _, _ => None
  end.
Fixpoint format_calls (items : list format_item) (args : list printf_arg) : option (list handler_call) :=
  match items with
  | [] => Some []
  | Literal c :: items => calls ← format_calls items args; Some (CallChar c :: calls)
  | Conversion c :: items =>
    '(call, args) ← conversion_call c args;
    calls ← format_calls items args; Some (call :: calls)
  end.

Definition literal_ok (i : format_item) : Prop :=
  match i with Literal c => c ≠ 0 ∧ c ≠ 0x25 | _ => True end.
Definition printf_arg_ok (a : printf_arg) : Prop :=
  match a with ArgInt v => 0 ≤ v < 2 ^ 64 | _ => True end.

Section output.
Context {St : Type}.
Implicit Types (s : St).
Variable char_handler : Z → M St ().
Variable string_handler : c_string → M St ().

Definition run_call (c : handler_call) : M St () :=
  match c with CallChar c => char_handler c | CallString str => string_handler str end.
Fixpoint run_calls (calls : list handler_call) : M St () :=
  match calls with [] => mret () | c :: calls => run_call c;; run_calls calls end.

Abbreviation loop := (str_printf_core_loop char_handler string_handler).

Lemma bytes_to_nul_app l post s : 0 ∉ l → bytes_to_nul (l ++ 0 :: post) s = Ok (l, s).
Proof.
  induction l as [|c l IH]; intros Hl; [done|]. simpl.
  apply not_elem_of_cons in Hl as [Hc Hl]. destruct (Z.eqb_spec c 0); [done|].
  by rewrite (bind_ok _ _ s l s) by by apply IH.
Qed.

Lemma string_at_app pre l post i s :
  0 ∉ l → i = Z.of_nat (length pre) → string_at (pre ++ l ++ 0 :: post) i s = Ok (Some l, s).
Proof.
  intros Hl ->. unfold string_at. rewrite Nat2Z.id, drop_app_length.
  by rewrite (bind_ok _ _ s l s) by by apply bytes_to_nul_app.
Qed.

(** A handler call followed by the rest. *)
Lemma bind_call {A} (m : M St ()) (a : A) (k : A → M St ()) s :
  ((m;; mret a) ≫= k) s = (m;; k a) s.
Proof. unfold mbind, M_bind, mret, M_ret. by destruct (m s) as [[[] s']| | | |]. Qed.

Lemma bind_eq {A B} (m m' : M St A) (k : A → M St B) s : m s = m' s → (m ≫= k) s = (m' ≫= k) s.
Proof. unfold mbind, M_bind. by intros ->. Qed.

(** The number in the local array of the case [x] (and of the case [p]). *)
Lemma str_itoh_buffer sz post v s :
  0 ≤ v →
  ∃ t, str_itoh ([0x30; 0x78] ++ replicate (hex_width sz) 0x3F ++ post) 2 v (Z.of_nat (hex_width sz)) s =
       Ok (([0x30; 0x78] ++ hex_digits (hex_width sz) v ++ post, t), s) ∧
       trimmed_spec 2 (hex_width sz) v t.
Proof.
  intros Hv. unfold str_itoh. rewrite Nat2Z.id.
  apply (str_itoh_loop_digits _ [0x30; 0x78] (replicate (hex_width sz) 0x3F) post v None s Hv).
  by rewrite length_replicate.
Qed.

(** The three places of the array that are printed. *)
Lemma hex_strings sz post v t s :
  0 ≤ v → trimmed_spec 2 (hex_width sz) v t →
  let buffer := [0x30; 0x78] ++ hex_digits (hex_width sz) v ++ 0 :: post in
  string_at buffer 0 s = Ok (hex_string HexPrefixed sz v, s) ∧
  string_at buffer 2 s = Ok (hex_string HexUnprefixed sz v, s) ∧
  match t with
  | None => hex_string HexTrimmed sz v = None
  | Some i => string_at buffer i s = Ok (hex_string HexTrimmed sz v, s)
  end.
Proof.
  intros Hv Ht buffer. pose proof (hex_digits_not_nul (hex_width sz) v Hv) as H0.
  split_and!.
  - apply (string_at_app [] ([0x30; 0x78] ++ hex_digits (hex_width sz) v)); [|done].
    apply not_elem_of_app. split; [|done]. by rewrite !not_elem_of_cons; split_and!; try apply not_elem_of_nil.
  - by apply (string_at_app [0x30; 0x78] (hex_digits (hex_width sz) v)).
  - unfold hex_string. destruct t as [i|].
    + destruct Ht as (Hlt & k & Hk & -> & Hdrop). destruct (Z.ltb_spec v (16 ^ Z.of_nat (hex_width sz))); [|lia].
      rewrite <-Hdrop. unfold buffer.
      rewrite <-(take_drop k (hex_digits (hex_width sz) v)) at 1. rewrite <-!app_assoc.
      rewrite (app_assoc [48; 120]). apply string_at_app.
      * intros Hin. apply H0. rewrite <-(take_drop k (hex_digits _ v)). apply elem_of_app. by right.
      * rewrite length_app, length_take, hex_digits_length. simpl. lia.
    + destruct (Z.ltb_spec v (16 ^ Z.of_nat (hex_width sz))); [|done].
      destruct Ht as [Ht|Ht]; [by destruct sz|lia].
Qed.

Lemma str_printf_pointer_call v args s :
  0 ≤ v →
  str_printf_pointer string_handler (ArgInt v :: args) s =
  (string_handler (hex_string HexPrefixed HexQword v);; mret args) s.
Proof.
  intros Hv. unfold str_printf_pointer. rewrite (bind_ok _ _ s (v, args) s) by done.
  destruct (str_itoh_buffer HexQword [0] v s Hv) as (t & Heq & Ht).
  rewrite (bind_ok _ _ s _ s Heq).
  destruct (hex_strings HexQword [] v t s Hv Ht) as [Hs _]. by rewrite (bind_ok _ _ s _ s Hs).
Qed.

Lemma str_printf_unsigned_call v args s :
  0 ≤ v →
  str_printf_unsigned string_handler (ArgInt v :: args) s =
  (string_handler (Some (dec_digits 30 v));; mret args) s.
Proof.
  intros Hv. unfold str_printf_unsigned. rewrite (bind_ok _ _ s (v, args) s) by done.
  unfold str_utoa. change (31 =? 0) with false. change (Z.to_nat (31 - 1)) with 30%nat. cbv iota.
  change (replicate 32 0x3F) with (replicate 30 0x3F ++ 0x3F :: [0x3F]).
  destruct (str_utoa_loop_digits 30 (replicate 30 0x3F) 0x3F [0x3F] v s) as (l & Heq & Hl); [done..|].
  rewrite (bind_ok _ _ s _ s Heq). rewrite app_assoc.
  erewrite bind_ok; [|apply buffer_store_app; rewrite length_app; lia]. rewrite <-app_assoc.
  rewrite (bind_ok _ _ s (Some (dec_digits 30 v)) s); [done|].
  apply string_at_app; [by apply dec_digits_not_nul|done].
Qed.

Lemma str_printf_hex_call p sz v args s :
  0 ≤ v →
  str_printf_hex string_handler (prefix_char p) (size_char sz) (ArgInt v :: args) s =
  (string_handler (hex_string p sz v);; mret args) s.
Proof.
  intros Hv. unfold str_printf_hex. rewrite (bind_ok _ _ s (v, args) s) by done.
  assert (hex_length (size_char sz) = Z.of_nat (hex_width sz)) as -> by by destruct sz.
  assert (∃ post, buffer_store hex_buffer (Z.of_nat (hex_width sz) + 2) 0 s =
    Ok ([0x30; 0x78] ++ replicate (hex_width sz) 0x3F ++ 0 :: post, s)) as [post Hpost].
  { destruct sz; eexists; reflexivity. }
  cbv zeta. rewrite (bind_ok _ _ s _ s Hpost).
  destruct (str_itoh_buffer sz (0 :: post) v s Hv) as (t & Heq & Ht).
  rewrite (bind_ok _ _ s _ s Heq).
  destruct (hex_strings sz post v t s Hv Ht) as (Hp & Hu & Htr).
  destruct p; cbn [prefix_char Z.eqb Pos.eqb]; [by rewrite (bind_ok _ _ s _ s Hp)|by rewrite (bind_ok _ _ s _ s Hu)|].
  destruct t as [i|]; [by rewrite (bind_ok _ _ s _ s Htr)|by rewrite Htr].
Qed.

Lemma some_pair_inv {A B} (a a' : A) (b b' : B) : Some (a, b) = Some (a', b') → a = a' ∧ b = b'.
Proof. by intros [= -> ->]. Qed.

(** One conversion: what it calls, and where the loop continues. *)
Lemma loop_conversion c fmt args call args' s :
  Forall printf_arg_ok args → conversion_call c args = Some (call, args') →
  loop true (print_conversion c ++ fmt) args s = (run_call call;; loop false fmt args') s.
Proof.
  intros Hargs. induction c as [| | | |p sz|c IH]; cbn [conversion_call].
  - by intros [<- <-]%some_pair_inv.
  - destruct args as [|[str|v] args]; [done| |done]. intros [<- <-]%some_pair_inv.
    transitivity ((str_printf_string string_handler (ArgString str :: args) ≫= λ a, loop false fmt a) s);
      [done|]. apply bind_call.
  - destruct args as [|[str|v] args]; [done|done|]. intros [<- <-]%some_pair_inv.
    apply Forall_cons in Hargs as [[Hv _] _].
    transitivity ((str_printf_pointer string_handler (ArgInt v :: args) ≫= λ a, loop false fmt a) s);
      [done|]. rewrite (bind_eq _ _ _ s (str_printf_pointer_call v args s Hv)). apply bind_call.
  - destruct args as [|[str|v] args]; [done|done|]. intros [<- <-]%some_pair_inv.
    apply Forall_cons in Hargs as [[Hv _] _].
    transitivity ((str_printf_unsigned string_handler (ArgInt v :: args) ≫= λ a, loop false fmt a) s);
      [done|]. rewrite (bind_eq _ _ _ s (str_printf_unsigned_call v args s Hv)). apply bind_call.
  - destruct args as [|[str|v] args]; [done|done|]. intros [<- <-]%some_pair_inv.
    apply Forall_cons in Hargs as [[Hv _] _].
    transitivity ((str_printf_hex string_handler (prefix_char p) (size_char sz) (ArgInt v :: args)
      ≫= λ a, loop false fmt a) s); [done|].
    rewrite (bind_eq _ _ _ s (str_printf_hex_call p sz v args s Hv)). apply bind_call.
  - intros Hc. rewrite <-IH by done. by destruct c.
Qed.

Lemma conversion_call_args c args call args' :
  Forall printf_arg_ok args → conversion_call c args = Some (call, args') → Forall printf_arg_ok args'.
Proof.
  intros Hargs. induction c as [| | | |p sz|c IH]; [| | | | |exact IH];
    destruct args as [|[str|v] args]; cbn [conversion_call]; try discriminate;
    intros [_ <-]%some_pair_inv; first [exact Hargs|by apply Forall_cons in Hargs as [_ Hargs]].
Qed.

(** The loop over a whole format string. *)
Lemma loop_format items rest args calls s :
  Forall literal_ok items → Forall printf_arg_ok args → format_calls items args = Some calls →
  loop false (print_format items ++ 0 :: rest) args s = run_calls calls s.
Proof.
  intros Hlit. revert args calls s. induction Hlit as [|i items Hi Hlit IH]; intros args calls s Hargs.
  - by intros [= <-].
  - unfold print_format. cbn [map concat format_calls]. rewrite <-app_assoc.
    fold (print_format items). destruct i as [c|c].
    + intros (calls' & Hcalls & [= <-])%bind_Some. destruct Hi as [Hc0 Hc].
      cbn [print_item app str_printf_core_loop run_calls run_call].
      destruct (Z.eqb_spec c 0) as [|_]; [done|]. destruct (Z.eqb_spec c 0x25) as [|_]; [done|].
      cbn. unfold mbind, M_bind. destruct (char_handler c s) as [[[] s']| | | |]; try done. by apply IH.
    + intros ([call args'] & Hcall & (calls' & Hcalls & [= <-])%bind_Some)%bind_Some.
      transitivity (loop true (print_conversion c ++ print_format items ++ 0 :: rest) args s).
      { by destruct c. }
      rewrite (loop_conversion _ _ _ _ _ _ Hargs Hcall). cbn [run_calls].
      unfold mbind, M_bind. destruct (run_call call s) as [[[] s']| | | |]; try done.
      apply IH; [by eapply conversion_call_args|done].
Qed.
End output.

(** C22: [str_printf_core] implements the language of string.h: on a format made of the
    documented conversions and of literal characters, with arguments of the right kinds,
    it makes exactly the calls of the handlers that the format means, in this order,
    with the state and the failures of the handlers passed through. *)
Theorem str_printf_core_correct {St} (char_handler : Z → M St ())
    (string_handler : c_string → M St ()) items rest args calls (s : St) :
  Forall literal_ok items → Forall printf_arg_ok args → format_calls items args = Some calls →
  str_printf_core char_handler string_handler (print_format items ++ 0 :: rest) args s =
  run_calls char_handler string_handler calls s.
Proof. apply loop_format. Qed.

(** Witness: ["a%s=%xpb\n"], with handlers that append to a list. *)
Lemma str_printf_core_correct_witness :
  let ch c := mmodify (λ l : list Z, l ++ [c]) in
  let sh str := mmodify (λ l, l ++ default [] str) in
  let items := [Literal 0x61; Conversion ConvString; Literal 0x3D;
                Conversion (ConvHex HexPrefixed HexByte); Literal 0x0A] in
  print_format items = bytes_of_string "a%s=%xpb" ++ [0x0A] ∧
  str_printf_core ch sh (print_format items ++ 0 :: []) [ArgString (Some [0x62]); ArgInt 0x1F] [] =
  run_calls ch sh [CallChar 0x61; CallString (Some [0x62]); CallChar 0x3D;
                   CallString (Some [0x30; 0x78; 0x31; 0x66]); CallChar 0x0A] [].
Proof.
  intros ch sh items. split; [reflexivity|].
  apply (str_printf_core_correct ch sh items []).
  - repeat constructor; discriminate.
  - repeat constructor; discriminate.
  - reflexivity.
Defined.
