(* ===== verification/Console.v ===== *)
(** The console of the hypervisor: port I/O (common/include/rkhv/io_ports.h), the first
    serial port (hv/include/rkhv/serial.h, hv/src/serial.c) and formatted output
    (hv/src/stdio.c).

    [SerialLaws] is what the serial port does; the class [Console] is what this part
    promises to the rest: printing always ends, sends the text to the serial port and
    leaves the rest of the machine alone. *)
From S2P Require Import Prelude Memory Machine Registers SimpleCpu Strings.

(** * hv/include/rkhv/serial.h *)

Definition COM_DATA_REG : Z := 0.
Definition COM_BAUD_LSB_REG : Z := 0.
Definition COM_INT_ENABLE_REG : Z := 1.
Definition COM_BAUD_MSB_REG : Z := 1.
Definition COM_INT_ID_REG : Z := 2.
Definition COM_FIFO_CONTROL_REG : Z := 2.
Definition COM_LINE_CONTROL_REG : Z := 3.
Definition COM_MODEM_CONTROL_REG : Z := 4.
Definition COM_LINE_STATUS_REG : Z := 5.
Definition COM_MODEM_STATUS_REG : Z := 6.
Definition COM_SCRATCH_REG : Z := 7.
Definition COM_PORTS_LEN : Z := 8.
Definition COM1 : Z := 0x3F8.
Definition COM1_DATA_REG : Z := COM1 + COM_DATA_REG.
Definition COM1_BAUD_LSB_REG : Z := COM1 + COM_BAUD_LSB_REG.
Definition COM1_INT_ENABLE_REG : Z := COM1 + COM_INT_ENABLE_REG.
Definition COM1_BAUD_MSB_REG : Z := COM1 + COM_BAUD_MSB_REG.
Definition COM1_INT_ID_REG : Z := COM1 + COM_INT_ID_REG.
Definition COM1_FIFO_CONTROL_REG : Z := COM1 + COM_FIFO_CONTROL_REG.
Definition COM1_LINE_CONTROL_REG : Z := COM1 + COM_LINE_CONTROL_REG.
Definition COM1_MODEM_CONTROL_REG : Z := COM1 + COM_MODEM_CONTROL_REG.
Definition COM1_LINE_STATUS_REG : Z := COM1 + COM_LINE_STATUS_REG.
Definition COM1_MODEM_STATUS_REG : Z := COM1 + COM_MODEM_STATUS_REG.
Definition COM1_SCRATCH_REG : Z := COM1 + COM_SCRATCH_REG.
Definition COM2 : Z := 0x2F8.
Definition COM2_DATA_REG : Z := COM2 + COM_DATA_REG.
Definition COM2_BAUD_LSB_REG : Z := COM2 + COM_BAUD_LSB_REG.
Definition COM2_INT_ENABLE_REG : Z := COM2 + COM_INT_ENABLE_REG.
Definition COM2_BAUD_MSB_REG : Z := COM2 + COM_BAUD_MSB_REG.
Definition COM2_INT_ID_REG : Z := COM2 + COM_INT_ID_REG.
Definition COM2_FIFO_CONTROL_REG : Z := COM2 + COM_FIFO_CONTROL_REG.
Definition COM2_LINE_CONTROL_REG : Z := COM2 + COM_LINE_CONTROL_REG.
Definition COM2_MODEM_CONTROL_REG : Z := COM2 + COM_MODEM_CONTROL_REG.
Definition COM2_LINE_STATUS_REG : Z := COM2 + COM_LINE_STATUS_REG.
Definition COM2_MODEM_STATUS_REG : Z := COM2 + COM_MODEM_STATUS_REG.
Definition COM2_SCRATCH_REG : Z := COM2 + COM_SCRATCH_REG.
Definition COM_BAUD_RATE_BASE : Z := 115200.
Definition COM_INT_ENABLE_DATA_AVAILABLE : Z := 0x01.
Definition COM_INT_ENABLE_TRANSMIT_EMPTY : Z := 0x02.
Definition COM_INT_ENABLE_BREAK_OR_ERROR : Z := 0x04.
Definition COM_INT_ENABLE_STATUS_CHANGE : Z := 0x08.
Definition COM_FIFO_CONTROL_ENABLE : Z := 0x01.
Definition COM_FIFO_CONTROL_CLEAR_RX_FIFO : Z := 0x02.
Definition COM_FIFO_CONTROL_CLEAR_TX_FIFO : Z := 0x04.
Definition COM_FIFO_CONTROL_DMA_MODE : Z := 0x08.
Definition COM_FIFO_CONTROL_TL_MASK : Z := 0xC0.
Definition COM_LINE_CONTROL_DLAB : Z := 0x80.
Definition COM_LINE_CONTROL_5BITS : Z := 0x00.
Definition COM_LINE_CONTROL_6BITS : Z := 0x01.
Definition COM_LINE_CONTROL_7BITS : Z := 0x02.
Definition COM_LINE_CONTROL_8BITS : Z := 0x03.
Definition COM_LINE_CONTROL_2_STOP_BITS : Z := 0x04.
Definition COM_LINE_CONTROL_PARITY_NONE : Z := 0x00.
Definition COM_LINE_CONTROL_PARITY_ODD : Z := 0x08.
Definition COM_LINE_CONTROL_PARITY_EVEN : Z := 0x18.
Definition COM_LINE_CONTROL_PARITY_MARK : Z := 0x28.
Definition COM_LINE_CONTROL_PARITY_SPACE : Z := 0x38.
Definition COM_MODEM_CONTROL_DTR_PIN : Z := 0x01.
Definition COM_MODEM_CONTROL_RTS_PIN : Z := 0x02.
Definition COM_MODEM_CONTROL_IRQ : Z := 0x08.
Definition COM_MODEM_CONTROL_LOOP : Z := 0x10.
Definition COM_LINE_STATUS_DATA_READY : Z := 0x01.
Definition COM_LINE_STATUS_OVERRUN_ERROR : Z := 0x02.
Definition COM_LINE_STATUS_PARITY_ERROR : Z := 0x04.
Definition COM_LINE_STATUS_FRAMING_ERROR : Z := 0x08.
Definition COM_LINE_STATUS_BREAK_INDICATOR : Z := 0x10.
Definition COM_LINE_STATUS_TRANSMITTER_HOLDING_REGISTER_EMPTY : Z := 0x20.
Definition COM_LINE_STATUS_TRANSMITTER_EMPTY : Z := 0x40.
Definition COM_LINE_STATUS_IMPENDING_ERROR : Z := 0x80.

(** * The code *)

(** How many times the model polls the line status register; [SerialLaws] says that the
    port is ready by then. *)
Class PollFuel := poll_fuel : nat.

Section code.
Context `{HW : Hardware} {PF : PollFuel}.

Definition inb (port : Z) : M machine Z :=
  s ← mget;
  let '(v, hw) := hw_inb port (m_hw s) in
  mmodify (λ s, s <| m_hw := hw |>);; mret v.
Definition outb (port value : Z) : M machine () :=
  mmodify (λ s, s <| m_hw := hw_outb port value (m_hw s) |>).

Definition serial_init : M machine () :=
  outb COM1_INT_ENABLE_REG 0;;
  outb COM1_LINE_CONTROL_REG COM_LINE_CONTROL_DLAB;;
  outb COM1_BAUD_LSB_REG 1;;
  outb COM1_BAUD_MSB_REG 0;;
  outb COM1_LINE_CONTROL_REG (Z.lor COM_LINE_CONTROL_8BITS COM_LINE_CONTROL_PARITY_NONE);;
  mmodify (λ s, s <| m_serial_initialized := true |>).

(** [while (!(inb(COM1_LINE_STATUS_REG) & ...));] *)
Fixpoint serial_wait (fuel : nat) : M machine () :=
  match fuel with
  | O => mout_of_fuel
  | S fuel =>
    status ← inb COM1_LINE_STATUS_REG;
    if truthy (Z.land status COM_LINE_STATUS_TRANSMITTER_HOLDING_REGISTER_EMPTY)
    then mret () else serial_wait fuel
  end.

Definition serial_write_byte (c : Z) : M machine () :=
  initialized ← mgets m_serial_initialized;
  (if (initialized : bool) then mret () else serial_init);;
  serial_wait poll_fuel;;
  outb COM1_DATA_REG c.

Definition stdio_putc (c : Z) : M machine () := serial_write_byte c.

(** The bytes of the string are listed without the NUL; [NULL] is not mapped. *)
Fixpoint stdio_puts_loop (str : list Z) : M machine () :=
  match str with [] => mret () | c :: str => stdio_putc c;; stdio_puts_loop str end.
Definition stdio_puts (str : c_string) : M machine () :=
  match str with None => mfault 0 | Some str => stdio_puts_loop str end.

Definition stdio_printf (fmt : list Z) (args : list printf_arg) : M machine () :=
  str_printf_core stdio_putc stdio_puts (fmt ++ [0]) args.

(** ["\033[33;1m" LOG_CATEGORY ":\033[0m " s "\n"]; the categories and the formats of the
    source have no [%] of their own. *)
Definition LOG (category s : list Z) (args : list printf_arg) : M machine () :=
  stdio_printf ([0x1B] ++ bytes_of_string "[33;1m" ++ category ++ bytes_of_string ":" ++ [0x1B] ++
                bytes_of_string "[0m " ++ s ++ [0x0A]) args.

End code.

(** * What the console promises *)

(** The ports do not touch what the rest of the hypervisor reads of the processor. *)
Definition hw_same `{HW : Hardware} (hw hw' : hw_state) : Prop :=
  (∀ f, hw_vmread f hw' = hw_vmread f hw) ∧ (∀ a, hw_rdmsr a hw' = hw_rdmsr a hw) ∧
  hw_vmptrst hw' = hw_vmptrst hw ∧ hw_cr0 hw' = hw_cr0 hw ∧ hw_cr3 hw' = hw_cr3 hw ∧
  hw_cr4 hw' = hw_cr4 hw ∧ hw_sgdt hw' = hw_sgdt hw ∧ hw_sidt hw' = hw_sidt hw ∧
  (∀ a c, hw_cpuid a c hw' = hw_cpuid a c hw).

#[export] Instance hw_same_preorder `{HW : Hardware} : PreOrder hw_same.
Proof.
  split; [by intros hw|].
  intros h1 h2 h3 (A1 & A2 & A3 & A4 & A5 & A6 & A7 & A8 & A9) (B1 & B2 & B3 & B4 & B5 & B6 & B7 & B8 & B9).
  split_and!; try congruence; intros; by rewrite ?B1, ?B2, ?B9.
Qed.

(** The number of polls that are needed is at most [n]. *)
Fixpoint ready_within `{HW : Hardware} (n : nat) (hw : hw_state) : Prop :=
  match n with
  | O => False
  | S n => let '(status, hw') := hw_inb COM1_LINE_STATUS_REG hw in
           if truthy (Z.land status COM_LINE_STATUS_TRANSMITTER_HOLDING_REGISTER_EMPTY)
           then True else ready_within n hw'
  end.

(** What a step of the console may change. *)
Definition console_frame `{HW : Hardware} (s s' : machine) : Prop :=
  s' = s <| m_serial_initialized := m_serial_initialized s' |> <| m_hw := m_hw s' |> ∧
  hw_same (m_hw s) (m_hw s').

(** The text that a format stands for; a [NULL] string has none. *)
Fixpoint calls_text (calls : list handler_call) : option (list Z) :=
  match calls with
  | [] => Some []
  | CallChar c :: calls => out ← calls_text calls; Some (c :: out)
  | CallString str :: calls => str ← str; out ← calls_text calls; Some (str ++ out)
  end.
Definition format_text (items : list format_item) (args : list printf_arg) : option (list Z) :=
  calls ← format_calls items args; calls_text calls.

(** The interface of the console: printing ends, and appends the text to what was
    printed. *)
Class Console `{HW : Hardware} {PF : PollFuel} := {
  console_inv : machine → Prop;
  console_text : machine → list Z;
  console_printf items args out E (Q : () → machine → Prop) s :
    console_inv s → Forall literal_ok items → Forall printf_arg_ok args →
    format_text items args = Some out →
    (∀ s', console_frame s s' → console_text s' = console_text s ++ out → console_inv s' → Q () s') →
    wp (stdio_printf (print_format items) args) E Q s;
  console_local s s' :
    m_serial_initialized s' = m_serial_initialized s → m_hw s' = m_hw s →
    console_text s' = console_text s ∧ (console_inv s → console_inv s');
}.

(** * Log lines *)

Section log.
Context `{CON : Console}.

Definition literals (l : list Z) : list format_item := map Literal l.

(** The format that [LOG] makes. *)
Definition log_items (category : list Z) (items : list format_item) : list format_item :=
  literals ([0x1B] ++ bytes_of_string "[33;1m" ++ category ++ bytes_of_string ":" ++ [0x1B] ++
            bytes_of_string "[0m ") ++ items ++ literals [0x0A].
Definition log_text (category out : list Z) : list Z :=
  ([0x1B] ++ bytes_of_string "[33;1m" ++ category ++ bytes_of_string ":" ++ [0x1B] ++
   bytes_of_string "[0m ") ++ out ++ [0x0A].

Lemma print_literals l : print_format (literals l) = l.
Proof. induction l as [|c l IH]; [done|]. unfold print_format in *. simpl. by rewrite IH. Qed.

Lemma print_format_app items1 items2 :
  print_format (items1 ++ items2) = print_format items1 ++ print_format items2.
Proof. unfold print_format. by rewrite map_app, concat_app. Qed.

Lemma literals_ok l : 0 ∉ l → 0x25 ∉ l → Forall literal_ok (literals l).
Proof.
  intros H0 H1. apply Forall_forall. intros i Hi. apply list_elem_of_fmap in Hi as (c & -> & Hc).
  split; intros ->; done.
Qed.

Lemma format_text_literals l items args out :
  format_text items args = Some out → format_text (literals l ++ items) args = Some (l ++ out).
Proof.
  intros (calls & Hc & Ht)%bind_Some. induction l as [|c l IH].
  - unfold format_text. simpl. by rewrite Hc.
  - unfold format_text in *. simpl. apply bind_Some in IH as (calls' & Hc' & Ht').
    rewrite Hc'. simpl. by rewrite Ht'.
Qed.

Lemma format_text_app_literals l items args out :
  format_text items args = Some out → format_text (items ++ literals l) args = Some (out ++ l).
Proof.
  unfold format_text. intros (calls & Hc & Ht)%bind_Some.
  assert (format_calls (items ++ literals l) args = Some (calls ++ map CallChar l)) as ->.
  { clear Ht. revert args calls Hc. induction items as [|[c|c] items IH]; intros args calls; simpl.
    - intros [= <-]. clear. induction l as [|c l IH]; [done|]. unfold literals in *. simpl in *. by rewrite IH.
    - intros (calls' & Hc & [= <-])%bind_Some. by rewrite (IH _ _ Hc).
    - intros ([call args'] & Hcall & (calls' & Hc & [= <-])%bind_Some)%bind_Some.
      rewrite Hcall. simpl. by rewrite (IH _ _ Hc). }
  simpl. clear Hc. revert out Ht. induction calls as [|[c|str] calls IH]; intros out; simpl.
  - intros [= <-]. induction l as [|c l IH]; [done|]. simpl. by rewrite IH.
  - intros (out' & Ht & [= <-])%bind_Some. by rewrite (IH _ Ht).
  - intros (str' & -> & (out' & Ht & [= <-])%bind_Some)%bind_Some. simpl. rewrite (IH _ Ht).
    simpl. by rewrite app_assoc.
Qed.

Lemma wp_LOG category items args out E (Q : () → machine → Prop) s :
  console_inv s → 0 ∉ category → 0x25 ∉ category → Forall literal_ok items → Forall printf_arg_ok args →
  format_text items args = Some out →
  (∀ s', console_frame s s' → console_text s' = console_text s ++ log_text category out →
     console_inv s' → Q () s') →
  wp (LOG category (print_format items) args) E Q s.
Proof.
  intros Hinv H0 H1 Hlit Hargs Htext HQ. unfold LOG.
  match goal with |- wp (stdio_printf ?f _) _ _ _ => assert (f = print_format (log_items category items)) as -> end.
  { unfold log_items. rewrite !print_format_app, !print_literals. by rewrite <-!app_assoc. }
  eapply console_printf; [done| |done|by apply format_text_literals, format_text_app_literals|done].
  unfold log_items. apply Forall_app. split; [|apply Forall_app; split; [done|by repeat constructor]].
  apply literals_ok; rewrite !not_elem_of_app; split_and!; try assumption;
    apply (bool_decide_unpack _); vm_compute; exact I.
Qed.

(** ** Lines whose text does not matter *)

(** A format read back as the items that it prints. *)
Fixpoint parse_format (fmt : list Z) : option (list format_item) :=
  let hex (p sz : Z) :=
    p ← (match p with 0x70 => Some HexPrefixed | 0x75 => Some HexUnprefixed | 0x74 => Some HexTrimmed
                    | _ => None end);
    sz ← (match sz with 0x62 => Some HexByte | 0x77 => Some HexWord | 0x64 => Some HexDword
                     | 0x71 => Some HexQword | _ => None end);
    Some (ConvHex p sz) in
  match fmt with
  | [] => Some []
  | 0x25 :: 0x73 :: fmt => items ← parse_format fmt; Some (Conversion ConvString :: items)
  | 0x25 :: 0x70 :: fmt => items ← parse_format fmt; Some (Conversion ConvPointer :: items)
  | 0x25 :: 0x75 :: fmt => items ← parse_format fmt; Some (Conversion ConvUnsigned :: items)
  | 0x25 :: 0x78 :: p :: sz :: fmt =>
    c ← hex p sz; items ← parse_format fmt; Some (Conversion c :: items)
  | 0x25 :: 0x7A :: 0x75 :: fmt => items ← parse_format fmt; Some (Conversion (ConvZ ConvUnsigned) :: items)
  | 0x25 :: 0x7A :: 0x78 :: p :: sz :: fmt =>
    c ← hex p sz; items ← parse_format fmt; Some (Conversion (ConvZ c) :: items)
  | c :: fmt => items ← parse_format fmt; Some (Literal c :: items)
  end.

(** The arguments are the ones that the items consume, and each of them is printed. *)
Fixpoint items_accept (items : list format_item) (args : list printf_arg) : Prop :=
  match items with
  | [] => args = []
  | Literal _ :: items => items_accept items args
  | Conversion c :: items =>
    match (match c with ConvZ c => c | c => c end), args with
    | ConvPercent, _ => items_accept items args
    | ConvString, ArgString (Some _) :: args => items_accept items args
    | ConvPointer, ArgInt v :: args | ConvUnsigned, ArgInt v :: args =>
      0 ≤ v < 2 ^ 64 ∧ items_accept items args
    | ConvHex HexTrimmed sz, ArgInt v :: args =>
      0 ≤ v < 2 ^ 64 ∧ v < 16 ^ Z.of_nat (hex_width sz) ∧ items_accept items args
    | ConvHex _ _, ArgInt v :: args => 0 ≤ v < 2 ^ 64 ∧ items_accept items args
    | _, _ => False
    end
  end.

Lemma items_accept_text items args :
  items_accept items args → Forall printf_arg_ok args ∧ ∃ out, format_text items args = Some out.
Proof.
  assert (∀ c args call args', conversion_call c args = Some (call, args') →
    conversion_call (ConvZ c) args = Some (call, args')) as Hz by done.
  revert args. induction items as [|[c|c] items IH]; intros args; cbn [items_accept].
  - intros ->. by split; [constructor|exists []].
  - intros (Hargs & out & (calls & Hc & Ht)%bind_Some)%IH. split; [done|]. exists (c :: out).
    unfold format_text. cbn [format_calls]. rewrite Hc. cbn. by rewrite Ht.
  - intros H. enough (∃ call args' out, conversion_call c args = Some (call, args') ∧
      calls_text [call] = Some out ∧ items_accept items args' ∧
      (Forall printf_arg_ok args' → Forall printf_arg_ok args)) as (call & args' & out & Hcall & Hone & Hacc & Hok).
    { destruct (IH _ Hacc) as (Hargs & out' & (calls & Hc & Ht)%bind_Some). split; [by apply Hok|].
      exists (out ++ out'). unfold format_text. cbn [format_calls]. rewrite Hcall. cbn. rewrite Hc. cbn.
      destruct call as [ch|str]; cbn in Hone |- *; [injection Hone as <-; by rewrite Ht|].
      destruct str as [str|]; [|done]. injection Hone as <-. cbn. rewrite Ht. cbn. by rewrite app_nil_r. }
    assert (∀ c, items_accept (Conversion c :: items) args →
      (match c with ConvZ _ => False | _ => True end) →
      ∃ call args' out, conversion_call c args = Some (call, args') ∧
      calls_text [call] = Some out ∧ items_accept items args' ∧
      (Forall printf_arg_ok args' → Forall printf_arg_ok args)) as Hconv.
    { clear c H. intros c H Hcz. cbn [items_accept] in H.
      destruct c as [| | | |p sz|]; [by exists (CallChar 0x25), args, [0x25]| | | | |done];
        destruct args as [|[[str|]|v] args]; try done; try (by destruct p).
      - exists (CallString (Some str)), args, (str ++ []). split_and!; try done. by intros; constructor.
      - destruct H as [Hv H]. eexists _, args, _. split_and!; [reflexivity|reflexivity|done|by intros; constructor].
      - destruct H as [Hv H]. eexists _, args, _. split_and!; [reflexivity|reflexivity|done|by intros; constructor].
      - destruct p; [destruct H as [Hv H]; eexists _, args, _; split_and!;
          [reflexivity|reflexivity|done|by intros; constructor]..|].
        destruct H as (Hv & Hsz & H). eexists _, args, _.
        split_and!; [reflexivity| |done|by intros; constructor].
        unfold hex_string. apply Z.ltb_lt in Hsz. rewrite Hsz. reflexivity. }
    destruct c as [| | | | |c]; [by apply Hconv..|].
    destruct c; [apply (Hconv ConvPercent)|apply (Hconv ConvString)|apply (Hconv ConvPointer)
      |apply (Hconv ConvUnsigned)|apply (Hconv (ConvHex p sz))|]; done.
Qed.

(** A line that can be printed with these arguments. *)
Definition log_ok (category fmt : list Z) (args : list printf_arg) : Prop :=
  ∃ items, fmt = print_format items ∧ Forall literal_ok items ∧ 0 ∉ category ∧ 0x25 ∉ category ∧
    items_accept items args.

Lemma wp_LOG_line category fmt args E (Q : () → machine → Prop) s :
  console_inv s → log_ok category fmt args →
  (∀ s', console_frame s s' → console_inv s' → Q () s') → wp (LOG category fmt args) E Q s.
Proof.
  intros Hinv (items & -> & Hlit & H0 & H1 & (Hargs & out & Htext)%items_accept_text) HQ.
  eapply wp_LOG; eauto.
Qed.

(** ** Lines with their text *)

(** The text of a log line. *)
Definition log_line (category fmt : list Z) (args : list printf_arg) : list Z :=
  log_text category (default [] (items ← parse_format fmt; format_text items args)).

(** [log_ok], for the items that [parse_format] finds. *)
Definition line_ok (category fmt : list Z) (args : list printf_arg) : Prop :=
  ∃ items, parse_format fmt = Some items ∧ fmt = print_format items ∧ Forall literal_ok items ∧
    0 ∉ category ∧ 0x25 ∉ category ∧ items_accept items args.

(** From [s] to [s'], [text] was printed and nothing else happened. *)
Record logged (text : list Z) (s s' : machine) : Prop := {
  lg_frame : console_frame s s';
  lg_text : console_text s' = console_text s ++ text;
  lg_inv : console_inv s';
}.

Lemma logged_refl s : console_inv s → logged [] s s.
Proof. intros H. split; [split; [by destruct s|done]|by rewrite app_nil_r|done]. Qed.

Lemma logged_trans text1 text2 s1 s2 s3 :
  logged text1 s1 s2 → logged text2 s2 s3 → logged (text1 ++ text2) s1 s3.
Proof.
  intros [[E1 H1] T1 _] [[E2 H2] T2 I2]. split; [split; [|by etransitivity]|by rewrite T2, T1, app_assoc|done].
  rewrite E2 at 1. rewrite E1. done.
Qed.

Lemma wp_LOG_text category fmt args E (Q : () → machine → Prop) s :
  console_inv s → line_ok category fmt args →
  (∀ s', logged (log_line category fmt args) s s' → Q () s') → wp (LOG category fmt args) E Q s.
Proof.
  intros Hinv (items & Hparse & -> & Hlit & H0 & H1 & (Hargs & out & Htext)%items_accept_text) HQ.
  eapply wp_LOG; [done..|]. intros s' Hf Ht Hi. apply HQ. split; [done| |done].
  unfold log_line. rewrite Hparse. cbn [mbind option_bind]. by rewrite Htext.
Qed.

(** An instruction that leaves the serial port alone. *)
Definition console_keeps (f : hw_state → hw_state) : Prop :=
  ∀ s, console_inv s → console_inv (s <| m_hw := f (m_hw s) |>).

Lemma console_inv_keeps f s s' :
  console_keeps f → m_serial_initialized s' = m_serial_initialized s → m_hw s' = f (m_hw s) →
  console_inv s → console_inv s'.
Proof. intros Hf Hs Hh Hinv. eapply console_local; [| |by apply (Hf s Hinv)]; done. Qed.

End log.

#[export] Instance literal_ok_dec i : Decision (literal_ok i).
Proof. destruct i; simpl; apply _. Defined.

(** [log_ok] and [line_ok] of a closed format: what is left is the size of the arguments. *)
Ltac solve_items_ok :=
  split; [reflexivity|];
  split; [apply (bool_decide_unpack _); vm_compute; exact I|];
  split; [apply (bool_decide_unpack _); vm_compute; exact I|];
  split; [apply (bool_decide_unpack _); vm_compute; exact I|];
  cbn [items_accept]; change (Z.of_nat (hex_width HexQword)) with 16;
  change (Z.of_nat (hex_width HexDword)) with 8;
  repeat (split; [try lia|]); try reflexivity.
Ltac solve_log_ok :=
  lazymatch goal with
  | |- log_ok ?category ?fmt _ =>
    let items := eval vm_compute in (default [] (parse_format fmt)) in
    exists items; solve_items_ok
  | |- line_ok ?category ?fmt _ =>
    let items := eval vm_compute in (default [] (parse_format fmt)) in
    exists items; split; [reflexivity|]; solve_items_ok
  end.

(** The first serial port: the transmitter becomes empty again, a byte written to the
    data register is sent unless the divisor latch is selected, and reading the line
    status sends nothing. *)
Class SerialLaws `{HW : Hardware} {PF : PollFuel} := {
  com1_sent : hw_state → list Z;
  com1_dlab : hw_state → bool;
  serial_ready hw : ready_within poll_fuel hw;
  inb_status_sent hw : com1_sent (snd (hw_inb COM1_LINE_STATUS_REG hw)) = com1_sent hw;
  inb_status_dlab hw : com1_dlab (snd (hw_inb COM1_LINE_STATUS_REG hw)) = com1_dlab hw;
  inb_same port hw : hw_same hw (snd (hw_inb port hw));
  outb_same port v hw : hw_same hw (hw_outb port v hw);
  outb_data_sent v hw :
    com1_sent (hw_outb COM1_DATA_REG v hw) = if com1_dlab hw then com1_sent hw else com1_sent hw ++ [v];
  outb_line_control_dlab v hw :
    com1_dlab (hw_outb COM1_LINE_CONTROL_REG v hw) = Z.testbit v 7;
  outb_other_dlab port v hw :
    port ≠ COM1_LINE_CONTROL_REG → com1_dlab (hw_outb port v hw) = com1_dlab hw;
  outb_other_sent port v hw :
    port ≠ COM1_DATA_REG → com1_sent (hw_outb port v hw) = com1_sent hw;
}.

Section laws.
Context `{SL : SerialLaws}.
Implicit Types (s : machine).

(** Once the port was initialised, the divisor latch is not selected. *)
Definition console_ok s : Prop := m_serial_initialized s = true → com1_dlab (m_hw s) = false.

(** Printing [out]. *)
Record printed (out : list Z) s s' : Prop := {
  pr_eq : s' = s <| m_serial_initialized := m_serial_initialized s' |> <| m_hw := m_hw s' |>;
  pr_sent : com1_sent (m_hw s') = com1_sent (m_hw s) ++ out;
  pr_same : hw_same (m_hw s) (m_hw s');
  pr_ok : console_ok s';
}.

Lemma printed_refl s : console_ok s → printed [] s s.
Proof. intros H. split; [by destruct s|by rewrite app_nil_r|reflexivity|done]. Qed.

Lemma printed_trans out1 out2 s1 s2 s3 :
  printed out1 s1 s2 → printed out2 s2 s3 → printed (out1 ++ out2) s1 s3.
Proof.
  intros [E1 S1 H1 O1] [E2 S2 H2 O2]. split; [|by rewrite S2, S1, app_assoc|by etransitivity|done].
  rewrite E2 at 1. rewrite E1. done.
Qed.

Lemma wp_serial_wait fuel E (Q : () → machine → Prop) s :
  ready_within fuel (m_hw s) →
  (∀ hw, com1_sent hw = com1_sent (m_hw s) → com1_dlab hw = com1_dlab (m_hw s) →
     hw_same (m_hw s) hw → Q () (s <| m_hw := hw |>)) →
  wp (serial_wait fuel) E Q s.
Proof.
  revert s. induction fuel as [|fuel IH]; intros s Hr HQ; [done|].
  cbn [serial_wait ready_within] in *. unfold inb. repeat wp_step.
  pose proof (inb_status_sent (m_hw s)) as H1. pose proof (inb_status_dlab (m_hw s)) as H2.
  pose proof (inb_same COM1_LINE_STATUS_REG (m_hw s)) as H3.
  destruct (hw_inb COM1_LINE_STATUS_REG (m_hw s)) as [status hw]. simpl in H1, H2, H3.
  repeat wp_step; [by apply HQ|].
  apply IH; [done|]. simpl. intros hw' Hs Hd Hsame.
  apply (HQ hw'); [congruence|congruence|by etransitivity].
Qed.

Lemma wp_serial_init E (Q : () → machine → Prop) s :
  (∀ hw, com1_sent hw = com1_sent (m_hw s) → com1_dlab hw = false → hw_same (m_hw s) hw →
     Q () (s <| m_hw := hw |> <| m_serial_initialized := true |>)) →
  wp serial_init E Q s.
Proof.
  intros HQ. unfold serial_init, outb. repeat wp_step. cbn [m_hw set_m_hw upd].
  apply HQ.
  - rewrite outb_other_sent by done. rewrite outb_other_sent by done.
    change COM1_BAUD_LSB_REG with COM1_DATA_REG. rewrite outb_data_sent, outb_line_control_dlab.
    change (Z.testbit COM_LINE_CONTROL_DLAB 7) with true. cbv iota.
    by rewrite !outb_other_sent by done.
  - by rewrite outb_line_control_dlab.
  - repeat (etransitivity; [|apply outb_same]). reflexivity.
Qed.

Lemma wp_serial_write_byte c E (Q : () → machine → Prop) s :
  console_ok s → (∀ s', printed [c] s s' → Q () s') → wp (serial_write_byte c) E Q s.
Proof.
  intros Hok HQ. unfold serial_write_byte. wp_step. apply wp_gets.
  assert (∀ s1, m_serial_initialized s1 = true → printed [] s s1 →
    wp (serial_wait poll_fuel;; outb COM1_DATA_REG c) E Q s1) as Hsend.
  { intros s1 Hi Hp. wp_step. apply wp_serial_wait; [apply serial_ready|]. intros hw Hs Hd Hsame.
    apply wp_modify, HQ. apply (printed_trans [] [c] s s1); [done|].
    pose proof (pr_ok _ _ _ Hp Hi) as Hdl.
    split; simpl; [by destruct s1|by rewrite outb_data_sent, Hd, Hdl, Hs|etransitivity; [done|apply outb_same]|].
    intros _. simpl. by rewrite outb_other_dlab, Hd by done. }
  wp_step. destruct (m_serial_initialized s) eqn:Hi.
  - apply wp_ret, Hsend; [done|by apply printed_refl].
  - apply wp_serial_init. intros hw Hs Hd Hsame. apply Hsend; [done|].
    split; simpl; [by destruct s|by rewrite app_nil_r|done|by intros _].
Qed.

Lemma wp_stdio_puts str E (Q : () → machine → Prop) s :
  console_ok s → (∀ s', printed str s s' → Q () s') → wp (stdio_puts (Some str)) E Q s.
Proof.
  unfold stdio_puts. revert s Q. induction str as [|c str IH]; intros s Q Hok HQ; cbn [stdio_puts_loop].
  - apply wp_ret, HQ. by apply printed_refl.
  - wp_step. apply wp_serial_write_byte; [done|]. intros s1 H1.
    apply IH; [apply H1|]. intros s2 H2. apply HQ. by apply (printed_trans [c] str s s1).
Qed.

Lemma wp_run_calls calls out E (Q : () → machine → Prop) s :
  console_ok s → calls_text calls = Some out → (∀ s', printed out s s' → Q () s') →
  wp (run_calls stdio_putc stdio_puts calls) E Q s.
Proof.
  revert out s Q. induction calls as [|[c|str] calls IH]; intros out s Q Hok; cbn [run_calls run_call calls_text].
  - intros [= <-] HQ. apply wp_ret, HQ. by apply printed_refl.
  - intros (out' & Hout & [= <-])%bind_Some HQ. wp_step. apply wp_serial_write_byte; [done|]. intros s1 H1.
    apply (IH out'); [apply H1|done|]. intros s2 H2. apply HQ. by apply (printed_trans [c] out' s s1).
  - intros (str' & -> & (out' & Hout & [= <-])%bind_Some)%bind_Some HQ.
    wp_step. apply wp_stdio_puts; [done|]. intros s1 H1.
    apply (IH out'); [apply H1|done|]. intros s2 H2. apply HQ. by apply (printed_trans str' out' s s1).
Qed.

Lemma wp_stdio_printf items args out E (Q : () → machine → Prop) s :
  console_ok s → Forall literal_ok items → Forall printf_arg_ok args →
  format_text items args = Some out → (∀ s', printed out s s' → Q () s') →
  wp (stdio_printf (print_format items) args) E Q s.
Proof.
  intros Hok Hlit Hargs (calls & Hcalls & Htext)%bind_Some HQ.
  pose proof (wp_run_calls calls out E Q s Hok Htext HQ) as H.
  unfold wp, stdio_printf, str_printf_core in *. by rewrite (loop_format _ _ _ [] _ calls).
Qed.

(** The serial port implements the console. *)
#[export] Instance serial_console : Console.
Proof.
  refine {| console_inv := console_ok; console_text s := com1_sent (m_hw s) |}.
  - intros items args out E Q s Hok Hlit Hargs Htext HQ.
    eapply wp_stdio_printf; [done..|]. intros s' [Heq Hsent Hsame Hok']. by apply HQ.
  - intros s s' Hi Hh. split; [by rewrite Hh|]. unfold console_ok. by rewrite Hi, Hh.
Defined.

(** C21: [stdio_printf] always ends, whether or not the serial port was initialised before:
    it sends on the first serial port exactly the text that the format stands for, leaves
    the port ready for the next call, and changes nothing else that the hypervisor reads
    of the machine. *)
Theorem stdio_printf_correct items args out s :
  console_ok s → Forall literal_ok items → Forall printf_arg_ok args →
  format_text items args = Some out →
  ∃ s', stdio_printf (print_format items) args s = Ok ((), s') ∧
    com1_sent (m_hw s') = com1_sent (m_hw s) ++ out ∧ console_ok s' ∧ console_frame s s'.
Proof.
  intros Hok Hlit Hargs Htext.
  destruct (wp_no_panic_ok (stdio_printf (print_format items) args)
    (λ _ s', printed out s s') s) as ([] & s' & Heq & [H1 H2 H3 H4]).
  - by eapply wp_stdio_printf.
  - by exists s'.
Qed.

End laws.

(** The concrete processor is always ready. *)
#[export] Instance simple_poll_fuel : PollFuel := 1%nat.
#[export] Instance simple_serial_laws : SerialLaws (HW := simple_hardware).
Proof.
  refine {| com1_sent := (cpu_serial_output : @hw_state simple_hardware → list Z);
            com1_dlab c := Z.testbit (cpu_com1_line_control c) 7 |}; try done.
  - intros port v hw. unfold hw_same. cbn [hw_outb simple_hardware].
    split_and!; intros; by repeat case_match.
  - intros v hw. cbn [hw_outb simple_hardware].
    change (COM1_DATA_REG =? 0x3FB) with false. change (COM1_DATA_REG =? 0x3F8) with true.
    by destruct (Z.testbit (cpu_com1_line_control hw) 7).
  - intros port v hw Hp. cbn [hw_outb simple_hardware]. destruct (Z.eqb_spec port 0x3FB); [done|].
    by destruct ((port =? 0x3F8) && _).
  - intros port v hw Hp. cbn [hw_outb simple_hardware]. destruct (port =? 0x3FB); [done|].
    destruct (Z.eqb_spec port 0x3F8); [done|]. done.
Defined.

(** Witness: the first line that is printed. *)
Lemma stdio_printf_correct_witness :
  let items := [Literal 0x61; Conversion ConvString; Literal 0x3D;
                Conversion (ConvHex HexPrefixed HexByte); Literal 0x0A] in
  ∃ s', stdio_printf (print_format items) [ArgString (Some [0x62]); ArgInt 0x1F] (small_machine 4) =
        Ok ((), s') ∧ com1_sent (m_hw s') = [0x61; 0x62; 0x3D; 0x30; 0x78; 0x31; 0x66; 0x0A].
Proof.
  intros items.
  destruct (stdio_printf_correct items [ArgString (Some [0x62]); ArgInt 0x1F]
    [0x61; 0x62; 0x3D; 0x30; 0x78; 0x31; 0x66; 0x0A] (small_machine 4)) as (s' & H1 & H2 & _).
  - discriminate.
  - repeat constructor; discriminate.
  - repeat constructor; discriminate.
  - reflexivity.
  - exists s'. split; [exact H1|exact H2].
Defined.
