(* ===== verification/PageUse.v ===== *)
(** Which physical pages are in use.

    The four predicates of [mm_page_is_free] (hv/src/memory_management/memory_management.c):
    [mm_page_used_by_chainload], [mm_page_used_by_arena] (arena.c),
    [mm_page_used_by_vmx] (vmm_vmx_pages.c) and [mm_page_used_by_vm_manager]
    (vmm_vm_manager.c), with what each answers as a proposition. *)
From S2P Require Import Prelude Memory Machine.

Section definitions.
Context `{HW : Hardware}.

(** [page >= first && page <= first + (pages - 1) * PAGE_SIZE] on 64-bit addresses. *)
Definition in_page_run (page_physical_address first_page pages : Z) : bool :=
  let last_page := u64 (first_page + u64 ((pages - 1) * PAGE_SIZE)) in
  (first_page <=? page_physical_address) && (page_physical_address <=? last_page).

(** [a / PAGE_SIZE], rounded up. *)
Definition size_to_pages (size : Z) : Z :=
  size / PAGE_SIZE + (if size mod PAGE_SIZE =? 0 then 0 else 1).

Fixpoint mm_page_used_by_attachments (page_physical_address : Z)
    (l : list chainload_attachment_t) : bool :=
  match l with
  | [] => false
  | iter :: l' =>
    if at_attachment_type iter =? CHAINLOAD_ATTACHMENT_END then false
    else if (0 <? at_size iter) &&
            in_page_run page_physical_address (at_physical_address iter)
                        (size_to_pages (at_size iter))
         then true
         else mm_page_used_by_attachments page_physical_address l'
  end.

Definition mm_page_used_by_chainload (page_physical_address : Z) (cp : chainload_page_t) : bool :=
  let page_physical_address := Z.land page_physical_address PAGE_MASK in
  (page_physical_address =? chainload_page_physical_address cp)
  || existsb (λ sec, (0 <? sec_pages sec) &&
                     in_page_run page_physical_address (sec_physical_address sec) (sec_pages sec))
             (rkhv_sections cp)
  || mm_page_used_by_attachments page_physical_address (attachments cp)
  || existsb (λ iter, (0 <? ptr_pages iter) &&
                      in_page_run page_physical_address (ptr_physical_address iter) (ptr_pages iter))
             (page_table_regions cp).

Definition mm_page_used_by_arena (page_physical_address : Z) (s : machine) : outcome bool :=
  let page_physical_address := Z.land page_physical_address PAGE_MASK in
  list_search arena_next (S (size (m_arenas s))) (m_arenas s)
    (λ arena_it hdr,
       if page_physical_address =? V2P_IDENTITY_MAP arena_it then Ok true
       else list_search sub_next (S (size (m_subarenas s))) (m_subarenas s)
              (λ sub_it _, Ok (page_physical_address =? V2P_IDENTITY_MAP sub_it))
              (arena_subarenas hdr))
    (m_arena_head s).

Definition mm_page_used_by_vmx (page_physical_address : Z) (s : machine) : bool :=
  if m_vmxon_region_valid s && (page_physical_address =? m_vmxon_region s) then true
  else if m_msr_bitmaps_page_valid s && (page_physical_address =? m_msr_bitmaps_page s) then true
  else false.

(** The body of the loop over the VMs. *)
Definition vm_uses_page (page_physical_address : Z) (iter : vm_t) : bool :=
  (truthy (Z.land (vm_flags iter) VM_T_FLAG_VMCS_INITIALIZED) &&
   (vm_vmcs_region iter =? page_physical_address))
  || existsb (λ pl_iter, in_page_run page_physical_address
                           (pl_physical_address pl_iter) (pl_pages pl_iter))
             (vm_tracked_pages iter).

Definition mm_page_used_by_vm_manager (page_physical_address : Z) (s : machine) : outcome bool :=
  list_search vm_next (S (size (m_vms s))) (m_vms s)
    (λ _ iter, Ok (vm_uses_page page_physical_address iter)) (m_vm_list s).

(** The predicates are called in the order of [page_used_by_functions]. *)
Definition mm_page_is_free (page_physical_address : Z) : M machine bool :=
  s ← mget;
  if mm_page_used_by_chainload page_physical_address (m_chainload s) then mret false else
  used_by_arena ← mlift (mm_page_used_by_arena page_physical_address s);
  if (used_by_arena : bool) then mret false else
  if mm_page_used_by_vmx page_physical_address s then mret false else
  used_by_vm ← mlift (mm_page_used_by_vm_manager page_physical_address s);
  mret (negb used_by_vm).

(** * Well-formed lists *)

(** The arenas [la] and the VMs [lv] are lists that end with [NULL]; sub-arenas
    are never created by the code. *)
Record lists_wf (la lv : list Z) (s : machine) : Prop := {
  lw_arenas : linked arena_next (m_arenas s) (m_arena_head s) la;
  lw_no_subarenas a h : a ∈ la → m_arenas s !! a = Some h → arena_subarenas h = 0;
  lw_vms : linked vm_next (m_vms s) (m_vm_list s) lv;
}.

(** Which of the four users claims a page, without the list traversals. *)
Definition arena_uses_page (la : list Z) (pa : Z) : bool :=
  existsb (λ a, Z.land pa PAGE_MASK =? V2P_IDENTITY_MAP a) la.
Definition some_vm_uses_page (lv : list Z) (pa : Z) (s : machine) : bool :=
  existsb (λ p, match m_vms s !! p with
                | Some vm => vm_uses_page pa vm
                | None => false
                end) lv.
Definition page_in_use (la lv : list Z) (pa : Z) (s : machine) : bool :=
  mm_page_used_by_chainload pa (m_chainload s)
  || arena_uses_page la pa
  || mm_page_used_by_vmx pa s
  || some_vm_uses_page lv pa s.

Lemma mm_page_used_by_arena_spec la lv pa s :
  lists_wf la lv s → mm_page_used_by_arena pa s = Ok (arena_uses_page la pa).
Proof.
  intros [Hl Hsub _]. unfold mm_page_used_by_arena, arena_uses_page.
  erewrite list_search_linked; [reflexivity|done| |].
  - apply linked_length in Hl. lia.
  - intros q n Hq Hn. simpl. rewrite (Hsub q n) by done. by case_match.
Qed.

Lemma mm_page_used_by_vm_manager_spec la lv pa s :
  lists_wf la lv s → mm_page_used_by_vm_manager pa s = Ok (some_vm_uses_page lv pa s).
Proof.
  intros [_ _ Hl]. unfold mm_page_used_by_vm_manager, some_vm_uses_page.
  erewrite list_search_linked; [reflexivity|done| |].
  - apply linked_length in Hl. lia.
  - intros q n Hq Hn. simpl. by rewrite Hn.
Qed.

(** On well-formed lists the check always answers, and leaves the state unchanged. *)
Lemma mm_page_is_free_spec la lv pa s :
  lists_wf la lv s → mm_page_is_free pa s = Ok (negb (page_in_use la lv pa s), s).
Proof.
  intros Hwf. unfold mm_page_is_free, page_in_use.
  erewrite bind_ok by done. destruct (mm_page_used_by_chainload _ _); [done|].
  unfold mlift. rewrite (mm_page_used_by_arena_spec la lv) by done.
  unfold mbind, M_bind. destruct (arena_uses_page la pa); [done|].
  destruct (mm_page_used_by_vmx pa s); [done|].
  rewrite (mm_page_used_by_vm_manager_spec la lv) by done. done.
Qed.

(** The state without the variables of the allocator decides which pages are in use. *)
Lemma page_in_use_ext la lv pa s s' :
  m_chainload s' = m_chainload s → m_vms s' = m_vms s →
  m_vmxon_region_valid s' = m_vmxon_region_valid s → m_vmxon_region s' = m_vmxon_region s →
  m_msr_bitmaps_page_valid s' = m_msr_bitmaps_page_valid s →
  m_msr_bitmaps_page s' = m_msr_bitmaps_page s →
  page_in_use la lv pa s' = page_in_use la lv pa s.
Proof.
  intros H1 H2 H3 H4 H5 H6. unfold page_in_use, mm_page_used_by_vmx, some_vm_uses_page.
  by rewrite H1, H2, H3, H4, H5, H6.
Qed.

(** A VM that uses the same pages as before. *)
Lemma some_vm_uses_page_insert lv pa s s' vm v v' :
  m_vms s !! vm = Some v → m_vms s' = <[vm := v']> (m_vms s) →
  vm_uses_page pa v' = vm_uses_page pa v → some_vm_uses_page lv pa s' = some_vm_uses_page lv pa s.
Proof.
  intros Hv Hs Hu. unfold some_vm_uses_page. rewrite Hs.
  induction lv as [|q lv IH]; [done|]. cbn [existsb]. f_equal; [|exact IH].
  rewrite lookup_insert. case_decide; [|done]. subst. by rewrite Hv.
Qed.

(** * Runs of pages *)

(** A run that stays inside the window covers exactly its addresses. *)
Lemma in_page_run_spec pa first pages :
  0 ≤ first → 0 < pages → first + pages * PAGE_SIZE ≤ 2 ^ 40 →
  in_page_run pa first pages = true ↔ first ≤ pa ≤ first + (pages - 1) * PAGE_SIZE.
Proof.
  unfold in_page_run, PAGE_SIZE. intros H1 H2 H3.
  rewrite (wrap_small _ ((pages - 1) * 4096)), wrap_small by lia.
  rewrite andb_true_iff, !Z.leb_le. done.
Qed.

End definitions.
