(* ===== verification/PageAllocator.v ===== *)
(** The physical page allocator (hv/src/memory_management/memory_management.c).

    [mm_get_free_page] walks the usable EFI regions downwards from the page it
    returned last, wraps around below the first region, and panics when it is back
    where it started. The specification is a list, [mm_candidates]: all the pages
    the walk can visit in its order; the allocator returns the first free page of a
    rotation of that list. *)
From S2P Require Import Prelude Memory Machine SimpleCpu Strings Console PageUse.

Section definitions.
Context `{HW : Hardware}.

(** * mm_get_attachment *)

Fixpoint mm_get_attachment_loop (attachment_type : Z) (l : list chainload_attachment_t) : Z * Z :=
  match l with
  | [] => (0, 0)
  | iter :: l' =>
    if at_attachment_type iter =? CHAINLOAD_ATTACHMENT_END then (0, 0)
    else if at_attachment_type iter =? attachment_type then
      if at_size iter =? 0 then (0, 0)
      else (P2V_IDENTITY_MAP (at_physical_address iter), at_size iter)
    else mm_get_attachment_loop attachment_type l'
  end.

(** Returns the pointer ([NULL] is 0) and the value written to [*attachment_size]. *)
Definition mm_get_attachment (attachment_type : Z) : M machine (Z * Z) :=
  s ← mget;
  mret (mm_get_attachment_loop attachment_type (attachments (m_chainload s))).

(** * mm_get_free_page *)

(** [for (i = n - 1; i >= 0; i--) if (usable[i] && pages[i] != 0) ...; break]. The
    index is unsigned: when no region below [n] is usable the loop does not end at 0
    but reads [efi_mmap_usable[SIZE_MAX]], out of the bounds of the array. *)
Fixpoint find_usable_region (descs : list chainload_mmap_desc_t) (n : nat) : outcome (Z * Z) :=
  match n with
  | O => Undefined
  | S i =>
    match descs !! i with
    | None => Undefined
    | Some d =>
      if md_usable d && negb (md_pages d =? 0)
      then Ok (Z.of_nat i, md_pages d - 1)
      else find_usable_region descs i
    end
  end.

(** The [do]/[while] that selects the next region. [find_usable_region] never gives
    the page index [SIZE_MAX], so the body runs once. *)
Definition next_usable_region (descs : list chainload_mmap_desc_t)
    (current_region_index : Z) : outcome (Z * Z) :=
  let current_region_index :=
    if (current_region_index <=? 0) || (RKHV_MAX_EFI_MMAP_DESCRIPTORS <? current_region_index)
    then RKHV_MAX_EFI_MMAP_DESCRIPTORS else current_region_index in
  find_usable_region descs (Z.to_nat current_region_index).

Fixpoint mm_get_free_page_loop (fuel : nat)
    (current_region_index current_page_index : Z)
    (complete_loop_region_index complete_loop_page_index : Z) : M machine Z :=
  match fuel with
  | O => mout_of_fuel
  | S fuel' =>
    if negb (current_region_index =? complete_loop_region_index)
       || negb (current_page_index =? complete_loop_page_index) then
      let '(complete_loop_region_index, complete_loop_page_index) :=
        if (complete_loop_region_index =? SIZE_MAX) || (complete_loop_page_index =? SIZE_MAX)
        then (current_region_index, current_page_index)
        else (complete_loop_region_index, complete_loop_page_index) in
      s ← mget;
      let descs := efi_mmap_usable (m_chainload s) in
      match descs !! Z.to_nat current_region_index with
      | None => mundefined
      | Some d =>
        let current_page := u64 (md_physical_address d + u64 (current_page_index * PAGE_SIZE)) in
        free ← mm_page_is_free current_page;
        if (free : bool) then
          mmodify (λ s, s <| m_last_returned_region_index := current_region_index |>
                          <| m_last_returned_page_index := current_page_index |>);;
          mret current_page
        else
          let current_page_index := u64 (current_page_index - 1) in
          if md_pages d <=? current_page_index then
            next ← mlift (next_usable_region descs current_region_index);
            mm_get_free_page_loop fuel' (fst next) (snd next)
              complete_loop_region_index complete_loop_page_index
          else
            mm_get_free_page_loop fuel' current_region_index current_page_index
              complete_loop_region_index complete_loop_page_index
      end
    else mpanic "OOM :("
  end.

(** Number of pages in the usable regions. *)
Definition usable_pages (descs : list chainload_mmap_desc_t) : Z :=
  foldr (λ d acc, (if md_usable d then md_pages d else 0) + acc) 0 descs.

Definition mm_get_free_page_fuel (s : machine) : nat :=
  Z.to_nat (usable_pages (efi_mmap_usable (m_chainload s))) + 1.

Definition mm_get_free_page : M machine Z :=
  s ← mget;
  start ← (if (m_last_returned_region_index s =? SIZE_MAX)
              || (m_last_returned_page_index s =? SIZE_MAX)
           then mlift (find_usable_region (efi_mmap_usable (m_chainload s))
                                          (Z.to_nat RKHV_MAX_EFI_MMAP_DESCRIPTORS))
           else mret (m_last_returned_region_index s, m_last_returned_page_index s));
  if (fst start =? SIZE_MAX) || (snd start =? SIZE_MAX)
  then mpanic "Unable to find usable memory region"
  else mm_get_free_page_loop (mm_get_free_page_fuel s) (fst start) (snd start) SIZE_MAX SIZE_MAX.

(** * mm_setup *)

Definition mm_log_category : list Z := bytes_of_string "mm".

(** The loop over the memory map; it stops at the first empty descriptor. *)
Fixpoint mm_setup_mmap `{PF : PollFuel} (l : list chainload_mmap_desc_t) (usable_pages : Z) : M machine Z :=
  match l with
  | [] => mret usable_pages
  | iter :: l' =>
    if md_pages iter =? 0 then mret usable_pages
    else
      let usable_pages := if md_usable iter then u64 (usable_pages + md_pages iter) else usable_pages in
      LOG mm_log_category (bytes_of_string "EFI MMAP @ %p (%zxpq pages) : %s")
        [ArgInt (md_physical_address iter); ArgInt (md_pages iter);
         ArgString (Some (bytes_of_string (if md_usable iter then "usable" else "reserved")))];;
      mm_setup_mmap l' usable_pages
  end.

(** The loop over the page tables of the boot loader. *)
Fixpoint mm_setup_regions `{PF : PollFuel} (l : list chainload_page_table_region_t) : M machine () :=
  match l with
  | [] => mret ()
  | iter :: l' =>
    if ptr_pages iter =? 0 then mret ()
    else
      LOG mm_log_category (bytes_of_string "Page Table Region @ %p (%zu pages)")
        [ArgInt (ptr_physical_address iter); ArgInt (ptr_pages iter)];;
      mm_setup_regions l'
  end.

Definition mm_setup `{PF : PollFuel} (chainload_page : chainload_page_t) : M machine () :=
  mmodify (λ s, s <| m_chainload := chainload_page |>);;
  usable_pages ← mm_setup_mmap (efi_mmap_usable chainload_page) 0;
  LOG mm_log_category (bytes_of_string "Total usable memory : %zu B / %zu KiB / %zu MiB")
    [ArgInt (u64 (usable_pages * PAGE_SIZE)); ArgInt (u64 (usable_pages * PAGE_SIZE) / 1024);
     ArgInt (u64 (usable_pages * PAGE_SIZE) / 1024 / 1024)];;
  mm_setup_regions (page_table_regions chainload_page).

(** * The pages the walk visits, in its order *)

Fixpoint region_pages (i : Z) (n : nat) : list (Z * Z) :=
  match n with
  | O => []
  | S n' => (i, Z.of_nat n') :: region_pages i n'
  end.

(** The usable pages of the regions below [n], downwards. *)
Fixpoint candidates_below (descs : list chainload_mmap_desc_t) (n : nat) : list (Z * Z) :=
  match n with
  | O => []
  | S i =>
    match descs !! i with
    | Some d => if md_usable d then region_pages (Z.of_nat i) (Z.to_nat (md_pages d)) else []
    | None => []
    end ++ candidates_below descs i
  end.

Definition mm_candidates (s : machine) : list (Z * Z) :=
  candidates_below (efi_mmap_usable (m_chainload s)) (Z.to_nat RKHV_MAX_EFI_MMAP_DESCRIPTORS).

(** The address of a candidate. *)
Definition candidate_page (s : machine) (c : Z * Z) : Z :=
  match efi_mmap_usable (m_chainload s) !! Z.to_nat (fst c) with
  | Some d => md_physical_address d + snd c * PAGE_SIZE
  | None => 0
  end.

(** What the firmware and the boot loader guarantee about the memory map: the array
    is full length, its first region is usable, the usable regions are made of
    pages of the identity window. *)
Record mmap_wf (descs : list chainload_mmap_desc_t) : Prop := {
  mw_length : length descs = 231%nat;
  mw_first : ∃ d, descs !! 0%nat = Some d ∧ md_usable d = true ∧ 0 < md_pages d;
  mw_pages i d : descs !! i = Some d → 0 ≤ md_pages d < 2 ^ 63;
  mw_window i d : descs !! i = Some d → md_usable d = true →
    md_physical_address d mod PAGE_SIZE = 0 ∧ 0 ≤ md_physical_address d ∧
    md_physical_address d + md_pages d * PAGE_SIZE ≤ 2 ^ 39;
}.

(** The static variables of [mm_get_free_page] are unset or name a candidate. *)
Definition mm_statics_wf (s : machine) : Prop :=
  (m_last_returned_region_index s = SIZE_MAX ∧ m_last_returned_page_index s = SIZE_MAX) ∨
  (m_last_returned_region_index s, m_last_returned_page_index s) ∈ mm_candidates s.

(** Everything the allocator relies on. *)
Record mm_wf (la lv : list Z) (s : machine) : Prop := {
  mm_wf_lists : lists_wf la lv s;
  mm_wf_mmap : mmap_wf (efi_mmap_usable (m_chainload s));
  mm_wf_statics : mm_statics_wf s;
}.

(** One move of the walk, without the test of the page. *)
Definition walk_step (descs : list chainload_mmap_desc_t) (c : Z * Z) : outcome (Z * Z) :=
  match descs !! Z.to_nat (fst c) with
  | None => Undefined
  | Some d =>
    let p := u64 (snd c - 1) in
    if md_pages d <=? p then next_usable_region descs (fst c) else Ok (fst c, p)
  end.

(** [walk_chain descs c l e]: from [c] the walk visits [l] and then [e]. *)
Fixpoint walk_chain (descs : list chainload_mmap_desc_t) (c : Z * Z) (l : list (Z * Z))
    (e : Z * Z) : Prop :=
  match l with
  | [] => walk_step descs c = Ok e
  | c' :: l' => walk_step descs c = Ok c' ∧ walk_chain descs c' l' e
  end.

(** * The list of candidates *)

Lemma elem_of_region_pages i n c :
  c ∈ region_pages i n ↔ fst c = i ∧ 0 ≤ snd c < Z.of_nat n.
Proof.
  induction n as [|n IH]; cbn [region_pages]; [set_solver by lia|].
  rewrite elem_of_cons, IH. destruct c as [r p]; simpl. split.
  - intros [[= -> ->]|?]; lia.
  - intros [-> ?]. destruct (decide (p = Z.of_nat n)) as [->|]; [by left|right; lia].
Qed.

Lemma region_pages_split i n p :
  0 ≤ p < Z.of_nat n →
  ∃ pre, region_pages i n = pre ++ (i, p) :: region_pages i (Z.to_nat p).
Proof.
  induction n as [|n IH]; intros Hp; [lia|]. cbn [region_pages].
  destruct (decide (p = Z.of_nat n)) as [->|].
  - exists []. by rewrite Nat2Z.id.
  - destruct IH as [pre ->]; [lia|]. by exists ((i, Z.of_nat n) :: pre).
Qed.

Lemma NoDup_region_pages i n : NoDup (region_pages i n).
Proof.
  induction n as [|n IH]; cbn [region_pages]; constructor; [|done].
  rewrite elem_of_region_pages. simpl. lia.
Qed.

Lemma elem_of_candidates_below descs n r p :
  (r, p) ∈ candidates_below descs n →
  0 ≤ r < Z.of_nat n ∧
  ∃ d, descs !! Z.to_nat r = Some d ∧ md_usable d = true ∧ 0 ≤ p < md_pages d.
Proof.
  induction n as [|n IH]; cbn [candidates_below]; [set_solver|].
  rewrite elem_of_app. intros [H|H].
  - destruct (descs !! n) as [d|] eqn:Hd; [|set_solver].
    destruct (md_usable d) eqn:Hu; [|set_solver].
    apply elem_of_region_pages in H as [Hr Hp]. simpl in *. subst.
    rewrite Nat2Z.id. split; [lia|]. exists d. split_and!; try done; lia.
  - apply IH in H as [? ?]. split; [lia|done].
Qed.

Lemma candidates_below_elem descs n r p d :
  0 ≤ r < Z.of_nat n → descs !! Z.to_nat r = Some d → md_usable d = true →
  0 ≤ p < md_pages d → (r, p) ∈ candidates_below descs n.
Proof.
  intros Hr Hd Hu Hp. induction n as [|n IH]; [lia|]. cbn [candidates_below].
  apply elem_of_app. destruct (decide (r = Z.of_nat n)) as [->|]; [left|right; apply IH; lia].
  rewrite Nat2Z.id in Hd. rewrite Hd, Hu. apply elem_of_region_pages. simpl. lia.
Qed.

Lemma NoDup_candidates_below descs n : NoDup (candidates_below descs n).
Proof.
  induction n as [|n IH]; cbn [candidates_below]; [constructor|].
  apply NoDup_app. split_and!; [|intros [r p] H1 H2%elem_of_candidates_below|done].
  - repeat case_match; try constructor. apply NoDup_region_pages.
  - repeat case_match; try by apply elem_of_nil in H1. apply elem_of_region_pages in H1. simpl in *. lia.
Qed.

(** A candidate is followed by the lower pages of its region and the lower regions. *)
Lemma candidates_below_split descs n r p :
  (r, p) ∈ candidates_below descs n →
  ∃ pre, candidates_below descs n =
         pre ++ (r, p) :: region_pages r (Z.to_nat p) ++ candidates_below descs (Z.to_nat r).
Proof.
  induction n as [|n IH]; cbn [candidates_below]; [set_solver|].
  rewrite elem_of_app. intros [H|H].
  - destruct (descs !! n) as [d|] eqn:Hd; [|set_solver].
    destruct (md_usable d); [|set_solver].
    apply elem_of_region_pages in H as [Hr Hp]. simpl in *. subst.
    destruct (region_pages_split (Z.of_nat n) _ _ Hp) as [pre ->].
    exists pre. rewrite Nat2Z.id. by rewrite <-app_assoc.
  - destruct (IH H) as [pre ->]. eexists (_ ++ pre). by rewrite <-app_assoc.
Qed.

(** The downward search finds the first candidate. *)
Lemma find_usable_region_spec descs n c l :
  (n ≤ length descs)%nat → (∀ i d, descs !! i = Some d → 0 ≤ md_pages d) →
  candidates_below descs n = c :: l → find_usable_region descs n = Ok c.
Proof.
  intros Hlen Hpos. induction n as [|n IH]; cbn [candidates_below find_usable_region]; [done|].
  destruct (lookup_lt_is_Some_2 descs n) as [d Hd]; [lia|].
  pose proof (Hpos _ _ Hd). rewrite Hd.
  destruct (md_usable d); simpl; [|intros; apply IH; [lia|done]].
  destruct (Z.eqb_spec (md_pages d) 0) as [->|]; simpl; [intros; apply IH; [lia|done]|].
  destruct (Z.to_nat (md_pages d)) as [|k] eqn:Hk; [lia|]. simpl.
  intros [= <- _]. do 2 f_equal. lia.
Qed.

Lemma NoDup_split_unique {A} (l1 l2 l1' l2' : list A) x :
  NoDup (l1 ++ x :: l2) → l1 ++ x :: l2 = l1' ++ x :: l2' → l2 = l2'.
Proof.
  revert l1'. induction l1 as [|y l1 IH]; intros l1' Hnd Heq.
  - destruct l1' as [|y' l1']; simplify_eq/=; [done|].
    apply NoDup_cons in Hnd as [Hnd _]. set_solver.
  - destruct l1' as [|y' l1']; simplify_eq/=.
    + apply NoDup_cons in Hnd as [Hnd _]. set_solver.
    + apply NoDup_cons in Hnd as [_ Hnd]. eauto.
Qed.

(** * The walk follows the list of candidates *)

#[local] Arguments candidates_below : simpl never.

Section walk.
Context (descs : list chainload_mmap_desc_t) (Hwf : mmap_wf descs).
Let cands := candidates_below descs (Z.to_nat RKHV_MAX_EFI_MMAP_DESCRIPTORS).

Lemma candidates_zero_in n : (0 < n)%nat → (0, 0) ∈ candidates_below descs n.
Proof.
  intros Hn. destruct (mw_first _ Hwf) as (d & Hd & Hu & Hp).
  apply candidates_below_elem with d; try done; lia.
Qed.

Lemma find_usable_region_head n :
  (0 < n ≤ 231)%nat →
  ∃ c l, candidates_below descs n = c :: l ∧ find_usable_region descs n = Ok c.
Proof.
  intros Hn. destruct (candidates_below descs n) as [|c l] eqn:Hc.
  - pose proof (candidates_zero_in n) as H. rewrite Hc in H. apply elem_of_nil in H; [done|lia].
  - exists c, l. split; [done|]. apply find_usable_region_spec with l; [|intros|done].
    + rewrite (mw_length _ Hwf). lia.
    + by eapply mw_pages.
Qed.

(** A move goes to the next candidate, and from the last one back to the first. *)
Lemma walk_step_spec pre c post :
  cands = pre ++ c :: post →
  ∃ c', head (post ++ cands) = Some c' ∧ walk_step descs c = Ok c'.
Proof.
  intros Heq. destruct c as [r p].
  assert ((r, p) ∈ cands) as Hin by (rewrite Heq; apply elem_of_app; right; left).
  destruct (candidates_below_split _ _ _ _ Hin) as [pre' Hpre'].
  destruct (elem_of_candidates_below _ _ _ _ Hin) as (Hr & d & Hd & Hu & Hp).
  assert (post = region_pages r (Z.to_nat p) ++ candidates_below descs (Z.to_nat r)) as ->.
  { fold cands in Hpre'. eapply NoDup_split_unique; [|by rewrite <-Heq].
    rewrite <-Heq. apply NoDup_candidates_below. }
  unfold walk_step. simpl. rewrite Hd. pose proof (mw_pages _ Hwf _ _ Hd) as Hpages.
  destruct (decide (p = 0)) as [->|Hp0].
  - change (u64 (0 - 1)) with (2 ^ 64 - 1).
    destruct (Z.leb_spec (md_pages d) (2 ^ 64 - 1)); [|lia].
    unfold next_usable_region, RKHV_MAX_EFI_MMAP_DESCRIPTORS in *.
    destruct (Z.leb_spec r 0) as [Hr0|Hr0]; cbn [orb].
    + replace r with 0 by lia. simpl.
      destruct (find_usable_region_head (Z.to_nat 231)) as (c & l & Hc & Hf); [lia|].
      exists c. split; [|done]. unfold cands, RKHV_MAX_EFI_MMAP_DESCRIPTORS. by rewrite Hc.
    + destruct (Z.ltb_spec 231 r); [lia|].
      destruct (find_usable_region_head (Z.to_nat r)) as (c & l & Hc & Hf); [lia|].
      exists c. split; [|done]. by rewrite Hc.
  - rewrite wrap_small by lia. destruct (Z.leb_spec (md_pages d) (p - 1)); [lia|].
    exists (r, p - 1). split; [|done].
    replace (Z.to_nat p) with (S (Z.to_nat (p - 1))) by lia. simpl. do 2 f_equal. lia.
Qed.

Lemma walk_chain_app c l e l2 e2 :
  walk_chain descs c l e → walk_chain descs e l2 e2 → walk_chain descs c (l ++ e :: l2) e2.
Proof. revert c. induction l as [|c' l IH]; intros c; simpl; naive_solver. Qed.

Lemma walk_chain_middle pre c l e post :
  cands = pre ++ c :: l ++ e :: post → walk_chain descs c l e.
Proof.
  revert pre c. induction l as [|c' l IH]; intros pre c Heq; simpl in *.
  - destruct (walk_step_spec pre c (e :: post)) as (c' & Hc & ->); [done|].
    by simplify_eq/=.
  - destruct (walk_step_spec pre c (c' :: l ++ e :: post)) as (c'' & Hc & ->); [done|].
    simplify_eq/=. split; [done|]. apply (IH (pre ++ [c])). by rewrite <-app_assoc.
Qed.

Lemma walk_chain_end pre c l h rest :
  cands = h :: rest → cands = pre ++ c :: l → walk_chain descs c l h.
Proof.
  intros Hh. revert pre c. induction l as [|c' l IH]; intros pre c Heq; simpl in *.
  - destruct (walk_step_spec pre c []) as (c' & Hc & ->); [done|].
    simpl in Hc. rewrite Hh in Hc. by simplify_eq/=.
  - destruct (walk_step_spec pre c (c' :: l)) as (c'' & Hc & ->); [done|].
    simplify_eq/=. split; [done|]. apply (IH (pre ++ [c])). by rewrite <-app_assoc.
Qed.

(** From any candidate the walk visits all the others and comes back. *)
Lemma walk_chain_rotation pre c post :
  cands = pre ++ c :: post → walk_chain descs c (post ++ pre) c.
Proof.
  intros Heq. destruct pre as [|h pre].
  - rewrite app_nil_r. eapply (walk_chain_end [] c post); eauto.
  - simpl in Heq. apply walk_chain_app.
    + by eapply (walk_chain_end (h :: pre)).
    + by eapply (walk_chain_middle []).
Qed.

End walk.

(** * The loop of mm_get_free_page *)

(** The state after [mm_get_free_page] returned the candidate [c]. *)
Definition set_last_returned (c : Z * Z) (s : machine) : machine :=
  s <| m_last_returned_region_index := fst c |> <| m_last_returned_page_index := snd c |>.

Section loop.
Context (la lv : list Z) (s : machine).
Context (Hlists : lists_wf la lv s) (Hmmap : mmap_wf (efi_mmap_usable (m_chainload s))).
Let descs := efi_mmap_usable (m_chainload s).

Definition candidate_free (c : Z * Z) : bool :=
  negb (page_in_use la lv (candidate_page s c) s).

(** The result of looking for a free page among the candidates [l], in order. *)
Definition first_free (l : list (Z * Z)) : outcome (Z * machine) :=
  match List.find candidate_free l with
  | Some c => Ok (candidate_page s c, set_last_returned c s)
  | None => Panic "OOM :("
  end.

Lemma mm_candidates_lookup c :
  c ∈ mm_candidates s →
  ∃ d, descs !! Z.to_nat (fst c) = Some d ∧ md_usable d = true ∧
       0 ≤ fst c < 231 ∧ 0 ≤ snd c < md_pages d ∧
       candidate_page s c = md_physical_address d + snd c * PAGE_SIZE.
Proof.
  destruct c as [r p]. intros (Hr & d & Hd & Hu & Hp)%elem_of_candidates_below.
  unfold RKHV_MAX_EFI_MMAP_DESCRIPTORS in Hr.
  exists d. unfold candidate_page. fold descs in Hd |- *. simpl. rewrite Hd.
  split_and!; try done; lia.
Qed.

(** Every candidate is a page of the identity window. *)
Lemma candidate_page_ok c : c ∈ mm_candidates s → page_ok (candidate_page s c).
Proof.
  intros (d & Hd & Hu & Hr & Hp & ->)%mm_candidates_lookup.
  destruct (mw_window _ Hmmap _ _ Hd Hu) as (Ha & Hb & Hc).
  unfold page_ok, PAGE_SIZE in *. split; [|lia].
  rewrite Z_mod_plus_full. done.
Qed.

Lemma mm_get_free_page_loop_step fuel c comp :
  c ∈ mm_candidates s → c ≠ comp →
  let comp' := if (fst comp =? SIZE_MAX) || (snd comp =? SIZE_MAX) then c else comp in
  mm_get_free_page_loop (S fuel) (fst c) (snd c) (fst comp) (snd comp) s =
  if candidate_free c then Ok (candidate_page s c, set_last_returned c s)
  else match walk_step descs c with
       | Ok c' => mm_get_free_page_loop fuel (fst c') (snd c') (fst comp') (snd comp') s
       | Panic msg => Panic msg | Fault va => Fault va
       | Undefined => Undefined | OutOfFuel => OutOfFuel
       end.
Proof.
  intros Hc Hne comp'. cbn [mm_get_free_page_loop].
  assert (negb (fst c =? fst comp) || negb (snd c =? snd comp) = true) as ->.
  { destruct c as [r p], comp as [r' p']; simpl.
    destruct (Z.eqb_spec r r'), (Z.eqb_spec p p'); try done. congruence. }
  replace (if (fst comp =? SIZE_MAX) || (snd comp =? SIZE_MAX)
           then (fst c, snd c) else (fst comp, snd comp)) with comp'
    by (unfold comp'; destruct c, comp; simpl; by case_match).
  clearbody comp'. destruct comp' as [cr cp]. cbn [fst snd].
  erewrite bind_ok by done.
  pose proof (candidate_page_ok c Hc) as [_ Hok].
  destruct (mm_candidates_lookup c Hc) as (d & Hd & Hu & Hr & Hp & Hpage).
  destruct (mw_window _ Hmmap _ _ Hd Hu) as (Ha & Hb & Hw). unfold PAGE_SIZE in *.
  fold descs. rewrite Hd. unfold walk_step. rewrite Hd.
  rewrite (wrap_small _ (snd c * 4096)), wrap_small by lia. rewrite <-Hpage.
  erewrite bind_ok by (by apply (mm_page_is_free_spec la lv)).
  fold (candidate_free c). destruct (candidate_free c); [done|].
  destruct (md_pages d <=? u64 (snd c - 1)); [|done].
  unfold mbind at 1, M_bind at 1, mlift. cbn [fst snd].
  destruct (next_usable_region descs (fst c)) as [c'| | | |]; reflexivity.
Qed.

Lemma mm_get_free_page_loop_chain fuel c l c0 :
  walk_chain descs c l c0 → c0 ∉ c :: l →
  fst c0 ≠ SIZE_MAX → snd c0 ≠ SIZE_MAX →
  (∀ x, x ∈ c :: l → x ∈ mm_candidates s) →
  (length l + 1 < fuel)%nat →
  mm_get_free_page_loop fuel (fst c) (snd c) (fst c0) (snd c0) s = first_free (c :: l).
Proof.
  intros Hchain Hnin Hr0 Hp0. revert c fuel Hchain Hnin.
  induction l as [|c' l IH]; intros c fuel Hchain Hnin Hin Hfuel;
    (destruct fuel as [|fuel]; [clear -Hfuel; cbn in Hfuel; lia|]).
  all: assert (c ≠ c0) by (intros ->; apply Hnin; left).
  all: assert (c ∈ mm_candidates s) by (apply Hin; left).
  all: rewrite mm_get_free_page_loop_step by done.
  all: unfold first_free; cbn [List.find]; destruct (candidate_free c) eqn:Hfree; [done|].
  all: destruct (Z.eqb_spec (fst c0) SIZE_MAX); [done|].
  all: destruct (Z.eqb_spec (snd c0) SIZE_MAX); [done|]; cbn [orb].
  - simpl in Hchain. rewrite Hchain. destruct fuel as [|fuel]; [clear -Hfuel; cbn in Hfuel; lia|].
    cbn [mm_get_free_page_loop]. by rewrite !Z.eqb_refl.
  - destruct Hchain as [Hstep Hchain]. rewrite Hstep.
    apply IH; [done| | |].
    + intros Hin'. apply Hnin. by right.
    + intros x Hx. apply Hin. by right.
    + clear -Hfuel. cbn in Hfuel. lia.
Qed.

Lemma length_region_pages i n : length (region_pages i n) = n.
Proof. induction n as [|n IH]; simpl; congruence. Qed.

(** The whole loop, entered at the candidate [c]. *)
Lemma mm_get_free_page_loop_rotation pre c post fuel :
  mm_candidates s = pre ++ c :: post → (length (mm_candidates s) < fuel)%nat →
  mm_get_free_page_loop fuel (fst c) (snd c) SIZE_MAX SIZE_MAX s = first_free (c :: post ++ pre).
Proof.
  intros Heq Hfuel.
  assert (NoDup (mm_candidates s)) as Hnd by apply NoDup_candidates_below.
  assert (c ∈ mm_candidates s) as Hc by (rewrite Heq; apply elem_of_app; right; left).
  destruct (mm_candidates_lookup c Hc) as (d & Hd & Hu & Hr & Hp & _).
  pose proof (mw_pages _ Hmmap _ _ Hd) as Hpages.
  assert (fst c ≠ SIZE_MAX ∧ snd c ≠ SIZE_MAX) as [Hr1 Hp1] by (unfold SIZE_MAX; lia).
  destruct fuel as [|fuel]; [lia|].
  pose proof (mm_get_free_page_loop_step fuel c (SIZE_MAX, SIZE_MAX) Hc) as Hstep.
  cbv zeta in Hstep. cbn [fst snd] in Hstep. rewrite Z.eqb_refl in Hstep. cbn [orb] in Hstep.
  rewrite Hstep by (by intros ->). clear Hstep.
  unfold first_free. cbn [List.find]. destruct (candidate_free c); [done|].
  pose proof (walk_chain_rotation _ Hmmap pre c post Heq) as Hchain. fold descs in Hchain.
  assert (length (mm_candidates s) = S (length (post ++ pre))) as Hlen.
  { rewrite Heq, !length_app. simpl. lia. }
  destruct (post ++ pre) as [|c' l] eqn:Hrest; cbn [walk_chain] in Hchain.
  - rewrite Hchain. destruct fuel as [|fuel]; [cbn in Hlen; lia|].
    cbn [mm_get_free_page_loop]. by rewrite !Z.eqb_refl.
  - destruct Hchain as [-> Hchain].
    rewrite (mm_get_free_page_loop_chain fuel c' l c); try done.
    + rewrite <-Hrest. rewrite Heq in Hnd. apply NoDup_app in Hnd as (_ & Hd1 & Hnd).
      apply NoDup_cons in Hnd as [Hnin _]. rewrite elem_of_app.
      intros [H|H]; [done|]. eapply Hd1; [exact H|by left].
    + intros x. rewrite <-Hrest, Heq, !elem_of_app, elem_of_cons. tauto.
    + cbn [length] in Hlen. lia.
Qed.

End loop.

(** * What mm_get_free_page computes *)

Lemma length_candidates_below descs n :
  (n ≤ length descs)%nat → (∀ i d, descs !! i = Some d → 0 ≤ md_pages d) →
  Z.of_nat (length (candidates_below descs n)) = usable_pages (take n descs).
Proof.
  intros Hlen Hpos. induction n as [|n IH]; [done|].
  destruct (lookup_lt_is_Some_2 descs n) as [d Hd]; [lia|].
  assert (∀ l1 l2, usable_pages (l1 ++ l2) = usable_pages l1 + usable_pages l2) as Happ.
  { intros l1 l2. unfold usable_pages. induction l1; simpl; lia. }
  unfold candidates_below; fold candidates_below.
  rewrite (take_S_r descs n d Hd), Happ, length_app, Nat2Z.inj_add, IH, Hd by lia.
  pose proof (Hpos _ _ Hd). unfold usable_pages at 3. simpl.
  destruct (md_usable d); [rewrite length_region_pages|]; simpl; lia.
Qed.

Lemma mm_candidates_fuel s :
  mmap_wf (efi_mmap_usable (m_chainload s)) →
  (length (mm_candidates s) < mm_get_free_page_fuel s)%nat.
Proof.
  intros Hwf. unfold mm_candidates, mm_get_free_page_fuel.
  assert (∀ i d, efi_mmap_usable (m_chainload s) !! i = Some d → 0 ≤ md_pages d) as Hpos.
  { intros i d Hd. pose proof (mw_pages _ Hwf _ _ Hd). lia. }
  pose proof (length_candidates_below _ (Z.to_nat RKHV_MAX_EFI_MMAP_DESCRIPTORS)
    ltac:(rewrite (mw_length _ Hwf); unfold RKHV_MAX_EFI_MMAP_DESCRIPTORS; lia) Hpos) as H.
  rewrite take_ge in H by (rewrite (mw_length _ Hwf); unfold RKHV_MAX_EFI_MMAP_DESCRIPTORS; lia).
  lia.
Qed.

(** [rot] is the order in which the pages are tried: the candidates from the page
    returned last, then around. *)
Definition walk_order (s : machine) (rot : list (Z * Z)) : Prop :=
  ∃ pre c post, mm_candidates s = pre ++ c :: post ∧ rot = c :: post ++ pre ∧
    ((m_last_returned_region_index s = SIZE_MAX ∧ m_last_returned_page_index s = SIZE_MAX ∧
      pre = []) ∨
     c = (m_last_returned_region_index s, m_last_returned_page_index s)).

Lemma walk_order_elem s rot c : walk_order s rot → c ∈ rot ↔ c ∈ mm_candidates s.
Proof.
  intros (pre & c0 & post & Heq & -> & _). rewrite Heq, elem_of_cons, !elem_of_app, elem_of_cons.
  tauto.
Qed.

Lemma mm_get_free_page_walk la lv s :
  mm_wf la lv s → ∃ rot, walk_order s rot ∧ mm_get_free_page s = first_free la lv s rot.
Proof.
  intros [Hlists Hmmap Hstat]. unfold mm_get_free_page. erewrite bind_ok by done.
  set (descs := efi_mmap_usable (m_chainload s)) in *.
  assert (∃ pre c post, mm_candidates s = pre ++ c :: post ∧
    (if (m_last_returned_region_index s =? SIZE_MAX) || (m_last_returned_page_index s =? SIZE_MAX)
     then mlift (find_usable_region descs (Z.to_nat RKHV_MAX_EFI_MMAP_DESCRIPTORS))
     else mret (m_last_returned_region_index s, m_last_returned_page_index s)) s = Ok (c, s) ∧
    ((m_last_returned_region_index s = SIZE_MAX ∧ m_last_returned_page_index s = SIZE_MAX ∧
      pre = []) ∨
     c = (m_last_returned_region_index s, m_last_returned_page_index s)))
    as (pre & c & post & Heq & Hstart & Hcase).
  { destruct Hstat as [[-> ->]|Hin].
    - destruct (find_usable_region_head _ Hmmap (Z.to_nat RKHV_MAX_EFI_MMAP_DESCRIPTORS))
        as (c & l & Hc & Hf); [unfold RKHV_MAX_EFI_MMAP_DESCRIPTORS; lia|].
      exists [], c, l. split_and!; [done| |by left].
      rewrite Z.eqb_refl. cbn [orb]. unfold mlift. by rewrite Hf.
    - destruct (mm_candidates_lookup s _ Hin) as (d & Hd & Hu & Hr & Hp & _). simpl in Hr, Hp.
      pose proof (mw_pages _ Hmmap _ _ Hd).
      apply list_elem_of_split in Hin as (pre & post & Heq).
      eexists pre, _, post. split_and!; [done| |by right].
      destruct (Z.eqb_spec (m_last_returned_region_index s) SIZE_MAX); [unfold SIZE_MAX in *; lia|].
      destruct (Z.eqb_spec (m_last_returned_page_index s) SIZE_MAX); [unfold SIZE_MAX in *; lia|].
      done. }
  assert (c ∈ mm_candidates s) as Hc by (rewrite Heq; apply elem_of_app; right; left).
  destruct (mm_candidates_lookup s _ Hc) as (d & Hd & Hu & Hr & Hp & _).
  pose proof (mw_pages _ Hmmap _ _ Hd).
  exists (c :: post ++ pre). split; [by exists pre, c, post|].
  erewrite bind_ok by exact Hstart.
  destruct (Z.eqb_spec (fst c) SIZE_MAX); [unfold SIZE_MAX in *; lia|].
  destruct (Z.eqb_spec (snd c) SIZE_MAX); [unfold SIZE_MAX in *; lia|]. cbn [orb].
  apply mm_get_free_page_loop_rotation; [done..|]. by apply mm_candidates_fuel.
Qed.

(** A state that differs only in the static variables of the allocator. *)
Lemma mm_wf_set_last_returned la lv s c :
  mm_wf la lv s → c ∈ mm_candidates s → mm_wf la lv (set_last_returned c s).
Proof. intros [[] Hm _] Hc. split; [done|done|]. right. by destruct c. Qed.

(** What [mm_get_free_page] promises to its callers. *)
Lemma mm_get_free_page_wp la lv s :
  mm_wf la lv s →
  wp mm_get_free_page
     (λ msg, msg = "OOM :(" ∧ ∀ c, c ∈ mm_candidates s → candidate_free la lv s c = false)
     (λ p s', ∃ c, c ∈ mm_candidates s ∧ p = candidate_page s c ∧
        page_in_use la lv p s = false ∧ page_ok p ∧ s' = set_last_returned c s ∧ mm_wf la lv s')
     s.
Proof.
  intros Hwf. destruct (mm_get_free_page_walk la lv s Hwf) as (rot & Hrot & Heq).
  unfold wp. rewrite Heq. unfold first_free.
  destruct (List.find (candidate_free la lv s) rot) as [c|] eqn:Hf.
  - apply find_some in Hf as [Hin Hfree]. apply list_elem_of_In in Hin.
    apply (walk_order_elem _ _ _ Hrot) in Hin.
    unfold candidate_free in Hfree. apply negb_true_iff in Hfree.
    exists c. split_and!; try done.
    + apply candidate_page_ok; [apply Hwf|done].
    + by apply mm_wf_set_last_returned.
  - split; [done|]. intros c Hc. apply (walk_order_elem _ _ _ Hrot) in Hc.
    eapply find_none; [exact Hf|]. by apply list_elem_of_In.
Qed.

(** A page that is not claimed by its caller is given out again: the walk starts with the
    page that was returned last. *)
Lemma mm_get_free_page_again la lv s c :
  mm_wf la lv s → c ∈ mm_candidates s → page_in_use la lv (candidate_page s c) s = false →
  m_last_returned_region_index s = fst c → m_last_returned_page_index s = snd c →
  mm_get_free_page s = Ok (candidate_page s c, set_last_returned c s).
Proof.
  intros Hwf Hc Hfree H1 H2.
  destruct (mm_get_free_page_walk la lv _ Hwf) as (rot & (pre & c' & post & Hcs & -> & Hcase) & ->).
  assert (c' = c) as ->.
  { destruct Hcase as [(H3 & _)| ->]; [|rewrite H1, H2; by destruct c].
    destruct (mm_candidates_lookup s c Hc) as (d & _ & _ & Hr & _).
    rewrite H1 in H3. unfold SIZE_MAX in H3. lia. }
  unfold first_free. cbn [List.find]. unfold candidate_free at 1. by rewrite Hfree.
Qed.

End definitions.

(** * The small machine is well formed *)

Lemma small_mmap_lookup n i d :
  small_mmap n !! i = Some d →
  d = mk_mmap_desc 0 4 true ∨ d = mk_mmap_desc 0x4000 12 false ∨
  d = mk_mmap_desc 0x10000 n true ∨ d = mk_mmap_desc 0 0 false.
Proof.
  intros H%list_elem_of_lookup_2. unfold small_mmap in H.
  rewrite elem_of_app, !elem_of_cons, elem_of_nil, elem_of_replicate in H. tauto.
Qed.

Lemma small_mmap_wf n : 0 ≤ n < 2 ^ 20 → mmap_wf (small_mmap n).
Proof.
  intros Hn. split.
  - done.
  - eexists. by split_and!.
  - intros i d Hd. apply small_mmap_lookup in Hd as [->|[->|[->| ->]]]; simpl; lia.
  - intros i d Hd. unfold PAGE_SIZE.
    apply small_mmap_lookup in Hd as [->|[->|[->| ->]]]; simpl; try done; intros _;
      (split; [reflexivity|lia]).
Qed.

Lemma small_machine_lists_wf n : lists_wf [] [] (small_machine n).
Proof. split; [constructor|intros a h Ha; by apply elem_of_nil in Ha|constructor]. Qed.

Lemma small_machine_wf n : 0 ≤ n < 2 ^ 20 → mm_wf [] [] (small_machine n).
Proof.
  intros Hn. split; [apply small_machine_lists_wf|by apply small_mmap_wf|by left].
Qed.

(** * Properties *)



(** A page that nobody records is given out again: calling [mm_get_free_page] a second
    time, before the page is claimed, returns the same page. *)
Theorem mm_get_free_page_repeats `{HW : Hardware} (la lv : list Z) (s s' : machine) (p : Z) :
  mm_wf la lv s → mm_get_free_page s = Ok (p, s') → mm_get_free_page s' = Ok (p, s').
Proof.
  intros Hwf Heq. pose proof (mm_get_free_page_wp la lv s Hwf) as H.
  apply (wp_ok_inv _ _ _ _ _ _ H) in Heq as (c & Hc & -> & Hfree & Hok & -> & Hwf').
  by apply (mm_get_free_page_again la lv (set_last_returned c s) c).
Qed.

(** C30: when no region is usable the first call does not reach its panic "Unable to
    find usable memory region": the downward search reads the memory map out of its
    bounds. *)
Theorem mm_get_free_page_no_usable_region `{HW : Hardware} (s : machine) :
  m_last_returned_region_index s = SIZE_MAX →
  (∀ d, d ∈ efi_mmap_usable (m_chainload s) → md_usable d = false ∨ md_pages d = 0) →
  mm_get_free_page s = Undefined.
Proof.
  intros Hunset Hall. unfold mm_get_free_page. erewrite bind_ok by done.
  rewrite Hunset, Z.eqb_refl. cbn [orb]. unfold mbind, M_bind, mlift.
  enough (∀ n, find_usable_region (efi_mmap_usable (m_chainload s)) n = Undefined) as ->; [done|].
  induction n as [|n IH]; cbn [find_usable_region]; [done|].
  destruct (efi_mmap_usable (m_chainload s) !! n) as [d|] eqn:Hd; [|done].
  apply list_elem_of_lookup_2 in Hd. destruct (Hall d Hd) as [->| ->]; [done|].
  by rewrite andb_false_r.
Qed.

Lemma mm_get_free_page_no_usable_region_witness :
  let cp := mk_chainload_page [] 0x1000 [] [] (replicate 231 (mk_mmap_desc 0 8 false)) in
  mm_get_free_page (initial_machine cp ∅) = Undefined.
Proof.
  apply mm_get_free_page_no_usable_region; [done|].
  intros d Hd%elem_of_replicate. left. by destruct Hd as [-> _].
Defined.

(** Attachments as the boot loader records them: an empty one may be anywhere. *)
Definition attachment_range (a size : Z) : Prop :=
  0 ≤ size ∧ (0 < size → page_ok a ∧ a + size ≤ 2 ^ 39).
Definition attachment_wf (a : chainload_attachment_t) : Prop :=
  attachment_range (at_physical_address a) (at_size a).

Lemma mm_get_attachment_loop_found t l va size :
  Forall attachment_wf l → mm_get_attachment_loop t l = (va, size) → 0 < size →
  ∃ pa, page_ok pa ∧ pa + size ≤ 2 ^ 39 ∧ va = P2V_IDENTITY_MAP pa.
Proof.
  induction 1 as [|a l [Hsz Hok] _ IH]; cbn [mm_get_attachment_loop]; [by intros [= <- <-] ?|].
  destruct (_ =? CHAINLOAD_ATTACHMENT_END); [by intros [= <- <-] ?|]. destruct (_ =? t); [|done].
  destruct (_ =? 0); [by intros [= <- <-] ?|]. intros [= <- <-] H. destruct (Hok H). by eexists.
Qed.

Lemma mm_get_attachment_loop_used t l va size off :
  Forall attachment_wf l → mm_get_attachment_loop t l = (va, size) → 0 ≤ off < size →
  mm_page_used_by_attachments (Z.land (V2P_IDENTITY_MAP va + off) PAGE_MASK) l = true.
Proof.
  intros Hok Hloop Hoff. revert Hloop.
  induction Hok as [|a l [Hsz Hnz] Hok IH];
    cbn [mm_get_attachment_loop mm_page_used_by_attachments]; intros Hloop; [simplify_eq; lia|].
  destruct (at_attachment_type a =? CHAINLOAD_ATTACHMENT_END); [simplify_eq; lia|].
  match goal with |- (if ?b then _ else _) = true => destruct b eqn:Hcase end; [done|].
  destruct (at_attachment_type a =? t); [|by apply IH].
  exfalso. destruct (Z.eqb_spec (at_size a) 0); [simplify_eq; lia|]. destruct Hnz as [[Hal Hb] Hend]; [lia|].
  injection Hloop as <- <-. rewrite V2P_P2V_page in Hcase by done.
  destruct (Z.ltb_spec 0 (at_size a)); [|lia]. simpl in Hcase.
  apply not_true_iff_false in Hcase. apply Hcase. rewrite PAGE_MASK_spec.
  unfold size_to_pages, PAGE_SIZE in *.
  apply in_page_run_spec; unfold PAGE_SIZE;
    destruct (Z.eqb_spec (at_size a mod 4096) 0); zlia.
Qed.

(** a page of an attachment that [mm_get_attachment] returns is never given out
    by the allocator: the chainload page claims it. *)
Theorem mm_get_attachment_claimed `{HW : Hardware} (s : machine) (t va size off : Z) :
  (∀ a, a ∈ attachments (m_chainload s) →
     page_ok (at_physical_address a) ∧ 0 ≤ at_size a ∧
     at_physical_address a + at_size a ≤ 2 ^ 39) →
  mm_get_attachment t s = Ok ((va, size), s) → 0 ≤ off < size →
  mm_page_used_by_chainload (V2P_IDENTITY_MAP va + off) (m_chainload s) = true.
Proof.
  intros Hok Hget Hoff. unfold mm_get_attachment in Hget.
  change (Ok (mm_get_attachment_loop t (attachments (m_chainload s)), s) = Ok (va, size, s)) in Hget.
  assert (mm_get_attachment_loop t (attachments (m_chainload s)) = (va, size)) as Hloop
    by (by injection Hget). clear Hget.
  unfold mm_page_used_by_chainload. apply orb_true_iff. left. apply orb_true_iff. right.
  eapply mm_get_attachment_loop_used; [|exact Hloop|exact Hoff]. apply Forall_forall.
  intros a Ha. destruct (Hok a Ha) as (H1 & H2 & H3). by split.
Qed.

Lemma mm_get_attachment_claimed_witness :
  let cp := mk_chainload_page [] 0x1000 [mk_attachment 0x5000 4097 0x4c] [] (small_mmap 0) in
  mm_page_used_by_chainload
    (V2P_IDENTITY_MAP (P2V_IDENTITY_MAP 0x5000) + 4096) cp = true.
Proof.
  apply (mm_get_attachment_claimed
           (initial_machine (mk_chainload_page [] 0x1000 [mk_attachment 0x5000 4097 0x4c] []
                               (small_mmap 0)) ∅) 0x4c _ 4097).
  - intros a Ha. apply list_elem_of_singleton in Ha as ->. unfold page_ok. simpl.
    split_and!; try reflexivity; lia.
  - reflexivity.
  - lia.
Defined.

(** * Correctness of mm_setup *)

(** The entries before the first empty one. *)
Fixpoint until_empty {A} (pages : A → Z) (l : list A) : list A :=
  match l with
  | [] => []
  | x :: l' => if pages x =? 0 then [] else x :: until_empty pages l'
  end.

(** What is printed of each descriptor and of each region, and the usable memory. *)
Definition mmap_line (d : chainload_mmap_desc_t) : list Z :=
  log_line mm_log_category (bytes_of_string "EFI MMAP @ %p (%zxpq pages) : %s")
    [ArgInt (md_physical_address d); ArgInt (md_pages d);
     ArgString (Some (bytes_of_string (if md_usable d then "usable" else "reserved")))].
Definition region_line (r : chainload_page_table_region_t) : list Z :=
  log_line mm_log_category (bytes_of_string "Page Table Region @ %p (%zu pages)")
    [ArgInt (ptr_physical_address r); ArgInt (ptr_pages r)].
Definition usable_total (l : list chainload_mmap_desc_t) : Z :=
  foldr (λ d n, (if md_usable d then md_pages d else 0) + n) 0 (until_empty md_pages l).
Definition total_line (bytes : Z) : list Z :=
  log_line mm_log_category (bytes_of_string "Total usable memory : %zu B / %zu KiB / %zu MiB")
    [ArgInt bytes; ArgInt (bytes / 1024); ArgInt (bytes / 1024 / 1024)].
Definition mm_setup_text (cp : chainload_page_t) : list Z :=
  concat (map mmap_line (until_empty md_pages (efi_mmap_usable cp))) ++
  total_line (u64 (usable_total (efi_mmap_usable cp) * PAGE_SIZE)) ++
  concat (map region_line (until_empty ptr_pages (page_table_regions cp))).

(** The members of the chainload page have the width of their types. *)
Definition chainload_typed (cp : chainload_page_t) : Prop :=
  Forall (λ d, 0 ≤ md_physical_address d < 2 ^ 64 ∧ 0 ≤ md_pages d < 2 ^ 63) (efi_mmap_usable cp) ∧
  Forall (λ r, 0 ≤ ptr_physical_address r < 2 ^ 64 ∧ 0 ≤ ptr_pages r < 2 ^ 64) (page_table_regions cp).

Section setup.
Context `{CON : Console}.
Implicit Types (s : machine).

Lemma wp_mm_setup_mmap l usable_pages E (Q : Z → machine → Prop) s :
  Forall (λ d, 0 ≤ md_physical_address d < 2 ^ 64 ∧ 0 ≤ md_pages d < 2 ^ 63) l → console_inv s →
  (∀ n s', u64 n = u64 (usable_pages + usable_total l) →
     logged (concat (map mmap_line (until_empty md_pages l))) s s' → Q n s') →
  wp (mm_setup_mmap l usable_pages) E Q s.
Proof.
  intros Hl. revert usable_pages s Q. unfold usable_total.
  induction Hl as [|d l [Ha Hp] _ IH]; intros n s Q Hcon HQ; cbn [mm_setup_mmap until_empty].
  { apply wp_ret, HQ; [by rewrite Z.add_0_r|by apply logged_refl]. }
  cbn [until_empty] in HQ. destruct (md_pages d =? 0).
  { apply wp_ret, HQ; [by rewrite Z.add_0_r|by apply logged_refl]. }
  cbv zeta. wp_step. apply wp_LOG_text; [done|solve_log_ok|]. intros s1 H1.
  apply IH; [apply H1|]. intros n' s2 Hn H2. apply HQ; [|by eapply logged_trans].
  rewrite Hn. cbn [foldr]. destruct (md_usable d); [|done].
  rewrite wrap_add_l. f_equal. lia.
Qed.

Lemma wp_mm_setup_regions l E (Q : () → machine → Prop) s :
  Forall (λ r, 0 ≤ ptr_physical_address r < 2 ^ 64 ∧ 0 ≤ ptr_pages r < 2 ^ 64) l → console_inv s →
  (∀ s', logged (concat (map region_line (until_empty ptr_pages l))) s s' → Q () s') →
  wp (mm_setup_regions l) E Q s.
Proof.
  intros Hl. revert s Q. induction Hl as [|r l [Ha Hp] _ IH]; intros s Q Hcon HQ; cbn [mm_setup_regions until_empty].
  { apply wp_ret, HQ. by apply logged_refl. }
  cbn [until_empty] in HQ. destruct (ptr_pages r =? 0).
  { apply wp_ret, HQ. by apply logged_refl. }
  wp_step. apply wp_LOG_text; [done|solve_log_ok|]. intros s1 H1.
  apply IH; [apply H1|]. intros s2 H2. apply HQ. by eapply logged_trans.
Qed.

Lemma wp_mm_setup cp E (Q : () → machine → Prop) s :
  chainload_typed cp → console_inv s →
  (∀ s', logged (mm_setup_text cp) (s <| m_chainload := cp |>) s' → Q () s') →
  wp (mm_setup cp) E Q s.
Proof.
  intros [Hm Hr] Hcon HQ. unfold mm_setup. do 2 wp_step. set (s1 := s <| m_chainload := cp |>) in *.
  wp_step. apply wp_mm_setup_mmap; [done|by eapply console_local; [| |exact Hcon]|]. intros n s2 Hn H2.
  assert (u64 (n * PAGE_SIZE) = u64 (usable_total (efi_mmap_usable cp) * PAGE_SIZE)) as ->.
  { unfold wrap in *. by rewrite <-(Zmult_mod_idemp_l n), Hn, Zmult_mod_idemp_l. }
  pose proof (wrap_bound 64 (usable_total (efi_mmap_usable cp) * PAGE_SIZE) ltac:(lia)) as Hb.
  wp_step. apply wp_LOG_text; [apply H2|solve_log_ok; zlia|]. intros s3 H3.
  apply wp_mm_setup_regions; [done|apply H3|]. intros s4 H4. apply HQ.
  unfold mm_setup_text. eapply logged_trans; [exact H2|]. by eapply logged_trans.
Qed.

(** [mm_setup] records the chainload page and prints its memory map up to the first empty
    descriptor, the amount of usable memory and the page tables of the boot loader. *)
Theorem mm_setup_correct cp s :
  chainload_typed cp → console_inv s →
  ∃ s', mm_setup cp s = Ok ((), s') ∧ logged (mm_setup_text cp) (s <| m_chainload := cp |>) s'.
Proof.
  intros Ht Hcon.
  destruct (wp_no_panic_ok (mm_setup cp) (λ _ s', logged (mm_setup_text cp) (s <| m_chainload := cp |>) s') s)
    as ([] & s' & H1 & H2); [|by exists s'].
  by apply wp_mm_setup.
Qed.

End setup.

Lemma small_mmap_typed n :
  0 ≤ n < 2 ^ 63 →
  Forall (λ d, 0 ≤ md_physical_address d < 2 ^ 64 ∧ 0 ≤ md_pages d < 2 ^ 63) (small_mmap n).
Proof.
  intros Hn. unfold small_mmap. apply Forall_app. split; [by repeat constructor; cbn; lia|].
  by apply Forall_replicate.
Qed.

(** Witness: one usable region, the lines of its descriptor and of the total. *)
Lemma mm_setup_correct_witness :
  let cp := mk_chainload_page [] 0x1000 [] [mk_page_table_region 0x5000 2] (small_mmap 4) in
  mmap_line (mk_mmap_desc 0x1000 2 true) =
    log_text (bytes_of_string "mm")
      (bytes_of_string "EFI MMAP @ 0x0000000000001000 (0x0000000000000002 pages) : usable") ∧
  total_line (u64 (2 * PAGE_SIZE)) =
    log_text (bytes_of_string "mm") (bytes_of_string "Total usable memory : 8192 B / 8 KiB / 0 MiB") ∧
  ∃ s', mm_setup cp (small_machine 4) = Ok ((), s') ∧ m_chainload s' = cp ∧
    console_text s' = mm_setup_text cp.
Proof.
  intros cp. split; [reflexivity|]. split; [reflexivity|].
  destruct (mm_setup_correct cp (small_machine 4)) as (s' & H1 & H2).
  - split.
    + apply small_mmap_typed. lia.
    + repeat constructor; discriminate.
  - intros H. discriminate H.
  - exists s'. split; [exact H1|]. split; [|exact (lg_text _ _ _ H2)].
    destruct (lg_frame _ _ _ H2) as [H _]. rewrite H. reflexivity.
Defined.
