(* ===== verification/Arena.v ===== *)
(** Arenas (hv/src/memory_management/arena.c).

    An arena is one page: a header followed by the objects allocated from it. The
    arenas are a doubly linked list through their headers; the code checks the links
    and panics when they are inconsistent. [arenas_wf] is the consistency of the
    list, and the theorems show that it is kept and that the checks never fire. *)
From S2P Require Import Prelude Memory Machine SimpleCpu Strings Console PageUse PageAllocator.

Section definitions.
Context `{HW : Hardware}.

Definition sizeof_arena_header_t : Z := 32.

Definition arena_get (p : Z) : M machine arena_header_t :=
  s ← mget;
  match m_arenas s !! p with Some h => mret h | None => mundefined end.
Definition arena_modify (p : Z) (f : arena_header_t → arena_header_t) : M machine () :=
  h ← arena_get p;
  mmodify (λ s, s <| m_arenas := <[p := f h]> (m_arenas s) |>).

Definition corrupted_arena_list : string := "Corrupted arena linked list".

Definition arena_allocate (arena size : Z) : M machine Z :=
  arena_header ← arena_get arena;
  if u64 (PAGE_SIZE - u64 (arena_used_size arena_header + sizeof_arena_header_t)) <? size
  then mpanic "subarenas not supported right now"
  else
    let ret := u64 (arena + u64 (arena_used_size arena_header + sizeof_arena_header_t)) in
    arena_modify arena (λ h, h <| arena_used_size := u64 (arena_used_size h + size) |>);;
    mret ret.

Definition arena_destroy (arena : Z) : M machine () :=
  arena_header ← arena_get arena;
  (if negb (arena_next arena_header =? 0) then
     next ← arena_get (arena_next arena_header);
     if negb (arena_prev next =? arena) then mpanic corrupted_arena_list
     else arena_modify (arena_next arena_header)
            (λ h, h <| arena_prev := arena_prev arena_header |>)
   else mret ());;
  arena_header ← arena_get arena;
  (if negb (arena_prev arena_header =? 0) then
     prev ← arena_get (arena_prev arena_header);
     if negb (arena_next prev =? arena) then mpanic corrupted_arena_list
     else arena_modify (arena_prev arena_header)
            (λ h, h <| arena_next := arena_next arena_header |>)
   else mret ());;
  arena_header ← arena_get arena;
  s ← mget;
  if m_arena_head s =? arena then
    if negb (arena_prev arena_header =? 0) then mpanic corrupted_arena_list
    else mmodify (λ s, s <| m_arena_head := arena_next arena_header |>)
  else mret ().

Definition arena_create : M machine Z :=
  page ← mm_get_free_page;
  let arena_page := P2V_IDENTITY_MAP page in
  s ← mget;
  mmodify (λ s, s <| m_arenas :=
    <[arena_page := mk_arena_header 0 (m_arena_head s) 0 0]> (m_arenas s) |>);;
  (if negb (m_arena_head s =? 0) then
     head ← arena_get (m_arena_head s);
     if negb (arena_prev head =? 0) then mpanic corrupted_arena_list
     else arena_modify (m_arena_head s) (λ h, h <| arena_prev := arena_page |>)
   else mret ());;
  mmodify (λ s, s <| m_arena_head := arena_page |>);;
  mret arena_page.

(** ** arena_debug_print_tree *)

Definition arena_log_category : list Z := bytes_of_string "arena".

(** The fuel of a loop over a list is more than the number of objects of the heap. *)
Fixpoint arena_print_subarenas `{PF : PollFuel} (fuel : nat) (sub_it : Z) : M machine () :=
  match fuel with
  | O => mout_of_fuel
  | S fuel =>
    if sub_it =? 0 then mret () else
    s ← mget;
    match m_subarenas s !! sub_it with
    | None => mundefined
    | Some header =>
      LOG arena_log_category (bytes_of_string "     subarena @ %p") [ArgInt sub_it];;
      LOG arena_log_category (bytes_of_string "      - next      : %p") [ArgInt (sub_next header)];;
      LOG arena_log_category (bytes_of_string "      - used_size : %zu") [ArgInt (sub_used_size header)];;
      arena_print_subarenas fuel (sub_next header)
    end
  end.

Fixpoint arena_print_arenas `{PF : PollFuel} (fuel : nat) (arena_it : Z) : M machine () :=
  match fuel with
  | O => mout_of_fuel
  | S fuel =>
    if arena_it =? 0 then mret () else
    header ← arena_get arena_it;
    LOG arena_log_category (bytes_of_string "arena @ %p") [ArgInt arena_it];;
    LOG arena_log_category (bytes_of_string " - prev      : %p") [ArgInt (arena_prev header)];;
    LOG arena_log_category (bytes_of_string " - next      : %p") [ArgInt (arena_next header)];;
    LOG arena_log_category (bytes_of_string " - subarenas : %p") [ArgInt (arena_subarenas header)];;
    subarenas ← mgets m_subarenas;
    arena_print_subarenas (S (size subarenas)) (arena_subarenas header);;
    LOG arena_log_category (bytes_of_string " - used_size : %zu") [ArgInt (arena_used_size header)];;
    arena_print_arenas fuel (arena_next header)
  end.

Definition arena_debug_print_tree `{PF : PollFuel} : M machine () :=
  s ← mget;
  LOG arena_log_category (bytes_of_string "arena_head = %p") [ArgInt (m_arena_head s)];;
  arena_print_arenas (S (size (m_arenas s))) (m_arena_head s).

(** * Consistency of the list *)

(** [dll heap prev p l]: the doubly linked list of the headers at [l] starts at [p],
    whose [prev] member is [prev]. *)
Inductive dll (heap : gmap Z arena_header_t) : Z → Z → list Z → Prop :=
  | dll_nil prev : dll heap prev 0 []
  | dll_cons prev p h l :
      p ≠ 0 → heap !! p = Some h → arena_prev h = prev →
      dll heap p (arena_next h) l → dll heap prev p (p :: l).

(** A header of a live arena: the objects stay in its page. *)
Definition arena_header_wf (h : arena_header_t) : Prop :=
  arena_subarenas h = 0 ∧ 0 ≤ arena_used_size h ∧
  arena_used_size h + sizeof_arena_header_t ≤ PAGE_SIZE.

Record arenas_wf (la : list Z) (s : machine) : Prop := {
  aw_dll : dll (m_arenas s) 0 (m_arena_head s) la;
  aw_page a : a ∈ la → ∃ p, page_ok p ∧ a = P2V_IDENTITY_MAP p;
  aw_header a h : a ∈ la → m_arenas s !! a = Some h → arena_header_wf h;
}.

End definitions.

Section dll.
Implicit Types (heap : gmap Z arena_header_t).

Lemma dll_linked heap prev p l : dll heap prev p l → linked arena_next heap p l.
Proof. induction 1; by econstructor. Qed.

Lemma dll_nodup heap prev p l : dll heap prev p l → NoDup l.
Proof. intros H. by eapply linked_nodup, dll_linked. Qed.

Lemma dll_insert_ne heap prev p l q h : dll heap prev p l → q ∉ l → dll (<[q:=h]> heap) prev p l.
Proof.
  induction 1 as [|prev p h' l Hp Hh Hprev H IH]; intros Hq; [constructor|].
  apply not_elem_of_cons in Hq as [Hq1 Hq2].
  econstructor; [done|by rewrite lookup_insert_ne by done|done|by apply IH].
Qed.

Lemma dll_head heap prev p x l : dll heap prev p (x :: l) → p = x.
Proof. by inversion 1. Qed.

(** A write that keeps the links of a node. *)
Lemma dll_same_links heap prev p l a h h' :
  heap !! a = Some h → arena_prev h' = arena_prev h → arena_next h' = arena_next h →
  dll heap prev p l → dll (<[a:=h']> heap) prev p l.
Proof.
  intros Hh Hprev' Hnext'. induction 1 as [|prev p n l Hp Hn Hprev H IH]; [constructor|].
  destruct (decide (a = p)) as [->|Hne].
  - assert (n = h) as -> by congruence.
    econstructor; [done|apply lookup_insert_eq|congruence|congruence].
  - econstructor; [done|by rewrite lookup_insert_ne by done|done|done].
Qed.

(** Writing the [prev] member of the first node. *)
Lemma dll_set_prev heap prev prev' p h l :
  dll heap prev p (p :: l) → heap !! p = Some h →
  dll (<[p := h <| arena_prev := prev' |>]> heap) prev' p (p :: l).
Proof.
  intros H Hh. pose proof (dll_nodup _ _ _ _ H) as Hnd. apply NoDup_cons in Hnd as [Hnin _].
  inversion H as [|? ? h' ? Hp Hh' Hprev Htl]; subst. assert (h' = h) as -> by congruence.
  econstructor; [done|apply lookup_insert_eq|done|]. simpl.
  by apply dll_insert_ne.
Qed.

(** The first node of the rest of a list, seen from the node before it. *)
Lemma dll_app_inv heap prev p l1 a l2 :
  dll heap prev p (l1 ++ a :: l2) →
  ∃ h, heap !! a = Some h ∧ a ≠ 0 ∧ arena_prev h = default prev (last l1) ∧
       dll heap a (arena_next h) l2 ∧
       match last l1 with
       | None => p = a
       | Some b => ∃ hb, heap !! b = Some hb ∧ arena_next hb = a
       end.
Proof.
  revert prev p. induction l1 as [|x l1 IH]; intros prev p H; simpl in H.
  - inversion H as [|? ? h ? Hp Hh Hprev Htl]; subst. by exists h.
  - inversion H as [|? ? h ? Hp Hh Hprev Htl]; subst.
    destruct (IH _ _ Htl) as (ha & Ha & Ha0 & Hprev' & Hrest & Hlink).
    exists ha. destruct l1 as [|y l1]; [simpl in *; subst; by eauto 10|].
    rewrite last_cons_cons. destruct (last (y :: l1)) as [b|] eqn:Hlast; [by split_and!|].
    by apply last_None in Hlast.
Qed.

(** Replacing the rest of a list: [heap'] has the same nodes up to [b], whose [next]
    member now leads to [l2]. *)
Lemma dll_replace_tail heap heap' prev p l1 b hb tl l2 p' :
  dll heap prev p (l1 ++ b :: tl) → heap !! b = Some hb →
  (∀ x, x ∈ l1 → heap' !! x = heap !! x) →
  heap' !! b = Some (hb <| arena_next := p' |>) →
  dll heap' b p' l2 → dll heap' prev p (l1 ++ b :: l2).
Proof.
  intros H Hb Heq Hb' Hl2. revert prev p H. induction l1 as [|x l1 IH]; intros prev p H.
  - inversion H as [|? ? h ? Hp Hh Hprev Htl]; subst. assert (h = hb) as -> by congruence.
    by econstructor.
  - inversion H as [|? ? h ? Hp Hh Hprev Htl]; subst. simpl.
    econstructor; [done|by rewrite Heq by left|done|].
    apply IH; [|done]. intros y Hy. apply Heq. by right.
Qed.

End dll.

Section proofs.
Context `{HW : Hardware}.
Implicit Types (s : machine).

Lemma wp_arena_get a h E Q s : m_arenas s !! a = Some h → Q h s → wp (arena_get a) E Q s.
Proof. intros Hh HQ. unfold arena_get. wp_step. wp_step. by rewrite Hh. Qed.

Lemma wp_arena_modify a h f E (Q : () → machine → Prop) s :
  m_arenas s !! a = Some h →
  Q () (s <| m_arenas := <[a := f h]> (m_arenas s) |>) → wp (arena_modify a f) E Q s.
Proof. intros Hh HQ. unfold arena_modify. wp_step. by eapply wp_arena_get. Qed.

Lemma arenas_wf_lookup la s a : arenas_wf la s → a ∈ la → ∃ h, m_arenas s !! a = Some h.
Proof. intros Hwf Ha. by apply (linked_lookup _ _ _ _ _ (dll_linked _ _ _ _ (aw_dll _ _ Hwf))). Qed.

(** An arena page is claimed by its arena. *)
Lemma arena_uses_page_iff la s p :
  arenas_wf la s → page_ok p → arena_uses_page la p = true ↔ P2V_IDENTITY_MAP p ∈ la.
Proof.
  intros Hwf Hp. unfold arena_uses_page. rewrite existsb_exists, PAGE_MASK_spec.
  replace (p / 4096 * 4096) with p by (destruct Hp; unfold PAGE_SIZE in *; zlia).
  split.
  - intros (a & Ha%list_elem_of_In & Heq%Z.eqb_eq).
    destruct (aw_page _ _ Hwf a Ha) as (q & Hq & ->). by rewrite Heq, V2P_P2V_page.
  - intros Ha. exists (P2V_IDENTITY_MAP p). rewrite V2P_P2V_page by done.
    split; [by apply list_elem_of_In|apply Z.eqb_refl].
Qed.

(** [arena_allocate] returns the end of the used part, which grows by [size]. *)
Lemma wp_arena_allocate la a h size E (Q : Z → machine → Prop) s :
  arenas_wf la s → a ∈ la → m_arenas s !! a = Some h → 0 ≤ size →
  (PAGE_SIZE - (arena_used_size h + sizeof_arena_header_t) < size →
   E "subarenas not supported right now") →
  (arena_used_size h + sizeof_arena_header_t + size ≤ PAGE_SIZE →
   let s' := s <| m_arenas :=
     <[a := h <| arena_used_size := arena_used_size h + size |>]> (m_arenas s) |> in
   arenas_wf la s' → Q (a + arena_used_size h + sizeof_arena_header_t) s') →
  wp (arena_allocate a size) E Q s.
Proof.
  intros Hwf Ha Hh Hsize Hfull HQ. unfold arena_allocate. wp_step. eapply wp_arena_get; [done|].
  destruct (aw_header _ _ Hwf a h Ha Hh) as (Hsub & Hu & Hu').
  destruct (aw_page _ _ Hwf a Ha) as (p & [Hp1 Hp2] & ->).
  unfold sizeof_arena_header_t, PAGE_SIZE in *.
  rewrite (wrap_small _ (arena_used_size h + 32)), (wrap_small _ (4096 - _)) by lia.
  wp_step; [apply Z.ltb_lt in E0; by apply wp_panic, Hfull|apply Z.ltb_ge in E0].
  wp_step. eapply wp_arena_modify; [done|]. apply wp_ret.
  rewrite P2V_page_ok in * by done. unfold RKHV_PHYSICAL_MEMORY_BASE in *.
  rewrite (wrap_small _ (arena_used_size h + size)), wrap_small by lia.
  rewrite Z.add_assoc. apply HQ; [lia|]. split; simpl.
  - by eapply dll_same_links, aw_dll.
  - apply Hwf.
  - intros a' h' Ha' Hh'. rewrite lookup_insert in Hh'. case_decide; [|by eapply aw_header].
    injection Hh' as <-. unfold arena_header_wf, sizeof_arena_header_t, PAGE_SIZE; simpl. lia.
Qed.

(** A well-formed list of arenas keeps the allocator's invariant. *)
Lemma mm_wf_arenas la la' lv s heap head :
  mm_wf la lv s → arenas_wf la' (s <| m_arenas := heap |> <| m_arena_head := head |>) →
  mm_wf la' lv (s <| m_arenas := heap |> <| m_arena_head := head |>).
Proof.
  intros [[_ _ Hvms] Hmmap Hstat] Haw. split; [split|done|done].
  - by eapply dll_linked, Haw.
  - intros a h Ha Hh. by apply (aw_header _ _ Haw a h).
  - done.
Qed.

Lemma wp_arena_create la lv s E (Q : Z → machine → Prop) :
  mm_wf la lv s → arenas_wf la s → E "OOM :(" →
  (∀ p c heap, c ∈ mm_candidates s → p = candidate_page s c → page_ok p →
     page_in_use la lv p s = false → P2V_IDENTITY_MAP p ∉ la →
     let s' := set_last_returned c s <| m_arenas := heap |>
                 <| m_arena_head := P2V_IDENTITY_MAP p |> in
     arenas_wf (P2V_IDENTITY_MAP p :: la) s' → mm_wf (P2V_IDENTITY_MAP p :: la) lv s' →
     heap !! P2V_IDENTITY_MAP p = Some (mk_arena_header 0 (m_arena_head s) 0 0) →
     Q (P2V_IDENTITY_MAP p) s') →
  wp arena_create E Q s.
Proof.
  intros Hmm Haw HE HQ. unfold arena_create. wp_step.
  eapply wp_mono; [by eapply mm_get_free_page_wp|by intros msg [-> _]|].
  intros p s1 (c & Hc & Hp & Hfree & Hok & -> & Hmm1). wp_step. apply wp_get.
  wp_step. apply wp_modify.
  set (a := P2V_IDENTITY_MAP p) in *. set (hdr := mk_arena_header 0 _ 0 0).
  assert (a ∉ la) as Hnin.
  { intros Ha. apply (arena_uses_page_iff la s p) in Ha; [|done..].
    unfold page_in_use in Hfree. rewrite Ha in Hfree.
    rewrite !orb_true_r in Hfree. done. }
  assert (a ≠ 0) as Ha0.
  { unfold a. rewrite P2V_page_ok by done. unfold RKHV_PHYSICAL_MEMORY_BASE.
    destruct Hok. lia. }
  pose proof (aw_dll _ _ Haw) as Hdll.
  assert (∃ heap, dll heap a (m_arena_head s) la ∧ heap !! a = Some hdr ∧
    (∀ b h, b ∈ la → heap !! b = Some h → arena_header_wf h) ∧
    ∀ Q' : () → machine → Prop,
    Q' () (set_last_returned c s <| m_arenas := heap |>) →
    wp (if negb (m_arena_head (set_last_returned c s) =? 0) then
          head ← arena_get (m_arena_head (set_last_returned c s));
          if negb (arena_prev head =? 0) then mpanic corrupted_arena_list
          else arena_modify (m_arena_head (set_last_returned c s)) (λ h, h <| arena_prev := a |>)
        else mret ()) E Q' (set_last_returned c s <| m_arenas := <[a:=hdr]> (m_arenas s) |>))
    as (heap & Hdll' & Ha & Hhdrs & Hwp).
  { change (m_arena_head (set_last_returned c s)) with (m_arena_head s).
    inversion Hdll as [prev0 Hpv Hhead Hla|prev0 b h l Hb Hh Hprev Htl Hpv Hhead Hla]; subst.
    - exists (<[a:=hdr]> (m_arenas s)). split_and!; [constructor|apply lookup_insert_eq| |].
      + intros b h Hb. by apply elem_of_nil in Hb.
      + intros Q' HQ'. by apply wp_ret.
    - apply not_elem_of_cons in Hnin as [Hne Hnin].
      set (b := m_arena_head s) in *.
      exists (<[b := h <| arena_prev := a |>]> (<[a:=hdr]> (m_arenas s))). split_and!.
      + eapply dll_set_prev; [|by rewrite lookup_insert_ne by done].
        apply dll_insert_ne; [exact Hdll|by apply not_elem_of_cons].
      + rewrite lookup_insert_ne by done. apply lookup_insert_eq.
      + intros x hx Hx. rewrite lookup_insert. case_decide as Hbx.
        * intros [= <-]. subst x. by apply (aw_header _ _ Haw b h).
        * rewrite lookup_insert_ne; [by apply (aw_header _ _ Haw)|].
          intros <-. apply elem_of_cons in Hx as [?|?]; congruence.
      + intros Q' HQ'. destruct (Z.eqb_spec b 0); [done|]. cbn [negb]. wp_step.
        eapply wp_arena_get; [simpl; by rewrite lookup_insert_ne by done|].
        rewrite Hprev, Z.eqb_refl. cbn [negb].
        eapply wp_arena_modify; [simpl; by rewrite lookup_insert_ne by done|]. done. }
  wp_step. apply Hwp. wp_step. apply wp_modify. apply wp_ret.
  assert (arenas_wf (a :: la) (set_last_returned c s <| m_arenas := heap |>
                                 <| m_arena_head := a |>)) as Haw'.
  { split.
    - by econstructor.
    - intros b Hb. apply elem_of_cons in Hb as [->|Hb]; [by exists p|by apply (aw_page _ _ Haw)].
    - intros b h Hb Hh. simpl in Hh. apply elem_of_cons in Hb as [->|Hb]; [|by apply (Hhdrs b)].
      assert (h = hdr) as -> by congruence.
      by unfold arena_header_wf, sizeof_arena_header_t, PAGE_SIZE. }
  eapply HQ; eauto. by apply (mm_wf_arenas la (a :: la) lv (set_last_returned c s) heap a).
Qed.

(** The first half of [arena_destroy]: the next arena forgets [a]. *)
Lemma dll_unlink_next heap a h l2 prev :
  dll heap a (arena_next h) l2 → a ∉ l2 →
  ∃ heap', dll heap' prev (arena_next h) l2 ∧
    (∀ x, x ∉ l2 → heap' !! x = heap !! x) ∧
    (∀ x hx', heap' !! x = Some hx' → ∃ hx, heap !! x = Some hx ∧
       arena_next hx' = arena_next hx ∧
       arena_subarenas hx' = arena_subarenas hx ∧ arena_used_size hx' = arena_used_size hx) ∧
    ∀ E (Q : () → machine → Prop) s, m_arenas s = heap →
      Q () (s <| m_arenas := heap' |>) →
      wp (if negb (arena_next h =? 0) then
            next ← arena_get (arena_next h);
            if negb (arena_prev next =? a) then mpanic corrupted_arena_list
            else arena_modify (arena_next h) (λ h, h <| arena_prev := prev |>)
          else mret ()) E Q s.
Proof.
  intros Hdll Hnin. inversion Hdll as [p0 Hp0 Hh0 Hl|p0 b hb l Hb Hhb Hprev Htl Hp0 Hh0 Hl].
  - subst l2 p0. exists heap. split_and!; [constructor|done|eauto|]. intros E Q s Hs HQ. apply wp_ret.
    replace s with (s <| m_arenas := heap |>); [done|]. destruct s; simpl in *; by subst.
  - subst b l2 p0. set (b := arena_next h) in *.
    exists (<[b := hb <| arena_prev := prev |>]> heap). split_and!.
    + by eapply dll_set_prev.
    + intros x Hx. apply lookup_insert_ne. intros <-. apply Hx. by left.
    + intros x hx. rewrite lookup_insert. case_decide as Hbx; [|eauto].
      intros [= <-]. subst x. eauto.
    + intros E Q s Hs HQ. destruct (Z.eqb_spec b 0); [done|]. cbn [negb]. wp_step.
      eapply wp_arena_get; [by rewrite Hs|]. rewrite Hprev, Z.eqb_refl. cbn [negb].
      eapply wp_arena_modify; [by rewrite Hs|]. by rewrite Hs.
Qed.

(** [arena_destroy] unlinks its arena, wherever it is in the list. *)
Lemma wp_arena_destroy l1 a l2 s E (Q : () → machine → Prop) :
  arenas_wf (l1 ++ a :: l2) s →
  (∀ heap head, let s' := s <| m_arenas := heap |> <| m_arena_head := head |> in
     arenas_wf (l1 ++ l2) s' → Q () s') →
  wp (arena_destroy a) E Q s.
Proof.
  intros Hwf HQ. destruct Hwf as [Hdll Hpage Hhdr].
  pose proof (dll_nodup _ _ _ _ Hdll) as Hnd.
  apply NoDup_app in Hnd as (_ & Hdisj & Hnd). apply NoDup_cons in Hnd as [Hal2 Hnd2].
  destruct (dll_app_inv _ _ _ _ _ _ Hdll) as (h & Hh & Ha0 & Hprev & Htl & Hlink).
  destruct (dll_unlink_next _ a h l2 (arena_prev h) Htl Hal2)
    as (heap1 & Hdll1 & Heq1 & Hsame1 & Hwp1).
  unfold arena_destroy. wp_step. eapply wp_arena_get; [done|]. wp_step.
  apply Hwp1; [done|]. wp_step. eapply wp_arena_get; [simpl; by rewrite Heq1|].
  assert (∀ heap2 head,
    (∀ x hx', heap2 !! x = Some hx' → ∃ hx, heap1 !! x = Some hx ∧
       arena_subarenas hx' = arena_subarenas hx ∧ arena_used_size hx' = arena_used_size hx) →
    dll heap2 0 head (l1 ++ l2) →
    arenas_wf (l1 ++ l2) (s <| m_arenas := heap2 |> <| m_arena_head := head |>)) as Hdone.
  { intros heap2 head Hsame2 Hdll2. split; [done| |]; simpl.
    - intros x Hx. apply Hpage. rewrite elem_of_app in *. rewrite elem_of_cons. tauto.
    - intros x hx2 Hx (hx1 & Hx1 & Hs1 & Hu1)%Hsame2.
      apply Hsame1 in Hx1 as (hx & Hx0 & _ & Hs0 & Hu0).
      unfold arena_header_wf. rewrite Hs1, Hs0, Hu1, Hu0.
      apply (Hhdr x); [|done]. rewrite elem_of_app in *. rewrite elem_of_cons. tauto. }
  destruct (last l1) as [b|] eqn:Hlast.
  - apply last_Some in Hlast as [l1' ->]. simpl in Hprev. destruct Hlink as (hb & Hb & Hnext).
    rewrite <-app_assoc in Hdll, HQ, Hdone. simpl in Hdll, HQ, Hdone.
    assert (b ≠ 0) as Hb0.
    { intros ->. apply (linked_not_null _ _ _ _ (dll_linked _ _ _ _ Hdll)).
      apply elem_of_app. right. left. }
    assert (b ≠ a ∧ b ∉ l2) as [Hba Hbl2].
    { split; intros Hx; eapply Hdisj; try (apply elem_of_app; right; left);
        [rewrite Hx; left|by right]. }
    set (heap2 := <[b := hb <| arena_next := arena_next h |>]> heap1).
    rewrite Hprev. destruct (Z.eqb_spec b 0); [done|]. cbn [negb]. wp_step. wp_step.
    eapply wp_arena_get; [simpl; by rewrite Heq1|]. rewrite Hnext, Z.eqb_refl. cbn [negb].
    eapply wp_arena_modify; [simpl; by rewrite Heq1|]. simpl. fold heap2.
    wp_step. eapply wp_arena_get.
    { simpl. unfold heap2. rewrite lookup_insert_ne by done. by rewrite Heq1. }
    wp_step. apply wp_get. simpl.
    assert (arenas_wf (l1' ++ b :: l2) (s <| m_arenas := heap2 |>
                                          <| m_arena_head := m_arena_head s |>)) as Hwf2.
    { apply Hdone.
      - intros x hx. unfold heap2. rewrite lookup_insert. case_decide as Hbx; [|eauto].
        intros [= <-]. subst x. rewrite Heq1 by done. eauto.
      - eapply dll_replace_tail; [exact Hdll|exact Hb| | |].
        + intros x Hx. unfold heap2. rewrite lookup_insert_ne, Heq1; [done| |].
          * intros Hx2. eapply Hdisj; [apply elem_of_app; by left|by right].
          * intros <-. apply dll_nodup in Hdll. apply NoDup_app in Hdll as (_ & Hd & _).
            eapply Hd; [exact Hx|left].
        + apply lookup_insert_eq.
        + apply dll_insert_ne; [|done]. rewrite Hprev in Hdll1. done. }
    destruct (Z.eqb_spec (m_arena_head s) a) as [Hhead|Hhead].
    + exfalso. destruct l1' as [|x l1']; apply dll_head in Hdll; [congruence|].
      apply (Hdisj a); [rewrite <-Hhead, Hdll; left|left].
    + apply wp_ret. exact (HQ heap2 (m_arena_head s) Hwf2).
  - apply last_None in Hlast as ->. simpl in *.
    rewrite Hprev. cbn [Z.eqb negb]. wp_step. apply wp_ret. wp_step.
    eapply wp_arena_get; [simpl; by rewrite Heq1|]. wp_step. apply wp_get. simpl.
    rewrite Hlink, Z.eqb_refl, Hprev. cbn [Z.eqb negb]. apply wp_modify.
    rewrite Hprev in Hdll1. apply HQ, Hdone; [|done]. eauto.
Qed.

End proofs.

(** * The tree that is printed *)

Section print.
Context `{CON : Console}.
Implicit Types (s : machine) (la : list Z).

(** What is printed of the arena at [a], which has no sub-arenas. *)
Definition arena_lines (a : Z) (h : arena_header_t) : list Z :=
  log_line arena_log_category (bytes_of_string "arena @ %p") [ArgInt a] ++
  log_line arena_log_category (bytes_of_string " - prev      : %p") [ArgInt (arena_prev h)] ++
  log_line arena_log_category (bytes_of_string " - next      : %p") [ArgInt (arena_next h)] ++
  log_line arena_log_category (bytes_of_string " - subarenas : %p") [ArgInt 0] ++
  log_line arena_log_category (bytes_of_string " - used_size : %zu") [ArgInt (arena_used_size h)].
Definition arena_tree_text (la : list Z) s : list Z :=
  log_line arena_log_category (bytes_of_string "arena_head = %p") [ArgInt (m_arena_head s)] ++
  concat (map (λ a, from_option (arena_lines a) [] (m_arenas s !! a)) la).

(** The pointers to arenas have 64 bits. *)
Lemma dll_pointers heap prev p l :
  dll heap prev p l → (∀ a, a ∈ l → 0 ≤ a < 2 ^ 64) → 0 ≤ p < 2 ^ 64.
Proof. inversion 1 as [|? ? h l' Hp Hh Hprev Htl]; subst; intros Ha; [lia|]. apply Ha. by left. Qed.

Lemma wp_arena_print_arenas heap prev p l fuel E (Q : () → machine → Prop) s :
  dll heap prev p l → m_arenas s = heap → (length l < fuel)%nat → 0 ≤ prev < 2 ^ 64 →
  (∀ a, a ∈ l → 0 ≤ a < 2 ^ 64) → (∀ a h, a ∈ l → heap !! a = Some h → arena_header_wf h) → console_inv s →
  (∀ s', logged (concat (map (λ a, from_option (arena_lines a) [] (heap !! a)) l)) s s' → Q () s') →
  wp (arena_print_arenas fuel p) E Q s.
Proof.
  intros Hdll. revert fuel s Q. induction Hdll as [prev|prev p h l Hp0 Hh Hprev Htl IH];
    intros fuel s Q Hs Hf Hb Ha Hw Hcon HQ; (destruct fuel as [|fuel]; [cbn in Hf; lia|]); cbn [arena_print_arenas].
  { apply wp_ret, HQ. by apply logged_refl. }
  destruct (Z.eqb_spec p 0) as [|_]; [done|].
  assert (∀ a, a ∈ l → 0 ≤ a < 2 ^ 64) as Ha' by (intros a Hin; apply Ha; by right).
  pose proof (Ha p (list_elem_of_here _ _)) as Hp. pose proof (dll_pointers _ _ _ _ Htl Ha') as Hn.
  destruct (Hw p h (list_elem_of_here _ _) Hh) as (Hsub & Hu & Hu'). unfold PAGE_SIZE, sizeof_arena_header_t in Hu'.
  wp_step. eapply wp_arena_get; [by rewrite Hs|].
  wp_step. apply wp_LOG_text; [done|solve_log_ok|]. intros s1 H1.
  wp_step. apply wp_LOG_text; [apply H1|rewrite Hprev; solve_log_ok|]. intros s2 H2.
  wp_step. apply wp_LOG_text; [apply H2|solve_log_ok|]. intros s3 H3. rewrite Hsub.
  wp_step. apply wp_LOG_text; [apply H3|solve_log_ok|]. intros s4 H4.
  do 3 wp_step. apply wp_ret.
  wp_step. apply wp_LOG_text; [apply H4|solve_log_ok|]. intros s5 H5.
  assert (logged (arena_lines p h) s s5) as H.
  { eapply logged_trans; [exact H1|]. eapply logged_trans; [exact H2|]. eapply logged_trans; [exact H3|].
    eapply logged_trans; [exact H4|exact H5]. }
  clear H1 H2 H3 H4 H5 s1 s2 s3 s4. apply IH; [|cbn in Hf; lia|done|done| |apply H|].
  - destruct (lg_frame _ _ _ H) as [-> _]. done.
  - intros a ha Hin. apply Hw. by right.
  - intros s6 H6. apply HQ. cbn [map concat]. rewrite Hh. by eapply logged_trans.
Qed.

(** [arena_debug_print_tree] ends and prints the arenas of the list, in order. *)
Theorem arena_debug_print_tree_correct la s :
  arenas_wf la s → console_inv s →
  ∃ s', arena_debug_print_tree s = Ok ((), s') ∧ logged (arena_tree_text la s) s s'.
Proof.
  intros Hwf Hcon. pose proof (aw_dll _ _ Hwf) as Hdll.
  assert (∀ a, a ∈ la → 0 ≤ a < 2 ^ 64) as Ha.
  { intros a Hin. destruct (aw_page _ _ Hwf a Hin) as (p & Hp & ->). rewrite P2V_page_ok by done.
    unfold page_ok, RKHV_PHYSICAL_MEMORY_BASE, PAGE_SIZE in *. lia. }
  pose proof (dll_pointers _ _ _ _ Hdll Ha) as Hhead.
  destruct (wp_no_panic_ok arena_debug_print_tree (λ _ s', logged (arena_tree_text la s) s s') s)
    as ([] & s' & H1 & H2); [|by exists s'].
  unfold arena_debug_print_tree. do 2 wp_step. wp_step. apply wp_LOG_text; [done|solve_log_ok|]. intros s1 H1.
  assert (m_arenas s1 = m_arenas s) as Hs1 by (by destruct (lg_frame _ _ _ H1) as [-> _]).
  eapply (wp_arena_print_arenas (m_arenas s) 0 _ la); [done|done| |done|done|by apply Hwf|apply H1|].
  - pose proof (linked_length _ _ _ _ (dll_linked _ _ _ _ Hdll)). lia.
  - intros s2 H2. by eapply logged_trans.
Qed.

End print.

(** * A machine with one arena *)

Definition one_arena_machine (n used : Z) : machine :=
  (small_machine n) <| m_arenas := {[P2V_IDENTITY_MAP 0x10000 := mk_arena_header 0 0 0 used]} |>
                  <| m_arena_head := P2V_IDENTITY_MAP 0x10000 |>.

Lemma one_arena_wf n used :
  0 ≤ used ≤ 4064 → arenas_wf [P2V_IDENTITY_MAP 0x10000] (one_arena_machine n used).
Proof.
  intros Hu. split.
  - by repeat econstructor.
  - intros a ->%list_elem_of_singleton. exists 0x10000. by vm_compute.
  - intros a h ->%list_elem_of_singleton Hh. simpl in Hh. rewrite lookup_singleton_eq in Hh.
    injection Hh as <-.
    unfold arena_header_wf, sizeof_arena_header_t, PAGE_SIZE. simpl. split_and!; lia.
Qed.

(** * Properties *)



(** [arena_destroy] removes its arena from the list, wherever it is, and keeps
    the links of the others; the checks for a corrupted list never fire. *)
Theorem arena_destroy_correct `{HW : Hardware} (l1 l2 : list Z) (a : Z) (s : machine) :
  arenas_wf (l1 ++ a :: l2) s →
  ∃ s', arena_destroy a s = Ok ((), s') ∧ arenas_wf (l1 ++ l2) s'.
Proof.
  intros Hwf. destruct (wp_no_panic_ok (arena_destroy a) (λ _ s', arenas_wf (l1 ++ l2) s') s)
    as ([] & s' & H1 & H2); [|by exists s'].
  by apply (wp_arena_destroy l1 a l2).
Qed.

Lemma arena_destroy_correct_witness :
  ∃ s', arena_destroy (P2V_IDENTITY_MAP 0x10000) (one_arena_machine 5 0) = Ok ((), s') ∧
        arenas_wf ([] ++ []) s'.
Proof. apply arena_destroy_correct. apply one_arena_wf. lia. Defined.

(** C29: [arena_allocate] stays in its page. When [size] bytes fit after the used
    part, the result is the range behind it, inside the page of the arena and behind
    the header, and a later allocation does not overlap it; otherwise the code
    panics. *)
Theorem arena_allocate_bounds `{HW : Hardware} (la : list Z) (a : Z) (h : arena_header_t)
    (size size' : Z) (s : machine) :
  arenas_wf la s → a ∈ la → m_arenas s !! a = Some h → 0 ≤ size → 0 ≤ size' →
  if arena_used_size h + sizeof_arena_header_t + size <=? PAGE_SIZE then
    ∃ p s', arena_allocate a size s = Ok (p, s') ∧ arenas_wf la s' ∧
      a + sizeof_arena_header_t ≤ p ∧ p + size ≤ a + PAGE_SIZE ∧
      ∀ p' s'', arena_allocate a size' s' = Ok (p', s'') →
        p + size ≤ p' ∧ p' + size' ≤ a + PAGE_SIZE
  else arena_allocate a size s = Panic "subarenas not supported right now".
Proof.
  intros Hwf Ha Hh Hsize Hsize'.
  destruct (Z.leb_spec (arena_used_size h + sizeof_arena_header_t + size) PAGE_SIZE) as [Hfit|Hfit].
  - destruct (wp_no_panic_ok (arena_allocate a size) (λ p s',
      let h' := h <| arena_used_size := arena_used_size h + size |> in
      arenas_wf la s' ∧ p = a + arena_used_size h + sizeof_arena_header_t ∧
      m_arenas s' !! a = Some h') s) as (p & s' & Heq & Hwf' & Hp & Hh').
    { eapply (wp_arena_allocate la); [done..|lia|]. cbv zeta. intros _ Hwf'.
      split_and!; [done|done|]. apply lookup_insert_eq. }
    destruct (aw_header _ _ Hwf a h Ha Hh) as (_ & Hu & _).
    exists p, s'. split_and!; [done|done|lia|lia|].
    intros p' s'' Heq'.
    assert (wp (arena_allocate a size') (λ _, True) (λ p' _, p + size ≤ p' ∧
              p' + size' ≤ a + PAGE_SIZE) s') as H.
    { eapply (wp_arena_allocate la); [done..|]. simpl. intros; lia. }
    by eapply (wp_ok_inv _ _ _ _ _ _ H).
  - assert (wp (arena_allocate a size) (λ msg, msg = "subarenas not supported right now")
              (λ _ _, False) s) as H.
    { eapply (wp_arena_allocate la); [done..|]. simpl. intros; lia. }
    unfold wp in H. destruct (arena_allocate a size s) as [[]| | | |]; try done. by rewrite H.
Qed.

Lemma arena_allocate_bounds_witness :
  ∃ p s', arena_allocate (P2V_IDENTITY_MAP 0x10000) 24 (one_arena_machine 5 272) = Ok (p, s') ∧
    arenas_wf [P2V_IDENTITY_MAP 0x10000] s' ∧
    P2V_IDENTITY_MAP 0x10000 + sizeof_arena_header_t ≤ p ∧
    p + 24 ≤ P2V_IDENTITY_MAP 0x10000 + PAGE_SIZE ∧
    ∀ p' s'', arena_allocate (P2V_IDENTITY_MAP 0x10000) 8 s' = Ok (p', s'') →
      p + 24 ≤ p' ∧ p' + 8 ≤ P2V_IDENTITY_MAP 0x10000 + PAGE_SIZE.
Proof.
  apply (arena_allocate_bounds [P2V_IDENTITY_MAP 0x10000] (P2V_IDENTITY_MAP 0x10000)
           (mk_arena_header 0 0 0 272) 24 8 (one_arena_machine 5 272));
    [apply one_arena_wf; lia|left|reflexivity|lia|lia].
Defined.

(** Witness: the line of an address, and the tree of the machine with one arena. *)
Lemma arena_debug_print_tree_correct_witness :
  log_line arena_log_category (bytes_of_string "arena @ %p") [ArgInt 0x10000] =
    log_text (bytes_of_string "arena") (bytes_of_string "arena @ 0x0000000000010000") ∧
  ∃ s', arena_debug_print_tree (one_arena_machine 5 272) = Ok ((), s') ∧
    console_text s' = arena_tree_text [P2V_IDENTITY_MAP 0x10000] (one_arena_machine 5 272).
Proof.
  split; [reflexivity|].
  destruct (arena_debug_print_tree_correct [P2V_IDENTITY_MAP 0x10000] (one_arena_machine 5 272)) as (s' & H1 & H2).
  - apply one_arena_wf. lia.
  - intros H. discriminate H.
  - exists s'. split; [exact H1|]. exact (lg_text _ _ _ H2).
Defined.
