(* ===== verification/VmxInstructions.v ===== *)
(** VMX instructions (hv/src/vmm/vmx_instructions.c, .h and .asm) and the state of a
    VM-exit (hv/src/vmm/vmx_vmexit.h).

    The instructions are calls of the class [Hardware]. [VmxLaws] states what the
    code relies on of the processor: a register or a field of the current VMCS
    keeps the value that was written last, and writing one does not change another. *)
From S2P Require Import Prelude Memory Machine Registers SimpleCpu Strings Console.

(** [vmx_inst_error_t]; other values are error numbers. *)
Definition VM_SUCCEED : Z := 0.
Definition VM_FAIL_INVALID : Z := -1.

(** The messages of [VMX_ERRORS], [None] for [NULL]. *)
Definition VMX_ERRORS : list (option string) := [
  None;
  Some "VMCALL executed in VMX root operation";
  Some "VMCLEAR with invalid physical address";
  Some "VMCLEAR with VMXON pointer";
  Some "VMLAUNCH with non-clear VMCS";
  Some "VMRESUME with non-launched VMCS";
  Some "VMRESUME after VMXOFF (VMXOFF and VMXON between VMLAUNCH and VMRESUME)";
  Some "VM entry with invalid control field(s)";
  Some "VM entry with invalid host-state field(s)";
  Some "VMPTRLD with invalid physical address";
  Some "VMPTRLD with VMXON pointer";
  Some "VMPTRLD with incorrect VMCS revision identifier";
  Some "VMREAD/VMWRITE from/to unsupported VMCS component";
  Some "VMWRITE to read-only VMCS component";
  None;
  Some "VMXON executed in VMX root operation";
  Some "VM entry with invalid executive-VMCS pointer";
  Some "VM entry with non-launched executive VMCS";
  Some "VM entry with executive-VMCS pointer not VMXON pointer (when attempting to deactivate the dual-monitor treatment of SMIs and SMM)";
  Some "VMCALL with non-clear VMCS (when attempting to activate the dual-monitor treatment of SMIs and SMM)";
  Some "VMCALL with invalid VM-exit control fields";
  None;
  Some "VMCALL with incorrect MSEG revision identifier (when attempting to activate the dual-monitor treatment of SMIs and SMM)";
  Some "VMXOFF under dual-monitor treatment of SMIs and SMM";
  Some "VMCALL with invalid SMM-monitor features (when attempting to activate the dual-monitor treatment of SMIs and SMM)";
  Some "VM entry with invalid VM-execution control fields in executive VMCS (when attempting to return from SMM)";
  Some "VM entry with events blocked by MOV SS";
  None;
  Some "Invalid operand to INVEPT/INVVPID"
]%string.

(** [error_message] in [vmx_perror]: the error is compared as a [size_t], and [None] is
    [NULL]. *)
Definition vmx_error_message (error : Z) : option string :=
  if u64 error <? Z.of_nat (length VMX_ERRORS) then mjoin (VMX_ERRORS !! Z.to_nat (u64 error)) else None.

Definition vmx_log_category : list Z := bytes_of_string "vmx".

(** The errors are 32-bit integers, which the conversion [%u] reads from a register. *)
Definition vmx_perror `{HW : Hardware} {PF : PollFuel} (message : list Z) (error : Z) : M machine () :=
  if error =? VM_SUCCEED then
    LOG vmx_log_category (bytes_of_string "%s : VMsucceed") [ArgString (Some message)]
  else if error =? VM_FAIL_INVALID then
    LOG vmx_log_category (bytes_of_string "%s : VMfailInvalid") [ArgString (Some message)]
  else
    match vmx_error_message error with
    | Some error_message =>
      LOG vmx_log_category (bytes_of_string "%s : VMfailValid(%u) : %s")
        [ArgString (Some message); ArgInt (u32 error); ArgString (Some (bytes_of_string error_message))]
    | None =>
      LOG vmx_log_category (bytes_of_string "%s : VMfailValid(%u)")
        [ArgString (Some message); ArgInt (u32 error)]
    end.

(** The local variable of [vmx_vmexit_handler]. [reg_state] points to the registers
    that vmx_vmexit.asm pushed; nothing else points there, so they are kept in the
    record. *)
Record vmx_vmexit_state_t := mk_vmexit_state {
  st_vm : Z;
  st_reg_state : vmx_gpr_state_t;
  st_xsave_area : Z;
  st_rip : Z;
  st_rsp : Z;
  st_rflags : Z;
  st_cr0 : Z;
  st_cr3 : Z;
  st_cr4 : Z;
  st_msrs : vmx_msr_state_t;
}.
#[export] Instance set_st_vm : Setter st_vm := λ f r, mk_vmexit_state (f (st_vm r)) (st_reg_state r) (st_xsave_area r) (st_rip r) (st_rsp r) (st_rflags r) (st_cr0 r) (st_cr3 r) (st_cr4 r) (st_msrs r).
#[export] Instance set_st_reg_state : Setter st_reg_state := λ f r, mk_vmexit_state (st_vm r) (f (st_reg_state r)) (st_xsave_area r) (st_rip r) (st_rsp r) (st_rflags r) (st_cr0 r) (st_cr3 r) (st_cr4 r) (st_msrs r).
#[export] Instance set_st_xsave_area : Setter st_xsave_area := λ f r, mk_vmexit_state (st_vm r) (st_reg_state r) (f (st_xsave_area r)) (st_rip r) (st_rsp r) (st_rflags r) (st_cr0 r) (st_cr3 r) (st_cr4 r) (st_msrs r).
#[export] Instance set_st_rip : Setter st_rip := λ f r, mk_vmexit_state (st_vm r) (st_reg_state r) (st_xsave_area r) (f (st_rip r)) (st_rsp r) (st_rflags r) (st_cr0 r) (st_cr3 r) (st_cr4 r) (st_msrs r).
#[export] Instance set_st_rsp : Setter st_rsp := λ f r, mk_vmexit_state (st_vm r) (st_reg_state r) (st_xsave_area r) (st_rip r) (f (st_rsp r)) (st_rflags r) (st_cr0 r) (st_cr3 r) (st_cr4 r) (st_msrs r).
#[export] Instance set_st_rflags : Setter st_rflags := λ f r, mk_vmexit_state (st_vm r) (st_reg_state r) (st_xsave_area r) (st_rip r) (st_rsp r) (f (st_rflags r)) (st_cr0 r) (st_cr3 r) (st_cr4 r) (st_msrs r).
#[export] Instance set_st_cr0 : Setter st_cr0 := λ f r, mk_vmexit_state (st_vm r) (st_reg_state r) (st_xsave_area r) (st_rip r) (st_rsp r) (st_rflags r) (f (st_cr0 r)) (st_cr3 r) (st_cr4 r) (st_msrs r).
#[export] Instance set_st_cr3 : Setter st_cr3 := λ f r, mk_vmexit_state (st_vm r) (st_reg_state r) (st_xsave_area r) (st_rip r) (st_rsp r) (st_rflags r) (st_cr0 r) (f (st_cr3 r)) (st_cr4 r) (st_msrs r).
#[export] Instance set_st_cr4 : Setter st_cr4 := λ f r, mk_vmexit_state (st_vm r) (st_reg_state r) (st_xsave_area r) (st_rip r) (st_rsp r) (st_rflags r) (st_cr0 r) (st_cr3 r) (f (st_cr4 r)) (st_msrs r).
#[export] Instance set_st_msrs : Setter st_msrs := λ f r, mk_vmexit_state (st_vm r) (st_reg_state r) (st_xsave_area r) (st_rip r) (st_rsp r) (st_rflags r) (st_cr0 r) (st_cr3 r) (st_cr4 r) (f (st_msrs r)).

Section instructions.
Context `{HW : Hardware}.

(** The message of the panic names the expression; it is the same for all of them here.
    [vmx_perror] is called just before the panic: what it prints is in [vmx_perror_correct]. *)
Definition VMX_ASSERT (expr : M machine Z) : M machine () :=
  ret ← expr;
  if ret =? VM_SUCCEED then mret () else mpanic "VMX_ASSERT failed".

(** [VMX_ASSERT] of an instruction that writes a value through a pointer. *)
Definition VMX_ASSERT_OUT (expr : M machine (Z * Z)) : M machine Z :=
  ret ← expr;
  if fst ret =? VM_SUCCEED then mret (snd ret) else mpanic "VMX_ASSERT failed".

Definition vmx_vmxon (vmxon_region_physical_address : Z) : M machine Z :=
  s ← mget;
  let '(r, hw) := hw_vmxon vmxon_region_physical_address (m_hw s) in
  mmodify (λ s, s <| m_hw := hw |>);; mret r.
Definition vmx_vmclear (vmcs_region_physical_address : Z) : M machine Z :=
  s ← mget;
  let '(r, hw) := hw_vmclear vmcs_region_physical_address (m_hw s) in
  mmodify (λ s, s <| m_hw := hw |>);; mret r.
Definition vmx_vmptrld (vmcs_region_physical_address : Z) : M machine Z :=
  s ← mget;
  let '(r, hw) := hw_vmptrld vmcs_region_physical_address (m_hw s) in
  mmodify (λ s, s <| m_hw := hw |>);; mret r.
Definition vmx_vmptrst : M machine (Z * Z) := mgets (λ s, hw_vmptrst (m_hw s)).
Definition vmx_vmread (field_encoding : Z) : M machine (Z * Z) :=
  mgets (λ s, hw_vmread field_encoding (m_hw s)).
Definition vmx_vmwrite (field_encoding value : Z) : M machine Z :=
  s ← mget;
  let '(r, hw) := hw_vmwrite field_encoding value (m_hw s) in
  mmodify (λ s, s <| m_hw := hw |>);; mret r.

(** The MSRs that read as what was written last, among those the code writes. *)
Definition plain_msrs : list Z :=
  [IA32_MISC_ENABLE; IA32_BIOS_SIGN_ID; IA32_XSS; IA32_KERNEL_GS_BASE].

(** What the processor guarantees. *)
Class VmxLaws : Prop := {
  rdmsr_wrmsr_eq a v c : a ∈ plain_msrs → hw_rdmsr a (hw_wrmsr a v c) = v;
  rdmsr_wrmsr_ne a b v c : a ≠ b → hw_rdmsr a (hw_wrmsr b v c) = hw_rdmsr a c;
  vmread_wrmsr f a v c : hw_vmread f (hw_wrmsr a v c) = hw_vmread f c;
  rdmsr_vmwrite a f v c : hw_rdmsr a (snd (hw_vmwrite f v c)) = hw_rdmsr a c;
  vmread_vmwrite_eq f v c : fst (hw_vmwrite f v c) = 0 →
    hw_vmread f (snd (hw_vmwrite f v c)) = (0, v);
  vmread_vmwrite_ne f g v c : f ≠ g →
    hw_vmread f (snd (hw_vmwrite g v c)) = hw_vmread f c;
  vmptrst_vmwrite f v c : hw_vmptrst (snd (hw_vmwrite f v c)) = hw_vmptrst c;
  vmptrst_wrmsr a v c : hw_vmptrst (hw_wrmsr a v c) = hw_vmptrst c;
}.

Lemma wp_vmread f v E (Q : Z → machine → Prop) s :
  hw_vmread f (m_hw s) = (0, v) → Q v s → wp (VMX_ASSERT_OUT (vmx_vmread f)) E Q s.
Proof. intros Hv HQ. unfold VMX_ASSERT_OUT, vmx_vmread. wp_step. wp_step. by rewrite Hv. Qed.

Lemma wp_vmwrite f v E (Q : () → machine → Prop) s :
  fst (hw_vmwrite f v (m_hw s)) = 0 →
  Q () (s <| m_hw := snd (hw_vmwrite f v (m_hw s)) |>) →
  wp (VMX_ASSERT (vmx_vmwrite f v)) E Q s.
Proof.
  intros Hv HQ. unfold VMX_ASSERT, vmx_vmwrite. repeat wp_step.
  destruct (hw_vmwrite f v (m_hw s)) as [r hw]. simpl in *. subst.
  repeat wp_step; by simpl.
Qed.

Lemma wp_vmclear p E (Q : () → machine → Prop) s :
  fst (hw_vmclear p (m_hw s)) = 0 → Q () (s <| m_hw := snd (hw_vmclear p (m_hw s)) |>) →
  wp (VMX_ASSERT (vmx_vmclear p)) E Q s.
Proof.
  intros Hv HQ. unfold VMX_ASSERT, vmx_vmclear. repeat wp_step.
  destruct (hw_vmclear p (m_hw s)) as [r hw]. simpl in *. subst. repeat wp_step; by simpl.
Qed.
Lemma wp_vmptrld p E (Q : () → machine → Prop) s :
  fst (hw_vmptrld p (m_hw s)) = 0 → Q () (s <| m_hw := snd (hw_vmptrld p (m_hw s)) |>) →
  wp (VMX_ASSERT (vmx_vmptrld p)) E Q s.
Proof.
  intros Hv HQ. unfold VMX_ASSERT, vmx_vmptrld. repeat wp_step.
  destruct (hw_vmptrld p (m_hw s)) as [r hw]. simpl in *. subst. repeat wp_step; by simpl.
Qed.
Lemma wp_vmxon p E (Q : () → machine → Prop) s :
  fst (hw_vmxon p (m_hw s)) = 0 → Q () (s <| m_hw := snd (hw_vmxon p (m_hw s)) |>) →
  wp (VMX_ASSERT (vmx_vmxon p)) E Q s.
Proof.
  intros Hv HQ. unfold VMX_ASSERT, vmx_vmxon. repeat wp_step.
  destruct (hw_vmxon p (m_hw s)) as [r hw]. simpl in *. subst. repeat wp_step; by simpl.
Qed.

Lemma wp_rdmsr a E (Q : Z → machine → Prop) s :
  Q (hw_rdmsr a (m_hw s)) s → wp (rdmsr a) E Q s.
Proof. done. Qed.
Lemma wp_wrmsr a v E (Q : () → machine → Prop) s :
  Q () (s <| m_hw := hw_wrmsr a v (m_hw s) |>) → wp (wrmsr a v) E Q s.
Proof. done. Qed.

(** ** Several writes of the VMCS *)

Definition vmwrite_all (l : list (Z * Z)) (c : hw_state) : hw_state :=
  foldl (λ c '(f, v), snd (hw_vmwrite f v c)) c l.

Context {VL : VmxLaws}.

Lemma vmread_vmwrite_all_ne f l c : f ∉ l.*1 → hw_vmread f (vmwrite_all l c) = hw_vmread f c.
Proof.
  revert c. induction l as [|[g v] l IH]; intros c Hf; [done|].
  apply not_elem_of_cons in Hf as [Hne Hf]. cbn. fold (vmwrite_all l (snd (hw_vmwrite g v c))).
  rewrite IH by done. by apply vmread_vmwrite_ne.
Qed.

Lemma vmread_vmwrite_all f v l c :
  (∀ f v c, f ∈ l.*1 → fst (hw_vmwrite f v c) = 0) → NoDup l.*1 → (f, v) ∈ l →
  hw_vmread f (vmwrite_all l c) = (0, v).
Proof.
  revert c. induction l as [|[g w] l IH]; intros c Hw Hnd Hin; [by apply elem_of_nil in Hin|].
  apply NoDup_cons in Hnd as [Hg Hnd]. cbn. fold (vmwrite_all l (snd (hw_vmwrite g w c))).
  apply elem_of_cons in Hin as [[= -> ->]|Hin].
  - rewrite vmread_vmwrite_all_ne by done. apply vmread_vmwrite_eq, Hw. by left.
  - apply IH; [|done..]. intros. apply Hw. by right.
Qed.

Lemma vmwrite_all_rdmsr a l c : hw_rdmsr a (vmwrite_all l c) = hw_rdmsr a c.
Proof.
  revert c. induction l as [|[g w] l IH]; intros c; [done|].
  cbn. fold (vmwrite_all l (snd (hw_vmwrite g w c))). by rewrite IH, rdmsr_vmwrite.
Qed.

End instructions.

#[export] Instance simple_vmx_laws : VmxLaws (HW := simple_hardware).
Proof.
  split; simpl; intros; try done.
  - by rewrite lookup_insert_eq.
  - by rewrite lookup_insert_ne.
  - by rewrite lookup_insert_eq.
  - rewrite lookup_insert_ne; [done|congruence].
Qed.

(** * The text of an error *)

Section perror.
Context `{CON : Console}.
Implicit Types (s : machine).

Definition vmx_error_text (error : Z) : list Z :=
  if error =? VM_SUCCEED then bytes_of_string "VMsucceed"
  else if error =? VM_FAIL_INVALID then bytes_of_string "VMfailInvalid"
  else bytes_of_string "VMfailValid(" ++ dec_digits 30 error ++ bytes_of_string ")" ++
       match mjoin (VMX_ERRORS !! Z.to_nat error) with
       | Some error_message => bytes_of_string " : " ++ bytes_of_string error_message
       | None => []
       end.

Lemma vmx_error_message_lookup error :
  0 ≤ error < 2 ^ 31 → vmx_error_message error = mjoin (VMX_ERRORS !! Z.to_nat error).
Proof.
  intros He. unfold vmx_error_message. rewrite wrap_small by lia.
  destruct (Z.ltb_spec error (Z.of_nat (length VMX_ERRORS))) as [|Hlen]; [done|].
  rewrite lookup_ge_None_2; [done|]. lia.
Qed.

(** [vmx_perror] prints the expression and the name of its outcome; an error number comes
    with its description in the manual, when it has one. *)
Theorem vmx_perror_correct message error s :
  -1 ≤ error < 2 ^ 31 → console_inv s →
  ∃ s', vmx_perror message error s = Ok ((), s') ∧
    logged (log_text vmx_log_category (message ++ bytes_of_string " : " ++ vmx_error_text error)) s s'.
Proof.
  intros He Hcon.
  destruct (wp_no_panic_ok (vmx_perror message error) (λ _ s', logged (log_text vmx_log_category
    (message ++ bytes_of_string " : " ++ vmx_error_text error)) s s') s) as ([] & s' & H1 & H2); [|by exists s'].
  unfold vmx_perror, vmx_error_text, VM_SUCCEED, VM_FAIL_INVALID.
  destruct (Z.eqb_spec error 0) as [->|H0].
  { apply wp_LOG_text; [done|solve_log_ok|]. intros s' H. exact H. }
  destruct (Z.eqb_spec error (-1)) as [->|H1].
  { apply wp_LOG_text; [done|solve_log_ok|]. intros s' H. exact H. }
  rewrite vmx_error_message_lookup, (wrap_small 32) by lia.
  destruct (mjoin _) as [error_message|]; (apply wp_LOG_text; [done|solve_log_ok|]); intros s' H.
  - rewrite <-(app_nil_r (bytes_of_string error_message)). exact H.
  - exact H.
Qed.

End perror.

(** Witness: an error that has a description. *)
Lemma vmx_perror_correct_witness :
  ∃ s', vmx_perror (bytes_of_string "vmx_vmlaunch()") 7 (small_machine 4) = Ok ((), s') ∧
    console_text s' = log_text (bytes_of_string "vmx")
      (bytes_of_string "vmx_vmlaunch() : VMfailValid(7) : VM entry with invalid control field(s)").
Proof.
  destruct (vmx_perror_correct (bytes_of_string "vmx_vmlaunch()") 7 (small_machine 4)) as (s' & H1 & H2).
  - lia.
  - intros H. discriminate H.
  - exists s'. split; [exact H1|]. exact (lg_text _ _ _ H2).
Defined.
