(* ===== verification/VmxMsr.v ===== *)
(** Model-specific registers of the guest (hv/src/vmm/vmx_msr.c and .h).

    [VMX_MSR_LIST] is a list of entries; what the X-macros expand is a loop over it.
    The MSR bitmaps let the guest write exactly the MSRs of the list; a VM-exit
    followed by a VM-entry gives the host its registers back, then the guest. *)
From S2P Require Import Prelude Memory Machine Registers SimpleCpu VmxInstructions.

(** An entry [X_VMCS(addr, name, vmcs)] or [X_RWBK(addr, name)] ([msr_vmcs = None]);
    [name] is the pair of the projection and the update of the member. *)
Record vmx_msr_entry := mk_msr_entry {
  msr_addr : Z;
  msr_get : vmx_msr_state_t → Z;
  msr_set : Z → vmx_msr_state_t → vmx_msr_state_t;
  msr_vmcs : option Z;
}.

Definition X_VMCS addr get `{!Setter get} vmcs : vmx_msr_entry :=
  mk_msr_entry addr get (λ v r, r <| get := v |>) (Some vmcs).
Definition X_RWBK addr get `{!Setter get} : vmx_msr_entry :=
  mk_msr_entry addr get (λ v r, r <| get := v |>) None.

Definition VMX_MSR_LIST : list vmx_msr_entry := [
  X_VMCS IA32_EFER msr_ia32_efer VMCS_GUEST_IA32_EFER;
  X_VMCS IA32_FS_BASE msr_ia32_fs_base VMCS_GUEST_FS_BASE;
  X_VMCS IA32_GS_BASE msr_ia32_gs_base VMCS_GUEST_GS_BASE;
  X_RWBK IA32_MISC_ENABLE msr_ia32_misc_enable;
  X_RWBK IA32_BIOS_SIGN_ID msr_ia32_bios_sign_id;
  X_RWBK IA32_XSS msr_ia32_xss;
  X_RWBK IA32_KERNEL_GS_BASE msr_ia32_kernel_gs_base
].

Section definitions.
Context `{HW : Hardware}.

(** The expansion of [VMX_MSR_LIST]: the statements of [f], in order, on a variable
    of type [A]. *)
Fixpoint expand_list {A} (l : list vmx_msr_entry) (f : vmx_msr_entry → A → M machine A)
    (a : A) : M machine A :=
  match l with
  | [] => mret a
  | e :: l' => a' ← f e a; expand_list l' f a'
  end.

(** * vmx_msr_init_bitmaps *)

(** [msr_bitmaps[i] &= mask] for a byte. *)
Definition byte_and_assign (va mask : Z) : M machine () :=
  v ← deref_load 1 va;
  deref_store 1 va (Z.land v mask).

(** [(uint8_t) ~(1 << shift)] *)
Definition clear_bit_mask (shift : Z) : Z := u8 (Z.lnot (Z.shiftl 1 shift)).

Definition X_ALLOW_MSR (msr_bitmaps addr : Z) : M machine () :=
  if addr <? VMCS_MSR_BITMAPS_HIGH_BASE then
    byte_and_assign (u64 (msr_bitmaps + VMCS_MSR_BITMAPS_WRITE_LOW + VMCS_MSR_BITMAPS_LOW_OFFSET addr))
      (clear_bit_mask (VMCS_MSR_BITMAPS_LOW_SHIFT addr))
  else
    byte_and_assign (u64 (msr_bitmaps + VMCS_MSR_BITMAPS_WRITE_HIGH + VMCS_MSR_BITMAPS_HIGH_OFFSET addr))
      (clear_bit_mask (VMCS_MSR_BITMAPS_HIGH_SHIFT addr)).

Definition vmx_msr_init_bitmaps (msr_bitmaps : Z) : M machine () :=
  memset_va (u64 (msr_bitmaps + VMCS_MSR_BITMAPS_READ_LOW)) 0 (PAGE_SIZE / 4);;
  memset_va (u64 (msr_bitmaps + VMCS_MSR_BITMAPS_READ_HIGH)) 0 (PAGE_SIZE / 4);;
  memset_va (u64 (msr_bitmaps + VMCS_MSR_BITMAPS_WRITE_LOW)) 0xff (PAGE_SIZE / 4);;
  memset_va (u64 (msr_bitmaps + VMCS_MSR_BITMAPS_WRITE_HIGH)) 0xff (PAGE_SIZE / 4);;
  expand_list VMX_MSR_LIST (λ e _, X_ALLOW_MSR msr_bitmaps (msr_addr e)) ().

(** * vmx_msr_vmlaunch, vmx_msr_vmexit and vmx_msr_vmresume *)

Definition host_backup_set (e : vmx_msr_entry) (v : Z) : M machine () :=
  mmodify (λ s, s <| m_msr_host_backup := msr_set e v (m_msr_host_backup s) |>).

Definition vmx_msr_vmlaunch : M machine () :=
  expand_list VMX_MSR_LIST (λ e _,
    match msr_vmcs e with
    | Some _ => mret ()
    | None => v ← rdmsr (msr_addr e); host_backup_set e v
    end) ().

(** The functions take a pointer to the state; here they take and return it. *)
Definition vmx_msr_vmexit_entry (e : vmx_msr_entry) (vm_state : vmx_vmexit_state_t)
    : M machine vmx_vmexit_state_t :=
  match msr_vmcs e with
  | Some vmcs =>
    v ← VMX_ASSERT_OUT (vmx_vmread vmcs);
    mret (vm_state <| st_msrs := msr_set e v (st_msrs vm_state) |>)
  | None =>
    v ← rdmsr (msr_addr e);
    backup ← mgets m_msr_host_backup;
    wrmsr (msr_addr e) (msr_get e backup);;
    mret (vm_state <| st_msrs := msr_set e v (st_msrs vm_state) |>)
  end.
Definition vmx_msr_vmexit (vm_state : vmx_vmexit_state_t) : M machine vmx_vmexit_state_t :=
  expand_list VMX_MSR_LIST vmx_msr_vmexit_entry vm_state.

Definition vmx_msr_vmresume_entry (vm_state : vmx_vmexit_state_t) (e : vmx_msr_entry)
    : M machine () :=
  match msr_vmcs e with
  | Some vmcs => VMX_ASSERT (vmx_vmwrite vmcs (msr_get e (st_msrs vm_state)))
  | None =>
    v ← rdmsr (msr_addr e);
    host_backup_set e v;;
    wrmsr (msr_addr e) (msr_get e (st_msrs vm_state))
  end.
Definition vmx_msr_vmresume (vm_state : vmx_vmexit_state_t) : M machine () :=
  expand_list VMX_MSR_LIST (λ e _, vmx_msr_vmresume_entry vm_state e) ().

(** * What the bitmaps say *)

(** The bit of an MSR in the bitmap at [low], the one of the MSRs below 0x2000, or at
    [high], the one of the MSRs from 0xc0000000: see "24.6.9 MSR-Bitmap Address" of
    the Intel manual. Other MSRs have no bit, and always exit. *)
Definition msr_intercepted (m : mem) (page low high msr : Z) : bool :=
  if (0 <=? msr) && (msr <? 0x2000)
  then Z.testbit (load_byte m (page + low + msr / 8)) (msr mod 8)
  else if (VMCS_MSR_BITMAPS_HIGH_BASE <=? msr) && (msr <? VMCS_MSR_BITMAPS_HIGH_BASE + 0x2000)
  then Z.testbit (load_byte m (page + high + (msr - VMCS_MSR_BITMAPS_HIGH_BASE) / 8))
                 ((msr - VMCS_MSR_BITMAPS_HIGH_BASE) mod 8)
  else true.
Definition msr_read_intercepted (m : mem) (page : Z) : Z → bool :=
  msr_intercepted m page VMCS_MSR_BITMAPS_READ_LOW VMCS_MSR_BITMAPS_READ_HIGH.
Definition msr_write_intercepted (m : mem) (page : Z) : Z → bool :=
  msr_intercepted m page VMCS_MSR_BITMAPS_WRITE_LOW VMCS_MSR_BITMAPS_WRITE_HIGH.

(** Whether an MSR has a bit. *)
Definition msr_has_bit (msr : Z) : bool :=
  ((0 <=? msr) && (msr <? 0x2000))
  || ((VMCS_MSR_BITMAPS_HIGH_BASE <=? msr) && (msr <? VMCS_MSR_BITMAPS_HIGH_BASE + 0x2000)).
End definitions.

(** * The bitmaps *)

Section bitmaps.
Context `{HW : Hardware}.
Implicit Types (s : machine).

(** The offset in the page and the bit of an MSR of the write bitmaps. *)
Definition msr_write_slot (msr : Z) : Z * Z :=
  if msr <? VMCS_MSR_BITMAPS_HIGH_BASE
  then (VMCS_MSR_BITMAPS_WRITE_LOW + msr / 8, msr mod 8)
  else (VMCS_MSR_BITMAPS_WRITE_HIGH + (msr - VMCS_MSR_BITMAPS_HIGH_BASE) / 8,
        (msr - VMCS_MSR_BITMAPS_HIGH_BASE) mod 8).

Lemma msr_has_bit_spec msr :
  msr_has_bit msr = true ↔
  0 ≤ msr < 0x2000 ∨ VMCS_MSR_BITMAPS_HIGH_BASE ≤ msr < VMCS_MSR_BITMAPS_HIGH_BASE + 0x2000.
Proof.
  unfold msr_has_bit. rewrite orb_true_iff, !andb_true_iff, !Z.leb_le, !Z.ltb_lt. lia.
Qed.

Lemma msr_write_slot_bound msr :
  msr_has_bit msr = true →
  2048 ≤ fst (msr_write_slot msr) < 4096 ∧ 0 ≤ snd (msr_write_slot msr) < 8.
Proof.
  intros H%msr_has_bit_spec. unfold msr_write_slot, VMCS_MSR_BITMAPS_HIGH_BASE,
    VMCS_MSR_BITMAPS_WRITE_LOW, VMCS_MSR_BITMAPS_WRITE_HIGH in *.
  destruct (Z.ltb_spec msr 0xc0000000); simpl; zlia.
Qed.

Lemma msr_write_slot_inj msr msr' :
  msr_has_bit msr = true → msr_has_bit msr' = true →
  msr_write_slot msr = msr_write_slot msr' → msr = msr'.
Proof.
  intros H%msr_has_bit_spec H'%msr_has_bit_spec. unfold msr_write_slot,
    VMCS_MSR_BITMAPS_HIGH_BASE, VMCS_MSR_BITMAPS_WRITE_LOW, VMCS_MSR_BITMAPS_WRITE_HIGH in *.
  destruct (Z.ltb_spec msr 0xc0000000), (Z.ltb_spec msr' 0xc0000000);
    intros [= Hx Hy]; zlia.
Qed.

Lemma clear_bit_mask_spec k i :
  0 ≤ k < 8 → 0 ≤ i < 8 → Z.testbit (clear_bit_mask k) i = negb (k =? i).
Proof.
  intros Hk Hi. unfold clear_bit_mask, wrap.
  by rewrite Z.mod_pow2_bits_low, Z.lnot_spec, Z.shiftl_1_l, Z.pow2_bits_eqb by lia.
Qed.

(** [X_ALLOW_MSR] clears the bit of its MSR and nothing else. *)
Lemma wp_X_ALLOW_MSR page msr E (Q : () → machine → Prop) s :
  page_ok page → msr_has_bit msr = true →
  (∀ m', (∀ a i, 0 ≤ i < 8 → Z.testbit (load_byte m' a) i =
            Z.testbit (load_byte (m_mem s) a) i &&
            negb (bool_decide (msr_write_slot msr = (a - page, i)))) →
         Q () (s <| m_mem := m' |>)) →
  wp (X_ALLOW_MSR (P2V_IDENTITY_MAP page) msr) E Q s.
Proof.
  intros Hp Hb HQ. pose proof (msr_write_slot_bound _ Hb) as [Ho Hk].
  assert (X_ALLOW_MSR (P2V_IDENTITY_MAP page) msr =
    byte_and_assign (u64 (P2V_IDENTITY_MAP page + fst (msr_write_slot msr)))
                    (clear_bit_mask (snd (msr_write_slot msr)))) as ->.
  { unfold X_ALLOW_MSR, msr_write_slot. by destruct (_ <? _); simpl; rewrite Z.add_assoc. }
  destruct (msr_write_slot msr) as [o k]; simpl in *. unfold byte_and_assign.
  wp_step. apply wp_load_at; [done|lia|unfold PAGE_SIZE; simpl; lia|].
  apply wp_store_at; [done|lia|unfold PAGE_SIZE; simpl; lia|].
  apply HQ. intros a i Hi. cbn [store_le load_le]. rewrite load_byte_insert.
  case_decide as Ha.
  - subst. replace (_ + _ - _) with o by lia. rewrite Z.mul_0_r, Z.add_0_r, Z.mod_mod by lia.
    rewrite (Z.mod_pow2_bits_low _ 8) by lia. rewrite Z.land_spec. f_equal.
    rewrite clear_bit_mask_spec by lia. f_equal.
    destruct (Z.eqb_spec k i) as [->|]; [by rewrite bool_decide_true|].
    rewrite bool_decide_false; [done|congruence].
  - rewrite bool_decide_false; [by rewrite andb_true_r|]. intros [= ]. lia.
Qed.

Lemma wp_allow_list page l E (Q : () → machine → Prop) s :
  page_ok page → Forall (λ e, msr_has_bit (msr_addr e) = true) l →
  (∀ m', (∀ a i, 0 ≤ i < 8 → Z.testbit (load_byte m' a) i =
            Z.testbit (load_byte (m_mem s) a) i &&
            negb (existsb (λ e, bool_decide (msr_write_slot (msr_addr e) = (a - page, i))) l)) →
         Q () (s <| m_mem := m' |>)) →
  wp (expand_list l (λ e _, X_ALLOW_MSR (P2V_IDENTITY_MAP page) (msr_addr e)) ()) E Q s.
Proof.
  intros Hp Hl. revert s. induction Hl as [|e l He Hl IH]; intros s HQ; cbn [expand_list].
  - apply wp_ret. rewrite <-(set_m_mem_id s). apply HQ. intros. simpl. by rewrite andb_true_r.
  - wp_step. apply wp_X_ALLOW_MSR; [done..|]. intros m1 H1.
    apply IH. intros m2 H2. apply (HQ m2). intros a i Hi. rewrite H2 by done.
    simpl. rewrite H1 by done. rewrite negb_orb. by rewrite andb_assoc.
Qed.

(** The memory after the four [memset]. *)
Definition msr_bitmaps_filled (m : mem) (page : Z) : mem :=
  memset (memset (memset (memset m (page + 0) 0 1024) (page + 1024) 0 1024)
                 (page + 2048) 0xff 1024) (page + 3072) 0xff 1024.

Lemma load_byte_msr_bitmaps_filled m page a :
  load_byte (msr_bitmaps_filled m page) a =
  if decide (page ≤ a < page + 2048) then 0
  else if decide (page + 2048 ≤ a < page + 4096) then 0xff else load_byte m a.
Proof.
  unfold msr_bitmaps_filled. rewrite !load_byte_memset.
  repeat case_decide; done || lia.
Qed.

(** The helper the callers use: only the page changes, and the bits of the bitmaps
    are known. *)
Lemma wp_vmx_msr_init_bitmaps page E (Q : () → machine → Prop) s :
  page_ok page →
  (∀ m', (∀ a i, 0 ≤ i < 8 → Z.testbit (load_byte m' a) i =
            Z.testbit (load_byte (msr_bitmaps_filled (m_mem s) page) a) i &&
            negb (existsb (λ e, bool_decide (msr_write_slot (msr_addr e) = (a - page, i)))
                          VMX_MSR_LIST)) →
         Q () (s <| m_mem := m' |>)) →
  wp (vmx_msr_init_bitmaps (P2V_IDENTITY_MAP page)) E Q s.
Proof.
  intros Hp HQ. unfold vmx_msr_init_bitmaps.
  do 4 (wp_step; apply wp_memset_at; [done|by vm_compute..|]).
  apply wp_allow_list; [done|repeat constructor|].
  intros m' Hm'. apply (HQ m'). exact Hm'.
Qed.

End bitmaps.

Section bitmap_bits.
Context `{HW : Hardware}.

Lemma byte_bits_ext x y :
  0 ≤ x < 256 → 0 ≤ y < 256 → (∀ i, 0 ≤ i < 8 → Z.testbit x i = Z.testbit y i) → x = y.
Proof.
  intros Hx Hy H. rewrite <-(Z.mod_small x (2 ^ 8)), <-(Z.mod_small y (2 ^ 8)) by lia.
  apply Z.bits_inj'. intros i Hi. destruct (Z.ltb_spec i 8).
  - rewrite !Z.mod_pow2_bits_low by lia. apply H. lia.
  - by rewrite !Z.mod_pow2_bits_high by lia.
Qed.

Lemma msr_write_intercepted_slot m page msr :
  msr_has_bit msr = true →
  msr_write_intercepted m page msr =
  Z.testbit (load_byte m (page + fst (msr_write_slot msr))) (snd (msr_write_slot msr)).
Proof.
  intros H%msr_has_bit_spec. unfold msr_write_intercepted, msr_intercepted, msr_write_slot.
  unfold VMCS_MSR_BITMAPS_HIGH_BASE, VMCS_MSR_BITMAPS_WRITE_LOW,
    VMCS_MSR_BITMAPS_WRITE_HIGH in *.
  destruct (Z.leb_spec 0 msr), (Z.ltb_spec msr 0x2000), (Z.leb_spec 0xc0000000 msr),
    (Z.ltb_spec msr (0xc0000000 + 0x2000)), (Z.ltb_spec msr 0xc0000000); try lia;
    simpl; by rewrite Z.add_assoc.
Qed.

Lemma VMX_MSR_LIST_has_bit e : e ∈ VMX_MSR_LIST → msr_has_bit (msr_addr e) = true.
Proof. revert e. apply Forall_forall. by repeat constructor. Qed.

(** The slot of an MSR is cleared iff the MSR is in the list. *)
Lemma existsb_slot_addr msr :
  msr_has_bit msr = true →
  existsb (λ e, bool_decide (msr_write_slot (msr_addr e) = msr_write_slot msr)) VMX_MSR_LIST =
  existsb (λ e, msr_addr e =? msr) VMX_MSR_LIST.
Proof.
  intros H. pose proof VMX_MSR_LIST_has_bit as Hl. revert Hl.
  induction VMX_MSR_LIST as [|e l IH]; intros Hl; [done|]. cbn [existsb]. f_equal.
  - destruct (Z.eqb_spec (msr_addr e) msr) as [<-|Hne]; [by rewrite bool_decide_true|].
    apply bool_decide_false. intros Heq. apply Hne, msr_write_slot_inj; [|done..].
    apply Hl. by left.
  - apply IH. intros e' He'. apply Hl. by right.
Qed.

(** A slot is in the second half of the page. *)
Lemma existsb_slot_outside page a i :
  a < page + 2048 ∨ page + 4096 ≤ a →
  existsb (λ e, bool_decide (msr_write_slot (msr_addr e) = (a - page, i))) VMX_MSR_LIST = false.
Proof.
  intros Ha. apply not_true_iff_false. intros (e & He & Hs)%existsb_exists.
  apply list_elem_of_In in He. apply VMX_MSR_LIST_has_bit, msr_write_slot_bound in He.
  apply bool_decide_eq_true in Hs. rewrite Hs in He. simpl in He. lia.
Qed.

End bitmap_bits.

Create Rewrite HintDb vmx.
#[export] Hint Rewrite @vmread_wrmsr @rdmsr_vmwrite
  using typeclasses eauto : vmx.

(** Membership in a list of constants. *)
Ltac list_mem :=
  first [ apply list_elem_of_here | apply list_elem_of_further; list_mem ].

(** Normalises what is read from the processor after a sequence of writes. *)
Ltac vmx_simpl :=
  repeat first
    [ progress autorewrite with vmx
    | rewrite rdmsr_wrmsr_eq by list_mem
    | rewrite rdmsr_wrmsr_ne by done
    | rewrite vmread_vmwrite_ne by done
    | rewrite vmread_vmwrite_eq by auto ].

(** One assertion for each entry of the list. *)
Ltac msr_list_cases :=
  lazymatch goal with
  | |- ∀ e, e ∈ ?l → @?P e => apply (proj1 (Forall_forall P l))
  end;
  unfold VMX_MSR_LIST; repeat constructor;
  cbn; try (intros; by vmx_simpl).

(** * Saving and restoring *)

Section save_restore.
Context `{HW : Hardware} {VL : VmxLaws}.
Implicit Types (s : machine).

(** The fields of the VMCS that the list names can be read and written. *)
Definition vmcs_msr_fields_ok (c : hw_state) : Prop :=
  ∀ f, f ∈ omap msr_vmcs VMX_MSR_LIST → fst (hw_vmread f c) = 0.
Definition vmcs_msr_fields_writable : Prop :=
  ∀ f v c, f ∈ omap msr_vmcs VMX_MSR_LIST → fst (hw_vmwrite f v c) = 0.

(** The value of an MSR that the guest sees while it runs. *)
Definition guest_msr (e : vmx_msr_entry) (c : hw_state) : Z :=
  match msr_vmcs e with
  | Some f => snd (hw_vmread f c)
  | None => hw_rdmsr (msr_addr e) c
  end.

(** The entries that the code itself saves and restores. *)
Definition is_rwbk (e : vmx_msr_entry) : bool :=
  match msr_vmcs e with None => true | Some _ => false end.

Lemma wp_vmread_field f E (Q : Z → machine → Prop) s :
  fst (hw_vmread f (m_hw s)) = 0 → Q (snd (hw_vmread f (m_hw s))) s →
  wp (VMX_ASSERT_OUT (vmx_vmread f)) E Q s.
Proof. intros H HQ. eapply wp_vmread; [|done]. destruct (hw_vmread _ _). simpl in *. congruence. Qed.

Lemma wp_vmx_msr_vmexit E (Q : vmx_vmexit_state_t → machine → Prop) vm_state s :
  vmcs_msr_fields_ok (m_hw s) →
  (∀ msrs hw,
     (∀ e, e ∈ VMX_MSR_LIST → msr_get e msrs = guest_msr e (m_hw s)) →
     (∀ e, e ∈ VMX_MSR_LIST → is_rwbk e = true →
        hw_rdmsr (msr_addr e) hw = msr_get e (m_msr_host_backup s)) →
     (∀ f, hw_vmread f hw = hw_vmread f (m_hw s)) →
     (∀ a, a ∉ msr_addr <$> VMX_MSR_LIST → hw_rdmsr a hw = hw_rdmsr a (m_hw s)) →
     hw_vmptrst hw = hw_vmptrst (m_hw s) →
     Q (vm_state <| st_msrs := msrs |>) (s <| m_hw := hw |>)) →
  wp (vmx_msr_vmexit vm_state) E Q s.
Proof.
  intros Hf HQ. unfold vmx_msr_vmexit. cbn [expand_list VMX_MSR_LIST].
  do 3 (wp_step; cbn [vmx_msr_vmexit_entry msr_vmcs X_VMCS]; wp_step;
        apply wp_vmread_field;
        [apply Hf; cbn; list_mem|wp_step]).
  do 4 (wp_step; cbn [vmx_msr_vmexit_entry msr_vmcs X_RWBK]; unfold rdmsr, wrmsr; do 7 wp_step).
  wp_step. eapply HQ; clear HQ; simpl.
  - msr_list_cases.
  - msr_list_cases.
  - intros f. by vmx_simpl.
  - intros a Ha. rewrite !not_elem_of_cons in Ha. destruct_and! Ha.
    by rewrite !rdmsr_wrmsr_ne.
  - by rewrite !vmptrst_wrmsr.
Qed.

Lemma wp_vmx_msr_vmresume E (Q : () → machine → Prop) vm_state s :
  vmcs_msr_fields_writable →
  (∀ backup hw,
     (∀ e, e ∈ VMX_MSR_LIST → guest_msr e hw = msr_get e (st_msrs vm_state)) →
     (∀ e, e ∈ VMX_MSR_LIST → is_rwbk e = true →
        msr_get e backup = hw_rdmsr (msr_addr e) (m_hw s)) →
     (∀ e, e ∈ VMX_MSR_LIST → is_rwbk e = false →
        msr_get e backup = msr_get e (m_msr_host_backup s)) →
     (∀ f, f ∉ omap msr_vmcs VMX_MSR_LIST → hw_vmread f hw = hw_vmread f (m_hw s)) →
     (∀ a, a ∉ msr_addr <$> VMX_MSR_LIST → hw_rdmsr a hw = hw_rdmsr a (m_hw s)) →
     hw_vmptrst hw = hw_vmptrst (m_hw s) →
     Q () (s <| m_msr_host_backup := backup |> <| m_hw := hw |>)) →
  wp (vmx_msr_vmresume vm_state) E Q s.
Proof.
  intros Hf HQ. unfold vmx_msr_vmresume. cbn [expand_list VMX_MSR_LIST].
  assert (∀ v c, fst (hw_vmwrite VMCS_GUEST_IA32_EFER v c) = 0) by (intros; apply Hf; cbn; list_mem).
  assert (∀ v c, fst (hw_vmwrite VMCS_GUEST_FS_BASE v c) = 0) by (intros; apply Hf; cbn; list_mem).
  assert (∀ v c, fst (hw_vmwrite VMCS_GUEST_GS_BASE v c) = 0) by (intros; apply Hf; cbn; list_mem).
  do 3 (wp_step; cbn [vmx_msr_vmresume_entry msr_vmcs X_VMCS];
        apply wp_vmwrite; [apply Hf; cbn; list_mem|]).
  do 4 (wp_step; cbn [vmx_msr_vmresume_entry msr_vmcs X_RWBK];
        unfold rdmsr, wrmsr, host_backup_set; do 5 wp_step).
  wp_step. eapply HQ; clear HQ; simpl.
  - msr_list_cases.
  - msr_list_cases.
  - msr_list_cases.
  - intros f Ha. rewrite !not_elem_of_cons in Ha. destruct_and! Ha. by vmx_simpl.
  - intros a Ha. rewrite !not_elem_of_cons in Ha. destruct_and! Ha. by vmx_simpl.
  - by rewrite !vmptrst_wrmsr, !vmptrst_vmwrite.
Qed.
End save_restore.

(** * Properties *)

Section properties.
Context `{HW : Hardware}.
Implicit Types (s : machine).

Lemma wp_vmx_msr_vmlaunch E (Q : () → machine → Prop) s :
  (∀ backup,
     (∀ e, e ∈ VMX_MSR_LIST → is_rwbk e = true →
        msr_get e backup = hw_rdmsr (msr_addr e) (m_hw s)) →
     Q () (s <| m_msr_host_backup := backup |>)) →
  wp vmx_msr_vmlaunch E Q s.
Proof.
  intros HQ. unfold vmx_msr_vmlaunch. cbn [expand_list VMX_MSR_LIST msr_vmcs X_VMCS X_RWBK].
  unfold rdmsr, host_backup_set. repeat wp_step. eapply HQ; clear HQ.
  msr_list_cases; intros; reflexivity || done.
Qed.

(** C24: [vmx_msr_init_bitmaps] writes a bitmap page that lets the guest read every MSR
    and write exactly the MSRs of [VMX_MSR_LIST], and touches no other byte. *)
Theorem vmx_msr_init_bitmaps_correct page s :
  page_ok page →
  ∃ m', vmx_msr_init_bitmaps (P2V_IDENTITY_MAP page) s = Ok ((), s <| m_mem := m' |>) ∧
    (∀ msr, msr_has_bit msr = true →
       msr_read_intercepted m' page msr = false ∧
       msr_write_intercepted m' page msr =
         negb (existsb (λ e, msr_addr e =? msr) VMX_MSR_LIST)) ∧
    (∀ a, a < page ∨ page + PAGE_SIZE ≤ a → load_byte m' a = load_byte (m_mem s) a).
Proof.
  intros Hp.
  destruct (wp_no_panic_ok (vmx_msr_init_bitmaps (P2V_IDENTITY_MAP page)) (λ _ s',
    ∃ m', s' = s <| m_mem := m' |> ∧ ∀ a i, 0 ≤ i < 8 → Z.testbit (load_byte m' a) i =
      Z.testbit (load_byte (msr_bitmaps_filled (m_mem s) page) a) i &&
      negb (existsb (λ e, bool_decide (msr_write_slot (msr_addr e) = (a - page, i)))
                    VMX_MSR_LIST)) s) as ([] & s' & Heq & m' & -> & Hm').
  { apply wp_vmx_msr_init_bitmaps; [done|]. eauto. }
  exists m'. split; [done|]. split.
  - intros msr Hb. split.
    + pose proof Hb as H%msr_has_bit_spec. unfold msr_read_intercepted, msr_intercepted.
      unfold VMCS_MSR_BITMAPS_HIGH_BASE, VMCS_MSR_BITMAPS_READ_LOW,
        VMCS_MSR_BITMAPS_READ_HIGH in *.
      repeat case_match; try lia; rewrite Hm', load_byte_msr_bitmaps_filled by zlia;
        (rewrite decide_True by zlia); by rewrite Z.testbit_0_l.
    + rewrite msr_write_intercepted_slot by done.
      pose proof (msr_write_slot_bound _ Hb) as [Ho Hk].
      rewrite Hm', load_byte_msr_bitmaps_filled by lia.
      rewrite decide_False, decide_True by lia. rewrite <-existsb_slot_addr by done.
      rewrite Z.add_simpl_l, <-surjective_pairing.
      change 0xff with (Z.ones 8). by rewrite Z.ones_spec_low by lia.
  - unfold PAGE_SIZE. intros a Ha. apply byte_bits_ext; try apply load_byte_bound.
    intros i Hi. rewrite Hm', load_byte_msr_bitmaps_filled, existsb_slot_outside by lia.
    rewrite !decide_False by lia. by rewrite andb_true_r.
Qed.

Context {VL : VmxLaws}.


(** a VM-exit followed by a VM-entry is invisible to the guest. When the handler
    leaves the MSRs of the state alone, [vmx_msr_vmresume] after [vmx_msr_vmexit] gives
    every MSR and every field of the VMCS its value from before the exit, and the backup
    of the host its values. *)
Theorem vmx_msr_vmexit_vmresume s vm_state :
  vmcs_msr_fields_ok (m_hw s) → vmcs_msr_fields_writable →
  ∃ vm_state' s1 s2,
    vmx_msr_vmexit vm_state s = Ok (vm_state', s1) ∧
    vmx_msr_vmresume vm_state' s1 = Ok ((), s2) ∧
    (∀ e, e ∈ VMX_MSR_LIST → guest_msr e (m_hw s2) = guest_msr e (m_hw s)) ∧
    (∀ a, a ∉ msr_addr <$> VMX_MSR_LIST → hw_rdmsr a (m_hw s2) = hw_rdmsr a (m_hw s)) ∧
    (∀ f, f ∉ omap msr_vmcs VMX_MSR_LIST → hw_vmread f (m_hw s2) = hw_vmread f (m_hw s)) ∧
    (∀ e, e ∈ VMX_MSR_LIST →
       msr_get e (m_msr_host_backup s2) = msr_get e (m_msr_host_backup s)).
Proof.
  intros Hf Hw.
  assert (wp (st ← vmx_msr_vmexit vm_state; vmx_msr_vmresume st;; mret st) no_panic
    (λ _ s2,
      (∀ e, e ∈ VMX_MSR_LIST → guest_msr e (m_hw s2) = guest_msr e (m_hw s)) ∧
      (∀ a, a ∉ msr_addr <$> VMX_MSR_LIST → hw_rdmsr a (m_hw s2) = hw_rdmsr a (m_hw s)) ∧
      (∀ f, f ∉ omap msr_vmcs VMX_MSR_LIST → hw_vmread f (m_hw s2) = hw_vmread f (m_hw s)) ∧
      (∀ e, e ∈ VMX_MSR_LIST →
         msr_get e (m_msr_host_backup s2) = msr_get e (m_msr_host_backup s))) s) as H.
  { wp_step. apply wp_vmx_msr_vmexit; [done|]. intros msrs hw Hm Hh Hv Ha _.
    wp_step. apply wp_vmx_msr_vmresume; [done|]. intros b hw2 Hg2 Hb2 Hb2' Hv2 Ha2 _.
    wp_step. simpl in *. split_and!; intros x Hx.
    - by rewrite Hg2, Hm.
    - by rewrite Ha2, Ha.
    - by rewrite Hv2, Hv.
    - destruct (is_rwbk x) eqn:Hr; [by rewrite Hb2, Hh|by rewrite Hb2']. }
  apply wp_no_panic_ok in H as (st & s2 & Heq & HQ).
  apply bind_ok_inv in Heq as (st1 & s1 & H1 & H2).
  apply bind_ok_inv in H2 as ([] & s2' & H2 & [= -> ->]). eauto 10.
Qed.

End properties.

(** Witness: the bitmaps at page 16 of a small machine. *)
Lemma vmx_msr_init_bitmaps_correct_witness :
  page_ok 0x10000 ∧ ∃ m',
    vmx_msr_init_bitmaps (P2V_IDENTITY_MAP 0x10000) (small_machine 4) =
      Ok ((), (small_machine 4) <| m_mem := m' |>) ∧
    msr_write_intercepted m' 0x10000 IA32_EFER = false.
Proof.
  assert (page_ok 0x10000) as Hp by (by repeat split).
  split; [exact Hp|].
  destruct (vmx_msr_init_bitmaps_correct 0x10000 (small_machine 4) Hp) as (m' & Heq & Hb & _).
  exists m'. split; [exact Heq|]. destruct (Hb IA32_EFER eq_refl) as [_ ->]. reflexivity.
Defined.


(** Witness: the simple processor. *)
Lemma vmx_msr_vmexit_vmresume_witness :
  vmcs_msr_fields_ok (m_hw (small_machine 4)) ∧ vmcs_msr_fields_writable ∧
  ∃ vm_state' s1 s2,
    vmx_msr_vmexit (mk_vmexit_state 0 (mk_gpr_state 0 0 0 0 0 0 0 0 0 0 0 0 0 0 0) 0 0 0 0 0 0 0
                      (mk_msr_state 0 0 0 0 0 0 0)) (small_machine 4) = Ok (vm_state', s1) ∧
    vmx_msr_vmresume vm_state' s1 = Ok ((), s2).
Proof.
  assert (vmcs_msr_fields_ok (m_hw (small_machine 4))) as Hf by (intros f _; reflexivity).
  assert (vmcs_msr_fields_writable (HW := simple_hardware)) as Hw
    by (intros f v c _; reflexivity).
  split; [exact Hf|]. split; [exact Hw|].
  destruct (vmx_msr_vmexit_vmresume (small_machine 4)
    (mk_vmexit_state 0 (mk_gpr_state 0 0 0 0 0 0 0 0 0 0 0 0 0 0 0) 0 0 0 0 0 0 0
       (mk_msr_state 0 0 0 0 0 0 0)) Hf Hw) as (st & s1 & s2 & H1 & H2 & _).
  exists st, s1, s2. split; [exact H1|exact H2].
Defined.
