(* ===== verification/VmTracking.v ===== *)
(** The pages that belong to a virtual machine (hv/src/vmm/vm_manager.c).

    [vm_manager_track_page] and [vm_manager_untrack_page_from_reserved_pool] keep, for
    each VM, a list of runs of pages with a type and a pool. The specification is the
    list of pages of a type and a pool, [pages_of], up to permutation: tracking adds
    one page, untracking removes one page, and nothing else changes. [vmm_wf] says that
    no page has two owners. *)
From S2P Require Import Prelude Memory Machine SimpleCpu PageUse PageAllocator Arena.

Definition sizeof_vm_page_list_t : Z := 24.

Section definitions.
Context `{HW : Hardware}.

(** * vm_manager_track_page *)

(** The loop over the list: either the function returns early with the list updated
    ([inl]), or the loop ends, with the first empty run in [new_list] ([inr]). *)
Fixpoint vm_manager_track_page_loop (physical_address : Z) (page_type : vm_page_type_t)
    (reserved_pool : bool) (i : nat) (new_list : option nat) (l : list vm_page_list_t)
    : list vm_page_list_t + option nat :=
  match l with
  | [] => inr new_list
  | iter :: l' =>
    let continue new_list :=
      match vm_manager_track_page_loop physical_address page_type reserved_pool (S i) new_list l' with
      | inl l'' => inl (iter :: l'')
      | inr r => inr r
      end in
    if pl_pages iter =? 0 then continue (match new_list with None => Some i | Some _ => new_list end)
    else if negb (bool_decide (pl_page_type iter = page_type))
            || negb (Bool.eqb (pl_reserved_pool iter) reserved_pool)
    then continue new_list
    else
      let first_page := pl_physical_address iter in
      let last_page := u64 (first_page + u64 ((pl_pages iter - 1) * PAGE_SIZE)) in
      if (first_page <=? physical_address) && (physical_address <=? last_page)
      then inl (iter :: l')
      else if u64 (physical_address + PAGE_SIZE) =? first_page
      then inl (iter <| pl_physical_address := physical_address |>
                     <| pl_pages := u56 (pl_pages iter + 1) |> :: l')
      else if u64 (physical_address - PAGE_SIZE) =? last_page
      then inl (iter <| pl_pages := u56 (pl_pages iter + 1) |> :: l')
      else continue new_list
  end.

(** The address of the new node is not kept: only the list of its VM points to it. *)
Definition vm_manager_track_page (vm physical_address : Z) (page_type : vm_page_type_t)
    (reserved_pool : bool) : M machine () :=
  v ← vm_get vm;
  match vm_manager_track_page_loop physical_address page_type reserved_pool 0 None
          (vm_tracked_pages v) with
  | inl l => vm_modify vm (λ v, v <| vm_tracked_pages := l |>)
  | inr new_list =>
    let node := mk_page_list physical_address 1 page_type reserved_pool in
    match new_list with
    | None =>
      vm_manager_arena ← mgets m_vm_manager_arena;
      arena_allocate vm_manager_arena sizeof_vm_page_list_t;;
      vm_modify vm (λ v, v <| vm_tracked_pages := node :: vm_tracked_pages v |>)
    | Some i =>
      vm_modify vm (λ v, v <| vm_tracked_pages := <[i := node]> (vm_tracked_pages v) |>)
    end
  end.

(** * vm_manager_untrack_page_from_reserved_pool *)

(** The page that is given back and the list without it. *)
Fixpoint vm_manager_untrack_page_loop (page_type : vm_page_type_t) (l : list vm_page_list_t)
    : option (Z * list vm_page_list_t) :=
  match l with
  | [] => None
  | iter :: l' =>
    if negb (bool_decide (pl_page_type iter = page_type)) || negb (pl_reserved_pool iter)
       || (pl_pages iter =? 0)
    then match vm_manager_untrack_page_loop page_type l' with
         | Some (pa, l'') => Some (pa, iter :: l'')
         | None => None
         end
    else Some (u64 (pl_physical_address iter + u64 ((pl_pages iter - 1) * PAGE_SIZE)),
               iter <| pl_pages := u56 (pl_pages iter - 1) |> :: l')
  end.

Definition vm_manager_untrack_page_from_reserved_pool (vm : Z) (page_type : vm_page_type_t)
    : M machine (option Z) :=
  v ← vm_get vm;
  match vm_manager_untrack_page_loop page_type (vm_tracked_pages v) with
  | Some (physical_address, l) =>
    vm_modify vm (λ v, v <| vm_tracked_pages := l |>);;
    mret (Some physical_address)
  | None => mret None
  end.

Definition vm_manager_track_ept_page (vm ept_page : Z) : M machine () :=
  vm_manager_track_page vm (V2P_IDENTITY_MAP ept_page) VM_PAGE_TYPE_EPT false.

(** [None]: the function returns [false] and leaves [*ept_page] unset. *)
Definition vm_manager_untrack_ept_page_from_reserved_pool (vm : Z) : M machine (option Z) :=
  ret ← vm_manager_untrack_page_from_reserved_pool vm VM_PAGE_TYPE_EPT;
  match ret with
  | Some physical_address => mret (Some (P2V_IDENTITY_MAP physical_address))
  | None => mret None
  end.

End definitions.

(** * Specification *)

(** The pages of a run. *)
Fixpoint run_pages (first : Z) (n : nat) : list Z :=
  match n with
  | O => []
  | S n' => first :: run_pages (first + PAGE_SIZE) n'
  end.
Definition entry_pages (e : vm_page_list_t) : list Z :=
  run_pages (pl_physical_address e) (Z.to_nat (pl_pages e)).

Definition entry_kind_is (ty : vm_page_type_t) (res : bool) (e : vm_page_list_t) : bool :=
  bool_decide (pl_page_type e = ty) && Bool.eqb (pl_reserved_pool e) res.

(** The pages of a type and a pool, and all the pages. *)
Fixpoint pages_of (ty : vm_page_type_t) (res : bool) (l : list vm_page_list_t) : list Z :=
  match l with
  | [] => []
  | e :: l' => (if entry_kind_is ty res e then entry_pages e else []) ++ pages_of ty res l'
  end.
Fixpoint all_pages (l : list vm_page_list_t) : list Z :=
  match l with
  | [] => []
  | e :: l' => entry_pages e ++ all_pages l'
  end.

(** A run stays inside of the identity window. *)
Definition entry_wf (e : vm_page_list_t) : Prop :=
  pl_physical_address e mod PAGE_SIZE = 0 ∧ 0 ≤ pl_physical_address e ∧ 0 ≤ pl_pages e ∧
  pl_physical_address e + pl_pages e * PAGE_SIZE ≤ 2 ^ 39.

Record tracked_wf (l : list vm_page_list_t) : Prop := {
  tr_entries : Forall entry_wf l;
  tr_nodup : NoDup (all_pages l);
}.

(** [l'] is [l] with the page [p] added to the pool [(ty, res)]. *)
Definition tracked_added (ty : vm_page_type_t) (res : bool) (p : Z) (l l' : list vm_page_list_t) : Prop :=
  pages_of ty res l' ≡ₚ p :: pages_of ty res l ∧
  all_pages l' ≡ₚ p :: all_pages l ∧
  ∀ ty' res', (ty', res') ≠ (ty, res) → pages_of ty' res' l' = pages_of ty' res' l.

Lemma elem_of_run_pages first n p :
  p ∈ run_pages first n ↔
  ∃ k, 0 ≤ k < Z.of_nat n ∧ p = first + k * PAGE_SIZE.
Proof.
  revert first. induction n as [|n IH]; intros first; cbn [run_pages].
  - rewrite elem_of_nil. split; [done|]. intros (k & Hk & _). lia.
  - rewrite elem_of_cons, IH. unfold PAGE_SIZE. split.
    + intros [->|(k & Hk & ->)]; [exists 0; lia|exists (k + 1); lia].
    + intros (k & Hk & ->). destruct (decide (k = 0)) as [->|]; [left; lia|].
      right. exists (k - 1). lia.
Qed.

Lemma run_pages_snoc first n :
  run_pages first (S n) = run_pages first n ++ [first + Z.of_nat n * PAGE_SIZE].
Proof.
  revert first. induction n as [|n IH]; intros first.
  - cbn [run_pages Z.of_nat]. simpl. f_equal. lia.
  - cbn [run_pages]. cbn [run_pages] in IH. rewrite IH. simpl. do 2 f_equal.
    f_equal. unfold PAGE_SIZE. lia.
Qed.

Lemma entry_pages_ok e p : entry_wf e → p ∈ entry_pages e → page_ok p.
Proof.
  unfold entry_wf, entry_pages, page_ok, PAGE_SIZE. rewrite elem_of_run_pages.
  intros (Ha & H0 & Hn & Hw) (k & Hk & ->). unfold PAGE_SIZE. split; [|lia].
  rewrite Z.mod_add by lia. done.
Qed.

(** The test of [mm_page_used_by_vm_manager] is membership, for a run that is not empty. *)
Lemma entry_pages_in_run e p :
  entry_wf e → pl_pages e ≠ 0 → page_ok p →
  in_page_run p (pl_physical_address e) (pl_pages e) = true ↔ p ∈ entry_pages e.
Proof.
  intros (Ha & H0 & Hn & Hw) Hne [Hp Hpb]. unfold PAGE_SIZE in *.
  rewrite in_page_run_spec by (unfold PAGE_SIZE; lia).
  unfold entry_pages. rewrite elem_of_run_pages. unfold PAGE_SIZE. split.
  - intros [H1 H2]. exists ((p - pl_physical_address e) / 4096).
    assert ((p - pl_physical_address e) mod 4096 = 0) as Hm by (rewrite Zminus_mod, Hp, Ha; done).
    zlia.
  - intros (k & Hk & ->). lia.
Qed.

Lemma entry_pages_empty e : pl_pages e = 0 → entry_pages e = [].
Proof. unfold entry_pages. by intros ->. Qed.

Lemma pages_of_subset ty res l p : p ∈ pages_of ty res l → p ∈ all_pages l.
Proof.
  induction l as [|e l IH]; cbn [pages_of all_pages]; [done|].
  rewrite !elem_of_app. destruct (entry_kind_is ty res e); [tauto|].
  rewrite elem_of_nil. tauto.
Qed.

Lemma pages_of_app ty res l1 l2 : pages_of ty res (l1 ++ l2) = pages_of ty res l1 ++ pages_of ty res l2.
Proof. induction l1 as [|e l1 IH]; simpl; [done|]. by rewrite IH, app_assoc. Qed.
Lemma all_pages_app l1 l2 : all_pages (l1 ++ l2) = all_pages l1 ++ all_pages l2.
Proof. induction l1 as [|e l1 IH]; simpl; [done|]. by rewrite IH, app_assoc. Qed.

Lemma all_pages_ok l p : Forall entry_wf l → p ∈ all_pages l → page_ok p.
Proof.
  induction 1 as [|e l He Hl IH]; cbn [all_pages]; [by intros ?%elem_of_nil|].
  rewrite elem_of_app. intros [H|H]; [by eapply entry_pages_ok|by apply IH].
Qed.

Lemma all_pages_kinds l p : p ∈ all_pages l ↔ ∃ ty res, p ∈ pages_of ty res l.
Proof.
  split; [|intros (ty & res & H); by eapply pages_of_subset].
  induction l as [|e l IH]; cbn [pages_of all_pages]; [by intros ?%elem_of_nil|].
  rewrite elem_of_app. intros [H|H].
  - exists (pl_page_type e), (pl_reserved_pool e). apply elem_of_app. left.
    unfold entry_kind_is. rewrite bool_decide_true, eqb_reflx by done. done.
  - destruct (IH H) as (ty & res & Hp). exists ty, res. apply elem_of_app. by right.
Qed.

(** A page has one type and one pool. *)
Lemma pages_of_disjoint l ty res ty' res' p :
  NoDup (all_pages l) → (ty, res) ≠ (ty', res') →
  p ∈ pages_of ty res l → p ∈ pages_of ty' res' l → False.
Proof.
  intros Hnd Hne. induction l as [|e l IH]; cbn [pages_of all_pages] in *.
  { by intros ?%elem_of_nil. }
  apply NoDup_app in Hnd as (_ & Hdisj & Hnd). rewrite !elem_of_app.
  assert (entry_kind_is ty res e = true → entry_kind_is ty' res' e = true → False) as Hk.
  { unfold entry_kind_is. rewrite !andb_true_iff, !bool_decide_eq_true, !eqb_true_iff.
    intros [? ?] [? ?]. congruence. }
  intros [H1|H1] [H2|H2].
  - destruct (entry_kind_is ty res e), (entry_kind_is ty' res' e); auto; by eapply elem_of_nil.
  - destruct (entry_kind_is ty res e); [|by apply elem_of_nil in H1].
    apply (Hdisj p H1). by eapply pages_of_subset.
  - destruct (entry_kind_is ty' res' e); [|by apply elem_of_nil in H2].
    apply (Hdisj p H2). by eapply pages_of_subset.
  - by apply IH.
Qed.

(** * The loops meet the specification *)

Lemma tracked_added_cons ty res p e l l' :
  tracked_added ty res p l l' → tracked_added ty res p (e :: l) (e :: l').
Proof.
  intros (H1 & H2 & H3). unfold tracked_added. cbn [pages_of all_pages]. split_and!.
  - rewrite H1. by rewrite Permutation_middle.
  - rewrite H2. by rewrite Permutation_middle.
  - intros ty' res' Hne. by rewrite H3.
Qed.

(** A change of the first run that keeps its kind and adds the page to it. *)
Lemma tracked_added_head ty res p e e' l :
  entry_kind_is ty res e = true →
  pl_page_type e' = pl_page_type e → pl_reserved_pool e' = pl_reserved_pool e →
  entry_pages e' ≡ₚ p :: entry_pages e → tracked_added ty res p (e :: l) (e' :: l).
Proof.
  intros Hk Ht Hr Hp.
  assert (∀ ty' res', entry_kind_is ty' res' e' = entry_kind_is ty' res' e) as Hsame
    by (intros; unfold entry_kind_is; by rewrite Ht, Hr).
  unfold tracked_added. cbn [pages_of all_pages]. split_and!.
  - by rewrite Hsame, Hk, Hp.
  - by rewrite Hp.
  - intros ty' res' Hne. rewrite Hsame.
    assert (entry_kind_is ty' res' e = false) as ->; [|done].
    unfold entry_kind_is in *. apply andb_true_iff in Hk as [Hk1%bool_decide_eq_true Hk2%eqb_prop].
    apply andb_false_iff. destruct (decide (pl_page_type e = ty')); [right|left].
    + apply eqb_false_iff. congruence.
    + by apply bool_decide_false.
Qed.

(** A new run in the place of an empty one. *)
Lemma tracked_added_insert ty res p l j e :
  l !! j = Some e → pl_pages e = 0 →
  tracked_added ty res p l (<[j := mk_page_list p 1 ty res]> l).
Proof.
  intros Hj He. apply list_elem_of_split_length in Hj as (l1 & l2 & -> & ->).
  rewrite <-(Nat.add_0_r (length l1)), insert_app_r. cbn [insert list_insert].
  unfold tracked_added. rewrite !pages_of_app, !all_pages_app. cbn [pages_of all_pages].
  rewrite (entry_pages_empty e) by done.
  assert (entry_pages (mk_page_list p 1 ty res) = [p]) as -> by done.
  assert (∀ ty' res', entry_kind_is ty' res' (mk_page_list p 1 ty res) =
    bool_decide (ty = ty') && Bool.eqb res res') as Hk by done.
  split_and!.
  - rewrite Hk, bool_decide_true, eqb_reflx by done. simpl.
    destruct (entry_kind_is ty res e); simpl; by rewrite Permutation_middle.
  - simpl. by rewrite Permutation_middle.
  - intros ty' res' Hne. rewrite !pages_of_app. cbn [pages_of].
    rewrite (entry_pages_empty e), Hk by done.
    assert (bool_decide (ty = ty') && Bool.eqb res res' = false) as ->.
    { apply andb_false_iff. destruct (decide (ty = ty')); [right|left].
      - apply eqb_false_iff. congruence.
      - by apply bool_decide_false. }
    by destruct (entry_kind_is ty' res' e).
Qed.

(** A new run at the head. *)
Lemma tracked_added_new ty res p l :
  tracked_added ty res p l (mk_page_list p 1 ty res :: l).
Proof.
  unfold tracked_added. cbn [pages_of all_pages].
  assert (entry_pages (mk_page_list p 1 ty res) = [p]) as -> by done.
  assert (∀ ty' res', entry_kind_is ty' res' (mk_page_list p 1 ty res) =
    bool_decide (ty = ty') && Bool.eqb res res') as Hk by done.
  split_and!; [by rewrite Hk, bool_decide_true, eqb_reflx by done|done|].
  intros ty' res' Hne. rewrite Hk.
  assert (bool_decide (ty = ty') && Bool.eqb res res' = false) as ->; [|done].
  apply andb_false_iff. destruct (decide (ty = ty')); [right|left].
  - apply eqb_false_iff. congruence.
  - by apply bool_decide_false.
Qed.

Lemma entry_wf_new p ty res : page_ok p → entry_wf (mk_page_list p 1 ty res).
Proof. unfold page_ok, entry_wf, PAGE_SIZE. simpl. intros [? ?]. split_and!; [done|lia|lia|zlia]. Qed.

Lemma wrap_pages_size n : 0 ≤ n → n * PAGE_SIZE ≤ 2 ^ 39 → u64 (n * PAGE_SIZE) = n * PAGE_SIZE.
Proof. unfold PAGE_SIZE. intros. apply wrap_small. lia. Qed.

Lemma vm_manager_track_page_loop_spec p ty res i nl l :
  Forall entry_wf l → page_ok p → p ∉ pages_of ty res l →
  match vm_manager_track_page_loop p ty res i nl l with
  | inl l' => Forall entry_wf l' ∧ tracked_added ty res p l l'
  | inr None => nl = None
  | inr (Some j) => nl = Some j ∨ ∃ k e, j = (i + k)%nat ∧ l !! k = Some e ∧ pl_pages e = 0
  end.
Proof.
  intros Hl Hp. revert i nl. induction Hl as [|e l He Hl IH]; intros i nl Hnin.
  { simpl. destruct nl; auto. }
  cbn [pages_of] in Hnin. apply not_elem_of_app in Hnin as [Hnin1 Hnin2].
  assert (∀ nl', (∀ j, nl' = Some j → nl = Some j ∨ j = i ∧ pl_pages e = 0) → (nl' = None → nl = None) →
    match match vm_manager_track_page_loop p ty res (S i) nl' l with
          | inl l'' => inl (e :: l'') | inr r => inr r end with
    | inl l' => Forall entry_wf l' ∧ tracked_added ty res p (e :: l) l'
    | inr None => nl = None
    | inr (Some j) => nl = Some j ∨ ∃ k e0, j = (i + k)%nat ∧ (e :: l) !! k = Some e0 ∧ pl_pages e0 = 0
    end) as Hcont.
  { intros nl' Hs Hn. specialize (IH (S i) nl' Hnin2).
    destruct (vm_manager_track_page_loop _ _ _ _ _ _) as [l'|[j|]].
    - destruct IH as [Hw Ha]. split; [by constructor|by apply tracked_added_cons].
    - destruct IH as [->|(k & e0 & -> & Hk & He0)].
      + destruct (Hs _ eq_refl) as [?|[-> ?]]; [by left|]. right. exists 0%nat, e.
        split_and!; [lia|done|done].
      + right. exists (S k), e0. split_and!; [lia|done|done].
    - by apply Hn. }
  cbn [vm_manager_track_page_loop]. destruct (Z.eqb_spec (pl_pages e) 0) as [H0|H0].
  { apply Hcont; destruct nl; [naive_solver..|naive_solver|naive_solver]. }
  destruct (negb _ || negb _) eqn:Hkind; [apply Hcont; naive_solver|].
  assert (entry_kind_is ty res e = true) as Hk.
  { unfold entry_kind_is. apply orb_false_iff in Hkind as [->%negb_false_iff ->%negb_false_iff]. done. }
  rewrite Hk in Hnin1. destruct He as (Ha & H1 & H2 & Hw). destruct Hp as [Hp1 Hp2].
  assert (entry_wf e) as He by done.
  rewrite wrap_pages_size by (unfold PAGE_SIZE in *; lia).
  unfold PAGE_SIZE in Ha, Hw, Hp1 |- *. rewrite !wrap_small by lia.
  destruct ((_ <=? _) && (_ <=? _)) eqn:Hin.
  { exfalso. apply Hnin1. apply entry_pages_in_run; [done..|].
    unfold in_page_run. rewrite wrap_pages_size by (unfold PAGE_SIZE; lia).
    unfold PAGE_SIZE. by rewrite !wrap_small by lia. }
  destruct (Z.eqb_spec (p + 4096) (pl_physical_address e)) as [Hbefore|_].
  { rewrite ?wrap_small by lia. split.
    - constructor; [|done]. unfold entry_wf, PAGE_SIZE; simpl. split_and!; [done|lia..].
    - apply tracked_added_head; [done..|]. unfold entry_pages. simpl.
      rewrite Z2Nat.inj_add by lia. rewrite Nat.add_comm. cbn [Nat.add Z.to_nat Pos.to_nat].
      simpl. unfold PAGE_SIZE. by rewrite Hbefore. }
  destruct (Z.eqb_spec (u64 (p - 4096)) (pl_physical_address e + (pl_pages e - 1) * 4096))
    as [Hafter|_]; [|apply Hcont; naive_solver].
  assert (p = pl_physical_address e + pl_pages e * 4096) as Hpe.
  { destruct (decide (p < 4096)) as [Hlt|Hge].
    - unfold wrap in Hafter. rewrite <-(Z.mod_add _ 1) in Hafter by lia.
      rewrite Z.mod_small in Hafter; lia.
    - rewrite wrap_small in Hafter; lia. }
  rewrite ?wrap_small by lia. split.
  - constructor; [|done]. unfold entry_wf, PAGE_SIZE; simpl. split_and!; [done|lia|lia|zlia].
  - apply tracked_added_head; [done..|]. unfold entry_pages. simpl.
    rewrite Z2Nat.inj_add, Nat.add_comm by lia. change (Z.to_nat 1) with 1%nat.
    cbn [Nat.add]. rewrite run_pages_snoc, Z2Nat.id by lia. unfold PAGE_SIZE. rewrite <-Hpe.
    symmetry. apply Permutation_cons_append.
Qed.

(** Untracking takes a page out of the reserved pool, and fails only when it is empty. *)
Lemma vm_manager_untrack_page_loop_spec ty l :
  Forall entry_wf l →
  match vm_manager_untrack_page_loop ty l with
  | Some (p, l') => Forall entry_wf l' ∧ page_ok p ∧ tracked_added ty true p l' l
  | None => pages_of ty true l = []
  end.
Proof.
  induction 1 as [|e l He Hl IH]; cbn [vm_manager_untrack_page_loop pages_of]; [done|].
  destruct (negb _ || negb _ || _) eqn:Hskip.
  - destruct (vm_manager_untrack_page_loop ty l) as [[p l']|].
    + destruct IH as (Hw & Hp & Ht). split_and!; [by constructor|done|].
      by apply tracked_added_cons.
    + rewrite IH, app_nil_r. unfold entry_kind_is.
      apply orb_true_iff in Hskip as [Hskip|H0%Z.eqb_eq].
      * apply orb_true_iff in Hskip as [->%negb_true_iff| ->%negb_true_iff]; [done|].
        by rewrite andb_false_r.
      * rewrite entry_pages_empty by done. by case_match.
  - apply orb_false_iff in Hskip as [Hskip H0%Z.eqb_neq].
    apply orb_false_iff in Hskip as [H1%negb_false_iff H2%negb_false_iff].
    pose proof He as (Ha & Hb & Hc & Hd). unfold PAGE_SIZE in *.
    rewrite (wrap_small _ ((pl_pages e - 1) * 4096)), !wrap_small by lia.
    assert (entry_wf (e <| pl_pages := pl_pages e - 1 |>)) as Hw.
    { unfold entry_wf, PAGE_SIZE; simpl. split_and!; [done|lia..]. }
    split_and!; [by constructor| |].
    + unfold page_ok, PAGE_SIZE. rewrite Z.mod_add by lia. split; [done|lia].
    + apply tracked_added_head; [|done..|].
      * unfold entry_kind_is. simpl. by rewrite H1, H2.
      * unfold entry_pages. simpl.
        replace (Z.to_nat (pl_pages e)) with (S (Z.to_nat (pl_pages e - 1))) by lia.
        rewrite run_pages_snoc, Z2Nat.id by lia. unfold PAGE_SIZE.
        symmetry. apply Permutation_cons_append.
Qed.

(** * Ownership of pages *)

Section ownership.
Context `{HW : Hardware}.
Implicit Types (s : machine).

(** The users of pages other than the tracking lists of the VMs. *)
Definition owned_elsewhere (la : list Z) (p : Z) (s : machine) : bool :=
  mm_page_used_by_chainload p (m_chainload s) || arena_uses_page la p || mm_page_used_by_vmx p s.

(** [p] belongs to nobody: it may be given to a VM. *)
Definition page_unowned (la lv : list Z) (p : Z) (s : machine) : Prop :=
  owned_elsewhere la p s = false ∧
  ∀ vm v, vm ∈ lv → m_vms s !! vm = Some v → p ∉ all_pages (vm_tracked_pages v).

(** The invariant of the VM manager: the lists of the VMs are well formed, and no page
    of a VM belongs to anybody else. *)
Record vmm_wf (la lv : list Z) (s : machine) : Prop := {
  vw_mm : mm_wf la lv s;
  vw_arenas : arenas_wf la s;
  vw_arena : (m_vm_manager_arena s = 0 ∧ lv = []) ∨ m_vm_manager_arena s ∈ la;
  vw_tracked vm v : vm ∈ lv → m_vms s !! vm = Some v → tracked_wf (vm_tracked_pages v);
  vw_private vm v p : vm ∈ lv → m_vms s !! vm = Some v → p ∈ all_pages (vm_tracked_pages v) →
    owned_elsewhere la p s = false;
  vw_disjoint vm vm' v v' p : vm ∈ lv → vm' ∈ lv → vm ≠ vm' →
    m_vms s !! vm = Some v → m_vms s !! vm' = Some v' →
    p ∈ all_pages (vm_tracked_pages v) → p ∉ all_pages (vm_tracked_pages v');
}.

Lemma vm_manager_arena_in la lv s vm : vmm_wf la lv s → vm ∈ lv → m_vm_manager_arena s ∈ la.
Proof. intros Hwf Hvm. destruct (vw_arena _ _ _ Hwf) as [[_ ->]|]; [by apply elem_of_nil in Hvm|done]. Qed.

(** A tracked page is in use: the allocator does not give it out. *)
Lemma all_pages_used l p :
  Forall entry_wf l → p ∈ all_pages l →
  existsb (λ e, in_page_run p (pl_physical_address e) (pl_pages e)) l = true.
Proof.
  induction 1 as [|e l He Hl IH]; cbn [all_pages existsb]; [by intros ?%elem_of_nil|].
  rewrite elem_of_app, orb_true_iff. intros [Hp|Hp]; [left|right; by apply IH].
  apply entry_pages_in_run; [done| |by eapply entry_pages_ok|done].
  intros H0. rewrite entry_pages_empty in Hp by done. by apply elem_of_nil in Hp.
Qed.

(** A page that is not in use belongs to nobody. *)
Lemma page_not_in_use_unowned la lv p s :
  vmm_wf la lv s → page_in_use la lv p s = false → page_unowned la lv p s.
Proof.
  intros Hwf Hfree. unfold page_in_use in Hfree. apply orb_false_iff in Hfree as [Hfree Hvms].
  split; [done|]. intros vm v Hvm Hv Hp. apply not_true_iff_false in Hvms. apply Hvms.
  apply existsb_exists. exists vm. split; [by apply list_elem_of_In|]. rewrite Hv.
  unfold vm_uses_page. rewrite all_pages_used; [by rewrite orb_true_r| |done].
  apply (vw_tracked _ _ _ Hwf vm v Hvm Hv).
Qed.

(** An update of one VM that only takes pages that belong to nobody. *)
Lemma vmm_wf_update la lv s vm v v' heap :
  vmm_wf la lv s → vm ∈ lv → m_vms s !! vm = Some v → vm_next v' = vm_next v →
  tracked_wf (vm_tracked_pages v') →
  (∀ p, p ∈ all_pages (vm_tracked_pages v') →
     p ∈ all_pages (vm_tracked_pages v) ∨ page_unowned la lv p s) →
  arenas_wf la (s <| m_arenas := heap |>) →
  vmm_wf la lv (s <| m_arenas := heap |> <| m_vms := <[vm := v']> (m_vms s) |>).
Proof.
  intros Hwf Hvm Hv Hnext Htr Hp Haw. pose proof Hwf as [[[_ _ Hl] Hmm Hst] _ Ha Ht Hpr Hd].
  split; simpl; [|by split; apply Haw|done| | |].
  - split; [split|done|done]; simpl.
    + eapply dll_linked, Haw.
    + intros a h Hin Hh. by apply (aw_header _ _ Haw a h).
    + by eapply linked_insert_same.
  - intros x vx Hx. rewrite lookup_insert. case_decide; [by intros [= <-]|by eauto].
  - intros x vx p Hx. rewrite lookup_insert. case_decide as Heq; [|by eauto].
    intros [= <-] Hin. destruct (Hp p Hin) as [?|[? _]]; [by eauto|done].
  - intros x y vx vy p Hx Hy Hne. rewrite !lookup_insert.
    case_decide as Hvx; case_decide as Hvy; [congruence| | |by eauto].
    + subst x. intros [= <-] Hy' Hin. destruct (Hp p Hin) as [Hin'|[_ Hun]]; [|by eauto].
      by apply (Hd vm y v vy).
    + subst y. intros Hx' [= <-] Hin Hin'. destruct (Hp p Hin') as [Hin''|[_ Hun]].
      * by eapply (Hd vm x v vx p); eauto.
      * exact (Hun x vx Hx Hx' Hin).
Qed.

(** What the invariant does not depend on. *)
Lemma vmm_wf_mem la lv s m : vmm_wf la lv s → vmm_wf la lv (s <| m_mem := m |>).
Proof.
  intros [[[] ? ?] Haw ? ? ? ?]. split;
    first [done|by split; apply Haw|by split; [split|..]].
Qed.
Lemma vmm_wf_hw la lv s hw : vmm_wf la lv s → vmm_wf la lv (s <| m_hw := hw |>).
Proof.
  intros [[[] ? ?] Haw ? ? ? ?]. split;
    first [done|by split; apply Haw|by split; [split|..]].
Qed.
Lemma vmm_wf_console la lv s s' :
  s' = (s <| m_serial_initialized := m_serial_initialized s' |>) <| m_hw := m_hw s' |> →
  vmm_wf la lv s → vmm_wf la lv s'.
Proof.
  intros -> [[[] ? ?] Haw ? ? ? ?]. split;
    first [done|by split; apply Haw|by split; [split|..]].
Qed.
Lemma vmm_wf_set_last_returned la lv s c :
  vmm_wf la lv s → c ∈ mm_candidates s → vmm_wf la lv (set_last_returned c s).
Proof.
  intros [Hmm Haw ? ? ? ?] Hc. split;
    first [done|by split; apply Haw|by apply mm_wf_set_last_returned].
Qed.

Lemma tracked_wf_added ty res p l l' :
  tracked_added ty res p l l' → Forall entry_wf l' → tracked_wf l → p ∉ all_pages l → tracked_wf l'.
Proof.
  intros (_ & Ha & _) Hw [_ Hnd] Hp. split; [done|]. rewrite Ha. by apply NoDup_cons.
Qed.

Lemma set_m_arenas_id s : s <| m_arenas := m_arenas s |> = s.
Proof. by destruct s. Qed.

(** [vm_manager_track_page] gives a page that belongs to nobody to the VM. *)
Lemma wp_vm_manager_track_page la lv vm v p ty res E (Q : () → machine → Prop) s :
  vmm_wf la lv s → vm ∈ lv → m_vms s !! vm = Some v →
  page_ok p → page_unowned la lv p s → E "subarenas not supported right now" →
  (∀ heap l', tracked_added ty res p (vm_tracked_pages v) l' →
     let s' := s <| m_arenas := heap |>
                 <| m_vms := <[vm := v <| vm_tracked_pages := l' |>]> (m_vms s) |> in
     vmm_wf la lv s' → Q () s') →
  wp (vm_manager_track_page vm p ty res) E Q s.
Proof.
  intros Hwf Hvm Hv Hok Hun HE HQ. pose proof (vw_tracked _ _ _ Hwf vm v Hvm Hv) as Htr.
  pose proof (proj2 Hun vm v Hvm Hv) as Hp.
  assert (∀ heap l', arenas_wf la (s <| m_arenas := heap |>) → Forall entry_wf l' →
    tracked_added ty res p (vm_tracked_pages v) l' →
    Q () (s <| m_arenas := heap |>
            <| m_vms := <[vm := v <| vm_tracked_pages := l' |>]> (m_vms s) |>)) as Hdone.
  { intros heap l' Haw Hl' Hadd. apply HQ; [done|]. eapply vmm_wf_update; [done..| | |done].
    - by eapply tracked_wf_added.
    - simpl. intros q. destruct Hadd as (_ & -> & _). rewrite elem_of_cons.
      intros [->|?]; [by right|by left]. }
  assert (arenas_wf la (s <| m_arenas := m_arenas s |>)) as Haw
    by (rewrite set_m_arenas_id; apply Hwf).
  unfold vm_manager_track_page. wp_step. eapply wp_vm_get; [done|].
  pose proof (vm_manager_track_page_loop_spec p ty res 0 None (vm_tracked_pages v)
    (tr_entries _ Htr) Hok) as Hloop.
  destruct (vm_manager_track_page_loop _ _ _ _ _ _) as [l'|[j|]].
  - destruct Hloop as [Hw Hadd]; [by intros ?%pages_of_subset|].
    eapply wp_vm_modify; [done|]. by apply (Hdone (m_arenas s)).
  - destruct Hloop as [|(k & e & -> & Hk & He)]; [by intros ?%pages_of_subset|done|].
    eapply wp_vm_modify; [done|]. apply (Hdone (m_arenas s)); [done| |by eapply tracked_added_insert].
    apply Forall_insert; [apply Htr|by apply entry_wf_new].
  - wp_step. apply wp_gets. wp_step.
    pose proof (vm_manager_arena_in _ _ _ _ Hwf Hvm) as Hin.
    destruct (arenas_wf_lookup la s _ (vw_arenas _ _ _ Hwf) Hin) as [h Hh].
    eapply wp_arena_allocate; [apply Hwf|done|done|done|done|].
    cbv zeta. intros _ Haw'. eapply wp_vm_modify; [done|]. apply Hdone; [done| |apply tracked_added_new].
    constructor; [by apply entry_wf_new|apply Htr].
Qed.

(** [vm_manager_untrack_page_from_reserved_pool] takes a page out of the reserved pool
    of the VM; the page then belongs to nobody. *)
Lemma wp_vm_manager_untrack_page la lv vm v ty E (Q : option Z → machine → Prop) s :
  vmm_wf la lv s → vm ∈ lv → m_vms s !! vm = Some v →
  (pages_of ty true (vm_tracked_pages v) = [] → Q None s) →
  (∀ p l', tracked_added ty true p l' (vm_tracked_pages v) → page_ok p →
     let s' := s <| m_vms := <[vm := v <| vm_tracked_pages := l' |>]> (m_vms s) |> in
     vmm_wf la lv s' → page_unowned la lv p s' → Q (Some p) s') →
  wp (vm_manager_untrack_page_from_reserved_pool vm ty) E Q s.
Proof.
  intros Hwf Hvm Hv Hnone Hsome. pose proof (vw_tracked _ _ _ Hwf vm v Hvm Hv) as Htr.
  unfold vm_manager_untrack_page_from_reserved_pool. wp_step. eapply wp_vm_get; [done|].
  pose proof (vm_manager_untrack_page_loop_spec ty _ (tr_entries _ Htr)) as Hloop.
  destruct (vm_manager_untrack_page_loop ty _) as [[p l']|]; [|by apply wp_ret, Hnone].
  destruct Hloop as (Hw & Hok & Hadd). wp_step. eapply wp_vm_modify; [done|]. apply wp_ret.
  pose proof (tr_nodup _ Htr) as Hnd. pose proof Hadd as (_ & Hall & _).
  rewrite Hall in Hnd. apply NoDup_cons in Hnd as [Hnin Hnd].
  assert (p ∈ all_pages (vm_tracked_pages v)) as Hin by (rewrite Hall; by left).
  apply Hsome; [done|done| |split; simpl].
  - pose proof (vmm_wf_update la lv s vm v (v <| vm_tracked_pages := l' |>) (m_arenas s)) as H.
    rewrite set_m_arenas_id in H. apply H; [done..| |apply Hwf].
    simpl. intros q Hq. left. rewrite Hall. by right.
  - by eapply (vw_private _ _ _ Hwf vm).
  - intros x vx Hx. rewrite lookup_insert. case_decide as Heq; [by intros [= <-]|].
    intros Hvx. by eapply (vw_disjoint _ _ _ Hwf vm x v vx).
Qed.

End ownership.

(** * A machine with one VM *)

Definition zero_gpr_state : vmx_gpr_state_t := mk_gpr_state 0 0 0 0 0 0 0 0 0 0 0 0 0 0 0.
Definition zero_vm : vm_t :=
  mk_vm 0 [] 0 0
    (mk_vmcs_config 0 (mk_guest_state 0 0 0 0 0 0 0 0 (mk_table_register 0 0) (mk_table_register 0 0)))
    zero_gpr_state 0 0 [] 0 0.

Definition vm_arena : Z := P2V_IDENTITY_MAP 0x10000.
Definition vm_address : Z := vm_arena + 32.

(** The VM [v] is the only object in the only arena, page 16. *)
Definition machine_with_vm (n : Z) (v : vm_t) : machine :=
  (one_arena_machine n 272) <| m_vm_manager_arena := vm_arena |>
    <| m_vms := {[vm_address := v]} |> <| m_vm_list := vm_address |>.

Lemma machine_with_vm_lookup n v vm v' :
  m_vms (machine_with_vm n v) !! vm = Some v' → vm = vm_address ∧ v' = v.
Proof.
  change (m_vms (machine_with_vm n v)) with ({[vm_address := v]} : gmap Z vm_t).
  intros H. apply lookup_singleton_Some in H as [<- <-]. done.
Qed.

Lemma machine_with_vm_wf n v :
  0 ≤ n < 2 ^ 20 → vm_next v = 0 → tracked_wf (vm_tracked_pages v) →
  (∀ p, p ∈ all_pages (vm_tracked_pages v) →
     owned_elsewhere [vm_arena] p (machine_with_vm n v) = false) →
  vmm_wf [vm_arena] [vm_address] (machine_with_vm n v).
Proof.
  intros Hn Hnext Htr Hown.
  assert (arenas_wf [vm_arena] (one_arena_machine n 272)) as Haw by (apply one_arena_wf; lia).
  split; [split; [split|by apply small_mmap_wf|by left]|by split; apply Haw|right; by left| | |].
  - eapply dll_linked, Haw.
  - intros a h Ha Hh. by apply (aw_header _ _ Haw a h).
  - econstructor; [done|apply lookup_singleton_eq|rewrite Hnext; constructor].
  - intros vm v' _ [_ ->]%machine_with_vm_lookup. done.
  - intros vm v' p _ [_ ->]%machine_with_vm_lookup. apply Hown.
  - intros vm vm' v' v'' p ->%list_elem_of_singleton ->%list_elem_of_singleton Hne. done.
Qed.

Lemma machine_with_vm_vm n v : m_vms (machine_with_vm n v) !! vm_address = Some v.
Proof.
  change (m_vms (machine_with_vm n v)) with ({[vm_address := v]} : gmap Z vm_t).
  apply lookup_singleton_eq.
Qed.

Definition one_vm_machine (n : Z) : machine := machine_with_vm n zero_vm.

Lemma one_vm_machine_wf n : 0 ≤ n < 2 ^ 20 → vmm_wf [vm_arena] [vm_address] (one_vm_machine n).
Proof.
  intros Hn. apply machine_with_vm_wf; [done|done|split; constructor|].
  intros p Hp. by apply elem_of_nil in Hp.
Qed.

(** * Properties *)

(** C6: [vm_manager_track_page] gives a page that belongs to nobody to a VM: exactly
    this page is added to the pool it names, whether a run is extended on either side, an
    empty run is reused or a new node is allocated; the page is then in use, no page has
    two owners, and memory and the other VMs are unchanged. The only failure is a full
    arena. *)
Theorem vm_manager_track_page_correct `{HW : Hardware} la lv vm v p ty res s :
  vmm_wf la lv s → vm ∈ lv → m_vms s !! vm = Some v → page_ok p → page_unowned la lv p s →
  vm_manager_track_page vm p ty res s = Panic "subarenas not supported right now" ∨
  ∃ l' s', vm_manager_track_page vm p ty res s = Ok ((), s') ∧
    tracked_added ty res p (vm_tracked_pages v) l' ∧
    m_vms s' = <[vm := v <| vm_tracked_pages := l' |>]> (m_vms s) ∧ m_mem s' = m_mem s ∧
    vmm_wf la lv s' ∧ page_in_use la lv p s' = true.
Proof.
  intros Hwf Hvm Hv Hok Hun.
  assert (wp (vm_manager_track_page vm p ty res) (λ msg, msg = "subarenas not supported right now"%string)
    (λ _ s', ∃ l', tracked_added ty res p (vm_tracked_pages v) l' ∧
       m_vms s' = <[vm := v <| vm_tracked_pages := l' |>]> (m_vms s) ∧ m_mem s' = m_mem s ∧
       vmm_wf la lv s' ∧ page_in_use la lv p s' = true) s) as H.
  { eapply wp_vm_manager_track_page; [done..|]. cbv zeta. intros heap l' Hadd Hwf'.
    exists l'. split_and!; [done|done|done|done|]. unfold page_in_use, some_vm_uses_page.
    apply orb_true_iff. right. apply existsb_exists. exists vm. split; [by apply list_elem_of_In|].
    simpl. rewrite lookup_insert_eq. unfold vm_uses_page. apply orb_true_iff. right.
    apply all_pages_used.
    - apply (vw_tracked _ _ _ Hwf' vm (v <| vm_tracked_pages := l' |>)); [done|apply lookup_insert_eq].
    - destruct Hadd as (_ & -> & _). by left. }
  unfold wp in H. destruct (vm_manager_track_page vm p ty res s) as [[[] s']|msg| | |]; try done.
  - right. destruct H as (l' & H). by exists l', s'.
  - left. by rewrite H.
Qed.

(** [vm_manager_untrack_page_from_reserved_pool] fails, and then changes nothing,
    exactly when the reserved pool of the type is empty; otherwise it takes one page out
    of the pool, which belongs to nobody afterwards, and leaves the other pages. *)
Theorem vm_manager_untrack_page_correct `{HW : Hardware} la lv vm v ty s :
  vmm_wf la lv s → vm ∈ lv → m_vms s !! vm = Some v →
  (pages_of ty true (vm_tracked_pages v) = [] ∧
     vm_manager_untrack_page_from_reserved_pool vm ty s = Ok (None, s)) ∨
  ∃ p l' s', vm_manager_untrack_page_from_reserved_pool vm ty s = Ok (Some p, s') ∧
    tracked_added ty true p l' (vm_tracked_pages v) ∧ page_ok p ∧
    s' = s <| m_vms := <[vm := v <| vm_tracked_pages := l' |>]> (m_vms s) |> ∧
    vmm_wf la lv s' ∧ page_unowned la lv p s'.
Proof.
  intros Hwf Hvm Hv.
  assert (wp (vm_manager_untrack_page_from_reserved_pool vm ty) no_panic
    (λ r s', r = None ∧ s' = s ∧ pages_of ty true (vm_tracked_pages v) = [] ∨
       ∃ p l', r = Some p ∧ tracked_added ty true p l' (vm_tracked_pages v) ∧ page_ok p ∧
         s' = s <| m_vms := <[vm := v <| vm_tracked_pages := l' |>]> (m_vms s) |> ∧
         vmm_wf la lv s' ∧ page_unowned la lv p s') s) as H.
  { eapply wp_vm_manager_untrack_page; [done..|by left|]. cbv zeta. intros p l' ? ? ? ?.
    right. by exists p, l'. }
  apply wp_no_panic_ok in H as (r & s' & Heq & [(-> & -> & H)|(p & l' & -> & H)]); [by left|].
  right. by exists p, l', s'.
Qed.

(** Witness: page 17 for the VM of the machine. *)
Lemma vm_manager_track_page_correct_witness :
  let s := one_vm_machine 5 in
  page_unowned [vm_arena] [vm_address] 0x11000 s ∧
  (∃ s', vm_manager_track_page vm_address 0x11000 VM_PAGE_TYPE_EPT false s = Ok ((), s')) ∧
  (vm_manager_track_page vm_address 0x11000 VM_PAGE_TYPE_EPT false s =
     Panic "subarenas not supported right now" ∨
   ∃ l' s', vm_manager_track_page vm_address 0x11000 VM_PAGE_TYPE_EPT false s = Ok ((), s') ∧
     tracked_added VM_PAGE_TYPE_EPT false 0x11000 [] l' ∧
     m_vms s' = <[vm_address := zero_vm <| vm_tracked_pages := l' |>]> (m_vms s) ∧
     m_mem s' = m_mem s ∧
     vmm_wf [vm_arena] [vm_address] s' ∧ page_in_use [vm_arena] [vm_address] 0x11000 s' = true).
Proof.
  intros s.
  assert (page_unowned [vm_arena] [vm_address] 0x11000 s) as Hun.
  { split; [vm_compute; reflexivity|].
    intros vm v _ H. apply (machine_with_vm_lookup 5 zero_vm vm v) in H as [_ ->].
    apply not_elem_of_nil. }
  split; [exact Hun|]. split; [eexists; vm_compute; reflexivity|].
  apply (vm_manager_track_page_correct [vm_arena] [vm_address] vm_address zero_vm 0x11000);
    [apply one_vm_machine_wf; lia|by left|apply machine_with_vm_vm|by repeat split|exact Hun].
Defined.

(** Witness: a VM with two reserved EPT pages, 17 and 18. *)
Definition reserved_vm : vm_t :=
  zero_vm <| vm_tracked_pages := [mk_page_list 0x11000 2 VM_PAGE_TYPE_EPT true] |>.

Lemma reserved_vm_wf : vmm_wf [vm_arena] [vm_address] (machine_with_vm 5 reserved_vm).
Proof.
  apply machine_with_vm_wf; [lia|done| |].
  - split; [apply Forall_singleton; unfold entry_wf, PAGE_SIZE; simpl; by split_and!; [|lia..]|].
    apply (bool_decide_unpack (NoDup [0x11000; 0x12000])). by vm_compute.
  - simpl. intros p [->|[->|Hp%elem_of_nil]%elem_of_cons]%elem_of_cons; by vm_compute.
Qed.

Lemma vm_manager_untrack_page_correct_witness :
  let s := machine_with_vm 5 reserved_vm in
  (∃ s', vm_manager_untrack_page_from_reserved_pool vm_address VM_PAGE_TYPE_EPT s =
     Ok (Some 0x12000, s')) ∧
  ((pages_of VM_PAGE_TYPE_EPT true (vm_tracked_pages reserved_vm) = [] ∧
     vm_manager_untrack_page_from_reserved_pool vm_address VM_PAGE_TYPE_EPT s = Ok (None, s)) ∨
   ∃ p l' s', vm_manager_untrack_page_from_reserved_pool vm_address VM_PAGE_TYPE_EPT s =
       Ok (Some p, s') ∧
     tracked_added VM_PAGE_TYPE_EPT true p l' (vm_tracked_pages reserved_vm) ∧ page_ok p ∧
     s' = s <| m_vms := <[vm_address := reserved_vm <| vm_tracked_pages := l' |>]> (m_vms s) |> ∧
     vmm_wf [vm_arena] [vm_address] s' ∧ page_unowned [vm_arena] [vm_address] p s').
Proof.
  intros s. split; [eexists; vm_compute; reflexivity|].
  apply vm_manager_untrack_page_correct; [apply reserved_vm_wf|by left|apply machine_with_vm_vm].
Defined.
