(* ===== verification/VmxPages.v ===== *)
(** Pages for VMX structures and for guests (hv/src/memory_management/vmm_vmx_pages.c
    and vmm_vm_manager.c): the allocation of the VMXON region, the MSR bitmaps, VMCS
    regions, EPT pages and guest physical pages. *)
From S2P Require Import Prelude Memory Machine Registers SimpleCpu PageUse PageAllocator Arena.
From S2P Require Import VmxInstructions VmxMsr VmTracking.

Section definitions.
Context `{HW : Hardware}.

Definition vmx_get_vmcs_revision_identifier : M machine Z :=
  v ← rdmsr IA32_VMX_BASIC;
  mret (u32 (Z.land v 0x7fffffff)).

Definition vmx_get_vmxon_region : M machine Z :=
  s ← mget;
  if m_vmxon_region_valid s then mret (m_vmxon_region s) else
  page ← mm_get_free_page;
  mmodify (λ s, s <| m_vmxon_region := page |> <| m_vmxon_region_valid := true |>);;
  revision ← vmx_get_vmcs_revision_identifier;
  deref_store 4 (P2V_IDENTITY_MAP page) revision;;
  mret page.

Definition vmx_get_msr_bitmaps_page : M machine Z :=
  s ← mget;
  if m_msr_bitmaps_page_valid s then mret (m_msr_bitmaps_page s) else
  page ← mm_get_free_page;
  mmodify (λ s, s <| m_msr_bitmaps_page := page |> <| m_msr_bitmaps_page_valid := true |>);;
  vmx_msr_init_bitmaps (P2V_IDENTITY_MAP page);;
  mret page.

Definition vmx_get_free_vmcs_region : M machine Z :=
  vmcs_region ← mm_get_free_page;
  revision ← vmx_get_vmcs_revision_identifier;
  deref_store 4 (P2V_IDENTITY_MAP vmcs_region) revision;;
  mret vmcs_region.

Definition vmx_get_free_ept_page : M machine Z :=
  ept_page ← mm_get_free_page;
  memset_va (P2V_IDENTITY_MAP ept_page) 0 PAGE_SIZE;;
  mret (P2V_IDENTITY_MAP ept_page).

Definition vm_manager_get_free_guest_physical_page : M machine Z :=
  page_pa ← mm_get_free_page;
  memset_va (P2V_IDENTITY_MAP page_pa) 0 PAGE_SIZE;;
  mret page_pa.

End definitions.

Section proofs.
Context `{HW : Hardware}.
Implicit Types (s : machine).

(** A fresh page belongs to nobody, and the invariant of the VM manager is kept. *)
Lemma wp_mm_get_free_page la lv E (Q : Z → machine → Prop) s :
  vmm_wf la lv s → E "OOM :("%string →
  (∀ p c, page_ok p → page_unowned la lv p s → p = candidate_page s c → c ∈ mm_candidates s →
     vmm_wf la lv (set_last_returned c s) → Q p (set_last_returned c s)) →
  wp mm_get_free_page E Q s.
Proof.
  intros Hwf HE HQ. eapply wp_mono; [apply mm_get_free_page_wp, Hwf|by intros msg [-> _]|].
  intros p s1 (c & Hc & Hp & Hfree & Hok & -> & Hmm).
  apply HQ; [done|by apply page_not_in_use_unowned|done|done|].
  by apply vmm_wf_set_last_returned.
Qed.

Lemma wp_vm_manager_get_free_guest_physical_page la lv E (Q : Z → machine → Prop) s :
  vmm_wf la lv s → E "OOM :("%string →
  (∀ p c, page_ok p → page_unowned la lv p s → p = candidate_page s c → c ∈ mm_candidates s →
     let s' := (set_last_returned c s) <| m_mem := memset (m_mem s) p 0 PAGE_SIZE |> in
     vmm_wf la lv s' → Q p s') →
  wp vm_manager_get_free_guest_physical_page E Q s.
Proof.
  intros Hwf HE HQ. unfold vm_manager_get_free_guest_physical_page. wp_step.
  eapply wp_mm_get_free_page; [done..|]. intros p c Hok Hun Hp Hc Hwf'. wp_step.
  apply wp_memset_page; [done|]. apply wp_ret. eapply HQ; eauto. by apply vmm_wf_mem.
Qed.

Lemma wp_vmx_get_free_ept_page la lv E (Q : Z → machine → Prop) s :
  vmm_wf la lv s → E "OOM :("%string →
  (∀ p c, page_ok p → page_unowned la lv p s → p = candidate_page s c → c ∈ mm_candidates s →
     let s' := (set_last_returned c s) <| m_mem := memset (m_mem s) p 0 PAGE_SIZE |> in
     vmm_wf la lv s' → Q (P2V_IDENTITY_MAP p) s') →
  wp vmx_get_free_ept_page E Q s.
Proof.
  intros Hwf HE HQ. unfold vmx_get_free_ept_page. wp_step.
  eapply wp_mm_get_free_page; [done..|]. intros p c Hok Hun Hp Hc Hwf'. wp_step.
  apply wp_memset_page; [done|]. apply wp_ret. eapply HQ; eauto. by apply vmm_wf_mem.
Qed.

End proofs.
