(* ===== verification/VmxEpt.v ===== *)
(** Extended page tables (hv/src/vmm/vmx_ept.c and vmx_ept.h).

    [vmx_ept_map_page] adds a page to the four levels of tables of a VM,
    [vmx_ept_get_host_physical_address] translates an address,
    [vmx_ept_create_identity_mapping] builds tables of 1 GiB pages. The specification
    is in VmxEptSpec.v. *)
From S2P Require Import Prelude Memory Machine SimpleCpu PageUse PageAllocator Arena.
From S2P Require Import VmTracking VmxPages.

(** * hv/src/vmm/vmx_ept.h *)

Definition GUEST_PHYSICAL_ADDRESS_PML4_MASK : Z := LINEAR_ADDRESS_PML4_MASK.
Definition GUEST_PHYSICAL_ADDRESS_DP_MASK : Z := LINEAR_ADDRESS_DP_MASK.
Definition GUEST_PHYSICAL_ADDRESS_D_MASK : Z := LINEAR_ADDRESS_D_MASK.
Definition GUEST_PHYSICAL_ADDRESS_TABLE_MASK : Z := LINEAR_ADDRESS_TABLE_MASK.
Definition GUEST_PHYSICAL_ADDRESS_OFFSET_MASK : Z := LINEAR_ADDRESS_OFFSET_MASK.
Definition GUEST_PHYSICAL_ADDRESS_PML4_SHIFT : Z := LINEAR_ADDRESS_PML4_SHIFT.
Definition GUEST_PHYSICAL_ADDRESS_DP_SHIFT : Z := LINEAR_ADDRESS_DP_SHIFT.
Definition GUEST_PHYSICAL_ADDRESS_D_SHIFT : Z := LINEAR_ADDRESS_D_SHIFT.
Definition GUEST_PHYSICAL_ADDRESS_TABLE_SHIFT : Z := LINEAR_ADDRESS_TABLE_SHIFT.
Definition GUEST_PHYSICAL_ADDRESS_OFFSET_SHIFT : Z := LINEAR_ADDRESS_OFFSET_SHIFT.
Definition EPT_PDPTE_PHYSICAL_ADDRESS_PAGE : Z := 0x000fffffc0000000.
Definition EPT_PDE_PAGE_SIZE : Z := 0x0000000000000080.
Definition EPT_PDPTE_PAGE_SIZE : Z := EPT_PDE_PAGE_SIZE.
Definition EPT_PDE_PHYSICAL_ADDRESS_PAGE : Z := 0x000fffffffe00000.
Definition EPT_PTE_READ : Z := 0x0000000000000001.
Definition EPT_PML4E_READ : Z := EPT_PTE_READ.
Definition EPT_PDPTE_READ : Z := EPT_PTE_READ.
Definition EPT_PDE_READ : Z := EPT_PTE_READ.
Definition EPT_PTE_WRITE : Z := 0x0000000000000002.
Definition EPT_PML4E_WRITE : Z := EPT_PTE_WRITE.
Definition EPT_PDPTE_WRITE : Z := EPT_PTE_WRITE.
Definition EPT_PDE_WRITE : Z := EPT_PTE_WRITE.
Definition EPT_PTE_EXECUTE : Z := 0x0000000000000004.
Definition EPT_PML4E_EXECUTE : Z := EPT_PTE_EXECUTE.
Definition EPT_PDPTE_EXECUTE : Z := EPT_PTE_EXECUTE.
Definition EPT_PDE_EXECUTE : Z := EPT_PTE_EXECUTE.
Definition EPT_PTE_EXECUTE_SUPERVISOR : Z := EPT_PTE_EXECUTE.
Definition EPT_PML4E_EXECUTE_SUPERVISOR : Z := EPT_PTE_EXECUTE_SUPERVISOR.
Definition EPT_PDPTE_EXECUTE_SUPERVISOR : Z := EPT_PTE_EXECUTE_SUPERVISOR.
Definition EPT_PDE_EXECUTE_SUPERVISOR : Z := EPT_PTE_EXECUTE_SUPERVISOR.
Definition EPT_PTE_MEMORY_TYPE : Z := 0x0000000000000038.
Definition EPT_PDPTE_MEMORY_TYPE : Z := EPT_PTE_MEMORY_TYPE.
Definition EPT_PDE_MEMORY_TYPE : Z := EPT_PTE_MEMORY_TYPE.
Definition EPT_PTE_IGNORE_PAT_MEMORY_TYPE : Z := 0x0000000000000040.
Definition EPT_PDPTE_IGNORE_PAT_MEMORY_TYPE : Z := EPT_PTE_IGNORE_PAT_MEMORY_TYPE.
Definition EPT_PDE_IGNORE_PAT_MEMORY_TYPE : Z := EPT_PTE_IGNORE_PAT_MEMORY_TYPE.
Definition EPT_PTE_ACCESSED : Z := 0x0000000000000100.
Definition EPT_PML4E_ACCESSED : Z := EPT_PTE_ACCESSED.
Definition EPT_PDPTE_ACCESSED : Z := EPT_PTE_ACCESSED.
Definition EPT_PDE_ACCESSED : Z := EPT_PTE_ACCESSED.
Definition EPT_PTE_WRITTEN : Z := 0x0000000000000200.
Definition EPT_PDPTE_WRITTEN : Z := EPT_PTE_WRITTEN.
Definition EPT_PDE_WRITTEN : Z := EPT_PTE_WRITTEN.
Definition EPT_PTE_EXECUTE_USER : Z := 0x0000000000000400.
Definition EPT_PML4E_EXECUTE_USER : Z := EPT_PTE_EXECUTE_USER.
Definition EPT_PDPTE_EXECUTE_USER : Z := EPT_PTE_EXECUTE_USER.
Definition EPT_PDE_EXECUTE_USER : Z := EPT_PTE_EXECUTE_USER.
Definition EPT_PTE_PHYSICAL_ADDRESS_PAGE : Z := 0x000ffffffffff000.
Definition EPT_PML4E_PHYSICAL_ADDRESS_PDPT : Z := EPT_PTE_PHYSICAL_ADDRESS_PAGE.
Definition EPT_PDPTE_PHYSICAL_ADDRESS_PD : Z := EPT_PTE_PHYSICAL_ADDRESS_PAGE.
Definition EPT_PDE_PHYSICAL_ADDRESS_PT : Z := EPT_PTE_PHYSICAL_ADDRESS_PAGE.
Definition EPT_PTE_VERIFY_GUEST_PAGING : Z := 0x0200000000000000.
Definition EPT_PDPTE_VERIFY_GUEST_PAGING : Z := EPT_PTE_VERIFY_GUEST_PAGING.
Definition EPT_PDE_VERIFY_GUEST_PAGING : Z := EPT_PTE_VERIFY_GUEST_PAGING.
Definition EPT_PTE_PAGING_WRITE : Z := 0x0400000000000000.
Definition EPT_PDPTE_PAGING_WRITE : Z := EPT_PTE_PAGING_WRITE.
Definition EPT_PDE_PAGING_WRITE : Z := EPT_PTE_PAGING_WRITE.
Definition EPT_PTE_SUPERVISOR_SHADOW_STACK : Z := 0x1000000000000000.
Definition EPT_PDPTE_SUPERVISOR_SHADOW_STACK : Z := EPT_PTE_SUPERVISOR_SHADOW_STACK.
Definition EPT_PDE_SUPERVISOR_SHADOW_STACK : Z := EPT_PTE_SUPERVISOR_SHADOW_STACK.
Definition EPT_PTE_SUBPAGE_WRITE_PERMISSIONS : Z := 0x2000000000000000.
Definition EPT_PTE_SUPPRESS_VE : Z := 0x8000000000000000.
Definition EPT_PML4E_SUPPRESS_VE : Z := EPT_PTE_SUPPRESS_VE.
Definition EPT_PDPTE_SUPPRESS_VE : Z := EPT_PTE_SUPPRESS_VE.
Definition EPT_PDE_SUPPRESS_VE : Z := EPT_PTE_SUPPRESS_VE.

Definition GUEST_PHYSICAL_ADDRESS_GET_PML4 (x : Z) : Z :=
  Z.shiftr (Z.land x GUEST_PHYSICAL_ADDRESS_PML4_MASK) GUEST_PHYSICAL_ADDRESS_PML4_SHIFT.
Definition GUEST_PHYSICAL_ADDRESS_GET_DIRECTORY_PTR (x : Z) : Z :=
  Z.shiftr (Z.land x GUEST_PHYSICAL_ADDRESS_DP_MASK) GUEST_PHYSICAL_ADDRESS_DP_SHIFT.
Definition GUEST_PHYSICAL_ADDRESS_GET_DIRECTORY (x : Z) : Z :=
  Z.shiftr (Z.land x GUEST_PHYSICAL_ADDRESS_D_MASK) GUEST_PHYSICAL_ADDRESS_D_SHIFT.
Definition GUEST_PHYSICAL_ADDRESS_GET_TABLE (x : Z) : Z :=
  Z.shiftr (Z.land x GUEST_PHYSICAL_ADDRESS_TABLE_MASK) GUEST_PHYSICAL_ADDRESS_TABLE_SHIFT.
Definition GUEST_PHYSICAL_ADDRESS_GET_OFFSET (x : Z) : Z :=
  Z.shiftr (Z.land x GUEST_PHYSICAL_ADDRESS_OFFSET_MASK) GUEST_PHYSICAL_ADDRESS_OFFSET_SHIFT.

Section definitions.
Context `{HW : Hardware}.

(** [if (!vm_manager_untrack_ept_page_from_reserved_pool(vm, &p)) p = vmx_get_free_ept_page();] *)
Definition ept_page_from_pool_or_free (vm : Z) : M machine Z :=
  ept_page ← vm_manager_untrack_ept_page_from_reserved_pool vm;
  match ept_page with
  | Some p => mret p
  | None => vmx_get_free_ept_page
  end.

Definition already_mapped_panic_str : string :=
  "Remapping an already mapped guest physical page in EPT".

Definition vmx_ept_map_page (vm guest_physical_page host_physical_page : Z) : M machine () :=
  let ept_pml4_index := GUEST_PHYSICAL_ADDRESS_GET_PML4 guest_physical_page in
  let ept_pdpt_index := GUEST_PHYSICAL_ADDRESS_GET_DIRECTORY_PTR guest_physical_page in
  let ept_pd_index := GUEST_PHYSICAL_ADDRESS_GET_DIRECTORY guest_physical_page in
  let ept_pt_index := GUEST_PHYSICAL_ADDRESS_GET_TABLE guest_physical_page in

  v ← vm_get vm;
  ept_pml4 ← (
    if truthy (Z.land (vm_flags v) VM_T_FLAG_EPT_PML4_INITIALIZED)
    then mret (P2V_IDENTITY_MAP (eptp (vm_vmcs_config v)))
    else
      ept_pml4 ← ept_page_from_pool_or_free vm;
      vm_modify vm (λ v, v <| vm_vmcs_config :=
        (vm_vmcs_config v) <| eptp := V2P_IDENTITY_MAP ept_pml4 |> |>);;
      vm_modify vm (λ v, v <| vm_flags := Z.lor (vm_flags v) VM_T_FLAG_EPT_PML4_INITIALIZED |>);;
      vm_manager_track_ept_page vm ept_pml4;;
      mret ept_pml4);

  pml4e ← deref_load 8 (ptr64 ept_pml4 ept_pml4_index);
  ept_pdpt ← (
    if truthy (Z.land pml4e EPT_PML4E_READ)
    then mret (P2V_IDENTITY_MAP (Z.land pml4e EPT_PML4E_PHYSICAL_ADDRESS_PDPT))
    else
      ept_pdpt ← ept_page_from_pool_or_free vm;
      vm_manager_track_ept_page vm ept_pdpt;;
      deref_store 8 (ptr64 ept_pml4 ept_pml4_index)
        (Z.lor (Z.lor (Z.lor EPT_PML4E_READ EPT_PML4E_WRITE) EPT_PML4E_EXECUTE)
               (Z.land (V2P_IDENTITY_MAP ept_pdpt) EPT_PML4E_PHYSICAL_ADDRESS_PDPT));;
      mret ept_pdpt);

  pdpte ← deref_load 8 (ptr64 ept_pdpt ept_pdpt_index);
  ept_pd ← (
    if truthy (Z.land pdpte EPT_PDPTE_READ) then
      if truthy (Z.land pdpte EPT_PDPTE_PAGE_SIZE) then mpanic already_mapped_panic_str
      else mret (P2V_IDENTITY_MAP (Z.land pdpte EPT_PDPTE_PHYSICAL_ADDRESS_PD))
    else
      ept_pd ← ept_page_from_pool_or_free vm;
      vm_manager_track_ept_page vm ept_pd;;
      deref_store 8 (ptr64 ept_pdpt ept_pdpt_index)
        (Z.lor (Z.lor (Z.lor EPT_PDPTE_READ EPT_PDPTE_WRITE) EPT_PDPTE_EXECUTE)
               (Z.land (V2P_IDENTITY_MAP ept_pd) EPT_PDPTE_PHYSICAL_ADDRESS_PD));;
      mret ept_pd);

  pde ← deref_load 8 (ptr64 ept_pd ept_pd_index);
  ept_pt ← (
    if truthy (Z.land pde EPT_PDE_READ) then
      if truthy (Z.land pde EPT_PDE_PAGE_SIZE) then mpanic already_mapped_panic_str
      else mret (P2V_IDENTITY_MAP (Z.land pde EPT_PDE_PHYSICAL_ADDRESS_PT))
    else
      ept_pt ← ept_page_from_pool_or_free vm;
      vm_manager_track_ept_page vm ept_pt;;
      deref_store 8 (ptr64 ept_pd ept_pd_index)
        (Z.lor (Z.lor (Z.lor EPT_PDE_READ EPT_PDE_WRITE) EPT_PDE_EXECUTE)
               (Z.land (V2P_IDENTITY_MAP ept_pt) EPT_PDE_PHYSICAL_ADDRESS_PT));;
      mret ept_pt);

  pte ← deref_load 8 (ptr64 ept_pt ept_pt_index);
  if truthy (Z.land pte EPT_PTE_READ) then mpanic already_mapped_panic_str
  else
    deref_store 8 (ptr64 ept_pt ept_pt_index)
      (Z.lor (Z.lor (Z.lor EPT_PTE_READ EPT_PTE_WRITE) EPT_PTE_EXECUTE)
             (Z.land host_physical_page EPT_PTE_PHYSICAL_ADDRESS_PAGE)).

(** [None]: the function returns [false]. *)
Definition vmx_ept_get_host_physical_address (vm guest_physical_address : Z)
    : M machine (option Z) :=
  let guestpa_pml4 := GUEST_PHYSICAL_ADDRESS_GET_PML4 guest_physical_address in
  let guestpa_pdpt := GUEST_PHYSICAL_ADDRESS_GET_DIRECTORY_PTR guest_physical_address in
  let guestpa_pd := GUEST_PHYSICAL_ADDRESS_GET_DIRECTORY guest_physical_address in
  let guestpa_pt := GUEST_PHYSICAL_ADDRESS_GET_TABLE guest_physical_address in
  let guestpa_offset := GUEST_PHYSICAL_ADDRESS_GET_OFFSET guest_physical_address in

  v ← vm_get vm;
  if negb (truthy (Z.land (vm_flags v) VM_T_FLAG_EPT_PML4_INITIALIZED)) then mret None else

  let ept_pml4 := P2V_IDENTITY_MAP (eptp (vm_vmcs_config v)) in
  pml4e ← deref_load 8 (ptr64 ept_pml4 guestpa_pml4);
  if negb (truthy (Z.land pml4e EPT_PML4E_READ)) then mret None else

  let ept_pdpt := P2V_IDENTITY_MAP (Z.land pml4e EPT_PML4E_PHYSICAL_ADDRESS_PDPT) in
  pdpte ← deref_load 8 (ptr64 ept_pdpt guestpa_pdpt);
  if negb (truthy (Z.land pdpte EPT_PDPTE_READ)) then mret None else
  if truthy (Z.land pdpte EPT_PDPTE_PAGE_SIZE) then
    mret (Some (Z.lor (Z.land pdpte EPT_PDPTE_PHYSICAL_ADDRESS_PAGE)
                      (Z.land guest_physical_address
                         (Z.lor (Z.lor GUEST_PHYSICAL_ADDRESS_D_MASK
                                       GUEST_PHYSICAL_ADDRESS_TABLE_MASK)
                                GUEST_PHYSICAL_ADDRESS_OFFSET_MASK))))
  else

  let ept_pd := P2V_IDENTITY_MAP (Z.land pdpte EPT_PDPTE_PHYSICAL_ADDRESS_PD) in
  pde ← deref_load 8 (ptr64 ept_pd guestpa_pd);
  if negb (truthy (Z.land pde EPT_PDE_READ)) then mret None else
  if truthy (Z.land pde EPT_PDE_PAGE_SIZE) then
    mret (Some (Z.lor (Z.land pde EPT_PDE_PHYSICAL_ADDRESS_PAGE)
                      (Z.land guest_physical_address
                         (Z.lor GUEST_PHYSICAL_ADDRESS_TABLE_MASK
                                GUEST_PHYSICAL_ADDRESS_OFFSET_MASK))))
  else

  let ept_pt := P2V_IDENTITY_MAP (Z.land pde EPT_PDE_PHYSICAL_ADDRESS_PT) in
  pte ← deref_load 8 (ptr64 ept_pt guestpa_pt);
  if negb (truthy (Z.land pte EPT_PTE_READ)) then mret None else
  mret (Some (Z.lor (Z.land pte EPT_PTE_PHYSICAL_ADDRESS_PAGE) guestpa_offset)).

Definition vmx_ept_create_identity_mapping (vm : Z) : M machine () :=
  v ← vm_get vm;
  if truthy (Z.land (vm_flags v) VM_T_FLAG_EPT_PML4_INITIALIZED)
  then mpanic "Setting up a new EPT with id mapping on a VM with EPT PML4 already initialized"
  else
  ept_pdpt ← ept_page_from_pool_or_free vm;
  vm_manager_track_ept_page vm ept_pdpt;;
  mfor PAGE_TABLE_ENTRIES (λ i,
    deref_store 8 (ptr64 ept_pdpt i)
      (Z.lor (Z.lor (Z.lor (Z.lor EPT_PDPTE_READ EPT_PDPTE_WRITE) EPT_PDPTE_EXECUTE)
                    EPT_PDPTE_PAGE_SIZE)
             (Z.land (u64 (Z.shiftl i GUEST_PHYSICAL_ADDRESS_DP_SHIFT))
                     EPT_PDPTE_PHYSICAL_ADDRESS_PAGE)));;

  ept_pml4 ← ept_page_from_pool_or_free vm;
  vm_manager_track_ept_page vm ept_pml4;;
  deref_store 8 (ptr64 ept_pml4 0)
    (Z.lor (Z.lor (Z.lor EPT_PML4E_READ EPT_PML4E_WRITE) EPT_PML4E_EXECUTE)
           (Z.land (V2P_IDENTITY_MAP ept_pdpt) EPT_PML4E_PHYSICAL_ADDRESS_PDPT));;

  vm_modify vm (λ v, v <| vm_vmcs_config :=
    (vm_vmcs_config v) <| eptp := V2P_IDENTITY_MAP ept_pml4 |> |>);;
  vm_modify vm (λ v, v <| vm_flags := Z.lor (vm_flags v) VM_T_FLAG_EPT_PML4_INITIALIZED |>).

End definitions.
