(* ===== verification/VmxEptSpec.v ===== *)
(** The tables of an EPT as a tree.

    [ept_walk] is the translation of an address by the four levels of tables.
    [ept_tables_wf] names every table by its level and the guest-physical addresses
    it serves, with distinct pages, so that a write to one entry has a known effect on
    every translation: [ept_walk_new_table] and [ept_walk_leaf]. *)
From S2P Require Import Prelude Memory Machine VmxEpt.

(** * Levels *)

(** Level 3 is the PML4, level 0 the page table. *)
Definition level_shift (n : nat) : Z := 12 + 9 * Z.of_nat n.
Definition level_index (n : nat) (gpa : Z) : Z := (gpa / 2 ^ level_shift n) mod 512.
(** What names the table of level [n] that serves [gpa]. *)
Definition level_prefix (n : nat) (gpa : Z) : Z := gpa / 2 ^ level_shift (S n).

Definition ept_entry (m : mem) (table i : Z) : Z := load_le 8 m (table + 8 * i).
Definition entry_readable (e : Z) : bool := truthy (Z.land e EPT_PTE_READ).
Definition entry_table (e : Z) : Z := Z.land e EPT_PTE_PHYSICAL_ADDRESS_PAGE.

(** Entries of levels 1 and 2 may map a large page. *)
Definition entry_large (n : nat) (e : Z) : bool :=
  match n with
  | 1%nat | 2%nat => truthy (Z.land e EPT_PDE_PAGE_SIZE)
  | _ => false
  end.
Definition large_address (n : nat) (e gpa : Z) : Z :=
  match n with
  | 1%nat => Z.lor (Z.land e EPT_PDE_PHYSICAL_ADDRESS_PAGE)
               (Z.land gpa (Z.lor GUEST_PHYSICAL_ADDRESS_TABLE_MASK GUEST_PHYSICAL_ADDRESS_OFFSET_MASK))
  | _ => Z.lor (Z.land e EPT_PDPTE_PHYSICAL_ADDRESS_PAGE)
               (Z.land gpa (Z.lor (Z.lor GUEST_PHYSICAL_ADDRESS_D_MASK
                  GUEST_PHYSICAL_ADDRESS_TABLE_MASK) GUEST_PHYSICAL_ADDRESS_OFFSET_MASK))
  end.

Fixpoint ept_walk (n : nat) (m : mem) (table gpa : Z) : option Z :=
  let e := ept_entry m table (level_index n gpa) in
  if entry_readable e then
    match n with
    | O => Some (Z.lor (entry_table e) (GUEST_PHYSICAL_ADDRESS_GET_OFFSET gpa))
    | S n' => if entry_large n e then Some (large_address n e gpa)
              else ept_walk n' m (entry_table e) gpa
    end
  else None.

(** The entry at the end of the walk, with its level. *)
Fixpoint walk_leaf (n : nat) (m : mem) (table gpa : Z) : option (nat * Z) :=
  let e := ept_entry m table (level_index n gpa) in
  if entry_readable e then
    match n with
    | O => Some (O, e)
    | S n' => if entry_large n e then Some (n, e) else walk_leaf n' m (entry_table e) gpa
    end
  else None.
Definition leaf_address (gpa : Z) (leaf : nat * Z) : Z :=
  match leaf with
  | (O, e) => Z.lor (entry_table e) (GUEST_PHYSICAL_ADDRESS_GET_OFFSET gpa)
  | (n, e) => large_address n e gpa
  end.

Lemma ept_walk_leaf_address n m table gpa :
  ept_walk n m table gpa = leaf_address gpa <$> walk_leaf n m table gpa.
Proof.
  revert table. induction n as [|n IH]; intros table; cbn [ept_walk walk_leaf];
    (destruct (entry_readable _); [|done]); [done|].
  by destruct (entry_large _ _).
Qed.

(** * Well-formed tables *)

(** [tbl] gives the page of each table: [(n, p)] is the table of level [n] for the
    addresses with prefix [p]. *)
Record ept_tables_wf (root : Z) (tbl : gmap (nat * Z) Z) (m : mem) : Prop := {
  et_root : tbl !! (3%nat, 0) = Some root;
  et_level n p T : tbl !! (n, p) = Some T → 0 ≤ p ∧ ((n < 3)%nat ∨ n = 3%nat ∧ p = 0);
  et_page k T : tbl !! k = Some T → page_ok T;
  et_inj k k' T : tbl !! k = Some T → tbl !! k' = Some T → k = k';
  et_entry n p T i : tbl !! (S n, p) = Some T → 0 ≤ i < 512 →
    let e := ept_entry m T i in
    tbl !! (n, p * 512 + i) =
      if entry_readable e && negb (entry_large (S n) e) then Some (entry_table e) else None;
  et_parent n q T : tbl !! (n, q) = Some T → n = 3%nat ∨ is_Some (tbl !! (S n, q / 512));
}.

Lemma level_index_bound n gpa : 0 ≤ level_index n gpa < 512.
Proof. unfold level_index. apply Z.mod_pos_bound. lia. Qed.

Lemma level_shift_S n : level_shift (S n) = level_shift n + 9.
Proof. unfold level_shift. lia. Qed.

Lemma level_prefix_div n gpa : level_prefix (S n) gpa = level_prefix n gpa / 512.
Proof.
  unfold level_prefix. rewrite (level_shift_S (S n)), Z.pow_add_r by (unfold level_shift; lia).
  rewrite <-Z.div_div by (try apply Z.pow_nonzero; unfold level_shift; lia). done.
Qed.

Lemma level_prefix_split n gpa :
  level_prefix n gpa = level_prefix (S n) gpa * 512 + level_index (S n) gpa.
Proof.
  rewrite level_prefix_div. unfold level_index. fold (level_prefix n gpa). zlia.
Qed.

Lemma level_prefix_root gpa : 0 ≤ gpa < 2 ^ 48 → level_prefix 3 gpa = 0.
Proof. intros H. unfold level_prefix. change (level_shift 4) with 48. by apply Z.div_small. Qed.

(** The page of an address is its prefix and index at level 0. *)
Lemma level_page gpa : gpa / 4096 = level_prefix 0 gpa * 512 + level_index 0 gpa.
Proof.
  unfold level_prefix, level_index. change (level_shift 1) with 21. change (level_shift 0) with 12.
  change (2 ^ 12) with 4096. replace (2 ^ 21) with (4096 * 512) by lia.
  rewrite <-Z.div_div by lia. zlia.
Qed.

Lemma split_512 p i p' i' :
  0 ≤ i < 512 → 0 ≤ i' < 512 → p * 512 + i = p' * 512 + i' → p = p' ∧ i = i'.
Proof. lia. Qed.

Section walk.
Context (root : Z) (tbl : gmap (nat * Z) Z) (m : mem) (Hwf : ept_tables_wf root tbl m).

(** The walk follows the tables of [tbl]. *)
Lemma walk_child n p T i :
  tbl !! (S n, p) = Some T → 0 ≤ i < 512 →
  entry_readable (ept_entry m T i) = true → entry_large (S n) (ept_entry m T i) = false →
  tbl !! (n, p * 512 + i) = Some (entry_table (ept_entry m T i)).
Proof. intros HT Hi Hr Hl. pose proof (et_entry _ _ _ Hwf n p T i HT Hi) as H. cbv zeta in H. by rewrite Hr, Hl in H. Qed.

Lemma walk_child_prefix n T gpa :
  tbl !! (S n, level_prefix (S n) gpa) = Some T →
  entry_readable (ept_entry m T (level_index (S n) gpa)) = true →
  entry_large (S n) (ept_entry m T (level_index (S n) gpa)) = false →
  tbl !! (n, level_prefix n gpa) = Some (entry_table (ept_entry m T (level_index (S n) gpa))).
Proof. intros. rewrite level_prefix_split. apply walk_child; auto using level_index_bound. Qed.

(** A table that serves [gpa] is the one its parent points to. *)
Lemma walk_parent n gpa T :
  tbl !! (n, level_prefix n gpa) = Some T → (n < 3)%nat →
  ∃ T', tbl !! (S n, level_prefix (S n) gpa) = Some T' ∧
    let e := ept_entry m T' (level_index (S n) gpa) in
    entry_readable e = true ∧ entry_large (S n) e = false ∧ entry_table e = T.
Proof.
  intros HT Hn. destruct (et_parent _ _ _ Hwf _ _ _ HT) as [->|[T' HT']]; [lia|].
  rewrite <-level_prefix_div in HT'. exists T'. split; [done|]. cbv zeta.
  pose proof (et_entry _ _ _ Hwf n _ T' _ HT' (level_index_bound (S n) gpa)) as He. cbv zeta in He.
  rewrite <-level_prefix_split, HT in He.
  destruct (entry_readable _); [|done]. destruct (entry_large _ _); [done|]. cbn [andb negb] in He.
  split_and!; congruence.
Qed.

(** Two memories with the same entries at the levels of a walk translate alike. *)
Lemma walk_leaf_frame m' n :
  (∀ n' p T i, (n' ≤ n)%nat → tbl !! (n', p) = Some T → 0 ≤ i < 512 →
     ept_entry m' T i = ept_entry m T i) →
  ∀ T gpa, tbl !! (n, level_prefix n gpa) = Some T → walk_leaf n m' T gpa = walk_leaf n m T gpa.
Proof.
  induction n as [|n IH]; intros Hsame T gpa HT; cbn [walk_leaf];
    rewrite (Hsame _ _ _ _ (le_n _) HT (level_index_bound _ gpa)); [done|].
  destruct (entry_readable _) eqn:Hr; [|done]. destruct (entry_large _ _) eqn:Hl; [done|].
  apply IH; [|by apply walk_child_prefix]. intros n' p T' i Hn'. apply Hsame. lia.
Qed.
Lemma ept_walk_frame m' :
  (∀ k T i, tbl !! k = Some T → 0 ≤ i < 512 → ept_entry m' T i = ept_entry m T i) →
  ∀ n T gpa, tbl !! (n, level_prefix n gpa) = Some T → ept_walk n m' T gpa = ept_walk n m T gpa.
Proof.
  intros Hsame n T gpa HT. rewrite !ept_walk_leaf_address. f_equal. apply walk_leaf_frame; [|done].
  intros n' p T' i _. apply Hsame.
Qed.

Lemma ept_tables_wf_frame m' :
  (∀ k T i, tbl !! k = Some T → 0 ≤ i < 512 → ept_entry m' T i = ept_entry m T i) →
  ept_tables_wf root tbl m'.
Proof.
  intros Hsame. destruct Hwf. split; try done.
  intros n p T i HT Hi. rewrite (Hsame _ _ _ HT Hi). by apply et_entry0.
Qed.

(** Writing one entry of a table. *)
Definition entry_written (m' : mem) (T0 i0 e' : Z) : Prop :=
  ept_entry m' T0 i0 = e' ∧
  ∀ k T i, tbl !! k = Some T → 0 ≤ i < 512 → (T, i) ≠ (T0, i0) →
    ept_entry m' T i = ept_entry m T i.

(** A new empty table does not change any translation. *)
Lemma walk_leaf_new_table m' n0 p0 T0 i0 e' :
  tbl !! (S n0, p0) = Some T0 → 0 ≤ i0 < 512 →
  entry_readable (ept_entry m T0 i0) = false → entry_written m' T0 i0 e' →
  entry_large (S n0) e' = false →
  (∀ i, 0 ≤ i < 512 → ept_entry m' (entry_table e') i = 0) →
  ∀ n T gpa, tbl !! (n, level_prefix n gpa) = Some T → walk_leaf n m' T gpa = walk_leaf n m T gpa.
Proof.
  intros HT0 Hi0 Hr0 [He' Hsame] Hl' Hzero n.
  induction n as [|n IH]; intros T gpa HT; cbn [walk_leaf].
  - rewrite (Hsame _ _ _ HT (level_index_bound _ gpa)); [done|]. intros [= -> _].
    pose proof (et_inj _ _ _ Hwf _ _ _ HT HT0). congruence.
  - destruct (decide ((T, level_index (S n) gpa) = (T0, i0))) as [[= -> Hi]|Hne].
    + pose proof (et_inj _ _ _ Hwf _ _ _ HT HT0) as [= -> Hp]. rewrite Hi, He', Hr0, Hl'.
      destruct (entry_readable e'); [|done].
      destruct n0; cbn [walk_leaf]; by rewrite Hzero by apply level_index_bound.
    + rewrite (Hsame _ _ _ HT (level_index_bound _ gpa) Hne).
      destruct (entry_readable (ept_entry m T _)) eqn:Hr; [|done].
      destruct (entry_large _ (ept_entry m T _)) eqn:Hl; [done|].
      apply IH. by apply walk_child_prefix.
Qed.

Lemma ept_walk_new_table m' n0 p0 T0 i0 e' :
  tbl !! (S n0, p0) = Some T0 → 0 ≤ i0 < 512 →
  entry_readable (ept_entry m T0 i0) = false → entry_written m' T0 i0 e' →
  entry_large (S n0) e' = false →
  (∀ i, 0 ≤ i < 512 → ept_entry m' (entry_table e') i = 0) →
  ∀ n T gpa, tbl !! (n, level_prefix n gpa) = Some T → ept_walk n m' T gpa = ept_walk n m T gpa.
Proof. intros. rewrite !ept_walk_leaf_address. f_equal. by eapply walk_leaf_new_table. Qed.

(** The tree with the new table. *)
Lemma ept_tables_wf_new_table m' n0 p0 T0 i0 e' :
  tbl !! (S n0, p0) = Some T0 → 0 ≤ i0 < 512 →
  entry_readable (ept_entry m T0 i0) = false → entry_written m' T0 i0 e' →
  entry_readable e' = true → entry_large (S n0) e' = false → page_ok (entry_table e') →
  (∀ k, tbl !! k ≠ Some (entry_table e')) →
  (∀ i, 0 ≤ i < 512 → ept_entry m' (entry_table e') i = 0) →
  ept_tables_wf root (<[(n0, p0 * 512 + i0) := entry_table e']> tbl) m'.
Proof.
  intros HT0 Hi0 Hr0 [He' Hsame] Hr' Hl' Hok Hfresh Hzero. set (C := entry_table e') in *.
  destruct (et_level _ _ _ Hwf _ _ _ HT0) as [Hp0 Hn0].
  assert (tbl !! (n0, p0 * 512 + i0) = None) as Hnone.
  { pose proof (et_entry _ _ _ Hwf _ _ _ _ HT0 Hi0) as H. cbv zeta in H. by rewrite Hr0 in H. }
  split.
  - rewrite lookup_insert_ne; [apply Hwf|]. intros [= ]. lia.
  - intros n p T. rewrite lookup_insert. case_decide as Hk; [|apply Hwf].
    injection Hk as <- <-. intros _. split; lia.
  - intros k T. rewrite lookup_insert. case_decide; [by intros [= <-]|apply Hwf].
  - intros k k' T. rewrite !lookup_insert.
    case_decide as Hk; case_decide as Hk'; [congruence| | |apply Hwf].
    + intros [= <-] H. by apply Hfresh in H.
    + intros H [= <-]. by apply Hfresh in H.
  - intros n p T i HT Hi e.
    destruct (decide ((S n, p) = (n0, p0 * 512 + i0))) as [[= <- ->]|Hne].
    + rewrite lookup_insert_eq in HT. injection HT as <-. unfold e. rewrite Hzero by done. simpl.
      rewrite lookup_insert_ne by (intros [= ]; lia).
      apply eq_None_not_Some. intros [T' HT'].
      destruct (et_parent _ _ _ Hwf _ _ _ HT') as [->|[T'' HT'']]; [lia|].
      replace (((p0 * 512 + i0) * 512 + i) / 512) with (p0 * 512 + i0) in HT'' by zlia. congruence.
    + rewrite lookup_insert_ne in HT by done.
      destruct (decide ((T, i) = (T0, i0))) as [[= -> ->]|Hne'].
      * pose proof (et_inj _ _ _ Hwf _ _ _ HT HT0) as [= -> ->].
        unfold e. rewrite He', Hr', Hl', lookup_insert_eq. done.
      * unfold e. rewrite (Hsame _ _ _ HT Hi Hne').
        rewrite lookup_insert_ne; [by apply (et_entry _ _ _ Hwf)|].
        intros [= <- Heq]. apply split_512 in Heq as [-> ->]; [|lia..]. congruence.
  - intros n q T. rewrite lookup_insert. case_decide as Hk.
    + injection Hk as <- <-. intros _. right.
      replace ((p0 * 512 + i0) / 512) with p0 by zlia.
      rewrite lookup_insert_ne by (intros [= ]; lia). by rewrite HT0.
    + intros HT. destruct (et_parent _ _ _ Hwf _ _ _ HT) as [?|[T' HT']]; [by left|right].
      rewrite lookup_insert. case_decide; [done|by exists T'].
Qed.

(** * Leaves *)

Lemma walk_path gpa T n :
  tbl !! (0%nat, level_prefix 0 gpa) = Some T → (n ≤ 3)%nat →
  is_Some (tbl !! (n, level_prefix n gpa)).
Proof.
  intros HT. induction n as [|n IH]; intros Hn; [by exists T|].
  destruct IH as [T' HT']; [lia|]. destruct (walk_parent n gpa T' HT') as (T'' & -> & _); [lia|done].
Qed.

(** Writing a leaf changes the translation of the addresses of one page. *)
Lemma walk_leaf_leaf m' p0 T0 i0 e' :
  tbl !! (0%nat, p0) = Some T0 → 0 ≤ i0 < 512 → entry_written m' T0 i0 e' →
  entry_readable e' = true →
  ∀ n T gpa, (n ≤ 3)%nat → tbl !! (n, level_prefix n gpa) = Some T →
    walk_leaf n m' T gpa =
      if gpa / 4096 =? p0 * 512 + i0 then Some (0%nat, e') else walk_leaf n m T gpa.
Proof.
  intros HT0 Hi0 [He' Hsame] Hr' n. induction n as [|n IH]; intros T gpa Hn HT; cbn [walk_leaf].
  - destruct (Z.eqb_spec (gpa / 4096) (p0 * 512 + i0)) as [Heq|Hne].
    + rewrite level_page in Heq. apply split_512 in Heq as [Hp Hi]; [|apply level_index_bound|done].
      rewrite Hp in HT. assert (T = T0) as -> by congruence. by rewrite Hi, He', Hr'.
    + rewrite (Hsame _ _ _ HT (level_index_bound _ gpa)); [done|]. intros [= -> Hi].
      pose proof (et_inj _ _ _ Hwf _ _ _ HT HT0) as [= Hp].
      apply Hne. by rewrite level_page, Hp, Hi.
  - rewrite (Hsame _ _ _ HT (level_index_bound _ gpa)).
    2: { intros [= -> _]. pose proof (et_inj _ _ _ Hwf _ _ _ HT HT0). congruence. }
    destruct (Z.eqb_spec (gpa / 4096) (p0 * 512 + i0)) as [Heq|Hne].
    + assert (tbl !! (0%nat, level_prefix 0 gpa) = Some T0) as HT0'.
      { rewrite level_page in Heq. apply split_512 in Heq as [-> _]; [done|apply level_index_bound|done]. }
      destruct (walk_path gpa T0 n HT0') as [T' HT']; [lia|].
      destruct (walk_parent n gpa T' HT') as (T2 & HT2 & Hr & Hl & Ht); [lia|].
      assert (T2 = T) as -> by congruence. cbv zeta in Hr, Hl, Ht. rewrite Hr, Hl, Ht.
      rewrite IH by (done || lia). apply Z.eqb_eq in Heq. by rewrite Heq.
    + destruct (entry_readable (ept_entry m T _)) eqn:Hr; [|done].
      destruct (entry_large _ (ept_entry m T _)) eqn:Hl; [done|].
      rewrite IH; [|lia|by apply walk_child_prefix]. apply Z.eqb_neq in Hne. by rewrite Hne.
Qed.

Lemma ept_walk_leaf m' p0 T0 i0 e' :
  tbl !! (0%nat, p0) = Some T0 → 0 ≤ i0 < 512 → entry_written m' T0 i0 e' →
  entry_readable e' = true →
  ∀ n T gpa, (n ≤ 3)%nat → tbl !! (n, level_prefix n gpa) = Some T →
    ept_walk n m' T gpa =
      if gpa / 4096 =? p0 * 512 + i0
      then Some (Z.lor (entry_table e') (GUEST_PHYSICAL_ADDRESS_GET_OFFSET gpa))
      else ept_walk n m T gpa.
Proof.
  intros HT0 Hi0 Hw Hr' n T gpa Hn HT. rewrite !ept_walk_leaf_address.
  rewrite (walk_leaf_leaf m' p0 T0 i0 e') by done. by case_match.
Qed.

Lemma ept_tables_wf_leaf m' p0 T0 i0 e' :
  tbl !! (0%nat, p0) = Some T0 → 0 ≤ i0 < 512 → entry_written m' T0 i0 e' →
  ept_tables_wf root tbl m'.
Proof.
  intros HT0 Hi0 [He' Hsame]. destruct Hwf. split; try done.
  intros n p T i HT Hi. rewrite (Hsame _ _ _ HT Hi); [by apply et_entry0|].
  intros [= -> ->]. pose proof (et_inj0 _ _ _ HT HT0). congruence.
Qed.

End walk.

(** * A root without entries *)

Lemma ept_tables_wf_root root m :
  page_ok root → (∀ i, 0 ≤ i < 512 → ept_entry m root i = 0) →
  ept_tables_wf root {[(3%nat, 0) := root]} m.
Proof.
  intros Hok Hzero. split.
  - apply lookup_singleton_eq.
  - intros n p T [[= <- <-] _]%lookup_singleton_Some. split; [done|by right].
  - intros k T [<- <-]%lookup_singleton_Some. done.
  - intros k k' T [<- <-]%lookup_singleton_Some [<- _]%lookup_singleton_Some. done.
  - intros n p T i [[= <- <-] <-]%lookup_singleton_Some Hi e. unfold e. rewrite Hzero by done. simpl.
    apply lookup_singleton_None. intros [= ].
  - intros n q T [[= <- <-] _]%lookup_singleton_Some. by left.
Qed.

Lemma walk_leaf_root root m gpa :
  (∀ i, 0 ≤ i < 512 → ept_entry m root i = 0) → walk_leaf 3 m root gpa = None.
Proof. intros H. cbn [walk_leaf]. by rewrite H by apply level_index_bound. Qed.

Lemma ept_walk_root root m gpa :
  (∀ i, 0 ≤ i < 512 → ept_entry m root i = 0) → ept_walk 3 m root gpa = None.
Proof. intros H. cbn [ept_walk]. by rewrite H by apply level_index_bound. Qed.

(** A table that serves [gpa] is on the walk from the root. *)
Lemma walk_leaf_from_root root tbl m gpa n T :
  ept_tables_wf root tbl m → 0 ≤ gpa < 2 ^ 48 → (n ≤ 3)%nat →
  tbl !! (n, level_prefix n gpa) = Some T → walk_leaf 3 m root gpa = walk_leaf n m T gpa.
Proof.
  intros Hwf Hgpa Hn. remember (3 - n)%nat as d eqn:Hd. revert n T Hn Hd.
  induction d as [|d IH]; intros n T Hn Hd HT.
  - assert (n = 3%nat) as -> by lia. rewrite level_prefix_root, (et_root _ _ _ Hwf) in HT by done.
    by injection HT as ->.
  - destruct (walk_parent _ _ _ Hwf n gpa T HT) as (T' & HT' & Hr & Hl & <-); [lia|].
    cbv zeta in Hr, Hl. rewrite (IH (S n) T') by (done || lia). cbn [walk_leaf]. by rewrite Hr, Hl.
Qed.
Lemma ept_walk_from_root root tbl m gpa n T :
  ept_tables_wf root tbl m → 0 ≤ gpa < 2 ^ 48 → (n ≤ 3)%nat →
  tbl !! (n, level_prefix n gpa) = Some T → ept_walk 3 m root gpa = ept_walk n m T gpa.
Proof. intros. rewrite !ept_walk_leaf_address. f_equal. by eapply walk_leaf_from_root. Qed.
