(* ===== verification/EptCorrect.v ===== *)
(** Correctness of the EPT of a virtual machine.

    The abstract specification of the EPT of a VM is a partial function from
    guest-physical to host-physical addresses, [ept_translate]. The theorems show that
    [vmx_ept_get_host_physical_address] computes it, that [vmx_ept_map_page] adds one
    page to it or panics when the page is already mapped, and that
    [vmx_ept_create_identity_mapping] makes it the identity below 512 GiB. *)
From S2P Require Import Prelude Memory Machine SimpleCpu PageUse PageAllocator Arena.
From S2P Require Import VmTracking VmxPages VmxEpt VmxEptSpec.

Section invariant.
Context `{HW : Hardware}.
Implicit Types (s : machine).

Definition ept_initialized (v : vm_t) : bool :=
  truthy (Z.land (vm_flags v) VM_T_FLAG_EPT_PML4_INITIALIZED).

(** The translation of guest-physical addresses of a VM. *)
Definition ept_translate (v : vm_t) (m : mem) (gpa : Z) : option Z :=
  if ept_initialized v then ept_walk 3 m (eptp (vm_vmcs_config v)) gpa else None.

Definition page_zero (m : mem) (p : Z) : Prop :=
  ∀ a, p ≤ a < p + PAGE_SIZE → load_byte m a = 0.

Abbreviation ept_pages v := (pages_of VM_PAGE_TYPE_EPT false (vm_tracked_pages v)).
Abbreviation reserved_ept_pages v := (pages_of VM_PAGE_TYPE_EPT true (vm_tracked_pages v)).

(** The tables are tracked EPT pages of the VM, and its reserved EPT pages are empty. *)
Record vm_ept_wf (tbl : gmap (nat * Z) Z) (v : vm_t) (m : mem) : Prop := {
  ve_tables : ept_initialized v = true → ept_tables_wf (eptp (vm_vmcs_config v)) tbl m;
  ve_empty : ept_initialized v = false → tbl = ∅;
  ve_tracked k T : tbl !! k = Some T → T ∈ ept_pages v;
  ve_reserved p : p ∈ reserved_ept_pages v → page_zero m p;
}.

(** What the operations on the EPT may change of a VM. *)
Record vm_frame (v v' : vm_t) : Prop := {
  vf_eq : v' = v <| vm_tracked_pages := vm_tracked_pages v' |>
                 <| vm_vmcs_config := (vm_vmcs_config v) <| eptp := eptp (vm_vmcs_config v') |> |>
                 <| vm_flags := vm_flags v' |>;
  vf_flags : vm_flags v' = vm_flags v ∨
             vm_flags v' = Z.lor (vm_flags v) VM_T_FLAG_EPT_PML4_INITIALIZED;
  vf_guest res : pages_of VM_PAGE_TYPE_GUEST_PHYSICAL res (vm_tracked_pages v') =
                 pages_of VM_PAGE_TYPE_GUEST_PHYSICAL res (vm_tracked_pages v);
  vf_ept p : p ∈ ept_pages v → p ∈ ept_pages v';
}.

(** What they may change of the machine: of memory, only EPT pages of the VM, and the
    pages of [extra] that are about to become EPT pages. *)
Record ept_frame (extra : list Z) (vm : Z) (v v' : vm_t) (s s' : machine) : Prop := {
  ef_eq : s' = s <| m_mem := m_mem s' |>
                 <| m_last_returned_region_index := m_last_returned_region_index s' |>
                 <| m_last_returned_page_index := m_last_returned_page_index s' |>
                 <| m_arenas := m_arenas s' |>
                 <| m_vms := <[vm := v']> (m_vms s) |>;
  ef_vm : vm_frame v v';
  ef_mem a : (∀ p, p ∈ extra ++ ept_pages v' → ¬ (p ≤ a < p + PAGE_SIZE)) →
    load_byte (m_mem s') a = load_byte (m_mem s) a;
  ef_all p : p ∈ all_pages (vm_tracked_pages v) → p ∈ extra ++ all_pages (vm_tracked_pages v');
}.

Lemma vm_frame_refl v : vm_frame v v.
Proof. split; auto. by destruct v as [? ? ? ? [] ? ? ? ? ? ?]. Qed.

Lemma lor_flag_idem f : Z.lor (Z.lor f VM_T_FLAG_EPT_PML4_INITIALIZED) VM_T_FLAG_EPT_PML4_INITIALIZED =
  Z.lor f VM_T_FLAG_EPT_PML4_INITIALIZED.
Proof. by rewrite <-Z.lor_assoc, Z.lor_diag. Qed.

Lemma vm_frame_trans v1 v2 v3 : vm_frame v1 v2 → vm_frame v2 v3 → vm_frame v1 v3.
Proof.
  intros [E1 F1 G1 P1] [E2 F2 G2 P2]. split.
  - rewrite E2 at 1. rewrite E1. done.
  - destruct F1 as [F1|F1], F2 as [F2|F2]; rewrite F2, F1; rewrite ?lor_flag_idem; auto.
  - intros res. by rewrite G2.
  - auto.
Qed.

Lemma ept_frame_refl extra vm v s : m_vms s !! vm = Some v → ept_frame extra vm v v s s.
Proof.
  intros Hv. split; [|apply vm_frame_refl|done|by intros p Hp; apply elem_of_app; right].
  destruct s; simpl in *. unfold upd. simpl.
  by rewrite insert_id.
Qed.

Lemma ept_frame_trans extra extra' vm v1 v2 v3 s1 s2 s3 :
  ept_frame extra vm v1 v2 s1 s2 → ept_frame extra' vm v2 v3 s2 s3 →
  (∀ p, p ∈ extra → p ∈ extra' ++ ept_pages v3) → ept_frame extra' vm v1 v3 s1 s3.
Proof.
  intros [E1 F1 M1 A1] [E2 F2 M2 A2] Hp. split; [|by eapply vm_frame_trans| |].
  - rewrite E2 at 1. rewrite E1. simpl. by rewrite insert_insert_eq.
  - intros a Ha. rewrite M2 by done. apply M1. intros p Hin. apply elem_of_app in Hin as [Hin|Hin].
    + by apply Ha, Hp.
    + apply Ha, elem_of_app. right. by apply (vf_ept _ _ F2).
  - intros p Hin. apply A1, elem_of_app in Hin as [Hin|Hin]; [|by apply A2].
    apply Hp, elem_of_app in Hin as [Hin|Hin]; apply elem_of_app; [by left|right].
    by eapply pages_of_subset.
Qed.

Lemma ept_frame_trans_nil vm v1 v2 v3 s1 s2 s3 :
  ept_frame [] vm v1 v2 s1 s2 → ept_frame [] vm v2 v3 s2 s3 → ept_frame [] vm v1 v3 s1 s3.
Proof. intros H1 H2. eapply ept_frame_trans; [done..|]. by intros p ?%elem_of_nil. Qed.

Lemma ept_frame_vms extra vm v v' s s' :
  ept_frame extra vm v v' s s' → m_vms s' = <[vm := v']> (m_vms s).
Proof. intros [-> _ _ _]. done. Qed.
Lemma ept_frame_lookup extra vm v v' s s' :
  ept_frame extra vm v v' s s' → m_vms s' !! vm = Some v'.
Proof. intros H. rewrite (ept_frame_vms _ _ _ _ _ _ H). apply lookup_insert_eq. Qed.

(** Everything that is known of the machine and of one VM between two operations. *)
Record ept_inv (la lv : list Z) (vm : Z) (v : vm_t) (tbl : gmap (nat * Z) Z) (s : machine) : Prop := {
  ei_vmm : vmm_wf la lv s;
  ei_vm : vm ∈ lv;
  ei_lookup : m_vms s !! vm = Some v;
  ei_ept : vm_ept_wf tbl v (m_mem s);
}.

(** * Pages *)

Lemma page_ok_disjoint p q a :
  page_ok p → page_ok q → p ≠ q → p ≤ a < p + PAGE_SIZE → ¬ (q ≤ a < q + PAGE_SIZE).
Proof. unfold page_ok, PAGE_SIZE. intros [? ?] [? ?] ? ? ?. zlia. Qed.

Lemma ept_entry_ext m m' T i :
  0 ≤ i < 512 → (∀ a, T ≤ a < T + PAGE_SIZE → load_byte m' a = load_byte m a) →
  ept_entry m' T i = ept_entry m T i.
Proof. unfold PAGE_SIZE. intros Hi H. apply load_le_ext. intros a Ha. apply H. lia. Qed.

Lemma ept_entry_zero m p i : 0 ≤ i < 512 → page_zero m p → ept_entry m p i = 0.
Proof.
  intros Hi Hz. unfold ept_entry. replace 0 with (load_le 8 (memset ∅ p 0 PAGE_SIZE) (p + 8 * i)).
  - apply load_le_ext. unfold page_zero, PAGE_SIZE in *. intros a Ha.
    rewrite load_byte_memset, decide_True by lia. apply Hz. lia.
  - apply load_memset_zero; unfold PAGE_SIZE; lia.
Qed.

Lemma tracked_page_ok la lv s vm v ty res p :
  vmm_wf la lv s → vm ∈ lv → m_vms s !! vm = Some v →
  p ∈ pages_of ty res (vm_tracked_pages v) → page_ok p.
Proof.
  intros Hwf Hvm Hv Hp%pages_of_subset. eapply all_pages_ok; [|done].
  apply (vw_tracked _ _ _ Hwf vm v Hvm Hv).
Qed.

(** Memory that changes outside of the pages of the VM keeps its EPT. *)
Lemma vm_ept_wf_mem la lv s vm v tbl m' :
  vmm_wf la lv s → vm ∈ lv → m_vms s !! vm = Some v → vm_ept_wf tbl v (m_mem s) →
  (∀ p a, p ∈ all_pages (vm_tracked_pages v) → p ≤ a < p + PAGE_SIZE →
     load_byte m' a = load_byte (m_mem s) a) →
  vm_ept_wf tbl v m' ∧
  ∀ gpa, 0 ≤ gpa < 2 ^ 48 → ept_translate v m' gpa = ept_translate v (m_mem s) gpa.
Proof.
  intros Hwf Hvm Hv [Ht He Htr Hr] Hm.
  assert (∀ k T i, tbl !! k = Some T → 0 ≤ i < 512 → ept_entry m' T i = ept_entry (m_mem s) T i)
    as Hsame.
  { intros k T i HT Hi. apply ept_entry_ext; [done|]. intros a. apply Hm.
    by eapply pages_of_subset, Htr. }
  split.
  - split; [|done..|].
    + intros Hi. by eapply ept_tables_wf_frame; [apply Ht|].
    + intros p Hp a Ha. rewrite (Hm p); [by eapply Hr|by eapply pages_of_subset|done].
  - intros gpa Hgpa. unfold ept_translate. destruct (ept_initialized v) eqn:Hi; [|done].
    eapply ept_walk_frame; [by apply Ht|done|].
    rewrite level_prefix_root by done. apply (et_root _ _ _ (Ht eq_refl)).
Qed.

End invariant.

Section allocation.
Context `{HW : Hardware}.
Implicit Types (s : machine).
Abbreviation ept_pages v := (pages_of VM_PAGE_TYPE_EPT false (vm_tracked_pages v)).

(** The translation of a VM is kept. *)
Definition translate_kept (v v' : vm_t) (s s' : machine) : Prop :=
  ∀ gpa, 0 ≤ gpa < 2 ^ 48 → ept_translate v' (m_mem s') gpa = ept_translate v (m_mem s) gpa.

Lemma ept_frame_new_memory p vm v s c m' :
  m_vms s !! vm = Some v →
  (∀ a, ¬ (p ≤ a < p + PAGE_SIZE) → load_byte m' a = load_byte (m_mem s) a) →
  ept_frame [p] vm v v s ((set_last_returned c s) <| m_mem := m' |>).
Proof.
  intros Hv Hm. split; [|apply vm_frame_refl| |by intros q Hq; apply elem_of_app; right].
  - destruct s; simpl in *. unfold upd. simpl. by rewrite insert_id.
  - intros a Ha. apply Hm, Ha, elem_of_app. left. by left.
Qed.

(** A page for a table: it belongs to nobody, is zeroed, and the EPT is as before. *)
Lemma wp_ept_page_from_pool_or_free la lv vm v tbl E (Q : Z → machine → Prop) s :
  ept_inv la lv vm v tbl s → E "OOM :("%string →
  (∀ p v' s', page_ok p → page_unowned la lv p s' → page_zero (m_mem s') p →
     ept_inv la lv vm v' tbl s' → ept_frame [p] vm v v' s s' → translate_kept v v' s s' →
     (∀ a, ¬ (p ≤ a < p + PAGE_SIZE) → load_byte (m_mem s') a = load_byte (m_mem s) a) →
     vm_vmcs_config v' = vm_vmcs_config v → vm_flags v' = vm_flags v → Q (P2V_IDENTITY_MAP p) s') →
  wp (ept_page_from_pool_or_free vm) E Q s.
Proof.
  intros [Hwf Hvm Hv Hept] HE HQ. unfold ept_page_from_pool_or_free. wp_step.
  unfold vm_manager_untrack_ept_page_from_reserved_pool. wp_step.
  eapply wp_vm_manager_untrack_page; [done..| |]; cbv zeta.
  - intros _. apply wp_ret. eapply wp_vmx_get_free_ept_page; [done..|]. cbv zeta.
    intros p c Hok Hun Hpc Hc Hwf'.
    destruct (vm_ept_wf_mem la lv s vm v tbl (memset (m_mem s) p 0 PAGE_SIZE)) as [Hept' Htr];
      [done..| |].
    { intros q a Hq Ha. rewrite load_byte_memset, decide_False; [done|]. intros Hp.
      apply (page_ok_disjoint q p a); [|done| |done..].
      - eapply all_pages_ok; [|done]. apply (vw_tracked _ _ _ Hwf vm v Hvm Hv).
      - intros ->. by apply (proj2 Hun vm v Hvm Hv). }
    apply (HQ p v); [done|by split; apply Hun| | | |exact Htr| |done|done].
    + intros a Ha. simpl. by rewrite load_byte_memset, decide_True.
    + by split.
    + apply ept_frame_new_memory; [done|]. intros a Ha. by rewrite load_byte_memset, decide_False.
    + intros a Ha. simpl. by rewrite load_byte_memset, decide_False.
  - intros p l' Hadd Hok Hwf' Hun. apply wp_ret. apply wp_ret.
    pose proof Hadd as (Hres & _ & Hothers). pose proof Hept as [Ht He Htr Hr].
    apply (HQ p (v <| vm_tracked_pages := l' |>)); [done|done| | | |done..].
    + simpl. apply Hr. rewrite Hres. by left.
    + split; [done|done|apply lookup_insert_eq|]. split; [done|done| |].
      * intros k T HT. simpl. rewrite <-(Hothers VM_PAGE_TYPE_EPT false) by done. by eapply Htr.
      * intros q Hq. simpl in *. apply Hr. rewrite Hres. by right.
    + split; [by destruct s| |done|]; [split|].
      * by destruct v as [? ? ? ? [] ? ? ? ? ? ?].
      * by left.
      * intros res. simpl. by rewrite <-(Hothers VM_PAGE_TYPE_GUEST_PHYSICAL res).
      * intros q Hq. simpl. by rewrite <-(Hothers VM_PAGE_TYPE_EPT false).
      * intros q Hq. destruct Hadd as (_ & Hall & _). simpl. rewrite Hall in Hq.
        apply elem_of_cons in Hq as [->|Hq]; [left|by right].
Qed.

(** A page that belongs to nobody becomes an EPT page of the VM. *)
Lemma wp_vm_manager_track_ept_page la lv vm v tbl p E (Q : () → machine → Prop) s :
  ept_inv la lv vm v tbl s → page_ok p → page_unowned la lv p s →
  E "subarenas not supported right now"%string →
  (∀ v' s', ept_inv la lv vm v' tbl s' → ept_frame [] vm v v' s s' → p ∈ ept_pages v' →
     m_mem s' = m_mem s → vm_vmcs_config v' = vm_vmcs_config v → vm_flags v' = vm_flags v → Q () s') →
  wp (vm_manager_track_ept_page vm (P2V_IDENTITY_MAP p)) E Q s.
Proof.
  intros [Hwf Hvm Hv Hept] Hok Hun HE HQ. unfold vm_manager_track_ept_page.
  rewrite V2P_P2V_page by done.
  eapply wp_vm_manager_track_page; [done..|]. cbv zeta. intros heap l' Hadd Hwf'.
  pose proof Hadd as (Hept' & _ & Hothers). pose proof Hept as [Ht He Htr Hr].
  apply (HQ (v <| vm_tracked_pages := l' |>)); [| |simpl; rewrite Hept'; by left|done..].
  - split; [done|done|apply lookup_insert_eq|]. split; [done|done| |].
    + intros k T HT. simpl. rewrite Hept'. right. by eapply Htr.
    + intros q Hq. simpl in Hq |- *. rewrite (Hothers VM_PAGE_TYPE_EPT true) in Hq by done. by apply Hr.
  - split; [by destruct s| |done|]; [split|].
    + by destruct v as [? ? ? ? [] ? ? ? ? ? ?].
    + by left.
    + intros res. simpl. by rewrite (Hothers VM_PAGE_TYPE_GUEST_PHYSICAL res).
    + intros q Hq. simpl. rewrite Hept'. by right.
    + intros q Hq. destruct Hadd as (_ & Hall & _). simpl. rewrite Hall. by right.
Qed.

(** The page of the new table is none of the tables. *)
Lemma unowned_fresh_table la lv vm v tbl s p k :
  ept_inv la lv vm v tbl s → page_unowned la lv p s → tbl !! k ≠ Some p.
Proof.
  intros [Hwf Hvm Hv Hept] [_ Hun] HT. apply (Hun vm v Hvm Hv).
  eapply pages_of_subset, (ve_tracked _ _ _ Hept), HT.
Qed.

End allocation.

(** * One level of the tables *)

(** The entry for the page [x]. *)
Definition rwx_entry (x : Z) : Z :=
  Z.lor (Z.lor (Z.lor EPT_PTE_READ EPT_PTE_WRITE) EPT_PTE_EXECUTE)
        (Z.land x EPT_PTE_PHYSICAL_ADDRESS_PAGE).

Lemma land_ept_mask_bound x :
  ∃ k, Z.land x EPT_PTE_PHYSICAL_ADDRESS_PAGE = k * 4096 ∧ 0 ≤ k < 2 ^ 40.
Proof.
  exists ((x / 2 ^ 12) mod 2 ^ 40). split; [apply (land_PTE_PHYSICAL_ADDRESS_PAGE x)|].
  apply Z.mod_pos_bound. lia.
Qed.

Lemma rwx_entry_add x : rwx_entry x = Z.land x EPT_PTE_PHYSICAL_ADDRESS_PAGE + 7.
Proof.
  destruct (land_ept_mask_bound x) as (k & Hk & ?). unfold rwx_entry.
  rewrite (lor_disjoint_l 12); [done|lia| |by vm_compute]. rewrite Hk. apply Z.mod_mul. lia.
Qed.

Lemma rwx_entry_bound x : 0 ≤ rwx_entry x < 256 ^ 8.
Proof. rewrite rwx_entry_add. destruct (land_ept_mask_bound x) as (k & -> & ?). lia. Qed.

Lemma rwx_entry_readable x : entry_readable (rwx_entry x) = true.
Proof.
  unfold entry_readable, truthy. rewrite rwx_entry_add.
  change EPT_PTE_READ with (Z.ones 1). rewrite Z.land_ones by lia.
  destruct (land_ept_mask_bound x) as (k & -> & ?).
  replace ((k * 4096 + 7) mod 2 ^ 1) with 1; [done|]. zlia.
Qed.

Lemma rwx_entry_large x n : entry_large n (rwx_entry x) = false.
Proof.
  assert (truthy (Z.land (rwx_entry x) EPT_PDE_PAGE_SIZE) = false) as H; [|by destruct n as [|[|[|]]]].
  unfold truthy. rewrite rwx_entry_add. destruct (land_ept_mask_bound x) as (k & -> & ?).
  assert (Z.land (k * 4096 + 7) EPT_PDE_PAGE_SIZE = 0) as ->; [|done].
  rewrite (land_mask_range 7 1) by lia. replace ((k * 4096 + 7) / 2 ^ 7) with (k * 32) by zlia.
  replace ((k * 32) mod 2 ^ 1) with 0 by zlia. done.
Qed.

Lemma rwx_entry_table x :
  entry_table (rwx_entry x) = Z.land x EPT_PTE_PHYSICAL_ADDRESS_PAGE.
Proof.
  unfold entry_table. rewrite rwx_entry_add. destruct (land_ept_mask_bound x) as (k & -> & ?).
  rewrite (land_mask_range 12 40) by lia.
  replace ((k * 4096 + 7) / 2 ^ 12) with k by zlia. rewrite Z.mod_small by lia. lia.
Qed.

Lemma entry_table_page x : page_ok x → Z.land x EPT_PTE_PHYSICAL_ADDRESS_PAGE = x.
Proof. apply page_ok_mask. Qed.

(** Storing an entry changes it, and no entry of another page. *)
Lemma ept_store_written (tbl : gmap (nat * Z) Z) m T0 i0 e :
  (∀ k T, tbl !! k = Some T → page_ok T) → page_ok T0 → 0 ≤ i0 < 512 → 0 ≤ e < 256 ^ 8 →
  entry_written tbl m (store_le 8 m (T0 + 8 * i0) e) T0 i0 e.
Proof.
  intros Hok Hok0 Hi0 He. split; [by apply (load_store_same_small 8)|].
  intros k T i HT Hi Hne. apply load_store_other. specialize (Hok _ _ HT).
  destruct (decide (T = T0)) as [->|HT0].
  - destruct (decide (i = i0)); [congruence|]. lia.
  - destruct Hok, Hok0. unfold PAGE_SIZE in *. zlia.
Qed.

Lemma ept_store_outside m T0 i0 e a :
  page_ok T0 → 0 ≤ i0 < 512 → ¬ (T0 ≤ a < T0 + PAGE_SIZE) →
  load_byte (store_le 8 m (T0 + 8 * i0) e) a = load_byte m a.
Proof. unfold PAGE_SIZE. intros ???. apply load_byte_store_other. lia. Qed.

Section levels.
Context `{HW : Hardware}.
Implicit Types (s : machine).
Abbreviation ept_pages v := (pages_of VM_PAGE_TYPE_EPT false (vm_tracked_pages v)).

(** The body of [vmx_ept_map_page] for one level: the next table of the walk, which is
    created when the entry [e] of the table is not readable. *)
Definition ept_next_table (check_large : bool) (vm table i e : Z) : M machine Z :=
  if truthy (Z.land e EPT_PTE_READ) then
    if check_large then
      if truthy (Z.land e EPT_PDE_PAGE_SIZE) then mpanic already_mapped_panic_str
      else mret (P2V_IDENTITY_MAP (Z.land e EPT_PTE_PHYSICAL_ADDRESS_PAGE))
    else mret (P2V_IDENTITY_MAP (Z.land e EPT_PTE_PHYSICAL_ADDRESS_PAGE))
  else
    next ← ept_page_from_pool_or_free vm;
    vm_manager_track_ept_page vm next;;
    deref_store 8 (ptr64 table i) (rwx_entry (V2P_IDENTITY_MAP next));;
    mret next.

Lemma ept_frame_memory vm v s m' :
  m_vms s !! vm = Some v →
  (∀ a, (∀ p, p ∈ ept_pages v → ¬ (p ≤ a < p + PAGE_SIZE)) → load_byte m' a = load_byte (m_mem s) a) →
  ept_frame [] vm v v s (s <| m_mem := m' |>).
Proof.
  intros Hv Hm. split; [|apply vm_frame_refl|exact Hm|done].
  destruct s; simpl in *. unfold upd. simpl. by rewrite insert_id.
Qed.

(** Writing the entry of a table of the VM that nothing but the EPT depends on. *)
Lemma ept_frame_store vm v s T i e :
  m_vms s !! vm = Some v → page_ok T → T ∈ ept_pages v → 0 ≤ i < 512 →
  ept_frame [] vm v v s (s <| m_mem := store_le 8 (m_mem s) (T + 8 * i) e |>).
Proof.
  intros Hv Hok HT Hi. apply ept_frame_memory; [done|].
  intros a Ha. apply ept_store_outside; [done..|]. by apply Ha.
Qed.

(** A page that is not a table keeps its bytes when a table is written. *)
Lemma ept_store_reserved la lv vm v tbl s T i e p :
  ept_inv la lv vm v tbl s → T ∈ ept_pages v → 0 ≤ i < 512 →
  p ∈ pages_of VM_PAGE_TYPE_EPT true (vm_tracked_pages v) →
  page_zero (store_le 8 (m_mem s) (T + 8 * i) e) p.
Proof.
  intros [Hwf Hvm Hv Hept] HT Hi Hp a Ha.
  assert (page_ok T) as HTok by by eapply tracked_page_ok.
  assert (page_ok p) as Hpok by by eapply tracked_page_ok.
  rewrite ept_store_outside; [by eapply (ve_reserved _ _ _ Hept)|done|done|].
  apply (page_ok_disjoint p T a); try done. intros ->.
  pose proof (tr_nodup _ (vw_tracked _ _ _ Hwf vm v Hvm Hv)) as Hnd.
  by eapply (pages_of_disjoint _ VM_PAGE_TYPE_EPT true VM_PAGE_TYPE_EPT false).
Qed.

(** The state after an entry of a table of the VM was made to point to a new table. *)
Lemma ept_inv_new_table la lv vm v tbl s n gpa T p :
  ept_inv la lv vm v tbl s → ept_initialized v = true → 0 ≤ gpa < 2 ^ 48 →
  tbl !! (S n, level_prefix (S n) gpa) = Some T →
  entry_readable (ept_entry (m_mem s) T (level_index (S n) gpa)) = false →
  page_ok p → p ∈ ept_pages v → page_zero (m_mem s) p → (∀ k, tbl !! k ≠ Some p) →
  let s' := s <| m_mem := store_le 8 (m_mem s) (T + 8 * level_index (S n) gpa) (rwx_entry p) |> in
  ept_inv la lv vm v (<[(n, level_prefix n gpa) := p]> tbl) s' ∧
  ept_frame [] vm v v s s' ∧ translate_kept v v s s'.
Proof.
  intros Hinv Hi Hgpa HT Hr Hok Hp Hzero Hfresh s'.
  pose proof Hinv as [Hwf Hvm Hv Hept]. pose proof (ve_tables _ _ _ Hept Hi) as Htbl.
  pose proof (ve_tracked _ _ _ Hept _ _ HT) as HTin. pose proof (et_page _ _ _ Htbl _ _ HT) as HTok.
  pose proof (level_index_bound (S n) gpa) as Hidx.
  assert (entry_written tbl (m_mem s) (m_mem s') T (level_index (S n) gpa) (rwx_entry p)) as Hw.
  { apply ept_store_written; [apply (et_page _ _ _ Htbl)|done|done|apply rwx_entry_bound]. }
  assert (entry_table (rwx_entry p) = p) as Hpt by by rewrite rwx_entry_table, entry_table_page.
  assert (∀ i, 0 ≤ i < 512 → ept_entry (m_mem s') (entry_table (rwx_entry p)) i = 0) as Hz.
  { intros i Hi'. rewrite Hpt, <-(ept_entry_zero (m_mem s) p i Hi' Hzero).
    apply ept_entry_ext; [done|]. intros a Ha. apply ept_store_outside; [done..|].
    apply (page_ok_disjoint p T a); [done..| |done]. intros ->. by apply (Hfresh (S n, level_prefix (S n) gpa)). }
  split; [|split].
  - split; [by apply vmm_wf_mem|done|done|]. split.
    + intros _. rewrite level_prefix_split, <-Hpt.
      eapply ept_tables_wf_new_table; eauto using rwx_entry_readable, rwx_entry_large;
        rewrite Hpt; done.
    + by rewrite Hi.
    + intros k T'. rewrite lookup_insert. case_decide; [by intros [= <-]|apply (ve_tracked _ _ _ Hept)].
    + intros q Hq. by eapply ept_store_reserved.
  - by apply ept_frame_store.
  - intros gpa' Hgpa'. unfold ept_translate. rewrite Hi.
    eapply ept_walk_new_table; eauto using rwx_entry_large.
    rewrite level_prefix_root by done. apply (et_root _ _ _ Htbl).
Qed.

(** One level of [vmx_ept_map_page]: it gives the next table of the walk, creating it
    when needed without changing any translation, and panics on a large page. *)
Lemma wp_ept_next_table la lv vm v tbl E (Q : Z → machine → Prop) s check n gpa T :
  ept_inv la lv vm v tbl s → ept_initialized v = true → 0 ≤ gpa < 2 ^ 48 →
  (n ≤ 2)%nat → check = (n <=? 1)%nat →
  tbl !! (S n, level_prefix (S n) gpa) = Some T →
  E "OOM :("%string → E "subarenas not supported right now"%string →
  (is_Some (ept_translate v (m_mem s) gpa) → E already_mapped_panic_str) →
  (∀ v' tbl' s' T', ept_inv la lv vm v' tbl' s' → ept_initialized v' = true →
     ept_frame [] vm v v' s s' → translate_kept v v' s s' →
     tbl' !! (n, level_prefix n gpa) = Some T' → Q (P2V_IDENTITY_MAP T') s') →
  wp (ept_next_table check vm (P2V_IDENTITY_MAP T) (level_index (S n) gpa)
        (ept_entry (m_mem s) T (level_index (S n) gpa))) E Q s.
Proof.
  intros Hinv Hi Hgpa Hn Hc HT HE1 HE2 HE3 HQ.
  pose proof Hinv as [Hwf Hvm Hv Hept]. pose proof (ve_tables _ _ _ Hept Hi) as Htbl.
  set (i := level_index (S n) gpa). set (e := ept_entry (m_mem s) T i). unfold ept_next_table.
  change (truthy (Z.land e EPT_PTE_READ)) with (entry_readable e).
  destruct (entry_readable e) eqn:Hr.
  { assert (entry_large (S n) e = false →
      wp (mret (P2V_IDENTITY_MAP (Z.land e EPT_PTE_PHYSICAL_ADDRESS_PAGE))) E Q s) as Hgo.
    { intros Hl. apply wp_ret. eapply HQ; [done|done|by apply ept_frame_refl|done|].
      by apply (walk_child_prefix _ _ _ Htbl). }
    assert (ept_walk 3 (m_mem s) (eptp (vm_vmcs_config v)) gpa = ept_walk (S n) (m_mem s) T gpa)
      as Hroot by (by apply (ept_walk_from_root _ tbl); [..|lia|]).
    destruct n as [|[|[|n]]]; subst check; cbn [Nat.leb]; [| |by apply Hgo|lia];
      (destruct (truthy (Z.land e EPT_PDE_PAGE_SIZE)) eqn:Hl; [|by apply Hgo]);
      apply wp_panic, HE3; unfold ept_translate; rewrite Hi;
      rewrite Hroot; cbn [ept_walk entry_large]; fold i e; by rewrite Hr, Hl. }
  wp_step. eapply wp_ept_page_from_pool_or_free; [done|done|].
  intros p v1 s1 Hok Hun Hzero Hinv1 Hf1 Htr1 Hm1 Hcfg1 Hfl1.
  wp_step. eapply wp_vm_manager_track_ept_page; [done..|].
  intros v2 s2 Hinv2 Hf2 Hp2 Hm2 Hcfg2 Hfl2. wp_step.
  assert (∀ k, tbl !! k ≠ Some p) as Hfresh by (intros k; exact (unowned_fresh_table _ _ _ _ _ _ _ _ Hinv1 Hun)).
  assert (page_ok T) as HTok by apply (et_page _ _ _ Htbl _ _ HT).
  assert (ept_initialized v2 = true) as Hi2 by (unfold ept_initialized in *; congruence).
  assert (entry_readable (ept_entry (m_mem s2) T i) = false) as Hr2.
  { rewrite Hm2, <-Hr. f_equal. apply ept_entry_ext; [apply level_index_bound|].
    intros a Ha. apply Hm1. intros Hap. apply (page_ok_disjoint T p a); [done..| |done|done].
    intros ->. by apply (Hfresh (S n, level_prefix (S n) gpa)). }
  destruct (ept_inv_new_table la lv vm v2 tbl s2 n gpa T p) as (Hinv3 & Hf3 & Htr3);
    [done..|by rewrite Hm2|done|].
  rewrite V2P_P2V_page by done. apply wp_store64; [done|apply level_index_bound|]. apply wp_ret.
  eapply HQ; [exact Hinv3|done| | |apply lookup_insert_eq].
  - eapply ept_frame_trans; [|exact Hf3|by intros ? ?%elem_of_nil].
    eapply ept_frame_trans; [exact Hf1|exact Hf2|]. intros q ->%list_elem_of_singleton. done.
  - intros g Hg. rewrite Htr3, <-Htr1 by done. unfold ept_translate, ept_initialized.
    by rewrite Hm2, Hcfg2, Hfl2.
Qed.

End levels.

(** * vmx_ept_map_page *)

Lemma GET_PML4_level gpa : GUEST_PHYSICAL_ADDRESS_GET_PML4 gpa = level_index 3 gpa.
Proof. apply LINEAR_ADDRESS_GET_PML4_spec. Qed.
Lemma GET_DIRECTORY_PTR_level gpa : GUEST_PHYSICAL_ADDRESS_GET_DIRECTORY_PTR gpa = level_index 2 gpa.
Proof. apply LINEAR_ADDRESS_GET_DIRECTORY_PTR_spec. Qed.
Lemma GET_DIRECTORY_level gpa : GUEST_PHYSICAL_ADDRESS_GET_DIRECTORY gpa = level_index 1 gpa.
Proof. apply LINEAR_ADDRESS_GET_DIRECTORY_spec. Qed.
Lemma GET_TABLE_level gpa : GUEST_PHYSICAL_ADDRESS_GET_TABLE gpa = level_index 0 gpa.
Proof. apply LINEAR_ADDRESS_GET_TABLE_spec. Qed.

Lemma GET_OFFSET_mod gpa : GUEST_PHYSICAL_ADDRESS_GET_OFFSET gpa = gpa mod 4096.
Proof. apply LINEAR_ADDRESS_GET_OFFSET_spec. Qed.

Lemma flag_set_initialized f : truthy (Z.land (Z.lor f VM_T_FLAG_EPT_PML4_INITIALIZED)
  VM_T_FLAG_EPT_PML4_INITIALIZED) = true.
Proof.
  unfold truthy. apply negb_true_iff, Z.eqb_neq. rewrite Z.land_lor_distr_l.
  intros H. apply Z.lor_eq_0_iff in H as [_ H]. done.
Qed.

Section map_page.
Context `{HW : Hardware}.
Implicit Types (s : machine).
Abbreviation ept_pages v := (pages_of VM_PAGE_TYPE_EPT false (vm_tracked_pages v)).

(** The VM after its root was chosen. *)
Definition vm_with_root (v : vm_t) (p : Z) (l : list vm_page_list_t) : vm_t :=
  v <| vm_vmcs_config := (vm_vmcs_config v) <| eptp := p |> |>
    <| vm_flags := Z.lor (vm_flags v) VM_T_FLAG_EPT_PML4_INITIALIZED |>
    <| vm_tracked_pages := l |>.

Lemma vm_frame_with_root v p l l' :
  pages_of VM_PAGE_TYPE_EPT false l' ≡ₚ p :: pages_of VM_PAGE_TYPE_EPT false l →
  (∀ ty res, (ty, res) ≠ (VM_PAGE_TYPE_EPT, false) → pages_of ty res l' = pages_of ty res l) →
  vm_tracked_pages v = l → vm_frame v (vm_with_root v p l').
Proof.
  intros H1 H2 <-. split.
  - by destruct v as [? ? ? ? [] ? ? ? ? ? ?].
  - by right.
  - intros res. simpl. by rewrite H2.
  - intros q Hq. simpl. rewrite H1. by right.
Qed.

(** Making the zeroed page [p], which belongs to nobody, the root of the EPT: the order
    of the three assignments does not matter to the result. *)
Lemma wp_set_root la lv vm v p E (Q : Z → machine → Prop) s :
  ept_inv la lv vm v ∅ s → ept_initialized v = false →
  page_ok p → page_unowned la lv p s → page_zero (m_mem s) p →
  E "subarenas not supported right now"%string →
  (∀ v' s', ept_inv la lv vm v' {[(3%nat, 0) := p]} s' → ept_initialized v' = true →
     ept_frame [] vm v v' s s' → translate_kept v v' s s' → p ∈ ept_pages v' →
     Q (P2V_IDENTITY_MAP p) s') →
  wp (vm_modify vm (λ v, v <| vm_vmcs_config :=
        (vm_vmcs_config v) <| eptp := V2P_IDENTITY_MAP (P2V_IDENTITY_MAP p) |> |>);;
      vm_modify vm (λ v, v <| vm_flags := Z.lor (vm_flags v) VM_T_FLAG_EPT_PML4_INITIALIZED |>);;
      vm_manager_track_ept_page vm (P2V_IDENTITY_MAP p);;
      mret (P2V_IDENTITY_MAP p)) E Q s.
Proof.
  intros [Hwf Hvm Hv Hept] Hi Hok Hun Hzero HE HQ. rewrite V2P_P2V_page by done.
  wp_step. eapply wp_vm_modify; [done|]. wp_step. eapply wp_vm_modify; [apply lookup_insert_eq|].
  wp_step. simpl. rewrite insert_insert_eq. set (v1 := vm_with_root v p (vm_tracked_pages v)).
  unfold vm_manager_track_ept_page. rewrite V2P_P2V_page by done.
  assert (vmm_wf la lv (s <| m_vms := <[vm := v1]> (m_vms s) |>)) as Hwf1.
  { pose proof (vmm_wf_update la lv s vm v v1 (m_arenas s)) as H. rewrite set_m_arenas_id in H.
    apply H; [done..|exact (vw_tracked _ _ _ Hwf vm v Hvm Hv)|by left|apply Hwf]. }
  eapply (wp_vm_manager_track_page la lv vm v1);
    [done|done|apply lookup_insert_eq|done| |done|].
  { destruct Hun as [Hun1 Hun2]. split; [done|]. intros x vx Hx. simpl. rewrite lookup_insert.
    case_decide as Heq; [|by apply Hun2]. intros [= <-]. subst x. by apply (Hun2 vm v). }
  cbv zeta. simpl. intros heap l' (Hl1 & Hl3 & Hl2) Hwf'. rewrite insert_insert_eq in Hwf' |- *.
  apply wp_ret. apply (HQ (vm_with_root v p l')).
  - split; [done|done|apply lookup_insert_eq|]. split.
    + intros _. apply ept_tables_wf_root; [done|]. intros i Hi'. by apply ept_entry_zero.
    + intros H. unfold ept_initialized in H. simpl in H. by rewrite flag_set_initialized in H.
    + intros k T [_ <-]%lookup_singleton_Some. simpl. rewrite Hl1. by left.
    + intros q Hq. simpl in Hq. rewrite Hl2 in Hq by done. by apply (ve_reserved _ _ _ Hept).
  - apply flag_set_initialized.
  - split; [by destruct s|by eapply vm_frame_with_root|done|].
    intros q Hq. simpl. rewrite Hl3. by right.
  - intros g Hg. unfold ept_translate. rewrite Hi. unfold ept_initialized. simpl.
    rewrite flag_set_initialized. apply ept_walk_root. intros i Hi'. by apply ept_entry_zero.
  - simpl. rewrite Hl1. by left.
Qed.

Lemma ept_initialized_with_root v p l : ept_initialized (vm_with_root v p l) = true.
Proof. apply flag_set_initialized. Qed.
Lemma ept_translate_with_root v p l m gpa :
  ept_translate (vm_with_root v p l) m gpa = ept_walk 3 m p gpa.
Proof. unfold ept_translate. by rewrite ept_initialized_with_root. Qed.

(** The first block of [vmx_ept_map_page]. *)
Definition ept_get_root (vm : Z) (v : vm_t) : M machine Z :=
  if truthy (Z.land (vm_flags v) VM_T_FLAG_EPT_PML4_INITIALIZED)
  then mret (P2V_IDENTITY_MAP (eptp (vm_vmcs_config v)))
  else
    ept_pml4 ← ept_page_from_pool_or_free vm;
    vm_modify vm (λ v, v <| vm_vmcs_config :=
      (vm_vmcs_config v) <| eptp := V2P_IDENTITY_MAP ept_pml4 |> |>);;
    vm_modify vm (λ v, v <| vm_flags := Z.lor (vm_flags v) VM_T_FLAG_EPT_PML4_INITIALIZED |>);;
    vm_manager_track_ept_page vm ept_pml4;;
    mret ept_pml4.

Lemma wp_ept_get_root la lv vm v tbl E (Q : Z → machine → Prop) s :
  ept_inv la lv vm v tbl s → E "OOM :("%string → E "subarenas not supported right now"%string →
  (∀ v' tbl' s' root, ept_inv la lv vm v' tbl' s' → ept_initialized v' = true →
     ept_frame [] vm v v' s s' → translate_kept v v' s s' →
     tbl' !! (3%nat, 0) = Some root → Q (P2V_IDENTITY_MAP root) s') →
  wp (ept_get_root vm v) E Q s.
Proof.
  intros Hinv HE1 HE2 HQ. unfold ept_get_root. fold (ept_initialized v).
  pose proof Hinv as [Hwf Hvm Hv Hept].
  destruct (ept_initialized v) eqn:Hi.
  { apply wp_ret. eapply HQ; [done|done|by apply ept_frame_refl|done|].
    apply (et_root _ _ _ (ve_tables _ _ _ Hept Hi)). }
  wp_step. eapply wp_ept_page_from_pool_or_free; [done|done|].
  intros p v1 s1 Hok Hun Hzero Hinv1 Hf1 Htr1 _ Hcfg1 Hfl1.
  assert (ept_initialized v1 = false) as Hi1 by (unfold ept_initialized in *; congruence).
  assert (tbl = ∅) as -> by by apply (ve_empty _ _ _ Hept).
  eapply wp_set_root; [done..|]. intros v2 s2 Hinv2 Hi2 Hf2 Htr2 Hp2.
  eapply HQ; [done|done| | |apply lookup_singleton_eq].
  - eapply ept_frame_trans; [exact Hf1|exact Hf2|]. intros q ->%list_elem_of_singleton. done.
  - intros g Hg. by rewrite Htr2, Htr1.
Qed.
End map_page.

Section results.
Context `{HW : Hardware}.
Implicit Types (s : machine).
Abbreviation ept_pages v := (pages_of VM_PAGE_TYPE_EPT false (vm_tracked_pages v)).

(** The translation after the page of [gpa] was mapped to the page of [hpa]. *)
Definition translate_mapped (v v' : vm_t) (s s' : machine) (gpa hpa : Z) : Prop :=
  ∀ gpa', 0 ≤ gpa' < 2 ^ 48 → ept_translate v' (m_mem s') gpa' =
    if gpa' / 4096 =? gpa / 4096
    then Some (Z.lor (Z.land hpa EPT_PTE_PHYSICAL_ADDRESS_PAGE)
                     (GUEST_PHYSICAL_ADDRESS_GET_OFFSET gpa'))
    else ept_translate v (m_mem s) gpa'.

(** Writing the leaf of [gpa]. *)
Lemma ept_inv_leaf la lv vm v tbl s gpa hpa T :
  ept_inv la lv vm v tbl s → ept_initialized v = true → 0 ≤ gpa < 2 ^ 48 →
  tbl !! (0%nat, level_prefix 0 gpa) = Some T →
  let s' := s <| m_mem := store_le 8 (m_mem s) (T + 8 * level_index 0 gpa) (rwx_entry hpa) |> in
  ept_inv la lv vm v tbl s' ∧ ept_frame [] vm v v s s' ∧ translate_mapped v v s s' gpa hpa.
Proof.
  intros Hinv Hi Hgpa HT s'.
  pose proof Hinv as [Hwf Hvm Hv Hept]. pose proof (ve_tables _ _ _ Hept Hi) as Htbl.
  pose proof (ve_tracked _ _ _ Hept _ _ HT) as HTin. pose proof (et_page _ _ _ Htbl _ _ HT) as HTok.
  pose proof (level_index_bound 0 gpa) as Hidx.
  assert (entry_written tbl (m_mem s) (m_mem s') T (level_index 0 gpa) (rwx_entry hpa)) as Hw.
  { apply ept_store_written; [apply (et_page _ _ _ Htbl)|done|done|apply rwx_entry_bound]. }
  split; [|split].
  - split; [by apply vmm_wf_mem|done|done|]. split.
    + intros _. by eapply ept_tables_wf_leaf.
    + by rewrite Hi.
    + apply (ve_tracked _ _ _ Hept).
    + intros q Hq. by eapply ept_store_reserved.
  - by apply ept_frame_store.
  - intros gpa' Hgpa'. unfold ept_translate. rewrite Hi, (level_page gpa), <-rwx_entry_table.
    eapply ept_walk_leaf; eauto using rwx_entry_readable.
    rewrite level_prefix_root by done. apply (et_root _ _ _ Htbl).
Qed.

(** [vmx_ept_map_page] adds one page to the translation and changes nothing else. It
    panics when the page is mapped, or when memory runs out. *)
Lemma wp_vmx_ept_map_page la lv vm v tbl gpa hpa E (Q : () → machine → Prop) s :
  ept_inv la lv vm v tbl s → 0 ≤ gpa < 2 ^ 48 →
  E "OOM :("%string → E "subarenas not supported right now"%string →
  (is_Some (ept_translate v (m_mem s) gpa) → E already_mapped_panic_str) →
  (∀ v' tbl' s', ept_inv la lv vm v' tbl' s' → ept_frame [] vm v v' s s' →
     ept_initialized v' = true →
     ept_translate v (m_mem s) gpa = None → translate_mapped v v' s s' gpa hpa → Q () s') →
  wp (vmx_ept_map_page vm gpa hpa) E Q s.
Proof.
  intros Hinv Hgpa HE1 HE2 HE3 HQ. unfold vmx_ept_map_page. cbv zeta.
  rewrite GET_PML4_level, GET_DIRECTORY_PTR_level, GET_DIRECTORY_level, GET_TABLE_level.
  wp_step. eapply wp_vm_get; [apply Hinv|]. wp_step. fold (ept_get_root vm v).
  eapply wp_ept_get_root; [done..|]. clear Hinv. intros v3 tbl3 s3 T3 Hinv3 Hi3 Hf3 Ht3 HT3.
  pose proof (et_page _ _ _ (ve_tables _ _ _ (ei_ept _ _ _ _ _ _ Hinv3) Hi3) _ _ HT3) as Hok3.
  wp_step. apply wp_load64; [done|apply level_index_bound|]. wp_step.
  fold (ept_entry (m_mem s3) T3 (level_index 3 gpa)).
  eapply (wp_ept_next_table la lv vm v3 tbl3 _ _ s3 false 2 gpa T3); [done..|lia|done| |done|done| |].
  { by rewrite level_prefix_root. }
  { rewrite Ht3 by done. done. }
  clear Hok3 HT3. intros v2 tbl2 s2 T2 Hinv2 Hi2 Hf2 Ht2 HT2.
  pose proof (et_page _ _ _ (ve_tables _ _ _ (ei_ept _ _ _ _ _ _ Hinv2) Hi2) _ _ HT2) as Hok2.
  wp_step. apply wp_load64; [done|apply level_index_bound|]. wp_step.
  fold (ept_entry (m_mem s2) T2 (level_index 2 gpa)).
  eapply (wp_ept_next_table la lv vm v2 tbl2 _ _ s2 true 1 gpa T2); [done..|lia|done|done|done|done| |].
  { rewrite Ht2, Ht3 by done. done. }
  clear Hok2 HT2. intros v1 tbl1 s1 T1 Hinv1 Hi1 Hf1 Ht1 HT1.
  pose proof (et_page _ _ _ (ve_tables _ _ _ (ei_ept _ _ _ _ _ _ Hinv1) Hi1) _ _ HT1) as Hok1.
  wp_step. apply wp_load64; [done|apply level_index_bound|]. wp_step.
  fold (ept_entry (m_mem s1) T1 (level_index 1 gpa)).
  eapply (wp_ept_next_table la lv vm v1 tbl1 _ _ s1 true 0 gpa T1); [done..|lia|done|done|done|done| |].
  { rewrite Ht1, Ht2, Ht3 by done. done. }
  clear Hok1 HT1. intros v0 tbl0 s0 T0 Hinv0 Hi0 Hf0 Ht0 HT0.
  pose proof (ve_tables _ _ _ (ei_ept _ _ _ _ _ _ Hinv0) Hi0) as Htbl0.
  pose proof (et_page _ _ _ Htbl0 _ _ HT0) as Hok0.
  wp_step. apply wp_load64; [done|apply level_index_bound|].
  fold (ept_entry (m_mem s0) T0 (level_index 0 gpa)).
  assert (ept_translate v0 (m_mem s0) gpa = ept_translate v (m_mem s) gpa) as Hsame
    by (by rewrite Ht0, Ht1, Ht2, Ht3).
  assert (ept_translate v0 (m_mem s0) gpa = ept_walk 0 (m_mem s0) T0 gpa) as Hleaf.
  { unfold ept_translate. rewrite Hi0. apply (ept_walk_from_root _ tbl0); [done|done|lia|done]. }
  cbn [ept_walk] in Hleaf.
  change (truthy (Z.land (ept_entry (m_mem s0) T0 (level_index 0 gpa)) EPT_PTE_READ))
    with (entry_readable (ept_entry (m_mem s0) T0 (level_index 0 gpa))).
  destruct (entry_readable (ept_entry (m_mem s0) T0 _)) eqn:Hr.
  { apply wp_panic, HE3. rewrite <-Hsame, Hleaf. done. }
  destruct (ept_inv_leaf la lv vm v0 tbl0 s0 gpa hpa T0) as (Hinv & Hf & Hm); [done..|].
  apply wp_store64; [done|apply level_index_bound|].
  eapply HQ; [exact Hinv| |done|congruence|].
  - eauto using ept_frame_trans_nil.
  - intros gpa' Hg. rewrite Hm by done. case_match; [done|]. by rewrite Ht0, Ht1, Ht2, Ht3.
Qed.
End results.

(** * vmx_ept_get_host_physical_address *)

Section translate.
Context `{HW : Hardware}.
Implicit Types (s : machine).

Lemma wp_vmx_ept_get_host_physical_address la lv vm v tbl gpa E (Q : option Z → machine → Prop) s :
  ept_inv la lv vm v tbl s → 0 ≤ gpa < 2 ^ 48 →
  Q (ept_translate v (m_mem s) gpa) s → wp (vmx_ept_get_host_physical_address vm gpa) E Q s.
Proof.
  intros Hinv Hgpa HQ. unfold vmx_ept_get_host_physical_address. cbv zeta.
  rewrite GET_PML4_level, GET_DIRECTORY_PTR_level, GET_DIRECTORY_level, GET_TABLE_level.
  wp_step. eapply wp_vm_get; [apply Hinv|]. fold (ept_initialized v).
  pose proof (ei_ept _ _ _ _ _ _ Hinv) as Hept. unfold ept_translate in HQ.
  destruct (ept_initialized v) eqn:Hi; cbn [negb]; [|by apply wp_ret].
  pose proof (ve_tables _ _ _ Hept Hi) as Htbl.
  assert (tbl !! (3%nat, level_prefix 3 gpa) = Some (eptp (vm_vmcs_config v))) as HT3
    by (rewrite level_prefix_root by done; apply (et_root _ _ _ Htbl)).
  assert (∀ n T (k : Z → M machine (option Z)), tbl !! (n, level_prefix n gpa) = Some T →
    wp (k (ept_entry (m_mem s) T (level_index n gpa))) E Q s →
    wp (deref_load 8 (ptr64 (P2V_IDENTITY_MAP T) (level_index n gpa)) ≫= k) E Q s) as Hload.
  { intros n T k HT Hk. wp_step. apply wp_load64; [by apply (et_page _ _ _ Htbl _ _ HT)|apply level_index_bound|done]. }
  apply Hload; [done|]. cbn [ept_walk] in HQ.
  set (e3 := ept_entry (m_mem s) (eptp (vm_vmcs_config v)) (level_index 3 gpa)) in *.
  change (truthy (Z.land e3 EPT_PML4E_READ)) with (entry_readable e3).
  destruct (entry_readable e3) eqn:Hr3; cbn [negb]; [|by apply wp_ret].
  pose proof (walk_child_prefix _ _ _ Htbl 2 _ gpa HT3 Hr3 eq_refl) as HT2.
  cbn [entry_large] in HQ. apply Hload; [exact HT2|].
  fold e3 in HT2 |- *. change (Z.land e3 EPT_PML4E_PHYSICAL_ADDRESS_PDPT) with (entry_table e3).
  set (e2 := ept_entry (m_mem s) (entry_table e3) (level_index 2 gpa)) in *.
  change (truthy (Z.land e2 EPT_PDPTE_READ)) with (entry_readable e2).
  destruct (entry_readable e2) eqn:Hr2; cbn [negb]; [|by apply wp_ret].
  change (truthy (Z.land e2 EPT_PDPTE_PAGE_SIZE)) with (entry_large 2 e2).
  change (truthy (Z.land e2 EPT_PDE_PAGE_SIZE)) with (entry_large 2 e2) in HQ.
  destruct (entry_large 2 e2) eqn:Hl2; [by apply wp_ret|].
  pose proof (walk_child_prefix _ _ _ Htbl 1 _ gpa HT2 Hr2 Hl2) as HT1.
  apply Hload; [exact HT1|].
  fold e2 in HT1 |- *. change (Z.land e2 EPT_PDPTE_PHYSICAL_ADDRESS_PD) with (entry_table e2).
  set (e1 := ept_entry (m_mem s) (entry_table e2) (level_index 1 gpa)) in *.
  change (truthy (Z.land e1 EPT_PDE_READ)) with (entry_readable e1).
  destruct (entry_readable e1) eqn:Hr1; cbn [negb]; [|by apply wp_ret].
  change (truthy (Z.land e1 EPT_PDE_PAGE_SIZE)) with (entry_large 1 e1) in HQ |- *.
  destruct (entry_large 1 e1) eqn:Hl1; [by apply wp_ret|].
  pose proof (walk_child_prefix _ _ _ Htbl 0 _ gpa HT1 Hr1 Hl1) as HT0.
  apply Hload; [exact HT0|].
  fold e1 in HT0 |- *. change (Z.land e1 EPT_PDE_PHYSICAL_ADDRESS_PT) with (entry_table e1).
  set (e0 := ept_entry (m_mem s) (entry_table e1) (level_index 0 gpa)) in *.
  change (truthy (Z.land e0 EPT_PTE_READ)) with (entry_readable e0).
  destruct (entry_readable e0); by apply wp_ret.
Qed.
End translate.

(** * vmx_ept_create_identity_mapping *)

(** The entry of the 1 GiB page [i]. *)
Definition identity_entry (i : Z) : Z :=
  Z.lor (Z.lor (Z.lor (Z.lor EPT_PDPTE_READ EPT_PDPTE_WRITE) EPT_PDPTE_EXECUTE) EPT_PDPTE_PAGE_SIZE)
        (Z.land (u64 (Z.shiftl i GUEST_PHYSICAL_ADDRESS_DP_SHIFT)) EPT_PDPTE_PHYSICAL_ADDRESS_PAGE).

Lemma identity_entry_add i : 0 ≤ i < 512 → identity_entry i = i * 2 ^ 30 + 0x87.
Proof.
  intros Hi. unfold identity_entry.
  change GUEST_PHYSICAL_ADDRESS_DP_SHIFT with 30.
  rewrite Z.shiftl_mul_pow2, wrap_small by lia.
  assert (Z.land (i * 2 ^ 30) EPT_PDPTE_PHYSICAL_ADDRESS_PAGE = i * 2 ^ 30) as ->.
  { rewrite (land_mask_range 30 22) by lia. rewrite Z.div_mul, Z.mod_small by lia. done. }
  rewrite (lor_disjoint_l 30); [done|lia| |by vm_compute]. apply Z.mod_mul. lia.
Qed.

Lemma identity_entry_readable i : 0 ≤ i < 512 → entry_readable (identity_entry i) = true.
Proof.
  intros Hi. unfold entry_readable, truthy. rewrite identity_entry_add by done.
  change EPT_PTE_READ with (Z.ones 1). rewrite Z.land_ones by lia.
  replace ((i * 2 ^ 30 + 0x87) mod 2 ^ 1) with 1; [done|]. zlia.
Qed.

Lemma identity_entry_large i : 0 ≤ i < 512 → entry_large 2 (identity_entry i) = true.
Proof.
  intros Hi. cbn [entry_large]. unfold truthy. rewrite identity_entry_add by done.
  rewrite (land_mask_range 7 1) by lia.
  replace ((i * 2 ^ 30 + 0x87) / 2 ^ 7) with (i * 2 ^ 23 + 1) by zlia.
  replace ((i * 2 ^ 23 + 1) mod 2 ^ 1) with 1 by zlia. done.
Qed.

Lemma identity_entry_address i gpa :
  0 ≤ i < 512 → i = gpa / 2 ^ 30 → large_address 2 (identity_entry i) gpa = gpa.
Proof.
  intros Hi ->. cbn [large_address]. rewrite identity_entry_add by done.
  rewrite (land_mask_range 30 22) by lia.
  replace ((gpa / 2 ^ 30 * 2 ^ 30 + 0x87) / 2 ^ 30) with (gpa / 2 ^ 30) by zlia.
  rewrite (Z.mod_small (gpa / 2 ^ 30)) by lia.
  change (Z.lor _ GUEST_PHYSICAL_ADDRESS_OFFSET_MASK) with (Z.ones 30).
  rewrite Z.land_ones by lia. rewrite (lor_disjoint 30); [|lia|by apply Z.mod_mul|].
  - zlia.
  - by apply Z.mod_pos_bound.
Qed.

Lemma identity_entry_bound i : 0 ≤ i < 512 → 0 ≤ identity_entry i < 256 ^ 8.
Proof. intros Hi. rewrite identity_entry_add by done. lia. Qed.

(** The two tables of the identity mapping. *)
Definition identity_tables (root pdpt : Z) : gmap (nat * Z) Z :=
  <[(2%nat, 0) := pdpt]> {[(3%nat, 0) := root]}.

Lemma identity_tables_wf root pdpt m :
  page_ok root → page_ok pdpt → root ≠ pdpt →
  ept_entry m root 0 = rwx_entry pdpt → (∀ i, 0 < i < 512 → ept_entry m root i = 0) →
  (∀ i, 0 ≤ i < 512 → ept_entry m pdpt i = identity_entry i) →
  ept_tables_wf root (identity_tables root pdpt) m.
Proof.
  intros Hr Hp Hne H0 Hz Hid.
  assert (∀ k T, identity_tables root pdpt !! k = Some T →
    k = (2%nat, 0) ∧ T = pdpt ∨ k = (3%nat, 0) ∧ T = root) as Hcases.
  { intros k T. unfold identity_tables. rewrite lookup_insert. case_decide; [intros [= <-]; by left|].
    intros [<- <-]%lookup_singleton_Some. by right. }
  unfold identity_tables in *. split.
  - rewrite lookup_insert_ne by done. apply lookup_singleton_eq.
  - intros n p T [[[= -> ->] _]|[[= -> ->] _]]%Hcases; split; lia.
  - intros k T [[_ ->]|[_ ->]]%Hcases; done.
  - intros k k' T [[-> ->]|[-> ->]]%Hcases [[-> ?]|[-> ?]]%Hcases; congruence.
  - intros n p T i [[[= -> ->] ->]|[[= -> ->] ->]]%Hcases Hi e; unfold e.
    + rewrite Hid, identity_entry_readable, identity_entry_large by done. simpl.
      rewrite lookup_insert_ne by (intros [= ]). apply lookup_singleton_None. intros [= ].
    + destruct (decide (i = 0)) as [->|].
      * rewrite H0, rwx_entry_readable, rwx_entry_large, rwx_entry_table, entry_table_page by done.
        apply lookup_insert_eq.
      * rewrite Hz by lia. simpl. rewrite lookup_insert_ne by (intros [= ]; lia).
        apply lookup_singleton_None. intros [= ].
  - intros n q T [[[= -> ->] _]|[[= -> ->] _]]%Hcases; [right|by left].
    rewrite lookup_insert_ne by done. by rewrite lookup_singleton_eq.
Qed.

Lemma identity_tables_walk root pdpt m gpa :
  page_ok pdpt → ept_entry m root 0 = rwx_entry pdpt → (∀ i, 0 < i < 512 → ept_entry m root i = 0) →
  (∀ i, 0 ≤ i < 512 → ept_entry m pdpt i = identity_entry i) →
  0 ≤ gpa < 2 ^ 48 → ept_walk 3 m root gpa = if gpa <? 2 ^ 39 then Some gpa else None.
Proof.
  intros Hp H0 Hz Hid Hgpa. cbn [ept_walk].
  assert (level_index 3 gpa = gpa / 2 ^ 39) as ->.
  { unfold level_index. change (level_shift 3) with 39. apply Z.mod_small. zlia. }
  destruct (Z.ltb_spec gpa (2 ^ 39)) as [Hlt|Hge].
  - rewrite (Z.div_small gpa (2 ^ 39)), H0, rwx_entry_readable, rwx_entry_large by lia.
    rewrite rwx_entry_table, entry_table_page by done.
    assert (level_index 2 gpa = gpa / 2 ^ 30) as ->.
    { unfold level_index. change (level_shift 2) with 30. apply Z.mod_small. zlia. }
    assert (0 ≤ gpa / 2 ^ 30 < 512) as Hi by zlia.
    by rewrite Hid, identity_entry_readable, identity_entry_large, identity_entry_address.
  - rewrite Hz by zlia. done.
Qed.

Section identity.
Context `{HW : Hardware}.
Implicit Types (s : machine).
Abbreviation ept_pages v := (pages_of VM_PAGE_TYPE_EPT false (vm_tracked_pages v)).

(** Writing an EPT page of a VM without tables. *)
Lemma ept_inv_write_unused la lv vm v s T i e :
  ept_inv la lv vm v ∅ s → ept_initialized v = false → page_ok T → T ∈ ept_pages v → 0 ≤ i < 512 →
  ept_inv la lv vm v ∅ (s <| m_mem := store_le 8 (m_mem s) (T + 8 * i) e |>).
Proof.
  intros Hinv Hi Hok HT Hidx. pose proof Hinv as [Hwf Hvm Hv Hept].
  split; [by apply vmm_wf_mem|done|done|]. split; [by rewrite Hi|done| |].
  - intros k T'. by rewrite lookup_empty.
  - intros p Hp. by eapply ept_store_reserved.
Qed.

(** The loop that fills the page-directory-pointer table. *)
Lemma wp_identity_loop la lv vm v T E (Q : () → machine → Prop) s :
  ept_inv la lv vm v ∅ s → ept_initialized v = false → page_ok T → T ∈ ept_pages v →
  (∀ s', ept_inv la lv vm v ∅ s' → ept_frame [] vm v v s s' →
     (∀ i, 0 ≤ i < 512 → ept_entry (m_mem s') T i = identity_entry i) → Q () s') →
  wp (mfor PAGE_TABLE_ENTRIES (λ i,
        deref_store 8 (ptr64 (P2V_IDENTITY_MAP T) i) (identity_entry i))) E Q s.
Proof.
  intros Hinv Hi Hok HT HQ.
  eapply wp_post; [eapply (wp_for (λ i s', ept_inv la lv vm v ∅ s' ∧ ept_frame [] vm v v s s' ∧
    ∀ j, 0 ≤ j < i → ept_entry (m_mem s') T j = identity_entry j)); [done| |]|].
  - split_and!; [done|by apply ept_frame_refl, Hinv|lia].
  - change PAGE_TABLE_ENTRIES with 512. intros i s' Hidx (Hinv' & Hf & Hent).
    apply wp_store64; [done|done|]. split_and!.
    + by apply ept_inv_write_unused.
    + eapply ept_frame_trans_nil; [exact Hf|]. apply ept_frame_store; [apply Hinv'|done..].
    + intros j Hj. unfold ept_entry, upd, set_m_mem. cbn [m_mem].
      destruct (decide (j = i)) as [->|].
      * apply (load_store_same_small 8). by apply identity_entry_bound.
      * rewrite load_store_other by lia. apply Hent. lia.
  - intros [] s' (Hinv' & Hf & Hent). change PAGE_TABLE_ENTRIES with 512 in Hent. by apply HQ.
Qed.

(** The state at the end: the root is set on tables that map the identity. *)
Lemma ept_inv_identity la lv vm v s r p :
  ept_inv la lv vm v ∅ s → page_ok r → page_ok p → r ≠ p → r ∈ ept_pages v → p ∈ ept_pages v →
  ept_entry (m_mem s) r 0 = rwx_entry p → (∀ i, 0 < i < 512 → ept_entry (m_mem s) r i = 0) →
  (∀ i, 0 ≤ i < 512 → ept_entry (m_mem s) p i = identity_entry i) →
  let v' := vm_with_root v r (vm_tracked_pages v) in
  let s' := s <| m_vms := <[vm := v']> (m_vms s) |> in
  ept_inv la lv vm v' (identity_tables r p) s' ∧ ept_frame [] vm v v' s s' ∧
  ∀ gpa, 0 ≤ gpa < 2 ^ 48 → ept_translate v' (m_mem s') gpa = if gpa <? 2 ^ 39 then Some gpa else None.
Proof.
  intros [Hwf Hvm Hv Hept] Hr Hp Hne Hrin Hpin H0 Hz Hid v' s'. split_and!.
  - split; [|done|apply lookup_insert_eq|].
    + pose proof (vmm_wf_update la lv s vm v v' (m_arenas s)) as H. rewrite set_m_arenas_id in H.
      apply H; [done..|exact (vw_tracked _ _ _ Hwf vm v Hvm Hv)|by left|apply Hwf].
    + split.
      * intros _. by apply identity_tables_wf.
      * intros H. unfold v' in H. by rewrite ept_initialized_with_root in H.
      * intros k T. unfold identity_tables. rewrite lookup_insert.
        case_decide; [by intros [= <-]|]. by intros [_ <-]%lookup_singleton_Some.
      * apply (ve_reserved _ _ _ Hept).
  - split; [by destruct s| |done|done].
    split; [by destruct v as [? ? ? ? [] ? ? ? ? ? ?]|by right|done|done].
  - intros gpa Hgpa. unfold v'. rewrite ept_translate_with_root. by apply identity_tables_walk with p.
Qed.

(** The entries after the root [r] was made to point to the table [p]. *)
Lemma identity_root_written m m' r p :
  page_ok r → page_ok p → r ≠ p → page_zero m r →
  m' = store_le 8 m (r + 8 * 0) (rwx_entry p) →
  ept_entry m' r 0 = rwx_entry p ∧ (∀ i, 0 < i < 512 → ept_entry m' r i = 0) ∧
  (∀ i, 0 ≤ i < 512 → ept_entry m' p i = ept_entry m p i).
Proof.
  intros Hr Hp Hne Hz ->. split_and!.
  - apply (load_store_same_small 8), rwx_entry_bound.
  - intros i Hi. unfold ept_entry. rewrite load_store_other by lia.
    by apply ept_entry_zero; [lia|].
  - intros i Hi. unfold ept_entry. apply load_store_other.
    destruct Hr, Hp. unfold PAGE_SIZE in *. zlia.
Qed.

Lemma wp_vmx_ept_create_identity_mapping la lv vm v tbl E (Q : () → machine → Prop) s :
  ept_inv la lv vm v tbl s →
  E "OOM :("%string → E "subarenas not supported right now"%string →
  (ept_initialized v = true →
     E "Setting up a new EPT with id mapping on a VM with EPT PML4 already initialized"%string) →
  (∀ v' tbl' s', ept_initialized v = false → ept_inv la lv vm v' tbl' s' →
     ept_frame [] vm v v' s s' → ept_initialized v' = true →
     (∀ gpa, 0 ≤ gpa < 2 ^ 48 →
        ept_translate v' (m_mem s') gpa = if gpa <? 2 ^ 39 then Some gpa else None) → Q () s') →
  wp (vmx_ept_create_identity_mapping vm) E Q s.
Proof.
  intros Hinv HE1 HE2 HE3 HQ. unfold vmx_ept_create_identity_mapping.
  wp_step. eapply wp_vm_get; [apply Hinv|]. fold (ept_initialized v).
  destruct (ept_initialized v) eqn:Hi; [by apply wp_panic, HE3|].
  assert (tbl = ∅) as -> by by apply (ve_empty _ _ _ (ei_ept _ _ _ _ _ _ Hinv)).
  wp_step. eapply wp_ept_page_from_pool_or_free; [done..|].
  intros p v1 s1 Hokp Hun1 _ Hinv1 Hf1 _ _ _ Hfl1.
  wp_step. eapply wp_vm_manager_track_ept_page; [done..|].
  intros v2 s2 Hinv2 Hf2 Hp2 _ _ Hfl2.
  assert (ept_initialized v2 = false) as Hi2 by (unfold ept_initialized in *; congruence).
  wp_step. eapply wp_identity_loop; [done..|]. intros s3 Hinv3 Hf3 Hent3.
  wp_step. eapply wp_ept_page_from_pool_or_free; [done..|].
  intros r v4 s4 Hokr Hun4 Hzero Hinv4 Hf4 _ Hm4 _ Hfl4.
  wp_step. eapply wp_vm_manager_track_ept_page; [done..|].
  intros v5 s5 Hinv5 Hf5 Hr5 Hm5 Hcfg5 Hfl5.
  assert (ept_initialized v5 = false) as Hi5 by (unfold ept_initialized in *; congruence).
  assert (p ∈ ept_pages v4) as Hp4.
  { apply (vf_ept _ _ (ef_vm _ _ _ _ _ _ Hf4)). done. }
  assert (p ∈ ept_pages v5) as Hp5 by (by apply (vf_ept _ _ (ef_vm _ _ _ _ _ _ Hf5))).
  assert (r ≠ p) as Hrp.
  { intros ->. apply (proj2 Hun4 vm v4); [apply Hinv4|apply Hinv4|]. by eapply pages_of_subset. }
  rewrite (V2P_P2V_page p), (V2P_P2V_page r) by done.
  change (Z.lor (Z.lor (Z.lor EPT_PML4E_READ EPT_PML4E_WRITE) EPT_PML4E_EXECUTE)
    (Z.land p EPT_PML4E_PHYSICAL_ADDRESS_PDPT)) with (rwx_entry p).
  wp_step. apply wp_store64; [done|done|].
  destruct (identity_root_written (m_mem s5) _ r p Hokr Hokp Hrp ltac:(by rewrite Hm5) eq_refl)
    as (Hr0 & Hrz & Hpe).
  pose proof (ept_inv_write_unused la lv vm v5 s5 r 0 (rwx_entry p) Hinv5 Hi5 Hokr Hr5 ltac:(done))
    as Hinv6.
  pose proof (ept_frame_store vm v5 s5 r 0 (rwx_entry p) (ei_lookup _ _ _ _ _ _ Hinv5) Hokr Hr5
    ltac:(done)) as Hf6.
  set (s6 := s5 <| m_mem := _ |>) in *.
  change (store_le 8 (m_mem s5) (r + 8 * 0) (rwx_entry p)) with (m_mem s6) in Hr0, Hrz, Hpe.
  assert (∀ i, 0 ≤ i < 512 → ept_entry (m_mem s6) p i = identity_entry i) as Hid.
  { intros i Hidx. rewrite Hpe, Hm5, <-Hent3 by done.
    apply ept_entry_ext; [done|]. intros a Ha. apply Hm4. by apply (page_ok_disjoint p r a). }
  assert (ept_frame [] vm v v5 s s6) as Hf.
  { eapply ept_frame_trans_nil; [|exact Hf6].
    eapply (ept_frame_trans [r]); [|exact Hf5|by intros q ->%list_elem_of_singleton].
    eapply (ept_frame_trans []); [|exact Hf4|by intros ? ?%elem_of_nil].
    eapply ept_frame_trans_nil; [|exact Hf3].
    eapply ept_frame_trans; [exact Hf1|exact Hf2|]. by intros q ->%list_elem_of_singleton. }
  clearbody s6. wp_step. eapply wp_vm_modify; [apply Hinv6|].
  eapply wp_vm_modify; [apply lookup_insert_eq|].
  destruct (ept_inv_identity la lv vm v5 s6 r p) as (Hinv7 & Hf7 & Htr); [done..|].
  cbv zeta in Hinv7, Hf7, Htr.
  simpl. rewrite insert_insert_eq.
  eapply HQ; [done|exact Hinv7| |apply ept_initialized_with_root|exact Htr].
  by eapply ept_frame_trans_nil.
Qed.
End identity.

(** * Properties *)

Section properties.
Context `{HW : Hardware}.

(** The ways in which the EPT operations run out of memory. *)
Definition out_of_memory (msg : string) : Prop :=
  msg = "OOM :("%string ∨ msg = "subarenas not supported right now"%string.

(** C5: [vmx_ept_map_page] adds one page to the translation of its VM. It panics with
    its message when the guest page is mapped already, and only then; otherwise, unless
    memory runs out, the guest page translates to the host page afterwards, every other
    address translates as before, the tables stay well formed, and the only bytes that
    change are in EPT pages of this VM. *)
Theorem vmx_ept_map_page_correct la lv vm v tbl gpa hpa s :
  ept_inv la lv vm v tbl s → 0 ≤ gpa < 2 ^ 48 →
  (vmx_ept_map_page vm gpa hpa s = Panic already_mapped_panic_str ∧
     is_Some (ept_translate v (m_mem s) gpa)) ∨
  (∃ msg, vmx_ept_map_page vm gpa hpa s = Panic msg ∧ out_of_memory msg) ∨
  (ept_translate v (m_mem s) gpa = None ∧
   ∃ v' tbl' s', vmx_ept_map_page vm gpa hpa s = Ok ((), s') ∧
     ept_inv la lv vm v' tbl' s' ∧ ept_frame [] vm v v' s s' ∧
     translate_mapped v v' s s' gpa hpa).
Proof.
  intros Hinv Hgpa.
  assert (wp (vmx_ept_map_page vm gpa hpa)
    (λ msg, out_of_memory msg ∨
       msg = already_mapped_panic_str ∧ is_Some (ept_translate v (m_mem s) gpa))
    (λ _ s', ept_translate v (m_mem s) gpa = None ∧ ∃ v' tbl', ept_inv la lv vm v' tbl' s' ∧
       ept_frame [] vm v v' s s' ∧ translate_mapped v v' s s' gpa hpa) s) as H.
  { eapply wp_vmx_ept_map_page; [done|done|by left; left|by left; right|by right|].
    intros v' tbl' s' Hinv' Hf _ Hn Hm. eauto 10. }
  unfold wp in H. destruct (vmx_ept_map_page vm gpa hpa s) as [[[] s']|msg| | |]; try done.
  - right. right. destruct H as (Hn & v' & tbl' & ? & ? & ?). split; [done|]. by exists v', tbl', s'.
  - destruct H as [H|[-> H]]; [right; left; by exists msg|by left].
Qed.


(** Mapping a page and looking up an address of it gives back the address in the
    host page; looking up any other address gives what it gave before. *)
Theorem vmx_ept_map_then_translate la lv vm v tbl gpa hpa gpa' s s' :
  ept_inv la lv vm v tbl s → 0 ≤ gpa < 2 ^ 48 → 0 ≤ gpa' < 2 ^ 48 → page_ok hpa →
  vmx_ept_map_page vm gpa hpa s = Ok ((), s') →
  vmx_ept_get_host_physical_address vm gpa' s' =
    if gpa' / PAGE_SIZE =? gpa / PAGE_SIZE then Ok (Some (hpa + gpa' mod PAGE_SIZE), s')
    else match vmx_ept_get_host_physical_address vm gpa' s with
         | Ok (r, _) => Ok (r, s')
         | err => err
         end.
Proof.
  intros Hinv Hgpa Hgpa' Hhpa Hmap.
  assert (wp (vmx_ept_map_page vm gpa hpa) (λ _, True)
    (λ _ s', wp (vmx_ept_get_host_physical_address vm gpa') no_panic (λ r s2, s2 = s' ∧
       r = if gpa' / 4096 =? gpa / 4096 then Some (hpa + gpa' mod 4096)
           else ept_translate v (m_mem s) gpa') s') s) as H.
  { eapply wp_vmx_ept_map_page; [done..|]. intros v' tbl' s1 Hinv' _ _ _ Hm.
    eapply wp_vmx_ept_get_host_physical_address; [done..|]. split; [done|].
    rewrite Hm, entry_table_page by done. case_match; [|done]. f_equal.
    rewrite GET_OFFSET_mod.
    apply (lor_disjoint 12); [lia|apply Hhpa|by apply Z.mod_pos_bound]. }
  pose proof (wp_ok_inv _ _ _ _ _ _ H Hmap) as H'.
  apply wp_no_panic_ok in H' as (r & s2 & -> & -> & ->).
  assert (wp (vmx_ept_get_host_physical_address vm gpa') no_panic
    (λ r s', r = ept_translate v (m_mem s) gpa' ∧ s' = s) s) as H0
    by by eapply wp_vmx_ept_get_host_physical_address.
  apply wp_no_panic_ok in H0 as (r & s2 & -> & -> & ->).
  unfold PAGE_SIZE. by case_match.
Qed.

(** C31: [vmx_ept_create_identity_mapping] refuses a VM that has an EPT; otherwise, unless
    memory runs out, the addresses below 512 GiB translate to themselves afterwards, and
    the others to nothing. *)
Theorem vmx_ept_create_identity_mapping_correct la lv vm v tbl s :
  ept_inv la lv vm v tbl s →
  (ept_initialized v = true ∧ vmx_ept_create_identity_mapping vm s =
     Panic "Setting up a new EPT with id mapping on a VM with EPT PML4 already initialized") ∨
  ept_initialized v = false ∧
  ((∃ msg, vmx_ept_create_identity_mapping vm s = Panic msg ∧ out_of_memory msg) ∨
   (∃ v' tbl' s', vmx_ept_create_identity_mapping vm s = Ok ((), s') ∧
      ept_inv la lv vm v' tbl' s' ∧ ept_frame [] vm v v' s s' ∧
      ∀ gpa, 0 ≤ gpa < 2 ^ 48 →
        ept_translate v' (m_mem s') gpa = if gpa <? 2 ^ 39 then Some gpa else None)).
Proof.
  intros Hinv. destruct (ept_initialized v) eqn:Hi.
  - left. split; [done|]. unfold vmx_ept_create_identity_mapping, vm_get, mbind, M_bind, mget.
    rewrite (ei_lookup _ _ _ _ _ _ Hinv). simpl. fold (ept_initialized v). by rewrite Hi.
  - right. split; [done|].
    assert (wp (vmx_ept_create_identity_mapping vm) out_of_memory
      (λ _ s', ∃ v' tbl', ept_inv la lv vm v' tbl' s' ∧ ept_frame [] vm v v' s s' ∧
        ∀ gpa, 0 ≤ gpa < 2 ^ 48 →
          ept_translate v' (m_mem s') gpa = if gpa <? 2 ^ 39 then Some gpa else None) s) as H.
    { eapply wp_vmx_ept_create_identity_mapping; [done|by left|by right|by rewrite Hi|].
      intros v' tbl' s' _ Hinv' Hf _ Htr. eauto 10. }
    unfold wp in H. destruct (vmx_ept_create_identity_mapping vm s) as [[[] s']|msg| | |]; try done.
    + right. destruct H as (v' & tbl' & H). by exists v', tbl', s'.
    + left. by exists msg.
Qed.

End properties.

(** * Witnesses *)

Lemma one_vm_machine_ept n :
  0 ≤ n < 2 ^ 20 → ept_inv [vm_arena] [vm_address] vm_address zero_vm ∅ (one_vm_machine n).
Proof.
  intros Hn. split; [by apply one_vm_machine_wf|by left|apply machine_with_vm_vm|].
  split; [done|done|intros k T; by rewrite lookup_empty|by intros p ?%elem_of_nil].
Qed.

(** Witness: the address 0x5000 of the VM is mapped to page 20. *)
Lemma vmx_ept_map_page_correct_witness :
  let s := one_vm_machine 8 in
  is_ok (vmx_ept_map_page vm_address 0x5000 0x14000 s) = true ∧
  ((vmx_ept_map_page vm_address 0x5000 0x14000 s = Panic already_mapped_panic_str ∧
      is_Some (ept_translate zero_vm (m_mem s) 0x5000)) ∨
   (∃ msg, vmx_ept_map_page vm_address 0x5000 0x14000 s = Panic msg ∧ out_of_memory msg) ∨
   (ept_translate zero_vm (m_mem s) 0x5000 = None ∧
    ∃ v' tbl' s', vmx_ept_map_page vm_address 0x5000 0x14000 s = Ok ((), s') ∧
      ept_inv [vm_arena] [vm_address] vm_address v' tbl' s' ∧
      ept_frame [] vm_address zero_vm v' s s' ∧
      translate_mapped zero_vm v' s s' 0x5000 0x14000)).
Proof.
  intros s. split; [vm_compute; reflexivity|].
  apply (vmx_ept_map_page_correct [vm_arena] [vm_address] vm_address zero_vm ∅ 0x5000 0x14000 s);
    [apply one_vm_machine_ept; lia|lia].
Defined.


(** Witness: the byte 0x5678 of the guest is the byte 0x14678 of the host. *)
Lemma vmx_ept_map_then_translate_witness :
  ∃ s', vmx_ept_map_page vm_address 0x5000 0x14000 (one_vm_machine 8) = Ok ((), s') ∧
    vmx_ept_get_host_physical_address vm_address 0x5678 s' = Ok (Some 0x14678, s').
Proof.
  assert (is_ok (vmx_ept_map_page vm_address 0x5000 0x14000 (one_vm_machine 8)) = true) as Hok
    by (vm_compute; reflexivity).
  apply is_ok_inv in Hok as ([] & s' & Heq).
  exists s'. split; [exact Heq|].
  pose proof (vmx_ept_map_then_translate [vm_arena] [vm_address] vm_address zero_vm ∅ 0x5000 0x14000
    0x5678 (one_vm_machine 8) s' (one_vm_machine_ept 8 ltac:(lia)) ltac:(lia) ltac:(lia)
    ltac:(by repeat split) Heq) as H.
  exact H.
Defined.

Lemma vmx_ept_create_identity_mapping_correct_witness :
  let s := one_vm_machine 8 in
  (ept_initialized zero_vm = true ∧ vmx_ept_create_identity_mapping vm_address s =
     Panic "Setting up a new EPT with id mapping on a VM with EPT PML4 already initialized") ∨
  ept_initialized zero_vm = false ∧
  ((∃ msg, vmx_ept_create_identity_mapping vm_address s = Panic msg ∧ out_of_memory msg) ∨
   (∃ v' tbl' s', vmx_ept_create_identity_mapping vm_address s = Ok ((), s') ∧
      ept_inv [vm_arena] [vm_address] vm_address v' tbl' s' ∧
      ept_frame [] vm_address zero_vm v' s s' ∧
      ∀ gpa, 0 ≤ gpa < 2 ^ 48 →
        ept_translate v' (m_mem s') gpa = if gpa <? 2 ^ 39 then Some gpa else None)).
Proof.
  intros s. apply (vmx_ept_create_identity_mapping_correct [vm_arena] [vm_address] vm_address zero_vm ∅).
  apply one_vm_machine_ept. lia.
Defined.
