(* ===== verification/VmManager.v ===== *)
(** The VM manager (hv/src/vmm/vm_manager.c): creation of a VM, its guest physical
    memory, its devices, and which VM is current.

    [vm_manager_allocate_guest_physical_memory] gives a VM contiguous zeroed memory:
    its pages are distinct host pages that belong to this VM alone. *)
From S2P Require Import Prelude Memory Machine Registers SimpleCpu Strings Console PageUse PageAllocator Arena.
From S2P Require Import VmxInstructions VmxMsr VmTracking VmxPages VmxEpt VmxEptSpec EptCorrect.

Definition sizeof_vm_t : Z := 272.

Section definitions.
Context `{HW : Hardware}.

(** [memset] of the structure to 0 is the record [zero_vm]. *)
Definition vm_manager_create_vmx_machine (name : list Z) : M machine Z :=
  s ← mget;
  (if m_vm_manager_arena s =? 0 then
     arena ← arena_create;
     mmodify (λ s, s <| m_vm_manager_arena := arena |>)
   else mret ());;
  vm_manager_arena ← mgets m_vm_manager_arena;
  result ← arena_allocate vm_manager_arena sizeof_vm_t;
  mmodify (λ s, s <| m_vms := <[result := zero_vm]> (m_vms s) |>);;
  vm_list ← mgets m_vm_list;
  vm_modify result (λ v, v <| vm_next := vm_list |>);;
  mmodify (λ s, s <| m_vm_list := result |>);;
  vm_modify result (λ v, v <| vm_name := name |>);;
  vm_modify result (λ v, v <| vm_permanent_xcr0 := 1 |>);;
  mret result.

Definition vm_manager_log_category : list Z := bytes_of_string "vm".

(** What [vm_manager_launch] does before the guest runs; [vmx_vmlaunch] does not return
    when it succeeds. *)
Definition vm_manager_launch `{PF : PollFuel} (vm : Z) : M machine () :=
  vmx_msr_vmlaunch;;
  v ← vm_get vm;
  LOG vm_manager_log_category (bytes_of_string "vmptrld-ing  " ++ [0x22] ++ bytes_of_string "%s" ++ [0x22] ++
                               bytes_of_string " VMCS") [ArgString (Some (vm_name v))];;
  v ← vm_get vm;
  VMX_ASSERT (vmx_vmptrld (vm_vmcs_region v));;
  mmodify (λ s, s <| m_current_vm := vm |>);;
  v ← vm_get vm;
  LOG vm_manager_log_category (bytes_of_string "vmlaunch-ing " ++ [0x22] ++ bytes_of_string "%s" ++ [0x22])
    [ArgString (Some (vm_name v))].

Definition vm_manager_get_current_vm : M machine Z :=
  curr_vmcs_region ← VMX_ASSERT_OUT vmx_vmptrst;
  current ← mgets m_current_vm;
  unsynced ← (if current =? 0 then mret true
              else v ← vm_get current; mret (negb (curr_vmcs_region =? vm_vmcs_region v)));
  if (unsynced : bool) then mpanic "vm_manager_current_vm and current VMCS pointer unsynced"
  else mret current.

(** [CEIL_DIV(a, b)] *)
Definition CEIL_DIV (a b : Z) : Z := a / b + (if a mod b =? 0 then 0 else 1).

(** The number of EPT pages that are reserved for [guest_physical_pages]. *)
Definition guest_ept_pages (guest_physical_pages : Z) : Z :=
  let ept_amount_pt := CEIL_DIV guest_physical_pages PAGE_TABLE_ENTRIES in
  let ept_amount_pd := CEIL_DIV ept_amount_pt PAGE_TABLE_ENTRIES in
  let ept_amount_pdpt := CEIL_DIV ept_amount_pd PAGE_TABLE_ENTRIES in
  let ept_amount_pml4 := CEIL_DIV ept_amount_pdpt PAGE_TABLE_ENTRIES in
  ept_amount_pt + ept_amount_pd + ept_amount_pdpt + ept_amount_pml4.

Definition vm_manager_allocate_guest_physical_memory (vm guest_physical_pages : Z) : M machine () :=
  v ← vm_get vm;
  if negb (vm_guest_physical_pages v =? 0)
  then mpanic "Reallocating guest physical memory on a VM with memory already allocated"
  else
  vm_modify vm (λ v, v <| vm_guest_physical_pages := guest_physical_pages |>);;
  mfor (guest_ept_pages guest_physical_pages) (λ _,
    ept_page ← vmx_get_free_ept_page;
    vm_manager_track_page vm (V2P_IDENTITY_MAP ept_page) VM_PAGE_TYPE_EPT true);;
  mfor guest_physical_pages (λ i,
    page_pa ← vm_manager_get_free_guest_physical_page;
    vm_manager_track_page vm page_pa VM_PAGE_TYPE_GUEST_PHYSICAL false;;
    vmx_ept_map_page vm (u64 (i * PAGE_SIZE)) page_pa).

(** [device->next] of the device at the address [device]. *)
Definition device_get (device : Z) : M machine vm_device_t :=
  s ← mget;
  match m_devices s !! device with Some d => mret d | None => mundefined end.
Definition device_modify (device : Z) (f : vm_device_t → vm_device_t) : M machine () :=
  d ← device_get device;
  mmodify (λ s, s <| m_devices := <[device := f d]> (m_devices s) |>).

Definition vm_manager_register_device (vm device : Z) : M machine () :=
  d ← device_get device;
  if negb (dev_next d =? 0)
  then mpanic "Registering a device that is probably already registered"
  else
  v ← vm_get vm;
  device_modify device (λ d, d <| dev_next := vm_devices v |>);;
  vm_modify vm (λ v, v <| vm_devices := device |>).

End definitions.

Section guest_memory.
Context `{HW : Hardware}.
Implicit Types (s : machine).
Abbreviation guest_pages v := (pages_of VM_PAGE_TYPE_GUEST_PHYSICAL false (vm_tracked_pages v)).

(** What giving memory to a VM may change: of the machine, the VM, the arenas and the
    variables of the allocator; of memory, the pages of this VM. *)
Record guest_frame (vm : Z) (v v' : vm_t) (s s' : machine) : Prop := {
  gf_eq : s' = s <| m_mem := m_mem s' |>
                 <| m_last_returned_region_index := m_last_returned_region_index s' |>
                 <| m_last_returned_page_index := m_last_returned_page_index s' |>
                 <| m_arenas := m_arenas s' |>
                 <| m_vms := <[vm := v']> (m_vms s) |>;
  gf_mem a : (∀ p, p ∈ all_pages (vm_tracked_pages v') → ¬ (p ≤ a < p + PAGE_SIZE)) →
    load_byte (m_mem s') a = load_byte (m_mem s) a;
  gf_all p : p ∈ all_pages (vm_tracked_pages v) → p ∈ all_pages (vm_tracked_pages v');
  gf_vm : v' = v <| vm_tracked_pages := vm_tracked_pages v' |>
                 <| vm_vmcs_config := (vm_vmcs_config v) <| eptp := eptp (vm_vmcs_config v') |> |>
                 <| vm_flags := vm_flags v' |>
                 <| vm_guest_physical_pages := vm_guest_physical_pages v' |>;
  gf_flags : vm_flags v' = vm_flags v ∨ vm_flags v' = Z.lor (vm_flags v) VM_T_FLAG_EPT_PML4_INITIALIZED;
}.

Lemma guest_frame_trans vm v1 v2 v3 s1 s2 s3 :
  guest_frame vm v1 v2 s1 s2 → guest_frame vm v2 v3 s2 s3 → guest_frame vm v1 v3 s1 s3.
Proof.
  intros [E1 M1 A1 V1 F1] [E2 M2 A2 V2 F2]. split; [| |by auto|by rewrite V2 at 1; rewrite V1|].
  - rewrite E2 at 1. rewrite E1. simpl. by rewrite insert_insert_eq.
  - intros a Ha. rewrite M2 by done. apply M1. intros p Hp. by apply Ha, A2.
  - destruct F1 as [F1|F1], F2 as [F2|F2]; rewrite F2, F1; rewrite ?lor_flag_idem; auto.
Qed.

Lemma ept_guest_frame vm v v' s s' : ept_frame [] vm v v' s s' → guest_frame vm v v' s s'.
Proof.
  intros [E F M A]. split; [done| |exact A| |apply (vf_flags _ _ F)].
  2: { rewrite (vf_eq _ _ F). by destruct v. }
  intros a Ha. apply M. intros p Hp. apply Ha. by eapply pages_of_subset.
Qed.

(** Tracking a page that is not for a table. *)
Lemma wp_track_other la lv vm v tbl p ty res E (Q : () → machine → Prop) s :
  ept_inv la lv vm v tbl s → page_ok p → page_unowned la lv p s →
  (ty, res) ≠ (VM_PAGE_TYPE_EPT, false) →
  ((ty, res) = (VM_PAGE_TYPE_EPT, true) → page_zero (m_mem s) p) →
  E "subarenas not supported right now"%string →
  (∀ l' s', let v' := v <| vm_tracked_pages := l' |> in
     ept_inv la lv vm v' tbl s' → tracked_added ty res p (vm_tracked_pages v) l' →
     m_mem s' = m_mem s → guest_frame vm v v' s s' → Q () s') →
  wp (vm_manager_track_page vm p ty res) E Q s.
Proof.
  intros [Hwf Hvm Hv [Ht He Htr Hr]] Hok Hun Hne Hz HE HQ.
  eapply wp_vm_manager_track_page; [done..|]. cbv zeta. intros heap l' Hadd Hwf'.
  pose proof Hadd as (Hsame & Hall & Hothers).
  apply (HQ l'); [|done|done|].
  - split; [done|done|apply lookup_insert_eq|]. split; [done|done| |].
    + intros k T HT. simpl. rewrite (Hothers VM_PAGE_TYPE_EPT false) by congruence. by eapply Htr.
    + intros q Hq. simpl in Hq |- *.
      destruct (decide ((VM_PAGE_TYPE_EPT, true) = (ty, res))) as [[= <- <-]|Hd].
      * rewrite Hsame in Hq. apply elem_of_cons in Hq as [->|Hq]; [by apply Hz|by apply Hr].
      * rewrite (Hothers _ _ Hd) in Hq. by apply Hr.
  - split; [by destruct s|done| |by destruct v as [? ? ? ? [] ? ? ? ? ? ?]|by left].
    intros q Hq. simpl. rewrite Hall. by right.
Qed.

(** A zeroed page of memory that changes nothing for the VM. *)
Lemma wp_fresh_zeroed la lv vm v tbl (ret_va : bool) E (Q : Z → machine → Prop) s :
  ept_inv la lv vm v tbl s → E "OOM :("%string →
  (∀ p s', page_ok p → page_unowned la lv p s' → page_zero (m_mem s') p →
     ept_inv la lv vm v tbl s' → translate_kept v v s s' →
     (∀ a, ¬ (p ≤ a < p + PAGE_SIZE) → load_byte (m_mem s') a = load_byte (m_mem s) a) →
     m_vms s' = m_vms s →
     s' = s <| m_mem := m_mem s' |>
            <| m_last_returned_region_index := m_last_returned_region_index s' |>
            <| m_last_returned_page_index := m_last_returned_page_index s' |> →
     Q (if ret_va then P2V_IDENTITY_MAP p else p) s') →
  wp (if ret_va then vmx_get_free_ept_page else vm_manager_get_free_guest_physical_page) E Q s.
Proof.
  intros [Hwf Hvm Hv Hept] HE HQ.
  assert (∀ p c, page_ok p → page_unowned la lv p s → p = candidate_page s c → c ∈ mm_candidates s →
     let s' := (set_last_returned c s) <| m_mem := memset (m_mem s) p 0 PAGE_SIZE |> in
     vmm_wf la lv s' → Q (if ret_va then P2V_IDENTITY_MAP p else p) s') as H.
  { intros p c Hok Hun _ _. generalize (load_byte_memset (m_mem s) p 0 PAGE_SIZE).
    generalize (memset (m_mem s) p 0 PAGE_SIZE). intros m' Hm' s' Hwf'.
    assert (∀ q a, q ∈ all_pages (vm_tracked_pages v) → q ≤ a < q + PAGE_SIZE →
      load_byte m' a = load_byte (m_mem s) a) as Hkeep.
    { intros q a Hq Ha. rewrite Hm', decide_False; [done|]. intros Hp.
      apply (page_ok_disjoint q p a); [|done| |done..].
      - eapply all_pages_ok; [|done]. apply (vw_tracked _ _ _ Hwf vm v Hvm Hv).
      - intros ->. by apply (proj2 Hun vm v Hvm Hv). }
    destruct (vm_ept_wf_mem la lv s vm v tbl m' Hwf Hvm Hv Hept Hkeep) as [Hept' Htr].
    apply HQ; [done|by split; apply Hun| |by split|exact Htr| |done|by destruct s].
    - intros a Ha. simpl. by rewrite Hm', decide_True.
    - intros a Ha. simpl. by rewrite Hm', decide_False. }
  destruct ret_va; [eapply wp_vmx_get_free_ept_page|eapply wp_vm_manager_get_free_guest_physical_page];
    eauto.
Qed.

(** Getting a zeroed page and tracking it. *)
Lemma guest_frame_fresh vm v p l' s s1 s' :
  m_vms s !! vm = Some v →
  (∀ a, ¬ (p ≤ a < p + PAGE_SIZE) → load_byte (m_mem s1) a = load_byte (m_mem s) a) →
  m_vms s1 = m_vms s →
  s1 = s <| m_mem := m_mem s1 |>
         <| m_last_returned_region_index := m_last_returned_region_index s1 |>
         <| m_last_returned_page_index := m_last_returned_page_index s1 |> →
  guest_frame vm v (v <| vm_tracked_pages := l' |>) s1 s' → m_mem s' = m_mem s1 →
  p ∈ all_pages l' → guest_frame vm v (v <| vm_tracked_pages := l' |>) s s'.
Proof.
  intros Hv Hm Hvms Heq [E2 _ A2 V2 F2] Hm2 Hp. split; [|intros a Ha|done|done|done].
  - rewrite E2 at 1. rewrite Heq. simpl. done.
  - rewrite Hm2. apply Hm. by apply Ha.
Qed.


Lemma guest_frame_refl vm v s : m_vms s !! vm = Some v → guest_frame vm v v s s.
Proof. intros Hv. apply ept_guest_frame. by apply ept_frame_refl. Qed.

(** The first loop of [vm_manager_allocate_guest_physical_memory]. *)
Lemma wp_reserve_ept_pages la lv vm v tbl n E (Q : () → machine → Prop) s :
  ept_inv la lv vm v tbl s → 0 ≤ n →
  E "OOM :("%string → E "subarenas not supported right now"%string →
  (∀ v' s', ept_inv la lv vm v' tbl s' → guest_frame vm v v' s s' → translate_kept v v' s s' →
     guest_pages v' = guest_pages v → vm_guest_physical_pages v' = vm_guest_physical_pages v →
     Q () s') →
  wp (mfor n (λ _,
        ept_page ← vmx_get_free_ept_page;
        vm_manager_track_page vm (V2P_IDENTITY_MAP ept_page) VM_PAGE_TYPE_EPT true)) E Q s.
Proof.
  intros Hinv Hn HE1 HE2 HQ.
  eapply wp_post; [eapply (wp_for (λ _ s', ∃ v', ept_inv la lv vm v' tbl s' ∧
    guest_frame vm v v' s s' ∧ translate_kept v v' s s' ∧ guest_pages v' = guest_pages v ∧
    vm_guest_physical_pages v' = vm_guest_physical_pages v)); [done| |]|].
  - exists v. split_and!; [done|by apply guest_frame_refl, Hinv|done..].
  - intros _ s1 _ (v1 & Hinv1 & Hf1 & Ht1 & Hg1 & Hp1). wp_step.
    eapply (wp_fresh_zeroed la lv vm v1 tbl true); [done|done|].
    intros p s2 Hok Hun Hz Hinv2 Ht2 Hm2 Hvms2 Heq2. rewrite V2P_P2V_page by done.
    eapply wp_track_other; [done..|]. intros l' s3. cbv zeta. intros Hinv3 Hadd Hm3 Hf3.
    exists (v1 <| vm_tracked_pages := l' |>). split_and!; [done| | | |done].
    + eapply guest_frame_trans; [exact Hf1|].
      eapply guest_frame_fresh; [apply Hinv1|done..|].
      destruct Hadd as (_ & -> & _). by left.
    + intros g Hg. transitivity (ept_translate v1 (m_mem s2) g); [|by rewrite Ht2, Ht1].
      rewrite <-Hm3. done.
    + destruct Hadd as (_ & _ & Ho). simpl. by rewrite Ho.
  - intros [] s' (v' & ? & ? & ? & ? & ?). by eapply HQ.
Qed.

(** The guest sees the pages [hosts], in this order, from address 0. *)
Definition guest_memory_is (v : vm_t) (m : mem) (hosts : list Z) : Prop :=
  ∀ gpa, 0 ≤ gpa < 2 ^ 48 →
    ept_translate v m gpa = (λ h, h + gpa mod PAGE_SIZE) <$> hosts !! Z.to_nat (gpa / PAGE_SIZE).

Lemma guest_memory_is_mapped v v' s s' hosts p :
  guest_memory_is v (m_mem s) hosts → page_ok p →
  translate_mapped v v' s s' (Z.of_nat (length hosts) * PAGE_SIZE) p →
  guest_memory_is v' (m_mem s') (hosts ++ [p]).
Proof.
  intros Hg Hok Hm gpa Hgpa. rewrite Hm by done. unfold PAGE_SIZE.
  rewrite Z.div_mul by lia. destruct (Z.eqb_spec (gpa / 4096) (Z.of_nat (length hosts))) as [->|Hne].
  - rewrite Nat2Z.id, lookup_app_r, Nat.sub_diag by lia. simpl.
    rewrite entry_table_page, GET_OFFSET_mod by done. f_equal.
    apply (lor_disjoint 12); [lia|apply Hok|by apply Z.mod_pos_bound].
  - rewrite Hg by done. unfold PAGE_SIZE.
    destruct (decide (gpa / 4096 < Z.of_nat (length hosts))).
    + rewrite lookup_app_l by zlia. done.
    + rewrite !lookup_ge_None_2; [done|rewrite length_app; simpl; zlia|zlia].
Qed.

(** A page of the guest keeps its bytes when the tables change. *)
Lemma page_zero_frame la lv vm v v' tbl' s s' p :
  ept_inv la lv vm v' tbl' s' → ept_frame [] vm v v' s s' → p ∈ guest_pages v' →
  page_zero (m_mem s) p → page_zero (m_mem s') p.
Proof.
  intros [Hwf Hvm Hv Hept] Hf Hp Hz a Ha.
  rewrite (ef_mem _ _ _ _ _ _ Hf); [by apply Hz|]. intros q Hq.
  assert (page_ok p) as Hokp by by eapply tracked_page_ok.
  assert (page_ok q) as Hokq by by eapply tracked_page_ok.
  apply (page_ok_disjoint p q a); try done. intros ->.
  pose proof (tr_nodup _ (vw_tracked _ _ _ Hwf vm v' Hvm Hv)) as Hnd.
  by eapply (pages_of_disjoint _ VM_PAGE_TYPE_GUEST_PHYSICAL false VM_PAGE_TYPE_EPT false).
Qed.

(** The second loop. *)
Lemma wp_allocate_guest_pages la lv vm v tbl n E (Q : () → machine → Prop) s :
  ept_inv la lv vm v tbl s → 0 ≤ n → n * PAGE_SIZE ≤ 2 ^ 48 →
  guest_pages v = [] → guest_memory_is v (m_mem s) [] →
  E "OOM :("%string → E "subarenas not supported right now"%string →
  (∀ v' tbl' s' hosts, ept_inv la lv vm v' tbl' s' → guest_frame vm v v' s s' →
     length hosts = Z.to_nat n → guest_pages v' ≡ₚ hosts → guest_memory_is v' (m_mem s') hosts →
     (∀ p, p ∈ hosts → page_zero (m_mem s') p) →
     vm_guest_physical_pages v' = vm_guest_physical_pages v → Q () s') →
  wp (mfor n (λ i,
        page_pa ← vm_manager_get_free_guest_physical_page;
        vm_manager_track_page vm page_pa VM_PAGE_TYPE_GUEST_PHYSICAL false;;
        vmx_ept_map_page vm (u64 (i * PAGE_SIZE)) page_pa)) E Q s.
Proof.
  intros Hinv Hn Hbound Hg0 Ht0 HE1 HE2 HQ.
  eapply wp_post; [eapply (wp_for (λ i s', ∃ v' tbl' hosts, ept_inv la lv vm v' tbl' s' ∧
    guest_frame vm v v' s s' ∧ Z.of_nat (length hosts) = i ∧ guest_pages v' ≡ₚ hosts ∧
    guest_memory_is v' (m_mem s') hosts ∧ (∀ p, p ∈ hosts → page_zero (m_mem s') p) ∧
    vm_guest_physical_pages v' = vm_guest_physical_pages v)); [done| |]|].
  - exists v, tbl, []. split_and!; [done|by apply guest_frame_refl, Hinv|done|by rewrite Hg0|done| |done].
    by intros p ?%elem_of_nil.
  - intros i s1 Hi (v1 & tbl1 & hosts & Hinv1 & Hf1 & Hlen & Hg1 & Ht1 & Hz1 & Hp1). wp_step.
    eapply (wp_fresh_zeroed la lv vm v1 tbl1 false); [done|done|].
    intros p s2 Hok Hun Hz Hinv2 Ht2 Hm2 Hvms2 Heq2. wp_step.
    eapply wp_track_other; [done..|]. intros l' s3. cbv zeta. intros Hinv3 Hadd Hm3 Hf3.
    set (v3 := v1 <| vm_tracked_pages := l' |>) in *.
    assert (guest_pages v3 ≡ₚ p :: hosts) as Hg3.
    { destruct Hadd as (Hl & _ & _). simpl. by rewrite Hl, Hg1. }
    assert (∀ q, q ∈ hosts → page_zero (m_mem s3) q) as Hz3.
    { intros q Hq a Ha. rewrite Hm3, Hm2; [by eapply Hz1|].
      assert (q ∈ guest_pages v1) as Hq1 by by rewrite Hg1.
      assert (page_ok q) by (eapply tracked_page_ok; [apply Hinv1..|exact Hq1]).
      apply (page_ok_disjoint q p a); try done. intros ->.
      apply (proj2 Hun vm v1); [apply Hinv1|rewrite Hvms2; apply Hinv1|by eapply pages_of_subset]. }
    assert (guest_memory_is v3 (m_mem s3) hosts) as Ht3.
    { intros g Hg. rewrite <-Ht1, <-Ht2, Hm3 by done. done. }
    unfold PAGE_SIZE in Hbound |- *. rewrite wrap_small by lia.
    eapply wp_vmx_ept_map_page; [done|lia|done|done| |].
    { intros Hs. rewrite Ht3 in Hs by lia. unfold PAGE_SIZE in Hs. rewrite Z.div_mul in Hs by lia.
      rewrite <-Hlen, Nat2Z.id, lookup_ge_None_2 in Hs by lia. by apply is_Some_None in Hs. }
    intros v4 tbl4 s4 Hinv4 Hf4 _ _ Hmap.
    assert (guest_pages v4 ≡ₚ p :: hosts) as Hg4
      by (rewrite (vf_guest _ _ (ef_vm _ _ _ _ _ _ Hf4)); done).
    exists v4, tbl4, (hosts ++ [p]). split_and!.
    + done.
    + eapply guest_frame_trans; [exact Hf1|]. eapply guest_frame_trans; [|by apply ept_guest_frame].
      eapply guest_frame_fresh; [apply Hinv1|done..|].
      destruct Hadd as (_ & -> & _). by left.
    + rewrite length_app. simpl. lia.
    + rewrite Hg4. apply Permutation_cons_append.
    + eapply guest_memory_is_mapped; [done|done|]. by rewrite Hlen.
    + intros q Hq. eapply page_zero_frame; [done|done|rewrite Hg4; set_solver|].
      apply elem_of_app in Hq as [Hq| ->%list_elem_of_singleton]; [by apply Hz3|by rewrite Hm3].
    + rewrite (vf_eq _ _ (ef_vm _ _ _ _ _ _ Hf4)). done.
  - intros [] s' (v' & tbl' & hosts & ? & ? & ? & ? & ? & ? & ?). eapply HQ; eauto. lia.
Qed.

End guest_memory.

Section allocate.
Context `{HW : Hardware}.
Implicit Types (s : machine).
Abbreviation guest_pages v := (pages_of VM_PAGE_TYPE_GUEST_PHYSICAL false (vm_tracked_pages v)).

Lemma NoDup_pages_of ty res l : NoDup (all_pages l) → NoDup (pages_of ty res l).
Proof.
  induction l as [|e l IH]; cbn [all_pages pages_of]; [done|].
  intros (H1 & H2 & H3)%NoDup_app. apply NoDup_app. split_and!; [| |by apply IH].
  - destruct (entry_kind_is ty res e); [done|constructor].
  - intros p Hp Hp'. destruct (entry_kind_is ty res e); [|by apply elem_of_nil in Hp].
    apply (H2 p Hp). by eapply pages_of_subset.
Qed.

Lemma CEIL_DIV_nonneg a b : 0 ≤ a → 0 < b → 0 ≤ CEIL_DIV a b.
Proof. intros Ha Hb. unfold CEIL_DIV. pose proof (Z.div_pos a b Ha Hb). case_match; lia. Qed.

Lemma guest_ept_pages_nonneg n : 0 ≤ n → 0 ≤ guest_ept_pages n.
Proof.
  intros Hn. unfold guest_ept_pages. change PAGE_TABLE_ENTRIES with 512. cbv zeta.
  assert (∀ a, 0 ≤ a → 0 ≤ CEIL_DIV a 512) as H by (intros; by apply CEIL_DIV_nonneg).
  pose proof (H _ Hn) as H1. pose proof (H _ H1) as H2. pose proof (H _ H2) as H3.
  pose proof (H _ H3). lia.
Qed.

(** The number of pages recorded in a VM is none of the invariant's business. *)
Lemma ept_inv_set_pages la lv vm v tbl s n :
  ept_inv la lv vm v tbl s →
  let v' := v <| vm_guest_physical_pages := n |> in
  let s' := s <| m_vms := <[vm := v']> (m_vms s) |> in
  ept_inv la lv vm v' tbl s' ∧ guest_frame vm v v' s s'.
Proof.
  intros [Hwf Hvm Hv Hept] v' s'. split.
  - split; [|done|apply lookup_insert_eq|by destruct Hept].
    pose proof (vmm_wf_update la lv s vm v v' (m_arenas s)) as H. rewrite set_m_arenas_id in H.
    apply H; [done..|exact (vw_tracked _ _ _ Hwf vm v Hvm Hv)|by left|apply Hwf].
  - split; [by destruct s|done|done|by destruct v as [? ? ? ? [] ? ? ? ? ? ?]|by left].
Qed.

Lemma wp_vm_manager_allocate_guest_physical_memory la lv vm v tbl n E (Q : () → machine → Prop) s :
  ept_inv la lv vm v tbl s → 0 ≤ n → n * PAGE_SIZE ≤ 2 ^ 48 →
  vm_guest_physical_pages v = 0 → guest_pages v = [] → guest_memory_is v (m_mem s) [] →
  E "OOM :("%string → E "subarenas not supported right now"%string →
  (∀ v' tbl' s' hosts, ept_inv la lv vm v' tbl' s' → guest_frame vm v v' s s' →
     vm_guest_physical_pages v' = n →
     length hosts = Z.to_nat n → guest_pages v' ≡ₚ hosts → guest_memory_is v' (m_mem s') hosts →
     (∀ p, p ∈ hosts → page_zero (m_mem s') p) → Q () s') →
  wp (vm_manager_allocate_guest_physical_memory vm n) E Q s.
Proof.
  intros Hinv Hn Hb Hp Hg Ht HE1 HE2 HQ. unfold vm_manager_allocate_guest_physical_memory.
  wp_step. eapply wp_vm_get; [apply Hinv|]. rewrite Hp, Z.eqb_refl. cbn [negb].
  wp_step. eapply wp_vm_modify; [apply Hinv|].
  destruct (ept_inv_set_pages la lv vm v tbl s n Hinv) as [Hinv1 Hf1]. cbv zeta in Hinv1, Hf1.
  wp_step. eapply wp_reserve_ept_pages; [exact Hinv1|by apply guest_ept_pages_nonneg|done|done|].
  intros v2 s2 Hinv2 Hf2 Ht2 Hg2 Hp2.
  eapply wp_allocate_guest_pages; [exact Hinv2|done|done|by rewrite Hg2| |done|done|].
  { intros g Hgpa. by rewrite Ht2, <-Ht by done. }
  intros v3 tbl3 s3 hosts Hinv3 Hf3 Hlen Hg3 Hm3 Hz3 Hp3.
  eapply HQ; [exact Hinv3| |by rewrite Hp3, Hp2|done|done|done|done].
  eapply guest_frame_trans; [exact Hf1|]. by eapply guest_frame_trans.
Qed.

(** C7: [vm_manager_allocate_guest_physical_memory] gives a VM without memory [n] pages
    of it: unless the host runs out of memory, the guest-physical addresses below
    [n * PAGE_SIZE] translate, page by page, to [n] distinct zeroed host pages that
    belong to this VM and to no other, all other addresses translate to nothing, and no
    byte of another VM changes. *)
Theorem vm_manager_allocate_guest_physical_memory_correct la lv vm v tbl n s :
  ept_inv la lv vm v tbl s → 0 ≤ n → n * PAGE_SIZE ≤ 2 ^ 48 →
  vm_guest_physical_pages v = 0 → guest_pages v = [] → guest_memory_is v (m_mem s) [] →
  (∃ msg, vm_manager_allocate_guest_physical_memory vm n s = Panic msg ∧ out_of_memory msg) ∨
  ∃ v' tbl' s' hosts, vm_manager_allocate_guest_physical_memory vm n s = Ok ((), s') ∧
    ept_inv la lv vm v' tbl' s' ∧ vm_guest_physical_pages v' = n ∧
    length hosts = Z.to_nat n ∧ NoDup hosts ∧ guest_memory_is v' (m_mem s') hosts ∧
    (∀ p, p ∈ hosts → page_ok p ∧ p ∈ guest_pages v' ∧ page_zero (m_mem s') p) ∧
    (∀ vm2 v2 q a, vm2 ∈ lv → vm2 ≠ vm → m_vms s !! vm2 = Some v2 →
       q ∈ all_pages (vm_tracked_pages v2) → q ≤ a < q + PAGE_SIZE →
       q ∉ hosts ∧ load_byte (m_mem s') a = load_byte (m_mem s) a).
Proof.
  intros Hinv Hn Hb Hp Hg Ht.
  assert (wp (vm_manager_allocate_guest_physical_memory vm n) out_of_memory
    (λ _ s', ∃ v' tbl' hosts, ept_inv la lv vm v' tbl' s' ∧ guest_frame vm v v' s s' ∧
       vm_guest_physical_pages v' = n ∧ length hosts = Z.to_nat n ∧ guest_pages v' ≡ₚ hosts ∧
       guest_memory_is v' (m_mem s') hosts ∧ (∀ p, p ∈ hosts → page_zero (m_mem s') p)) s) as H.
  { eapply wp_vm_manager_allocate_guest_physical_memory; [done..|by left|by right|]. eauto 15. }
  unfold wp in H.
  destruct (vm_manager_allocate_guest_physical_memory vm n s) as [[[] s']|msg| | |]; try done;
    [right|by left; exists msg].
  destruct H as (v' & tbl' & hosts & Hinv' & Hf & Hn' & Hlen & Hperm & Hm & Hz).
  pose proof Hinv' as [Hwf' Hvm' Hv' _].
  exists v', tbl', s', hosts. split_and!; try done.
  - rewrite <-Hperm. apply NoDup_pages_of, (tr_nodup _ (vw_tracked _ _ _ Hwf' vm v' Hvm' Hv')).
  - intros p Hin. assert (p ∈ guest_pages v') as Hin' by by rewrite Hperm.
    split_and!; [by eapply tracked_page_ok|done|by apply Hz].
  - intros vm2 v2 q a Hvm2 Hne Hv2 Hq Ha.
    assert (m_vms s' !! vm2 = Some v2) as Hv2'.
    { rewrite (gf_eq _ _ _ _ _ Hf). simpl. by rewrite lookup_insert_ne. }
    assert (∀ p, p ∈ all_pages (vm_tracked_pages v') → p ≠ q) as Hdisj.
    { intros p Hin ->. exact (vw_disjoint _ _ _ Hwf' vm2 vm v2 v' q Hvm2 Hvm' Hne Hv2' Hv' Hq Hin). }
    assert (page_ok q) as Hokq by (eapply all_pages_ok; [apply (vw_tracked _ _ _ Hwf' vm2 v2 Hvm2 Hv2')|done]).
    split.
    + intros Hin. apply (Hdisj q); [|done].
      apply (pages_of_subset VM_PAGE_TYPE_GUEST_PHYSICAL false). by rewrite Hperm.
    + apply (gf_mem _ _ _ _ _ Hf). intros p Hin. apply (page_ok_disjoint q p a); [done| |by apply not_eq_sym, Hdisj|done].
      eapply all_pages_ok; [apply (vw_tracked _ _ _ Hwf' vm v' Hvm' Hv')|done].
Qed.

End allocate.

(** Witness: four pages for the VM of a machine with twelve free pages. *)
Lemma vm_manager_allocate_guest_physical_memory_correct_witness :
  let s := one_vm_machine 13 in
  is_ok (vm_manager_allocate_guest_physical_memory vm_address 4 s) = true ∧
  ((∃ msg, vm_manager_allocate_guest_physical_memory vm_address 4 s = Panic msg ∧ out_of_memory msg) ∨
   ∃ v' tbl' s' hosts, vm_manager_allocate_guest_physical_memory vm_address 4 s = Ok ((), s') ∧
     ept_inv [vm_arena] [vm_address] vm_address v' tbl' s' ∧ vm_guest_physical_pages v' = 4 ∧
     length hosts = 4%nat ∧ NoDup hosts ∧ guest_memory_is v' (m_mem s') hosts).
Proof.
  intros s. split; [vm_compute; reflexivity|].
  destruct (vm_manager_allocate_guest_physical_memory_correct [vm_arena] [vm_address] vm_address
    zero_vm ∅ 4 s) as [H|(v' & tbl' & s' & hosts & H1 & H2 & H3 & H4 & H5 & H6 & _)].
  - apply one_vm_machine_ept. lia.
  - lia.
  - unfold PAGE_SIZE. lia.
  - reflexivity.
  - reflexivity.
  - intros gpa Hgpa. reflexivity.
  - left. exact H.
  - right. exists v', tbl', s', hosts. split_and!; assumption.
Defined.

(** * Creating a VM *)

Section create.
Context `{HW : Hardware}.
Implicit Types (s : machine).

(** The objects of the VMs are in the used part of an arena. *)
Definition vm_objects_wf (la lv : list Z) (s : machine) : Prop :=
  ∀ vm, vm ∈ lv → ∃ a h, a ∈ la ∧ m_arenas s !! a = Some h ∧
    a + sizeof_arena_header_t ≤ vm ∧
    vm + sizeof_vm_t ≤ a + sizeof_arena_header_t + arena_used_size h.

(** The object that comes next in an arena is not the one of a VM. *)
Lemma vm_objects_fresh la lv s a h :
  arenas_wf la s → vm_objects_wf la lv s → a ∈ la → m_arenas s !! a = Some h →
  a + arena_used_size h + sizeof_arena_header_t + sizeof_vm_t ≤ a + PAGE_SIZE →
  a + arena_used_size h + sizeof_arena_header_t ∉ lv.
Proof.
  intros Hwf Hobj Ha Hh Hfit Hin.
  destruct (Hobj _ Hin) as (a' & h' & Ha' & Hh' & Hlow & Hhigh).
  destruct (aw_page _ _ Hwf a Ha) as (p & Hp & ->).
  destruct (aw_page _ _ Hwf a' Ha') as (p' & Hp' & ->).
  destruct (aw_header _ _ Hwf _ _ Ha Hh) as (_ & Hu & Hu').
  destruct (aw_header _ _ Hwf _ _ Ha' Hh') as (_ & Hv & Hv').
  rewrite !P2V_page_ok in * by done.
  destruct (decide (p = p')) as [->|Hne].
  - assert (h' = h) as -> by congruence.
    unfold sizeof_arena_header_t, sizeof_vm_t, PAGE_SIZE in *. lia.
  - unfold sizeof_arena_header_t, sizeof_vm_t in *.
    apply (page_ok_disjoint p p' (p + arena_used_size h + 32)); [done..|unfold PAGE_SIZE in *; lia|].
    unfold PAGE_SIZE in *. lia.
Qed.

Lemma vmm_wf_nil la s :
  mm_wf la [] s → arenas_wf la s → m_vm_manager_arena s = 0 ∨ m_vm_manager_arena s ∈ la → vmm_wf la [] s.
Proof.
  intros Hmm Ha Hm. split; [done|done|destruct Hm; [by left|by right]|..].
  - by intros vm v H%elem_of_nil.
  - by intros vm v p H%elem_of_nil.
  - by intros vm vm' v v' p H%elem_of_nil.
Qed.

(** The arenas may grow. *)
Lemma vmm_wf_arenas la lv s heap :
  vmm_wf la lv s → arenas_wf la (s <| m_arenas := heap |>) → vmm_wf la lv (s <| m_arenas := heap |>).
Proof.
  intros [[[_ _ Hl] Hmm Hst] _ Ha Ht Hpr Hd] Haw. split; [|by split; apply Haw|done..].
  split; [split|done|done]; simpl; [eapply dll_linked, Haw|intros a h; apply (aw_header _ _ Haw a h)|done].
Qed.

(** A page that the allocator returned becomes an arena. *)
Lemma vmm_wf_new_arena la lv s p c heap :
  let a := P2V_IDENTITY_MAP p in
  let s' := set_last_returned c s <| m_arenas := heap |> <| m_arena_head := a |> in
  vmm_wf la lv s → page_ok p → page_in_use la lv p s = false →
  arenas_wf (a :: la) s' → mm_wf (a :: la) lv s' → vmm_wf (a :: la) lv s'.
Proof.
  intros a s' Hwf Hok Hfree Haw Hmm. pose proof (page_not_in_use_unowned _ _ _ _ Hwf Hfree) as [_ Hun].
  pose proof Hwf as [_ _ Ha Ht Hpr Hd]. split; [done|done| |done| |done].
  { destruct Ha as [[? ?]|?]; [by left|right; by right]. }
  intros vm v q Hvm Hv Hq. specialize (Hpr vm v q Hvm Hv Hq). simpl in Hv.
  assert (page_ok q) as Hokq by (eapply all_pages_ok; [apply (Ht vm v Hvm Hv)|done]).
  assert (q ≠ p) as Hne by (intros ->; by apply (Hun vm v Hvm Hv)).
  unfold owned_elsewhere, arena_uses_page in *. cbn [existsb].
  change (m_chainload s') with (m_chainload s). change (mm_page_used_by_vmx q s') with (mm_page_used_by_vmx q s).
  unfold a at 1. rewrite V2P_P2V_page by done.
  assert (Z.land q PAGE_MASK =? p = false) as ->; [|done].
  apply Z.eqb_neq. rewrite PAGE_MASK_spec. destruct Hokq. unfold PAGE_SIZE in *. zlia.
Qed.

(** The variables of the devices are none of the invariant's business. *)
Lemma vmm_wf_devices la lv s arena devices uarts :
  vmm_wf la lv s →
  vmm_wf la lv (s <| m_vmd_device_arena := arena |> <| m_devices := devices |> <| m_uarts := uarts |>).
Proof.
  intros [[[] ? ?] Haw ? ? ? ?]. split;
    first [done|by split; apply Haw|by split; [split|..]].
Qed.

(** What creating a VM may change. *)
Definition create_frame s s' : Prop :=
  s' = s <| m_last_returned_region_index := m_last_returned_region_index s' |>
         <| m_last_returned_page_index := m_last_returned_page_index s' |>
         <| m_arenas := m_arenas s' |> <| m_arena_head := m_arena_head s' |>
         <| m_vm_manager_arena := m_vm_manager_arena s' |>
         <| m_vms := m_vms s' |> <| m_vm_list := m_vm_list s' |>.

Lemma wp_new_vm la lv name E (Q : Z → machine → Prop) s :
  vmm_wf la lv s → m_vm_manager_arena s ∈ la → vm_objects_wf la lv s →
  E "subarenas not supported right now"%string →
  (∀ vm s', let v := (zero_vm <| vm_next := m_vm_list s |>) <| vm_name := name |>
                             <| vm_permanent_xcr0 := 1 |> in
     vm ∉ lv → vmm_wf la (vm :: lv) s' → vm_objects_wf la (vm :: lv) s' →
     m_vms s' = <[vm := v]> (m_vms s) → m_vm_list s' = vm → create_frame s s' → Q vm s') →
  wp (vm_manager_arena ← mgets m_vm_manager_arena;
      result ← arena_allocate vm_manager_arena sizeof_vm_t;
      mmodify (λ s, s <| m_vms := <[result := zero_vm]> (m_vms s) |>);;
      vm_list ← mgets m_vm_list;
      vm_modify result (λ v, v <| vm_next := vm_list |>);;
      mmodify (λ s, s <| m_vm_list := result |>);;
      vm_modify result (λ v, v <| vm_name := name |>);;
      vm_modify result (λ v, v <| vm_permanent_xcr0 := 1 |>);;
      mret result) E Q s.
Proof.
  intros Hwf Ha Hobj HE HQ. set (a := m_vm_manager_arena s) in *.
  destruct (arenas_wf_lookup la s a (vw_arenas _ _ _ Hwf) Ha) as [h Hh].
  destruct (aw_header _ _ (vw_arenas _ _ _ Hwf) a h Ha Hh) as (_ & Hused & _).
  wp_step. apply wp_gets. wp_step.
  eapply wp_arena_allocate; [apply Hwf|done|done|done|done|]. cbv zeta. intros Hfit Haw.
  assert (a + arena_used_size h + sizeof_arena_header_t ∉ lv) as Hnin.
  { eapply vm_objects_fresh; [apply Hwf|done..|lia]. }
  set (vm := a + arena_used_size h + sizeof_arena_header_t) in *.
  assert (vm ≠ 0) as Hvm0.
  { destruct (aw_page _ _ (vw_arenas _ _ _ Hwf) a Ha) as (p & [? ?] & Hp).
    unfold vm, sizeof_arena_header_t. rewrite Hp, P2V_page_ok by done.
    unfold RKHV_PHYSICAL_MEMORY_BASE. lia. }
  wp_step. apply wp_modify. wp_step. apply wp_gets.
  wp_step. eapply wp_vm_modify; [apply lookup_insert_eq|]. wp_step. apply wp_modify.
  wp_step. eapply wp_vm_modify; [apply lookup_insert_eq|].
  wp_step. eapply wp_vm_modify; [apply lookup_insert_eq|]. wp_step. simpl.
  rewrite !insert_insert_eq. simpl.
  pose proof Hwf as [[[_ _ Hl] Hmm Hst] _ Harena Htr Hpr Hd].
  apply HQ; clear HQ; [done| | |done|done|by destruct s].
  - split; simpl.
    + split; [split|done|done]; simpl.
      * eapply dll_linked, Haw.
      * intros b hb Hb Hhb. by apply (aw_header _ _ Haw b hb).
      * econstructor; [done|apply lookup_insert_eq|]. by apply linked_insert_ne.
    + by split; apply Haw.
    + by right.
    + intros x vx Hx. rewrite lookup_insert. case_decide as Heq; [intros [= <-]; split; constructor|].
      apply elem_of_cons in Hx as [->|Hx]; [done|]. by apply Htr.
    + intros x vx p Hx. rewrite lookup_insert.
      case_decide as Heq; [intros [= <-] Hp; by apply elem_of_nil in Hp|].
      apply elem_of_cons in Hx as [->|Hx]; [done|]. by apply Hpr.
    + intros x y vx vy p Hx Hy Hne. rewrite !lookup_insert.
      case_decide as Hvx; [intros [= <-] _ Hp; by apply elem_of_nil in Hp|].
      case_decide as Hvy; [intros _ [= <-] _; apply not_elem_of_nil|].
      apply elem_of_cons in Hx as [->|Hx]; [done|]. apply elem_of_cons in Hy as [->|Hy]; [done|].
      by apply Hd.
  - assert (∀ b hb, m_arenas s !! b = Some hb → ∃ hb',
      <[a := h <| arena_used_size := arena_used_size h + sizeof_vm_t |>]> (m_arenas s) !! b = Some hb' ∧
      arena_used_size hb ≤ arena_used_size hb') as Hgrow.
    { intros b hb Hb. rewrite lookup_insert. case_decide as Heq; [|by exists hb].
      subst b. assert (hb = h) as -> by congruence. eexists. split; [done|].
      simpl. unfold sizeof_vm_t. lia. }
    intros x Hx. simpl. apply elem_of_cons in Hx as [->|Hx].
    + eexists a, _. split_and!; [done|apply lookup_insert_eq| |]; simpl; unfold vm; lia.
    + destruct (Hobj x Hx) as (b & hb & Hb & Hhb & Hlow & Hhigh).
      destruct (Hgrow b hb Hhb) as (hb' & Hhb' & Hle).
      exists b, hb'. split_and!; [done|done|done|lia].
Qed.

(** [vm_manager_create_vmx_machine]: the first call creates the arena of the VM manager. *)
Lemma wp_vm_manager_create_vmx_machine la lv name E (Q : Z → machine → Prop) s :
  vmm_wf la lv s → vm_objects_wf la lv s →
  E "OOM :("%string → E "subarenas not supported right now"%string →
  (∀ la' vm s', let v := (zero_vm <| vm_next := m_vm_list s |>) <| vm_name := name |>
                                 <| vm_permanent_xcr0 := 1 |> in
     vm ∉ lv → vmm_wf la' (vm :: lv) s' → vm_objects_wf la' (vm :: lv) s' →
     m_vms s' = <[vm := v]> (m_vms s) → m_vm_list s' = vm → create_frame s s' → Q vm s') →
  wp (vm_manager_create_vmx_machine name) E Q s.
Proof.
  intros Hwf Hobj HE1 HE2 HQ. unfold vm_manager_create_vmx_machine. wp_step. apply wp_get.
  destruct (Z.eqb_spec (m_vm_manager_arena s) 0) as [H0|H0].
  - destruct (vw_arena _ _ _ Hwf) as [[_ Hlv]|Hin].
    2: { exfalso. rewrite H0 in Hin.
         by apply (linked_not_null _ _ _ _ (dll_linked _ _ _ _ (aw_dll _ _ (vw_arenas _ _ _ Hwf)))). }
    subst lv. wp_step. wp_step. eapply wp_arena_create; [apply Hwf|apply Hwf|done|]. cbv zeta.
    intros p c heap Hc Hp Hok Hfree Hnin Haw Hmm Hnew. apply wp_modify.
    eapply wp_new_vm with (la := P2V_IDENTITY_MAP p :: la) (lv := []); [|by left| |done|].
    + apply vmm_wf_nil; [|by split; apply Haw|right; by left].
      by destruct Hmm as [[] ? ?]; split; [split|..].
    + by intros x ?%elem_of_nil.
    + intros vm s' v. simpl in v. intros. eapply HQ; [done..|].
      match goal with H : create_frame _ s' |- _ => unfold create_frame in H |- *; rewrite H at 1; reflexivity end.
  - wp_step. apply wp_ret.
    eapply wp_new_vm; [done| |done|done|]; [by destruct (vw_arena _ _ _ Hwf) as [[? _]|?]|].
    intros vm s' v. intros. by eapply HQ.
Qed.

(** C32: [vm_manager_create_vmx_machine] puts a new VM, with no memory, no device and no
    EPT, at the head of the list of VMs: the other VMs keep their state, memory is not
    touched, and the invariant holds for the longer list. The only failures are a lack
    of memory. *)
Theorem vm_manager_create_vmx_machine_correct la lv name s :
  vmm_wf la lv s → vm_objects_wf la lv s →
  (∃ msg, vm_manager_create_vmx_machine name s = Panic msg ∧ out_of_memory msg) ∨
  ∃ la' vm s', vm_manager_create_vmx_machine name s = Ok (vm, s') ∧ vm ∉ lv ∧
    m_vms s' = <[vm := (zero_vm <| vm_next := m_vm_list s |>) <| vm_name := name |>
                               <| vm_permanent_xcr0 := 1 |>]> (m_vms s) ∧
    m_vm_list s' = vm ∧ m_mem s' = m_mem s ∧
    vmm_wf la' (vm :: lv) s' ∧ vm_objects_wf la' (vm :: lv) s'.
Proof.
  intros Hwf Hobj.
  assert (wp (vm_manager_create_vmx_machine name) out_of_memory
    (λ vm s', ∃ la', vm ∉ lv ∧
      m_vms s' = <[vm := (zero_vm <| vm_next := m_vm_list s |>) <| vm_name := name |>
                                 <| vm_permanent_xcr0 := 1 |>]> (m_vms s) ∧
      m_vm_list s' = vm ∧ m_mem s' = m_mem s ∧
      vmm_wf la' (vm :: lv) s' ∧ vm_objects_wf la' (vm :: lv) s') s) as H.
  { eapply wp_vm_manager_create_vmx_machine; [done|done|by left|by right|]. cbv zeta.
    intros la' vm s' Hnin Hwf' Hobj' Hvms Hl Hf. exists la'. split_and!; try done. by rewrite Hf. }
  unfold wp in H. destruct (vm_manager_create_vmx_machine name s) as [[vm s']|msg| | |]; try done.
  - right. destruct H as (la' & H). by exists la', vm, s'.
  - left. by exists msg.
Qed.

End create.

(** Witness: the first VM of a small machine. *)
Lemma vm_manager_create_vmx_machine_correct_witness :
  let s := small_machine 4 in
  is_ok (vm_manager_create_vmx_machine (bytes_of_string "vm") s) = true ∧
  ((∃ msg, vm_manager_create_vmx_machine (bytes_of_string "vm") s = Panic msg ∧ out_of_memory msg) ∨
   ∃ la' vm s', vm_manager_create_vmx_machine (bytes_of_string "vm") s = Ok (vm, s') ∧ vm ∉ [] ∧
     vmm_wf la' [vm] s').
Proof.
  intros s. split; [vm_compute; reflexivity|].
  assert (vmm_wf [] [] s) as Hwf.
  { apply vmm_wf_nil; [apply small_machine_wf; lia| |by left].
    split; [apply dll_nil|by intros a H%elem_of_nil|by intros a h H%elem_of_nil]. }
  destruct (vm_manager_create_vmx_machine_correct [] [] (bytes_of_string "vm") s Hwf)
    as [H|(la' & vm & s' & H1 & H2 & _ & _ & _ & H3 & _)].
  - by intros vm ?%elem_of_nil.
  - left. exact H.
  - right. exists la', vm, s'. split_and!; assumption.
Defined.
