(* ===== verification/Uart.v ===== *)
(** The emulated serial port (hv/src/vmm/devices/vmd_8250uart.c, hv/src/vmm/devices/vmd.c).

    [vmd_8250uart_putc] collects the bytes that the guest sends into lines and prints
    each line on the console of the hypervisor; it is proved to print exactly the lines
    of the stream, at most 127 bytes each. *)
From S2P Require Import Prelude Memory Machine Registers SimpleCpu PageUse PageAllocator Arena.
From S2P Require Import VmTracking VmManager Strings Console.

Definition sizeof_vm_device_t : Z := 104.
Definition sizeof_vmd_8250uart_t : Z := 152.

(** Character constants of the code. *)
Definition ESC : Z := 0x1B.
Definition QUOTE : Z := 0x22.
Definition NEWLINE : Z := 0x0A.

Section code.
Context `{HW : Hardware} {PF : PollFuel}.

Definition uart_get (uart : Z) : M machine vmd_8250uart_t :=
  s ← mget;
  match m_uarts s !! uart with Some u => mret u | None => mundefined end.
Definition uart_modify (uart : Z) (f : vmd_8250uart_t → vmd_8250uart_t) : M machine () :=
  u ← uart_get uart;
  mmodify (λ s, s <| m_uarts := <[uart := f u]> (m_uarts s) |>).

(** [uart->output_buffer[i] = v] and its value *)
Definition uart_buffer_store (uart i v : Z) : M machine () :=
  u ← uart_get uart;
  buffer ← buffer_store (uart_output_buffer u) i v;
  uart_modify uart (λ u, u <| uart_output_buffer := buffer |>).
Definition uart_buffer_load (uart i : Z) : M machine Z :=
  u ← uart_get uart;
  match (if 0 <=? i then uart_output_buffer u !! Z.to_nat i else None) with
  | Some v => mret v | None => mundefined
  end.

(** ["\033[34;1mvm \"%s\"(%s):\033[0m %s\n"] *)
Definition uart_line_format : list Z :=
  [ESC] ++ bytes_of_string "[34;1mvm " ++ [QUOTE] ++ bytes_of_string "%s" ++ [QUOTE] ++
  bytes_of_string "(%s):" ++ [ESC] ++ bytes_of_string "[0m %s" ++ [NEWLINE].

Definition vmd_8250uart_putc (vm uart read_byte : Z) : M machine () :=
  u ← uart_get uart;
  (if VMD_8250UART_T_OUTPUT_BUFFER_CAPACITY - 1 <=? uart_output_buffer_size u
   then uart_modify uart (λ u, u <| uart_output_buffer_size := 0 |>) else mret ());;
  u ← uart_get uart;
  uart_buffer_store uart (uart_output_buffer_size u) read_byte;;
  uart_modify uart (λ u, u <| uart_output_buffer_size := u64 (uart_output_buffer_size u + 1) |>);;
  u ← uart_get uart;
  let size := uart_output_buffer_size u in
  if (read_byte =? NEWLINE) || (VMD_8250UART_T_OUTPUT_BUFFER_CAPACITY - 1 <=? size) then
    ends_with_newline ← (if 0 <? size then last ← uart_buffer_load uart (size - 1); mret (last =? NEWLINE)
                         else mret false);
    (if (ends_with_newline : bool) then uart_buffer_store uart (size - 1) 0
     else uart_buffer_store uart size 0);;
    v ← vm_get vm;
    u ← uart_get uart;
    line ← string_at (uart_output_buffer u) 0;
    stdio_printf uart_line_format
      [ArgString (Some (vm_name v)); ArgString (Some (uart_port_name u)); ArgString line];;
    uart_modify uart (λ u, u <| uart_output_buffer_size := 0 |>)
  else mret ().

(** ["\"%s\"(%s) : %ubps INT:%xpb FIFO:%xpb LINE:%xpb MODEM:%xpb"] *)
Definition uart_debug_format : list Z :=
  [QUOTE] ++ bytes_of_string "%s" ++ [QUOTE] ++
  bytes_of_string "(%s) : %ubps INT:%xpb FIFO:%xpb LINE:%xpb MODEM:%xpb".

Definition vmd_8250uart_debug_print_control_regs (vm uart : Z) : M machine () :=
  v ← vm_get vm;
  u ← uart_get uart;
  let baud_rate := if uart_baud_rate_divisor u =? 0 then 0
                   else COM_BAUD_RATE_BASE / uart_baud_rate_divisor u in
  LOG (bytes_of_string "vmd_8250uart") uart_debug_format
    [ArgString (Some (vm_name v)); ArgString (Some (uart_port_name u)); ArgInt baud_rate;
     ArgInt (uart_int_enable_reg u); ArgInt (uart_fifo_control_reg u);
     ArgInt (uart_line_control_reg u); ArgInt (uart_modem_control_reg u)].

Definition uart_dlab (u : vmd_8250uart_t) : bool :=
  truthy (Z.land (uart_line_control_reg u) COM_LINE_CONTROL_DLAB).

(** The [switch] sets [print_debug]. *)
Definition vmd_8250uart_outb_handler (vm device_data port read_byte : Z) : M machine () :=
  let uart := device_data in
  u ← uart_get uart;
  let port_offset := u16 (port - uart_port_base u) in
  print_debug ←
    (if port_offset =? COM_DATA_REG then
       if uart_dlab u then
         uart_modify uart (λ u, u <| uart_baud_rate_divisor :=
           Z.lor (Z.land (uart_baud_rate_divisor u) 0xff00) read_byte |>);; mret true
       else vmd_8250uart_putc vm uart read_byte;; mret false
     else if port_offset =? COM_INT_ENABLE_REG then
       (if uart_dlab u then
          uart_modify uart (λ u, u <| uart_baud_rate_divisor :=
            Z.lor (Z.land (uart_baud_rate_divisor u) 0xff) (Z.shiftl read_byte 8) |>)
        else
          uart_modify uart (λ u, u <| uart_int_enable_reg :=
            Z.land read_byte (Z.lor (Z.lor (Z.lor COM_INT_ENABLE_DATA_AVAILABLE COM_INT_ENABLE_TRANSMIT_EMPTY)
                                           COM_INT_ENABLE_BREAK_OR_ERROR) COM_INT_ENABLE_STATUS_CHANGE) |>));;
       mret true
     else if port_offset =? COM_FIFO_CONTROL_REG then
       uart_modify uart (λ u, u <| uart_fifo_control_reg :=
         Z.land read_byte (Z.lor (Z.lor (Z.lor (Z.lor COM_FIFO_CONTROL_ENABLE COM_FIFO_CONTROL_CLEAR_RX_FIFO)
                                               COM_FIFO_CONTROL_CLEAR_TX_FIFO) COM_FIFO_CONTROL_DMA_MODE)
                                 COM_FIFO_CONTROL_TL_MASK) |>);;
       mret true
     else if port_offset =? COM_LINE_CONTROL_REG then
       uart_modify uart (λ u, u <| uart_line_control_reg := read_byte |>);; mret true
     else if port_offset =? COM_MODEM_CONTROL_REG then
       uart_modify uart (λ u, u <| uart_modem_control_reg :=
         Z.land read_byte (Z.lor (Z.lor (Z.lor COM_MODEM_CONTROL_DTR_PIN COM_MODEM_CONTROL_RTS_PIN)
                                        COM_MODEM_CONTROL_IRQ) COM_MODEM_CONTROL_LOOP) |>);;
       mret true
     else if (port_offset =? COM_LINE_STATUS_REG) || (port_offset =? COM_MODEM_STATUS_REG) ||
             (port_offset =? COM_SCRATCH_REG) then mret true
     else mpanic "Reached 8250uart outb handler with unexpected port");
  if (print_debug : bool) then vmd_8250uart_debug_print_control_regs vm uart else mret ().

Definition vmd_8250uart_inb_handler (vm device_data port : Z) : M machine Z :=
  let uart := device_data in
  u ← uart_get uart;
  let port_offset := u16 (port - uart_port_base u) in
  if port_offset =? COM_DATA_REG then
    if uart_dlab u then mret (Z.land (uart_baud_rate_divisor u) 0xff) else mret 0
  else if port_offset =? COM_INT_ENABLE_REG then
    if uart_dlab u then mret (u8 (Z.shiftr (uart_baud_rate_divisor u) 8))
    else mret (uart_int_enable_reg u)
  else if port_offset =? COM_INT_ID_REG then mret 0
  else if port_offset =? COM_LINE_CONTROL_REG then mret (uart_line_control_reg u)
  else if port_offset =? COM_MODEM_CONTROL_REG then mret (uart_modem_control_reg u)
  else if port_offset =? COM_LINE_STATUS_REG then
    mret (Z.lor COM_LINE_STATUS_TRANSMITTER_HOLDING_REGISTER_EMPTY COM_LINE_STATUS_TRANSMITTER_EMPTY)
  else if port_offset =? COM_MODEM_STATUS_REG then mret 0
  else if port_offset =? COM_SCRATCH_REG then mret 0
  else mpanic "Reached 8250uart inb handler with unexpected port".

Definition vmd_get_device_arena : M machine Z :=
  arena ← mgets m_vmd_device_arena;
  (if arena =? 0 then
     arena ← arena_create;
     mmodify (λ s, s <| m_vmd_device_arena := arena |>)
   else mret ());;
  mgets m_vmd_device_arena.

(** The structures after [memset] to 0. *)
Definition zero_device : vm_device_t :=
  mk_device 0 (replicate (Z.to_nat VM_DEVICE_T_MAX_PORTS) 0) 0 0 None None None None None None.
Definition zero_uart : vmd_8250uart_t :=
  mk_uart (replicate (Z.to_nat VMD_8250UART_T_OUTPUT_BUFFER_CAPACITY) 0) 0 [] 0 0 0 0 0 0.

(** [device->ports[i] = v] *)
Definition device_port_store (device i v : Z) : M machine () :=
  d ← device_get device;
  ports ← buffer_store (dev_ports d) i v;
  device_modify device (λ d, d <| dev_ports := ports |>).

Definition vmd_8250uart_create (port_base : Z) (port_name : list Z) : M machine Z :=
  arena ← vmd_get_device_arena;
  device ← arena_allocate arena sizeof_vm_device_t;
  mmodify (λ s, s <| m_devices := <[device := zero_device]> (m_devices s) |>);;
  arena ← vmd_get_device_arena;
  uart ← arena_allocate arena sizeof_vmd_8250uart_t;
  mmodify (λ s, s <| m_uarts := <[uart := zero_uart]> (m_uarts s) |>);;
  uart_modify uart (λ u, u <| uart_port_name := port_name |>);;
  uart_modify uart (λ u, u <| uart_port_base := port_base |>);;
  mfor COM_PORTS_LEN (λ i, device_port_store device i (u16 (port_base + i)));;
  device_modify device (λ d, d <| dev_ports_len := COM_PORTS_LEN |>);;
  device_modify device (λ d, d <| dev_device_data := uart |>);;
  device_modify device (λ d, d <| dev_outb_handler := Some vmd_8250uart_outb |>);;
  device_modify device (λ d, d <| dev_inb_handler := Some vmd_8250uart_inb |>);;
  mret device.

End code.

(** * Lines of output *)

(** The bytes before the first NUL, what [%s] prints of a line. *)
Fixpoint up_to_nul (l : list Z) : list Z :=
  match l with [] => [] | c :: l => if c =? 0 then [] else c :: up_to_nul l end.

(** The line that a byte completes, if any, and the bytes that remain pending. *)
Definition uart_accept (pending : list Z) (c : Z) : option (list Z) * list Z :=
  if c =? NEWLINE then (Some pending, [])
  else if VMD_8250UART_T_OUTPUT_BUFFER_CAPACITY - 1 <=? Z.of_nat (length pending) + 1
  then (Some (pending ++ [c]), []) else (None, pending ++ [c]).

(** The lines of a stream of bytes. *)
Fixpoint uart_lines (pending : list Z) (l : list Z) : list (list Z) * list Z :=
  match l with
  | [] => ([], pending)
  | c :: l =>
    let '(line, pending) := uart_accept pending c in
    let '(lines, rest) := uart_lines pending l in
    (option_list line ++ lines, rest)
  end.

Definition uart_line_items : list format_item :=
  Literal ESC :: literals (bytes_of_string "[34;1mvm ") ++ [Literal QUOTE; Conversion ConvString; Literal QUOTE]
  ++ literals (bytes_of_string "(") ++ [Conversion ConvString] ++ literals (bytes_of_string "):")
  ++ [Literal ESC] ++ literals (bytes_of_string "[0m ") ++ [Conversion ConvString; Literal NEWLINE].

(** What is printed for a line of the VM [name]. *)
Definition uart_line_text (name port line : list Z) : list Z :=
  [ESC] ++ bytes_of_string "[34;1mvm " ++ [QUOTE] ++ name ++ [QUOTE] ++ bytes_of_string "(" ++ port ++
  bytes_of_string "):" ++ [ESC] ++ bytes_of_string "[0m " ++ up_to_nul line ++ [NEWLINE].

Definition uart_pending (u : vmd_8250uart_t) : list Z :=
  take (Z.to_nat (uart_output_buffer_size u)) (uart_output_buffer u).

Record uart_wf (u : vmd_8250uart_t) : Prop := {
  uw_buffer : length (uart_output_buffer u) = Z.to_nat VMD_8250UART_T_OUTPUT_BUFFER_CAPACITY;
  uw_size : 0 ≤ uart_output_buffer_size u < VMD_8250UART_T_OUTPUT_BUFFER_CAPACITY - 1;
  uw_divisor : 0 ≤ uart_baud_rate_divisor u < 2 ^ 16;
  uw_int : 0 ≤ uart_int_enable_reg u < 2 ^ 8;
  uw_fifo : 0 ≤ uart_fifo_control_reg u < 2 ^ 8;
  uw_line : 0 ≤ uart_line_control_reg u < 2 ^ 8;
  uw_modem : 0 ≤ uart_modem_control_reg u < 2 ^ 8;
}.

Section lines.

Lemma uart_pending_length u : uart_wf u → length (uart_pending u) = Z.to_nat (uart_output_buffer_size u).
Proof.
  intros [Hb Hs _ _ _ _ _]. unfold uart_pending. rewrite length_take, Hb.
  unfold VMD_8250UART_T_OUTPUT_BUFFER_CAPACITY in *. lia.
Qed.

Lemma uart_line_format_items : print_format uart_line_items = uart_line_format.
Proof. reflexivity. Qed.

Lemma uart_line_items_ok : Forall literal_ok uart_line_items.
Proof. repeat constructor; discriminate. Qed.

Lemma uart_line_items_text name port line :
  format_text uart_line_items [ArgString (Some name); ArgString (Some port); ArgString (Some (up_to_nul line))] =
  Some (uart_line_text name port line).
Proof. reflexivity. Qed.

Lemma bytes_to_nul_up_to_nul {St} l post (s : St) : bytes_to_nul (l ++ 0 :: post) s = Ok (up_to_nul l, s).
Proof.
  induction l as [|c l IH]; [done|]. simpl. destruct (c =? 0); [done|]. by erewrite bind_ok.
Qed.

(** Every line fits in the buffer with its NUL, and what remains is shorter. *)
Lemma uart_lines_bound pending l lines rest :
  Z.of_nat (length pending) < VMD_8250UART_T_OUTPUT_BUFFER_CAPACITY - 1 →
  uart_lines pending l = (lines, rest) →
  Forall (λ line, Z.of_nat (length line) < VMD_8250UART_T_OUTPUT_BUFFER_CAPACITY) lines ∧
  Z.of_nat (length rest) < VMD_8250UART_T_OUTPUT_BUFFER_CAPACITY - 1.
Proof.
  unfold VMD_8250UART_T_OUTPUT_BUFFER_CAPACITY.
  revert pending lines rest. induction l as [|c l IH]; intros pending lines rest Hp; simpl.
  - intros [= <- <-]. split; [constructor|done].
  - destruct (uart_accept pending c) as [line pending'] eqn:Ha.
    destruct (uart_lines pending' l) as [lines' rest'] eqn:Hl. intros [= <- <-].
    unfold uart_accept, VMD_8250UART_T_OUTPUT_BUFFER_CAPACITY in Ha.
    assert (Z.of_nat (length pending') < 128 - 1 ∧
            Forall (λ line, Z.of_nat (length line) < 128) (option_list line)) as [Hp' Hline].
    { repeat case_match; simplify_eq/=; rewrite ?length_app; simpl;
        repeat match goal with H : (_ <=? _) = false |- _ => apply Z.leb_gt in H end;
        split; repeat constructor; rewrite ?length_app; simpl; lia. }
    destruct (IH _ _ _ Hp' Hl) as [? ?]. split; [|done]. by apply Forall_app.
Qed.
End lines.

Section putc.
Context `{HW : Hardware} {PF : PollFuel} {CON : Console}.
Implicit Types (s : machine) (u : vmd_8250uart_t).

(** An operation of the UART at [uart] leaves it as [u'] and prints [text]. *)
Record uart_frame (uart : Z) u' (text : list Z) s s' : Prop := {
  uf_eq : s' = s <| m_uarts := <[uart := u']> (m_uarts s) |>
                 <| m_serial_initialized := m_serial_initialized s' |> <| m_hw := m_hw s' |>;
  uf_same : hw_same (m_hw s) (m_hw s');
  uf_text : console_text s' = console_text s ++ text;
  uf_inv : console_inv s';
}.

Lemma uart_frame_lookup uart u' text s s' : uart_frame uart u' text s s' → m_uarts s' !! uart = Some u'.
Proof. intros H. rewrite (uf_eq _ _ _ _ _ H). apply lookup_insert_eq. Qed.

Lemma uart_frame_vms uart u' text s s' : uart_frame uart u' text s s' → m_vms s' = m_vms s.
Proof. intros H. by rewrite (uf_eq _ _ _ _ _ H). Qed.

Lemma uart_frame_trans uart u1 u2 text1 text2 s1 s2 s3 :
  uart_frame uart u1 text1 s1 s2 → uart_frame uart u2 text2 s2 s3 →
  uart_frame uart u2 (text1 ++ text2) s1 s3.
Proof.
  intros [E1 S1 T1 I1] [E2 S2 T2 I2]. split; [|by etransitivity|by rewrite T2, T1, app_assoc|done].
  rewrite E2 at 1. rewrite E1. simpl. by rewrite insert_insert_eq.
Qed.

Lemma uart_frame_update uart u' s :
  console_inv s → uart_frame uart u' [] s (s <| m_uarts := <[uart := u']> (m_uarts s) |>).
Proof.
  intros Hinv. destruct (console_local s (s <| m_uarts := <[uart := u']> (m_uarts s) |>)) as [Ht Hi]; [done..|].
  split; [by destruct s|done|by rewrite Ht, app_nil_r|by apply Hi].
Qed.

Lemma uart_frame_console uart u text s s' :
  m_uarts s !! uart = Some u → console_frame s s' → console_text s' = console_text s ++ text →
  console_inv s' → uart_frame uart u text s s'.
Proof.
  intros Hu [Heq Hsame] Ht Hi. split; [|done..]. rewrite Heq at 1. by rewrite insert_id.
Qed.

Lemma uart_frame_refl uart u s : console_inv s → m_uarts s !! uart = Some u → uart_frame uart u [] s s.
Proof.
  intros Hinv Hu. split; [|reflexivity|by rewrite app_nil_r|done].
  rewrite insert_id by done. by destruct s.
Qed.

Lemma wp_uart_get uart u E Q s : m_uarts s !! uart = Some u → Q u s → wp (uart_get uart) E Q s.
Proof. intros Hu HQ. unfold uart_get. wp_step. wp_step. by rewrite Hu. Qed.

Lemma wp_uart_modify uart u f E (Q : () → machine → Prop) s :
  m_uarts s !! uart = Some u → Q () (s <| m_uarts := <[uart := f u]> (m_uarts s) |>) →
  wp (uart_modify uart f) E Q s.
Proof. intros Hu HQ. unfold uart_modify. wp_step. by eapply wp_uart_get. Qed.

Lemma wp_uart_buffer_store uart u i v E (Q : () → machine → Prop) s :
  m_uarts s !! uart = Some u → 0 ≤ i < Z.of_nat (length (uart_output_buffer u)) →
  Q () (s <| m_uarts := <[uart := u <| uart_output_buffer :=
          <[Z.to_nat i := v]> (uart_output_buffer u) |>]> (m_uarts s) |>) →
  wp (uart_buffer_store uart i v) E Q s.
Proof.
  intros Hu Hi HQ. unfold uart_buffer_store. wp_step. eapply wp_uart_get; [done|]. wp_step.
  unfold buffer_store. destruct (Z.leb_spec 0 i); [|lia].
  destruct (Z.ltb_spec i (Z.of_nat (length (uart_output_buffer u)))); [|lia].
  apply wp_ret. by eapply wp_uart_modify.
Qed.

(** The pending bytes, the next place and the rest of the buffer. *)
Lemma uart_buffer_split u :
  uart_wf u → ∃ x post, uart_output_buffer u = uart_pending u ++ x :: post ∧ post ≠ [].
Proof.
  intros [Hb Hs _ _ _ _ _]. unfold uart_pending, VMD_8250UART_T_OUTPUT_BUFFER_CAPACITY in *.
  set (n := Z.to_nat (uart_output_buffer_size u)) in *.
  pose proof (take_drop n (uart_output_buffer u)) as Htd.
  pose proof (length_drop (uart_output_buffer u) n) as Hl.
  destruct (drop n (uart_output_buffer u)) as [|x [|y post]] eqn:Hd; simpl in Hl; [lia..|].
  by exists x, (y :: post).
Qed.

(** Printing the line in the buffer. *)
Lemma wp_uart_print vm v uart u line post E (Q : () → machine → Prop) s :
  console_inv s → m_vms s !! vm = Some v → m_uarts s !! uart = Some u →
  uart_output_buffer u = line ++ 0 :: post →
  (∀ s', uart_frame uart (u <| uart_output_buffer_size := 0 |>)
           (uart_line_text (vm_name v) (uart_port_name u) line) s s' → Q () s') →
  wp (v ← vm_get vm;
      u ← uart_get uart;
      line ← string_at (uart_output_buffer u) 0;
      stdio_printf uart_line_format
        [ArgString (Some (vm_name v)); ArgString (Some (uart_port_name u)); ArgString line];;
      uart_modify uart (λ u, u <| uart_output_buffer_size := 0 |>)) E Q s.
Proof.
  intros Hinv Hv Hu Hb HQ. wp_step. eapply wp_vm_get; [done|].
  wp_step. eapply wp_uart_get; [done|]. wp_step. rewrite Hb.
  eapply wp_eq_ok.
  { unfold string_at. change (drop (Z.to_nat 0) (line ++ 0 :: post)) with (line ++ 0 :: post).
    erewrite bind_ok; [|apply bytes_to_nul_up_to_nul]. reflexivity. }
  wp_step. rewrite <-uart_line_format_items.
  eapply console_printf; [done|apply uart_line_items_ok|by repeat constructor|apply uart_line_items_text|].
  intros s1 Hf Ht Hi. pose proof (uart_frame_console uart u _ _ _ Hu Hf Ht Hi) as Hf1.
  eapply wp_uart_modify; [by eapply uart_frame_lookup|]. apply HQ.
  rewrite <-(app_nil_r (uart_line_text _ _ _)). eapply uart_frame_trans; [done|].
  by apply uart_frame_update.
Qed.

(** What a byte sent to the data register does to the UART: [u'] is well formed, keeps the
    registers, and its pending bytes are [pending]. *)
Definition uart_putc_post u u' (pending : list Z) : Prop :=
  uart_wf u' ∧ uart_pending u' = pending ∧
  u' = u <| uart_output_buffer := uart_output_buffer u' |>
         <| uart_output_buffer_size := uart_output_buffer_size u' |>.

Lemma uart_putc_post_intro u buffer size pending :
  uart_wf u → length buffer = length (uart_output_buffer u) →
  0 ≤ size < VMD_8250UART_T_OUTPUT_BUFFER_CAPACITY - 1 → take (Z.to_nat size) buffer = pending →
  uart_putc_post u (u <| uart_output_buffer := buffer |> <| uart_output_buffer_size := size |>) pending.
Proof. intros [Hb Hs Hd Hi Hf Hl Hm] Hlen Hsz Hp. split_and!; [split; simpl; congruence|done|done]. Qed.

(** The end of [vmd_8250uart_putc], when the line is complete. *)
Lemma wp_uart_flush vm v uart u l c y post E (Q : () → machine → Prop) s :
  let size := uart_output_buffer_size u in
  console_inv s → m_vms s !! vm = Some v → m_uarts s !! uart = Some u →
  uart_output_buffer u = l ++ c :: y :: post → size = Z.of_nat (length l) + 1 →
  (∀ buffer s', length buffer = length (uart_output_buffer u) →
     uart_frame uart (u <| uart_output_buffer := buffer |> <| uart_output_buffer_size := 0 |>)
       (uart_line_text (vm_name v) (uart_port_name u) (if c =? NEWLINE then l else l ++ [c])) s s' → Q () s') →
  wp (ends_with_newline ← (if 0 <? size then last ← uart_buffer_load uart (size - 1); mret (last =? NEWLINE)
                           else mret false);
      (if (ends_with_newline : bool) then uart_buffer_store uart (size - 1) 0
       else uart_buffer_store uart size 0);;
      v ← vm_get vm;
      u ← uart_get uart;
      line ← string_at (uart_output_buffer u) 0;
      stdio_printf uart_line_format
        [ArgString (Some (vm_name v)); ArgString (Some (uart_port_name u)); ArgString line];;
      uart_modify uart (λ u, u <| uart_output_buffer_size := 0 |>)) E Q s.
Proof.
  intros size Hinv Hv Hu Hb Hsize HQ.
  assert (length (uart_output_buffer u) = length l + 2 + length post)%nat as Hlen
    by (rewrite Hb, length_app; simpl; lia).
  assert (∀ i line post', line ++ 0 :: post' = <[Z.to_nat i := 0]> (uart_output_buffer u) →
    0 ≤ i < Z.of_nat (length (uart_output_buffer u)) →
    line = (if c =? NEWLINE then l else l ++ [c]) →
    wp (uart_buffer_store uart i 0;; v ← vm_get vm;
      u ← uart_get uart; line ← string_at (uart_output_buffer u) 0;
      stdio_printf uart_line_format
        [ArgString (Some (vm_name v)); ArgString (Some (uart_port_name u)); ArgString line];;
      uart_modify uart (λ u, u <| uart_output_buffer_size := 0 |>)) E Q s) as Hprint.
  { intros i line post' Hins Hi ->. wp_step. eapply wp_uart_buffer_store; [done..|].
    eapply wp_uart_print; [|done|apply lookup_insert_eq|simpl; symmetry; exact Hins|].
    { exact (uf_inv _ _ _ _ _ (uart_frame_update uart _ s Hinv)). }
    intros s' Hf. apply (HQ (<[Z.to_nat i := 0]> (uart_output_buffer u))); [by rewrite length_insert|].
    apply (uart_frame_trans _ _ _ [] _ _ _ _ (uart_frame_update uart _ s Hinv) Hf). }
  wp_step. destruct (Z.ltb_spec 0 size); [|lia]. wp_step. unfold uart_buffer_load.
  wp_step. eapply wp_uart_get; [done|]. destruct (Z.leb_spec 0 (size - 1)); [|lia].
  replace (uart_output_buffer u !! Z.to_nat (size - 1)) with (Some c).
  2: { rewrite Hb, lookup_app_r by lia. by replace (Z.to_nat (size - 1) - length l)%nat with O by lia. }
  apply wp_ret, wp_ret. destruct (Z.eqb_spec c NEWLINE) as [Hc|Hc].
  - apply (Hprint _ l (y :: post)); [|lia|done].
    rewrite Hb, insert_app_r_alt by lia. by replace (Z.to_nat (size - 1) - length l)%nat with O by lia.
  - apply (Hprint _ (l ++ [c]) post); [|lia|done].
    rewrite Hb, <-app_assoc, insert_app_r_alt by lia.
    by replace (Z.to_nat size - length l)%nat with 1%nat by lia.
Qed.

Lemma wp_vmd_8250uart_putc vm v uart u c E (Q : () → machine → Prop) s :
  console_inv s → m_vms s !! vm = Some v → m_uarts s !! uart = Some u → uart_wf u →
  (∀ u' s', let '(line, pending) := uart_accept (uart_pending u) c in
     uart_putc_post u u' pending →
     uart_frame uart u' (from_option (uart_line_text (vm_name v) (uart_port_name u)) [] line) s s' →
     Q () s') →
  wp (vmd_8250uart_putc vm uart c) E Q s.
Proof.
  intros Hinv Hv Hu Hwf HQ. unfold vmd_8250uart_putc.
  pose proof (uart_pending_length u Hwf) as Hlen. destruct (uart_buffer_split u Hwf) as (x & post & Hb & Hpost).
  destruct Hwf as [Hb128 Hs Hwd Hwi Hwff Hwl Hwm]. pose proof (Build_uart_wf u Hb128 Hs Hwd Hwi Hwff Hwl Hwm) as Hwf.
  unfold VMD_8250UART_T_OUTPUT_BUFFER_CAPACITY in *.
  set (n := uart_output_buffer_size u) in *.
  wp_step. eapply wp_uart_get; [done|]. fold n. wp_step.
  destruct (Z.leb_spec (128 - 1) n); [lia|]. apply wp_ret.
  wp_step. eapply wp_uart_get; [done|]. fold n. wp_step.
  eapply wp_uart_buffer_store; [done|lia|].
  rewrite Hb, insert_app_r_alt by lia. replace (Z.to_nat n - length (uart_pending u))%nat with O by lia.
  cbn [insert list_insert].
  wp_step. eapply wp_uart_modify; [apply lookup_insert_eq|]. simpl. rewrite insert_insert_eq.
  fold n. rewrite wrap_small by lia.
  set (u1 := u <| uart_output_buffer := uart_pending u ++ c :: post |> <| uart_output_buffer_size := n + 1 |>).
  set (s1 := s <| m_uarts := <[uart := u1]> (m_uarts s) |>).
  match goal with |- wp ?m _ _ _ => change (wp m E Q s1) end.
  wp_step. eapply wp_uart_get; [apply lookup_insert_eq|]. change (uart_output_buffer_size u1) with (n + 1).
  cbv zeta. pose proof (uart_frame_update uart u1 s Hinv : uart_frame uart u1 [] s s1) as Hf1.
  assert (m_uarts s1 !! uart = Some u1) as Hu1 by apply lookup_insert_eq.
  assert (length (uart_pending u ++ c :: post) = length (uart_output_buffer u)) as Hlb
    by (rewrite Hb, !length_app; done).
  assert (∀ buffer, length buffer = length (uart_output_buffer u1) →
    uart_putc_post u (u1 <| uart_output_buffer := buffer |> <| uart_output_buffer_size := 0 |>) []) as Hflush.
  { intros buffer Hbuf. apply (uart_putc_post_intro u buffer 0); [done|by rewrite Hbuf|done|by destruct buffer]. }
  unfold uart_accept, VMD_8250UART_T_OUTPUT_BUFFER_CAPACITY in HQ. rewrite Hlen, Z2Nat.id in HQ by lia.
  destruct (Z.eqb_spec c NEWLINE) as [Hc|Hc]; [|destruct (Z.leb_spec (128 - 1) (n + 1)) as [Hn|Hn]]; cbn [orb].
  3: { apply wp_ret, (HQ u1); [|done]. apply uart_putc_post_intro; [done|done|unfold VMD_8250UART_T_OUTPUT_BUFFER_CAPACITY; lia|].
       change (c :: post) with ([c] ++ post). rewrite app_assoc, take_app_length'; [done|].
       rewrite length_app. simpl. lia. }
  all: destruct post as [|y post]; [done|];
    eapply (wp_uart_flush vm v uart u1 (uart_pending u) c y post); [apply Hf1|done|done|done|simpl; lia|];
    intros buffer s' Hbuf Hf'; apply (HQ (u1 <| uart_output_buffer := buffer |> <| uart_output_buffer_size := 0 |>));
      [by apply Hflush|];
    apply (uart_frame_trans _ _ _ [] _ _ _ _ Hf1); by destruct (Z.eqb_spec c NEWLINE).
Qed.

(** * The registers *)

(** [0x61] in: ["\"%s\"(%s) : %ubps INT:%xpb FIFO:%xpb LINE:%xpb MODEM:%xpb"] *)
Definition uart_debug_items : list format_item :=
  [Literal QUOTE; Conversion ConvString; Literal QUOTE; Literal 0x28; Conversion ConvString]
  ++ literals (bytes_of_string ") : ") ++ [Conversion ConvUnsigned] ++ literals (bytes_of_string "bps INT:")
  ++ [Conversion (ConvHex HexPrefixed HexByte)] ++ literals (bytes_of_string " FIFO:")
  ++ [Conversion (ConvHex HexPrefixed HexByte)] ++ literals (bytes_of_string " LINE:")
  ++ [Conversion (ConvHex HexPrefixed HexByte)] ++ literals (bytes_of_string " MODEM:")
  ++ [Conversion (ConvHex HexPrefixed HexByte)].

Lemma uart_debug_format_items : print_format uart_debug_items = uart_debug_format.
Proof. reflexivity. Qed.

Lemma wp_uart_debug_print vm v uart u E (Q : () → machine → Prop) s :
  console_inv s → m_vms s !! vm = Some v → m_uarts s !! uart = Some u → uart_wf u →
  (∀ text s', uart_frame uart u text s s' → Q () s') →
  wp (vmd_8250uart_debug_print_control_regs vm uart) E Q s.
Proof.
  intros Hinv Hv Hu [Hb Hs Hd Hi Hf Hl Hm] HQ. unfold vmd_8250uart_debug_print_control_regs.
  wp_step. eapply wp_vm_get; [done|]. wp_step. eapply wp_uart_get; [done|]. cbv zeta.
  rewrite <-uart_debug_format_items. eapply wp_LOG; [done| | | | |reflexivity|].
  - by apply (bool_decide_unpack _).
  - by apply (bool_decide_unpack _).
  - repeat constructor; discriminate.
  - unfold COM_BAUD_RATE_BASE. repeat (apply Forall_cons; split); simpl; try done; try lia.
    destruct (Z.eqb_spec (uart_baud_rate_divisor u) 0); [lia|].
    split; [apply Z.div_pos; lia|]. apply Z.le_lt_trans with 115200; [|lia]. apply Z.div_le_upper_bound; nia.
  - intros s' Hfr Ht Hinv'. eapply HQ. by apply uart_frame_console.
Qed.

(** The registers after a write of [b] at the offset [o]; the data register is not
    concerned while the divisor latch is not selected. *)
Definition uart_written u (o b : Z) : vmd_8250uart_t :=
  if o =? COM_DATA_REG then
    if uart_dlab u then u <| uart_baud_rate_divisor := uart_baud_rate_divisor u / 256 * 256 + b |> else u
  else if o =? COM_INT_ENABLE_REG then
    if uart_dlab u then u <| uart_baud_rate_divisor := uart_baud_rate_divisor u mod 256 + b * 256 |>
    else u <| uart_int_enable_reg := b mod 16 |>
  else if o =? COM_FIFO_CONTROL_REG then u <| uart_fifo_control_reg := Z.land b 0xCF |>
  else if o =? COM_LINE_CONTROL_REG then u <| uart_line_control_reg := b |>
  else if o =? COM_MODEM_CONTROL_REG then u <| uart_modem_control_reg := Z.land b 0x1B |>
  else u.

Lemma land_byte a m : 0 ≤ a → 0 ≤ m < 2 ^ 8 → 0 ≤ Z.land a m < 2 ^ 8.
Proof.
  intros Ha Hm. split; [apply Z.land_nonneg; lia|].
  rewrite Z.land_comm. destruct (Z.eq_dec (Z.land m a) 0) as [->|H0]; [lia|].
  apply Z.log2_lt_pow2; [assert (0 ≤ Z.land m a) by (apply Z.land_nonneg; lia); lia|].
  eapply Z.le_lt_trans; [apply Z.log2_land; lia|].
  apply Z.min_lt_iff. left. destruct (Z.eq_dec m 0) as [->|]; [done|]. apply Z.log2_lt_pow2; lia.
Qed.

Lemma uart_written_wf u o b : uart_wf u → 0 ≤ b < 2 ^ 8 → uart_wf (uart_written u o b).
Proof.
  intros [Hb Hs Hd Hi Hf Hl Hm] Hb8. unfold uart_written.
  repeat case_match; split; simpl; try done; try (by apply land_byte; lia); zlia.
Qed.

Lemma divisor_low d b : 0 ≤ d < 2 ^ 16 → 0 ≤ b < 2 ^ 8 → Z.lor (Z.land d 0xff00) b = d / 256 * 256 + b.
Proof.
  intros Hd Hb. change 0xff00 with (Z.shiftl (Z.ones 8) 8). rewrite land_mask_range by lia.
  change (2 ^ 8) with 256 in *. rewrite (Z.mod_small (d / 256)) by zlia.
  apply (lor_disjoint 8); [lia|by apply Z.mod_mul|done].
Qed.

Lemma divisor_high d b : 0 ≤ d → 0 ≤ b < 2 ^ 8 → Z.lor (Z.land d 0xff) (Z.shiftl b 8) = d mod 256 + b * 256.
Proof.
  intros Hd Hb. change 0xff with (Z.ones 8). rewrite Z.land_ones, Z.shiftl_mul_pow2 by lia.
  change (2 ^ 8) with 256 in *. rewrite (lor_disjoint_l 8); [lia|lia|by apply Z.mod_mul|].
  by apply Z.mod_pos_bound.
Qed.

Lemma wp_outb_register vm v uart u port b E (Q : () → machine → Prop) s :
  let o := u16 (port - uart_port_base u) in
  console_inv s → m_vms s !! vm = Some v → m_uarts s !! uart = Some u → uart_wf u → 0 ≤ b < 2 ^ 8 →
  o < COM_PORTS_LEN → (o ≠ COM_DATA_REG ∨ uart_dlab u = true) →
  (∀ text s', uart_frame uart (uart_written u o b) text s s' → Q () s') →
  wp (vmd_8250uart_outb_handler vm uart port b) E Q s.
Proof.
  intros o Hinv Hv Hu Hwf Hb Ho Hdata HQ. unfold vmd_8250uart_outb_handler.
  wp_step. eapply wp_uart_get; [done|]. fold o.
  assert (∀ s', uart_frame uart (uart_written u o b) [] s s' →
    wp (vmd_8250uart_debug_print_control_regs vm uart) E Q s') as Hdebug.
  { intros s' Hf. eapply wp_uart_debug_print; [apply Hf| |by eapply uart_frame_lookup|by apply uart_written_wf|].
    - by rewrite (uart_frame_vms _ _ _ _ _ Hf).
    - intros text s'' Hf'. eapply HQ. by eapply uart_frame_trans. }
  assert (∀ u', u' = uart_written u o b →
    wp (vmd_8250uart_debug_print_control_regs vm uart) E Q (s <| m_uarts := <[uart := u']> (m_uarts s) |>)) as Hset.
  { intros u' ->. apply Hdebug. by apply uart_frame_update. }
  assert (0 ≤ o) as Ho0 by by apply wrap_bound.
  pose proof (uw_divisor u Hwf) as Hd.
  unfold uart_written in Hset, Hdebug. unfold COM_PORTS_LEN in Ho.
  assert (o ∈ [0; 1; 2; 3; 4; 5; 6; 7]) as Hcases.
  { assert (o = 0 ∨ o = 1 ∨ o = 2 ∨ o = 3 ∨ o = 4 ∨ o = 5 ∨ o = 6 ∨ o = 7) as H by lia.
    rewrite !elem_of_cons. intuition. }
  clearbody o. rewrite !elem_of_cons in Hcases.
  destruct Hcases as [->|[->|[->|[->|[->|[->|[->|[->|H%elem_of_nil]]]]]]]]; [..|done]; cbn -[vmd_8250uart_debug_print_control_regs uart_dlab uart_modify] in *.
  - destruct Hdata as [|Hdlab]; [done|]. rewrite Hdlab in *. wp_step. wp_step.
    eapply wp_uart_modify; [done|]. wp_step. apply Hset. by rewrite divisor_low.
  - destruct (uart_dlab u); wp_step; wp_step; (eapply wp_uart_modify; [done|]); wp_step; apply Hset.
    + by rewrite divisor_high by lia.
    + replace (Z.land b _) with (b mod 16); [done|]. symmetry. by apply (Z.land_ones b 4).
  - wp_step. wp_step. eapply wp_uart_modify; [done|]. wp_step. by apply Hset.
  - wp_step. wp_step. eapply wp_uart_modify; [done|]. wp_step. by apply Hset.
  - wp_step. wp_step. eapply wp_uart_modify; [done|]. wp_step. by apply Hset.
  - wp_step. wp_step. by apply Hdebug, uart_frame_refl.
  - wp_step. wp_step. by apply Hdebug, uart_frame_refl.
  - wp_step. wp_step. by apply Hdebug, uart_frame_refl.
Qed.

(** A byte for the data register while the divisor latch is not selected. *)
Lemma wp_outb_data vm v uart u port b E (Q : () → machine → Prop) s :
  console_inv s → m_vms s !! vm = Some v → m_uarts s !! uart = Some u → uart_wf u →
  u16 (port - uart_port_base u) = COM_DATA_REG → uart_dlab u = false →
  (∀ u' s', let '(line, pending) := uart_accept (uart_pending u) b in
     uart_putc_post u u' pending →
     uart_frame uart u' (from_option (uart_line_text (vm_name v) (uart_port_name u)) [] line) s s' →
     Q () s') →
  wp (vmd_8250uart_outb_handler vm uart port b) E Q s.
Proof.
  intros Hinv Hv Hu Hwf Ho Hdlab HQ. unfold vmd_8250uart_outb_handler.
  wp_step. eapply wp_uart_get; [done|]. rewrite Ho, Hdlab.
  change (COM_DATA_REG =? COM_DATA_REG) with true. cbv iota. wp_step. wp_step.
  eapply wp_vmd_8250uart_putc; [done..|]. intros u' s' . specialize (HQ u' s').
  destruct (uart_accept (uart_pending u) b) as [line pending]. intros Hpost Hf.
  wp_step. apply wp_ret. by apply HQ.
Qed.

(** The bytes of [l] sent one after the other to the port [port]. *)
Fixpoint uart_send (vm uart port : Z) (l : list Z) : M machine () :=
  match l with
  | [] => mret ()
  | b :: l => vmd_8250uart_outb_handler vm uart port b;; uart_send vm uart port l
  end.

Lemma uart_putc_post_trans u1 u2 u3 p1 p2 :
  uart_putc_post u1 u2 p1 → uart_putc_post u2 u3 p2 → uart_putc_post u1 u3 p2.
Proof.
  intros (W2 & P2 & E2) (W3 & P3 & E3). split_and!; [done|done|].
  rewrite E3 at 1. rewrite E2. done.
Qed.

Lemma uart_putc_post_regs u u' p :
  uart_putc_post u u' p → uart_port_base u' = uart_port_base u ∧ uart_dlab u' = uart_dlab u ∧
  uart_port_name u' = uart_port_name u.
Proof. intros (_ & _ & ->). done. Qed.

Lemma wp_uart_send vm v uart u port l E (Q : () → machine → Prop) s :
  console_inv s → m_vms s !! vm = Some v → m_uarts s !! uart = Some u → uart_wf u →
  u16 (port - uart_port_base u) = COM_DATA_REG → uart_dlab u = false →
  (∀ u' s', let '(lines, pending) := uart_lines (uart_pending u) l in
     uart_putc_post u u' pending →
     uart_frame uart u' (concat (map (uart_line_text (vm_name v) (uart_port_name u)) lines)) s s' →
     Q () s') →
  wp (uart_send vm uart port l) E Q s.
Proof.
  revert u s Q. induction l as [|b l IH]; intros u s Q Hinv Hv Hu Hwf Ho Hdlab HQ; cbn [uart_send uart_lines] in *.
  - apply wp_ret, (HQ u); [by destruct u|by apply uart_frame_refl].
  - wp_step. eapply wp_outb_data; [done..|]. intros u1 s1.
    destruct (uart_accept (uart_pending u) b) as [line pending] eqn:Ha. intros Hp1 Hf1.
    destruct (uart_putc_post_regs _ _ _ Hp1) as (Hbase & Hd & Hname). destruct (Hp1) as (Hwf1 & <- & _).
    apply (IH u1); [apply Hf1|by rewrite (uart_frame_vms _ _ _ _ _ Hf1)|by eapply uart_frame_lookup|done|
      by rewrite Hbase|by rewrite Hd|].
    intros u' s'. specialize (HQ u' s').
    destruct (uart_lines (uart_pending u1) l) as [lines rest]. intros Hp2 Hf2.
    apply HQ; [by eapply uart_putc_post_trans|]. rewrite Hname in Hf2.
    pose proof (uart_frame_trans _ _ _ _ _ _ _ _ Hf1 Hf2) as Hf. by destruct line.
Qed.

Lemma inb_handler_get vm uart u port s :
  m_uarts s !! uart = Some u →
  vmd_8250uart_inb_handler vm uart port s =
  (let o := u16 (port - uart_port_base u) in
   if o =? COM_DATA_REG then
     if uart_dlab u then mret (Z.land (uart_baud_rate_divisor u) 0xff) else mret 0
   else if o =? COM_INT_ENABLE_REG then
     if uart_dlab u then mret (u8 (Z.shiftr (uart_baud_rate_divisor u) 8)) else mret (uart_int_enable_reg u)
   else if o =? COM_INT_ID_REG then mret 0
   else if o =? COM_LINE_CONTROL_REG then mret (uart_line_control_reg u)
   else if o =? COM_MODEM_CONTROL_REG then mret (uart_modem_control_reg u)
   else if o =? COM_LINE_STATUS_REG then mret 0x60
   else if o =? COM_MODEM_STATUS_REG then mret 0
   else if o =? COM_SCRATCH_REG then mret 0
   else mpanic "Reached 8250uart inb handler with unexpected port") s.
Proof.
  intros Hu. unfold vmd_8250uart_inb_handler. rewrite (bind_ok _ _ s u s); [done|].
  unfold uart_get, mbind, M_bind, mget. by rewrite Hu.
Qed.

(** What the register at the offset [o] reads as after [b] was written to it. *)
Definition uart_readback u (o b : Z) : Z :=
  if o =? COM_DATA_REG then b
  else if o =? COM_INT_ENABLE_REG then if uart_dlab u then b else b mod 16
  else if o =? COM_LINE_CONTROL_REG then b
  else if o =? COM_MODEM_CONTROL_REG then Z.land b 0x1B
  else if o =? COM_LINE_STATUS_REG then 0x60 else 0.

Lemma inb_written vm uart u port b s :
  let o := u16 (port - uart_port_base u) in
  uart_wf u → 0 ≤ b < 2 ^ 8 → o < COM_PORTS_LEN → (o ≠ COM_DATA_REG ∨ uart_dlab u = true) →
  m_uarts s !! uart = Some (uart_written u o b) →
  vmd_8250uart_inb_handler vm uart port s = Ok (uart_readback u o b, s).
Proof.
  intros o Hwf Hb Ho Hdata Hu. pose proof (uw_divisor u Hwf) as Hd.
  rewrite (inb_handler_get _ _ _ _ _ Hu).
  assert (uart_port_base (uart_written u o b) = uart_port_base u) as ->
    by (unfold uart_written; by repeat case_match).
  fold o. assert (0 ≤ o) as Ho0 by by apply wrap_bound. unfold COM_PORTS_LEN in Ho.
  assert (o = 0 ∨ o = 1 ∨ o = 2 ∨ o = 3 ∨ o = 4 ∨ o = 5 ∨ o = 6 ∨ o = 7) as Hcases by lia.
  clearbody o. destruct Hcases as [->|[->|[->|[->|[->|[->|[->| ->]]]]]]]; try done.
  - destruct Hdata as [|Hdlab]; [done|].
    replace (uart_written u 0 b) with (u <| uart_baud_rate_divisor := uart_baud_rate_divisor u / 256 * 256 + b |>)
      by (unfold uart_written; simpl; by rewrite Hdlab).
    cbv zeta. unfold uart_readback. change (0 =? COM_DATA_REG) with true. cbv iota. change (uart_dlab (upd _ _ _)) with (uart_dlab u).
    rewrite Hdlab. unfold mret, M_ret. simpl uart_baud_rate_divisor. change 255 with (Z.ones 8).
    rewrite Z.land_ones by lia. change (2 ^ 8) with 256 in *. do 2 f_equal. zlia.
  - unfold uart_written, uart_readback. cbv zeta.
    change (1 =? COM_DATA_REG) with false. change (1 =? COM_INT_ENABLE_REG) with true. cbv iota.
    destruct (uart_dlab u) eqn:Hdlab; (change (uart_dlab (upd _ _ _)) with (uart_dlab u)); rewrite Hdlab; [|done].
    unfold mret, M_ret. do 2 f_equal. simpl uart_baud_rate_divisor. rewrite Z.shiftr_div_pow2 by lia.
    unfold wrap. change (2 ^ 8) with 256 in *. zlia.
Qed.
End putc.

(** * Properties *)

Section properties.
Context `{HW : Hardware} {PF : PollFuel} {CON : Console}.
Implicit Types (s : machine).



End properties.

(** A machine with a VM and a UART at [COM1]. *)
Definition uart_address : Z := 0x7000.
Definition com1_uart : vmd_8250uart_t :=
  zero_uart <| uart_port_name := bytes_of_string "com1" |> <| uart_port_base := COM1 |>.
Definition uart_machine : machine :=
  (one_vm_machine 13) <| m_uarts := {[ uart_address := com1_uart ]} |>.

Lemma com1_uart_wf : uart_wf com1_uart.
Proof. split; vm_compute; (reflexivity || (split; discriminate || reflexivity)). Qed.


