(* ===== verification/IoPorts.v ===== *)
(** The devices of a VM: which device an I/O instruction of the guest reaches
    (hv/src/vmm/vm_ioports.c), the creation of the emulated serial port and its
    registration ([vmd_8250uart_create], [vm_manager_register_device]). *)
From S2P Require Import Prelude Memory Machine Registers SimpleCpu PageUse PageAllocator Arena.
From S2P Require Import VmTracking VmManager Strings Console Uart.

Section code.
Context `{HW : Hardware} {PF : PollFuel}.

(** The loop over the ports of a device: [handler] is the handler of the device for this
    kind of access. *)
Fixpoint device_ports_search (n : nat) (i : Z) (device : vm_device_t) (port : Z)
    (handler : option vm_device_handler) : M machine (option vm_device_handler) :=
  match n with
  | O => mret None
  | S n =>
    match dev_ports device !! Z.to_nat i with
    | None => mundefined
    | Some p => if (port =? p) && bool_decide (is_Some handler) then mret handler
                else device_ports_search n (i + 1) device port handler
    end
  end.

(** The loop over the devices: the handler to call, with its [device_data]. *)
Fixpoint device_lookup (fuel : nat) (device_iter port : Z)
    (handler : vm_device_t → option vm_device_handler) : M machine (option (vm_device_handler * Z)) :=
  if device_iter =? 0 then mret None
  else match fuel with
       | O => mout_of_fuel
       | S fuel =>
         device ← device_get device_iter;
         h ← device_ports_search (Z.to_nat (dev_ports_len device)) 0 device port (handler device);
         match h with
         | Some h => mret (Some (h, dev_device_data device))
         | None => device_lookup fuel (dev_next device) port handler
         end
       end.

(** Calls through the function pointers; a pointer of another type is never called. *)
Definition call_outb_handler (h : vm_device_handler) (vm device_data port value : Z) : M machine () :=
  match h with
  | vmd_8250uart_outb => vmd_8250uart_outb_handler vm device_data port value
  | vmd_8250uart_inb => mundefined
  end.
Definition call_inb_handler (h : vm_device_handler) (vm device_data port : Z) : M machine Z :=
  match h with
  | vmd_8250uart_outb => mundefined
  | vmd_8250uart_inb => vmd_8250uart_inb_handler vm device_data port
  end.
(** No device of the source has a handler of these types. *)
Definition call_out_wide_handler (h : vm_device_handler) (vm device_data port value : Z) : M machine () :=
  mundefined.
Definition call_in_wide_handler (h : vm_device_handler) (vm device_data port : Z) : M machine Z :=
  mundefined.

Definition device_fuel (s : machine) : nat := S (size (m_devices s)).

Definition LOG_CATEGORY : list Z := bytes_of_string "vm".
(** ["\"%s\" : Unexpected out" #size " port=%xpw value=%xp" #size " : ignored"] *)
Definition unexpected_out_format (size : list Z) : list Z :=
  [QUOTE] ++ bytes_of_string "%s" ++ [QUOTE] ++ bytes_of_string " : Unexpected out" ++ size ++
  bytes_of_string " port=%xpw value=%xp" ++ size ++ bytes_of_string " : ignored".
Definition unexpected_in_format (size : list Z) : list Z :=
  [QUOTE] ++ bytes_of_string "%s" ++ [QUOTE] ++ bytes_of_string " : Unexpected in" ++ size ++
  bytes_of_string " port=%xpw : ignored".

Definition VM_OUT_DEVICE_LOOKUP (size : list Z) (handler : vm_device_t → option vm_device_handler)
    (call : vm_device_handler → Z → Z → Z → Z → M machine ()) (vm port value : Z) : M machine () :=
  v ← vm_get vm;
  s ← mget;
  found ← device_lookup (device_fuel s) (vm_devices v) port handler;
  match found with
  | Some (h, device_data) => call h vm device_data port value
  | None => LOG LOG_CATEGORY (unexpected_out_format size)
              [ArgString (Some (vm_name v)); ArgInt port; ArgInt value]
  end.

Definition vm_outb := VM_OUT_DEVICE_LOOKUP (bytes_of_string "b") dev_outb_handler call_outb_handler.
Definition vm_outw := VM_OUT_DEVICE_LOOKUP (bytes_of_string "w") dev_outw_handler call_out_wide_handler.
Definition vm_outd := VM_OUT_DEVICE_LOOKUP (bytes_of_string "d") dev_outd_handler call_out_wide_handler.

Definition VM_IN_DEVICE_LOOKUP (size : list Z) (handler : vm_device_t → option vm_device_handler)
    (call : vm_device_handler → Z → Z → Z → M machine Z) (vm port : Z) : M machine Z :=
  v ← vm_get vm;
  s ← mget;
  found ← device_lookup (device_fuel s) (vm_devices v) port handler;
  match found with
  | Some (h, device_data) => call h vm device_data port
  | None => LOG LOG_CATEGORY (unexpected_in_format size) [ArgString (Some (vm_name v)); ArgInt port];;
            mret 0
  end.

Definition vm_inb := VM_IN_DEVICE_LOOKUP (bytes_of_string "b") dev_inb_handler call_inb_handler.
Definition vm_inw := VM_IN_DEVICE_LOOKUP (bytes_of_string "w") dev_inw_handler call_in_wide_handler.
Definition vm_ind := VM_IN_DEVICE_LOOKUP (bytes_of_string "d") dev_ind_handler call_in_wide_handler.

End code.

(** * Dispatch *)

Section dispatch.
Context `{HW : Hardware} {PF : PollFuel}.
Implicit Types (s : machine) (d : vm_device_t).

(** The handler of a device for a port. *)
Definition device_handles (handler : vm_device_t → option vm_device_handler) (port : Z) d :
    option (vm_device_handler * Z) :=
  if bool_decide (port ∈ take (Z.to_nat (dev_ports_len d)) (dev_ports d))
  then h ← handler d; Some (h, dev_device_data d) else None.

(** The first device of the list [l] that handles a port. *)
Fixpoint first_handler (devices : gmap Z vm_device_t) handler (port : Z) (l : list Z) :
    option (vm_device_handler * Z) :=
  match l with
  | [] => None
  | p :: l =>
    match devices !! p ≫= device_handles handler port with
    | Some h => Some h
    | None => first_handler devices handler port l
    end
  end.

Definition device_wf d : Prop :=
  length (dev_ports d) = Z.to_nat VM_DEVICE_T_MAX_PORTS ∧ 0 ≤ dev_ports_len d ≤ VM_DEVICE_T_MAX_PORTS.

(** The devices of the VM [v] are the list [l]. *)
Record vm_devices_wf (v : vm_t) (l : list Z) s : Prop := {
  vd_linked : linked dev_next (m_devices s) (vm_devices v) l;
  vd_wf p d : p ∈ l → m_devices s !! p = Some d → device_wf d;
}.

Lemma device_ports_search_spec n i d port h s :
  (Z.to_nat i + n ≤ length (dev_ports d))%nat → 0 ≤ i →
  device_ports_search n i d port h s =
  Ok (if bool_decide (port ∈ take n (drop (Z.to_nat i) (dev_ports d))) then h else None, s).
Proof.
  revert i. induction n as [|n IH]; intros i Hn Hi; cbn [device_ports_search].
  - by destruct (drop _ _).
  - destruct (lookup_lt_is_Some_2 (dev_ports d) (Z.to_nat i)) as [p Hp]; [lia|]. rewrite Hp.
    rewrite (drop_S _ p) by done. rewrite firstn_cons.
    destruct h as [h|].
    + rewrite (bool_decide_eq_true_2 (is_Some (Some h))) by done. rewrite andb_true_r.
      destruct (Z.eqb_spec port p) as [->|Hne].
      * rewrite bool_decide_eq_true_2 by by left. done.
      * rewrite IH by lia. replace (Z.to_nat (i + 1)) with (S (Z.to_nat i)) by lia.
        do 2 f_equal. by rewrite (bool_decide_ext _ _ (elem_of_cons _ _ _)); case_bool_decide; case_bool_decide; naive_solver.
    + rewrite (bool_decide_eq_false_2 (is_Some None)) by by intros [? ?].
      rewrite andb_false_r, IH by lia. by repeat case_bool_decide.
Qed.

Lemma device_get_eq p d s : m_devices s !! p = Some d → device_get p s = Ok (d, s).
Proof. intros Hd. unfold device_get, mbind, M_bind, mget. by rewrite Hd. Qed.

(** The lookup finds the first device that handles the port. *)
Lemma device_lookup_spec fuel p port handler l s :
  linked dev_next (m_devices s) p l → (∀ q d, q ∈ l → m_devices s !! q = Some d → device_wf d) →
  (length l < fuel)%nat →
  device_lookup fuel p port handler s = Ok (first_handler (m_devices s) handler port l, s).
Proof.
  intros H. revert fuel. induction H as [|p d l Hp Hd Hl IH]; intros fuel Hwf Hf.
  - by destruct fuel.
  - destruct fuel as [|fuel]; [simpl in Hf; lia|]. cbn [device_lookup first_handler].
    destruct (Z.eqb_spec p 0); [done|]. rewrite (bind_ok _ _ s d s) by by apply device_get_eq.
    destruct (Hwf p d) as [Hlen [Hn0 Hn]]; [by left|done|]. unfold VM_DEVICE_T_MAX_PORTS in *.
    erewrite bind_ok; [|apply device_ports_search_spec; simpl; lia].
    rewrite Hd. change (Some d ≫= device_handles handler port) with (device_handles handler port d).
    unfold device_handles. change (drop (Z.to_nat 0) (dev_ports d)) with (dev_ports d).
    case_bool_decide; [destruct (handler d) as [h|]; [done|]|]; (apply IH; [set_solver|simpl in Hf; lia]).
Qed.

Lemma vm_device_lookup vm v l port handler s :
  m_vms s !! vm = Some v → vm_devices_wf v l s →
  device_lookup (device_fuel s) (vm_devices v) port handler s =
  Ok (first_handler (m_devices s) handler port l, s).
Proof.
  intros Hv [Hl Hwf]. apply device_lookup_spec; [done|done|]. unfold device_fuel.
  pose proof (linked_length dev_next _ _ _ Hl). lia.
Qed.

End dispatch.

(** * Creation and registration *)

Section devices.
Context `{HW : Hardware} {PF : PollFuel}.
Implicit Types (s : machine) (d : vm_device_t).

Lemma wp_device_get p d E Q s : m_devices s !! p = Some d → Q d s → wp (device_get p) E Q s.
Proof. intros Hd HQ. unfold device_get. wp_step. wp_step. by rewrite Hd. Qed.

Lemma wp_device_modify p d f E (Q : () → machine → Prop) s :
  m_devices s !! p = Some d → Q () (s <| m_devices := <[p := f d]> (m_devices s) |>) →
  wp (device_modify p f) E Q s.
Proof. intros Hd HQ. unfold device_modify. wp_step. by eapply wp_device_get. Qed.

Lemma wp_device_port_store p d i v E (Q : () → machine → Prop) s :
  m_devices s !! p = Some d → 0 ≤ i < Z.of_nat (length (dev_ports d)) →
  Q () (s <| m_devices := <[p := d <| dev_ports := <[Z.to_nat i := v]> (dev_ports d) |>]> (m_devices s) |>) →
  wp (device_port_store p i v) E Q s.
Proof.
  intros Hd Hi HQ. unfold device_port_store. wp_step. eapply wp_device_get; [done|]. wp_step.
  unfold buffer_store. destruct (Z.leb_spec 0 i); [|lia].
  destruct (Z.ltb_spec i (Z.of_nat (length (dev_ports d)))); [|lia].
  apply wp_ret. by eapply wp_device_modify.
Qed.

(** The device goes to the head of the list. *)
Lemma wp_vm_manager_register_device vm v device d E (Q : () → machine → Prop) s :
  m_vms s !! vm = Some v → m_devices s !! device = Some d → dev_next d = 0 →
  Q () (s <| m_devices := <[device := d <| dev_next := vm_devices v |>]> (m_devices s) |>
          <| m_vms := <[vm := v <| vm_devices := device |>]> (m_vms s) |>) →
  wp (vm_manager_register_device vm device) E Q s.
Proof.
  intros Hv Hd Hn HQ. unfold vm_manager_register_device.
  wp_step. eapply wp_device_get; [done|]. rewrite Hn. change (negb (0 =? 0)) with false. cbv iota.
  wp_step. eapply wp_vm_get; [done|]. wp_step. eapply wp_device_modify; [done|].
  by eapply wp_vm_modify.
Qed.

Lemma vm_devices_wf_register vm v device d l s :
  vm_devices_wf v l s → device ≠ 0 → device ∉ l → device_wf d →
  vm_devices_wf (v <| vm_devices := device |>) (device :: l)
    (s <| m_devices := <[device := d <| dev_next := vm_devices v |>]> (m_devices s) |>
       <| m_vms := <[vm := v <| vm_devices := device |>]> (m_vms s) |>).
Proof.
  intros [Hl Hwf] Hp Hnin Hd. split; simpl.
  - econstructor; [done|apply lookup_insert_eq|]. simpl. by apply linked_insert_ne.
  - intros p d' Hin. rewrite lookup_insert. case_decide as Heq; [intros [= <-]; exact Hd|].
    apply elem_of_cons in Hin as [->|Hin]; [done|]. by apply Hwf.
Qed.

(** The device that [vmd_8250uart_create] makes. *)
Definition uart_ports (port_base : Z) : list Z := map (λ i, u16 (port_base + i)) [0; 1; 2; 3; 4; 5; 6; 7].
Definition uart_device (port_base uart : Z) : vm_device_t :=
  mk_device 0 (uart_ports port_base ++ replicate 8 0) COM_PORTS_LEN uart
    (Some vmd_8250uart_outb) None None (Some vmd_8250uart_inb) None None.
Definition new_uart (port_base : Z) (port_name : list Z) : vmd_8250uart_t :=
  zero_uart <| uart_port_name := port_name |> <| uart_port_base := port_base |>.

Lemma uart_device_wf port_base uart : device_wf (uart_device port_base uart).
Proof. split; [reflexivity|split; discriminate]. Qed.

Lemma new_uart_wf port_base port_name : uart_wf (new_uart port_base port_name).
Proof. split; simpl; try done; lia. Qed.

(** Changes of an object that was just stored. *)
Lemma wp_device_modify_in device d f D E (Q : () → machine → Prop) s :
  Q () (s <| m_devices := <[device := f d]> D |>) →
  wp (device_modify device f) E Q (s <| m_devices := <[device := d]> D |>).
Proof.
  intros HQ. eapply wp_device_modify; [apply lookup_insert_eq|].
  rewrite <-(insert_insert_eq D device (f d) d) in HQ. by destruct s.
Qed.

Lemma wp_uart_modify_in uart u f U E (Q : () → machine → Prop) s :
  Q () (s <| m_uarts := <[uart := f u]> U |>) →
  wp (uart_modify uart f) E Q (s <| m_uarts := <[uart := u]> U |>).
Proof.
  intros HQ. eapply wp_uart_modify; [apply lookup_insert_eq|].
  rewrite <-(insert_insert_eq U uart (f u) u) in HQ. by destruct s.
Qed.

Lemma wp_device_port_store_in p d i v D E (Q : () → machine → Prop) s :
  0 ≤ i < Z.of_nat (length (dev_ports d)) →
  Q () (s <| m_devices := <[p := d <| dev_ports := <[Z.to_nat i := v]> (dev_ports d) |>]> D |>) →
  wp (device_port_store p i v) E Q (s <| m_devices := <[p := d]> D |>).
Proof.
  intros Hi HQ. eapply wp_device_port_store; [apply lookup_insert_eq|done|].
  set (d' := d <| dev_ports := _ |>) in *. clearbody d'.
  rewrite <-(insert_insert_eq D p d' d) in HQ. by destruct s.
Qed.

(** The loop that fills the ports. *)
Lemma wp_uart_ports device port_base D E (Q : () → machine → Prop) s :
  Q () (s <| m_devices := <[device := zero_device <| dev_ports := uart_ports port_base ++ replicate 8 0 |>]> D |>) →
  wp (mfor COM_PORTS_LEN (λ i, device_port_store device i (u16 (port_base + i)))) E Q
    (s <| m_devices := <[device := zero_device]> D |>).
Proof.
  intros HQ. set (f i := u16 (port_base + i)).
  set (ports i := take (Z.to_nat i) (uart_ports port_base) ++ replicate (16 - Z.to_nat i) 0).
  set (st i := s <| m_devices := <[device := zero_device <| dev_ports := ports i |>]> D |>).
  eapply wp_post.
  - apply (wp_for (λ i s', s' = st i)); [done|done|].
    unfold COM_PORTS_LEN. intros i s' Hi ->.
    assert (<[Z.to_nat i := f i]> (ports i) = ports (i + 1)) as Hports.
    { assert (i = 0 ∨ i = 1 ∨ i = 2 ∨ i = 3 ∨ i = 4 ∨ i = 5 ∨ i = 6 ∨ i = 7) as Hcases by lia.
      by destruct Hcases as [->|[->|[->|[->|[->|[->|[->| ->]]]]]]]. }
    apply wp_device_port_store_in.
    + unfold ports. simpl dev_ports. rewrite length_app, length_take, length_replicate. simpl length. lia.
    + unfold st. by rewrite <-Hports.
  - intros [] s' ->. exact HQ.
Qed.

(** What making room for an object may change. *)
Definition room_frame s s' : Prop :=
  s' = s <| m_last_returned_region_index := m_last_returned_region_index s' |>
         <| m_last_returned_page_index := m_last_returned_page_index s' |>
         <| m_arenas := m_arenas s' |> <| m_arena_head := m_arena_head s' |>
         <| m_vmd_device_arena := m_vmd_device_arena s' |>.

Lemma vmm_wf_device_arena la lv s a : vmm_wf la lv s → vmm_wf la lv (s <| m_vmd_device_arena := a |>).
Proof. intros Hwf. exact (vmm_wf_devices la lv s a (m_devices s) (m_uarts s) Hwf). Qed.

(** The end of the objects in the arena of the devices. *)
Definition device_end s : Z :=
  if m_vmd_device_arena s =? 0 then 0 else
  match m_arenas s !! m_vmd_device_arena s with
  | Some h => m_vmd_device_arena s + arena_used_size h + sizeof_arena_header_t
  | None => 0
  end.

Lemma wp_vmd_get_device_arena la lv E (Q : Z → machine → Prop) s :
  vmm_wf la lv s → m_vmd_device_arena s = 0 ∨ m_vmd_device_arena s ∈ la → E "OOM :("%string →
  (∀ la' s', m_vmd_device_arena s' ∈ la' → vmm_wf la' lv s' → room_frame s s' →
     m_vmd_device_arena s = 0 ∨ s' = s → Q (m_vmd_device_arena s') s') →
  wp vmd_get_device_arena E Q s.
Proof.
  intros Hwf Ha HE HQ. unfold vmd_get_device_arena. wp_step. apply wp_gets.
  destruct (Z.eqb_spec (m_vmd_device_arena s) 0) as [H0|H0].
  - wp_step. wp_step. eapply wp_arena_create; [apply Hwf|apply Hwf|done|]. cbv zeta.
    intros p c heap Hc Hp Hok Hfree Hnin Haw Hmm Hnew. apply wp_modify, wp_gets. simpl.
    match goal with |- Q _ ?st => apply (HQ (P2V_IDENTITY_MAP p :: la) st) end; [by left| |by destruct s|by left].
    by apply vmm_wf_device_arena, (vmm_wf_new_arena la lv s p c heap).
  - wp_step. apply wp_ret, wp_gets. apply (HQ la); [by destruct Ha|done|by destruct s|by right].
Qed.

(** Room for an object of [size] bytes in the arena of the devices. *)
Lemma wp_device_allocate la lv size E (Q : Z → machine → Prop) s :
  vmm_wf la lv s → m_vmd_device_arena s = 0 ∨ m_vmd_device_arena s ∈ la → 0 ≤ size →
  E "OOM :("%string → E "subarenas not supported right now"%string →
  (∀ la' p s', p ≠ 0 → m_vmd_device_arena s' ∈ la' → vmm_wf la' lv s' → room_frame s s' →
     device_end s ≤ p → p + size = device_end s' → Q p s') →
  wp (arena ← vmd_get_device_arena; arena_allocate arena size) E Q s.
Proof.
  intros Hwf Ha Hsz HE1 HE2 HQ. wp_step. eapply wp_vmd_get_device_arena; [done..|].
  intros la' s1 Hin Hwf1 Hf1 Hsame.
  destruct (arenas_wf_lookup la' s1 _ (vw_arenas _ _ _ Hwf1) Hin) as [h Hh].
  destruct (aw_header _ _ (vw_arenas _ _ _ Hwf1) _ h Hin Hh) as (_ & Hused & _).
  destruct (aw_page _ _ (vw_arenas _ _ _ Hwf1) _ Hin) as (p & Hok & Hp).
  eapply wp_arena_allocate; [apply Hwf1|done..|]. cbv zeta. intros Hfit Haw.
  assert (0 < m_vmd_device_arena s1) as Hpos.
  { rewrite Hp, P2V_page_ok by done. destruct Hok. unfold RKHV_PHYSICAL_MEMORY_BASE. lia. }
  assert (∀ h' : arena_header_t, device_end (s1 <| m_arenas := <[m_vmd_device_arena s1 := h']> (m_arenas s1) |>) =
    m_vmd_device_arena s1 + arena_used_size h' + sizeof_arena_header_t) as Hend.
  { intros h'. unfold device_end. simpl. rewrite lookup_insert_eq. destruct (Z.eqb_spec (m_vmd_device_arena s1) 0); [lia|done]. }
  apply (HQ la'); [|done|by apply vmm_wf_arenas|by rewrite Hf1| |rewrite Hend; simpl; lia].
  - unfold sizeof_arena_header_t. lia.
  - assert (0 ≤ m_vmd_device_arena s1 + arena_used_size h + sizeof_arena_header_t) by (unfold sizeof_arena_header_t; lia).
    unfold device_end. destruct Hsame as [-> | ->]; [by rewrite Z.eqb_refl|]. rewrite Hh. destruct (_ =? 0); lia.
Qed.

Lemma vmm_wf_devices_twice la lv s D D0 U U0 :
  vmm_wf la lv s →
  vmm_wf la lv (s <| m_devices := D0 |> <| m_uarts := U0 |> <| m_devices := D |> <| m_uarts := U |>).
Proof.
  intros H%(vmm_wf_devices la lv s (m_vmd_device_arena s) D U).
  assert (s <| m_devices := D0 |> <| m_uarts := U0 |> <| m_devices := D |> <| m_uarts := U |> =
    s <| m_vmd_device_arena := m_vmd_device_arena s |> <| m_devices := D |> <| m_uarts := U |>) as ->
    by by destruct s. exact H.
Qed.

Lemma room_frame_trans s s1 s3 D :
  room_frame s s1 → room_frame (s1 <| m_devices := D |>) s3 →
  room_frame s (s3 <| m_devices := m_devices s |> <| m_uarts := m_uarts s |>).
Proof.
  unfold room_frame. intros Hf1 Hf3. rewrite Hf3. clear Hf3. generalize (m_arenas s3) (m_arena_head s3)
    (m_vmd_device_arena s3) (m_last_returned_region_index s3) (m_last_returned_page_index s3).
  intros a b c d e. rewrite Hf1. clear Hf1. generalize (m_arenas s1) (m_arena_head s1)
    (m_vmd_device_arena s1) (m_last_returned_region_index s1) (m_last_returned_page_index s1).
  intros a' b' c' d' e'. by destruct s.
Qed.

Lemma wp_vmd_8250uart_create la lv port_base port_name E (Q : Z → machine → Prop) s :
  vmm_wf la lv s → m_vmd_device_arena s = 0 ∨ m_vmd_device_arena s ∈ la →
  E "OOM :("%string → E "subarenas not supported right now"%string →
  (∀ la' device uart s1,
     let s' := s1 <| m_devices := <[device := uart_device port_base uart]> (m_devices s) |>
                  <| m_uarts := <[uart := new_uart port_base port_name]> (m_uarts s) |> in
     device ≠ 0 → room_frame s s1 → m_vmd_device_arena s1 ∈ la' → vmm_wf la' lv s' →
     device_end s ≤ device < uart ∧ uart < device_end s1 → Q device s') →
  wp (vmd_8250uart_create port_base port_name) E Q s.
Proof.
  intros Hwf Ha HE1 HE2 HQ. unfold vmd_8250uart_create.
  apply (proj1 (wp_bind_assoc vmd_get_device_arena (λ arena, arena_allocate arena sizeof_vm_device_t) _ E Q s)).
  wp_step. eapply wp_device_allocate; [done..|]. intros la1 device s1 Hdev Ha1 Hwf1 Hf1 He1 He1'.
  wp_step. apply wp_modify.
  set (s2 := s1 <| m_devices := <[device := zero_device]> (m_devices s1) |>).
  assert (vmm_wf la1 lv s2) as Hwf2.
  { exact (vmm_wf_devices la1 lv s1 (m_vmd_device_arena s1) (<[device := zero_device]> (m_devices s1)) (m_uarts s1) Hwf1). }
  apply (proj1 (wp_bind_assoc vmd_get_device_arena (λ arena, arena_allocate arena sizeof_vmd_8250uart_t) _ E Q s2)).
  wp_step. eapply (wp_device_allocate la1); [done|by right|done..|].
  intros la2 uart s3 Huart Ha3 Hwf3 Hf3 He3 He3'. wp_step. apply wp_modify.
  wp_step. apply wp_uart_modify_in. wp_step. apply wp_uart_modify_in.
  assert (m_devices s3 = <[device := zero_device]> (m_devices s)) as Hd3 by by rewrite Hf3; simpl; rewrite Hf1.
  assert (m_uarts s3 = m_uarts s) as Hu3 by by rewrite Hf3; simpl; rewrite Hf1.
  set (u := _ <| uart_port_base := port_base |>). change u with (new_uart port_base port_name). rewrite Hu3.
  set (s4 := s3 <| m_devices := m_devices s |> <| m_uarts := m_uarts s |>).
  assert (s3 <| m_uarts := <[uart := new_uart port_base port_name]> (m_uarts s) |> =
    s4 <| m_uarts := <[uart := new_uart port_base port_name]> (m_uarts s) |>
       <| m_devices := <[device := zero_device]> (m_devices s) |>) as ->
    by (unfold s4; rewrite <-Hd3; by destruct s3).
  wp_step. apply wp_uart_ports. do 4 (wp_step; apply wp_device_modify_in). apply wp_ret.
  set (d := _ <| dev_inb_handler := _ |>). change d with (uart_device port_base uart).
  match goal with |- Q _ ?st => assert (st =
    s4 <| m_devices := <[device := uart_device port_base uart]> (m_devices s) |>
       <| m_uarts := <[uart := new_uart port_base port_name]> (m_uarts s) |>) as -> by by destruct s4 end.
  apply (HQ la2); [done| |done| |].
  - by apply (room_frame_trans s s1 s3 (<[device := zero_device]> (m_devices s1))).
  - by apply vmm_wf_devices_twice.
  - change (device_end s2) with (device_end s1) in He3. change (device_end s4) with (device_end s3).
    unfold sizeof_vm_device_t, sizeof_vmd_8250uart_t in *. lia.
Qed.

End devices.

(** * Properties *)

Section properties.
Context `{HW : Hardware} {PF : PollFuel}.
Implicit Types (s : machine).

Lemma vm_out_eq size handler call vm v l port value s :
  m_vms s !! vm = Some v → vm_devices_wf v l s →
  VM_OUT_DEVICE_LOOKUP size handler call vm port value s =
  match first_handler (m_devices s) handler port l with
  | Some (h, device_data) => call h vm device_data port value s
  | None => LOG LOG_CATEGORY (unexpected_out_format size)
              [ArgString (Some (vm_name v)); ArgInt port; ArgInt value] s
  end.
Proof.
  intros Hv Hl. unfold VM_OUT_DEVICE_LOOKUP.
  rewrite (bind_ok _ _ s v s) by (unfold vm_get, mbind, M_bind, mget; by rewrite Hv).
  rewrite (bind_ok _ _ s s s) by done.
  rewrite (bind_ok _ _ s _ s (vm_device_lookup vm v l port handler s Hv Hl)).
  by destruct (first_handler _ _ _ _) as [[h data]|].
Qed.

Lemma vm_in_eq size handler call vm v l port s :
  m_vms s !! vm = Some v → vm_devices_wf v l s →
  VM_IN_DEVICE_LOOKUP size handler call vm port s =
  match first_handler (m_devices s) handler port l with
  | Some (h, device_data) => call h vm device_data port s
  | None => (LOG LOG_CATEGORY (unexpected_in_format size) [ArgString (Some (vm_name v)); ArgInt port];;
             mret 0) s
  end.
Proof.
  intros Hv Hl. unfold VM_IN_DEVICE_LOOKUP.
  rewrite (bind_ok _ _ s v s) by (unfold vm_get, mbind, M_bind, mget; by rewrite Hv).
  rewrite (bind_ok _ _ s s s) by done.
  rewrite (bind_ok _ _ s _ s (vm_device_lookup vm v l port handler s Hv Hl)).
  by destruct (first_handler _ _ _ _) as [[h data]|].
Qed.

(** C23: an access to a port goes to the first device of the list of the VM that has the
    port and a handler for the width of the access, with its own data, and to no other;
    the search always ends. An access that no device handles is only logged, and an
    input then reads as 0. *)
Theorem vm_io_dispatch vm v l port value s :
  m_vms s !! vm = Some v → vm_devices_wf v l s →
  vm_outb vm port value s =
    match first_handler (m_devices s) dev_outb_handler port l with
    | Some (h, device_data) => call_outb_handler h vm device_data port value s
    | None => LOG LOG_CATEGORY (unexpected_out_format (bytes_of_string "b"))
                [ArgString (Some (vm_name v)); ArgInt port; ArgInt value] s
    end ∧
  vm_inb vm port s =
    match first_handler (m_devices s) dev_inb_handler port l with
    | Some (h, device_data) => call_inb_handler h vm device_data port s
    | None => (LOG LOG_CATEGORY (unexpected_in_format (bytes_of_string "b"))
                 [ArgString (Some (vm_name v)); ArgInt port];; mret 0) s
    end.
Proof. intros Hv Hl. split; [by apply vm_out_eq|by apply vm_in_eq]. Qed.

(** The formats of the log lines. *)
Definition unexpected_items (dir : list Z) (size : hex_size) (value : bool) : list format_item :=
  [Literal QUOTE; Conversion ConvString; Literal QUOTE] ++ literals (bytes_of_string " : Unexpected ")
  ++ literals dir ++ [Literal (size_char size)] ++ literals (bytes_of_string " port=")
  ++ [Conversion (ConvHex HexPrefixed HexWord)]
  ++ (if value then literals (bytes_of_string " value=") ++ [Conversion (ConvHex HexPrefixed size)] else [])
  ++ literals (bytes_of_string " : ignored").

Lemma unexpected_format_items size :
  print_format (unexpected_items (bytes_of_string "out") size true) = unexpected_out_format [size_char size] ∧
  print_format (unexpected_items (bytes_of_string "in") size false) = unexpected_in_format [size_char size].
Proof. by destruct size. Qed.

Lemma unexpected_items_ok dir size value :
  Forall literal_ok (literals dir) → Forall literal_ok (unexpected_items dir size value).
Proof.
  intros Hdir. unfold unexpected_items. repeat (apply Forall_app; split);
    first [done|by destruct size; repeat constructor|by destruct value; repeat constructor|by repeat constructor].
Qed.

Context {CON : Console}.

Lemma wp_unexpected_out name size port value E (Q : () → machine → Prop) s :
  console_inv s → 0 ≤ port < 2 ^ 16 → 0 ≤ value < 2 ^ 32 →
  (∀ s', console_frame s s' → console_inv s' → Q () s') →
  wp (LOG LOG_CATEGORY (unexpected_out_format [size_char size])
        [ArgString (Some name); ArgInt port; ArgInt value]) E Q s.
Proof.
  intros Hinv Hp Hv HQ. rewrite <-(proj1 (unexpected_format_items size)).
  eapply wp_LOG; [done|by apply (bool_decide_unpack _)|by apply (bool_decide_unpack _)| | | |by auto].
  - apply unexpected_items_ok. repeat constructor; discriminate.
  - repeat (apply Forall_cons; split); simpl; try done; lia.
  - by destruct size.
Qed.

Lemma wp_unexpected_in name size port E (Q : () → machine → Prop) s :
  console_inv s → 0 ≤ port < 2 ^ 16 →
  (∀ s', console_frame s s' → console_inv s' → Q () s') →
  wp (LOG LOG_CATEGORY (unexpected_in_format [size_char size]) [ArgString (Some name); ArgInt port]) E Q s.
Proof.
  intros Hinv Hp HQ. rewrite <-(proj2 (unexpected_format_items size)).
  eapply wp_LOG; [done|by apply (bool_decide_unpack _)|by apply (bool_decide_unpack _)| | | |by auto].
  - apply unexpected_items_ok. repeat constructor; discriminate.
  - repeat (apply Forall_cons; split); simpl; try done; lia.
  - by destruct size.
Qed.

(** an access that no device handles does nothing but print a line: an output is
    dropped and an input reads as 0, for bytes as for words. *)
Theorem vm_io_unhandled vm v l port value s :
  console_inv s → m_vms s !! vm = Some v → vm_devices_wf v l s →
  0 ≤ port < 2 ^ 16 → 0 ≤ value < 2 ^ 16 →
  (first_handler (m_devices s) dev_outb_handler port l = None →
   ∃ s', vm_outb vm port value s = Ok ((), s') ∧ console_frame s s') ∧
  (first_handler (m_devices s) dev_outw_handler port l = None →
   ∃ s', vm_outw vm port value s = Ok ((), s') ∧ console_frame s s') ∧
  (first_handler (m_devices s) dev_inb_handler port l = None →
   ∃ s', vm_inb vm port s = Ok (0, s') ∧ console_frame s s') ∧
  (first_handler (m_devices s) dev_inw_handler port l = None →
   ∃ s', vm_inw vm port s = Ok (0, s') ∧ console_frame s s').
Proof.
  intros Hinv Hv Hl Hport Hvalue.
  assert (∀ size name, ∃ s', LOG LOG_CATEGORY (unexpected_out_format [size_char size])
    [ArgString (Some name); ArgInt port; ArgInt value] s = Ok ((), s') ∧ console_frame s s') as Hout.
  { intros size name.
    assert (wp (LOG LOG_CATEGORY (unexpected_out_format [size_char size])
      [ArgString (Some name); ArgInt port; ArgInt value]) no_panic (λ _ s', console_frame s s') s) as H
      by (apply wp_unexpected_out; [done|done|lia|done]).
    destruct (wp_no_panic_ok _ _ _ H) as ([] & s' & Heq & Hf). by exists s'. }
  assert (∀ size name, ∃ s', LOG LOG_CATEGORY (unexpected_in_format [size_char size])
    [ArgString (Some name); ArgInt port] s = Ok ((), s') ∧ console_frame s s') as Hin.
  { intros size name.
    assert (wp (LOG LOG_CATEGORY (unexpected_in_format [size_char size])
      [ArgString (Some name); ArgInt port]) no_panic (λ _ s', console_frame s s') s) as H
      by (by apply wp_unexpected_in).
    destruct (wp_no_panic_ok _ _ _ H) as ([] & s' & Heq & Hf). by exists s'. }
  split_and!; intros Hnone.
  - unfold vm_outb. rewrite (vm_out_eq _ _ _ _ v l), Hnone by done. apply (Hout HexByte).
  - unfold vm_outw. rewrite (vm_out_eq _ _ _ _ v l), Hnone by done. apply (Hout HexWord).
  - unfold vm_inb. rewrite (vm_in_eq _ _ _ _ v l), Hnone by done.
    destruct (Hin HexByte (vm_name v)) as (s' & Heq & Hf). exists s'. split; [|done].
    by rewrite (bind_ok _ _ s _ s' Heq).
  - unfold vm_inw. rewrite (vm_in_eq _ _ _ _ v l), Hnone by done.
    destruct (Hin HexWord (vm_name v)) as (s' & Heq & Hf). exists s'. split; [|done].
    by rewrite (bind_ok _ _ s _ s' Heq).
Qed.

End properties.

Section attach.
Context `{HW : Hardware} {PF : PollFuel}.
Implicit Types (s : machine).

(** What the loader of a guest does for each serial port. *)
Definition uart_attach (vm port_base : Z) (port_name : list Z) : M machine () :=
  device ← vmd_8250uart_create port_base port_name;
  vm_manager_register_device vm device.

Lemma uart_device_first port_base uart i :
  0 ≤ port_base < 2 ^ 16 → 0 ≤ i < COM_PORTS_LEN →
  u16 (u16 (port_base + i) - port_base) = i ∧
  u16 (port_base + i) ∈ take (Z.to_nat (dev_ports_len (uart_device port_base uart)))
                             (dev_ports (uart_device port_base uart)).
Proof.
  unfold COM_PORTS_LEN. intros Hb Hi. split.
  - rewrite wrap_sub_l. replace (port_base + i - port_base) with i by lia. apply wrap_small. lia.
  - change (take _ _) with (uart_ports port_base). unfold uart_ports. apply list_elem_of_fmap. exists i.
    split; [done|]. rewrite !elem_of_cons. lia.
Qed.


(** C36: a device that is the last of its list has a [NULL] link, so registering it a
    second time is not detected: when it is the only device, it becomes its own successor
    and the search for a port that it does not handle never ends. *)
Theorem vm_manager_register_device_twice vm v device d port s :
  m_vms s !! vm = Some v → m_devices s !! device = Some d → vm_devices v = device → device ≠ 0 →
  dev_next d = 0 → device_wf d → device_handles dev_outb_handler port d = None →
  ∃ s', vm_manager_register_device vm device s = Ok ((), s') ∧
    ∀ fuel, device_lookup fuel device port dev_outb_handler s' = OutOfFuel.
Proof.
  intros Hv Hd Hlast Hp Hn [Hlen [Hn0 Hn16]] Hh.
  destruct (wp_no_panic_ok (vm_manager_register_device vm device) (λ _ s',
    m_devices s' !! device = Some (d <| dev_next := device |>)) s) as ([] & s' & Heq & Hd').
  { eapply wp_vm_manager_register_device; [done..|]. simpl. rewrite Hlast. apply lookup_insert_eq. }
  exists s'. split; [done|]. unfold VM_DEVICE_T_MAX_PORTS in *.
  induction fuel as [|fuel IH]; cbn [device_lookup]; destruct (Z.eqb_spec device 0); try done.
  rewrite (bind_ok _ _ s' _ s' (device_get_eq _ _ _ Hd')).
  rewrite (bind_ok _ _ s' None s'); [exact IH|].
  rewrite device_ports_search_spec by (simpl; lia). do 2 f_equal. simpl.
  unfold device_handles in Hh. rewrite drop_0. simpl in Hh |- *.
  case_bool_decide; [|done]. by destruct (dev_outb_handler d).
Qed.

End attach.

(** A machine whose VM has the UART at [COM1]. *)
Definition device_address : Z := 0x6000.
Definition io_vm : vm_t := zero_vm <| vm_devices := device_address |>.
Definition io_machine : machine :=
  uart_machine <| m_devices := {[ device_address := uart_device COM1 uart_address ]} |>
               <| m_vms := {[ vm_address := io_vm ]} |>.

Lemma io_machine_devices : vm_devices_wf io_vm [device_address] io_machine.
Proof.
  split.
  - econstructor; [done|apply lookup_insert_eq|constructor].
  - intros p d ->%list_elem_of_singleton Hd.
    assert (Some (uart_device COM1 uart_address) = Some d) as [= <-] by exact Hd. apply uart_device_wf.
Qed.

(** Witness: a byte for the line control register of [COM1]. *)
Lemma vm_io_dispatch_witness :
  vm_outb vm_address (COM1 + 3) 0x83 io_machine =
  vmd_8250uart_outb_handler vm_address uart_address (COM1 + 3) 0x83 io_machine.
Proof.
  destruct (vm_io_dispatch vm_address io_vm [device_address] (COM1 + 3) 0x83 io_machine) as [H _].
  - reflexivity.
  - exact io_machine_devices.
  - assert (first_handler (m_devices io_machine) dev_outb_handler (COM1 + 3) [device_address] =
            Some (vmd_8250uart_outb, uart_address)) as E by (vm_compute; reflexivity).
    rewrite E in H. exact H.
Defined.

(** Witness: the ports of [COM2], that nothing handles. *)
Lemma vm_io_unhandled_witness :
  (∃ s', vm_outb vm_address COM2 0x41 io_machine = Ok ((), s') ∧ console_frame io_machine s') ∧
  (∃ s', vm_inw vm_address COM2 io_machine = Ok (0, s') ∧ console_frame io_machine s').
Proof.
  destruct (vm_io_unhandled vm_address io_vm [device_address] COM2 0x41 io_machine) as (H1 & _ & _ & H4).
  - discriminate.
  - reflexivity.
  - exact io_machine_devices.
  - split; [discriminate|reflexivity].
  - split; [discriminate|reflexivity].
  - split; [apply H1; vm_compute; reflexivity|apply H4; vm_compute; reflexivity].
Defined.


(** Witness: [COM1] registered twice, then an access to [COM2]. *)
Lemma vm_manager_register_device_twice_witness :
  ∃ s', vm_manager_register_device vm_address device_address io_machine = Ok ((), s') ∧
    ∀ fuel, device_lookup fuel device_address COM2 dev_outb_handler s' = OutOfFuel.
Proof.
  apply (vm_manager_register_device_twice vm_address io_vm device_address (uart_device COM1 uart_address)
    COM2 io_machine).
  - reflexivity.
  - reflexivity.
  - reflexivity.
  - discriminate.
  - reflexivity.
  - apply uart_device_wf.
  - reflexivity.
Defined.
