(* ===== verification/GuestPaging.v ===== *)
(** Page tables of the guest (hv/src/vmm/vm_guest_paging.c).

    [vm_guest_paging_setup_identity] builds, in the last 514 pages of the guest, tables
    that map the first 512 GiB to themselves; [vm_guest_paging_get_guest_physical_address]
    walks the tables of the guest and
    [vm_guest_paging_get_host_virtual_address_during_vmexit] resolves a pointer of the
    guest. The specification is [guest_walk], the four-level translation of the processor
    over the memory that the guest sees. *)
From S2P Require Import Prelude Memory Machine Registers SimpleCpu PageUse PageAllocator Arena.
From S2P Require Import VmxInstructions VmTracking VmxPages VmxEpt VmxEptSpec EptCorrect.

Section definitions.
Context `{HW : Hardware}.

(** The first [EPT_GET_HOSTVA], which panics. *)
Definition ept_get_hostva (vm guestpa : Z) : M machine Z :=
  hostpa ← vmx_ept_get_host_physical_address vm guestpa;
  match hostpa with
  | None => mpanic "Unable to walk EPT to get host physical address from guest physical address during guest identity paging setup"
  | Some hostpa => mret (P2V_IDENTITY_MAP hostpa)
  end.

(** [vm->guest_physical_pages_used_by_initial_setup++] *)
Definition guest_page_used (vm : Z) : M machine () :=
  vm_modify vm (λ v, v <| vm_used_by_initial_setup := u64 (vm_used_by_initial_setup v + 1) |>).

Definition vm_guest_paging_setup_identity (vm : Z) : M machine Z :=
  v ← vm_get vm;
  if vm_guest_physical_pages v =? 0 then
    mpanic "Unable to setup guest identity paging on a VM without guest physical pages allocated"
  else if negb (vm_used_by_initial_setup v =? 0) then
    mpanic "Guest identity paging should be setup before any other steps allocating memory"
  else
  let pml4_guestpa := u64 (u64 (vm_guest_physical_pages v - 1) * PAGE_SIZE) in
  guest_page_used vm;;
  pml4_hostva ← ept_get_hostva vm pml4_guestpa;

  let pdpt_guestpa := u64 (pml4_guestpa - PAGE_SIZE) in
  guest_page_used vm;;
  pdpt_hostva ← ept_get_hostva vm pdpt_guestpa;

  mfor PAGE_TABLE_ENTRIES (λ pdpt_index,
    let pd_guestpa := u64 (pdpt_guestpa - (pdpt_index + 1) * PAGE_SIZE) in
    guest_page_used vm;;
    pd_hostva ← ept_get_hostva vm pd_guestpa;
    mfor PAGE_TABLE_ENTRIES (λ pd_index,
      let pde_physical_address_page :=
        u64 (Z.shiftl (pdpt_index * PAGE_TABLE_ENTRIES + pd_index) LINEAR_ADDRESS_D_SHIFT) in
      deref_store 8 (ptr64 pd_hostva pd_index)
        (Z.lor (Z.lor (Z.lor PDE_PRESENT PDE_READ_WRITE) PDE_PAGE_SIZE)
               (Z.land pde_physical_address_page PDE_PHYSICAL_ADDRESS_PAGE)));;
    deref_store 8 (ptr64 pdpt_hostva pdpt_index)
      (Z.lor (Z.lor PDPTE_PRESENT PDPTE_READ_WRITE)
             (Z.land pd_guestpa PDPTE_PHYSICAL_ADDRESS_PD)));;

  memset_va pml4_hostva 0 PAGE_SIZE;;
  deref_store 8 (ptr64 pml4_hostva (LINEAR_ADDRESS_GET_PML4 0))
    (Z.lor (Z.lor PML4E_PRESENT PML4E_READ_WRITE)
           (Z.land pdpt_guestpa PML4E_PHYSICAL_ADDRESS_PDPT));;
  mret pml4_guestpa.

(** The second [EPT_GET_HOSTVA], which makes the function return [false] ([None]). *)
Definition with_ept_hostva {A} (vm guestpa : Z) (k : Z → M machine (option A)) : M machine (option A) :=
  hostpa ← vmx_ept_get_host_physical_address vm guestpa;
  match hostpa with
  | None => mret None
  | Some hostpa => k (P2V_IDENTITY_MAP hostpa)
  end.

Definition vm_guest_paging_get_guest_physical_address (vm guest_cr3 guest_linear_addr : Z)
    : M machine (option Z) :=
  let guestla_pml4 := LINEAR_ADDRESS_GET_PML4 guest_linear_addr in
  let guestla_pdpt := LINEAR_ADDRESS_GET_DIRECTORY_PTR guest_linear_addr in
  let guestla_pd := LINEAR_ADDRESS_GET_DIRECTORY guest_linear_addr in
  let guestla_pt := LINEAR_ADDRESS_GET_TABLE guest_linear_addr in
  let guestla_offset := LINEAR_ADDRESS_GET_OFFSET guest_linear_addr in

  let pml4_guestpa := Z.land guest_cr3 PAGE_MASK in
  with_ept_hostva vm pml4_guestpa (λ pml4_hostva,
  pml4e ← deref_load 8 (ptr64 pml4_hostva guestla_pml4);
  if negb (truthy (Z.land pml4e PML4E_PRESENT)) then mret None else

  let pdpt_guestpa := Z.land pml4e PML4E_PHYSICAL_ADDRESS_PDPT in
  with_ept_hostva vm pdpt_guestpa (λ pdpt_hostva,
  pdpte ← deref_load 8 (ptr64 pdpt_hostva guestla_pdpt);
  if negb (truthy (Z.land pdpte PDPTE_PRESENT)) then mret None else
  if truthy (Z.land pdpte PDPTE_PAGE_SIZE) then
    mret (Some (Z.lor (Z.land pdpte PDPTE_PHYSICAL_ADDRESS_PAGE)
                      (Z.land guest_linear_addr
                         (Z.lor (Z.lor LINEAR_ADDRESS_D_MASK LINEAR_ADDRESS_TABLE_MASK)
                                LINEAR_ADDRESS_OFFSET_MASK))))
  else

  let pd_guestpa := Z.land pdpte PDPTE_PHYSICAL_ADDRESS_PD in
  with_ept_hostva vm pd_guestpa (λ pd_hostva,
  pde ← deref_load 8 (ptr64 pd_hostva guestla_pd);
  if negb (truthy (Z.land pde PDE_PRESENT)) then mret None else
  if truthy (Z.land pde PDE_PAGE_SIZE) then
    mret (Some (Z.lor (Z.land pde PDE_PHYSICAL_ADDRESS_PAGE)
                      (Z.land guest_linear_addr
                         (Z.lor LINEAR_ADDRESS_TABLE_MASK LINEAR_ADDRESS_OFFSET_MASK))))
  else

  let pt_guestpa := Z.land pde PDE_PHYSICAL_ADDRESS_PT in
  with_ept_hostva vm pt_guestpa (λ pt_hostva,
  pte ← deref_load 8 (ptr64 pt_hostva guestla_pt);
  if negb (truthy (Z.land pte PTE_PRESENT)) then mret None else
  mret (Some (Z.lor (Z.land pte PTE_PHYSICAL_ADDRESS_PAGE) guestla_offset)))))).

Definition vm_guest_paging_get_host_virtual_address_during_vmexit
    (vm_state : vmx_vmexit_state_t) (guest_virtual_address guest_data_size : Z) : M machine Z :=
  if negb (truthy (Z.land (st_cr0 vm_state) CR0_PG)) ||
     negb (truthy (Z.land (st_cr4 vm_state) CR4_PAE)) ||
     truthy (Z.land (st_cr4 vm_state) CR4_LA57) ||
     negb (truthy (Z.land (msr_ia32_efer (st_msrs vm_state)) IA32_EFER_LME))
  then mpanic "Resolving guest virtual address in an unsupported configuration (not long mode with 4-level paging)"
  else
  let guest_linear_addr := guest_virtual_address in
  guest_physical_address ← vm_guest_paging_get_guest_physical_address
    (st_vm vm_state) (st_cr3 vm_state) guest_linear_addr;
  match guest_physical_address with
  | None => mpanic "Unable to walk guest page table to resolve guest linear address in VM-Exit handler"
  | Some guest_physical_address =>
    host_physical_address ← vmx_ept_get_host_physical_address (st_vm vm_state) guest_physical_address;
    match host_physical_address with
    | None => mpanic "Unable to walk EPT to resolve guest physical address in VM-Exit handler"
    | Some host_physical_address =>
      let host_virtual_address := P2V_IDENTITY_MAP host_physical_address in
      let hostva_start_page := Z.land host_virtual_address PAGE_MASK in
      let hostva_end_page :=
        Z.land (u64 (host_virtual_address + u64 (guest_data_size - 1))) PAGE_MASK in
      if negb (hostva_start_page =? hostva_end_page)
      then mpanic "Resolving guest virtual address across page boudaries in VM-Exit handler"
      else mret host_virtual_address
    end
  end.

End definitions.

(** * The translation of the processor *)

(** The address in an entry of level [n]: of a page of this level, and for [n = 0] also of
    a table. *)
Definition entry_frame (n : nat) (e : Z) : Z :=
  (e / 2 ^ level_shift n) mod 2 ^ (52 - level_shift n) * 2 ^ level_shift n.
Definition entry_leaf (n : nat) (e : Z) : bool :=
  match n with O => true | 1%nat | 2%nat => Z.testbit e 7 | _ => false end.

(** Eight bytes of the memory that the guest sees. The EPT is indexed by 48 bits. *)
Definition guest_load64 `{HW : Hardware} (v : vm_t) (m : mem) (gpa : Z) : option Z :=
  load_le 8 m <$> ept_translate v m (gpa mod 2 ^ 48).

Fixpoint guest_walk `{HW : Hardware} (n : nat) (v : vm_t) (m : mem) (table la : Z) : option Z :=
  match guest_load64 v m (table + 8 * level_index n la) with
  | None => None
  | Some e =>
    if Z.testbit e 0 then
      if entry_leaf n e then Some (entry_frame n e + la mod 2 ^ level_shift n)
      else match n with O => None | S n' => guest_walk n' v m (entry_frame 0 e) la end
    else None
  end.

(** The EPT only maps memory that the hypervisor can reach. *)
Definition ept_in_window `{HW : Hardware} (v : vm_t) (m : mem) : Prop :=
  ∀ gpa h, 0 ≤ gpa < 2 ^ 48 → ept_translate v m gpa = Some h → 0 ≤ h < 2 ^ 39.

(** * Masks *)

Lemma entry_readable_bit e : entry_readable e = Z.testbit e 0.
Proof. apply (truthy_land_bit e 0). lia. Qed.

Lemma entry_large_bit n e : entry_large n e = match n with O => false | _ => entry_leaf n e end.
Proof. destruct n as [|[|[|n]]]; try done; apply (truthy_land_bit e 7); lia. Qed.

Lemma entry_table_frame e : Z.land e PTE_PHYSICAL_ADDRESS_PAGE = entry_frame 0 e.
Proof. apply (land_mask_range 12 40 e); lia. Qed.

Lemma level_shift_bound n : (n ≤ 3)%nat → 12 ≤ level_shift n ≤ 39.
Proof. unfold level_shift. lia. Qed.

(** A page frame and an offset in the page are disjoint. *)
Lemma lor_frame k x y : 0 ≤ k → Z.lor (x * 2 ^ k) (y mod 2 ^ k) = x * 2 ^ k + y mod 2 ^ k.
Proof.
  intros Hk. apply (lor_disjoint k); [done|by apply Z.mod_mul; lia|apply Z.mod_pos_bound; lia].
Qed.

Lemma large_address_frame n e gpa :
  n = 1%nat ∨ n = 2%nat → large_address n e gpa = entry_frame n e + gpa mod 2 ^ level_shift n.
Proof.
  intros [-> | ->]; unfold large_address.
  - change EPT_PDE_PHYSICAL_ADDRESS_PAGE with (Z.shiftl (Z.ones 31) 21). rewrite land_mask_range by lia.
    change (Z.lor GUEST_PHYSICAL_ADDRESS_TABLE_MASK GUEST_PHYSICAL_ADDRESS_OFFSET_MASK) with (Z.ones 21).
    rewrite Z.land_ones by lia. by apply lor_frame.
  - change EPT_PDPTE_PHYSICAL_ADDRESS_PAGE with (Z.shiftl (Z.ones 22) 30). rewrite land_mask_range by lia.
    change (Z.lor (Z.lor GUEST_PHYSICAL_ADDRESS_D_MASK GUEST_PHYSICAL_ADDRESS_TABLE_MASK)
      GUEST_PHYSICAL_ADDRESS_OFFSET_MASK) with (Z.ones 30).
    rewrite Z.land_ones by lia. by apply lor_frame.
Qed.

Lemma page_address_frame e gpa :
  Z.lor (Z.land e PTE_PHYSICAL_ADDRESS_PAGE) (LINEAR_ADDRESS_GET_OFFSET gpa) =
  entry_frame 0 e + gpa mod 2 ^ level_shift 0.
Proof.
  rewrite LINEAR_ADDRESS_GET_OFFSET_spec, entry_table_frame. by apply (lor_frame 12).
Qed.

Lemma ept_page_address_frame e gpa :
  Z.lor (entry_table e) (GUEST_PHYSICAL_ADDRESS_GET_OFFSET gpa) =
  entry_frame 0 e + gpa mod 2 ^ level_shift 0.
Proof. exact (page_address_frame e gpa). Qed.

Lemma entry_frame_aligned n e : (n ≤ 3)%nat → entry_frame n e mod 2 ^ level_shift n = 0.
Proof. intros _. apply Z.mod_mul. apply Z.pow_nonzero; unfold level_shift; lia. Qed.

(** * Addresses in one page translate alike *)

Lemma div_page_offset k gpa o : 0 ≤ k → gpa mod 4096 = 0 → 0 ≤ o < 4096 →
  (gpa + o) / 2 ^ (12 + k) = gpa / 2 ^ (12 + k).
Proof.
  intros Hk Hg Ho. rewrite Z.pow_add_r by lia.
  rewrite <-!Z.div_div by (try apply Z.pow_nonzero; lia). f_equal. change (2 ^ 12) with 4096. zlia.
Qed.

Lemma level_index_offset n gpa o : gpa mod 4096 = 0 → 0 ≤ o < 4096 →
  level_index n (gpa + o) = level_index n gpa.
Proof. intros. unfold level_index, level_shift. rewrite div_page_offset; (done || lia). Qed.

Lemma mod_page_offset n gpa o : gpa mod 4096 = 0 → 0 ≤ o < 4096 →
  (gpa + o) mod 2 ^ level_shift n = gpa mod 2 ^ level_shift n + o.
Proof.
  intros Hg Ho. rewrite !Z.mod_eq by (apply Z.pow_nonzero; unfold level_shift; lia).
  unfold level_shift. rewrite div_page_offset by (done || lia). lia.
Qed.

Lemma ept_walk_offset n m T gpa o : (n ≤ 3)%nat → gpa mod 4096 = 0 → 0 ≤ o < 4096 →
  ept_walk n m T (gpa + o) = (λ h, h + o) <$> ept_walk n m T gpa.
Proof.
  intros Hn Hg Ho. revert T Hn. induction n as [|n IH]; intros T Hn; cbn [ept_walk];
    rewrite level_index_offset by done; destruct (entry_readable _); try done.
  - cbn [fmap option_fmap option_map]. f_equal. rewrite !ept_page_address_frame, mod_page_offset by done. lia.
  - destruct (entry_large _ _) eqn:Hl; [|apply IH; lia].
    cbn [fmap option_fmap option_map]. f_equal.
    assert (S n = 1%nat ∨ S n = 2%nat) as Hn12
      by (destruct n as [|[|n]]; [by left|by right|done]).
    rewrite !large_address_frame, mod_page_offset by done. lia.
Qed.

Lemma ept_walk_aligned n m T gpa h : (n ≤ 3)%nat → gpa mod 4096 = 0 →
  ept_walk n m T gpa = Some h → h mod 4096 = 0.
Proof.
  intros Hn Hg. revert T Hn. induction n as [|n IH]; intros T Hn; cbn [ept_walk];
    destruct (entry_readable _); try done.
  - rewrite ept_page_address_frame. intros [= <-]. pose proof (entry_frame_aligned 0 (ept_entry m T (level_index 0 gpa)) ltac:(lia)) as Hf.
    change (2 ^ level_shift 0) with 4096 in *. zlia.
  - destruct (entry_large _ _) eqn:Hl; [|apply IH; lia].
    assert (S n = 1%nat ∨ S n = 2%nat) as Hn12 by (destruct n as [|[|n]]; [by left|by right|done]).
    rewrite large_address_frame by done. intros [= <-].
    pose proof (entry_frame_aligned (S n) (ept_entry m T (level_index (S n) gpa)) ltac:(lia)) as Hf.
    assert (∃ c, 2 ^ level_shift (S n) = 4096 * c ∧ 0 < c) as (c & Hc & Hc0).
    { exists (2 ^ (9 * Z.of_nat (S n))). split; [|by apply Z.pow_pos_nonneg; lia].
      unfold level_shift. by rewrite Z.pow_add_r by lia. }
    rewrite Hc in *.
    apply Z.mod_divide in Hf as [q ->]; [|nia].
    rewrite (Z.rem_mul_r gpa), Hg, Z.add_0_l by lia.
    set (r := (gpa / 4096) mod c).
    replace (q * (4096 * c) + 4096 * r) with ((q * c + r) * 4096) by lia. by apply Z.mod_mul.
Qed.

Lemma land_mod_mask k x mask : 0 ≤ k → 0 ≤ mask < 2 ^ k → Z.land (x mod 2 ^ k) mask = Z.land x mask.
Proof.
  intros Hk Hm. rewrite <-Z.land_ones, <-Z.land_assoc by lia. f_equal.
  rewrite Z.land_comm, Z.land_ones, Z.mod_small by lia. done.
Qed.

Section walk.
Context `{HW : Hardware}.
Implicit Types (s : machine).

(** The EPT code does not look at the bits above 47. *)
Lemma vmx_ept_get_host_physical_address_mod vm gpa :
  vmx_ept_get_host_physical_address vm (gpa mod 2 ^ 48) = vmx_ept_get_host_physical_address vm gpa.
Proof.
  unfold vmx_ept_get_host_physical_address, GUEST_PHYSICAL_ADDRESS_GET_PML4,
    GUEST_PHYSICAL_ADDRESS_GET_DIRECTORY_PTR, GUEST_PHYSICAL_ADDRESS_GET_DIRECTORY,
    GUEST_PHYSICAL_ADDRESS_GET_TABLE, GUEST_PHYSICAL_ADDRESS_GET_OFFSET.
  by rewrite !(land_mod_mask 48 gpa) by done.
Qed.

Lemma wp_ept_get la lv vm v tbl gpa E (Q : option Z → machine → Prop) s :
  ept_inv la lv vm v tbl s → Q (ept_translate v (m_mem s) (gpa mod 2 ^ 48)) s →
  wp (vmx_ept_get_host_physical_address vm gpa) E Q s.
Proof.
  intros Hinv HQ. rewrite <-vmx_ept_get_host_physical_address_mod.
  eapply wp_vmx_ept_get_host_physical_address; [done|by apply Z.mod_pos_bound|done].
Qed.

Lemma ept_translate_offset v m gpa o : gpa mod 4096 = 0 → 0 ≤ o < 4096 →
  ept_translate v m (gpa + o) = (λ h, h + o) <$> ept_translate v m gpa.
Proof. intros. unfold ept_translate. case_match; [|done]. by apply ept_walk_offset; [lia|..]. Qed.

Lemma ept_translate_page v m gpa h : ept_in_window v m → 0 ≤ gpa < 2 ^ 48 → gpa mod 4096 = 0 →
  ept_translate v m gpa = Some h → page_ok h.
Proof.
  intros Hw Hb Hg Hh. split; [|by eapply Hw].
  unfold ept_translate in Hh. case_match; [|done]. by eapply (ept_walk_aligned 3); [lia|..].
Qed.

Lemma mod48_offset gpa o : gpa mod 4096 = 0 → 0 ≤ o < 4096 →
  (gpa + o) mod 2 ^ 48 = gpa mod 2 ^ 48 + o ∧ (gpa mod 2 ^ 48) mod 4096 = 0.
Proof. intros. split; [by apply (mod_page_offset 4)|]. change (2 ^ 48) with (4096 * 2 ^ 36). zlia. Qed.

(** One level of the walk. *)
Lemma wp_guest_level {A} la lv vm v tbl table i (k : Z → M machine (option A)) E Q s :
  ept_inv la lv vm v tbl s → ept_in_window v (m_mem s) → table mod 4096 = 0 → 0 ≤ i < 512 →
  match guest_load64 v (m_mem s) (table + 8 * i) with
  | None => Q None s
  | Some e => wp (k e) E Q s
  end →
  wp (with_ept_hostva vm table (λ hostva, deref_load 8 (ptr64 hostva i) ≫= k)) E Q s.
Proof.
  intros Hinv Hw Ht Hi HQ. unfold with_ept_hostva. wp_step. eapply wp_ept_get; [done|].
  destruct (mod48_offset table (8 * i) Ht ltac:(lia)) as [Ho Ha]. unfold guest_load64 in HQ.
  rewrite Ho, ept_translate_offset in HQ by (done || lia).
  destruct (ept_translate _ _ _) as [h|] eqn:Hh; cbn [fmap option_fmap option_map] in HQ; [|by apply wp_ret].
  wp_step. apply wp_load64; [|done|done].
  eapply ept_translate_page; [done|by apply Z.mod_pos_bound|done|done].
Qed.

Lemma wp_vm_guest_paging_get_guest_physical_address la lv vm v tbl cr3 gla E (Q : option Z → machine → Prop) s :
  ept_inv la lv vm v tbl s → ept_in_window v (m_mem s) →
  Q (guest_walk 3 v (m_mem s) (Z.land cr3 PAGE_MASK) gla) s →
  wp (vm_guest_paging_get_guest_physical_address vm cr3 gla) E Q s.
Proof.
  intros Hinv Hw HQ. unfold vm_guest_paging_get_guest_physical_address. cbv zeta.
  change (LINEAR_ADDRESS_GET_PML4 gla) with (GUEST_PHYSICAL_ADDRESS_GET_PML4 gla).
  change (LINEAR_ADDRESS_GET_DIRECTORY_PTR gla) with (GUEST_PHYSICAL_ADDRESS_GET_DIRECTORY_PTR gla).
  change (LINEAR_ADDRESS_GET_DIRECTORY gla) with (GUEST_PHYSICAL_ADDRESS_GET_DIRECTORY gla).
  change (LINEAR_ADDRESS_GET_TABLE gla) with (GUEST_PHYSICAL_ADDRESS_GET_TABLE gla).
  rewrite GET_PML4_level, GET_DIRECTORY_PTR_level, GET_DIRECTORY_level, GET_TABLE_level.
  assert (∀ x, entry_frame 0 x mod 4096 = 0) as Hframe by (intros; by apply (entry_frame_aligned 0); lia).
  assert (Z.land cr3 PAGE_MASK mod 4096 = 0) as Hcr3 by (rewrite PAGE_MASK_spec; by apply Z.mod_mul).
  cbn [guest_walk] in HQ.
  eapply wp_guest_level; [done..|apply level_index_bound|].
  destruct (guest_load64 _ _ _) as [e3|]; [|done].
  change (truthy (Z.land e3 PML4E_PRESENT)) with (entry_readable e3). rewrite entry_readable_bit.
  change (entry_leaf 3 e3) with false in HQ.
  destruct (Z.testbit e3 0); cbn [negb]; [|by apply wp_ret].
  change (Z.land e3 PML4E_PHYSICAL_ADDRESS_PDPT) with (Z.land e3 PTE_PHYSICAL_ADDRESS_PAGE).
  rewrite entry_table_frame. eapply wp_guest_level; [done|done|apply Hframe|apply level_index_bound|].
  destruct (guest_load64 _ _ _) as [e2|]; [|done].
  change (truthy (Z.land e2 PDPTE_PRESENT)) with (entry_readable e2). rewrite entry_readable_bit.
  destruct (Z.testbit e2 0); cbn [negb]; [|by apply wp_ret].
  change (truthy (Z.land e2 PDPTE_PAGE_SIZE)) with (entry_large 2 e2). rewrite entry_large_bit.
  destruct (entry_leaf 2 e2) eqn:Hl2.
  { apply wp_ret. rewrite <-large_address_frame in HQ by (by right). exact HQ. }
  change (Z.land e2 PDPTE_PHYSICAL_ADDRESS_PD) with (Z.land e2 PTE_PHYSICAL_ADDRESS_PAGE).
  rewrite entry_table_frame. eapply wp_guest_level; [done|done|apply Hframe|apply level_index_bound|].
  destruct (guest_load64 _ _ _) as [e1|]; [|done].
  change (truthy (Z.land e1 PDE_PRESENT)) with (entry_readable e1). rewrite entry_readable_bit.
  destruct (Z.testbit e1 0); cbn [negb]; [|by apply wp_ret].
  change (truthy (Z.land e1 PDE_PAGE_SIZE)) with (entry_large 1 e1). rewrite entry_large_bit.
  destruct (entry_leaf 1 e1) eqn:Hl1.
  { apply wp_ret. rewrite <-large_address_frame in HQ by (by left). exact HQ. }
  change (Z.land e1 PDE_PHYSICAL_ADDRESS_PT) with (Z.land e1 PTE_PHYSICAL_ADDRESS_PAGE).
  rewrite entry_table_frame. eapply wp_guest_level; [done|done|apply Hframe|apply level_index_bound|].
  destruct (guest_load64 _ _ _) as [e0|]; [|done].
  change (truthy (Z.land e0 PTE_PRESENT)) with (entry_readable e0). rewrite entry_readable_bit.
  change (entry_leaf 0 e0) with true in HQ.
  destruct (Z.testbit e0 0); cbn [negb]; apply wp_ret; [|done].
  rewrite page_address_frame. exact HQ.
Qed.

End walk.

(** * Pointers of the guest *)

Section pointers.
Context `{HW : Hardware}.
Implicit Types (s : machine) (st : vmx_vmexit_state_t).

Lemma guest_walk_offset n v m T la o : (n ≤ 3)%nat → la mod 4096 = 0 → 0 ≤ o < 4096 →
  guest_walk n v m T (la + o) = (λ gpa, gpa + o) <$> guest_walk n v m T la.
Proof.
  intros Hn Hla Ho. revert T Hn. induction n as [|n IH]; intros T Hn; cbn [guest_walk];
    rewrite level_index_offset by done; destruct (guest_load64 _ _ _); [|done| |done];
    destruct (Z.testbit _ 0); try done; cbn [fmap option_fmap option_map].
  - rewrite mod_page_offset by done. cbn. f_equal. lia.
  - destruct (entry_leaf _ _); [|apply IH; lia]. rewrite mod_page_offset by done. cbn. f_equal. lia.
Qed.

Lemma frame_offset_aligned n e la : (n ≤ 3)%nat → la mod 4096 = 0 →
  (entry_frame n e + la mod 2 ^ level_shift n) mod 4096 = 0.
Proof.
  intros Hn Hla. unfold entry_frame.
  set (f := (e / 2 ^ level_shift n) mod 2 ^ (52 - level_shift n)).
  assert (2 ^ level_shift n = 4096 * 2 ^ (9 * Z.of_nat n)) as ->
    by (unfold level_shift; by rewrite Z.pow_add_r by lia).
  pose proof (Z.pow_pos_nonneg 2 (9 * Z.of_nat n) ltac:(lia) ltac:(lia)) as Hc.
  set (c := 2 ^ (9 * Z.of_nat n)) in *.
  rewrite (Z.rem_mul_r la), Hla, Z.add_0_l by lia.
  replace (f * (4096 * c) + 4096 * ((la / 4096) mod c)) with ((f * c + (la / 4096) mod c) * 4096) by lia.
  by apply Z.mod_mul.
Qed.

Lemma guest_walk_aligned n v m T la gpa : (n ≤ 3)%nat → la mod 4096 = 0 →
  guest_walk n v m T la = Some gpa → gpa mod 4096 = 0.
Proof.
  intros Hn Hla. revert T Hn. induction n as [|n IH]; intros T Hn; cbn [guest_walk];
    destruct (guest_load64 _ _ _); try done; destruct (Z.testbit _ 0); try done.
  - intros [= <-]. by apply (frame_offset_aligned 0).
  - destruct (entry_leaf _ _); [|by apply IH; lia]. intros [= <-]. by apply frame_offset_aligned.
Qed.

Lemma page_base x : x / 4096 * 4096 mod 4096 = 0.
Proof. by apply Z.mod_mul. Qed.

(** The host-physical address of a byte of the guest. *)
Definition guest_address v (m : mem) (cr3 gva : Z) : option Z :=
  gpa ← guest_walk 3 v m (Z.land cr3 PAGE_MASK) gva;
  ept_translate v m (gpa mod 2 ^ 48).

Lemma guest_address_offset v m cr3 p o : p mod 4096 = 0 → 0 ≤ o < 4096 →
  guest_address v m cr3 (p + o) = (λ h, h + o) <$> guest_address v m cr3 p.
Proof.
  intros Hp Ho. unfold guest_address. rewrite guest_walk_offset by (done || lia).
  destruct (guest_walk _ _ _ _ _) as [gpa|] eqn:Hg; [|done].
  apply guest_walk_aligned in Hg; [|lia|done]. cbn [fmap option_fmap option_map mbind option_bind].
  destruct (mod48_offset gpa o Hg Ho) as [-> Ha]. by apply ept_translate_offset.
Qed.

Lemma guest_address_page v m cr3 p h : ept_in_window v m → p mod 4096 = 0 →
  guest_address v m cr3 p = Some h → page_ok h.
Proof.
  intros Hw Hp (gpa & Hg & Ht)%bind_Some. apply guest_walk_aligned in Hg; [|lia|done].
  eapply ept_translate_page; [done|by apply Z.mod_pos_bound| |done].
  by apply (mod48_offset gpa 0).
Qed.

(** Paging with four levels, in long mode. *)
Definition long_mode_4_levels st : bool :=
  truthy (Z.land (st_cr0 st) CR0_PG) && truthy (Z.land (st_cr4 st) CR4_PAE) &&
  negb (truthy (Z.land (st_cr4 st) CR4_LA57)) &&
  truthy (Z.land (msr_ia32_efer (st_msrs st)) IA32_EFER_LME).

(** The reason for which a pointer cannot be resolved. *)
Definition guest_pointer_panic st v (m : mem) (gva size : Z) : option string :=
  if negb (long_mode_4_levels st) then
    Some "Resolving guest virtual address in an unsupported configuration (not long mode with 4-level paging)"%string
  else match guest_walk 3 v m (Z.land (st_cr3 st) PAGE_MASK) gva with
  | None => Some "Unable to walk guest page table to resolve guest linear address in VM-Exit handler"%string
  | Some gpa =>
    match ept_translate v m (gpa mod 2 ^ 48) with
    | None => Some "Unable to walk EPT to resolve guest physical address in VM-Exit handler"%string
    | Some _ =>
      if gva mod 4096 + size <=? 4096 then None
      else Some "Resolving guest virtual address across page boudaries in VM-Exit handler"%string
    end
  end.

Lemma same_page h o size : page_ok h → 0 ≤ o < 4096 → 1 ≤ size ≤ 4096 →
  (Z.land (P2V_IDENTITY_MAP (h + o)) PAGE_MASK =?
   Z.land (u64 (P2V_IDENTITY_MAP (h + o) + u64 (size - 1))) PAGE_MASK) = (o + size <=? 4096).
Proof.
  intros [Ha Hb] Ho Hs. rewrite !PAGE_MASK_spec.
  unfold P2V_IDENTITY_MAP, RKHV_PHYSICAL_MEMORY_BASE, PAGE_SIZE in *.
  rewrite !(wrap_small 64) by (rewrite ?wrap_small; lia).
  apply eq_true_iff_eq. rewrite Z.eqb_eq, Z.leb_le. zlia.
Qed.

Lemma wp_guest_pointer la lv v tbl st gva size E (Q : Z → machine → Prop) s :
  ept_inv la lv (st_vm st) v tbl s → ept_in_window v (m_mem s) → 1 ≤ size ≤ 4096 →
  match guest_pointer_panic st v (m_mem s) gva size with
  | Some msg => E msg
  | None => ∀ h, guest_address v (m_mem s) (st_cr3 st) gva = Some h → Q (P2V_IDENTITY_MAP h) s
  end →
  wp (vm_guest_paging_get_host_virtual_address_during_vmexit st gva size) E Q s.
Proof.
  intros Hinv Hw Hs HQ. unfold vm_guest_paging_get_host_virtual_address_during_vmexit, guest_pointer_panic in *.
  assert ((negb (truthy (Z.land (st_cr0 st) CR0_PG)) || negb (truthy (Z.land (st_cr4 st) CR4_PAE)) ||
    truthy (Z.land (st_cr4 st) CR4_LA57) || negb (truthy (Z.land (msr_ia32_efer (st_msrs st)) IA32_EFER_LME)))
    = negb (long_mode_4_levels st)) as ->
    by (unfold long_mode_4_levels; by repeat destruct (truthy _)).
  destruct (negb (long_mode_4_levels st)); [by apply wp_panic|].
  wp_step. eapply wp_vm_guest_paging_get_guest_physical_address; [done..|].
  pose proof (guest_address_offset v (m_mem s) (st_cr3 st) (gva / 4096 * 4096) (gva mod 4096)
    (page_base gva) ltac:(by apply Z.mod_pos_bound)) as Hoff.
  replace (gva / 4096 * 4096 + gva mod 4096) with gva in Hoff by (rewrite (Z.div_mod gva 4096) at 1; lia).
  pose proof (guest_address_page v (m_mem s) (st_cr3 st) (gva / 4096 * 4096)) as Hpage.
  destruct (guest_address v (m_mem s) (st_cr3 st) (gva / 4096 * 4096)) as [h0|];
    cbn [fmap option_fmap option_map] in Hoff; unfold guest_address in Hoff, HQ.
  2: { destruct (guest_walk 3 _ _ _ gva) as [gpa|]; [|by apply wp_panic]. wp_step.
       eapply wp_ept_get; [done|]. cbn [mbind option_bind] in Hoff. rewrite Hoff in HQ |- *. by apply wp_panic. }
  destruct (guest_walk 3 _ _ _ gva) as [gpa|]; [|done]. wp_step.
  eapply wp_ept_get; [done|]. cbn [mbind option_bind] in Hoff, HQ. rewrite Hoff in HQ |- *.
  specialize (Hpage h0 Hw (page_base gva) eq_refl).
  cbv zeta. rewrite same_page by (done || by apply Z.mod_pos_bound).
  destruct (gva mod 4096 + size <=? 4096); cbn [negb]; [apply wp_ret; by apply HQ|by apply wp_panic].
Qed.

Lemma guest_pointer_panic_page st v m gva size :
  guest_pointer_panic st v m gva size = None → gva mod 4096 + size ≤ 4096.
Proof.
  unfold guest_pointer_panic. repeat case_match; try done. intros _. by apply Z.leb_le.
Qed.

(** The bytes of data inside of a page. *)
Lemma guest_pointer_bytes v m cr3 gva size h :
  ept_in_window v m → 1 ≤ size → gva mod 4096 + size ≤ 4096 → guest_address v m cr3 gva = Some h →
  in_window (P2V_IDENTITY_MAP h) size = true ∧
  ∀ o, 0 ≤ o < size → guest_address v m cr3 (gva + o) = Some (V2P_IDENTITY_MAP (P2V_IDENTITY_MAP h + o)).
Proof.
  intros Hw Hs Hc Hh. pose proof (Z.mod_pos_bound gva 4096 ltac:(lia)) as Hr.
  pose proof (guest_address_offset v m cr3 (gva / 4096 * 4096)) as Hoff.
  assert (∀ o, gva + o = gva / 4096 * 4096 + (gva mod 4096 + o)) as Hsplit
    by (intros o; rewrite (Z.div_mod gva 4096) at 1; lia).
  pose proof (Hoff (gva mod 4096 + 0) (page_base gva) ltac:(lia)) as H0.
  rewrite <-Hsplit, Z.add_0_r, Hh in H0.
  destruct (guest_address v m cr3 (gva / 4096 * 4096)) as [p|] eqn:Hp; [|done].
  cbn [fmap option_fmap option_map] in H0. injection H0 as ->.
  apply guest_address_page in Hp as [Ha Hb]; [|done|apply page_base]. unfold PAGE_SIZE in *.
  assert (∀ x, 0 ≤ x < 2 ^ 41 → P2V_IDENTITY_MAP x = x + RKHV_PHYSICAL_MEMORY_BASE) as Hp2v
    by (unfold P2V_IDENTITY_MAP, RKHV_PHYSICAL_MEMORY_BASE; intros; apply wrap_small; lia).
  rewrite Hp2v by lia. split.
  - unfold in_window, IDENTITY_WINDOW_SIZE, RKHV_PHYSICAL_MEMORY_BASE.
    apply andb_true_intro. split; apply Z.leb_le; [lia|zlia].
  - intros o Ho. rewrite Hsplit, Hoff by (apply page_base || lia). cbn. f_equal.
    unfold V2P_IDENTITY_MAP, RKHV_PHYSICAL_MEMORY_BASE. rewrite wrap_small; lia.
Qed.

End pointers.

(** * Identity tables *)

Section setup.
Context `{HW : Hardware}.
Implicit Types (s : machine).

(** The page [k] of the guest is the host page [p], which is no page of the EPT. *)
Record guest_ram (v : vm_t) (m : mem) (k p : Z) : Prop := {
  gr_translate : ept_translate v m (k * PAGE_SIZE) = Some p;
  gr_page : page_ok p;
  gr_not_ept res : p ∉ pages_of VM_PAGE_TYPE_EPT res (vm_tracked_pages v);
}.

(** Writing memory that the guest sees keeps the EPT. *)
Lemma ept_inv_guest_memory la lv vm v tbl s m' :
  ept_inv la lv vm v tbl s →
  (∀ res p a, p ∈ pages_of VM_PAGE_TYPE_EPT res (vm_tracked_pages v) → p ≤ a < p + PAGE_SIZE →
     load_byte m' a = load_byte (m_mem s) a) →
  ept_inv la lv vm v tbl (s <| m_mem := m' |>) ∧
  ∀ gpa, 0 ≤ gpa < 2 ^ 48 → ept_translate v m' gpa = ept_translate v (m_mem s) gpa.
Proof.
  intros [Hwf Hvm Hv [Ht He Htr Hr]] Hm.
  assert (∀ k T i, tbl !! k = Some T → 0 ≤ i < 512 → ept_entry m' T i = ept_entry (m_mem s) T i)
    as Hsame by (intros k T i HT Hi; apply ept_entry_ext; [done|]; intros a; by apply (Hm false), (Htr _ _ HT)).
  split.
  - split; [by apply vmm_wf_mem|done|done|]. split; [|done|done|].
    + intros Hi. by eapply ept_tables_wf_frame; [apply Ht|].
    + intros p Hp a Ha. simpl. rewrite (Hm true p); [by eapply Hr|done..].
  - intros gpa Hgpa. unfold ept_translate. destruct (ept_initialized v) eqn:Hi; [|done].
    eapply ept_walk_frame; [by apply Ht|done|].
    rewrite level_prefix_root by done. apply (et_root _ _ _ (Ht eq_refl)).
Qed.

(** The number of pages used by the setup is none of the invariant's business. *)
Definition with_used (v : vm_t) (c : Z) : vm_t := v <| vm_used_by_initial_setup := c |>.

Lemma ept_inv_with_used la lv vm v tbl s c :
  ept_inv la lv vm v tbl s →
  ept_inv la lv vm (with_used v c) tbl (s <| m_vms := <[vm := with_used v c]> (m_vms s) |>).
Proof.
  intros [Hwf Hvm Hv Hept]. split; [|done|apply lookup_insert_eq|by destruct Hept].
  pose proof (vmm_wf_update la lv s vm v (with_used v c) (m_arenas s)) as H. rewrite set_m_arenas_id in H.
  apply H; [done..|exact (vw_tracked _ _ _ Hwf vm v Hvm Hv)|by left|apply Hwf].
Qed.

(** The state after [c] pages were taken and guest memory was written. *)
Definition setup_state s vm v (c : Z) (m : mem) : machine :=
  s <| m_mem := m |> <| m_vms := <[vm := with_used v c]> (m_vms s) |>.

Lemma setup_state_mem s vm v c m m' : (setup_state s vm v c m) <| m_mem := m' |> = setup_state s vm v c m'.
Proof. done. Qed.
Lemma setup_state_m_mem s vm v c m : m_mem (setup_state s vm v c m) = m.
Proof. done. Qed.

Context (la lv : list Z) (vm : Z) (v : vm_t) (tbl : gmap (nat * Z) Z) (s0 : machine).
Context (lo hi : Z) (host : Z → Z).
Hypothesis (Hinv : ept_inv la lv vm v tbl s0).
Hypothesis (Hbound : 0 ≤ lo ∧ hi * PAGE_SIZE ≤ 2 ^ 48).
Hypothesis (Hram : ∀ k, lo ≤ k < hi → guest_ram v (m_mem s0) k (host k)).
Hypothesis (Hinj : ∀ k k', lo ≤ k < hi → lo ≤ k' < hi → host k = host k' → k = k').

(** Only the pages [lo] to [hi - 1] of the guest were written. *)
Definition only_ram_written (m : mem) : Prop :=
  ∀ a, (∀ k, lo ≤ k < hi → ¬ (host k ≤ a < host k + PAGE_SIZE)) → load_byte m a = load_byte (m_mem s0) a.

Lemma only_ram_written_ept m : only_ram_written m →
  ∀ res p a, p ∈ pages_of VM_PAGE_TYPE_EPT res (vm_tracked_pages v) → p ≤ a < p + PAGE_SIZE →
    load_byte m a = load_byte (m_mem s0) a.
Proof.
  intros Hm res p a Hp Ha. apply Hm. intros k Hk. destruct (Hram k Hk) as [_ Hok Hne].
  apply (page_ok_disjoint p); [|done| |done].
  - destruct Hinv as [Hwf Hvm Hv _]. by eapply tracked_page_ok.
  - intros ->. by apply (Hne res).
Qed.

Lemma ept_inv_setup c m : only_ram_written m →
  ept_inv la lv vm (with_used v c) tbl (setup_state s0 vm v c m) ∧
  ∀ gpa, 0 ≤ gpa < 2 ^ 48 →
    ept_translate (with_used v c) m gpa = ept_translate v (m_mem s0) gpa.
Proof.
  intros Hm. destruct (ept_inv_guest_memory _ _ _ _ _ _ m Hinv (only_ram_written_ept m Hm)) as [Hi Ht].
  split; [exact (ept_inv_with_used la lv vm v tbl (s0 <| m_mem := m |>) c Hi)|]. intros gpa Hg.
  rewrite <-(Ht gpa Hg). done.
Qed.

(** An entry of a page of the guest. *)
Definition ram_entry (m : mem) (k i : Z) : Z := load_le 8 m (host k + 8 * i).

Lemma ram_entry_store m k i e k' i' :
  lo ≤ k < hi → lo ≤ k' < hi → 0 ≤ i < 512 → 0 ≤ i' < 512 → 0 ≤ e < 256 ^ 8 →
  ram_entry (store_le 8 m (host k + 8 * i) e) k' i' =
    if decide (k' = k ∧ i' = i) then e else ram_entry m k' i'.
Proof.
  intros Hk Hk' Hi Hi' He. unfold ram_entry. case_decide as Hd.
  - destruct Hd as [-> ->]. by apply (load_store_same_small 8).
  - apply load_store_other. destruct (decide (k' = k)) as [->|Hne]; [lia|].
    assert (host k ≠ host k') as Hh by (intros H; apply Hne; symmetry; by apply Hinj).
    pose proof (gr_page _ _ _ _ (Hram k Hk)) as [Ha Hb].
    pose proof (gr_page _ _ _ _ (Hram k' Hk')) as [Ha' Hb'].
    unfold PAGE_SIZE in *. zlia.
Qed.

Lemma only_ram_written_store m k i e : lo ≤ k < hi → 0 ≤ i < 512 → only_ram_written m →
  only_ram_written (store_le 8 m (host k + 8 * i) e).
Proof.
  intros Hk Hi Hm a Ha. rewrite load_byte_store_other; [by apply Hm|].
  specialize (Ha k Hk). unfold PAGE_SIZE in Ha. lia.
Qed.

Lemma wp_setup_used c m E (Q : () → machine → Prop) :
  Q () (setup_state s0 vm v (u64 (c + 1)) m) → wp (guest_page_used vm) E Q (setup_state s0 vm v c m).
Proof.
  intros HQ. unfold guest_page_used. eapply wp_vm_modify; [apply lookup_insert_eq|].
  unfold setup_state in *. unfold upd, set_m_mem, set_m_vms in *. simpl in *. by rewrite insert_insert_eq.
Qed.

Lemma wp_setup_hostva c m k E (Q : Z → machine → Prop) :
  only_ram_written m → lo ≤ k < hi → Q (P2V_IDENTITY_MAP (host k)) (setup_state s0 vm v c m) →
  wp (ept_get_hostva vm (k * PAGE_SIZE)) E Q (setup_state s0 vm v c m).
Proof.
  intros Hm Hk HQ. unfold ept_get_hostva. wp_step.
  destruct (ept_inv_setup c m Hm) as [Hi Ht].
  assert (0 ≤ k * PAGE_SIZE < 2 ^ 48) as Hb by (unfold PAGE_SIZE in *; lia).
  eapply wp_vmx_ept_get_host_physical_address; [exact Hi|done|].
  change (m_mem (setup_state s0 vm v c m)) with m. rewrite Ht by done.
  rewrite (gr_translate _ _ _ _ (Hram k Hk)). by apply wp_ret.
Qed.

Lemma wp_setup_store c m k i e E (Q : () → machine → Prop) :
  lo ≤ k < hi → 0 ≤ i < 512 → Q () (setup_state s0 vm v c (store_le 8 m (host k + 8 * i) e)) →
  wp (deref_store 8 (ptr64 (P2V_IDENTITY_MAP (host k)) i) e) E Q (setup_state s0 vm v c m).
Proof. intros Hk Hi HQ. apply wp_store64; [by eapply gr_page, Hram|done|exact HQ]. Qed.

(** ** The tables *)

Hypothesis (Hpages : lo = hi - 514).

Definition identity_pde (j d : Z) : Z := (j * 512 + d) * 2 ^ 21 + 0x83.
Definition table_entry (k : Z) : Z := k * PAGE_SIZE + 3.

Lemma identity_pde_eq j d : 0 ≤ j < 512 → 0 ≤ d < 512 →
  Z.lor (Z.lor (Z.lor PDE_PRESENT PDE_READ_WRITE) PDE_PAGE_SIZE)
    (Z.land (u64 (Z.shiftl (j * PAGE_TABLE_ENTRIES + d) LINEAR_ADDRESS_D_SHIFT)) PDE_PHYSICAL_ADDRESS_PAGE)
  = identity_pde j d.
Proof.
  intros Hj Hd. change PAGE_TABLE_ENTRIES with 512. change LINEAR_ADDRESS_D_SHIFT with 21.
  rewrite Z.shiftl_mul_pow2, wrap_small by lia.
  change PDE_PHYSICAL_ADDRESS_PAGE with (Z.shiftl (Z.ones 31) 21). rewrite land_mask_range by lia.
  rewrite Z.div_mul, Z.mod_small by lia. change (Z.lor _ PDE_PAGE_SIZE) with 0x83.
  apply (lor_disjoint_l 21); [lia|by apply Z.mod_mul|lia].
Qed.

Lemma table_entry_eq k : 0 ≤ k * PAGE_SIZE < 2 ^ 48 →
  Z.lor (Z.lor PTE_PRESENT PTE_READ_WRITE) (Z.land (k * PAGE_SIZE) PTE_PHYSICAL_ADDRESS_PAGE) = table_entry k.
Proof.
  intros Hk. rewrite entry_table_frame. unfold entry_frame, table_entry, PAGE_SIZE in *.
  change (2 ^ level_shift 0) with 4096. change (2 ^ (52 - level_shift 0)) with (2 ^ 40).
  rewrite Z.div_mul, Z.mod_small by lia. change (Z.lor PTE_PRESENT PTE_READ_WRITE) with 3.
  apply (lor_disjoint_l 12); [lia|by apply Z.mod_mul|lia].
Qed.

Lemma identity_pde_bound j d : 0 ≤ j < 512 → 0 ≤ d < 512 → 0 ≤ identity_pde j d < 256 ^ 8.
Proof. unfold identity_pde. lia. Qed.

Lemma table_entry_bound k : 0 ≤ k * PAGE_SIZE < 2 ^ 48 → 0 ≤ table_entry k < 256 ^ 8.
Proof. unfold table_entry. lia. Qed.

(** A page directory. *)
Lemma wp_identity_pd c m j E (Q : () → machine → Prop) :
  only_ram_written m → 0 ≤ j < 512 →
  (∀ m', only_ram_written m' → (∀ d, 0 ≤ d < 512 → ram_entry m' (hi - 3 - j) d = identity_pde j d) →
     (∀ k i, lo ≤ k < hi → k ≠ hi - 3 - j → 0 ≤ i < 512 → ram_entry m' k i = ram_entry m k i) →
     Q () (setup_state s0 vm v c m')) →
  wp (mfor PAGE_TABLE_ENTRIES (λ pd_index,
      deref_store 8 (ptr64 (P2V_IDENTITY_MAP (host (hi - 3 - j))) pd_index)
        (Z.lor (Z.lor (Z.lor PDE_PRESENT PDE_READ_WRITE) PDE_PAGE_SIZE)
          (Z.land (u64 (Z.shiftl (j * PAGE_TABLE_ENTRIES + pd_index) LINEAR_ADDRESS_D_SHIFT))
             PDE_PHYSICAL_ADDRESS_PAGE)))) E Q (setup_state s0 vm v c m).
Proof.
  intros Hm Hj HQ. assert (lo ≤ hi - 3 - j < hi) as Hk by lia.
  eapply wp_post; [eapply (wp_for (λ i s', ∃ m', s' = setup_state s0 vm v c m' ∧ only_ram_written m' ∧
    (∀ d, 0 ≤ d < i → ram_entry m' (hi - 3 - j) d = identity_pde j d) ∧
    (∀ k i, lo ≤ k < hi → k ≠ hi - 3 - j → 0 ≤ i < 512 → ram_entry m' k i = ram_entry m k i))); [done| |]|].
  - exists m. split_and!; [done|done|lia|done].
  - change PAGE_TABLE_ENTRIES with 512 at 1. intros i s' Hi (m' & -> & Hm' & Hd & Hother).
    rewrite (identity_pde_eq j i Hj Hi). apply wp_setup_store; [done|done|].
    pose proof (identity_pde_bound j i Hj Hi) as He.
    eexists. split; [reflexivity|]. split_and!; [by apply only_ram_written_store| |].
    + intros d Hd'. rewrite ram_entry_store by (done || lia).
      case_decide as Heq; [by destruct Heq as [_ ->]|]. apply Hd. lia.
    + intros k i' Hk' Hne Hi'. rewrite ram_entry_store by (done || lia).
      rewrite decide_False by tauto. by apply Hother.
  - change PAGE_TABLE_ENTRIES with 512. intros [] s' (m' & -> & Hm' & Hd & Hother). by apply HQ.
Qed.

(** The page directories of the first [n] entries of the page-directory-pointer table. *)
Definition identity_pds (n : Z) (m : mem) : Prop :=
  only_ram_written m ∧ ∀ j, 0 ≤ j < n →
    ram_entry m (hi - 2) j = table_entry (hi - 3 - j) ∧
    ∀ d, 0 ≤ d < 512 → ram_entry m (hi - 3 - j) d = identity_pde j d.

Lemma page_address_sub k d : 0 ≤ d ≤ k → k * PAGE_SIZE < 2 ^ 48 →
  u64 (k * PAGE_SIZE - d * PAGE_SIZE) = (k - d) * PAGE_SIZE.
Proof. intros Hd Hk. rewrite <-Z.mul_sub_distr_r. apply wrap_small. unfold PAGE_SIZE in *. lia. Qed.

Lemma wp_identity_pdpt m E (Q : () → machine → Prop) :
  only_ram_written m →
  (∀ m', identity_pds 512 m' → Q () (setup_state s0 vm v 514 m')) →
  wp (mfor PAGE_TABLE_ENTRIES (λ pdpt_index,
    let pd_guestpa := u64 ((hi - 2) * PAGE_SIZE - (pdpt_index + 1) * PAGE_SIZE) in
    guest_page_used vm;;
    pd_hostva ← ept_get_hostva vm pd_guestpa;
    mfor PAGE_TABLE_ENTRIES (λ pd_index,
      deref_store 8 (ptr64 pd_hostva pd_index)
        (Z.lor (Z.lor (Z.lor PDE_PRESENT PDE_READ_WRITE) PDE_PAGE_SIZE)
          (Z.land (u64 (Z.shiftl (pdpt_index * PAGE_TABLE_ENTRIES + pd_index) LINEAR_ADDRESS_D_SHIFT))
             PDE_PHYSICAL_ADDRESS_PAGE)));;
    deref_store 8 (ptr64 (P2V_IDENTITY_MAP (host (hi - 2))) pdpt_index)
      (Z.lor (Z.lor PDPTE_PRESENT PDPTE_READ_WRITE) (Z.land pd_guestpa PDPTE_PHYSICAL_ADDRESS_PD))))
    E Q (setup_state s0 vm v 2 m).
Proof.
  intros Hm HQ.
  eapply wp_post; [eapply (wp_for (λ i s', ∃ m', s' = setup_state s0 vm v (2 + i) m' ∧ identity_pds i m'));
    [done| |]|].
  - exists m. split; [done|]. split; [done|lia].
  - change PAGE_TABLE_ENTRIES with 512 at 1. intros i s' Hi (m' & -> & Hm' & Hpd). cbv zeta.
    rewrite page_address_sub by (unfold PAGE_SIZE in *; lia).
    replace (hi - 2 - (i + 1)) with (hi - 3 - i) by lia.
    wp_step. apply wp_setup_used. rewrite wrap_small by lia.
    wp_step. apply wp_setup_hostva; [done|lia|].
    wp_step. apply wp_identity_pd; [done|done|]. intros m2 Hm2 Hd Hother.
    assert (0 ≤ (hi - 3 - i) * PAGE_SIZE < 2 ^ 48) as Hb by (unfold PAGE_SIZE in *; lia).
    apply wp_setup_store; [lia|done|].
    change PDPTE_PRESENT with PTE_PRESENT. change PDPTE_READ_WRITE with PTE_READ_WRITE.
    change PDPTE_PHYSICAL_ADDRESS_PD with PTE_PHYSICAL_ADDRESS_PAGE. rewrite (table_entry_eq _ Hb).
    pose proof (table_entry_bound _ Hb) as He.
    exists (store_le 8 m2 (host (hi - 2) + 8 * i) (table_entry (hi - 3 - i))).
    split; [f_equal; lia|]. split; [apply only_ram_written_store; (done || lia)|].
    intros j Hj. split.
    + rewrite ram_entry_store by (done || lia). case_decide as Heq; [by destruct Heq as [_ ->]|].
      rewrite Hother by lia. apply Hpd. lia.
    + intros d Hd'. rewrite ram_entry_store by (done || lia). rewrite decide_False by lia.
      destruct (decide (j = i)) as [->|Hne]; [by apply Hd|]. rewrite Hother by lia. apply Hpd; lia.
  - change PAGE_TABLE_ENTRIES with 512 at 1. intros [] s' (m' & -> & Hm'). by apply HQ.
Qed.

Lemma wp_setup_memset c m k E (Q : () → machine → Prop) :
  lo ≤ k < hi → Q () (setup_state s0 vm v c (memset m (host k) 0 PAGE_SIZE)) →
  wp (memset_va (P2V_IDENTITY_MAP (host k)) 0 PAGE_SIZE) E Q (setup_state s0 vm v c m).
Proof.
  intros Hk HQ. apply wp_memset_page; [by eapply gr_page, Hram|].
  rewrite setup_state_mem, setup_state_m_mem. exact HQ.
Qed.

(** Where the tables are, when [vm_guest_paging_setup_identity] returns. *)
Record identity_paging (m : mem) : Prop := {
  ip_ram : only_ram_written m;
  ip_pml4 i : 0 ≤ i < 512 → ram_entry m (hi - 1) i = if decide (i = 0) then table_entry (hi - 2) else 0;
  ip_pdpt j : 0 ≤ j < 512 → ram_entry m (hi - 2) j = table_entry (hi - 3 - j);
  ip_pd j d : 0 ≤ j < 512 → 0 ≤ d < 512 → ram_entry m (hi - 3 - j) d = identity_pde j d;
}.

Lemma only_ram_written_memset m k : lo ≤ k < hi → only_ram_written m →
  only_ram_written (memset m (host k) 0 PAGE_SIZE).
Proof.
  intros Hk Hm a Ha. rewrite load_byte_memset, decide_False by by apply Ha. by apply Hm.
Qed.

Lemma ram_entry_memset m k k' i : lo ≤ k < hi → lo ≤ k' < hi → 0 ≤ i < 512 →
  ram_entry (memset m (host k) 0 PAGE_SIZE) k' i = if decide (k' = k) then 0 else ram_entry m k' i.
Proof.
  intros Hk Hk' Hi. unfold ram_entry. case_decide as Heq.
  - subst. apply load_memset_zero; unfold PAGE_SIZE; lia.
  - apply load_memset_other.
    assert (host k ≠ host k') as Hh by (intros H; apply Heq; symmetry; by apply Hinj).
    pose proof (gr_page _ _ _ _ (Hram k Hk)) as [Ha Hb].
    pose proof (gr_page _ _ _ _ (Hram k' Hk')) as [Ha' Hb'].
    unfold PAGE_SIZE in *. zlia.
Qed.

Lemma identity_paging_root m : identity_pds 512 m →
  identity_paging (store_le 8 (memset m (host (hi - 1)) 0 PAGE_SIZE) (host (hi - 1) + 8 * 0)
    (table_entry (hi - 2))).
Proof.
  intros [Hm Hpd].
  assert (0 ≤ table_entry (hi - 2) < 256 ^ 8) as He by (apply table_entry_bound; unfold PAGE_SIZE in *; lia).
  split.
  - apply only_ram_written_store; [lia|lia|]. apply only_ram_written_memset; [lia|done].
  - intros i Hi. rewrite ram_entry_store, ram_entry_memset by (done || lia).
    rewrite (decide_True (P := hi - 1 = hi - 1)) by done.
    repeat case_decide; try done; tauto.
  - intros j Hj. rewrite ram_entry_store, ram_entry_memset by (done || lia).
    rewrite !decide_False by lia. by apply Hpd.
  - intros j d Hj Hd. rewrite ram_entry_store, ram_entry_memset by (done || lia).
    rewrite !decide_False by lia. by apply Hpd.
Qed.

Lemma setup_state_start : vm_used_by_initial_setup v = 0 → setup_state s0 vm v 0 (m_mem s0) = s0.
Proof.
  intros H0. unfold setup_state, with_used. replace (v <| vm_used_by_initial_setup := 0 |>) with v
    by (rewrite <-H0; by destruct v). unfold upd, set_m_mem, set_m_vms. simpl.
  rewrite insert_id by apply Hinv. by destruct s0.
Qed.

Lemma wp_vm_guest_paging_setup_identity E (Q : Z → machine → Prop) :
  vm_guest_physical_pages v = hi → vm_used_by_initial_setup v = 0 →
  (∀ m, identity_paging m → Q ((hi - 1) * PAGE_SIZE) (setup_state s0 vm v 514 m)) →
  wp (vm_guest_paging_setup_identity vm) E Q s0.
Proof.
  intros Hhi H0 HQ. unfold vm_guest_paging_setup_identity. wp_step. eapply wp_vm_get; [apply Hinv|].
  rewrite Hhi, H0. destruct (Z.eqb_spec hi 0); [lia|]. cbn [Z.eqb negb]. cbv zeta.
  rewrite (wrap_small 64 (hi - 1)), (wrap_small 64 ((hi - 1) * PAGE_SIZE)) by (unfold PAGE_SIZE in *; lia).
  assert (u64 ((hi - 1) * PAGE_SIZE - PAGE_SIZE) = (hi - 2) * PAGE_SIZE) as ->
    by (rewrite wrap_small; unfold PAGE_SIZE in *; lia).
  rewrite <-(setup_state_start H0).
  wp_step. apply wp_setup_used. wp_step. apply wp_setup_hostva; [done|lia|].
  wp_step. apply wp_setup_used. wp_step. apply wp_setup_hostva; [done|lia|].
  wp_step. apply wp_identity_pdpt; [done|]. intros m Hm.
  wp_step. apply wp_setup_memset; [lia|].
  wp_step. change (LINEAR_ADDRESS_GET_PML4 0) with 0. change PML4E_PRESENT with PTE_PRESENT.
  change PML4E_READ_WRITE with PTE_READ_WRITE. change PML4E_PHYSICAL_ADDRESS_PDPT with PTE_PHYSICAL_ADDRESS_PAGE.
  rewrite table_entry_eq by (unfold PAGE_SIZE in *; lia).
  apply wp_setup_store; [lia|lia|]. apply wp_ret, HQ. by apply identity_paging_root.
Qed.

(** ** Their translation *)

Lemma guest_load64_ram m c k i : only_ram_written m → lo ≤ k < hi → 0 ≤ i < 512 →
  guest_load64 (with_used v c) m (k * PAGE_SIZE + 8 * i) = Some (ram_entry m k i).
Proof.
  intros Hm Hk Hi. unfold guest_load64. assert (0 ≤ k * PAGE_SIZE + 8 * i < 2 ^ 48) as Hb
    by (unfold PAGE_SIZE in *; lia).
  rewrite Z.mod_small by done. destruct (ept_inv_setup c m Hm) as [_ Ht]. rewrite Ht by done.
  rewrite ept_translate_offset, (gr_translate _ _ _ _ (Hram k Hk)) by (unfold PAGE_SIZE; (lia || by apply Z.mod_mul)).
  done.
Qed.

Lemma table_entry_bits k : 0 ≤ k * PAGE_SIZE < 2 ^ 48 →
  Z.testbit (table_entry k) 0 = true ∧ Z.testbit (table_entry k) 7 = false ∧
  entry_frame 0 (table_entry k) = k * PAGE_SIZE.
Proof.
  intros Hk. unfold table_entry, PAGE_SIZE, entry_frame in *. change (level_shift 0) with 12.
  rewrite !Z.testbit_eqb by lia. split_and!; [apply Z.eqb_eq; zlia|apply Z.eqb_neq; zlia|].
  rewrite Z.mod_small by zlia. zlia.
Qed.

Lemma identity_pde_bits j d : 0 ≤ j < 512 → 0 ≤ d < 512 →
  Z.testbit (identity_pde j d) 0 = true ∧ Z.testbit (identity_pde j d) 7 = true ∧
  entry_frame 1 (identity_pde j d) = (j * 512 + d) * 2 ^ 21.
Proof.
  intros Hj Hd. unfold identity_pde, entry_frame. change (level_shift 1) with 21.
  rewrite !Z.testbit_eqb by lia. split_and!; [apply Z.eqb_eq; zlia|apply Z.eqb_eq; zlia|].
  rewrite Z.mod_small by zlia. zlia.
Qed.

Lemma split_identity_address gla :
  (level_index 2 gla * 512 + level_index 1 gla) * 2 ^ 21 + gla mod 2 ^ level_shift 1 = gla mod 2 ^ 39.
Proof.
  unfold level_index. change (2 ^ level_shift 2) with (2 ^ 21 * 512). change (2 ^ level_shift 1) with (2 ^ 21).
  change (2 ^ 39) with (2 ^ 21 * (512 * 512)). rewrite <-Z.div_div, !Z.rem_mul_r by lia. lia.
Qed.

Lemma identity_walk m c gla : identity_paging m →
  guest_walk 3 (with_used v c) m ((hi - 1) * PAGE_SIZE) gla =
    if level_index 3 gla =? 0 then Some (gla mod 2 ^ 39) else None.
Proof.
  intros [Hm H4 H3 H2]. pose proof (level_index_bound 3 gla) as Hi3.
  pose proof (level_index_bound 2 gla) as Hi2. pose proof (level_index_bound 1 gla) as Hi1.
  assert (∀ k, lo ≤ k < hi → 0 ≤ k * PAGE_SIZE < 2 ^ 48) as Hb by (unfold PAGE_SIZE in *; lia).
  cbn [guest_walk]. rewrite guest_load64_ram, H4 by (done || lia).
  destruct (Z.eqb_spec (level_index 3 gla) 0) as [H0|H0]; [rewrite decide_True by done|by rewrite decide_False].
  destruct (table_entry_bits (hi - 2) (Hb (hi - 2) ltac:(lia))) as (-> & Hl & ->).
  change (entry_leaf 3 _) with false. cbv iota.
  rewrite guest_load64_ram, H3 by (done || lia).
  set (j := level_index 2 gla) in *. set (d := level_index 1 gla) in *.
  destruct (table_entry_bits (hi - 3 - j) (Hb (hi - 3 - j) ltac:(lia))) as (-> & Hl2 & ->).
  cbn [entry_leaf]. rewrite Hl2. rewrite guest_load64_ram, H2 by (done || lia).
  destruct (identity_pde_bits j d Hi2 Hi1) as (-> & -> & ->). f_equal.
  apply split_identity_address.
Qed.

End setup.

(** * Properties *)

Section properties.
Context `{HW : Hardware}.

(** C13: [vm_guest_paging_setup_identity] always succeeds on a VM whose last 514 pages are
    distinct pages of guest memory: with the address that it returns in CR3, the processor
    translates every linear address of the first 512 GiB to itself and no other address,
    whatever the pages contained before. It takes exactly 514 pages from the end of guest
    memory, writes no byte outside of them, and keeps the EPT. *)
Theorem vm_guest_paging_setup_identity_correct la lv vm v tbl s host :
  let n := vm_guest_physical_pages v in
  ept_inv la lv vm v tbl s → 514 ≤ n → n * PAGE_SIZE ≤ 2 ^ 48 → vm_used_by_initial_setup v = 0 →
  (∀ k, n - 514 ≤ k < n → guest_ram v (m_mem s) k (host k)) →
  (∀ k k', n - 514 ≤ k < n → n - 514 ≤ k' < n → host k = host k' → k = k') →
  ∃ v' s', vm_guest_paging_setup_identity vm s = Ok ((n - 1) * PAGE_SIZE, s') ∧
    ept_inv la lv vm v' tbl s' ∧ v' = v <| vm_used_by_initial_setup := 514 |> ∧
    (∀ gla, guest_walk 3 v' (m_mem s') ((n - 1) * PAGE_SIZE) gla =
       if (gla / 2 ^ 39) mod 512 =? 0 then Some (gla mod 2 ^ 39) else None) ∧
    (∀ gpa, 0 ≤ gpa < 2 ^ 48 → ept_translate v' (m_mem s') gpa = ept_translate v (m_mem s) gpa) ∧
    (∀ a, (∀ k, n - 514 ≤ k < n → ¬ (host k ≤ a < host k + PAGE_SIZE)) →
       load_byte (m_mem s') a = load_byte (m_mem s) a).
Proof.
  intros n Hinv Hn Hb H0 Hram Hinj. assert (0 ≤ n - 514 ∧ n * PAGE_SIZE ≤ 2 ^ 48) as Hbound by lia.
  destruct (wp_no_panic_ok (vm_guest_paging_setup_identity vm) (λ r s', r = (n - 1) * PAGE_SIZE ∧
    ∃ m, identity_paging s (n - 514) n host m ∧ s' = setup_state s vm v 514 m) s)
    as (r & s' & Heq & -> & m & Hm & ->).
  { eapply wp_vm_guest_paging_setup_identity; [done..|]. eauto. }
  destruct (ept_inv_setup la lv vm v tbl s (n - 514) n host Hinv Hram 514 m (ip_ram _ _ _ _ _ Hm)) as [Hi Ht].
  exists (with_used v 514), (setup_state s vm v 514 m). split_and!; [done|done|done| |done|by apply Hm].
  intros gla. by eapply identity_walk.
Qed.

(** C18: on every content of guest memory, [vm_guest_paging_get_guest_physical_address] is
    the translation that the processor makes with four levels of tables: pages of 1 GiB,
    2 MiB and 4 KiB, and nothing for an entry that is not present or whose table the EPT
    does not map. It changes nothing. *)
Theorem vm_guest_paging_get_guest_physical_address_correct la lv vm v tbl cr3 gla s :
  ept_inv la lv vm v tbl s → ept_in_window v (m_mem s) →
  vm_guest_paging_get_guest_physical_address vm cr3 gla s =
    Ok (guest_walk 3 v (m_mem s) (Z.land cr3 PAGE_MASK) gla, s).
Proof.
  intros Hinv Hw.
  destruct (wp_no_panic_ok (vm_guest_paging_get_guest_physical_address vm cr3 gla)
    (λ r s', r = guest_walk 3 v (m_mem s) (Z.land cr3 PAGE_MASK) gla ∧ s' = s) s)
    as (r & s' & -> & -> & ->); [|done].
  by eapply wp_vm_guest_paging_get_guest_physical_address.
Qed.

(** C12: [vm_guest_paging_get_host_virtual_address_during_vmexit] panics outside of 4-level
    long mode, on an address that does not translate and on data that crosses a page;
    otherwise every byte of the data is at the same distance of the pointer it returns,
    and inside of the memory that the hypervisor maps. *)
Theorem vm_guest_paging_pointer_safe la lv v tbl st gva size s :
  ept_inv la lv (st_vm st) v tbl s → ept_in_window v (m_mem s) → 1 ≤ size ≤ 4096 →
  match guest_pointer_panic st v (m_mem s) gva size with
  | Some msg => vm_guest_paging_get_host_virtual_address_during_vmexit st gva size s = Panic msg
  | None => ∃ hva, vm_guest_paging_get_host_virtual_address_during_vmexit st gva size s = Ok (hva, s) ∧
      in_window hva size = true ∧
      ∀ o, 0 ≤ o < size →
        guest_address v (m_mem s) (st_cr3 st) (gva + o) = Some (V2P_IDENTITY_MAP (hva + o))
  end.
Proof.
  intros Hinv Hw Hs.
  assert (wp (vm_guest_paging_get_host_virtual_address_during_vmexit st gva size)
    (λ msg, guest_pointer_panic st v (m_mem s) gva size = Some msg)
    (λ r s', guest_pointer_panic st v (m_mem s) gva size = None ∧ s' = s ∧
       ∃ h, guest_address v (m_mem s) (st_cr3 st) gva = Some h ∧ r = P2V_IDENTITY_MAP h) s) as H.
  { eapply wp_guest_pointer; [done..|]. destruct (guest_pointer_panic _ _ _ _ _); [done|]. eauto. }
  unfold wp in H.
  destruct (vm_guest_paging_get_host_virtual_address_during_vmexit st gva size s) as [[r s']|msg| | |];
    [|by rewrite H|done..].
  destruct H as (Hn & -> & h & Hh & ->). rewrite Hn. exists (P2V_IDENTITY_MAP h). split; [done|].
  eapply guest_pointer_bytes; [done|lia|by apply guest_pointer_panic_page in Hn|done].
Qed.

End properties.

(** * Witnesses *)

(** A VM with 512 MiB and a device at 0x6000 of the heap of devices, whose EPT maps the first 512 GiB of the host to themselves. *)
Definition paging_vm : vm_t :=
  zero_vm <| vm_guest_physical_pages := 0x20000 |> <| vm_devices := 0x6000 |>.
Definition identity_machine : machine :=
  match vmx_ept_create_identity_mapping vm_address (machine_with_vm 8 paging_vm) with
  | Ok (_, s) => s
  | _ => machine_with_vm 8 paging_vm
  end.
Definition identity_vm : vm_t := default zero_vm (m_vms identity_machine !! vm_address).

Lemma paging_vm_ept :
  ept_inv [vm_arena] [vm_address] vm_address paging_vm ∅ (machine_with_vm 8 paging_vm).
Proof.
  split; [|by left|apply machine_with_vm_vm|].
  - apply machine_with_vm_wf; [done|done|split; constructor|]. by intros p ?%elem_of_nil.
  - split; [done|done|intros k T; by rewrite lookup_empty|by intros p ?%elem_of_nil].
Qed.

Lemma identity_vm_fields :
  vm_guest_physical_pages identity_vm = 0x20000 ∧ vm_used_by_initial_setup identity_vm = 0 ∧
  vm_tracked_pages identity_vm = [mk_page_list 0x16000 2 VM_PAGE_TYPE_EPT false].
Proof. split_and!; vm_compute; reflexivity. Qed.

Lemma identity_machine_eq s :
  vmx_ept_create_identity_mapping vm_address (machine_with_vm 8 paging_vm) = Ok ((), s) → identity_machine = s.
Proof. unfold identity_machine. by intros ->. Qed.

Lemma identity_vm_eq v : m_vms identity_machine !! vm_address = Some v → identity_vm = v.
Proof. unfold identity_vm. by intros ->. Qed.

#[local] Opaque identity_machine identity_vm.

Lemma identity_machine_ept : ∃ tbl,
  ept_inv [vm_arena] [vm_address] vm_address identity_vm tbl identity_machine ∧
  ∀ gpa, 0 ≤ gpa < 2 ^ 48 →
    ept_translate identity_vm (m_mem identity_machine) gpa = if gpa <? 2 ^ 39 then Some gpa else None.
Proof.
  assert (is_ok (vmx_ept_create_identity_mapping vm_address (machine_with_vm 8 paging_vm)) = true) as Hok
    by (vm_compute; reflexivity).
  apply is_ok_inv in Hok as ([] & s' & Heq).
  assert (wp (vmx_ept_create_identity_mapping vm_address) (λ _, True) (λ _ s', ∃ v' tbl,
    ept_inv [vm_arena] [vm_address] vm_address v' tbl s' ∧
    ∀ gpa, 0 ≤ gpa < 2 ^ 48 → ept_translate v' (m_mem s') gpa = if gpa <? 2 ^ 39 then Some gpa else None)
    (machine_with_vm 8 paging_vm)) as H.
  { eapply wp_vmx_ept_create_identity_mapping; [apply paging_vm_ept|done..|]. eauto. }
  unfold wp in H. rewrite Heq in H. destruct H as (v' & tbl & Hinv & Ht).
  apply identity_machine_eq in Heq. subst s'.
  rewrite (identity_vm_eq v'); [by exists tbl|apply Hinv].
Qed.

Lemma identity_not_ept res p : 0x18000 ≤ p →
  p ∉ pages_of VM_PAGE_TYPE_EPT res (vm_tracked_pages identity_vm).
Proof.
  destruct identity_vm_fields as (_ & _ & ->). intros Hp Hin.
  destruct res; cbn in Hin; [by apply elem_of_nil in Hin|].
  apply elem_of_cons in Hin as [Hin|[Hin|[]%elem_of_nil]%elem_of_cons];
    cbn [pl_physical_address] in Hin; unfold PAGE_SIZE in *; lia.
Qed.

Lemma identity_machine_ram k : 0x18 ≤ k < 2 ^ 27 →
  guest_ram identity_vm (m_mem identity_machine) k (k * PAGE_SIZE).
Proof.
  intros Hk. destruct identity_machine_ept as (tbl & _ & Ht). unfold PAGE_SIZE in *. split.
  - rewrite Ht by (unfold PAGE_SIZE; lia). unfold PAGE_SIZE. destruct (Z.ltb_spec (k * 0x1000) (2 ^ 39)); [done|lia].
  - split; [by apply Z.mod_mul|lia].
  - intros res. apply identity_not_ept. lia.
Qed.

(** Witness: the tables are the last 514 of the 0x20000 pages. *)
Lemma vm_guest_paging_setup_identity_correct_witness :
  ∃ v' s', vm_guest_paging_setup_identity vm_address identity_machine = Ok (0x1ffff000, s') ∧
    vm_used_by_initial_setup v' = 514 ∧
    guest_walk 3 v' (m_mem s') 0x1ffff000 0x123456789a = Some 0x123456789a ∧
    guest_walk 3 v' (m_mem s') 0x1ffff000 0xffffffff80000000 = None.
Proof.
  destruct identity_machine_ept as (tbl & Hinv & _).
  destruct identity_vm_fields as (Hn & H0 & _).
  destruct (vm_guest_paging_setup_identity_correct [vm_arena] [vm_address] vm_address identity_vm tbl
    identity_machine (λ k, k * PAGE_SIZE) Hinv) as (v' & s' & Heq & _ & -> & Hw & _).
  - rewrite Hn. lia.
  - rewrite Hn. unfold PAGE_SIZE. lia.
  - exact H0.
  - rewrite Hn. intros k Hk. apply identity_machine_ram. lia.
  - unfold PAGE_SIZE. lia.
  - rewrite Hn in Heq, Hw. exists (identity_vm <| vm_used_by_initial_setup := 514 |>), s'. split; [exact Heq|]. split; [reflexivity|].
    split; [exact (Hw 0x123456789a)|exact (Hw 0xffffffff80000000)].
Defined.

(** Tables of the guest that map 1 GiB to itself, at 0x100000 and 0x101000. *)
Definition paging_memory (m : mem) : mem := store_le 8 (store_le 8 m 0x100000 0x101001) 0x101000 0x83.
Definition paging_machine : machine :=
  identity_machine <| m_mem := paging_memory (m_mem identity_machine) |>.

Lemma paging_memory_low m a : a < 0x19000 → load_byte (paging_memory m) a = load_byte m a.
Proof. intros Ha. unfold paging_memory. rewrite !load_byte_store_other by lia. reflexivity. Qed.

Lemma paging_machine_ept : ∃ tbl,
  ept_inv [vm_arena] [vm_address] vm_address identity_vm tbl paging_machine ∧
  ept_in_window identity_vm (m_mem paging_machine).
Proof.
  destruct identity_machine_ept as (tbl & Hinv & Ht). exists tbl.
  destruct (ept_inv_guest_memory [vm_arena] [vm_address] vm_address identity_vm tbl identity_machine
    (paging_memory (m_mem identity_machine)) Hinv) as [Hi Ht'].
  - intros res p a Hp Ha. apply paging_memory_low. unfold PAGE_SIZE in Ha.
    destruct (Z.leb_spec 0x18000 p) as [Hle|Hlt]; [|lia]. destruct (identity_not_ept res p Hle Hp).
  - split; [exact Hi|]. intros gpa h Hgpa. unfold paging_machine, upd, set_m_mem. cbn [m_mem].
    rewrite Ht', Ht by assumption.
    destruct (Z.ltb_spec gpa (2 ^ 39)); [|discriminate]. intros [= <-]. lia.
Qed.

Lemma vm_guest_paging_get_guest_physical_address_correct_witness :
  vm_guest_paging_get_guest_physical_address vm_address 0x100000 0x12345678 paging_machine =
    Ok (Some 0x12345678, paging_machine) ∧
  vm_guest_paging_get_guest_physical_address vm_address 0x100000 0x40000000 paging_machine =
    Ok (None, paging_machine).
Proof.
  destruct paging_machine_ept as (tbl & Hinv & Hw).
  assert (∀ gla r, guest_walk 3 identity_vm (m_mem paging_machine) (Z.land 0x100000 PAGE_MASK) gla = r →
    vm_guest_paging_get_guest_physical_address vm_address 0x100000 gla paging_machine = Ok (r, paging_machine))
    as H.
  { intros gla r <-. exact (vm_guest_paging_get_guest_physical_address_correct [vm_arena] [vm_address]
      vm_address identity_vm tbl 0x100000 gla paging_machine Hinv Hw). }
  split; apply H; vm_compute; reflexivity.
Defined.

(** The guest runs in long mode with the tables above. *)
Definition long_mode_state : vmx_vmexit_state_t :=
  mk_vmexit_state vm_address zero_gpr_state 0 0 0 0 0x80000001 0x100000 0x20
    (mk_msr_state 0x500 0 0 0 0 0 0).

Lemma vm_guest_paging_pointer_safe_witness :
  (∃ hva, vm_guest_paging_get_host_virtual_address_during_vmexit long_mode_state 0x200ffe 2 paging_machine =
    Ok (hva, paging_machine) ∧ in_window hva 2 = true) ∧
  vm_guest_paging_get_host_virtual_address_during_vmexit long_mode_state 0x200fff 2 paging_machine =
    Panic "Resolving guest virtual address across page boudaries in VM-Exit handler".
Proof.
  destruct paging_machine_ept as (tbl & Hinv & Hw).
  assert (guest_pointer_panic long_mode_state identity_vm (m_mem paging_machine) 0x200ffe 2 = None) as H1
    by (vm_compute; reflexivity).
  assert (guest_pointer_panic long_mode_state identity_vm (m_mem paging_machine) 0x200fff 2 =
    Some "Resolving guest virtual address across page boudaries in VM-Exit handler"%string) as H2
    by (vm_compute; reflexivity).
  pose proof (vm_guest_paging_pointer_safe [vm_arena] [vm_address] identity_vm tbl long_mode_state
    0x200ffe 2 paging_machine Hinv Hw ltac:(lia)) as P1.
  pose proof (vm_guest_paging_pointer_safe [vm_arena] [vm_address] identity_vm tbl long_mode_state
    0x200fff 2 paging_machine Hinv Hw ltac:(lia)) as P2.
  rewrite H1 in P1. rewrite H2 in P2. split; [|exact P2].
  destruct P1 as (hva & Heq & Hin & _). exists hva. split; [exact Heq|exact Hin].
Defined.
