(* ===== verification/EmulatedInstructions.v ===== *)
(** Instructions of the guest that the hypervisor executes in its place
    (hv/src/vmm/vm_emulated_instructions.c): CPUID, MOV to and from control registers,
    port I/O in its single, string and repeated forms, and XSETBV.

    A handler of the source takes a pointer to the state of the VM-exit; here it takes the
    state and returns it. The macros of the source are definitions that take the functions
    and the width that they paste. *)
From S2P Require Import Prelude Memory Machine Registers SimpleCpu PageUse PageAllocator Arena.
From S2P Require Import VmxInstructions VmTracking VmManager VmxEptSpec EptCorrect.
From S2P Require Import Strings Console Uart IoPorts GuestPaging.

(** ** The registers of the state *)
Definition set_rax (st : vmx_vmexit_state_t) (v : Z) : vmx_vmexit_state_t :=
  st <| st_reg_state := (st_reg_state st) <| reg_rax := v |> |>.
Definition set_rcx (st : vmx_vmexit_state_t) (v : Z) : vmx_vmexit_state_t :=
  st <| st_reg_state := (st_reg_state st) <| reg_rcx := v |> |>.
Definition set_rsi (st : vmx_vmexit_state_t) (v : Z) : vmx_vmexit_state_t :=
  st <| st_reg_state := (st_reg_state st) <| reg_rsi := v |> |>.
Definition set_rdi (st : vmx_vmexit_state_t) (v : Z) : vmx_vmexit_state_t :=
  st <| st_reg_state := (st_reg_state st) <| reg_rdi := v |> |>.

Section code.
Context `{HW : Hardware} {PF : PollFuel}.

(** The instruction reads EAX and ECX and writes the four 32-bit registers, which clears
    the high halves. *)
Definition vm_emulated_instruction_cpuid (vm_state : vmx_vmexit_state_t) : M machine vmx_vmexit_state_t :=
  let regs := st_reg_state vm_state in
  if (0x40000000 <=? reg_rax regs) && (reg_rax regs <=? 0x4FFFFFFF) then mret vm_state
  else
    '(a, b, c, d) ← mgets (λ s, hw_cpuid (u32 (reg_rax regs)) (u32 (reg_rcx regs)) (m_hw s));
    mret (vm_state <| st_reg_state := regs <| reg_rax := u32 a |> <| reg_rbx := u32 b |>
                                           <| reg_rcx := u32 c |> <| reg_rdx := u32 d |> |>).

Definition mov_to_cr_format : list Z := bytes_of_string "MOV to CR%u rip=%zxpq".
Definition mov_from_cr_format : list Z := bytes_of_string "MOV from CR%u rip=%zxpq".

Definition vm_emulated_instruction_mov_to_cr (vm_state : vmx_vmexit_state_t) (crn new_cr : Z)
    : M machine vmx_vmexit_state_t :=
  if crn =? 3 then mret (vm_state <| st_cr3 := new_cr |>)
  else if crn =? 4 then
    let vm_state := vm_state <| st_cr4 := Z.lor new_cr CR4_VMXE |> in
    VMX_ASSERT (vmx_vmwrite VMCS_CF_CR4_READ_SHADOW (Z.land new_cr CR4_VMXE));;
    mret vm_state
  else
    LOG LOG_CATEGORY mov_to_cr_format [ArgInt crn; ArgInt (st_rip vm_state)];;
    mpanic "unsupported CR in emulated MOV to CR".

Definition vm_emulated_instruction_mov_from_cr (vm_state : vmx_vmexit_state_t) (crn : Z) : M machine Z :=
  if crn =? 3 then mret (st_cr3 vm_state)
  else
    LOG LOG_CATEGORY mov_from_cr_format [ArgInt crn; ArgInt (st_rip vm_state)];;
    mpanic "unsupported CR in emulated MOV from CR".

Abbreviation io_instruction := (vmx_vmexit_state_t → Z → M machine vmx_vmexit_state_t).

(** The conversion to the type of the last parameter of [vm_out##size] is [wrap bits]. *)
Definition VM_EMULATED_INSTRUCTION_OUT_SINGLE (vm_out : Z → Z → Z → M machine ()) (bits : Z)
    : io_instruction := λ vm_state port,
  vm_out (st_vm vm_state) port (wrap bits (reg_rax (st_reg_state vm_state)));;
  mret vm_state.
Definition vm_emulated_instruction_outb := VM_EMULATED_INSTRUCTION_OUT_SINGLE vm_outb 8.
Definition vm_emulated_instruction_outw := VM_EMULATED_INSTRUCTION_OUT_SINGLE vm_outw 16.
Definition vm_emulated_instruction_outd := VM_EMULATED_INSTRUCTION_OUT_SINGLE vm_outd 32.

Definition VM_EMULATED_INSTRUCTION_IN_SINGLE (vm_in : Z → Z → M machine Z) (mask : Z)
    : io_instruction := λ vm_state port,
  value ← vm_in (st_vm vm_state) port;
  mret (set_rax vm_state (Z.lor (Z.land (reg_rax (st_reg_state vm_state)) mask) value)).
(** [~0xff] and [~0xffff] are negative [int]s, extended to 64 bits; [~0xffffffff] is the
    [unsigned int] 0. *)
Definition vm_emulated_instruction_inb := VM_EMULATED_INSTRUCTION_IN_SINGLE vm_inb (Z.lnot 0xff).
Definition vm_emulated_instruction_inw := VM_EMULATED_INSTRUCTION_IN_SINGLE vm_inw (Z.lnot 0xffff).
Definition vm_emulated_instruction_ind :=
  VM_EMULATED_INSTRUCTION_IN_SINGLE vm_ind (u32 (Z.lnot 0xffffffff)).

(** [df ? -sizeof(type) : sizeof(type)] *)
Definition string_step (vm_state : vmx_vmexit_state_t) (size : Z) : Z :=
  if truthy (Z.land (st_rflags vm_state) RFLAGS_DF) then u64 (- size) else size.

Definition VM_EMULATED_INSTRUCTION_OUT_STR (vm_out : Z → Z → Z → M machine ()) (size : nat)
    : io_instruction := λ vm_state port,
  let rsi := reg_rsi (st_reg_state vm_state) in
  hostva ← vm_guest_paging_get_host_virtual_address_during_vmexit vm_state rsi (Z.of_nat size);
  value ← deref_load size hostva;
  vm_out (st_vm vm_state) port value;;
  mret (set_rsi vm_state (u64 (rsi + string_step vm_state (Z.of_nat size)))).
Definition vm_emulated_instruction_outsb := VM_EMULATED_INSTRUCTION_OUT_STR vm_outb 1.
Definition vm_emulated_instruction_outsw := VM_EMULATED_INSTRUCTION_OUT_STR vm_outw 2.
Definition vm_emulated_instruction_outsd := VM_EMULATED_INSTRUCTION_OUT_STR vm_outd 4.

Definition VM_EMULATED_INSTRUCTION_IN_STR (vm_in : Z → Z → M machine Z) (size : nat)
    : io_instruction := λ vm_state port,
  let rdi := reg_rdi (st_reg_state vm_state) in
  hostva ← vm_guest_paging_get_host_virtual_address_during_vmexit vm_state rdi (Z.of_nat size);
  value ← vm_in (st_vm vm_state) port;
  deref_store size hostva value;;
  mret (set_rdi vm_state (u64 (rdi + string_step vm_state (Z.of_nat size)))).
Definition vm_emulated_instruction_insb := VM_EMULATED_INSTRUCTION_IN_STR vm_inb 1.
Definition vm_emulated_instruction_insw := VM_EMULATED_INSTRUCTION_IN_STR vm_inw 2.
Definition vm_emulated_instruction_insd := VM_EMULATED_INSTRUCTION_IN_STR vm_ind 4.

(** [while (rcx != 0) { instruction; rcx--; }] *)
Fixpoint io_strrep_loop (fuel : nat) (instruction : io_instruction) (vm_state : vmx_vmexit_state_t)
    (port : Z) : M machine vmx_vmexit_state_t :=
  if reg_rcx (st_reg_state vm_state) =? 0 then mret vm_state
  else match fuel with
       | O => mout_of_fuel
       | S fuel =>
         vm_state ← instruction vm_state port;
         io_strrep_loop fuel instruction
           (set_rcx vm_state (u64 (reg_rcx (st_reg_state vm_state) - 1))) port
       end.
Definition VM_EMULATED_INSTRUCTION_IO_STRREP (instruction : io_instruction) : io_instruction :=
  λ vm_state port,
  io_strrep_loop (Z.to_nat (reg_rcx (st_reg_state vm_state))) instruction vm_state port.
Definition vm_emulated_instruction_rep_outsb := VM_EMULATED_INSTRUCTION_IO_STRREP vm_emulated_instruction_outsb.
Definition vm_emulated_instruction_rep_outsw := VM_EMULATED_INSTRUCTION_IO_STRREP vm_emulated_instruction_outsw.
Definition vm_emulated_instruction_rep_outsd := VM_EMULATED_INSTRUCTION_IO_STRREP vm_emulated_instruction_outsd.
Definition vm_emulated_instruction_rep_insb := VM_EMULATED_INSTRUCTION_IO_STRREP vm_emulated_instruction_insb.
Definition vm_emulated_instruction_rep_insw := VM_EMULATED_INSTRUCTION_IO_STRREP vm_emulated_instruction_insw.
Definition vm_emulated_instruction_rep_insd := VM_EMULATED_INSTRUCTION_IO_STRREP vm_emulated_instruction_insd.

Definition vm_emulated_instruction_xsetbv (vm_state : vmx_vmexit_state_t) : M machine vmx_vmexit_state_t :=
  let regs := st_reg_state vm_state in
  if negb (reg_rcx regs =? 0) then mpanic "unsupported XCR specified by RCX on emulated XSETBV" else
  let new_xcr0 := Z.lor (u64 (Z.shiftl (reg_rdx regs) 32)) (Z.land (reg_rax regs) 0xffffffff) in
  if negb (Z.land new_xcr0 1 =? 1) then mpanic "new guest XCR0 doesn't have bit 0 set" else
  xsave_host_xcr0 ← mgets m_xsave_host_xcr0;
  if negb (Z.land new_xcr0 (u64 (Z.lnot xsave_host_xcr0)) =? 0) || (Z.land new_xcr0 0x6 =? 0x4)
  then mpanic "new guest XCR0 set unsupported bits"
  else
    vm_modify (st_vm vm_state) (λ v, v <| vm_permanent_xcr0 := new_xcr0 |>);;
    mret vm_state.

End code.

(** * CPUID *)

(** The test looks at the 64 bits of RAX, the instruction at the low 32: with another high
    half the leaves of the host's hypervisor are not suppressed. *)
Lemma vm_emulated_instruction_cpuid_high_rax `{HW : Hardware} st s :
  reg_rax (st_reg_state st) = 0x140000000 →
  ∃ st', vm_emulated_instruction_cpuid st s = Ok (st', s) ∧
    let '(a, b, c, d) := hw_cpuid 0x40000000 (u32 (reg_rcx (st_reg_state st))) (m_hw s) in
    reg_rax (st_reg_state st') = u32 a ∧ reg_rbx (st_reg_state st') = u32 b.
Proof.
  intros Hrax. unfold vm_emulated_instruction_cpuid. rewrite Hrax.
  change (u32 0x140000000) with 0x40000000. cbn [Z.leb Z.compare Pos.compare Pos.compare_cont andb].
  unfold mbind, M_bind, mgets.
  destruct (hw_cpuid 0x40000000 (u32 (reg_rcx (st_reg_state st))) (m_hw s)) as [[[a b] c] d].
  eexists. split; [reflexivity|]. split; reflexivity.
Qed.

(** * Control registers *)

(** What the guest reads from CR4 when the bits [mask] are owned by the host: they come
    from the read shadow (Intel SDM, volume 3, 25.6.6). *)
Definition guest_visible_cr4 (mask shadow cr4 : Z) : Z :=
  Z.lor (Z.land cr4 (Z.lnot mask)) (Z.land shadow mask).

Lemma guest_visible_cr4_written new : guest_visible_cr4 CR4_VMXE (Z.land new CR4_VMXE) (Z.lor new CR4_VMXE) = new.
Proof.
  apply Z.bits_inj'. intros i Hi. unfold guest_visible_cr4.
  rewrite !Z.lor_spec, !Z.land_spec, Z.lnot_spec, Z.lor_spec by done.
  by destruct (Z.testbit new i), (Z.testbit CR4_VMXE i).
Qed.

Section control_registers.
Context `{HW : Hardware} {PF : PollFuel} {VL : VmxLaws}.
Implicit Types (s : machine) (st : vmx_vmexit_state_t).

Lemma wp_mov_to_cr4 st new E (Q : vmx_vmexit_state_t → machine → Prop) s :
  fst (hw_vmwrite VMCS_CF_CR4_READ_SHADOW (Z.land new CR4_VMXE) (m_hw s)) = 0 →
  Q (st <| st_cr4 := Z.lor new CR4_VMXE |>)
    (s <| m_hw := snd (hw_vmwrite VMCS_CF_CR4_READ_SHADOW (Z.land new CR4_VMXE) (m_hw s)) |>) →
  wp (vm_emulated_instruction_mov_to_cr st 4 new) E Q s.
Proof.
  intros Hok HQ. unfold vm_emulated_instruction_mov_to_cr. cbn [Z.eqb Pos.eqb]. cbv zeta.
  wp_step. by apply wp_vmwrite.
Qed.

End control_registers.

(** * String output to the serial port *)

Section strings.
Context `{HW : Hardware} {PF : PollFuel} {CON : Console}.
Implicit Types (s : machine) (st : vmx_vmexit_state_t).

(** The device code keeps the EPT. *)
Lemma vmm_wf_serial la lv s b : vmm_wf la lv s → vmm_wf la lv (s <| m_serial_initialized := b |>).
Proof.
  intros [[[] ? ?] Haw ? ? ? ?]. split;
    first [done|by split; apply Haw|by split; [split|..]].
Qed.

Lemma ept_inv_devices la lv vm v tbl s devices uarts :
  ept_inv la lv vm v tbl s → ept_inv la lv vm v tbl (s <| m_devices := devices |> <| m_uarts := uarts |>).
Proof.
  intros [Hwf Hvm Hv Hept]. split; [|done..].
  exact (vmm_wf_devices la lv s (m_vmd_device_arena s) devices uarts Hwf).
Qed.

Lemma ept_inv_uart_frame la lv vm v tbl uart u text s s' :
  ept_inv la lv vm v tbl s → uart_frame uart u text s s' →
  ept_inv la lv vm v tbl s' ∧ m_mem s' = m_mem s ∧ m_vms s' = m_vms s ∧ m_devices s' = m_devices s.
Proof.
  intros [Hwf Hvm Hv Hept] [-> _ _ _]. split_and!; [|done..]. split; [|done..].
  apply vmm_wf_hw, vmm_wf_serial.
  pose proof (vmm_wf_devices la lv s (m_vmd_device_arena s) (m_devices s) (<[uart:=u]> (m_uarts s)) Hwf) as H.
  by destruct s.
Qed.

Lemma wp_load_window n h E (Q : Z → machine → Prop) s :
  0 ≤ h → h + Z.of_nat n ≤ 2 ^ 39 → Q (load_le n (m_mem s) h) s →
  wp (deref_load n (P2V_IDENTITY_MAP h)) E Q s.
Proof.
  intros H0 Hn HQ. unfold deref_load. wp_step. wp_step.
  assert (P2V_IDENTITY_MAP h = h + RKHV_PHYSICAL_MEMORY_BASE) as ->
    by (apply wrap_small; unfold RKHV_PHYSICAL_MEMORY_BASE; lia).
  assert (in_window (h + RKHV_PHYSICAL_MEMORY_BASE) (Z.of_nat n) = true) as ->.
  { unfold in_window, IDENTITY_WINDOW_SIZE. apply andb_true_intro. split; apply Z.leb_le; lia. }
  by rewrite V2P_window by lia.
Qed.

Lemma wp_vm_outb vm v l port value uart E (Q : () → machine → Prop) s :
  m_vms s !! vm = Some v → vm_devices_wf v l s →
  first_handler (m_devices s) dev_outb_handler port l = Some (vmd_8250uart_outb, uart) →
  wp (vmd_8250uart_outb_handler vm uart port value) E Q s → wp (vm_outb vm port value) E Q s.
Proof.
  intros Hv Hl Hh HQ. unfold wp, vm_outb in *. by rewrite (vm_out_eq _ _ _ vm v l), Hh.
Qed.

(** The bytes that the guest has at a virtual address. *)
Definition guest_bytes (v : vm_t) (m : mem) (cr3 gva : Z) (bytes : list Z) : Prop :=
  ∀ i b, bytes !! i = Some b →
    ∃ h, guest_address v m cr3 (u64 (gva + Z.of_nat i)) = Some h ∧ load_byte m h = b.

Lemma guest_bytes_cons v m cr3 gva b bytes :
  0 ≤ gva < 2 ^ 64 → guest_bytes v m cr3 gva (b :: bytes) →
  (∃ h, guest_address v m cr3 gva = Some h ∧ load_byte m h = b) ∧
  guest_bytes v m cr3 (u64 (gva + 1)) bytes.
Proof.
  intros Hg H. split.
  - destruct (H 0%nat b eq_refl) as (h & Hh & Hb). rewrite Z.add_0_r, wrap_small in Hh by done. by exists h.
  - intros i c Hi. destruct (H (S i) c Hi) as (h & Hh & Hb). exists h. split; [|done].
    rewrite wrap_add_l. by replace (gva + 1 + Z.of_nat i) with (gva + Z.of_nat (S i)) by lia.
Qed.

Lemma guest_address_no_panic st v m gva h :
  long_mode_4_levels st = true → guest_address v m (st_cr3 st) gva = Some h →
  guest_pointer_panic st v m gva 1 = None.
Proof.
  intros Hl (gpa & Hg & Ht)%bind_Some. unfold guest_pointer_panic. rewrite Hl. cbn [negb].
  rewrite Hg, Ht. pose proof (Z.mod_pos_bound gva 4096 ltac:(lia)).
  destruct (Z.leb_spec (gva mod 4096 + 1) 4096); [done|lia].
Qed.

(** A byte of the guest in host memory. *)
Lemma guest_address_window v m cr3 gva h :
  ept_in_window v m → guest_address v m cr3 gva = Some h → 0 ≤ h < 2 ^ 39.
Proof.
  intros Hw (gpa & _ & Ht)%bind_Some. eapply Hw; [|exact Ht]. by apply Z.mod_pos_bound.
Qed.

Lemma wp_outsb la lv v tbl l uart u st port b E (Q : vmx_vmexit_state_t → machine → Prop) s :
  console_inv s → ept_inv la lv (st_vm st) v tbl s → ept_in_window v (m_mem s) → vm_devices_wf v l s →
  first_handler (m_devices s) dev_outb_handler port l = Some (vmd_8250uart_outb, uart) →
  m_uarts s !! uart = Some u → uart_wf u → u16 (port - uart_port_base u) = COM_DATA_REG →
  uart_dlab u = false → long_mode_4_levels st = true → Z.land (st_rflags st) RFLAGS_DF = 0 →
  (∃ h, guest_address v (m_mem s) (st_cr3 st) (reg_rsi (st_reg_state st)) = Some h ∧ load_byte (m_mem s) h = b) →
  (∀ u' s', let '(line, pending) := uart_accept (uart_pending u) b in
     uart_putc_post u u' pending →
     uart_frame uart u' (from_option (uart_line_text (vm_name v) (uart_port_name u)) [] line) s s' →
     Q (set_rsi st (u64 (reg_rsi (st_reg_state st) + 1))) s') →
  wp (vm_emulated_instruction_outsb st port) E Q s.
Proof.
  intros Hcon Hinv Hw Hl Hh Hu Hwf Ho Hd Hlong Hdf (h & Hga & Hb) HQ.
  unfold vm_emulated_instruction_outsb, VM_EMULATED_INSTRUCTION_OUT_STR. cbv zeta.
  wp_step. eapply wp_guest_pointer; [done|done|done|].
  change (Z.of_nat 1) with 1. rewrite (guest_address_no_panic st v (m_mem s) _ h Hlong Hga).
  intros h' Hh'. rewrite Hga in Hh'. injection Hh' as <-.
  pose proof (guest_address_window _ _ _ _ _ Hw Hga) as Hb39.
  wp_step. apply wp_load_window; [lia|lia|]. cbn [load_le]. rewrite Hb, Z.mul_0_r, Z.add_0_r.
  wp_step. eapply wp_vm_outb; [apply Hinv|done|done|]. eapply wp_outb_data; [done|apply Hinv|done..|].
  intros u' s'. specialize (HQ u' s'). destruct (uart_accept (uart_pending u) b) as [line pending].
  intros Hp Hf. apply wp_ret. unfold string_step. rewrite Hdf. by apply HQ.
Qed.

Lemma set_rcx_rsi st a b c : set_rcx (set_rsi (set_rcx (set_rsi st a) b) c) 0 = set_rcx (set_rsi st c) 0.
Proof. by destruct st as [? []]. Qed.

(** The loop sends the bytes in order. *)
Lemma wp_rep_outsb la lv v tbl l uart port bytes E (Q : vmx_vmexit_state_t → machine → Prop) : ∀ u st s,
  console_inv s → ept_inv la lv (st_vm st) v tbl s → ept_in_window v (m_mem s) → vm_devices_wf v l s →
  first_handler (m_devices s) dev_outb_handler port l = Some (vmd_8250uart_outb, uart) →
  m_uarts s !! uart = Some u → uart_wf u → u16 (port - uart_port_base u) = COM_DATA_REG →
  uart_dlab u = false → long_mode_4_levels st = true → Z.land (st_rflags st) RFLAGS_DF = 0 →
  0 ≤ reg_rsi (st_reg_state st) < 2 ^ 64 → Z.of_nat (length bytes) < 2 ^ 64 →
  reg_rcx (st_reg_state st) = Z.of_nat (length bytes) →
  guest_bytes v (m_mem s) (st_cr3 st) (reg_rsi (st_reg_state st)) bytes →
  (∀ u' s', let '(lines, pending) := uart_lines (uart_pending u) bytes in
     uart_putc_post u u' pending →
     uart_frame uart u' (concat (map (uart_line_text (vm_name v) (uart_port_name u)) lines)) s s' →
     Q (set_rcx (set_rsi st (u64 (reg_rsi (st_reg_state st) + Z.of_nat (length bytes)))) 0) s') →
  wp (io_strrep_loop (length bytes) vm_emulated_instruction_outsb st port) E Q s.
Proof.
  induction bytes as [|b bytes IH]; intros u st s Hcon Hinv Hw Hl Hh Hu Hwf Ho Hd Hlong Hdf Hrsi Hlen Hrcx Hg HQ;
    cbn [length io_strrep_loop uart_lines] in *.
  - rewrite Hrcx. apply wp_ret. specialize (HQ u s).
    replace (set_rcx _ 0) with st in HQ.
    + apply HQ; [by destruct u|by apply uart_frame_refl].
    + rewrite Z.add_0_r, wrap_small by done. destruct st as [? []]. simpl in *. by rewrite Hrcx.
  - rewrite Hrcx. destruct (Z.eqb_spec (Z.of_nat (S (length bytes))) 0); [lia|].
    apply guest_bytes_cons in Hg as [Hb Hg]; [|done].
    wp_step. eapply wp_outsb; [done..|]. intros u1 s1.
    destruct (uart_accept (uart_pending u) b) as [line pending] eqn:Ha. intros Hp1 Hf1.
    destruct (uart_putc_post_regs _ _ _ Hp1) as (Hbase & Hd1 & Hname). pose proof Hp1 as (Hwf1 & <- & _).
    destruct (ept_inv_uart_frame _ _ _ _ _ _ _ _ _ _ Hinv Hf1) as (Hinv1 & Hm1 & _ & Hdev1).
    assert (u64 (reg_rcx (st_reg_state (set_rsi st (u64 (reg_rsi (st_reg_state st) + 1)))) - 1) =
      Z.of_nat (length bytes)) as -> by (simpl; rewrite Hrcx; rewrite wrap_small; lia).
    eapply (IH u1); [apply Hf1|exact Hinv1|by rewrite Hm1| | |by eapply uart_frame_lookup|done|by rewrite Hbase|
      by rewrite Hd1|exact Hlong|exact Hdf|by apply wrap_bound|lia|done|by rewrite Hm1|].
    + destruct Hl as [Hl1 Hl2]. by split; rewrite Hdev1.
    + by rewrite Hdev1.
    + intros u' s'. specialize (HQ u' s').
      destruct (uart_lines (uart_pending u1) bytes) as [lines rest]. intros Hp2 Hf2.
      rewrite set_rcx_rsi. simpl.
      assert (u64 (u64 (reg_rsi (st_reg_state st) + 1) + Z.of_nat (length bytes)) =
        u64 (reg_rsi (st_reg_state st) + Z.of_nat (S (length bytes)))) as -> by (rewrite wrap_add_l; f_equal; lia).
      apply HQ; [by eapply uart_putc_post_trans|]. rewrite Hname in Hf2.
      pose proof (uart_frame_trans _ _ _ _ _ _ _ _ Hf1 Hf2) as Hf. by destruct line.
Qed.

End strings.

(** * XSETBV *)

(** EDX:EAX *)
Definition edx_eax (regs : vmx_gpr_state_t) : Z :=
  reg_rdx regs mod 2 ^ 32 * 2 ^ 32 + reg_rax regs mod 2 ^ 32.

(** A value of XCR0 that a guest may have: x87 state, nothing that the host has not, and
    no AVX state without SSE state. *)
Definition xcr0_legal (host x : Z) : bool :=
  Z.testbit x 0 && (Z.land x host =? x) && (negb (Z.testbit x 2) || Z.testbit x 1).

Lemma edx_eax_lor regs : 0 ≤ reg_rdx regs → 0 ≤ reg_rax regs →
  Z.lor (u64 (Z.shiftl (reg_rdx regs) 32)) (Z.land (reg_rax regs) 0xffffffff) = edx_eax regs.
Proof.
  intros Hd Ha. rewrite (Z.land_ones _ 32), Z.shiftl_mul_pow2 by lia. unfold wrap, edx_eax.
  change (2 ^ 64) with (2 ^ 32 * 2 ^ 32). rewrite Z.mul_mod_distr_r by lia.
  apply (lor_disjoint 32); [lia|by apply Z.mod_mul|by apply Z.mod_pos_bound].
Qed.

Lemma edx_eax_bound regs : 0 ≤ edx_eax regs < 2 ^ 64.
Proof.
  unfold edx_eax. pose proof (Z.mod_pos_bound (reg_rdx regs) (2 ^ 32) ltac:(lia)).
  pose proof (Z.mod_pos_bound (reg_rax regs) (2 ^ 32) ltac:(lia)). lia.
Qed.

(** The tests of the source. *)
Lemma xcr0_bit0 x : (Z.land x 1 =? 1) = Z.testbit x 0.
Proof.
  rewrite land_1, Z.bit0_odd, Zmod_odd. by destruct (Z.odd x).
Qed.

Lemma xcr0_subset x host : 0 ≤ x < 2 ^ 64 →
  (Z.land x (u64 (Z.lnot host)) =? 0) = (Z.land x host =? x).
Proof.
  intros Hx. rewrite Z.land_comm. unfold wrap. rewrite land_mod_mask, Z.land_comm by lia.
  apply eq_true_iff_eq. rewrite !Z.eqb_eq. split; intros H; apply Z.bits_inj'; intros i Hi;
    apply (f_equal (λ y, Z.testbit y i)) in H; rewrite ?Z.land_spec, ?Z.lnot_spec, ?Z.bits_0 in * by done;
    by destruct (Z.testbit x i), (Z.testbit host i).
Qed.

Lemma xcr0_avx x : (Z.land x 0x6 =? 0x4) = Z.testbit x 2 && negb (Z.testbit x 1).
Proof.
  rewrite <-(land_mod_mask 3 x), <-(Z.mod_pow2_bits_low x 3 2), <-(Z.mod_pow2_bits_low x 3 1) by lia.
  pose proof (Z.mod_pos_bound x (2 ^ 3) ltac:(lia)) as Hr. set (r := x mod 2 ^ 3) in *. clearbody r.
  assert (r = 0 ∨ r = 1 ∨ r = 2 ∨ r = 3 ∨ r = 4 ∨ r = 5 ∨ r = 6 ∨ r = 7) as Hc by lia.
  by destruct Hc as [-> | [-> | [-> | [-> | [-> | [-> | [-> | ->]]]]]]].
Qed.

Section properties.
Context `{HW : Hardware} {PF : PollFuel}.
Implicit Types (s : machine) (st : vmx_vmexit_state_t).

(** C37: MOV to CR4 keeps CR4.VMXE set in the state that the processor will load, as VMX
    requires, yet hides it: with VMXE owned by the host, the guest reads back exactly the
    value that it wrote. Nothing else changes, in the state or in the VMCS. *)
Theorem vm_emulated_instruction_cr4_shadow {VL : VmxLaws} st new s :
  fst (hw_vmwrite VMCS_CF_CR4_READ_SHADOW (Z.land new CR4_VMXE) (m_hw s)) = 0 →
  ∃ st' hw' shadow,
    vm_emulated_instruction_mov_to_cr st 4 new s = Ok (st', s <| m_hw := hw' |>) ∧
    st' = st <| st_cr4 := st_cr4 st' |> ∧ Z.testbit (st_cr4 st') 13 = true ∧
    hw_vmread VMCS_CF_CR4_READ_SHADOW hw' = (0, shadow) ∧
    guest_visible_cr4 CR4_VMXE shadow (st_cr4 st') = new ∧
    (∀ f, f ≠ VMCS_CF_CR4_READ_SHADOW → hw_vmread f hw' = hw_vmread f (m_hw s)).
Proof.
  intros Hok.
  destruct (wp_no_panic_ok (vm_emulated_instruction_mov_to_cr st 4 new) (λ st' s',
    st' = st <| st_cr4 := Z.lor new CR4_VMXE |> ∧
    s' = s <| m_hw := snd (hw_vmwrite VMCS_CF_CR4_READ_SHADOW (Z.land new CR4_VMXE) (m_hw s)) |>) s)
    as (st' & s' & Heq & -> & ->); [by apply wp_mov_to_cr4|].
  eexists _, _, (Z.land new CR4_VMXE). split_and!; [exact Heq|done| | | |].
  - unfold upd, set_st_cr4. cbn [st_cr4]. rewrite Z.lor_spec. apply orb_true_r.
  - by apply vmread_vmwrite_eq.
  - apply guest_visible_cr4_written.
  - intros f Hf. by apply vmread_vmwrite_ne.
Qed.


(** C26: REP OUTSB to the data register of the UART, with the direction flag clear, always
    ends: when the bytes of the guest are mapped, it prints exactly the lines that they
    make, in order and across pages, leaves RCX at 0 and RSI past the last byte, and
    changes nothing else of the registers, of memory or of the VM. *)
Theorem vm_emulated_instruction_rep_outsb_prints {CON : Console} la lv v tbl l uart u st port bytes s :
  console_inv s → ept_inv la lv (st_vm st) v tbl s → ept_in_window v (m_mem s) → vm_devices_wf v l s →
  first_handler (m_devices s) dev_outb_handler port l = Some (vmd_8250uart_outb, uart) →
  m_uarts s !! uart = Some u → uart_wf u → u16 (port - uart_port_base u) = COM_DATA_REG →
  uart_dlab u = false → long_mode_4_levels st = true → Z.land (st_rflags st) RFLAGS_DF = 0 →
  0 ≤ reg_rsi (st_reg_state st) < 2 ^ 64 → Z.of_nat (length bytes) < 2 ^ 64 →
  reg_rcx (st_reg_state st) = Z.of_nat (length bytes) →
  guest_bytes v (m_mem s) (st_cr3 st) (reg_rsi (st_reg_state st)) bytes →
  let '(lines, pending) := uart_lines (uart_pending u) bytes in
  ∃ u' s', vm_emulated_instruction_rep_outsb st port s =
      Ok (set_rcx (set_rsi st (u64 (reg_rsi (st_reg_state st) + Z.of_nat (length bytes)))) 0, s') ∧
    console_text s' = console_text s ++ concat (map (uart_line_text (vm_name v) (uart_port_name u)) lines) ∧
    m_uarts s' = <[uart := u']> (m_uarts s) ∧ uart_wf u' ∧ uart_pending u' = pending ∧
    m_mem s' = m_mem s ∧ m_vms s' = m_vms s.
Proof.
  intros Hcon Hinv Hw Hl Hh Hu Hwf Ho Hd Hlong Hdf Hrsi Hlen Hrcx Hg.
  destruct (uart_lines (uart_pending u) bytes) as [lines pending] eqn:Hlines.
  destruct (wp_no_panic_ok (vm_emulated_instruction_rep_outsb st port) (λ st' s',
    st' = set_rcx (set_rsi st (u64 (reg_rsi (st_reg_state st) + Z.of_nat (length bytes)))) 0 ∧ ∃ u',
    uart_putc_post u u' pending ∧
    uart_frame uart u' (concat (map (uart_line_text (vm_name v) (uart_port_name u)) lines)) s s') s)
    as (st' & s' & Heq & -> & u' & (Hwf' & Hp & _) & Hf).
  { unfold vm_emulated_instruction_rep_outsb, VM_EMULATED_INSTRUCTION_IO_STRREP.
    rewrite Hrcx, Nat2Z.id. eapply wp_rep_outsb; [done..|]. rewrite Hlines. eauto. }
  destruct (ept_inv_uart_frame _ _ _ _ _ _ _ _ _ _ Hinv Hf) as (_ & Hm & Hvms & _).
  exists u', s'. split_and!; [done|apply Hf| |done..]. by rewrite (uf_eq _ _ _ _ _ Hf).
Qed.

End properties.

(** * Witnesses *)

(** Witness: CR4 with PAE, on the simple processor. *)
Lemma vm_emulated_instruction_cr4_shadow_witness :
  ∃ st' hw' shadow,
    vm_emulated_instruction_mov_to_cr long_mode_state 4 0x20 (small_machine 4) =
      Ok (st', (small_machine 4) <| m_hw := hw' |>) ∧
    st_cr4 st' = 0x2020 ∧ guest_visible_cr4 CR4_VMXE shadow (st_cr4 st') = 0x20.
Proof.
  destruct (vm_emulated_instruction_cr4_shadow long_mode_state 0x20 (small_machine 4))
    as (st' & hw' & shadow & H1 & _ & _ & _ & H2 & _); [reflexivity|].
  exists st', hw', shadow. split; [exact H1|]. split; [|exact H2].
  injection H1 as <- _. reflexivity.
Defined.


(** The guest has "hi!" and a newline at 0x200ffe, across a page. *)
Definition outs_memory (m : mem) : mem := store_le 4 (paging_memory m) 0x200ffe 0x0a216968.
Definition outs_machine : machine :=
  identity_machine <| m_mem := outs_memory (m_mem identity_machine) |>
    <| m_devices := {[ device_address := uart_device COM1 uart_address ]} |>
    <| m_uarts := {[ uart_address := com1_uart ]} |>.
Definition outs_state : vmx_vmexit_state_t := set_rcx (set_rsi long_mode_state 0x200ffe) 4.

Lemma outs_memory_low m a : a < 0x19000 → load_byte (outs_memory m) a = load_byte m a.
Proof.
  intros Ha. unfold outs_memory. rewrite load_byte_store_other by lia. by apply paging_memory_low.
Qed.

Lemma outs_machine_ept : ∃ tbl,
  ept_inv [vm_arena] [vm_address] vm_address identity_vm tbl outs_machine ∧
  ept_in_window identity_vm (m_mem outs_machine).
Proof.
  destruct identity_machine_ept as (tbl & Hinv & Ht). exists tbl.
  destruct (ept_inv_guest_memory [vm_arena] [vm_address] vm_address identity_vm tbl identity_machine
    (outs_memory (m_mem identity_machine)) Hinv) as [Hinv' Ht'].
  - intros res p a Hp Ha. apply outs_memory_low. unfold PAGE_SIZE in Ha.
    destruct (Z.leb_spec 0x18000 p) as [Hle|Hlt]; [|lia]. destruct (identity_not_ept res p Hle Hp).
  - split.
    + exact (ept_inv_devices _ _ _ _ _ _ {[ device_address := uart_device COM1 uart_address ]}
        {[ uart_address := com1_uart ]} Hinv').
    + intros gpa h Hgpa. unfold outs_machine, upd, set_m_mem, set_m_devices, set_m_uarts. cbn [m_mem].
      rewrite Ht', Ht by assumption.
      destruct (Z.ltb_spec gpa (2 ^ 39)); [|discriminate]. intros [= <-]. lia.
Qed.

Lemma outs_devices : vm_devices_wf identity_vm [device_address] outs_machine.
Proof.
  split.
  - assert (vm_devices identity_vm = device_address) as -> by (vm_compute; reflexivity).
    econstructor; [done|apply lookup_insert_eq|constructor].
  - intros p d ->%list_elem_of_singleton Hd.
    assert (Some (uart_device COM1 uart_address) = Some d) as [= <-] by exact Hd. apply uart_device_wf.
Qed.

Lemma vm_emulated_instruction_rep_outsb_prints_witness :
  ∃ u' s', vm_emulated_instruction_rep_outsb outs_state COM1 outs_machine =
      Ok (set_rcx (set_rsi outs_state 0x201002) 0, s') ∧
    console_text s' = console_text outs_machine ++
      uart_line_text (vm_name identity_vm) (bytes_of_string "com1") [0x68; 0x69; 0x21] ∧
    uart_pending u' = [].
Proof.
  destruct outs_machine_ept as (tbl & Hinv & Hw).
  destruct (vm_emulated_instruction_rep_outsb_prints [vm_arena] [vm_address] identity_vm tbl [device_address]
    uart_address com1_uart outs_state COM1 [0x68; 0x69; 0x21; 0x0A] outs_machine)
    as (u' & s' & H1 & H2 & _ & _ & H3 & _).
  - intros Hi. vm_compute in Hi. discriminate Hi.
  - exact Hinv.
  - exact Hw.
  - exact outs_devices.
  - vm_compute; reflexivity.
  - reflexivity.
  - exact com1_uart_wf.
  - reflexivity.
  - reflexivity.
  - reflexivity.
  - reflexivity.
  - split; [discriminate|reflexivity].
  - reflexivity.
  - reflexivity.
  - intros i b Hi.
    do 4 (destruct i as [|i]; [injection Hi as <-; eexists; split; vm_compute; reflexivity|]).
    discriminate Hi.
  - exists u', s'. split; [exact H1|]. split; [rewrite H2; cbn [map concat]; rewrite app_nil_r; reflexivity|exact H3].
Defined.

