(* ===== verification/VmExit.v ===== *)
(** VM-exits (hv/src/vmm/vmx_vmexit.c and vmx_vmexit.h): the decoding of the exit
    qualification, the choice of the emulated instruction, and the handler that reads the
    state of the guest from the VMCS, emulates one instruction and writes the state back.

    vmx_vmexit.asm saves and restores the registers and the XSAVE area around the
    handler; it is not modelled. *)
From S2P Require Import Prelude Memory Machine Registers SimpleCpu PageUse PageAllocator Arena.
From S2P Require Import VmxInstructions VmxMsr VmTracking VmManager VmxEptSpec EptCorrect.
From S2P Require Import Strings Console Uart IoPorts GuestPaging EmulatedInstructions.

(** * hv/src/vmm/vmx_vmexit.h *)

Definition VMEXIT_REASON_CPUID : Z := 10.
Definition VMEXIT_REASON_HLT : Z := 12.
Definition VMEXIT_REASON_CR_ACCESSES : Z := 28.
Definition VMEXIT_REASON_IO_INSTRUCTION : Z := 30.
Definition VMEXIT_REASON_RDMSR : Z := 31.
Definition VMEXIT_REASON_WRMSR : Z := 32.
Definition VMEXIT_REASON_XSETBV : Z := 55.

Definition VMEXIT_QUALIFICATION_CR_CRN (x : Z) : Z := Z.land x 0xf.
Definition VMEXIT_QUALIFICATION_CR_ACCESS_TYPE (x : Z) : Z := Z.land (Z.shiftr x 4) 3.
Definition VMEXIT_QUALIFICATION_CR_ACCESS_TYPE_MOV_TO_CR : Z := 0.
Definition VMEXIT_QUALIFICATION_CR_ACCESS_TYPE_MOV_FROM_CR : Z := 1.
Definition VMEXIT_QUALIFICATION_CR_ACCESS_TYPE_CLTS : Z := 2.
Definition VMEXIT_QUALIFICATION_CR_ACCESS_TYPE_LMSW : Z := 3.
Definition VMEXIT_QUALIFICATION_CR_LMSW_OPERAND (x : Z) : Z := Z.land (Z.shiftr x 6) 1.
Definition VMEXIT_QUALIFICATION_CR_LMSW_OPERAND_REG : Z := 0.
Definition VMEXIT_QUALIFICATION_CR_LMSW_OPERAND_MEM : Z := 1.
Definition VMEXIT_QUALIFICATION_CR_MOV_GPR (x : Z) : Z := Z.land (Z.shiftr x 8) 0xf.
Definition VMEXIT_QUALIFICATION_CR_LMSW_SRC (x : Z) : Z := Z.land (Z.shiftr x 16) 0xffff.

Definition VMEXIT_QUALIFICATION_IO_SIZE (x : Z) : Z := Z.land x 3.
Definition VMEXIT_QUALIFICATION_IO_SIZE_BYTE : Z := 0.
Definition VMEXIT_QUALIFICATION_IO_SIZE_WORD : Z := 1.
Definition VMEXIT_QUALIFICATION_IO_SIZE_DWORD : Z := 3.
Definition VMEXIT_QUALIFICATION_IO_DIRECTION (x : Z) : Z := Z.land (Z.shiftr x 3) 1.
Definition VMEXIT_QUALIFICATION_IO_DIRECTION_OUT : Z := 0.
Definition VMEXIT_QUALIFICATION_IO_DIRECTION_IN : Z := 1.
Definition VMEXIT_QUALIFICATION_IO_STRING (x : Z) : Z := Z.land (Z.shiftr x 4) 1.
Definition VMEXIT_QUALIFICATION_IO_REP (x : Z) : Z := Z.land (Z.shiftr x 5) 1.
Definition VMEXIT_QUALIFICATION_IO_OPERAND (x : Z) : Z := Z.land (Z.shiftr x 6) 1.
Definition VMEXIT_QUALIFICATION_IO_OPERAND_DX : Z := 0.
Definition VMEXIT_QUALIFICATION_IO_OPERAND_IMM : Z := 1.
Definition VMEXIT_QUALIFICATION_IO_PORT (x : Z) : Z := Z.land (Z.shiftr x 16) 0xffff.

(** * The general-purpose register of a MOV *)

(** A pointer to a register of the state. *)
Record gpr_pointer := mk_gpr {
  gpr_load : vmx_vmexit_state_t → Z;
  gpr_store : vmx_vmexit_state_t → Z → vmx_vmexit_state_t;
}.
Definition reg_pointer (f : vmx_gpr_state_t → Z) `{!Setter f} : gpr_pointer :=
  mk_gpr (λ st, f (st_reg_state st)) (λ st v, st <| st_reg_state := (st_reg_state st) <| f := v |> |>).
Definition rsp_pointer : gpr_pointer := mk_gpr st_rsp (λ st v, st <| st_rsp := v |>).

Definition possible_gpr : list gpr_pointer := [
  reg_pointer reg_rax;
  reg_pointer reg_rcx;
  reg_pointer reg_rdx;
  reg_pointer reg_rbx;
  rsp_pointer;
  reg_pointer reg_rbp;
  reg_pointer reg_rsi;
  reg_pointer reg_rdi;
  reg_pointer reg_r8;
  reg_pointer reg_r9;
  reg_pointer reg_r10;
  reg_pointer reg_r11;
  reg_pointer reg_r12;
  reg_pointer reg_r13;
  reg_pointer reg_r14;
  reg_pointer reg_r15
].

Section code.
Context `{HW : Hardware} {PF : PollFuel}.
Abbreviation io_instruction := (vmx_vmexit_state_t → Z → M machine vmx_vmexit_state_t).

(** [LOG_CATEGORY] of this file, and its formats. *)
Definition vmexit_log_category : list Z := bytes_of_string "vmx".
Definition unsupported_qualification_format : list Z :=
  bytes_of_string "VM-exit : qualification unsupported : qualification=%zxpq @ rip=%zxpq".
Definition unsupported_reason_format : list Z :=
  bytes_of_string "VM-exit : reason unsupported : %zxpq qualification=%zxpq @ rip=%zxpq".
Definition rdmsr_format : list Z := bytes_of_string "VM-exit : RDMSR with rcx=%zxpq".
Definition wrmsr_format : list Z := bytes_of_string "VM-exit : WRMSR with rcx=%zxpq".
Definition halted_format : list Z :=
  bytes_of_string "VM-exit : VM " ++ [QUOTE] ++ bytes_of_string "%s" ++ [QUOTE] ++
  bytes_of_string " halted @ rip=%zxpq".

Definition vmx_vmexit_cr_accesses (exit_qualification : Z) (vm_state : vmx_vmexit_state_t)
    : M machine vmx_vmexit_state_t :=
  let crn := VMEXIT_QUALIFICATION_CR_CRN exit_qualification in
  match possible_gpr !! Z.to_nat (VMEXIT_QUALIFICATION_CR_MOV_GPR exit_qualification) with
  | None => mundefined
  | Some gpr =>
    if VMEXIT_QUALIFICATION_CR_ACCESS_TYPE exit_qualification =?
       VMEXIT_QUALIFICATION_CR_ACCESS_TYPE_MOV_TO_CR
    then vm_emulated_instruction_mov_to_cr vm_state crn (gpr_load gpr vm_state)
    else if VMEXIT_QUALIFICATION_CR_ACCESS_TYPE exit_qualification =?
            VMEXIT_QUALIFICATION_CR_ACCESS_TYPE_MOV_FROM_CR
    then value ← vm_emulated_instruction_mov_from_cr vm_state crn;
         mret (gpr_store gpr vm_state value)
    else
      LOG vmexit_log_category unsupported_qualification_format
        [ArgInt exit_qualification; ArgInt (st_rip vm_state)];;
      mpanic "unsupported CR VM-exit qualification"
  end.

(** The columns of the table. *)
Definition EMULATED_INSTRUCTION_SINGLE : nat := 0.
Definition EMULATED_INSTRUCTION_STR : nat := 1.
Definition EMULATED_INSTRUCTION_STRREP : nat := 2.

(** [emulated_io_instructions[direction][size][kind]]; the rows that the source does not
    initialise, of size 2, are [NULL]. *)
Definition emulated_io_instructions : list (list (list (option io_instruction))) := [
  [ [Some vm_emulated_instruction_outb; Some vm_emulated_instruction_outsb;
     Some vm_emulated_instruction_rep_outsb];
    [Some vm_emulated_instruction_outw; Some vm_emulated_instruction_outsw;
     Some vm_emulated_instruction_rep_outsw];
    [None; None; None];
    [Some vm_emulated_instruction_outd; Some vm_emulated_instruction_outsd;
     Some vm_emulated_instruction_rep_outsd] ];
  [ [Some vm_emulated_instruction_inb; Some vm_emulated_instruction_insb;
     Some vm_emulated_instruction_rep_insb];
    [Some vm_emulated_instruction_inw; Some vm_emulated_instruction_insw;
     Some vm_emulated_instruction_rep_insw];
    [None; None; None];
    [Some vm_emulated_instruction_ind; Some vm_emulated_instruction_insd;
     Some vm_emulated_instruction_rep_insd] ]
].

(** The instruction for a qualification, [None] for [NULL]. *)
Definition emulated_io_instruction_of (exit_qualification : Z) : option io_instruction :=
  let string := truthy (VMEXIT_QUALIFICATION_IO_STRING exit_qualification) in
  let rep := truthy (VMEXIT_QUALIFICATION_IO_REP exit_qualification) in
  base ← (emulated_io_instructions !! Z.to_nat (VMEXIT_QUALIFICATION_IO_DIRECTION exit_qualification)
          ≫= λ row, row !! Z.to_nat (VMEXIT_QUALIFICATION_IO_SIZE exit_qualification));
  if negb string && negb rep then mjoin (base !! EMULATED_INSTRUCTION_SINGLE)
  else if string && negb rep then mjoin (base !! EMULATED_INSTRUCTION_STR)
  else if string && rep then mjoin (base !! EMULATED_INSTRUCTION_STRREP)
  else None.

Definition vmx_vmexit_io (exit_qualification : Z) (vm_state : vmx_vmexit_state_t)
    : M machine vmx_vmexit_state_t :=
  match emulated_io_instruction_of exit_qualification with
  | None =>
    LOG vmexit_log_category unsupported_qualification_format
      [ArgInt exit_qualification; ArgInt (st_rip vm_state)];;
    mpanic "unsupported I/O VM-exit qualification"
  | Some emulated_io_instruction =>
    emulated_io_instruction vm_state (VMEXIT_QUALIFICATION_IO_PORT exit_qualification)
  end.

(** [vm_state.rip += instruction_length] *)
Definition skip_instruction (vm_state : vmx_vmexit_state_t) (instruction_length : Z) : vmx_vmexit_state_t :=
  vm_state <| st_rip := u64 (st_rip vm_state + instruction_length) |>.

(** The [switch] of the handler. *)
Definition vmx_vmexit_switch (exit_reason exit_qualification instruction_length : Z)
    (vm_state : vmx_vmexit_state_t) : M machine vmx_vmexit_state_t :=
  if exit_reason =? VMEXIT_REASON_CPUID then
    vm_state ← vm_emulated_instruction_cpuid vm_state;
    mret (skip_instruction vm_state instruction_length)
  else if exit_reason =? VMEXIT_REASON_CR_ACCESSES then
    vm_state ← vmx_vmexit_cr_accesses exit_qualification vm_state;
    mret (skip_instruction vm_state instruction_length)
  else if exit_reason =? VMEXIT_REASON_IO_INSTRUCTION then
    vm_state ← vmx_vmexit_io exit_qualification vm_state;
    mret (skip_instruction vm_state instruction_length)
  else if exit_reason =? VMEXIT_REASON_RDMSR then
    LOG vmexit_log_category rdmsr_format [ArgInt (reg_rcx (st_reg_state vm_state))];;
    mpanic "unsupported MSR"
  else if exit_reason =? VMEXIT_REASON_WRMSR then
    LOG vmexit_log_category wrmsr_format [ArgInt (reg_rcx (st_reg_state vm_state))];;
    mpanic "unsupported MSR"
  else if exit_reason =? VMEXIT_REASON_XSETBV then
    vm_state ← vm_emulated_instruction_xsetbv vm_state;
    mret (skip_instruction vm_state instruction_length)
  else if exit_reason =? VMEXIT_REASON_HLT then
    v ← vm_get (st_vm vm_state);
    LOG vmexit_log_category halted_format [ArgString (Some (vm_name v)); ArgInt (st_rip vm_state)];;
    mpanic "VM halted"
  else
    LOG vmexit_log_category unsupported_reason_format
      [ArgInt exit_reason; ArgInt exit_qualification; ArgInt (st_rip vm_state)];;
    mpanic "Unsupported VM-Exit reason".

(** The writes at the end of the handler. *)
Definition vmexit_writeback (st : vmx_vmexit_state_t) : M machine () :=
  VMX_ASSERT (vmx_vmwrite VMCS_GUEST_RIP (st_rip st));;
  VMX_ASSERT (vmx_vmwrite VMCS_GUEST_RSP (st_rsp st));;
  VMX_ASSERT (vmx_vmwrite VMCS_GUEST_RFLAGS (st_rflags st));;
  VMX_ASSERT (vmx_vmwrite VMCS_GUEST_CR0 (st_cr0 st));;
  VMX_ASSERT (vmx_vmwrite VMCS_GUEST_CR3 (st_cr3 st));;
  VMX_ASSERT (vmx_vmwrite VMCS_GUEST_CR4 (st_cr4 st));;
  vmx_msr_vmresume st.

(** Returns the VM, for the pointer to its [permanent_state], and the state, whose
    registers vmx_vmexit.asm restores. *)
Definition vmx_vmexit_handler (vm_reg_state : vmx_gpr_state_t) (vm_xsave_area : Z)
    : M machine (Z * vmx_vmexit_state_t) :=
  exit_reason ← VMX_ASSERT_OUT (vmx_vmread VMCS_EXIT_REASON);
  exit_qualification ← VMX_ASSERT_OUT (vmx_vmread VMCS_EXIT_QUALIFICATION);
  instruction_length ← VMX_ASSERT_OUT (vmx_vmread VMCS_VM_EXIT_INSTRUCTION_LENGTH);
  vm ← vm_manager_get_current_vm;
  rip ← VMX_ASSERT_OUT (vmx_vmread VMCS_GUEST_RIP);
  rsp ← VMX_ASSERT_OUT (vmx_vmread VMCS_GUEST_RSP);
  rflags ← VMX_ASSERT_OUT (vmx_vmread VMCS_GUEST_RFLAGS);
  cr0 ← VMX_ASSERT_OUT (vmx_vmread VMCS_GUEST_CR0);
  cr3 ← VMX_ASSERT_OUT (vmx_vmread VMCS_GUEST_CR3);
  cr4 ← VMX_ASSERT_OUT (vmx_vmread VMCS_GUEST_CR4);
  vm_state ← vmx_msr_vmexit (mk_vmexit_state vm vm_reg_state vm_xsave_area rip rsp rflags cr0 cr3 cr4
                               (mk_msr_state 0 0 0 0 0 0 0));
  vm_state ← vmx_vmexit_switch exit_reason exit_qualification instruction_length vm_state;
  vmexit_writeback vm_state;;
  mret (st_vm vm_state, vm_state).

End code.

(** * I/O qualifications *)

Inductive io_direction := IoOut | IoIn.
Inductive io_width := IoByte | IoWord | IoDword.
Inductive io_kind := IoSingle | IoString | IoRepString.

Definition io_width_code (w : io_width) : Z := match w with IoByte => 0 | IoWord => 1 | IoDword => 3 end.
Definition io_direction_code (d : io_direction) : Z := match d with IoOut => 0 | IoIn => 1 end.
Definition io_kind_code (k : io_kind) : Z :=
  match k with IoSingle => 0 | IoString => 1 | IoRepString => 3 end.

(** The exit qualification of an I/O instruction (Intel SDM, volume 3, table 28-5): the
    width minus one in bits 0-2, the direction in bit 3, string and REP in bits 4 and 5,
    the encoding of the operand in bit 6, the port in bits 16-31. *)
Definition io_qualification (w : io_width) (d : io_direction) (k : io_kind) (imm port : Z) : Z :=
  io_width_code w + 8 * io_direction_code d + 16 * io_kind_code k + 64 * imm + 65536 * port.

Section dispatch.
Context `{HW : Hardware} {PF : PollFuel}.

(** The functions of the device code for a width. *)
Definition vm_out_width (w : io_width) : Z → Z → Z → M machine () :=
  match w with IoByte => vm_outb | IoWord => vm_outw | IoDword => vm_outd end.
Definition vm_in_width (w : io_width) : Z → Z → M machine Z :=
  match w with IoByte => vm_inb | IoWord => vm_inw | IoDword => vm_ind end.
Definition io_bytes (w : io_width) : nat :=
  match w with IoByte => 1 | IoWord => 2 | IoDword => 4 end.

(** What the instruction means. *)
Definition io_semantics (w : io_width) (d : io_direction) (k : io_kind)
    : vmx_vmexit_state_t → Z → M machine vmx_vmexit_state_t :=
  let single :=
    match d with
    | IoOut => VM_EMULATED_INSTRUCTION_OUT_SINGLE (vm_out_width w) (8 * Z.of_nat (io_bytes w))
    | IoIn => VM_EMULATED_INSTRUCTION_IN_SINGLE (vm_in_width w)
                (match w with IoDword => 0 | _ => Z.lnot (Z.ones (8 * Z.of_nat (io_bytes w))) end)
    end in
  let str :=
    match d with
    | IoOut => VM_EMULATED_INSTRUCTION_OUT_STR (vm_out_width w) (io_bytes w)
    | IoIn => VM_EMULATED_INSTRUCTION_IN_STR (vm_in_width w) (io_bytes w)
    end in
  match k with
  | IoSingle => single
  | IoString => str
  | IoRepString => VM_EMULATED_INSTRUCTION_IO_STRREP str
  end.

(** The fields of a qualification. *)
Lemma io_qualification_fields w d k imm port :
  0 ≤ imm < 2 → 0 ≤ port < 2 ^ 16 →
  let q := io_qualification w d k imm port in
  VMEXIT_QUALIFICATION_IO_SIZE q = io_width_code w ∧
  VMEXIT_QUALIFICATION_IO_DIRECTION q = io_direction_code d ∧
  VMEXIT_QUALIFICATION_IO_STRING q = io_kind_code k mod 2 ∧
  VMEXIT_QUALIFICATION_IO_REP q = io_kind_code k / 2 ∧
  VMEXIT_QUALIFICATION_IO_PORT q = port.
Proof.
  intros Himm Hport q.
  unfold VMEXIT_QUALIFICATION_IO_SIZE, VMEXIT_QUALIFICATION_IO_DIRECTION, VMEXIT_QUALIFICATION_IO_STRING,
    VMEXIT_QUALIFICATION_IO_REP, VMEXIT_QUALIFICATION_IO_PORT.
  change 3 with (Z.ones 2) at 1. change 1 with (Z.ones 1). change 0xffff with (Z.ones 16).
  rewrite !Z.land_ones, !Z.shiftr_div_pow2 by lia. unfold q, io_qualification.
  change (2 ^ 2) with 4. change (2 ^ 3) with 8. change (2 ^ 4) with 16. change (2 ^ 5) with 32.
  change (2 ^ 16) with 65536 in *. change (2 ^ 1) with 2.
  destruct w, d, k; cbn [io_width_code io_direction_code io_kind_code]; split_and!; zlia.
Qed.

Lemma emulated_io_instruction_of_qualification w d k imm port :
  0 ≤ imm < 2 → 0 ≤ port < 2 ^ 16 →
  emulated_io_instruction_of (io_qualification w d k imm port) = Some (io_semantics w d k).
Proof.
  intros Himm Hport. destruct (io_qualification_fields w d k imm port Himm Hport) as (Hs & Hd & Hst & Hr & _).
  unfold emulated_io_instruction_of. rewrite Hs, Hd, Hst, Hr. by destruct w, d, k.
Qed.

Lemma io_bit x k : 0 ≤ k → Z.land (Z.shiftr x k) 1 = 0 ∨ Z.land (Z.shiftr x k) 1 = 1.
Proof.
  intros Hk. rewrite land_1. pose proof (Z.mod_pos_bound (Z.shiftr x k) 2 ltac:(lia)). lia.
Qed.

Lemma emulated_io_instruction_of_invalid q :
  VMEXIT_QUALIFICATION_IO_SIZE q = 2 ∨
    (VMEXIT_QUALIFICATION_IO_STRING q = 0 ∧ VMEXIT_QUALIFICATION_IO_REP q ≠ 0) →
  emulated_io_instruction_of q = None.
Proof.
  unfold emulated_io_instruction_of.
  assert (∃ row, emulated_io_instructions !! Z.to_nat (VMEXIT_QUALIFICATION_IO_DIRECTION q) = Some row ∧
    row !! 2%nat = Some [None; None; None]) as (row & -> & Hrow).
  { unfold VMEXIT_QUALIFICATION_IO_DIRECTION. destruct (io_bit q 3 ltac:(lia)) as [-> | ->]; eauto. }
  cbn [mbind option_bind]. intros [-> | [-> Hrep]].
  - change (Z.to_nat 2) with 2%nat. rewrite Hrow. by destruct (truthy _), (truthy _).
  - assert (truthy (VMEXIT_QUALIFICATION_IO_REP q) = true) as ->
      by (unfold truthy; by destruct (Z.eqb_spec (VMEXIT_QUALIFICATION_IO_REP q) 0)).
    by destruct (row !! Z.to_nat (VMEXIT_QUALIFICATION_IO_SIZE q)).
Qed.

End dispatch.

(** * Log lines before a panic *)

Section panics.
Context `{HW : Hardware} {PF : PollFuel} {CON : Console}.
Implicit Types (s : machine) (st : vmx_vmexit_state_t).

Definition zxpq : format_item := Conversion (ConvZ (ConvHex HexPrefixed HexQword)).
Definition unsupported_qualification_items : list format_item :=
  literals (bytes_of_string "VM-exit : qualification unsupported : qualification=") ++ [zxpq] ++
  literals (bytes_of_string " @ rip=") ++ [zxpq].
Definition unsupported_reason_items : list format_item :=
  literals (bytes_of_string "VM-exit : reason unsupported : ") ++ [zxpq] ++
  literals (bytes_of_string " qualification=") ++ [zxpq] ++ literals (bytes_of_string " @ rip=") ++ [zxpq].
Definition rdmsr_items : list format_item := literals (bytes_of_string "VM-exit : RDMSR with rcx=") ++ [zxpq].
Definition wrmsr_items : list format_item := literals (bytes_of_string "VM-exit : WRMSR with rcx=") ++ [zxpq].
Definition halted_items : list format_item :=
  literals (bytes_of_string "VM-exit : VM ") ++ [Literal QUOTE; Conversion ConvString; Literal QUOTE] ++
  literals (bytes_of_string " halted @ rip=") ++ [zxpq].

Lemma vmexit_formats :
  print_format unsupported_qualification_items = unsupported_qualification_format ∧
  print_format unsupported_reason_items = unsupported_reason_format ∧
  print_format rdmsr_items = rdmsr_format ∧ print_format wrmsr_items = wrmsr_format ∧
  print_format halted_items = halted_format.
Proof. split_and!; reflexivity. Qed.

(** A line that is well formed is printed before the panic is reached. *)
Lemma log_then_panic {A} items args out msg s :
  console_inv s → Forall literal_ok items → Forall printf_arg_ok args → format_text items args = Some out →
  (LOG vmexit_log_category (print_format items) args;; mpanic (A := A) msg) s = Panic msg.
Proof.
  intros Hinv Hlit Hargs Htext.
  assert (wp (LOG vmexit_log_category (print_format items) args) no_panic (λ _ _, True) s) as H.
  { eapply wp_LOG; [done|by apply (bool_decide_unpack _)|by apply (bool_decide_unpack _)|done|done|done|done]. }
  apply wp_no_panic_ok in H as ([] & s' & Heq & _). by rewrite (bind_ok _ _ _ _ _ Heq).
Qed.

Lemma printf_args_ok l : Forall (λ v, 0 ≤ v < 2 ^ 64) l → Forall printf_arg_ok (ArgInt <$> l).
Proof. intros H. by apply Forall_fmap. Qed.

Ltac solve_log := apply (bool_decide_unpack _); vm_compute; exact I.

Lemma unsupported_qualification_panic {A} q rip msg s :
  console_inv s → 0 ≤ q < 2 ^ 64 → 0 ≤ rip < 2 ^ 64 →
  (LOG vmexit_log_category unsupported_qualification_format [ArgInt q; ArgInt rip];;
   mpanic (A := A) msg) s = Panic msg.
Proof.
  intros Hinv Hq Hr. destruct vmexit_formats as (<- & _).
  eapply log_then_panic; [done| |apply (printf_args_ok [q; rip]); by rewrite !Forall_cons, Forall_nil|reflexivity].
  unfold unsupported_qualification_items, zxpq. repeat (apply Forall_app; split); repeat (constructor || discriminate).
Qed.

End panics.

(** * The handler *)

Section handler.
Context `{HW : Hardware} {PF : PollFuel}.
Implicit Types (s : machine) (st : vmx_vmexit_state_t).

(** The fields of the VMCS that the handler reads at the start and writes at the end, and
    their values in a state. *)
Definition vmexit_fields : list Z :=
  [VMCS_GUEST_RIP; VMCS_GUEST_RSP; VMCS_GUEST_RFLAGS; VMCS_GUEST_CR0; VMCS_GUEST_CR3; VMCS_GUEST_CR4].
Definition guest_context st : list Z :=
  [st_rip st; st_rsp st; st_rflags st; st_cr0 st; st_cr3 st; st_cr4 st].
Definition context_is (hw : hw_state) st : Prop :=
  ∀ f v, (f, v) ∈ zip vmexit_fields (guest_context st) → hw_vmread f hw = (0, v).

Definition has_vmxe (cr4 : Z) : bool := Z.testbit cr4 13.

(** What the emulation of an instruction may change of the state. *)
Record exit_frame st st' : Prop := {
  xf_eq : st' = st <| st_reg_state := st_reg_state st' |> <| st_rsp := st_rsp st' |>
                   <| st_cr3 := st_cr3 st' |> <| st_cr4 := st_cr4 st' |>;
  xf_vmxe : has_vmxe (st_cr4 st) = true → has_vmxe (st_cr4 st') = true;
}.

Lemma exit_frame_refl st : exit_frame st st.
Proof. split; [by destruct st|done]. Qed.

Lemma exit_frame_trans st1 st2 st3 : exit_frame st1 st2 → exit_frame st2 st3 → exit_frame st1 st3.
Proof. intros [E1 V1] [E2 V2]. split; [|auto]. rewrite E2 at 1. by rewrite E1. Qed.

Lemma exit_frame_regs st regs : exit_frame st (st <| st_reg_state := regs |>).
Proof. split; [by destruct st|done]. Qed.

Ltac ok_inv H := repeat (apply bind_ok_inv in H as (? & ? & ? & H)).

(** Every I/O instruction that returns keeps to this frame. *)
Lemma io_semantics_frame w d k st port s st' s' :
  io_semantics w d k st port s = Ok (st', s') → exit_frame st st'.
Proof.
  assert (∀ w st port s st' s', io_semantics w IoOut IoString st port s = Ok (st', s') → exit_frame st st') as Hout.
  { clear. intros w st port s st' s' H. cbn in H. unfold VM_EMULATED_INSTRUCTION_OUT_STR in H.
    ok_inv H. injection H as <- _. apply exit_frame_regs. }
  assert (∀ w st port s st' s', io_semantics w IoIn IoString st port s = Ok (st', s') → exit_frame st st') as Hin.
  { clear. intros w st port s st' s' H. cbn in H. unfold VM_EMULATED_INSTRUCTION_IN_STR in H.
    ok_inv H. injection H as <- _. apply exit_frame_regs. }
  assert (∀ instr fuel st s, (∀ st port s st' s', instr st port s = Ok (st', s') → exit_frame st st') →
    io_strrep_loop fuel instr st port s = Ok (st', s') → exit_frame st st') as Hrep.
  { clear. intros instr fuel st s Hi. revert st s. induction fuel as [|fuel IH]; intros st s H;
      cbn [io_strrep_loop] in H; destruct (_ =? 0);
      try (injection H as <- _; apply exit_frame_refl); [done|].
    apply bind_ok_inv in H as (st1 & s1 & H1 & H).
    eapply exit_frame_trans; [by eapply Hi|].
    eapply exit_frame_trans; [apply exit_frame_regs|by eapply IH]. }
  destruct k, d; intros H.
  - cbn in H. unfold VM_EMULATED_INSTRUCTION_OUT_SINGLE in H. ok_inv H. injection H as <- _. apply exit_frame_refl.
  - cbn in H. unfold VM_EMULATED_INSTRUCTION_IN_SINGLE in H. ok_inv H. injection H as <- _. apply exit_frame_regs.
  - by eapply Hout.
  - by eapply Hin.
  - eapply Hrep; [|exact H]. intros. by eapply (Hout w).
  - eapply Hrep; [|exact H]. intros. by eapply (Hin w).
Qed.

(** The table only holds these instructions. *)
Lemma emulated_io_instruction_of_inv q instr :
  emulated_io_instruction_of q = Some instr → ∃ w d k, instr = io_semantics w d k.
Proof.
  intros H.
  exists (match Z.to_nat (VMEXIT_QUALIFICATION_IO_SIZE q) with O => IoByte | 1%nat => IoWord | _ => IoDword end),
    (if VMEXIT_QUALIFICATION_IO_DIRECTION q =? 0 then IoOut else IoIn),
    (if truthy (VMEXIT_QUALIFICATION_IO_STRING q)
     then if truthy (VMEXIT_QUALIFICATION_IO_REP q) then IoRepString else IoString else IoSingle).
  revert H. unfold emulated_io_instruction_of.
  destruct (io_bit q 3 ltac:(lia)) as [Hd | Hd]; unfold VMEXIT_QUALIFICATION_IO_DIRECTION; rewrite Hd;
    (destruct (Z.to_nat (VMEXIT_QUALIFICATION_IO_SIZE q)) as [|[|[|[|n]]]]; [| | | |done]);
    destruct (truthy (VMEXIT_QUALIFICATION_IO_STRING q)), (truthy (VMEXIT_QUALIFICATION_IO_REP q));
    try discriminate; intros [= <-]; reflexivity.
Qed.

Lemma gpr_store_frame i gpr st v : possible_gpr !! i = Some gpr → exit_frame st (gpr_store gpr st v).
Proof.
  intros Hi. apply list_elem_of_lookup_2 in Hi. unfold possible_gpr in Hi.
  repeat (apply elem_of_cons in Hi as [-> |Hi]; [split; [by destruct st|done]|]).
  by apply elem_of_nil in Hi.
Qed.

Lemma cr_accesses_frame q st s st' s' :
  vmx_vmexit_cr_accesses q st s = Ok (st', s') → exit_frame st st'.
Proof.
  unfold vmx_vmexit_cr_accesses. destruct (possible_gpr !! _) as [gpr|] eqn:Hg; [|done].
  destruct (_ =? VMEXIT_QUALIFICATION_CR_ACCESS_TYPE_MOV_TO_CR).
  - unfold vm_emulated_instruction_mov_to_cr. destruct (_ =? 3).
    { intros [= <- _]. split; [by destruct st|done]. }
    destruct (_ =? 4); [|intros H; ok_inv H; done].
    intros H. ok_inv H. injection H as <- _. split; [by destruct st|]. intros _.
    unfold has_vmxe, upd, set_st_cr4. cbn [st_cr4]. rewrite Z.lor_spec. apply orb_true_r.
  - destruct (_ =? VMEXIT_QUALIFICATION_CR_ACCESS_TYPE_MOV_FROM_CR); [|intros H; ok_inv H; done].
    intros H. apply bind_ok_inv in H as (v & s1 & H1 & [= <- _]). by eapply gpr_store_frame.
Qed.

Definition supported_exits : list Z :=
  [VMEXIT_REASON_CPUID; VMEXIT_REASON_CR_ACCESSES; VMEXIT_REASON_IO_INSTRUCTION; VMEXIT_REASON_XSETBV].

(** The [switch] returns for four reasons only, past the instruction. *)
Lemma vmx_vmexit_switch_frame reason q len st s st' s' :
  vmx_vmexit_switch reason q len st s = Ok (st', s') →
  reason ∈ supported_exits ∧ ∃ st1, exit_frame st st1 ∧ st' = skip_instruction st1 len.
Proof.
  unfold vmx_vmexit_switch, supported_exits.
  destruct (Z.eqb_spec reason VMEXIT_REASON_CPUID) as [-> |_].
  { intros H. apply bind_ok_inv in H as (st1 & s1 & H1 & [= <- _]). split; [by left|].
    exists st1. split; [|done]. unfold vm_emulated_instruction_cpuid in H1.
    destruct (_ && _); [injection H1 as <- _; apply exit_frame_refl|].
    apply bind_ok_inv in H1 as ([[[a b] c] d] & s2 & _ & [= <- _]). apply exit_frame_regs. }
  destruct (Z.eqb_spec reason VMEXIT_REASON_CR_ACCESSES) as [-> |_].
  { intros H. apply bind_ok_inv in H as (st1 & s1 & H1 & [= <- _]). split; [by right; left|].
    exists st1. split; [by eapply cr_accesses_frame|done]. }
  destruct (Z.eqb_spec reason VMEXIT_REASON_IO_INSTRUCTION) as [-> |_].
  { intros H. apply bind_ok_inv in H as (st1 & s1 & H1 & [= <- _]). split; [by right; right; left|].
    exists st1. split; [|done]. unfold vmx_vmexit_io in H1.
    destruct (emulated_io_instruction_of q) as [instr|] eqn:Hi; [|by ok_inv H1].
    apply emulated_io_instruction_of_inv in Hi as (w & d & k & ->). by eapply io_semantics_frame. }
  destruct (Z.eqb_spec reason VMEXIT_REASON_RDMSR) as [-> |_]; [intros H; by ok_inv H|].
  destruct (Z.eqb_spec reason VMEXIT_REASON_WRMSR) as [-> |_]; [intros H; by ok_inv H|].
  destruct (Z.eqb_spec reason VMEXIT_REASON_XSETBV) as [-> |_].
  { intros H. apply bind_ok_inv in H as (st1 & s1 & H1 & [= <- _]). split; [by right; right; right; left|].
    exists st1. split; [|done]. unfold vm_emulated_instruction_xsetbv in H1.
    destruct (negb _); [done|]. destruct (negb _); [done|]. ok_inv H1. destruct (_ || _); [done|].
    ok_inv H1. injection H1 as <- _. apply exit_frame_refl. }
  destruct (Z.eqb_spec reason VMEXIT_REASON_HLT) as [-> |_]; intros H; by ok_inv H.
Qed.

Lemma VMX_ASSERT_OUT_vmread_inv f s v s' :
  VMX_ASSERT_OUT (vmx_vmread f) s = Ok (v, s') → hw_vmread f (m_hw s) = (0, v) ∧ s' = s.
Proof.
  unfold VMX_ASSERT_OUT, vmx_vmread. intros H. apply bind_ok_inv in H as (r & s1 & H1 & H).
  injection H1 as <- <-. destruct (hw_vmread f (m_hw s)) as [e v']. cbn [fst snd] in H.
  destruct (Z.eqb_spec e VM_SUCCEED) as [-> |]; [|done]. by injection H as <- <-.
Qed.

Lemma get_current_vm_inv s vm s' :
  vm_manager_get_current_vm s = Ok (vm, s') → vm = m_current_vm s ∧ s' = s.
Proof.
  unfold vm_manager_get_current_vm, VMX_ASSERT_OUT, vmx_vmptrst. intros H.
  apply bind_ok_inv in H as (region & s1 & H1 & H).
  apply bind_ok_inv in H1 as (r & s2 & [= <- <-] & H1).
  destruct (_ =? VM_SUCCEED); [|done]. injection H1 as _ <-.
  apply bind_ok_inv in H as (current & s1 & [= <- <-] & H).
  apply bind_ok_inv in H as (unsynced & s1 & H1 & H).
  assert (s1 = s) as ->.
  { destruct (m_current_vm s =? 0); [by injection H1 as _ <-|].
    apply bind_ok_inv in H1 as (v & s2 & Hv & [= _ <-]). unfold vm_get in Hv.
    apply bind_ok_inv in Hv as (s3 & s4 & [= <- <-] & Hv). destruct (m_vms s !! _); [|done]. by injection Hv as _ <-. }
  destruct unsynced; [done|]. by injection H as <- <-.
Qed.

Lemma context_is_fields hw st :
  context_is hw st ↔
  hw_vmread VMCS_GUEST_RIP hw = (0, st_rip st) ∧ hw_vmread VMCS_GUEST_RSP hw = (0, st_rsp st) ∧
  hw_vmread VMCS_GUEST_RFLAGS hw = (0, st_rflags st) ∧ hw_vmread VMCS_GUEST_CR0 hw = (0, st_cr0 st) ∧
  hw_vmread VMCS_GUEST_CR3 hw = (0, st_cr3 st) ∧ hw_vmread VMCS_GUEST_CR4 hw = (0, st_cr4 st).
Proof.
  unfold context_is, vmexit_fields, guest_context. cbn [zip zip_with]. split.
  - intros H. split_and!; apply H; list_mem.
  - intros (?&?&?&?&?&?) f v Hin.
    repeat (apply elem_of_cons in Hin as [[= -> ->]|Hin]; [done|]). by apply elem_of_nil in Hin.
Qed.

End handler.

(** ** Writing the state back *)

Section writeback.
Context `{HW : Hardware} {PF : PollFuel} {VL : VmxLaws}.
Implicit Types (s : machine) (st : vmx_vmexit_state_t).

Definition vmexit_fields_writable : Prop :=
  ∀ f v c, f ∈ vmexit_fields → fst (hw_vmwrite f v c) = 0.

(** The fields that the MSR code writes are others. *)
Lemma vmexit_fields_not_msr f : f ∈ vmexit_fields → f ∉ omap msr_vmcs VMX_MSR_LIST.
Proof.
  intros Hf. cbn. unfold vmexit_fields in Hf.
  repeat (apply elem_of_cons in Hf as [-> |Hf]; [by apply (bool_decide_unpack _)|]). by apply elem_of_nil in Hf.
Qed.

Lemma wp_vmexit_writeback st E (Q : () → machine → Prop) s :
  vmexit_fields_writable → vmcs_msr_fields_writable →
  (∀ s', s' = s <| m_msr_host_backup := m_msr_host_backup s' |> <| m_hw := m_hw s' |> →
     context_is (m_hw s') st → (∀ e, e ∈ VMX_MSR_LIST → guest_msr e (m_hw s') = msr_get e (st_msrs st)) →
     (∀ e, e ∈ VMX_MSR_LIST → is_rwbk e = true →
        msr_get e (m_msr_host_backup s') = hw_rdmsr (msr_addr e) (m_hw s)) → Q () s') →
  wp (vmexit_writeback st) E Q s.
Proof.
  intros Hw Hm HQ. unfold vmexit_writeback.
  do 6 (wp_step; apply wp_vmwrite; [apply Hw; unfold vmexit_fields; list_mem|]).
  apply wp_vmx_msr_vmresume; [done|]. intros backup hw Hg Hb _ Hv _ _.
  match goal with |- Q () ?s' => apply (HQ s') end; [by destruct s| |exact Hg|].
  - intros f v Hin. simpl. rewrite Hv.
    2: { apply vmexit_fields_not_msr. by apply elem_of_zip_l in Hin. }
    apply (vmread_vmwrite_all f v (zip vmexit_fields (guest_context st)) (m_hw s)); [|by apply (bool_decide_unpack _)|done].
    intros g w c Hg'. by apply Hw.
  - intros e He Hr. simpl. rewrite Hb by done. simpl. by rewrite !rdmsr_vmwrite.
Qed.

End writeback.

Section properties.
Context `{HW : Hardware} {PF : PollFuel} {CON : Console}.
Implicit Types (s : machine) (st : vmx_vmexit_state_t).


(** C8: whatever the guest did, when the handler returns, the VMCS holds exactly the state
    that the emulation left: the six fields, the MSRs that VMX loads, and those that the
    hypervisor loads itself. It returns for four reasons only; the instruction was skipped,
    and CR4.VMXE, CR0, RFLAGS and the current VM are kept. *)
Theorem vmx_vmexit_handler_resumes {VL : VmxLaws} regs area s vm st' s' :
  vmexit_fields_writable → vmcs_msr_fields_writable → vmcs_msr_fields_ok (m_hw s) →
  vmx_vmexit_handler regs area s = Ok ((vm, st'), s') →
  context_is (m_hw s') st' ∧ (∀ e, e ∈ VMX_MSR_LIST → guest_msr e (m_hw s') = msr_get e (st_msrs st')) ∧
  ∃ reason qualification len st0,
    hw_vmread VMCS_EXIT_REASON (m_hw s) = (0, reason) ∧
    hw_vmread VMCS_EXIT_QUALIFICATION (m_hw s) = (0, qualification) ∧
    hw_vmread VMCS_VM_EXIT_INSTRUCTION_LENGTH (m_hw s) = (0, len) ∧
    reason ∈ supported_exits ∧
    context_is (m_hw s) st0 ∧ st_reg_state st0 = regs ∧ st_vm st0 = m_current_vm s ∧
    (∀ e, e ∈ VMX_MSR_LIST → msr_get e (st_msrs st0) = guest_msr e (m_hw s)) ∧
    vm = m_current_vm s ∧ exit_frame st0 (st' <| st_rip := st_rip st0 |>) ∧
    st_rip st' = u64 (st_rip st0 + len).
Proof.
  intros Hw Hm Hr H. unfold vmx_vmexit_handler in H.
  apply bind_ok_inv in H as (reason & s1 & H1 & H). apply VMX_ASSERT_OUT_vmread_inv in H1 as [H1 ->].
  apply bind_ok_inv in H as (qual & s1 & H2 & H). apply VMX_ASSERT_OUT_vmread_inv in H2 as [H2 ->].
  apply bind_ok_inv in H as (len & s1 & H3 & H). apply VMX_ASSERT_OUT_vmread_inv in H3 as [H3 ->].
  apply bind_ok_inv in H as (vm0 & s1 & H4 & H). apply get_current_vm_inv in H4 as [-> ->].
  do 6 (apply bind_ok_inv in H as (? & s1 & Hf & H); apply VMX_ASSERT_OUT_vmread_inv in Hf as [? ->]).
  apply bind_ok_inv in H as (st0 & s1 & Hmsr & H).
  match type of Hmsr with vmx_msr_vmexit ?st _ = _ =>
    assert (wp (vmx_msr_vmexit st) no_panic (λ st0 _, ∃ msrs, st0 = st <| st_msrs := msrs |> ∧
      ∀ e, e ∈ VMX_MSR_LIST → msr_get e msrs = guest_msr e (m_hw s)) s) as Hmsr'
      by (apply wp_vmx_msr_vmexit; [done|]; intros msrs hw ? _ _ _ _; by exists msrs)
  end.
  pose proof (wp_ok_inv _ _ _ _ _ _ Hmsr' Hmsr) as (msrs & -> & Hmsrs). clear Hmsr Hmsr'.
  apply bind_ok_inv in H as (st1 & s2 & Hswitch & H).
  apply vmx_vmexit_switch_frame in Hswitch as (Hsup & st2 & Hframe & ->).
  apply bind_ok_inv in H as ([] & s3 & Hwb & H). injection H as <- <- <-.
  assert (wp (vmexit_writeback (skip_instruction st2 len)) no_panic (λ _ s',
    context_is (m_hw s') (skip_instruction st2 len) ∧
    (∀ e, e ∈ VMX_MSR_LIST → guest_msr e (m_hw s') = msr_get e (st_msrs (skip_instruction st2 len)))) s2) as Hwb'
    by (apply wp_vmexit_writeback; [done|done|]; auto).
  pose proof (wp_ok_inv _ _ _ _ _ _ Hwb' Hwb) as [Hc Hg]. split; [exact Hc|]. split; [exact Hg|].
  match type of Hframe with exit_frame ?st _ => exists reason, qual, len, st end.
  split_and!; try done.
  - apply context_is_fields. split_and!; done.
  - by rewrite (xf_eq _ _ Hframe).
  - destruct Hframe as [Heq Hv]. split; [|exact Hv]. rewrite Heq. done.
  - by rewrite (xf_eq _ _ Hframe).
Qed.

(** C39: a CPUID exit always returns to the guest: the instruction is skipped, the leaves
    that hypervisors use leave the registers alone, every other leaf gives the four
    registers of the processor with their high halves cleared, and the other fields, the
    MSRs, memory and the VMs are as before the exit. *)
Theorem vmx_vmexit_cpuid {VL : VmxLaws} regs area qualification len st s :
  let vm := m_current_vm s in
  vmexit_fields_writable → vmcs_msr_fields_writable → vmcs_msr_fields_ok (m_hw s) →
  hw_vmread VMCS_EXIT_REASON (m_hw s) = (0, VMEXIT_REASON_CPUID) →
  hw_vmread VMCS_EXIT_QUALIFICATION (m_hw s) = (0, qualification) →
  hw_vmread VMCS_VM_EXIT_INSTRUCTION_LENGTH (m_hw s) = (0, len) →
  vm_manager_get_current_vm s = Ok (vm, s) → context_is (m_hw s) st →
  ∃ st' s' hw, vmx_vmexit_handler regs area s = Ok ((vm, st'), s') ∧
    (let '(a, b, c, d) := hw_cpuid (u32 (reg_rax regs)) (u32 (reg_rcx regs)) hw in
     st_reg_state st' =
       if (0x40000000 <=? reg_rax regs) && (reg_rax regs <=? 0x4FFFFFFF) then regs
       else regs <| reg_rax := u32 a |> <| reg_rbx := u32 b |> <| reg_rcx := u32 c |> <| reg_rdx := u32 d |>) ∧
    (∀ e, e ∈ VMX_MSR_LIST → is_rwbk e = true →
       hw_rdmsr (msr_addr e) hw = msr_get e (m_msr_host_backup s)) ∧
    context_is (m_hw s') (st <| st_rip := u64 (st_rip st + len) |>) ∧
    (∀ e, e ∈ VMX_MSR_LIST → guest_msr e (m_hw s') = guest_msr e (m_hw s)) ∧
    s' = s <| m_msr_host_backup := m_msr_host_backup s' |> <| m_hw := m_hw s' |>.
Proof.
  intros vm Hw Hm Hr H1 H2 H3 Hvm Hctx. apply context_is_fields in Hctx as (F1 & F2 & F3 & F4 & F5 & F6).
  destruct (wp_no_panic_ok (vmx_vmexit_handler regs area) (λ r s', r.1 = vm ∧ ∃ hw,
    (let '(a, b, c, d) := hw_cpuid (u32 (reg_rax regs)) (u32 (reg_rcx regs)) hw in
     st_reg_state r.2 =
       if (0x40000000 <=? reg_rax regs) && (reg_rax regs <=? 0x4FFFFFFF) then regs
       else regs <| reg_rax := u32 a |> <| reg_rbx := u32 b |> <| reg_rcx := u32 c |> <| reg_rdx := u32 d |>) ∧
    (∀ e, e ∈ VMX_MSR_LIST → is_rwbk e = true →
       hw_rdmsr (msr_addr e) hw = msr_get e (m_msr_host_backup s)) ∧
    context_is (m_hw s') (st <| st_rip := u64 (st_rip st + len) |>) ∧
    (∀ e, e ∈ VMX_MSR_LIST → guest_msr e (m_hw s') = guest_msr e (m_hw s)) ∧
    s' = s <| m_msr_host_backup := m_msr_host_backup s' |> <| m_hw := m_hw s' |>) s)
    as ([vm' st'] & s' & Heq & Hv & hw & H); [|cbn in Hv, H; subst vm'; by exists st', s', hw].
  unfold vmx_vmexit_handler.
  do 3 (wp_step; eapply wp_vmread; [eassumption|]).
  wp_step. eapply wp_eq_ok; [exact Hvm|].
  do 6 (wp_step; eapply wp_vmread; [eassumption|]).
  wp_step. apply wp_vmx_msr_vmexit; [done|]. intros msrs hw Hmsrs Hhost _ _ _.
  wp_step. unfold vmx_vmexit_switch. rewrite Z.eqb_refl. wp_step.
  unfold vm_emulated_instruction_cpuid. cbn [st_reg_state set_st_msrs upd].
  destruct (hw_cpuid (u32 (reg_rax regs)) (u32 (reg_rcx regs)) hw) as [[[a b] c] d] eqn:Hcpuid.
  assert (∀ regs', wp (vmexit_writeback (skip_instruction ((mk_vmexit_state vm regs' area (st_rip st) (st_rsp st)
      (st_rflags st) (st_cr0 st) (st_cr3 st) (st_cr4 st) msrs)) len)) no_panic (λ _ s',
    context_is (m_hw s') (st <| st_rip := u64 (st_rip st + len) |>) ∧
    (∀ e, e ∈ VMX_MSR_LIST → guest_msr e (m_hw s') = guest_msr e (m_hw s)) ∧
    s' = s <| m_msr_host_backup := m_msr_host_backup s' |> <| m_hw := m_hw s' |>) (s <| m_hw := hw |>)) as Hwb.
  { intros regs'. apply wp_vmexit_writeback; [done|done|]. intros s' Hs' Hc Hg _. split_and!.
    - exact Hc.
    - intros e He. by rewrite Hg, <-Hmsrs.
    - rewrite Hs'. done. }
  destruct ((0x40000000 <=? reg_rax regs) && (reg_rax regs <=? 0x4FFFFFFF)) eqn:Hleaf.
  - wp_step. wp_step. wp_step. eapply wp_post; [exact (Hwb regs)|]. intros [] s' Hs'. apply wp_ret.
    split; [done|]. exists hw. rewrite Hcpuid. split; [done|]. split; [done|exact Hs'].
  - wp_step. apply wp_gets. cbn [m_hw set_m_hw upd]. rewrite Hcpuid. do 2 wp_step. wp_step.
    eapply wp_post; [exact (Hwb _)|]. intros [] s' Hs'. apply wp_ret.
    split; [done|]. exists hw. rewrite Hcpuid. split; [done|]. split; [done|exact Hs'].
Qed.

End properties.

(** * Witnesses *)


(** A VM that just executed CPUID at 0x1000. *)
Definition cpuid_fields : gmap (Z * Z) Z :=
  {[ (0, VMCS_EXIT_REASON) := VMEXIT_REASON_CPUID; (0, VMCS_VM_EXIT_INSTRUCTION_LENGTH) := 2;
     (0, VMCS_GUEST_RIP) := 0x1000; (0, VMCS_GUEST_CR4) := 0x2020 ]}.
Definition cpuid_machine : machine :=
  (one_vm_machine 4) <| m_current_vm := vm_address |> <| m_hw := initial_cpu <| cpu_vmcs_fields := cpuid_fields |> |>.
Definition cpuid_regs : vmx_gpr_state_t := zero_gpr_state <| reg_rax := 0x123456789 |>.

Lemma vmx_vmexit_handler_resumes_witness :
  ∃ vm st' s', vmx_vmexit_handler cpuid_regs 0 cpuid_machine = Ok ((vm, st'), s') ∧
    context_is (m_hw s') st' ∧ vm = vm_address.
Proof.
  assert (is_ok (vmx_vmexit_handler cpuid_regs 0 cpuid_machine) = true) as Hok by (vm_compute; reflexivity).
  apply is_ok_inv in Hok as ([vm st'] & s' & Heq). exists vm, st', s'.
  destruct (vmx_vmexit_handler_resumes cpuid_regs 0 cpuid_machine vm st' s')
    as (H1 & _ & reason & q & len & st0 & _ & _ & _ & _ & _ & _ & _ & _ & H2 & _).
  - intros f v c _. reflexivity.
  - intros f v c _. reflexivity.
  - intros f _. reflexivity.
  - exact Heq.
  - split; [exact Heq|]. split; [exact H1|exact H2].
Defined.

Lemma vmx_vmexit_cpuid_witness :
  ∃ st' s', vmx_vmexit_handler cpuid_regs 0 cpuid_machine = Ok ((vm_address, st'), s') ∧
    reg_rax (st_reg_state st') = 0x23456789 ∧ hw_vmread VMCS_GUEST_RIP (m_hw s') = (0, 0x1002).
Proof.
  destruct (vmx_vmexit_cpuid cpuid_regs 0 0 2
    (mk_vmexit_state vm_address cpuid_regs 0 0x1000 0 0 0 0 0x2020 (mk_msr_state 0 0 0 0 0 0 0)) cpuid_machine)
    as (st' & s' & hw & H1 & H2 & _ & H3 & _).
  - intros f v c _. reflexivity.
  - intros f v c _. reflexivity.
  - intros f _. reflexivity.
  - vm_compute; reflexivity.
  - vm_compute; reflexivity.
  - vm_compute; reflexivity.
  - vm_compute; reflexivity.
  - apply context_is_fields. split_and!; vm_compute; reflexivity.
  - exists st', s'. split; [exact H1|]. split; [|exact (proj1 (proj1 (context_is_fields _ _) H3))].
    apply (f_equal reg_rax) in H2. vm_compute in H2. exact H2.
Defined.
