(* ===== verification/Descriptors.v ===== *)
(** Descriptor tables and interrupts (hv/src/segments.c, hv/src/segments.asm,
    hv/src/interrupts.c, hv/src/interrupts.h, hv/src/panic.c): the segments and the gates
    that the processor is given, and what happens when an exception is raised.

    The addresses that the linker chooses are the class [KernelImage]; the instructions
    are the class [DescriptorInstructions]. *)
From S2P Require Import Prelude Memory Machine Registers SimpleCpu Strings Console.

Class KernelImage := {
  GDT_address : Z;
  IDT_address : Z;
  isr_stub_table : list Z;
  vmx_vmexit_address : Z;
}.

Class DescriptorInstructions `{HW : Hardware} := {
  hw_lgdt : table_register → hw_state → hw_state;
  hw_lidt : table_register → hw_state → hw_state;
  hw_load_segments : Z → Z → hw_state → hw_state;
  hw_sti : hw_state → hw_state;
}.

(** The processor keeps what is loaded, until it is loaded again; the serial port is not
    concerned. *)
Class DescriptorLaws `{DI : DescriptorInstructions} {PF : PollFuel} {CON : Console} : Prop := {
  sgdt_lgdt t hw : hw_sgdt (hw_lgdt t hw) = t;
  sidt_lidt t hw : hw_sidt (hw_lidt t hw) = t;
  sgdt_lidt t hw : hw_sgdt (hw_lidt t hw) = hw_sgdt hw;
  sgdt_load_segments cs ds hw : hw_sgdt (hw_load_segments cs ds hw) = hw_sgdt hw;
  sgdt_sti hw : hw_sgdt (hw_sti hw) = hw_sgdt hw;
  sidt_sti hw : hw_sidt (hw_sti hw) = hw_sidt hw;
  lgdt_console t : console_keeps (hw_lgdt t);
  lidt_console t : console_keeps (hw_lidt t);
  load_segments_console cs ds : console_keeps (hw_load_segments cs ds);
  sti_console : console_keeps hw_sti;
}.

Section code.
Context `{DI : DescriptorInstructions} {PF : PollFuel} {KI : KernelImage}.

(** * hv/src/segments.c *)

Definition segments_log_category : list Z := bytes_of_string "segments".
Definition sizeof_gdt_segment_descriptor_t : Z := 8.

(** [sizeof(GDT) - 1] *)
Definition GDTR : table_register :=
  mk_table_register (Z.of_nat (length GDT_initial) * sizeof_gdt_segment_descriptor_t - 1) GDT_address.

Definition segments_lgdt (gdtr : table_register) : M machine () :=
  mmodify (λ s, s <| m_hw := hw_lgdt gdtr (m_hw s) |>).
Definition segments_sgdt : M machine table_register := mgets (λ s, hw_sgdt (m_hw s)).

(** The processor sets the Accessed flag in the table when it loads a segment; a selector
    of no descriptor is a fault. *)
Definition set_accessed (selector : Z) (gdt : list gdt_segment_descriptor_t) :
    option (list gdt_segment_descriptor_t) :=
  d ← gdt !! Z.to_nat (Z.shiftr selector 3);
  Some (<[Z.to_nat (Z.shiftr selector 3) :=
          d <| sd_access := Z.lor (sd_access d) GDT_SEGMENT_DESCRIPTOR_ACCESS_ACCESSED |>]> gdt).

Definition segments_set_new_segs (cs ds : Z) : M machine () :=
  s ← mget;
  match set_accessed cs (m_GDT s) ≫= set_accessed ds with
  | Some gdt => mmodify (λ s, (s <| m_GDT := gdt |>) <| m_hw := hw_load_segments cs ds (m_hw s) |>)
  | None => mundefined
  end.

Definition segments_setup : M machine () :=
  segments_lgdt GDTR;;
  LOG segments_log_category (bytes_of_string "lgdt done with GDT @ %p, switching segments")
    [ArgInt GDT_address];;
  segments_set_new_segs RKHV_CS RKHV_DS.

(** * hv/src/interrupts.c *)

Definition interrupts_log_category : list Z := bytes_of_string "interrupts".
Definition sizeof_idt_gate_descriptor_t : Z := 16.

Definition IDTR : table_register :=
  mk_table_register (IDT_LEN * sizeof_idt_gate_descriptor_t - 1) IDT_address.

Definition interrupts_lidt (idtr : table_register) : M machine () :=
  mmodify (λ s, s <| m_hw := hw_lidt idtr (m_hw s) |>).
Definition interrupts_sidt : M machine table_register := mgets (λ s, hw_sidt (m_hw s)).

(** The six assignments of the loop, for the stub at [stub]. *)
Definition idt_gate_for (stub : Z) (g : idt_gate_descriptor_t) : idt_gate_descriptor_t :=
  (g <| gate_offset_low := Z.land stub 0xffff |>
     <| gate_offset_mid := Z.land (Z.shiftr stub 16) 0xffff |>
     <| gate_offset_high := Z.land (Z.shiftr stub 32) 0xffffffff |>
     <| gate_segment_selector := RKHV_CS |>
     <| gate_ist := 0 |>
     <| gate_bitfield := Z.lor (Z.lor IDT_GATE_DESCRIPTOR_BITFIELD_PRESENT
          IDT_GATE_DESCRIPTOR_BITFIELD_GATE_TRAP) (IDT_GATE_DESCRIPTOR_BITFIELD_DPL 0) |>).

(** The body of the loop. *)
Definition interrupts_setup_gate (idt_index : Z) : M machine () :=
  s ← mget;
  match isr_stub_table !! Z.to_nat idt_index, m_IDT s !! Z.to_nat idt_index with
  | Some stub, Some g =>
    mmodify (λ s, s <| m_IDT := <[Z.to_nat idt_index := idt_gate_for stub g]> (m_IDT s) |>)
  | _, _ => mundefined
  end.

Definition interrupts_setup : M machine () :=
  mfor IDT_LEN interrupts_setup_gate;;
  interrupts_lidt IDTR;;
  LOG interrupts_log_category (bytes_of_string "lidt done with IDT @ %p, enabling interrupts")
    [ArgInt IDT_address];;
  mmodify (λ s, s <| m_hw := hw_sti (m_hw s) |>).

(** The names of the exceptions, and whether they push an error code. *)
Definition INTERRUPTS_EXCEPTIONS_DETAILS : list (string * bool) := [
  ("#DE Divide Error", false);
  ("#DB Debug Exception", false);
  ("    NMI Interrupt", false);
  ("#BP Breakpoint", false);
  ("#OF Overflow", false);
  ("#BR BOUND Range Exceeded", false);
  ("#UD Invalid Opcode", false);
  ("#NM Device Not Available", false);
  ("#DF Double Fault", true);
  ("    Coprocessor Segment Overrun", false);
  ("#TS Invalid TSS", true);
  ("#NP Segment Not Present", true);
  ("#SS Stack-Segment Fault", true);
  ("#GP General Protection", true);
  ("#PF Page Fault", true);
  ("    Reserved", false);
  ("#MF x87 FPU Floating-Point Error", false);
  ("#AC Alignment Check", true);
  ("#MC Machine Check", false);
  ("#XM SIMD Floating-Point Exception", false);
  ("#VE Virtualization Exception", false);
  ("#CP Control Protection Exception", true)
]%string.

Definition INTERRUPTS_EXCEPTIONS_MAX : Z := 32.

(** The six words of the union at the end of [interrupt_state_t]: without an error code
    the frame starts at the first one, with it at the second. *)
Record interrupt_frame := mk_interrupt_frame {
  frame_word0 : Z; frame_word1 : Z; frame_word2 : Z;
  frame_word3 : Z; frame_word4 : Z; frame_word5 : Z;
}.

(** [while (1) hlt]: like [panic], it never returns. *)
Definition halt {A} : M machine A := mpanic "hlt".

Definition interrupts_handler (interrupt : Z) (f : interrupt_frame) : M machine () :=
  if interrupt <? INTERRUPTS_EXCEPTIONS_MAX then
    let '(exception_name, have_error_code) :=
      default ("Reserved"%string, false) (INTERRUPTS_EXCEPTIONS_DETAILS !! Z.to_nat interrupt) in
    LOG interrupts_log_category (bytes_of_string "fault : %s, halting")
      [ArgString (Some (bytes_of_string exception_name))];;
    (if (have_error_code : bool) then
       LOG interrupts_log_category (bytes_of_string "ERR: %p RIP: %p")
         [ArgInt (frame_word0 f); ArgInt (frame_word1 f)];;
       LOG interrupts_log_category (bytes_of_string "CS:  %p FLG: %p")
         [ArgInt (frame_word2 f); ArgInt (frame_word3 f)];;
       LOG interrupts_log_category (bytes_of_string "RSP: %p SS:  %p")
         [ArgInt (frame_word4 f); ArgInt (frame_word5 f)]
     else
       LOG interrupts_log_category (bytes_of_string "RIP: %p") [ArgInt (frame_word0 f)];;
       LOG interrupts_log_category (bytes_of_string "CS:  %p FLG: %p")
         [ArgInt (frame_word1 f); ArgInt (frame_word2 f)];;
       LOG interrupts_log_category (bytes_of_string "RSP: %p SS:  %p")
         [ArgInt (frame_word3 f); ArgInt (frame_word4 f)]);;
    halt
  else
    LOG interrupts_log_category (bytes_of_string "unknown interrupt : int %xpb, ignored")
      [ArgInt (u32 interrupt)].

(** * hv/src/panic.c *)

(** What [PANIC] calls; elsewhere in the development its printing is left out and the
    outcome is [Panic message]. *)
Definition panic_log_category : list Z := bytes_of_string "panic".
Definition panic (message filename : list Z) (line_number : Z) : M machine () :=
  stdio_puts (Some ([0x1B] ++ bytes_of_string "[31;1mPANIC PANIC PANIC" ++ [0x1B] ++
                    bytes_of_string "[0m" ++ [0x0A]));;
  LOG panic_log_category (bytes_of_string "%s:%u: %s")
    [ArgString (Some filename); ArgInt line_number; ArgString (Some message)];;
  LOG panic_log_category (bytes_of_string "calling int 3") [];;
  halt.

End code.

(** * Theorems *)

(** The address of the handler that a gate leads to. *)
Definition gate_target (g : idt_gate_descriptor_t) : Z :=
  gate_offset_low g + gate_offset_mid g * 2 ^ 16 + gate_offset_high g * 2 ^ 32.

(** What the processor requires of a gate in 64-bit mode, for a handler that only the
    hypervisor may call. *)
Record gate_wf (g : idt_gate_descriptor_t) : Prop := {
  gw_low : 0 ≤ gate_offset_low g < 2 ^ 16;
  gw_mid : 0 ≤ gate_offset_mid g < 2 ^ 16;
  gw_high : 0 ≤ gate_offset_high g < 2 ^ 32;
  gw_present : Z.testbit (gate_bitfield g) 7 = true;
  gw_dpl : (gate_bitfield g / 2 ^ 5) mod 4 = 0;
  gw_trap : gate_bitfield g mod 32 = 15;
  gw_reserved : gate_reserved g = 0;
}.

(** What the processor requires of the code segment of 64-bit mode, and of a writable data
    segment, once they have been loaded: both present, flat and for ring 0. *)
Definition code_segment_wf (d : gdt_segment_descriptor_t) : Prop :=
  sd_access d = 0x9B ∧ sd_flags d = 0xAF.
Definition data_segment_wf (d : gdt_segment_descriptor_t) : Prop :=
  sd_access d = 0x93 ∧ sd_flags d = 0xCF.

Section proofs.
Context `{DL : DescriptorLaws} {KI : KernelImage}.
Implicit Types (s : machine).

Lemma idt_gate_for_wf stub :
  0 ≤ stub < 2 ^ 64 →
  let g := idt_gate_for stub (mk_idt_gate 0 0 0 0 0 0 0) in gate_wf g ∧ gate_target g = stub.
Proof.
  intros Hs. cbv zeta.
  assert (idt_gate_for stub (mk_idt_gate 0 0 0 0 0 0 0) =
    mk_idt_gate (stub mod 2 ^ 16) RKHV_CS 0 0x8F ((stub / 2 ^ 16) mod 2 ^ 16) ((stub / 2 ^ 32) mod 2 ^ 32) 0) as ->.
  { rewrite <-!Z.land_ones, <-!Z.shiftr_div_pow2 by lia. reflexivity. }
  split; [split; cbn -[Z.pow Z.div Z.modulo]; try reflexivity; zlia|].
  unfold gate_target. cbn -[Z.pow Z.div Z.modulo]. zlia.
Qed.

(** The table after [i] iterations. *)
Definition gates_set (i : Z) (idt : list idt_gate_descriptor_t) : Prop :=
  length idt = 256%nat ∧
  (∀ j : nat, Z.of_nat j < i → ∃ stub, isr_stub_table !! j = Some stub ∧
     idt !! j = Some (idt_gate_for stub (mk_idt_gate 0 0 0 0 0 0 0))) ∧
  (∀ j : nat, i ≤ Z.of_nat j < 256 → idt !! j = Some (mk_idt_gate 0 0 0 0 0 0 0)).

Lemma wp_interrupts_setup_gates s E :
  length isr_stub_table = 256%nat → m_IDT s = IDT_initial →
  wp (mfor IDT_LEN interrupts_setup_gate) E
     (λ _ s', ∃ idt, s' = s <| m_IDT := idt |> ∧ gates_set 256 idt) s.
Proof.
  intros Hlen Hidt.
  apply (wp_for (λ i s', ∃ idt, s' = s <| m_IDT := idt |> ∧ gates_set i idt)); [done| |].
  - exists IDT_initial. split; [by rewrite <-Hidt; destruct s|]. split_and!; [done|lia|].
    intros j Hj. apply lookup_replicate. split; [done|]. change (j < 256)%nat. lia.
  - intros i _ Hi (idt & -> & Hl & Hset & Hrest). unfold IDT_LEN in Hi. unfold interrupts_setup_gate.
    wp_step. wp_step. change (m_IDT (s <| m_IDT := idt |>)) with idt.
    destruct (lookup_lt_is_Some_2 isr_stub_table (Z.to_nat i)) as [stub Hstub]; [lia|].
    rewrite Hstub, Hrest by lia. wp_step. eexists. split; [reflexivity|].
    change (m_IDT (s <| m_IDT := idt |>)) with idt. split_and!.
    + by rewrite length_insert.
    + intros j Hj. destruct (decide (j = Z.to_nat i)) as [->|Hne].
      * exists stub. split; [done|]. apply list_lookup_insert_eq. lia.
      * rewrite list_lookup_insert_ne by done. apply Hset. lia.
    + intros j Hj. rewrite list_lookup_insert_ne by lia. apply Hrest. lia.
Qed.

(** The table once the processor has set the Accessed flags. *)
Definition GDT_loaded : list gdt_segment_descriptor_t :=
  Eval vm_compute in default [] (set_accessed RKHV_CS GDT_initial ≫= set_accessed RKHV_DS).

Lemma wp_segments_setup E (Q : () → machine → Prop) s :
  console_inv s → m_GDT s = GDT_initial → 0 ≤ GDT_address < 2 ^ 64 →
  (∀ s' hw,
     s' = ((s <| m_GDT := GDT_loaded |>) <| m_serial_initialized := m_serial_initialized s' |>)
            <| m_hw := hw_load_segments RKHV_CS RKHV_DS hw |> →
     hw_same (hw_lgdt GDTR (m_hw s)) hw → console_inv s' → Q () s') →
  wp segments_setup E Q s.
Proof.
  intros Hcon Hgdt Hga HQ. unfold segments_setup, segments_lgdt. repeat wp_step.
  apply wp_LOG_line; [by apply (lgdt_console GDTR)|solve_log_ok|]. intros s1 [Heq1 Hsame1] Hcon1.
  unfold segments_set_new_segs. repeat wp_step. assert (m_GDT s1 = GDT_initial) as -> by (by rewrite Heq1).
  change (set_accessed RKHV_CS GDT_initial ≫= set_accessed RKHV_DS) with (Some GDT_loaded). cbv iota.
  wp_step. apply (HQ _ (m_hw s1)); [by rewrite Heq1|exact Hsame1|].
  eapply console_local; [| |exact (load_segments_console RKHV_CS RKHV_DS _ Hcon1)]; done.
Qed.

Lemma wp_interrupts_setup E (Q : () → machine → Prop) s :
  console_inv s → m_IDT s = IDT_initial → length isr_stub_table = 256%nat → 0 ≤ IDT_address < 2 ^ 64 →
  (∀ s' hw,
     s' = ((s <| m_IDT := m_IDT s' |>) <| m_serial_initialized := m_serial_initialized s' |>)
            <| m_hw := hw_sti hw |> →
     hw_same (hw_lidt IDTR (m_hw s)) hw → gates_set 256 (m_IDT s') → console_inv s' → Q () s') →
  wp interrupts_setup E Q s.
Proof.
  intros Hcon Hidt Hlen Hia HQ. unfold interrupts_setup, interrupts_lidt. wp_step.
  eapply wp_post; [by apply wp_interrupts_setup_gates|]. intros [] s1 (idt & -> & Hset). repeat wp_step.
  apply wp_LOG_line; [|solve_log_ok|].
  { eapply console_local; [| |exact (lidt_console IDTR _ Hcon)]; done. }
  intros s2 [Heq2 Hsame2] Hcon2. wp_step. apply (HQ _ (m_hw s2)); [by rewrite Heq2|exact Hsame2|by rewrite Heq2|].
  exact (sti_console _ Hcon2).
Qed.

(** The gates after the last iteration. *)
Lemma gates_set_wf idt v stub :
  Forall (λ stub, 0 ≤ stub < 2 ^ 64) isr_stub_table → length isr_stub_table = 256%nat → gates_set 256 idt →
  isr_stub_table !! v = Some stub →
  ∃ g, idt !! v = Some g ∧ gate_wf g ∧ gate_target g = stub ∧ gate_segment_selector g = RKHV_CS.
Proof.
  intros Hstubs Hlen (_ & Hset & _) Hv. rewrite Forall_forall in Hstubs.
  pose proof (lookup_lt_Some _ _ _ Hv). destruct (Hset v) as (stub' & Hv' & Hg); [lia|].
  assert (stub' = stub) as -> by congruence. destruct (idt_gate_for_wf stub) as [Hwf Ht].
  { apply Hstubs. by eapply list_elem_of_lookup_2. }
  eexists. split_and!; [exact Hg|done|done|reflexivity].
Qed.

End proofs.

(** C40: after [segments_setup] and [interrupts_setup] the processor has the two tables of
    the hypervisor: the limits cover exactly the entries, the code and data segments that
    were loaded are valid flat ring-0 segments of 64-bit mode, and each of the 256 vectors
    leads to its own stub through a present trap gate of ring 0 on the code segment. *)
Theorem descriptor_tables_setup `{DL : DescriptorLaws} {KI : KernelImage} s :
  console_inv s → m_GDT s = GDT_initial → m_IDT s = IDT_initial →
  length isr_stub_table = 256%nat → Forall (λ stub, 0 ≤ stub < 2 ^ 64) isr_stub_table →
  0 ≤ GDT_address < 2 ^ 64 → 0 ≤ IDT_address < 2 ^ 64 →
  ∃ s', (segments_setup;; interrupts_setup) s = Ok ((), s') ∧
    hw_sgdt (m_hw s') = mk_table_register 23 GDT_address ∧
    hw_sidt (m_hw s') = mk_table_register 4095 IDT_address ∧
    (∃ code data, m_GDT s' !! Z.to_nat (Z.shiftr RKHV_CS 3) = Some code ∧ code_segment_wf code ∧
       m_GDT s' !! Z.to_nat (Z.shiftr RKHV_DS 3) = Some data ∧ data_segment_wf data) ∧
    length (m_IDT s') = 256%nat ∧
    (∀ v stub, isr_stub_table !! v = Some stub → ∃ g, m_IDT s' !! v = Some g ∧
       gate_wf g ∧ gate_target g = stub ∧ gate_segment_selector g = RKHV_CS) ∧
    s' = (((s <| m_GDT := m_GDT s' |>) <| m_IDT := m_IDT s' |>)
            <| m_serial_initialized := m_serial_initialized s' |>) <| m_hw := m_hw s' |>.
Proof.
  intros Hcon Hgdt Hidt Hlen Hstubs Hga Hia. apply wp_no_panic_unit. wp_step.
  apply wp_segments_setup; [done..|]. intros s1 hw1 Heq1 Hsame1 Hcon1.
  apply wp_interrupts_setup; [done|by rewrite Heq1|done|done|]. intros s2 hw2 Heq2 Hsame2 Hset _.
  destruct Hsame1 as (_ & _ & _ & _ & _ & _ & Hg1 & Hi1 & _).
  destruct Hsame2 as (_ & _ & _ & _ & _ & _ & Hg2 & Hi2 & _).
  split_and!.
  - rewrite Heq2. cbn. rewrite sgdt_sti, Hg2, sgdt_lidt, Heq1. cbn. by rewrite sgdt_load_segments, Hg1, sgdt_lgdt.
  - rewrite Heq2. cbn. by rewrite sidt_sti, Hi2, sidt_lidt.
  - rewrite Heq2. cbn. rewrite Heq1. eexists _, _. cbn. split_and!; first [reflexivity|by split].
  - apply Hset.
  - intros v stub Hv. by apply gates_set_wf.
  - rewrite Heq2. cbn. by rewrite Heq1.
Qed.

(** The concrete processor loads the tables and nothing else. *)
#[export] Instance simple_descriptor_instructions : DescriptorInstructions (HW := simple_hardware) := {|
  hw_lgdt t c := c <| cpu_gdtr := t |>;
  hw_lidt t c := c <| cpu_idtr := t |>;
  hw_load_segments cs ds c := c;
  hw_sti c := c;
|}.

#[export] Instance simple_descriptor_laws : DescriptorLaws (HW := simple_hardware).
Proof. split; first [done|intros s H; exact H|intros ? s H; exact H|intros ? ? s H; exact H]. Qed.

#[export] Instance simple_kernel_image : KernelImage := {|
  GDT_address := RKHV_RW_BASE;
  IDT_address := RKHV_RW_BASE + 0x1000;
  isr_stub_table := (λ i, RKHV_RX_BASE + 16 * Z.of_nat i) <$> seq 0 256;
  vmx_vmexit_address := RKHV_RX_BASE + 0x2000;
|}.

(** Witness: the tables of the small machine; the page fault handler is the stub 14. *)
Lemma descriptor_tables_setup_witness :
  ∃ s' g, (segments_setup;; interrupts_setup) (small_machine 5) = Ok ((), s') ∧
    m_IDT s' !! 14%nat = Some g ∧ gate_wf g ∧ gate_target g = RKHV_RX_BASE + 224.
Proof.
  destruct (descriptor_tables_setup (small_machine 5)) as (s' & Heq & _ & _ & _ & _ & Hg & _);
    [by intros [=]|reflexivity|reflexivity|reflexivity| |by split|by split|].
  { apply (bool_decide_unpack _). vm_compute. exact I. }
  destruct (Hg 14%nat (RKHV_RX_BASE + 224)) as (g & H1 & H2 & H3 & _); [reflexivity|].
  exists s', g. split; [exact Heq|]. split; [exact H1|]. split; [exact H2|exact H3].
Defined.
