(* ===== verification/Vmcs.v ===== *)
(** Initialisation of a VMCS (hv/src/vmm/vmx_vmcs.c): the control fields are adjusted to
    what the processor supports, the host state is the current state of the hypervisor,
    and the guest state comes from the configuration of the VM. *)
From S2P Require Import Prelude Memory Machine Registers SimpleCpu PageUse PageAllocator Arena.
From S2P Require Import VmxInstructions VmxMsr VmTracking VmxPages Strings Console Descriptors.

(** An element of the array [default_vmcs_fields]. *)
Record vmcs_field := mk_vmcs_field {
  field_encoding : Z;
  field_value : Z;
  field_allowed_msr : Z;
}.

Section code.
Context `{DI : DescriptorInstructions} {PF : PollFuel} {KI : KernelImage}.

Definition vmcs_log_category : list Z := bytes_of_string "vmx".
Definition allowed_bits_format : list Z := bytes_of_string
  "VMCS CF 0x%zxtq allowed bits checked with msr 0x%zxtq = %xud:%xud : %xpd => %xpd".
Definition unsupported_bits_format : list Z := bytes_of_string
  "WARNING : Potentially unsupported feature flags used on VMCS CF 0x%zxtq".

Definition vmx_ensure_allowed_bits (field_encoding msr mask : Z) : M machine Z :=
  msr_value ← rdmsr msr;
  let allowed_zeros := u32 (Z.land msr_value 0xffffffff) in
  let allowed_ones := u32 (Z.shiftr msr_value 32) in
  let result := Z.land (Z.lor mask allowed_zeros) allowed_ones in
  LOG vmcs_log_category allowed_bits_format
    [ArgInt field_encoding; ArgInt msr; ArgInt allowed_ones; ArgInt allowed_zeros;
     ArgInt mask; ArgInt result];;
  (if Z.land mask allowed_ones =? mask then mret ()
   else LOG vmcs_log_category unsupported_bits_format [ArgInt field_encoding]);;
  mret result.

(** A member of [gdt[index]], at [offset] in the descriptor: the pointer is the table of
    the hypervisor, or an address in the identity window. *)
Definition gdt_member (gdt index : Z) (member : gdt_segment_descriptor_t → Z) (offset : Z) : M machine Z :=
  s ← mget;
  if gdt =? GDT_address then
    match m_GDT s !! Z.to_nat index with Some d => mret (member d) | None => mundefined end
  else deref_load 1 (u64 (gdt + sizeof_gdt_segment_descriptor_t * index + offset)).

Definition vmx_read_segment_access_right_from_gdt (segment_selector gdt : Z) : M machine Z :=
  let index := Z.shiftr segment_selector 3 in
  flags ← gdt_member gdt index sd_flags 6;
  access ← gdt_member gdt index sd_access 5;
  mret (u32 (Z.lor (Z.shiftl (Z.land flags 0xf0) 8) access)).

(** The array; the arguments are the values of the calls in its initialiser. *)
Definition default_vmcs_fields (config : vmx_initial_vmcs_config_t) (msr_bitmaps : Z)
    (host_cr0 host_cr3 host_cr4 : Z) (host_gdtr host_idtr : table_register) (host_efer : Z)
    (guest_ds_access_right guest_cs_access_right : Z) : list vmcs_field := [
  mk_vmcs_field VMCS_CF_PRIMARY_PROCESSOR_BASED_VM_EXECUTION_CONTROLS
    (u64 (Z.lor (Z.lor (Z.lor VMCS_CF_PPBVMEC_HLT_EXITING VMCS_CF_PPBVMEC_UNCONDITIONAL_IO_EXITING) VMCS_CF_PPBVMEC_USE_MSR_BITMAPS) VMCS_CF_PPBVMEC_ACTIVATE_SECONDARY_CONTROLS))
    IA32_VMX_PROCBASED_CTLS;
  mk_vmcs_field VMCS_CF_SECONDARY_PROCESSOR_BASED_VM_EXECUTION_CONTROLS
    (Z.lor (Z.lor (Z.lor VMCS_CF_SPBVMEC_ENABLE_EPT VMCS_CF_SPBVMEC_UNRESTRICTED_GUEST) VMCS_CF_SPBVMEC_ENABLE_INVPCID) VMCS_CF_SPBVMEC_ENABLE_XSAVES_XRSTORS)
    IA32_VMX_PROCBASED_CTLS2;
  mk_vmcs_field VMCS_CF_ADDRESS_OF_MSR_BITMAPS msr_bitmaps 0;
  mk_vmcs_field VMCS_CF_XSS_EXITING_BITMAP 0 0;
  mk_vmcs_field VMCS_CF_EPT_POINTER
    (Z.lor (Z.lor (Z.land (eptp config) VMCS_CF_EPTP_PHYSICAL_ADDRESS_PML4) VMCS_CF_EPTP_PAGE_WALK_LENGTH_4) VMCS_CF_EPTP_WRITE_BACK)
    0;
  mk_vmcs_field VMCS_CF_PIN_BASED_VM_EXECUTION_CONTROLS 0 IA32_VMX_PINBASED_CTLS;
  mk_vmcs_field VMCS_CF_PRIMARY_VM_EXIT_CONTROLS
    (Z.lor (Z.lor VMCS_CF_VMEX_HOST_ADDRESS_SPACE_SIZE VMCS_CF_VMEX_SAVE_IA32_EFER) VMCS_CF_VMEX_LOAD_IA32_EFER)
    IA32_VMX_EXIT_CTLS;
  mk_vmcs_field VMCS_CF_VM_EXIT_MSR_STORE_COUNT 0 0;
  mk_vmcs_field VMCS_CF_VM_EXIT_MSR_LOAD_COUNT 0 0;
  mk_vmcs_field VMCS_CF_EXCEPTION_BITMAP 0 0;
  mk_vmcs_field VMCS_CF_PAGE_FAULT_ERROR_CODE_MASK 0 0;
  mk_vmcs_field VMCS_CF_PAGE_FAULT_ERROR_CODE_MATCH 0 0;
  mk_vmcs_field VMCS_CF_VM_ENTRY_CONTROLS
    (Z.lor VMCS_CF_VMEN_IA_32E_MODE_GUEST VMCS_CF_VMEN_LOAD_IA32_EFER)
    IA32_VMX_ENTRY_CTLS;
  mk_vmcs_field VMCS_CF_VM_ENTRY_MSR_LOAD_COUNT 0 0;
  mk_vmcs_field VMCS_CF_VM_ENTRY_INTERRUPTION_INFORMATION_FIELD 0 0;
  mk_vmcs_field VMCS_CF_CR3_TARGET_COUNT 0 0;
  mk_vmcs_field VMCS_CF_CR0_GUEST_HOST_MASK 0 0;
  mk_vmcs_field VMCS_CF_CR0_READ_SHADOW 0 0;
  mk_vmcs_field VMCS_CF_CR4_GUEST_HOST_MASK CR4_VMXE 0;
  mk_vmcs_field VMCS_CF_CR4_READ_SHADOW CR4_VMXE 0;
  mk_vmcs_field VMCS_HOST_ES RKHV_DS 0;
  mk_vmcs_field VMCS_HOST_CS RKHV_CS 0;
  mk_vmcs_field VMCS_HOST_SS RKHV_DS 0;
  mk_vmcs_field VMCS_HOST_DS RKHV_DS 0;
  mk_vmcs_field VMCS_HOST_FS RKHV_DS 0;
  mk_vmcs_field VMCS_HOST_GS RKHV_DS 0;
  mk_vmcs_field VMCS_HOST_TR RKHV_DS 0;
  mk_vmcs_field VMCS_HOST_FS_BASE 0 0;
  mk_vmcs_field VMCS_HOST_GS_BASE 0 0;
  mk_vmcs_field VMCS_HOST_TR_BASE 0 0;
  mk_vmcs_field VMCS_HOST_CR0 host_cr0 0;
  mk_vmcs_field VMCS_HOST_CR3 host_cr3 0;
  mk_vmcs_field VMCS_HOST_CR4 host_cr4 0;
  mk_vmcs_field VMCS_HOST_GDTR_BASE (tr_offset host_gdtr) 0;
  mk_vmcs_field VMCS_HOST_IDTR_BASE (tr_offset host_idtr) 0;
  mk_vmcs_field VMCS_HOST_RSP RKHV_STACK_TOP 0;
  mk_vmcs_field VMCS_HOST_RIP vmx_vmexit_address 0;
  mk_vmcs_field VMCS_HOST_IA32_SYSENTER_ESP 0 0;
  mk_vmcs_field VMCS_HOST_IA32_SYSENTER_EIP 0 0;
  mk_vmcs_field VMCS_HOST_IA32_EFER host_efer 0;
  mk_vmcs_field VMCS_GUEST_ES (gs_ds (guest_state config)) 0;
  mk_vmcs_field VMCS_GUEST_CS (gs_cs (guest_state config)) 0;
  mk_vmcs_field VMCS_GUEST_SS (gs_ds (guest_state config)) 0;
  mk_vmcs_field VMCS_GUEST_DS (gs_ds (guest_state config)) 0;
  mk_vmcs_field VMCS_GUEST_FS (gs_ds (guest_state config)) 0;
  mk_vmcs_field VMCS_GUEST_GS (gs_ds (guest_state config)) 0;
  mk_vmcs_field VMCS_GUEST_TR 0 0;
  mk_vmcs_field VMCS_GUEST_LDTR 0 0;
  mk_vmcs_field VMCS_GUEST_FS_BASE 0 0;
  mk_vmcs_field VMCS_GUEST_GS_BASE 0 0;
  mk_vmcs_field VMCS_GUEST_TR_BASE 0 0;
  mk_vmcs_field VMCS_GUEST_LDTR_BASE 0 0;
  mk_vmcs_field VMCS_GUEST_CS_BASE 0 0;
  mk_vmcs_field VMCS_GUEST_SS_BASE 0 0;
  mk_vmcs_field VMCS_GUEST_DS_BASE 0 0;
  mk_vmcs_field VMCS_GUEST_ES_BASE 0 0;
  mk_vmcs_field VMCS_GUEST_FS_LIMIT 0xffffffff 0;
  mk_vmcs_field VMCS_GUEST_GS_LIMIT 0xffffffff 0;
  mk_vmcs_field VMCS_GUEST_CS_LIMIT 0xffffffff 0;
  mk_vmcs_field VMCS_GUEST_SS_LIMIT 0xffffffff 0;
  mk_vmcs_field VMCS_GUEST_DS_LIMIT 0xffffffff 0;
  mk_vmcs_field VMCS_GUEST_ES_LIMIT 0xffffffff 0;
  mk_vmcs_field VMCS_GUEST_LDTR_LIMIT 0 0;
  mk_vmcs_field VMCS_GUEST_TR_LIMIT 0 0;
  mk_vmcs_field VMCS_GUEST_ES_ACCESS_RIGHTS guest_ds_access_right 0;
  mk_vmcs_field VMCS_GUEST_CS_ACCESS_RIGHTS guest_cs_access_right 0;
  mk_vmcs_field VMCS_GUEST_SS_ACCESS_RIGHTS guest_ds_access_right 0;
  mk_vmcs_field VMCS_GUEST_DS_ACCESS_RIGHTS guest_ds_access_right 0;
  mk_vmcs_field VMCS_GUEST_FS_ACCESS_RIGHTS guest_ds_access_right 0;
  mk_vmcs_field VMCS_GUEST_GS_ACCESS_RIGHTS guest_ds_access_right 0;
  mk_vmcs_field VMCS_GUEST_LDTR_ACCESS_RIGHTS VMCS_UNUSABLE_SEGMENT 0;
  mk_vmcs_field VMCS_GUEST_TR_ACCESS_RIGHTS
    (Z.lor (Z.lor GDT_SEGMENT_DESCRIPTOR_ACCESS_PRESENT GDT_SEGMENT_DESCRIPTOR_ACCESS_SYSTEM) GDT_SEGMENT_DESCRIPTOR_SYSTEM_TYPE_TSS_BUSY)
    0;
  mk_vmcs_field VMCS_GUEST_CR0 (gs_cr0 (guest_state config)) 0;
  mk_vmcs_field VMCS_GUEST_CR3 (gs_cr3 (guest_state config)) 0;
  mk_vmcs_field VMCS_GUEST_CR4 (gs_cr4 (guest_state config)) 0;
  mk_vmcs_field VMCS_GUEST_GDTR_BASE (tr_offset (gs_gdtr (guest_state config))) 0;
  mk_vmcs_field VMCS_GUEST_GDTR_LIMIT (tr_size (gs_gdtr (guest_state config))) 0;
  mk_vmcs_field VMCS_GUEST_IDTR_BASE (tr_offset (gs_idtr (guest_state config))) 0;
  mk_vmcs_field VMCS_GUEST_IDTR_LIMIT (tr_size (gs_idtr (guest_state config))) 0;
  mk_vmcs_field VMCS_GUEST_RSP (gs_rsp (guest_state config)) 0;
  mk_vmcs_field VMCS_GUEST_RIP (gs_rip (guest_state config)) 0;
  mk_vmcs_field VMCS_GUEST_RFLAGS RFLAGS_RESERVED 0;
  mk_vmcs_field VMCS_GUEST_IA32_SYSENTER_ESP 0 0;
  mk_vmcs_field VMCS_GUEST_IA32_SYSENTER_EIP 0 0;
  mk_vmcs_field VMCS_GUEST_IA32_SYSENTER_CS 0 0;
  mk_vmcs_field VMCS_GUEST_IA32_EFER (gs_ia32_efer (guest_state config)) 0;
  mk_vmcs_field VMCS_GUEST_DR7 0 0;
  mk_vmcs_field VMCS_GUEST_IA32_DEBUGCTL 0 0;
  mk_vmcs_field VMCS_GUEST_ACTIVITY_STATE 0 0;
  mk_vmcs_field VMCS_GUEST_INTERRUPTIBILITY_STATE 0 0;
  mk_vmcs_field VMCS_GUEST_PENDING_DEBUG_EXCEPTIONS 0 0;
  mk_vmcs_field VMCS_GUEST_VMCS_LINK_POINTER VMCS_INVALID_LINK_POINTER 0
].

(** The loop over the array. *)
Fixpoint vmx_write_fields (l : list vmcs_field) : M machine () :=
  match l with
  | [] => mret ()
  | f :: l =>
    value ← (if negb (field_allowed_msr f =? 0)
             then vmx_ensure_allowed_bits (field_encoding f) (field_allowed_msr f) (u32 (field_value f))
             else mret (field_value f));
    VMX_ASSERT (vmx_vmwrite (field_encoding f) value);;
    vmx_write_fields l
  end.

Definition vmx_create_initialized_vmcs (vm : Z) : M machine () :=
  v ← vm_get vm;
  if truthy (Z.land (vm_flags v) VM_T_FLAG_VMCS_INITIALIZED)
  then mpanic "Trying to reinitialize an already initialized VMCS" else
  vmcs_region ← vmx_get_free_vmcs_region;
  vm_modify vm (λ v, v <| vm_vmcs_region := vmcs_region |>);;
  VMX_ASSERT (vmx_vmclear vmcs_region);;
  VMX_ASSERT (vmx_vmptrld vmcs_region);;
  host_idtr ← interrupts_sidt;
  host_gdtr ← segments_sgdt;
  let config := vm_vmcs_config v in
  guest_ds_access_right ← vmx_read_segment_access_right_from_gdt (gs_ds (guest_state config))
                            (tr_offset (gs_gdtr (guest_state config)));
  guest_cs_access_right ← vmx_read_segment_access_right_from_gdt (gs_cs (guest_state config))
                            (tr_offset (gs_gdtr (guest_state config)));
  msr_bitmaps ← vmx_get_msr_bitmaps_page;
  host_cr0 ← cr0_read;
  host_cr3 ← cr3_read;
  host_cr4 ← cr4_read;
  host_efer ← rdmsr IA32_EFER;
  vmx_write_fields (default_vmcs_fields config msr_bitmaps host_cr0 host_cr3 host_cr4
    host_gdtr host_idtr host_efer guest_ds_access_right guest_cs_access_right);;
  vm_modify vm (λ v, v <| vm_flags := Z.lor (vm_flags v) VM_T_FLAG_VMCS_INITIALIZED |>).

End code.

(** * Specification *)

(** A control field [r]: a bit is set if it was asked for or has to be set, and may be
    set ("A.3 VM-Execution Controls" of the Intel manual). *)
Definition control_allowed (msr_value mask r : Z) : Prop :=
  0 ≤ r < 2 ^ 32 ∧
  ∀ i, 0 ≤ i < 32 → Z.testbit r i =
    Z.testbit msr_value (32 + i) && (Z.testbit mask i || Z.testbit msr_value i).

(** The registers that the code copies into the VMCS. *)
Definition hw_registers_same `{HW : Hardware} (c c' : hw_state) : Prop :=
  (∀ a, hw_rdmsr a c' = hw_rdmsr a c) ∧ hw_cr0 c' = hw_cr0 c ∧ hw_cr3 c' = hw_cr3 c ∧
  hw_cr4 c' = hw_cr4 c ∧ hw_sgdt c' = hw_sgdt c ∧ hw_sidt c' = hw_sidt c.

(** What a field ends up with. *)
Definition field_final `{HW : Hardware} (hw : hw_state) (f : vmcs_field) (r : Z) : Prop :=
  if field_allowed_msr f =? 0 then r = field_value f
  else control_allowed (hw_rdmsr (field_allowed_msr f) hw) (u32 (field_value f)) r.

(** The instructions that choose the current VMCS only do that. *)
Class VmcsLaws `{DI : DescriptorInstructions} {PF : PollFuel} {CON : Console} {VL : VmxLaws} : Prop := {
  vmptrst_vmptrld p c : fst (hw_vmptrld p c) = 0 → hw_vmptrst (snd (hw_vmptrld p c)) = (0, p);
  vmclear_registers p c : hw_registers_same c (snd (hw_vmclear p c));
  vmptrld_registers p c : hw_registers_same c (snd (hw_vmptrld p c));
  vmclear_console p : console_keeps (λ c, snd (hw_vmclear p c));
  vmptrld_console p : console_keeps (λ c, snd (hw_vmptrld p c));
  vmwrite_console f v : console_keeps (λ c, snd (hw_vmwrite f v c));
}.

Section fields.
Context `{VLS : VmcsLaws} {KI : KernelImage}.
Implicit Types (s : machine) (f : vmcs_field).

Lemma wp_vmx_ensure_allowed_bits encoding msr mask E (Q : Z → machine → Prop) s :
  console_inv s → 0 ≤ encoding < 2 ^ 64 → 0 ≤ msr < 2 ^ 64 → 0 ≤ mask < 2 ^ 32 →
  (∀ r s', control_allowed (hw_rdmsr msr (m_hw s)) mask r → console_frame s s' → console_inv s' → Q r s') →
  wp (vmx_ensure_allowed_bits encoding msr mask) E Q s.
Proof.
  intros Hcon He Hm Hmask HQ. unfold vmx_ensure_allowed_bits. wp_step. apply wp_rdmsr.
  set (v := hw_rdmsr msr (m_hw s)) in *. cbv zeta.
  pose proof (wrap_bound 32 (Z.land v 0xffffffff)) as Hzeros.
  pose proof (wrap_bound 32 (Z.shiftr v 32)) as Hones.
  set (zeros := u32 (Z.land v 0xffffffff)) in *. set (ones := u32 (Z.shiftr v 32)) in *.
  assert (control_allowed v mask (Z.land (Z.lor mask zeros) ones)) as Hr.
  { split.
    - assert (Z.land (Z.lor mask zeros) ones = Z.land (Z.lor mask zeros) ones mod 2 ^ 32) as ->; [|by apply Z.mod_pos_bound].
      rewrite <-Z.land_ones, <-Z.land_assoc, Z.land_ones by lia. rewrite (Z.mod_small ones) by lia. done.
    - intros i Hi. rewrite Z.land_spec, Z.lor_spec, andb_comm. unfold ones, zeros, wrap.
      rewrite !Z.mod_pow2_bits_low, Z.shiftr_spec, Z.land_spec by lia.
      change 0xffffffff with (Z.ones 32). rewrite Z.ones_spec_low, andb_true_r by lia.
      by rewrite (Z.add_comm i 32). }
  pose proof (proj1 Hr) as Hrb. set (r := Z.land (Z.lor mask zeros) ones) in *.
  wp_step. apply wp_LOG_line; [done|solve_log_ok|]. intros s1 Hf1 Hcon1. wp_step.
  destruct (Z.land mask ones =? mask); [wp_step; wp_step; by apply HQ|].
  apply wp_LOG_line; [done|solve_log_ok|]. intros s2 Hf2 Hcon2. wp_step. apply HQ; [done| |done].
  destruct Hf1 as [Hf1 Hs1], Hf2 as [Hf2 Hs2]. split; [by rewrite Hf2, Hf1|]. by etrans.
Qed.

Lemma wp_vmx_write_fields l E (Q : () → machine → Prop) s :
  console_inv s → NoDup (field_encoding <$> l) →
  Forall (λ f, 0 ≤ field_encoding f < 2 ^ 64 ∧ 0 ≤ field_allowed_msr f < 2 ^ 64) l →
  (∀ f v c, f ∈ l → fst (hw_vmwrite (field_encoding f) v c) = 0) →
  (∀ s', s' = (s <| m_serial_initialized := m_serial_initialized s' |>) <| m_hw := m_hw s' |> →
     console_inv s' →
     (∀ f, f ∈ l → ∃ r, hw_vmread (field_encoding f) (m_hw s') = (0, r) ∧ field_final (m_hw s) f r) →
     (∀ g, g ∉ field_encoding <$> l → hw_vmread g (m_hw s') = hw_vmread g (m_hw s)) →
     (∀ a, hw_rdmsr a (m_hw s') = hw_rdmsr a (m_hw s)) → hw_vmptrst (m_hw s') = hw_vmptrst (m_hw s) →
     Q () s') →
  wp (vmx_write_fields l) E Q s.
Proof.
  revert s Q. induction l as [|f l IH]; intros s Q Hcon Hnd Hb Hw HQ; cbn [vmx_write_fields].
  { wp_step. apply HQ; try done; [by destruct s|by intros f Hf%elem_of_nil]. }
  apply NoDup_cons in Hnd as [Hf Hnd]. apply Forall_cons in Hb as [[Hfe Hfm] Hb].
  wp_step.
  assert (∀ Q' : Z → machine → Prop, (∀ r s1, field_final (m_hw s) f r → console_frame s s1 → console_inv s1 → Q' r s1) →
    wp (if negb (field_allowed_msr f =? 0)
        then vmx_ensure_allowed_bits (field_encoding f) (field_allowed_msr f) (u32 (field_value f))
        else mret (field_value f)) E Q' s) as Hvalue.
  { intros Q' HQ'. unfold field_final in HQ'. destruct (field_allowed_msr f =? 0); cbn [negb].
    - wp_step. apply HQ'; [done| |done]. split; [by destruct s|done].
    - apply wp_vmx_ensure_allowed_bits; try done. by apply wrap_bound. }
  apply Hvalue. clear Hvalue. intros r s1 Hr [Heq1 (Hvm1 & Hrd1 & Hp1 & _)] Hcon1. wp_step.
  apply wp_vmwrite; [by apply Hw; left|]. apply IH; [by apply vmwrite_console|done|done| |].
  { intros g v c Hg. apply Hw. by right. }
  intros s' Heq Hcon' Hl Hother Hrd Hp. cbn in Hother, Hrd, Hp. apply HQ.
  - rewrite Heq. cbn. by rewrite Heq1.
  - done.
  - intros g [->|Hg]%elem_of_cons.
    + exists r. split; [|done]. rewrite Hother by done. by apply vmread_vmwrite_eq, Hw; left.
    + destruct (Hl g Hg) as (r' & Hr' & Hfin). exists r'. split; [done|]. revert Hfin.
      unfold field_final. cbn. destruct (field_allowed_msr g =? 0); [done|]. by rewrite rdmsr_vmwrite, Hrd1.
  - intros g Hg. apply not_elem_of_cons in Hg as [Hne Hg]. rewrite Hother by done.
    rewrite vmread_vmwrite_ne by done. apply Hvm1.
  - intros a. by rewrite Hrd, rdmsr_vmwrite, Hrd1.
  - by rewrite Hp, vmptrst_vmwrite, Hp1.
Qed.

End fields.

(** * The whole function *)

Section initialisation.
Context `{VLS : VmcsLaws} {KI : KernelImage}.
Implicit Types (s : machine).

(** The page of the MSR bitmaps may be a page that belongs to nobody. *)
Lemma vmm_wf_msr_bitmaps la lv s p :
  vmm_wf la lv s → page_unowned la lv p s → m_msr_bitmaps_page_valid s = false →
  vmm_wf la lv ((s <| m_msr_bitmaps_page := p |>) <| m_msr_bitmaps_page_valid := true |>).
Proof.
  intros [[[] ? ?] Haw ? ? Hpr ?] [_ Hun] Hinv. split;
    first [done|by split; apply Haw|by split; [split|..]|idtac].
  intros vm v q Hvm Hv Hq. cbn in Hv. pose proof (Hpr vm v q Hvm Hv Hq) as Hown. revert Hown.
  unfold owned_elsewhere. rewrite !orb_false_iff. intros [[? ?] Hx]. split_and!; [done|done|].
  unfold mm_page_used_by_vmx in *. cbn. destruct (m_vmxon_region_valid s && (q =? m_vmxon_region s)); [done|].
  cbn. destruct (Z.eqb_spec q p) as [->|]; [|done]. by destruct (Hun vm v Hvm Hv).
Qed.

Lemma vm_uses_page_uninitialized p q v :
  Z.land (vm_flags v) VM_T_FLAG_VMCS_INITIALIZED = 0 →
  vm_uses_page q (v <| vm_vmcs_region := p |>) = vm_uses_page q v.
Proof. intros Hf. unfold vm_uses_page. cbn. by rewrite Hf. Qed.

(** An update of a VM that keeps its pages and its place in the list. *)
Lemma vmm_wf_update_same la lv s vm v v' :
  vmm_wf la lv s → vm ∈ lv → m_vms s !! vm = Some v → vm_next v' = vm_next v →
  vm_tracked_pages v' = vm_tracked_pages v → vmm_wf la lv (s <| m_vms := <[vm := v']> (m_vms s) |>).
Proof.
  intros Hwf Hvm Hv Hn Ht. rewrite <-(set_m_arenas_id s) at 1.
  apply (vmm_wf_update la lv s vm v v' (m_arenas s)); [done|done|done|done| | |].
  - rewrite Ht. by apply (vw_tracked _ _ _ Hwf vm v).
  - rewrite Ht. by left.
  - rewrite set_m_arenas_id. apply Hwf.
Qed.

(** The values that the initialiser of the array reads, in the state [s]. *)
Definition initial_fields s (v : vm_t) (msr_bitmaps ds_access_right cs_access_right : Z) : list vmcs_field :=
  default_vmcs_fields (vm_vmcs_config v) msr_bitmaps (hw_cr0 (m_hw s)) (hw_cr3 (m_hw s)) (hw_cr4 (m_hw s))
    (hw_sgdt (m_hw s)) (hw_sidt (m_hw s)) (hw_rdmsr IA32_EFER (m_hw s)) ds_access_right cs_access_right.

Definition initial_field_encodings : list Z :=
  field_encoding <$> default_vmcs_fields
    (vm_vmcs_config zero_vm) 0 0 0 0 (mk_table_register 0 0) (mk_table_register 0 0) 0 0 0.

Lemma initial_field_encodings_eq s v b d c :
  field_encoding <$> initial_fields s v b d c = initial_field_encodings.
Proof. reflexivity. Qed.

Lemma initial_field_encodings_nodup : NoDup initial_field_encodings.
Proof. apply (bool_decide_unpack _). vm_compute. exact I. Qed.

Lemma initial_fields_bounds s v b d c :
  Forall (λ f, 0 ≤ field_encoding f < 2 ^ 64 ∧ 0 ≤ field_allowed_msr f < 2 ^ 64) (initial_fields s v b d c).
Proof.
  unfold initial_fields, default_vmcs_fields.
  repeat (apply Forall_cons; split; [cbn [field_encoding field_allowed_msr]; by split_and!|]). constructor.
Qed.

(** The processor accepts the addresses of pages and the fields of the array. *)
Definition vmcs_accepted : Prop :=
  (∀ p c, page_ok p → fst (hw_vmclear p c) = 0 ∧ fst (hw_vmptrld p c) = 0) ∧
  (∀ f v c, f ∈ initial_field_encodings → fst (hw_vmwrite f v c) = 0).

(** The access rights of a segment of the table of the hypervisor. *)
Definition access_right (gdt : list gdt_segment_descriptor_t) (selector : Z) : option Z :=
  d ← gdt !! Z.to_nat (Z.shiftr selector 3);
  Some (u32 (Z.lor (Z.shiftl (Z.land (sd_flags d) 0xf0) 8) (sd_access d))).

Lemma wp_vmx_read_segment_access_right selector r E (Q : Z → machine → Prop) s :
  access_right (m_GDT s) selector = Some r → Q r s →
  wp (vmx_read_segment_access_right_from_gdt selector GDT_address) E Q s.
Proof.
  unfold access_right. intros (d & Hd & [= <-])%bind_Some HQ.
  unfold vmx_read_segment_access_right_from_gdt, gdt_member. rewrite Z.eqb_refl. do 3 wp_step.
  rewrite Hd. do 4 wp_step. rewrite Hd. wp_step. by wp_step.
Qed.

(** What the function does. *)
Record vmcs_initialized (la lv : list Z) (vm : Z) (v : vm_t) (ds_right cs_right region : Z) s s' : Prop := {
  vi_region : page_ok region;
  vi_unowned : page_unowned la lv region s;
  vi_vm : m_vms s' = <[vm := (v <| vm_vmcs_region := region |>)
    <| vm_flags := Z.lor (vm_flags v) VM_T_FLAG_VMCS_INITIALIZED |>]> (m_vms s);
  vi_current : hw_vmptrst (m_hw s') = (0, region);
  vi_bitmaps_valid : m_msr_bitmaps_page_valid s' = true;
  vi_fields f : f ∈ initial_fields s v (m_msr_bitmaps_page s') ds_right cs_right →
    ∃ r, hw_vmread (field_encoding f) (m_hw s') = (0, r) ∧ field_final (m_hw s) f r;
  vi_wf : vmm_wf la lv s';
  vi_bitmaps_old : m_msr_bitmaps_page_valid s = true → m_msr_bitmaps_page s' = m_msr_bitmaps_page s ∧
    m_mem s' = store_le 4 (m_mem s) region (u32 (Z.land (hw_rdmsr IA32_VMX_BASIC (m_hw s)) 0x7fffffff));
  vi_bitmaps_new : m_msr_bitmaps_page_valid s = false → m_msr_bitmaps_page s' = region ∧
    ∀ a, region ≤ a < region + 2048 → load_byte (m_mem s') a = 0;
  vi_console : console_inv s';
  vi_eq : s' = s <| m_mem := m_mem s' |>
                 <| m_last_returned_region_index := m_last_returned_region_index s' |>
                 <| m_last_returned_page_index := m_last_returned_page_index s' |>
                 <| m_msr_bitmaps_page := m_msr_bitmaps_page s' |> <| m_msr_bitmaps_page_valid := true |>
                 <| m_vms := m_vms s' |>
                 <| m_serial_initialized := m_serial_initialized s' |> <| m_hw := m_hw s' |>;
  vi_mem a : ¬ (region ≤ a < region + PAGE_SIZE) → load_byte (m_mem s') a = load_byte (m_mem s) a;
  vi_msrs a : hw_rdmsr a (m_hw s') = hw_rdmsr a (m_hw s);
}.

Lemma wp_vmx_get_free_vmcs_region la lv E (Q : Z → machine → Prop) s :
  vmm_wf la lv s → E "OOM :("%string →
  (∀ c, let p := candidate_page s c in
     c ∈ mm_candidates s → page_ok p → page_in_use la lv p s = false → vmm_wf la lv (set_last_returned c s) →
     Q p ((set_last_returned c s) <| m_mem := store_le 4 (m_mem s) p
       (u32 (Z.land (hw_rdmsr IA32_VMX_BASIC (m_hw s)) 0x7fffffff)) |>)) →
  wp vmx_get_free_vmcs_region E Q s.
Proof.
  intros Hwf HE HQ. unfold vmx_get_free_vmcs_region, vmx_get_vmcs_revision_identifier. wp_step.
  eapply wp_mono; [apply mm_get_free_page_wp, Hwf|by intros msg [-> _]|].
  intros p s1 (c & Hc & -> & Hfree & Hok & -> & Hmm).
  wp_step. wp_step. apply wp_rdmsr. wp_step. wp_step. apply wp_store_page; [done|done|]. wp_step.
  apply HQ; [done|done|done|by apply vmm_wf_set_last_returned].
Qed.

(** The page of the bitmaps when the last page that was returned is still free. *)
Lemma wp_vmx_get_msr_bitmaps_page la lv c E (Q : Z → machine → Prop) s :
  let p := candidate_page s c in
  vmm_wf la lv s → c ∈ mm_candidates s → page_ok p → page_in_use la lv p s = false →
  m_last_returned_region_index s = fst c → m_last_returned_page_index s = snd c →
  (m_msr_bitmaps_page_valid s = true → Q (m_msr_bitmaps_page s) s) →
  (m_msr_bitmaps_page_valid s = false → ∀ m', (∀ a, p ≤ a < p + 2048 → load_byte m' a = 0) →
     (∀ a, ¬ (p ≤ a < p + PAGE_SIZE) → load_byte m' a = load_byte (m_mem s) a) →
     let s' := (((set_last_returned c s) <| m_msr_bitmaps_page := p |>)
                 <| m_msr_bitmaps_page_valid := true |>) <| m_mem := m' |> in
     vmm_wf la lv s' → Q p s') →
  wp vmx_get_msr_bitmaps_page E Q s.
Proof.
  intros p Hwf Hc Hok Hfree H1 H2 Hvalid Hnew. unfold vmx_get_msr_bitmaps_page. wp_step. wp_step.
  destruct (m_msr_bitmaps_page_valid s) eqn:Hb; [wp_step; by apply Hvalid|]. wp_step.
  eapply wp_eq_ok; [by eapply (mm_get_free_page_again la lv s c); [apply Hwf|..]|].
  wp_step. wp_step. wp_step. apply wp_vmx_msr_init_bitmaps; [done|]. intros m' Hm'. wp_step.
  apply Hnew; [done| | |].
  - intros a Ha. apply byte_bits_ext; [apply load_byte_bound|lia|]. intros i Hi.
    rewrite Hm', load_byte_msr_bitmaps_filled by done. rewrite decide_True by (fold p; lia).
    by rewrite Z.testbit_0_l.
  - unfold PAGE_SIZE. intros a Ha. apply byte_bits_ext; try apply load_byte_bound. intros i Hi. fold p in Ha.
    rewrite Hm', load_byte_msr_bitmaps_filled, existsb_slot_outside by (fold p; lia).
    rewrite !decide_False by (fold p; lia). by rewrite andb_true_r.
  - apply vmm_wf_mem, vmm_wf_msr_bitmaps; [by apply vmm_wf_set_last_returned| |done].
    exact (page_not_in_use_unowned la lv p s Hwf Hfree).
Qed.

(** The end of the function, from the reads of the control registers. *)
Lemma wp_vmcs_tail la lv vm v v1 ds_right cs_right region E (Q : () → machine → Prop) s s4 :
  vmcs_accepted → vm ∈ lv → v1 = v <| vm_vmcs_region := region |> →
  m_vms s4 = <[vm := v1]> (m_vms s) → vmm_wf la lv s4 → console_inv s4 →
  hw_registers_same (m_hw s) (m_hw s4) → hw_vmptrst (m_hw s4) = (0, region) →
  (∀ s', m_vms s' = <[vm := v1 <| vm_flags := Z.lor (vm_flags v) VM_T_FLAG_VMCS_INITIALIZED |>]> (m_vms s) →
     vmm_wf la lv s' → console_inv s' → hw_vmptrst (m_hw s') = (0, region) →
     (∀ f, f ∈ initial_fields s v (m_msr_bitmaps_page s4) ds_right cs_right →
        ∃ r, hw_vmread (field_encoding f) (m_hw s') = (0, r) ∧ field_final (m_hw s) f r) →
     s' = s4 <| m_vms := m_vms s' |>
             <| m_serial_initialized := m_serial_initialized s' |> <| m_hw := m_hw s' |> →
     (∀ a, hw_rdmsr a (m_hw s') = hw_rdmsr a (m_hw s)) → Q () s') →
  wp (vmx_write_fields (initial_fields s v (m_msr_bitmaps_page s4) ds_right cs_right);;
      vm_modify vm (λ v, v <| vm_flags := Z.lor (vm_flags v) VM_T_FLAG_VMCS_INITIALIZED |>)) E Q s4.
Proof.
  intros [_ Hwrite] Hvm -> Hvms Hwf Hcon (Hrd & _) Hcur HQ. wp_step.
  apply wp_vmx_write_fields; [done|rewrite initial_field_encodings_eq; apply initial_field_encodings_nodup
    |apply initial_fields_bounds| |].
  { intros f w c Hf. apply Hwrite. erewrite <-(initial_field_encodings_eq s v).
    by apply list_elem_of_fmap_2. }
  intros s5 Heq Hcon5 Hfields _ Hrd5 Hcur5.
  assert (m_vms s5 !! vm = Some (v <| vm_vmcs_region := region |>)) as Hv5
    by (rewrite Heq; cbn; rewrite Hvms; apply lookup_insert_eq).
  assert (vmm_wf la lv s5) as Hwf5.
  { by eapply vmm_wf_console. }
  eapply wp_vm_modify; [exact Hv5|]. apply HQ.
  - cbn. rewrite Heq. cbn. by rewrite Hvms, insert_insert_eq.
  - by apply (vmm_wf_update_same la lv s5 vm (v <| vm_vmcs_region := region |>)).
  - by eapply console_local; [| |exact Hcon5].
  - cbn. by rewrite Hcur5.
  - intros f Hf. destruct (Hfields f Hf) as (r & Hr & Hfin). exists r. split; [exact Hr|].
    revert Hfin. unfold field_final. destruct (field_allowed_msr f =? 0); [done|]. by rewrite Hrd.
  - cbn. by rewrite Heq.
  - intros a. cbn. by rewrite Hrd5.
Qed.

Lemma wp_vmx_create_initialized_vmcs la lv vm v ds_right cs_right E (Q : () → machine → Prop) s :
  vmm_wf la lv s → vm ∈ lv → m_vms s !! vm = Some v →
  Z.land (vm_flags v) VM_T_FLAG_VMCS_INITIALIZED = 0 → console_inv s → vmcs_accepted →
  tr_offset (gs_gdtr (guest_state (vm_vmcs_config v))) = GDT_address →
  access_right (m_GDT s) (gs_ds (guest_state (vm_vmcs_config v))) = Some ds_right →
  access_right (m_GDT s) (gs_cs (guest_state (vm_vmcs_config v))) = Some cs_right →
  E "OOM :("%string →
  (∀ region s', vmcs_initialized la lv vm v ds_right cs_right region s s' → Q () s') →
  wp (vmx_create_initialized_vmcs vm) E Q s.
Proof.
  intros Hwf Hvm Hv Hflag Hcon [Hacc Hwrite] Hgdt Hds Hcs HE HQ. unfold vmx_create_initialized_vmcs.
  wp_step. eapply wp_vm_get; [exact Hv|]. rewrite Hflag. change (truthy 0) with false. cbn iota.
  wp_step. eapply wp_vmx_get_free_vmcs_region; [done|done|]. intros c p Hc Hok Hfree Hwf1.
  set (s1 := (set_last_returned c s) <| m_mem := _ |>).
  wp_step. eapply (wp_vm_modify vm v); [exact Hv|]. set (v1 := v <| vm_vmcs_region := p |>).
  assert (vmm_wf la lv (s1 <| m_vms := <[vm := v1]> (m_vms s1) |>)) as Hwf2
    by (by apply (vmm_wf_update_same la lv s1 vm v v1); [apply vmm_wf_mem|..]).
  set (s2 := s1 <| m_vms := _ |>) in *.
  destruct (Hacc p (m_hw s2) Hok) as [Hclear _].
  wp_step. apply wp_vmclear; [done|].
  destruct (Hacc p (snd (hw_vmclear p (m_hw s2))) Hok) as [_ Hptrld].
  wp_step. apply wp_vmptrld; [done|]. 
  set (hw := snd (hw_vmptrld p (snd (hw_vmclear p (m_hw s2))))).
  match goal with |- wp ?m _ _ _ => change (wp m E Q (s2 <| m_hw := hw |>)) end.
  assert (hw_registers_same (m_hw s) hw) as Hregs.
  { destruct (vmclear_registers p (m_hw s)) as (A1 & A2 & A3 & A4 & A5 & A6).
    destruct (vmptrld_registers p (snd (hw_vmclear p (m_hw s)))) as (B1 & B2 & B3 & B4 & B5 & B6).
    split_and!; [intros x; by rewrite <-A1, <-B1|by rewrite <-A2, <-B2|by rewrite <-A3, <-B3
      |by rewrite <-A4, <-B4|by rewrite <-A5, <-B5|by rewrite <-A6, <-B6]. }
  assert (console_inv (s2 <| m_hw := hw |>)) as Hcon3.
  { apply (console_inv_keeps (λ c, snd (hw_vmptrld p (snd (hw_vmclear p c)))) s); [|done..].
    intros s' Hs'%(vmclear_console p). exact (vmptrld_console p _ Hs'). }
  assert (hw_vmptrst hw = (0, p)) as Hcur by by apply vmptrst_vmptrld.
  pose proof (vmm_wf_hw la lv s2 hw Hwf2) as Hwf3. set (s3 := s2 <| m_hw := hw |>) in *.
  unfold interrupts_sidt, segments_sgdt. repeat wp_step. cbv zeta. rewrite Hgdt.
  eapply wp_vmx_read_segment_access_right; [exact Hds|]. wp_step.
  eapply wp_vmx_read_segment_access_right; [exact Hcs|]. wp_step.
  assert (initial_fields s3 = initial_fields s) as Hinit.
  { destruct Hregs as (A1 & A2 & A3 & A4 & A5 & A6). unfold initial_fields. cbn [m_hw s3 upd set_m_hw].
    by rewrite A1, A2, A3, A4, A5, A6. }
  eapply (wp_vmx_get_msr_bitmaps_page la lv c); [exact Hwf3|exact Hc|exact Hok| |reflexivity|reflexivity| |].
  - unfold page_in_use. rewrite (some_vm_uses_page_insert lv _ s s3 vm v v1); [exact Hfree|exact Hv|reflexivity|].
    by apply vm_uses_page_uninitialized.
  - intros Hb. unfold cr0_read, cr3_read, cr4_read. repeat wp_step. apply wp_rdmsr.
    match goal with |- wp (vmx_write_fields ?l;; _) _ _ _ =>
      change l with (initial_fields s3 v (m_msr_bitmaps_page s3) ds_right cs_right) end.
    rewrite Hinit. apply (wp_vmcs_tail la lv vm v v1 _ _ p); [by split|done|done|reflexivity|done..|].
    intros s' H1 H2 H3 H4 H5 H6 H7. apply (HQ p). assert (m_mem s' = m_mem s3) as Hmem by (by rewrite H6).
    split; [done|by apply page_not_in_use_unowned|done|done|by rewrite H6|by rewrite H6|done| | |done| | |done].
    + intros _. split; [by rewrite H6|by rewrite Hmem].
    + intros Hb'. change (m_msr_bitmaps_page_valid s = true) in Hb. congruence.
    + rewrite H6. cbn. change (m_msr_bitmaps_page_valid s = true) in Hb. rewrite <-Hb. by destruct s.
    + intros a Ha. rewrite Hmem. apply (load_byte_store_other 4). unfold PAGE_SIZE in *. lia.
  - intros Hb m' Hm' Hm''. cbv zeta. intros Hwf4. unfold cr0_read, cr3_read, cr4_read. repeat wp_step. apply wp_rdmsr.
    set (s4 := (((set_last_returned c s3) <| m_msr_bitmaps_page := candidate_page s3 c |>)
                 <| m_msr_bitmaps_page_valid := true |>) <| m_mem := m' |>) in *.
    match goal with |- wp (vmx_write_fields ?l;; _) _ _ _ =>
      change l with (initial_fields s3 v (m_msr_bitmaps_page s4) ds_right cs_right) end.
    rewrite Hinit. apply (wp_vmcs_tail la lv vm v v1 _ _ p); [by split|done|done|reflexivity|done| |done|done|].
    { eapply console_local; [| |exact Hcon3]; reflexivity. }
    intros s' H1 H2 H3 H4 H5 H6 H7. apply (HQ p). assert (m_mem s' = m') as Hmem by (by rewrite H6).
    split; [done|by apply page_not_in_use_unowned|done|done|by rewrite H6|by rewrite H6|done| | |done| | |done].
    + intros Hb'. change (m_msr_bitmaps_page_valid s = false) in Hb. congruence.
    + intros _. split; [by rewrite H6|by rewrite Hmem].
    + rewrite H6. reflexivity.
    + intros a Ha. rewrite Hmem, Hm'' by exact Ha. apply (load_byte_store_other 4). unfold PAGE_SIZE in *. lia.
Qed.

End initialisation.

(** C10: [vmx_create_initialized_vmcs] makes a VMCS of the VM current and fills it: every one
    of the 92 fields reads back as its value of the array, and a control field has every bit
    that the processor requires, no bit that it forbids and all requested bits among the
    others. The region belongs to nobody else and is recorded, so that a second call is
    refused; the only failure is the lack of memory. *)
Theorem vmx_create_initialized_vmcs_correct `{VLS : VmcsLaws} {KI : KernelImage}
    la lv vm v ds_right cs_right (s : machine) :
  vmm_wf la lv s → vm ∈ lv → m_vms s !! vm = Some v →
  Z.land (vm_flags v) VM_T_FLAG_VMCS_INITIALIZED = 0 → console_inv s → vmcs_accepted →
  tr_offset (gs_gdtr (guest_state (vm_vmcs_config v))) = GDT_address →
  access_right (m_GDT s) (gs_ds (guest_state (vm_vmcs_config v))) = Some ds_right →
  access_right (m_GDT s) (gs_cs (guest_state (vm_vmcs_config v))) = Some cs_right →
  vmx_create_initialized_vmcs vm s = Panic "OOM :(" ∨
  ∃ s' region, vmx_create_initialized_vmcs vm s = Ok ((), s') ∧
    page_ok region ∧ page_unowned la lv region s ∧ page_in_use la lv region s' = true ∧
    vmm_wf la lv s' ∧ hw_vmptrst (m_hw s') = (0, region) ∧
    (∀ f, f ∈ initial_fields s v (m_msr_bitmaps_page s') ds_right cs_right →
       ∃ r, hw_vmread (field_encoding f) (m_hw s') = (0, r) ∧
         if field_allowed_msr f =? 0 then r = field_value f
         else control_allowed (hw_rdmsr (field_allowed_msr f) (m_hw s)) (u32 (field_value f)) r) ∧
    vmx_create_initialized_vmcs vm s' = Panic "Trying to reinitialize an already initialized VMCS".
Proof.
  intros Hwf Hvm Hv Hflag Hcon Hacc Hgdt Hds Hcs.
  assert (wp (vmx_create_initialized_vmcs vm) (λ msg, msg = "OOM :("%string) (λ _ s', ∃ region,
    vmcs_initialized la lv vm v ds_right cs_right region s s') s) as H.
  { eapply wp_vmx_create_initialized_vmcs; eauto. }
  unfold wp in H. destruct (vmx_create_initialized_vmcs vm s) as [[[] s']|msg| | |]; [right|left; by f_equal|done..].
  destruct H as (region & Hi). exists s', region. pose proof (vi_vm _ _ _ _ _ _ _ _ _ Hi) as Hvms.
  split_and!; try apply Hi; [done| |].
  - unfold page_in_use. replace (some_vm_uses_page lv region s') with true; [by rewrite !orb_true_r|].
    symmetry. apply existsb_exists. exists vm. split; [by apply list_elem_of_In|].
    rewrite Hvms, lookup_insert_eq. unfold vm_uses_page. cbn. rewrite Z.eqb_refl.
    rewrite Z.land_lor_distr_l. unfold VM_T_FLAG_VMCS_INITIALIZED in *. by rewrite Hflag.
  - unfold vmx_create_initialized_vmcs, vm_get. unfold mbind, M_bind, mget. cbn beta iota.
    rewrite Hvms, lookup_insert_eq. cbn. rewrite Z.land_lor_distr_l.
    unfold VM_T_FLAG_VMCS_INITIALIZED in *. by rewrite Hflag.
Qed.

(** C25: the first VMCS shares its page with the MSR bitmaps. The region that
    [vmx_get_free_vmcs_region] returns is not marked as used before
    [vmx_get_msr_bitmaps_page] asks for a page, so that it gets the same one: the field that
    points to the bitmaps points to the VMCS region itself, whose revision identifier is
    erased. Only when the bitmaps exist already are the two pages distinct, and the
    identifier is kept. *)
Theorem vmx_msr_bitmaps_overlap_vmcs `{VLS : VmcsLaws} {KI : KernelImage}
    la lv vm v ds_right cs_right (s s' : machine) :
  vmm_wf la lv s → vm ∈ lv → m_vms s !! vm = Some v →
  Z.land (vm_flags v) VM_T_FLAG_VMCS_INITIALIZED = 0 → console_inv s → vmcs_accepted →
  tr_offset (gs_gdtr (guest_state (vm_vmcs_config v))) = GDT_address →
  access_right (m_GDT s) (gs_ds (guest_state (vm_vmcs_config v))) = Some ds_right →
  access_right (m_GDT s) (gs_cs (guest_state (vm_vmcs_config v))) = Some cs_right →
  vmx_create_initialized_vmcs vm s = Ok ((), s') →
  let revision := hw_rdmsr IA32_VMX_BASIC (m_hw s) mod 2 ^ 31 in
  ∃ region bitmaps, hw_vmptrst (m_hw s') = (0, region) ∧
    hw_vmread VMCS_CF_ADDRESS_OF_MSR_BITMAPS (m_hw s') = (0, bitmaps) ∧
    bitmaps = m_msr_bitmaps_page s' ∧
    if m_msr_bitmaps_page_valid s
    then bitmaps ≠ region ∧ load_le 4 (m_mem s') region = revision
    else bitmaps = region ∧ load_le 4 (m_mem s') region = 0.
Proof.
  intros Hwf Hvm Hv Hflag Hcon Hacc Hgdt Hds Hcs Heq revision.
  assert (wp (vmx_create_initialized_vmcs vm) (λ msg, msg = "OOM :("%string) (λ _ s', ∃ region,
    vmcs_initialized la lv vm v ds_right cs_right region s s') s) as H.
  { eapply wp_vmx_create_initialized_vmcs; eauto. }
  apply (wp_ok_inv _ _ _ _ _ _ H) in Heq as (region & Hi).
  destruct (vi_fields _ _ _ _ _ _ _ _ _ Hi
    (mk_vmcs_field VMCS_CF_ADDRESS_OF_MSR_BITMAPS (m_msr_bitmaps_page s') 0)) as (r & Hr & Hfin).
  { unfold initial_fields, default_vmcs_fields. do 2 right. left. }
  unfold field_final in Hfin. cbn in Hfin. subst r. exists region, (m_msr_bitmaps_page s').
  split_and!; [apply Hi|exact Hr|done|]. destruct (m_msr_bitmaps_page_valid s) eqn:Hb.
  - destruct (vi_bitmaps_old _ _ _ _ _ _ _ _ _ Hi Hb) as [-> ->]. split.
    + intros Hbr. destruct (vi_unowned _ _ _ _ _ _ _ _ _ Hi) as [Hun _]. revert Hun.
      unfold owned_elsewhere, mm_page_used_by_vmx. rewrite Hb, Hbr, Z.eqb_refl. cbn.
      destruct (m_vmxon_region_valid s && _); by rewrite orb_true_r.
    + rewrite load_store_same. change 0x7fffffff with (Z.ones 31). rewrite Z.land_ones by lia.
      fold revision. rewrite wrap_small; [apply Z.mod_small|]; unfold revision;
        pose proof (Z.mod_pos_bound (hw_rdmsr IA32_VMX_BASIC (m_hw s)) (2 ^ 31)); lia.
  - destruct (vi_bitmaps_new _ _ _ _ _ _ _ _ _ Hi Hb) as [-> Hz]. split; [done|].
    cbn [load_le]. by rewrite !Hz by lia.
Qed.

#[export] Instance simple_vmcs_laws : VmcsLaws (HW := simple_hardware).
Proof. split; first [done|intros; by split_and!|intros ? s H; exact H|intros ? ? s H; exact H]. Qed.

(** A VM with the segments of the hypervisor, on a processor whose VMCS revision
    identifier is 4. *)
Definition vmcs_vm : vm_t :=
  zero_vm <| vm_vmcs_config := mk_vmcs_config 0x1000
    (mk_guest_state 0x7c00 0 0x80050033 0 0x2620 0x500 RKHV_CS RKHV_DS
       (mk_table_register 23 GDT_address) (mk_table_register 4095 IDT_address)) |>.
Definition vmcs_machine : machine :=
  (machine_with_vm 5 vmcs_vm) <| m_hw := initial_cpu <| cpu_msrs := {[IA32_VMX_BASIC := 4]} |> |>.

Lemma vmcs_machine_wf : vmm_wf [vm_arena] [vm_address] vmcs_machine.
Proof.
  apply vmm_wf_hw, machine_with_vm_wf; [done|done|split; constructor|].
  intros p Hp. by apply elem_of_nil in Hp.
Qed.

Lemma vmcs_machine_ok : is_ok (vmx_create_initialized_vmcs vm_address vmcs_machine) = true.
Proof. vm_compute. reflexivity. Qed.

Lemma vmcs_machine_facts :
  vm_address ∈ [vm_address] ∧ m_vms vmcs_machine !! vm_address = Some vmcs_vm ∧
  Z.land (vm_flags vmcs_vm) VM_T_FLAG_VMCS_INITIALIZED = 0 ∧ console_inv vmcs_machine ∧ vmcs_accepted ∧
  tr_offset (gs_gdtr (guest_state (vm_vmcs_config vmcs_vm))) = GDT_address ∧
  access_right (m_GDT vmcs_machine) (gs_ds (guest_state (vm_vmcs_config vmcs_vm))) = Some 0xC092 ∧
  access_right (m_GDT vmcs_machine) (gs_cs (guest_state (vm_vmcs_config vmcs_vm))) = Some 0xA09A ∧
  m_msr_bitmaps_page_valid vmcs_machine = false ∧ hw_rdmsr IA32_VMX_BASIC (m_hw vmcs_machine) = 4.
Proof.
  split; [by left|]. split.
  { assert (m_vms vmcs_machine = {[vm_address := vmcs_vm]}) as -> by reflexivity. apply lookup_singleton_eq. }
  split; [reflexivity|].
  split; [by intros [=]|]. split; [done|]. split_and!; reflexivity.
Qed.

(** Witness: the VMCS of the only VM. *)
Lemma vmx_create_initialized_vmcs_correct_witness :
  vmx_create_initialized_vmcs vm_address vmcs_machine = Panic "OOM :(" ∨
  ∃ s' region, vmx_create_initialized_vmcs vm_address vmcs_machine = Ok ((), s') ∧
    page_in_use [vm_arena] [vm_address] region s' = true.
Proof.
  destruct vmcs_machine_facts as (F1 & F2 & F3 & F4 & F5 & F6 & F7 & F8 & _).
  destruct (vmx_create_initialized_vmcs_correct _ _ _ _ _ _ _ vmcs_machine_wf F1 F2 F3 F4 F5 F6 F7 F8)
    as [H|(s' & region & H1 & _ & _ & H2 & _)]; [left; exact H|].
  right. exists s', region. split; [exact H1|exact H2].
Defined.

(** Witness: the first VMCS of the machine. *)
Lemma vmx_msr_bitmaps_overlap_vmcs_witness :
  ∃ s' region, vmx_create_initialized_vmcs vm_address vmcs_machine = Ok ((), s') ∧
    hw_vmptrst (m_hw s') = (0, region) ∧ m_msr_bitmaps_page s' = region ∧
    load_le 4 (m_mem s') region = 0 ∧ hw_rdmsr IA32_VMX_BASIC (m_hw vmcs_machine) = 4.
Proof.
  destruct (is_ok_inv _ vmcs_machine_ok) as ([] & s' & Heq).
  destruct vmcs_machine_facts as (F1 & F2 & F3 & F4 & F5 & F6 & F7 & F8 & F9 & F10).
  destruct (vmx_msr_bitmaps_overlap_vmcs _ _ _ _ _ _ _ _ vmcs_machine_wf F1 F2 F3 F4 F5 F6 F7 F8 Heq)
    as (region & bitmaps & H1 & _ & H2 & H3).
  rewrite F9 in H3. destruct H3 as [-> H3].
  exists s', region. split; [exact Heq|]. split; [exact H1|]. split; [exact (eq_sym H2)|].
  split; [exact H3|exact F10].
Defined.
