(* ===== verification/Setup.v ===== *)
(** Setup of the processor (hv/src/xsave.c, hv/src/vmm/vmx_init.c): the state components
    that XSAVE manages, and VMX operation. *)
From S2P Require Import Prelude Memory Machine Registers SimpleCpu PageUse PageAllocator Arena.
From S2P Require Import VmxInstructions VmxMsr VmTracking VmxPages Strings Console.

Definition CPUID_XSAVE_LEAF : Z := 0x0D.

Definition IA32_VMX_EPT_VPID_CAP_EXECUTE_ONLY : Z := Z.shiftl 1 0.
Definition IA32_VMX_EPT_VPID_CAP_PAGE_WALK_LENGTH_4 : Z := Z.shiftl 1 6.
Definition IA32_VMX_EPT_VPID_CAP_UNCACHEABLE : Z := Z.shiftl 1 8.
Definition IA32_VMX_EPT_VPID_CAP_WRITE_BACK : Z := Z.shiftl 1 14.
Definition IA32_VMX_EPT_VPID_CAP_2MIB_PAGES : Z := Z.shiftl 1 16.
Definition IA32_VMX_EPT_VPID_CAP_1GIB_PAGES : Z := Z.shiftl 1 17.

(** The instruction XGETBV. *)
Class XcrInstructions `{HW : Hardware} := { hw_xgetbv : hw_state → Z }.

Section code.
Context `{XI : XcrInstructions} {PF : PollFuel}.

(** * hv/src/xsave.c *)

Definition xsave_log_category : list Z := bytes_of_string "xsave".

Definition xsetbv (xcr0 : Z) : M machine () := mmodify (λ s, s <| m_hw := hw_xsetbv xcr0 (m_hw s) |>).
Definition xgetbv : M machine Z := mgets (λ s, hw_xgetbv (m_hw s)).
Definition cpuid (input_eax input_ecx : Z) : M machine (Z * Z * Z * Z) :=
  '(a, b, c, d) ← mgets (λ s, hw_cpuid input_eax input_ecx (m_hw s));
  mret (u32 a, u32 b, u32 c, u32 d).

Definition xsave_setup : M machine () :=
  cr4 ← cr4_read;
  cr4_write (Z.lor (Z.lor cr4 CR4_OSFXSR) CR4_OSXSAVE);;
  '(accepted_xcr0_low, _, maximum_xsave_area_size, accepted_xcr0_high) ← cpuid CPUID_XSAVE_LEAF 0;
  let xcr0 := Z.lor (Z.shiftl accepted_xcr0_high 32) accepted_xcr0_low in
  mmodify (λ s, s <| m_xsave_host_xcr0 := xcr0 |>);;
  xsetbv xcr0;;
  '(_, current_xsave_area_size, _, _) ← cpuid CPUID_XSAVE_LEAF 0;
  if negb (maximum_xsave_area_size =? current_xsave_area_size)
  then mpanic "Unexpected value for CPUID.(EAX=0DH,ECX=0).EBX after setting XCR0" else
  mmodify (λ s, s <| m_xsave_area_size := maximum_xsave_area_size |>);;
  v ← xgetbv;
  LOG xsave_log_category (bytes_of_string "xsetbv done with XCR0 : %zxpq") [ArgInt v];;
  size ← mgets m_xsave_area_size;
  LOG xsave_log_category (bytes_of_string "XSAVE area is %zu bytes long") [ArgInt size].

(** * hv/src/vmm/vmx_init.c *)

Definition vmx_init_log_category : list Z := bytes_of_string "vmx".

Definition vmx_setup : M machine () :=
  cr4 ← cr4_read;
  cr4_write (Z.lor cr4 CR4_VMXE);;
  cr0_fixed0 ← rdmsr IA32_VMX_CR0_FIXED0;
  cr0_fixed1 ← rdmsr IA32_VMX_CR0_FIXED1;
  cr0 ← cr0_read;
  LOG vmx_init_log_category (bytes_of_string "IA32_VMX_CR0_FIXED : %zxpq:%zxpq / cr0 : %zxpq")
    [ArgInt cr0_fixed0; ArgInt cr0_fixed1; ArgInt cr0];;
  cr4_fixed0 ← rdmsr IA32_VMX_CR4_FIXED0;
  cr4_fixed1 ← rdmsr IA32_VMX_CR4_FIXED1;
  cr4 ← cr4_read;
  LOG vmx_init_log_category (bytes_of_string "IA32_VMX_CR4_FIXED : %zxpq:%zxpq / cr4 : %zxpq")
    [ArgInt cr4_fixed0; ArgInt cr4_fixed1; ArgInt cr4];;
  ia32_vmx_basic ← rdmsr IA32_VMX_BASIC;
  LOG vmx_init_log_category (bytes_of_string "IA32_VMX_BASIC : %zxpq") [ArgInt ia32_vmx_basic];;
  if PAGE_SIZE <? Z.land (Z.shiftr ia32_vmx_basic 32) 0x1fff
  then mpanic "Invalid VMCS region size in IA32_VMX_BASIC" else
  ia32_vmx_ept_vpid_cap ← rdmsr IA32_VMX_EPT_VPID_CAP;
  LOG vmx_init_log_category (bytes_of_string "IA32_VMX_EPT_VPID_CAP : %zxpq") [ArgInt ia32_vmx_ept_vpid_cap];;
  if negb (truthy (Z.land ia32_vmx_ept_vpid_cap IA32_VMX_EPT_VPID_CAP_PAGE_WALK_LENGTH_4))
  then mpanic "EPT Page-walk length of 4 unsupported" else
  if negb (truthy (Z.land ia32_vmx_ept_vpid_cap IA32_VMX_EPT_VPID_CAP_WRITE_BACK))
  then mpanic "EPT paging-structure of memory type write-back unsupported" else
  (if negb (truthy (Z.land ia32_vmx_ept_vpid_cap IA32_VMX_EPT_VPID_CAP_2MIB_PAGES))
   then LOG vmx_init_log_category (bytes_of_string "WARNING : 2MiB EPT pages unsupported") [] else mret ());;
  (if negb (truthy (Z.land ia32_vmx_ept_vpid_cap IA32_VMX_EPT_VPID_CAP_1GIB_PAGES))
   then LOG vmx_init_log_category (bytes_of_string "WARNING : 1GiB EPT pages unsupported") [] else mret ());;
  vmxon_region ← vmx_get_vmxon_region;
  VMX_ASSERT (vmx_vmxon vmxon_region);;
  LOG vmx_init_log_category (bytes_of_string "vmxon done with VMXON region @ %p") [ArgInt vmxon_region].

End code.

(** * Specification *)

(** Why VMX cannot be used, in the order of the checks: a VMCS region larger than a page,
    no 4-level EPT, no write-back EPT. *)
Definition vmx_unsupported `{HW : Hardware} (hw : hw_state) : option string :=
  if PAGE_SIZE <? (hw_rdmsr IA32_VMX_BASIC hw / 2 ^ 32) mod 2 ^ 13
  then Some "Invalid VMCS region size in IA32_VMX_BASIC"%string
  else if negb (Z.testbit (hw_rdmsr IA32_VMX_EPT_VPID_CAP hw) 6)
  then Some "EPT Page-walk length of 4 unsupported"%string
  else if negb (Z.testbit (hw_rdmsr IA32_VMX_EPT_VPID_CAP hw) 14)
  then Some "EPT paging-structure of memory type write-back unsupported"%string
  else None.

(** CR4 and XCR0 read as they were written; the values of registers have 64 bits. *)
Class SetupLaws `{XI : XcrInstructions} {PF : PollFuel} {CON : Console} : Prop := {
  cr4_cr4_write v hw : hw_cr4 (hw_cr4_write v hw) = v;
  cr0_cr4_write v hw : hw_cr0 (hw_cr4_write v hw) = hw_cr0 hw;
  rdmsr_cr4_write a v hw : hw_rdmsr a (hw_cr4_write v hw) = hw_rdmsr a hw;
  xgetbv_xsetbv v hw : hw_xgetbv (hw_xsetbv v hw) = v;
  cr4_xsetbv v hw : hw_cr4 (hw_xsetbv v hw) = hw_cr4 hw;
  cr4_write_console v : console_keeps (hw_cr4_write v);
  xsetbv_console v : console_keeps (hw_xsetbv v);
  vmxon_console p : console_keeps (λ hw, snd (hw_vmxon p hw));
}.
Definition registers_64 `{HW : Hardware} (hw : hw_state) : Prop :=
  (∀ a, 0 ≤ hw_rdmsr a hw < 2 ^ 64) ∧ 0 ≤ hw_cr0 hw < 2 ^ 64 ∧ 0 ≤ hw_cr4 hw < 2 ^ 64.

Section proofs.
Context `{SL : SetupLaws}.
Implicit Types (s : machine).

(** The VMXON region may be a page that belongs to nobody. *)
Lemma vmm_wf_vmxon_region la lv s p :
  vmm_wf la lv s → page_unowned la lv p s → m_vmxon_region_valid s = false →
  vmm_wf la lv ((s <| m_vmxon_region := p |>) <| m_vmxon_region_valid := true |>).
Proof.
  intros [[[] ? ?] Haw ? ? Hpr ?] [_ Hun] Hinv. split;
    first [done|by split; apply Haw|by split; [split|..]|idtac].
  intros vm v q Hvm Hv Hq. cbn in Hv. pose proof (Hpr vm v q Hvm Hv Hq) as Hown. revert Hown.
  unfold owned_elsewhere. rewrite !orb_false_iff. intros [[? ?] Hx]. split_and!; [done|done|].
  unfold mm_page_used_by_vmx in *. rewrite Hinv in Hx. cbn in *.
  destruct (Z.eqb_spec q p) as [->|]; [by destruct (Hun vm v Hvm Hv)|done].
Qed.

Lemma wp_vmx_get_vmxon_region la lv E (Q : Z → machine → Prop) s :
  vmm_wf la lv s → m_vmxon_region_valid s = false → E "OOM :("%string →
  (∀ p c, page_ok p → page_unowned la lv p s →
     let s' := (((set_last_returned c s) <| m_vmxon_region := p |>) <| m_vmxon_region_valid := true |>)
       <| m_mem := store_le 4 (m_mem s) p (u32 (Z.land (hw_rdmsr IA32_VMX_BASIC (m_hw s)) 0x7fffffff)) |> in
     vmm_wf la lv s' → Q p s') →
  wp vmx_get_vmxon_region E Q s.
Proof.
  intros Hwf Hinv HE HQ. unfold vmx_get_vmxon_region, vmx_get_vmcs_revision_identifier. wp_step. wp_step.
  rewrite Hinv. wp_step. eapply wp_mm_get_free_page; [done..|]. intros p c Hok Hun _ _ Hwf'.
  wp_step. wp_step. wp_step. wp_step. apply wp_rdmsr. wp_step. wp_step.
  apply wp_store_page; [done|done|]. wp_step. apply (HQ p c); [done|done|].
  apply (vmm_wf_mem la lv (((set_last_returned c s) <| m_vmxon_region := p |>) <| m_vmxon_region_valid := true |>)).
  by apply vmm_wf_vmxon_region.
Qed.

(** A log line about registers. *)
Lemma wp_LOG_hw_frame category fmt args E (Q : () → machine → Prop) s hw0 :
  console_inv s → log_ok category fmt args → hw_same hw0 (m_hw s) →
  (∀ s', s' = (s <| m_serial_initialized := m_serial_initialized s' |>) <| m_hw := m_hw s' |> →
     hw_same hw0 (m_hw s') → console_inv s' → Q () s') → wp (LOG category fmt args) E Q s.
Proof.
  intros Hcon Hlog Hsame HQ. apply wp_LOG_line; [done|done|]. intros s' [Heq Hs] Hcon'.
  apply HQ; [done|by etrans|done].
Qed.

Lemma vmx_unsupported_eq hw :
  vmx_unsupported hw =
  if PAGE_SIZE <? Z.land (Z.shiftr (hw_rdmsr IA32_VMX_BASIC hw) 32) 0x1fff
  then Some "Invalid VMCS region size in IA32_VMX_BASIC"%string
  else if negb (truthy (Z.land (hw_rdmsr IA32_VMX_EPT_VPID_CAP hw) IA32_VMX_EPT_VPID_CAP_PAGE_WALK_LENGTH_4))
  then Some "EPT Page-walk length of 4 unsupported"%string
  else if negb (truthy (Z.land (hw_rdmsr IA32_VMX_EPT_VPID_CAP hw) IA32_VMX_EPT_VPID_CAP_WRITE_BACK))
  then Some "EPT paging-structure of memory type write-back unsupported"%string
  else None.
Proof.
  unfold vmx_unsupported. change 0x1fff with (Z.ones 13). rewrite Z.land_ones, Z.shiftr_div_pow2 by lia.
  change IA32_VMX_EPT_VPID_CAP_PAGE_WALK_LENGTH_4 with (2 ^ 6). change IA32_VMX_EPT_VPID_CAP_WRITE_BACK with (2 ^ 14).
  by rewrite !truthy_land_bit.
Qed.

(** What [vmx_setup] may change. *)
Record vmx_setup_frame (region : Z) s s' : Prop := {
  vs_eq : s' = s <| m_mem := m_mem s' |>
                 <| m_last_returned_region_index := m_last_returned_region_index s' |>
                 <| m_last_returned_page_index := m_last_returned_page_index s' |>
                 <| m_vmxon_region_valid := true |> <| m_vmxon_region := region |>
                 <| m_serial_initialized := m_serial_initialized s' |> <| m_hw := m_hw s' |>;
  vs_mem a : ¬ (region ≤ a < region + PAGE_SIZE) → load_byte (m_mem s') a = load_byte (m_mem s) a;
}.

Lemma wp_vmx_setup la lv s :
  vmm_wf la lv s → console_inv s → registers_64 (m_hw s) → m_vmxon_region_valid s = false →
  (∀ p hw, page_ok p → fst (hw_vmxon p hw) = 0) →
  wp vmx_setup (λ msg, match vmx_unsupported (m_hw s) with Some m => msg = m | None => msg = "OOM :("%string end)
    (λ _ s', vmx_unsupported (m_hw s) = None ∧ ∃ region hw,
       page_ok region ∧ page_unowned la lv region s ∧
       m_vmxon_region_valid s' = true ∧ m_vmxon_region s' = region ∧
       load_le 4 (m_mem s') region = hw_rdmsr IA32_VMX_BASIC (m_hw s) mod 2 ^ 31 ∧
       hw_same (hw_cr4_write (Z.lor (hw_cr4 (m_hw s)) CR4_VMXE) (m_hw s)) hw ∧
       hw_same (snd (hw_vmxon region hw)) (m_hw s') ∧
       vmm_wf la lv s' ∧ vmx_setup_frame region s s' ∧ console_inv s') s.
Proof.
  intros Hwf Hcon (Hr & Hr0 & Hr4) Hinv Hacc. rewrite vmx_unsupported_eq. unfold vmx_setup, cr4_read, cr4_write, cr0_read, rdmsr.
  set (cr4 := Z.lor (hw_cr4 (m_hw s)) CR4_VMXE). set (hw0 := hw_cr4_write cr4 (m_hw s)).
  assert (0 ≤ cr4 < 2 ^ 64) as Hcr4.
  { unfold cr4. rewrite <-(Z.mod_small (hw_cr4 (m_hw s)) (2 ^ 64)) by done.
    change CR4_VMXE with (CR4_VMXE mod 2 ^ 64). rewrite <-!Z.land_ones, <-Z.land_lor_distr_l, Z.land_ones by done.
    by apply Z.mod_pos_bound. }
  assert (∀ a, hw_rdmsr a hw0 = hw_rdmsr a (m_hw s)) as Hrd by (intros a; apply rdmsr_cr4_write).
  assert (hw_cr0 hw0 = hw_cr0 (m_hw s)) as Hcr0 by apply cr0_cr4_write.
  assert (hw_cr4 hw0 = cr4) as Hcr4' by apply cr4_cr4_write.
  assert (∀ a hw, hw_same hw0 hw → hw_rdmsr a hw = hw_rdmsr a (m_hw s) ∧ 0 ≤ hw_rdmsr a hw < 2 ^ 64) as Hmsr.
  { intros a hw (_ & Hs & _). by rewrite Hs, Hrd. }
  repeat wp_step. change (m_hw (s <| m_hw := _ |>)) with hw0.
  pose proof (Hmsr IA32_VMX_CR0_FIXED0 hw0 (reflexivity _)) as [_ ?].
  pose proof (Hmsr IA32_VMX_CR0_FIXED1 hw0 (reflexivity _)) as [_ ?].
  apply (wp_LOG_hw_frame _ _ _ _ _ _ hw0); [by apply cr4_write_console|rewrite Hcr0; solve_log_ok|done|].
  intros s1 Heq1 Hs1 Hcon1. repeat wp_step.
  pose proof (Hmsr IA32_VMX_CR4_FIXED0 _ Hs1) as [_ ?]. pose proof (Hmsr IA32_VMX_CR4_FIXED1 _ Hs1) as [_ ?].
  assert (hw_cr4 (m_hw s1) = cr4) as Hc1 by (destruct Hs1 as (_ & _ & _ & _ & _ & -> & _); done).
  apply (wp_LOG_hw_frame _ _ _ _ _ _ hw0); [done|rewrite Hc1; solve_log_ok|done|].
  intros s2 Heq2 Hs2 Hcon2. repeat wp_step.
  destruct (Hmsr IA32_VMX_BASIC _ Hs2) as [-> ?].
  apply (wp_LOG_hw_frame _ _ _ _ _ _ hw0); [done|solve_log_ok|done|]. intros s3 Heq3 Hs3 Hcon3.
  destruct (PAGE_SIZE <? _); [by apply wp_panic|]. repeat wp_step.
  destruct (Hmsr IA32_VMX_EPT_VPID_CAP _ Hs3) as [-> ?].
  apply (wp_LOG_hw_frame _ _ _ _ _ _ hw0); [done|solve_log_ok|done|]. intros s4 Heq4 Hs4 Hcon4.
  destruct (negb (truthy (Z.land _ IA32_VMX_EPT_VPID_CAP_PAGE_WALK_LENGTH_4))); [by apply wp_panic|].
  destruct (negb (truthy (Z.land _ IA32_VMX_EPT_VPID_CAP_WRITE_BACK))); [by apply wp_panic|].
  assert (∀ (b : bool) fmt (k : M machine ()) E Q s4, log_ok vmx_init_log_category fmt [] →
    hw_same hw0 (m_hw s4) → console_inv s4 →
    (∀ s5, s5 = (s4 <| m_serial_initialized := m_serial_initialized s5 |>) <| m_hw := m_hw s5 |> →
       hw_same hw0 (m_hw s5) → console_inv s5 → wp k E Q s5) →
    wp ((if b then LOG vmx_init_log_category fmt [] else mret ());; k) E Q s4) as Hwarn.
  { clear. intros b fmt k E Q s4 Hlog Hs4 Hcon4 HQ. wp_step. destruct b.
    - apply (wp_LOG_hw_frame _ _ _ _ _ _ hw0); [done|done|done|]. intros. by apply HQ.
    - wp_step. apply HQ; [by destruct s4|done|done]. }
  apply Hwarn; [solve_log_ok|done|done|]. intros s5 Heq5 Hs5 Hcon5.
  apply Hwarn; [solve_log_ok|done|done|]. intros s6 Heq6 Hs6 Hcon6. clear Hwarn.
  assert (s6 = (s <| m_serial_initialized := m_serial_initialized s6 |>) <| m_hw := m_hw s6 |>) as Heq.
  { rewrite Heq6, Heq5, Heq4, Heq3, Heq2, Heq1. reflexivity. }
  clear Heq1 Heq2 Heq3 Heq4 Heq5 Heq6. wp_step.
  eapply (wp_vmx_get_vmxon_region la lv); [|by rewrite Heq|done|].
  { by eapply vmm_wf_console. }
  intros region c Hok Hun s7 Hwf7. wp_step. apply wp_vmxon; [by apply Hacc|].
  apply wp_LOG_line.
  { apply (console_inv_keeps (λ hw, snd (hw_vmxon region hw)) s6); [apply vmxon_console|done..]. }
  { pose proof (proj2 Hok). solve_log_ok. }
  intros s8 [Heq8 Hs8] Hcon8. split; [done|]. exists region, (m_hw s6).
  assert (page_unowned la lv region s) as Hun' by (revert Hun; by rewrite Heq).
  split_and!; [done|done|by rewrite Heq8|by rewrite Heq8| |exact Hs6|done| | |done].
  - rewrite Heq8. change (m_mem _) with (store_le 4 (m_mem s6) region
      (u32 (Z.land (hw_rdmsr IA32_VMX_BASIC (m_hw s6)) 0x7fffffff))).
    destruct (Hmsr IA32_VMX_BASIC _ Hs6) as [-> _]. rewrite load_store_same.
    change 0x7fffffff with (Z.ones 31). rewrite Z.land_ones by lia.
    pose proof (Z.mod_pos_bound (hw_rdmsr IA32_VMX_BASIC (m_hw s)) (2 ^ 31)).
    rewrite wrap_small by lia. apply Z.mod_small. lia.
  - eapply vmm_wf_console; [exact Heq8|]. by apply vmm_wf_hw.
  - split.
    + rewrite Heq8. unfold s7. generalize (store_le 4 (m_mem s6) region (u32 (Z.land (hw_rdmsr IA32_VMX_BASIC (m_hw s6)) 0x7fffffff))).
      intros m. cbn -[PAGE_SIZE]. by rewrite Heq at 1.
    + intros a Ha. rewrite Heq8. etrans; [apply (load_byte_store_other 4); unfold PAGE_SIZE in *; lia|].
      by rewrite Heq.
Qed.

(** What [xsave_setup] makes of the processor. *)
Definition xsave_cr4 (hw : hw_state) : Z := Z.lor (Z.lor (hw_cr4 hw) CR4_OSFXSR) CR4_OSXSAVE.
Definition xsave_xcr0 (hw : hw_state) : Z :=
  let '(low, _, _, high) := hw_cpuid CPUID_XSAVE_LEAF 0 (hw_cr4_write (xsave_cr4 hw) hw) in
  Z.lor (Z.shiftl (u32 high) 32) (u32 low).
Definition xsave_maximum (hw : hw_state) : Z :=
  let '(_, _, maximum, _) := hw_cpuid CPUID_XSAVE_LEAF 0 (hw_cr4_write (xsave_cr4 hw) hw) in u32 maximum.
Definition xsave_hw (hw : hw_state) : hw_state := hw_xsetbv (xsave_xcr0 hw) (hw_cr4_write (xsave_cr4 hw) hw).
Definition xsave_current (hw : hw_state) : Z :=
  let '(_, current, _, _) := hw_cpuid CPUID_XSAVE_LEAF 0 (xsave_hw hw) in u32 current.

Lemma wp_xsave_setup E (Q : () → machine → Prop) s :
  console_inv s → 0 ≤ xsave_xcr0 (m_hw s) < 2 ^ 64 →
  (xsave_maximum (m_hw s) ≠ xsave_current (m_hw s) →
     E "Unexpected value for CPUID.(EAX=0DH,ECX=0).EBX after setting XCR0"%string) →
  (∀ s', xsave_maximum (m_hw s) = xsave_current (m_hw s) →
     s' = ((((s <| m_xsave_host_xcr0 := xsave_xcr0 (m_hw s) |>)
              <| m_xsave_area_size := xsave_maximum (m_hw s) |>)
              <| m_serial_initialized := m_serial_initialized s' |>) <| m_hw := m_hw s' |>) →
     hw_same (xsave_hw (m_hw s)) (m_hw s') → console_inv s' → Q () s') →
  wp xsave_setup E Q s.
Proof.
  intros Hcon Hx HE HQ. unfold xsave_setup, cpuid, cr4_read, cr4_write, xsetbv, xgetbv.
  unfold xsave_current, xsave_maximum, xsave_hw, xsave_xcr0 in *. set (cr4 := xsave_cr4 (m_hw s)) in *.
  repeat wp_step. change (m_hw (s <| m_hw := _ |>)) with (hw_cr4_write cr4 (m_hw s)).
  destruct (hw_cpuid CPUID_XSAVE_LEAF 0 (hw_cr4_write cr4 (m_hw s))) as [[[low b] maximum] high].
  repeat wp_step. cbv iota beta. repeat wp_step. set (xcr0 := Z.lor _ _) in *.
  match goal with |- context [hw_cpuid CPUID_XSAVE_LEAF 0 (m_hw ?s')] =>
    change (m_hw s') with (hw_xsetbv xcr0 (hw_cr4_write cr4 (m_hw s))) end.
  destruct (hw_cpuid CPUID_XSAVE_LEAF 0 (hw_xsetbv xcr0 _)) as [[[a current] c] d].
  repeat wp_step; [by apply HE, Z.eqb_neq, negb_true_iff|]. apply negb_false_iff, Z.eqb_eq in E0.
  assert (console_keeps (λ h, hw_xsetbv xcr0 (hw_cr4_write cr4 h))) as Hkeep.
  { intros s' Hs'%(cr4_write_console cr4). exact (xsetbv_console xcr0 _ Hs'). }
  match goal with |- context [hw_xgetbv (m_hw ?s')] => assert (hw_xgetbv (m_hw s') = xcr0) as -> by apply xgetbv_xsetbv end.
  apply wp_LOG_line; [by eapply (console_inv_keeps _ s)|solve_log_ok|]. intros s1 [Hs1 Hh1] Hcon1. repeat wp_step.
  assert (m_xsave_area_size s1 = u32 maximum) as -> by by rewrite Hs1.
  pose proof (wrap_bound 32 maximum). apply wp_LOG_line; [done|solve_log_ok|]. intros s2 [Hs2 Hh2] Hcon2.
  apply HQ; [done|by rewrite Hs2, Hs1|by etrans|done].
Qed.

End proofs.

(** C27: [vmx_setup] refuses exactly the processors that the EPT and VMCS code cannot use, with
    the message of the first reason; otherwise VMXON is executed with CR4.VMXE set, on a fresh
    page that belongs to nobody, starts with the revision identifier of the processor and is
    never given out again. The only other failure is the lack of memory. *)
Theorem vmx_setup_correct `{SL : SetupLaws} la lv (s : machine) :
  vmm_wf la lv s → console_inv s → registers_64 (m_hw s) → m_vmxon_region_valid s = false →
  (∀ p hw, page_ok p → fst (hw_vmxon p hw) = 0) →
  match vmx_unsupported (m_hw s) with
  | Some msg => vmx_setup s = Panic msg
  | None => vmx_setup s = Panic "OOM :(" ∨
    ∃ s' region hw, vmx_setup s = Ok ((), s') ∧ page_ok region ∧ page_unowned la lv region s ∧
      page_in_use la lv region s' = true ∧
      load_le 4 (m_mem s') region = hw_rdmsr IA32_VMX_BASIC (m_hw s) mod 2 ^ 31 ∧
      hw_cr4 hw = Z.lor (hw_cr4 (m_hw s)) CR4_VMXE ∧ hw_same (snd (hw_vmxon region hw)) (m_hw s') ∧
      vmm_wf la lv s' ∧ m_vms s' = m_vms s
  end.
Proof.
  intros Hwf Hcon Hr Hinv Hacc. pose proof (wp_vmx_setup la lv s Hwf Hcon Hr Hinv Hacc) as H.
  unfold wp in H. destruct (vmx_setup s) as [[[] s']|msg| | |]; [|by destruct (vmx_unsupported _); subst; auto|done..].
  destruct H as (-> & region & hw & H1 & H2 & H3 & H4 & H5 & H6 & H7 & H8 & [H9 _] & _). right.
  exists s', region, hw. split_and!; try done.
  - unfold page_in_use, mm_page_used_by_vmx. rewrite H3, H4, Z.eqb_refl. cbn. by rewrite orb_true_r.
  - destruct H6 as (_ & _ & _ & _ & _ & -> & _). apply cr4_cr4_write.
  - by rewrite H9.
Qed.

(** [xsave_setup] enables what the processor supports, or panics when the size of the area
    is not the one that it announced. *)
Theorem xsave_setup_correct `{SL : SetupLaws} (s : machine) :
  let cr4 := Z.lor (Z.lor (hw_cr4 (m_hw s)) CR4_OSFXSR) CR4_OSXSAVE in
  let '(low, _, maximum, high) := hw_cpuid CPUID_XSAVE_LEAF 0 (hw_cr4_write cr4 (m_hw s)) in
  let xcr0 := Z.lor (Z.shiftl (u32 high) 32) (u32 low) in
  let hw := hw_xsetbv xcr0 (hw_cr4_write cr4 (m_hw s)) in
  let '(_, current, _, _) := hw_cpuid CPUID_XSAVE_LEAF 0 hw in
  console_inv s → 0 ≤ xcr0 < 2 ^ 64 →
  if u32 maximum =? u32 current
  then ∃ s', xsave_setup s = Ok ((), s') ∧ hw_cr4 (m_hw s') = cr4 ∧
    m_xsave_host_xcr0 s' = xcr0 ∧ m_xsave_area_size s' = u32 maximum
  else xsave_setup s = Panic "Unexpected value for CPUID.(EAX=0DH,ECX=0).EBX after setting XCR0".
Proof.
  intros cr4. destruct (hw_cpuid CPUID_XSAVE_LEAF 0 (hw_cr4_write cr4 (m_hw s))) as [[[low b] maximum] high] eqn:H1.
  intros xcr0 hw. destruct (hw_cpuid CPUID_XSAVE_LEAF 0 hw) as [[[a current] c] d] eqn:H2.
  intros Hcon Hx.
  assert (xsave_xcr0 (m_hw s) = xcr0) as Exc by (unfold xsave_xcr0; change (xsave_cr4 (m_hw s)) with cr4; by rewrite H1).
  assert (xsave_hw (m_hw s) = hw) as Ehw by (unfold xsave_hw; by rewrite Exc).
  assert (xsave_maximum (m_hw s) = u32 maximum) as Emax by (unfold xsave_maximum; change (xsave_cr4 (m_hw s)) with cr4; by rewrite H1).
  assert (xsave_current (m_hw s) = u32 current) as Ecur by (unfold xsave_current; by rewrite Ehw, H2).
  assert (wp xsave_setup
    (λ msg, (u32 maximum =? u32 current) = false ∧
       msg = "Unexpected value for CPUID.(EAX=0DH,ECX=0).EBX after setting XCR0"%string)
    (λ _ s', (u32 maximum =? u32 current) = true ∧ hw_cr4 (m_hw s') = cr4 ∧
       m_xsave_host_xcr0 s' = xcr0 ∧ m_xsave_area_size s' = u32 maximum) s) as H.
  { apply wp_xsave_setup; [done|by rewrite Exc| |].
    - intros Hne. split; [|done]. apply Z.eqb_neq. by rewrite <-Emax, <-Ecur.
    - intros s' Heq Hs Hsame _. split_and!; [by apply Z.eqb_eq; rewrite <-Emax, <-Ecur| |by rewrite Hs..].
      destruct Hsame as (_ & _ & _ & _ & _ & -> & _). unfold xsave_hw. by rewrite cr4_xsetbv, cr4_cr4_write. }
  unfold wp in H. destruct (xsave_setup s) as [[[] s']|msg| | |]; [|by destruct H as [-> ->]|done..].
  destruct H as [-> H]. by exists s'.
Qed.

#[export] Instance simple_xcr_instructions : XcrInstructions (HW := simple_hardware) := {| hw_xgetbv := cpu_xcr0 |}.
#[export] Instance simple_setup_laws : SetupLaws (HW := simple_hardware).
Proof. split; first [done|intros ? s H; exact H]. Qed.

(** The revision identifier 4 and VMCS regions of 4096 bytes; EPT with [cap]. *)
Definition setup_machine (cap : Z) : machine :=
  (small_machine 5) <| m_hw := initial_cpu <| cpu_msrs :=
    <[IA32_VMX_BASIC := 0x100000000004]> {[IA32_VMX_EPT_VPID_CAP := cap]} |> |>.

Lemma setup_machine_registers cap : 0 ≤ cap < 2 ^ 64 → registers_64 (m_hw (setup_machine cap)).
Proof.
  intros Hcap. split; [|by split]. intros a.
  change (0 ≤ default 0 ((<[IA32_VMX_BASIC := 0x100000000004]>
    ({[IA32_VMX_EPT_VPID_CAP := cap]} : gmap Z Z)) !! a) < 2 ^ 64).
  destruct (decide (IA32_VMX_BASIC = a)) as [<-|H1]; [by rewrite lookup_insert_eq|].
  rewrite lookup_insert_ne by done.
  destruct (decide (IA32_VMX_EPT_VPID_CAP = a)) as [<-|H2]; [by rewrite lookup_singleton_eq|].
  by rewrite lookup_singleton_ne.
Qed.

(** Witness: a processor with 4-level write-back EPT, and one without write-back. *)
Lemma vmx_setup_correct_witness :
  (vmx_setup (setup_machine 0x34040) = Panic "OOM :(" ∨
   ∃ s' region, vmx_setup (setup_machine 0x34040) = Ok ((), s') ∧ load_le 4 (m_mem s') region = 4) ∧
  vmx_setup (setup_machine 0x40) = Panic "EPT paging-structure of memory type write-back unsupported".
Proof.
  assert (∀ cap, vmm_wf [] [] (setup_machine cap)) as Hwf.
  { assert (∀ x : Z, x ∈ [] → False) as Hnil by by intros x ?%elem_of_nil.
    intros cap. apply vmm_wf_hw. split; [by apply small_machine_wf|split|by left|..];
      try (intros; exfalso; eapply Hnil; eassumption). constructor. }
  assert (∀ cap, console_inv (setup_machine cap)) as Hcon by by intros cap [=].
  split.
  - destruct (vmx_setup_correct [] [] (setup_machine 0x34040) (Hwf _) (Hcon _)
      (setup_machine_registers 0x34040 ltac:(lia)) eq_refl (λ _ _ _, eq_refl))
      as [H|(s' & region & hw & H1 & _ & _ & _ & H2 & _)]; [left; exact H|right].
    exists s', region. split; [exact H1|exact H2].
  - exact (vmx_setup_correct [] [] (setup_machine 0x40) (Hwf _) (Hcon _)
      (setup_machine_registers 0x40 ltac:(lia)) eq_refl (λ _ _ _, eq_refl)).
Defined.
