(* ===== verification/GuestMemory.v ===== *)
(** Memory of a guest that is being set up: the pages [lo] to [hi - 1] of the guest are
    pages of the host ([guest_inv]); what a write into one of them keeps ([written]) and the
    content of a page as a function of the offset ([filled]), with the rules of the accesses. *)
From S2P Require Import Prelude Memory Machine Registers SimpleCpu PageUse PageAllocator Arena.
From S2P Require Import VmxInstructions VmTracking VmxPages VmxEpt VmxEptSpec EptCorrect.
From S2P Require Import Strings Console GuestPaging.

(** * Bytes *)

Lemma load_le_shift n m m' a b :
  (∀ i, 0 ≤ i < Z.of_nat n → load_byte m' (a + i) = load_byte m (b + i)) → load_le n m' a = load_le n m b.
Proof.
  revert a b. induction n as [|n IH]; intros a b H; cbn [load_le]; [done|]. f_equal.
  - specialize (H 0 ltac:(lia)). by rewrite !Z.add_0_r in H.
  - f_equal. apply IH. intros i Hi. rewrite <-!Z.add_assoc. apply H. lia.
Qed.

(** * The content of a page *)

Definition page_override (c : Z → Z) (off : Z) (n : nat) (w : Z) : Z → Z :=
  λ o, if decide (off ≤ o < off + Z.of_nat n) then (w / 256 ^ (o - off)) mod 256 else c o.
Fixpoint page_load (n : nat) (c : Z → Z) (off : Z) : Z :=
  match n with O => 0 | S n => c off + 256 * page_load n c (off + 1) end.
(** Fields that are written one after another: offset, size and value. *)
Definition page_fields (c : Z → Z) (fields : list (Z * nat * Z)) : Z → Z :=
  foldl (λ c '(off, n, w), page_override c off n w) c fields.
(** A string at an offset. *)
Fixpoint page_string (c : Z → Z) (off : Z) (str : list Z) : Z → Z :=
  match str with [] => c | x :: str => page_string (page_override c off 1 x) (off + 1) str end.

Lemma load_byte_store n m a w b :
  load_byte (store_le n m a w) b =
    if decide (a ≤ b < a + Z.of_nat n) then (w / 256 ^ (b - a)) mod 256 else load_byte m b.
Proof.
  case_decide as H; [|apply load_byte_store_other; lia].
  revert m a w H. induction n as [|n IH]; intros m a w H; [lia|]. cbn [store_le].
  destruct (decide (a = b)) as [->|Hne].
  - rewrite load_byte_store_other, load_byte_insert, decide_True by (done || lia).
    by rewrite Z.sub_diag, Z.div_1_r, Z.mod_mod by lia.
  - rewrite IH by lia. replace (b - a) with (1 + (b - (a + 1))) by lia.
    rewrite Z.pow_add_r, Z.pow_1_r, Z.div_div by (try apply Z.pow_pos_nonneg; lia). done.
Qed.

Lemma page_load_ext n c c' off :
  (∀ o, off ≤ o < off + Z.of_nat n → c o = c' o) → page_load n c off = page_load n c' off.
Proof.
  revert off. induction n as [|n IH]; intros off H; cbn [page_load]; [done|].
  rewrite (H off) by lia. f_equal. f_equal. apply IH. intros. apply H. lia.
Qed.
Lemma page_load_memory n m a c off :
  (∀ o, off ≤ o < off + Z.of_nat n → load_byte m (a + o) = c o) → load_le n m (a + off) = page_load n c off.
Proof.
  revert off. induction n as [|n IH]; intros off H; cbn [load_le page_load]; [done|].
  rewrite (H off) by lia. rewrite <-Z.add_assoc. f_equal. f_equal. apply IH. intros. apply H. lia.
Qed.
Lemma page_load_bound n c off : (∀ o, 0 ≤ c o < 256) → 0 ≤ page_load n c off < 256 ^ Z.of_nat n.
Proof.
  intros Hc. revert off. induction n as [|n IH]; intros off; cbn [page_load]; [done|].
  specialize (Hc off). specialize (IH (off + 1)). rewrite Nat2Z.inj_succ, Z.pow_succ_r by lia. lia.
Qed.
Lemma page_fields_bound c l : (∀ o, 0 ≤ c o < 256) → ∀ o, 0 ≤ page_fields c l o < 256.
Proof.
  revert c. induction l as [|[[off n] w] l IH]; intros c Hc; [done|]. apply IH. intros o.
  unfold page_override. case_decide; [by apply Z.mod_pos_bound|done].
Qed.

(** A load that no field overlaps. *)
Lemma page_load_fields n c l off :
  Forall (λ '(o, k), off + Z.of_nat n ≤ o ∨ o + Z.of_nat k ≤ off) (map fst l) →
  page_load n (page_fields c l) off = page_load n c off.
Proof.
  revert c. induction l as [|[[o k] w] l IH]; intros c; [done|]. cbn [map fst]. intros [Ho Hl]%Forall_cons.
  unfold page_fields in *. cbn [foldl]. rewrite IH by done. apply page_load_ext. intros o' Ho'.
  unfold page_override. rewrite decide_False; [done|lia].
Qed.

Lemma page_string_lookup c off str o :
  page_string c off str o =
    if decide (off ≤ o < off + Z.of_nat (length str)) then str !!! Z.to_nat (o - off) mod 256 else c o.
Proof.
  revert c off. induction str as [|x str IH]; intros c off; cbn [page_string length].
  - by rewrite decide_False by lia.
  - rewrite IH. unfold page_override. repeat case_decide; try lia; try done.
    + replace (Z.to_nat (o - off)) with (S (Z.to_nat (o - (off + 1)))) by lia. done.
    + replace o with off by lia. by rewrite Z.sub_diag, Z.div_1_r.
Qed.

Section windows.
Context `{HW : Hardware}.
Implicit Types (s : machine).

Lemma P2V_address a : 0 ≤ a < 2 ^ 41 → P2V_IDENTITY_MAP a = a + RKHV_PHYSICAL_MEMORY_BASE.
Proof. intros. unfold P2V_IDENTITY_MAP, RKHV_PHYSICAL_MEMORY_BASE. apply wrap_small. lia. Qed.

Lemma P2V_offset a i : 0 ≤ a < 2 ^ 41 → 0 ≤ i < 2 ^ 41 → u64 (P2V_IDENTITY_MAP a + i) = P2V_IDENTITY_MAP (a + i).
Proof.
  intros. rewrite !P2V_address by (lia || done).
  unfold RKHV_PHYSICAL_MEMORY_BASE. unfold P2V_IDENTITY_MAP, RKHV_PHYSICAL_MEMORY_BASE.
  rewrite !wrap_small by lia. lia.
Qed.

Lemma in_window_address a n : 0 ≤ a → 0 ≤ n → a + n ≤ 2 ^ 39 → in_window (P2V_IDENTITY_MAP a) n = true.
Proof.
  intros. rewrite P2V_address by lia. unfold in_window, IDENTITY_WINDOW_SIZE.
  apply andb_true_intro. split; apply Z.leb_le; lia.
Qed.

Lemma V2P_P2V_address a : 0 ≤ a < 2 ^ 41 → V2P_IDENTITY_MAP (P2V_IDENTITY_MAP a) = a.
Proof. intros. apply V2P_P2V. lia. Qed.

Lemma wp_load_address n a E Q s :
  0 ≤ a → a + Z.of_nat n ≤ 2 ^ 39 → Q (load_le n (m_mem s) a) s →
  wp (deref_load n (P2V_IDENTITY_MAP a)) E Q s.
Proof.
  intros Ha Hn HQ. unfold deref_load. wp_step. wp_step.
  rewrite in_window_address, V2P_P2V_address by lia. done.
Qed.

Lemma wp_store_address n a v E (Q : () → machine → Prop) s :
  0 ≤ a → a + Z.of_nat n ≤ 2 ^ 39 → Q () (s <| m_mem := store_le n (m_mem s) a v |>) →
  wp (deref_store n (P2V_IDENTITY_MAP a) v) E Q s.
Proof.
  intros Ha Hn HQ. unfold deref_store. wp_step. wp_step.
  rewrite in_window_address, V2P_P2V_address by lia. done.
Qed.

Lemma wp_memcpy_address dest src n E (Q : () → machine → Prop) s :
  0 ≤ dest → 0 ≤ src → 0 ≤ n → dest + n ≤ 2 ^ 39 → src + n ≤ 2 ^ 39 →
  Q () (s <| m_mem := memcpy (m_mem s) dest src n |>) →
  wp (memcpy_va (P2V_IDENTITY_MAP dest) (P2V_IDENTITY_MAP src) n) E Q s.
Proof.
  intros Hd Hs Hn Hdn Hsn HQ. unfold memcpy_va. wp_step. wp_step.
  rewrite !in_window_address, !V2P_P2V_address by lia. done.
Qed.

End windows.

Section guest_memory.
Context `{HW : Hardware} {PF : PollFuel} {CON : Console}.
Context (la lv : list Z) (vm : Z) (tbl : gmap (nat * Z) Z) (lo hi : Z) (host : Z → Z).
Implicit Types (s : machine) (v : vm_t) (m : mem).

(** The pages [lo] to [hi - 1] of the guest are memory, at the pages [host] of the host. *)
Record guest_inv v s : Prop := {
  gi_ept : ept_inv la lv vm v tbl s;
  gi_ram k : lo ≤ k < hi → guest_ram v (m_mem s) k (host k);
  gi_console : console_inv s;
}.

(** Two memories that only differ in the pages [l] to [h - 1] of the guest. *)
Definition written (l h : Z) m m' : Prop :=
  ∀ a, (∀ k, l ≤ k < h → ¬ (host k ≤ a < host k + PAGE_SIZE)) → load_byte m' a = load_byte m a.

Lemma written_refl l h m : written l h m m.
Proof. by intros a _. Qed.
Lemma written_trans l h m1 m2 m3 : written l h m1 m2 → written l h m2 m3 → written l h m1 m3.
Proof. intros H1 H2 a Ha. by rewrite H2, H1. Qed.
Lemma written_mono l h l' h' m m' : l' ≤ l → h ≤ h' → written l h m m' → written l' h' m m'.
Proof. intros Hl Hh H a Ha. apply H. intros k Hk. apply Ha. lia. Qed.
Lemma written_store n m k off w :
  0 ≤ off → off + Z.of_nat n ≤ PAGE_SIZE → written k (k + 1) m (store_le n m (host k + off) w).
Proof.
  intros Ho Hn a Ha. apply load_byte_store_other. specialize (Ha k ltac:(lia)). lia.
Qed.

Hypothesis (Hbound : 0 ≤ lo ∧ hi * PAGE_SIZE ≤ 2 ^ 48).
Hypothesis (Hinj : ∀ k k', lo ≤ k < hi → lo ≤ k' < hi → host k = host k' → k = k').

Lemma gi_page v s k : guest_inv v s → lo ≤ k < hi → page_ok (host k).
Proof. intros Hg Hk. by eapply gr_page, gi_ram. Qed.

(** Pages of the guest do not overlap. *)
Lemma guest_pages_disjoint v s k k' a :
  guest_inv v s → lo ≤ k < hi → lo ≤ k' < hi → k ≠ k' →
  host k ≤ a < host k + PAGE_SIZE → ¬ (host k' ≤ a < host k' + PAGE_SIZE).
Proof.
  intros Hg Hk Hk' Hne. apply page_ok_disjoint; [by eapply gi_page..|]. intros H. by apply Hne, Hinj.
Qed.

(** A page that was not written is read as before. *)
Lemma written_page v s l h m m' k o :
  guest_inv v s → written l h m m' → lo ≤ l → h ≤ hi → lo ≤ k < hi → ¬ (l ≤ k < h) → 0 ≤ o < PAGE_SIZE →
  load_byte m' (host k + o) = load_byte m (host k + o).
Proof.
  intros Hg Hw Hl Hh Hk Hne Ho. apply Hw. intros k' Hk'.
  apply (guest_pages_disjoint v s k k'); (done || lia).
Qed.

Lemma guest_inv_written v s m' l h :
  guest_inv v s → lo ≤ l → h ≤ hi → written l h (m_mem s) m' → guest_inv v (s <| m_mem := m' |>).
Proof.
  intros Hg Hl Hh Hw. destruct (ept_inv_guest_memory la lv vm v tbl s m' (gi_ept _ _ Hg)) as [Hi Ht].
  { intros res p a Hp Ha. apply Hw. intros k Hk. destruct (gi_ram _ _ Hg k ltac:(lia)) as [_ Hok Hne].
    apply (page_ok_disjoint p); [|done| |done].
    - destruct (gi_ept _ _ Hg) as [Hwf Hvm Hv _]. by eapply tracked_page_ok.
    - intros ->. by apply (Hne res). }
  split; [done| |].
  - intros k Hk. destruct (gi_ram _ _ Hg k Hk) as [H1 H2 H3]. split; [|done|done].
    change (m_mem (s <| m_mem := m' |>)) with m'. rewrite Ht; [done|]. unfold PAGE_SIZE in *. lia.
  - by eapply console_local; [..|apply Hg].
Qed.

Lemma guest_inv_vm v v' s :
  guest_inv v s → vm_next v' = vm_next v → vm_tracked_pages v' = vm_tracked_pages v →
  (∀ m, vm_ept_wf tbl v m → vm_ept_wf tbl v' m) → (∀ m gpa, ept_translate v' m gpa = ept_translate v m gpa) →
  guest_inv v' (s <| m_vms := <[vm := v']> (m_vms s) |>).
Proof.
  intros [[Hwf Hvm Hv He] Hram Hcon] Hn Ht Hew Htr. split.
  - split; [|done|apply lookup_insert_eq|by apply Hew].
    pose proof (vmm_wf_update la lv s vm v v' (m_arenas s)) as H. rewrite set_m_arenas_id in H.
    apply H; [done..| | |apply Hwf].
    + rewrite Ht. exact (vw_tracked _ _ _ Hwf vm v Hvm Hv).
    + rewrite Ht. by left.
  - intros k Hk. destruct (Hram k Hk) as [H1 H2 H3]. split; [by rewrite Htr|done|by rewrite Ht].
  - by eapply console_local; [..|exact Hcon].
Qed.

Lemma guest_inv_console v s s' :
  guest_inv v s → console_frame s s' → console_inv s' → guest_inv v s'.
Proof.
  intros [[Hwf Hvm Hv He] Hram Hcon] [Heq _] Hcon'. split; [|by rewrite Heq|done].
  split; [by eapply vmm_wf_console|done|by rewrite Heq|by rewrite Heq].
Qed.

(** ** Accesses *)

Lemma wp_guest_store n k off w v s E (Q : () → machine → Prop) :
  guest_inv v s → lo ≤ k < hi → 0 ≤ off → off + Z.of_nat n ≤ PAGE_SIZE →
  (guest_inv v (s <| m_mem := store_le n (m_mem s) (host k + off) w |>) →
   Q () (s <| m_mem := store_le n (m_mem s) (host k + off) w |>)) →
  wp (deref_store n (u64 (P2V_IDENTITY_MAP (host k) + off)) w) E Q s.
Proof.
  intros Hg Hk Ho Hn HQ. apply wp_store_at; [by eapply gi_page|done|done|]. apply HQ.
  apply (guest_inv_written v s _ k (k + 1)); [done|lia|lia|]. by apply written_store.
Qed.

Lemma wp_guest_load n k off v s E Q :
  guest_inv v s → lo ≤ k < hi → 0 ≤ off → off + Z.of_nat n ≤ PAGE_SIZE →
  Q (load_le n (m_mem s) (host k + off)) s →
  wp (deref_load n (u64 (P2V_IDENTITY_MAP (host k) + off))) E Q s.
Proof. intros Hg Hk Ho Hn HQ. apply wp_load_at; [by eapply gi_page|done|done|done]. Qed.

Lemma wp_guest_translate k v s E (Q : option Z → machine → Prop) :
  guest_inv v s → lo ≤ k < hi → Q (Some (host k)) s →
  wp (vmx_ept_get_host_physical_address vm (k * PAGE_SIZE)) E Q s.
Proof.
  intros Hg Hk HQ. eapply wp_vmx_ept_get_host_physical_address; [by apply Hg| |].
  - unfold PAGE_SIZE in *. lia.
  - by rewrite (gr_translate _ _ _ _ (gi_ram _ _ Hg k Hk)).
Qed.


(** ** A page that is written *)

(** The content of the page [k] is [c], and nothing else differs from [m0]. *)
Record filled v k (c : Z → Z) m0 (hw0 : hw_state) s : Prop := {
  fi_inv : guest_inv v s;
  fi_page o : 0 ≤ o < PAGE_SIZE → load_byte (m_mem s) (host k + o) = c o;
  fi_other : written k (k + 1) m0 (m_mem s);
  fi_hw : hw_same hw0 (m_hw s);
}.

Lemma filled_start v k s : guest_inv v s →
  filled v k (λ o, load_byte (m_mem s) (host k + o)) (m_mem s) (m_hw s) s.
Proof. intros Hg. by split. Qed.

Lemma filled_eq v k c c' m0 hw0 s : (∀ o, 0 ≤ o < PAGE_SIZE → c o = c' o) →
  filled v k c m0 hw0 s → filled v k c' m0 hw0 s.
Proof. intros Hc [H1 H2 H3 H4]. split; try done. intros o Ho. by rewrite H2, Hc. Qed.

Lemma filled_memory v k c c' m0 hw0 s m' :
  lo ≤ k < hi → filled v k c m0 hw0 s → written k (k + 1) (m_mem s) m' →
  (∀ o, 0 ≤ o < PAGE_SIZE → load_byte m' (host k + o) = c' o) →
  filled v k c' m0 hw0 (s <| m_mem := m' |>).
Proof.
  intros Hk [H1 H2 H3 H4] Hw Hc. split; [|done|by eapply written_trans|done].
  by apply (guest_inv_written v s _ k (k + 1)); [done|lia|lia|].
Qed.

Lemma wp_filled_store n off w v k c m0 hw0 s E (Q : () → machine → Prop) :
  filled v k c m0 hw0 s → lo ≤ k < hi → 0 ≤ off → off + Z.of_nat n ≤ PAGE_SIZE →
  (∀ s', filled v k (page_override c off n w) m0 hw0 s' → Q () s') →
  wp (deref_store n (u64 (P2V_IDENTITY_MAP (host k) + off)) w) E Q s.
Proof.
  intros Hf Hk Ho Hn HQ. apply wp_store_at; [by eapply gi_page, Hk; apply Hf|done|done|]. apply HQ.
  eapply filled_memory; [done|done|by apply written_store|].
  intros o Ho'. rewrite load_byte_store. unfold page_override. rewrite (fi_page _ _ _ _ _ _ Hf) by done.
  replace (host k + o - (host k + off)) with (o - off) by lia. repeat case_decide; (done || lia).
Qed.

Lemma wp_filled_load n off v k c m0 hw0 s E Q :
  filled v k c m0 hw0 s → lo ≤ k < hi → 0 ≤ off → off + Z.of_nat n ≤ PAGE_SIZE →
  Q (page_load n c off) s → wp (deref_load n (u64 (P2V_IDENTITY_MAP (host k) + off))) E Q s.
Proof.
  intros Hf Hk Ho Hn HQ. apply wp_load_at; [by eapply gi_page, Hk; apply Hf|done|done|].
  erewrite page_load_memory; [done|]. intros o Ho'. apply Hf. lia.
Qed.

Lemma wp_filled_get v k c m0 hw0 s E Q :
  filled v k c m0 hw0 s → Q v s → wp (vm_get vm) E Q s.
Proof. intros Hf HQ. eapply wp_vm_get; [apply Hf|done]. Qed.

Lemma wp_filled_LOG category fmt args v k c m0 hw0 s E (Q : () → machine → Prop) :
  filled v k c m0 hw0 s → log_ok category fmt args →
  (∀ s', filled v k c m0 hw0 s' → Q () s') → wp (LOG category fmt args) E Q s.
Proof.
  intros [H1 H2 H3 H4] Hlog HQ. eapply wp_LOG_line; [apply H1|done|]. intros s' [Heq Hhw] Hcon. apply HQ.
  assert (m_mem s' = m_mem s) as Hm by (by rewrite Heq).
  split; [|by rewrite Hm..|by etrans]. by eapply guest_inv_console.
Qed.

End guest_memory.

