(* ===== verification/LinuxLoader.v ===== *)
(** The loader of Linux guests (hv/src/vmm/guest_linux_loader.c and
    guest_linux_loader_defs.h): a bzImage is copied into the memory of the guest, with its
    zero page and its command line, and the VM is configured to start at the 64-bit entry
    point of the kernel. *)
From S2P Require Import Prelude Memory Machine Registers SimpleCpu PageUse PageAllocator Arena.
From S2P Require Import VmxInstructions VmTracking VmxPages VmxEpt VmxEptSpec EptCorrect.
From S2P Require Import Strings Console GuestPaging Descriptors GuestMemory.

(** * hv/src/vmm/guest_linux_loader_defs.h

    A packed structure is the list of the names and sizes of its members. *)
Definition struct_members : Type := list (string * Z).

Fixpoint offsetof (members : struct_members) (name : string) : Z :=
  match members with
  | [] => 0
  | (name', size) :: members => if String.eqb name name' then 0 else size + offsetof members name
  end.
Fixpoint member_size (members : struct_members) (name : string) : nat :=
  match members with
  | [] => 0
  | (name', size) :: members => if String.eqb name name' then Z.to_nat size else member_size members name
  end.
Definition sizeof (members : struct_members) : Z := foldr (λ m acc, snd m + acc) 0 members.

Definition linux_setup_header_t : struct_members := [
  ("setup_sects", 1); ("root_flags", 2); ("syssize", 4); ("ram_size", 2); ("vid_mode", 2);
  ("root_dev", 2); ("boot_flag", 2); ("jump", 2); ("header", 4); ("version", 2);
  ("realmode_swtch", 4); ("start_sys_seg", 2); ("kernel_version", 2); ("type_of_loader", 1);
  ("loadflags", 1); ("setup_move_size", 2); ("code32_start", 4); ("ramdisk_image", 4);
  ("ramdisk_size", 4); ("bootsect_kludge", 4); ("heap_end_ptr", 2); ("ext_loader_ver", 1);
  ("ext_loader_type", 1); ("cmd_line_ptr", 4); ("initrd_addr_max", 4); ("kernel_alignment", 4);
  ("relocatable_kernel", 1); ("min_alignment", 1); ("xloadflags", 2); ("cmdline_size", 4);
  ("hardware_subarch", 4); ("hardware_subarch_data", 8); ("payload_offset", 4);
  ("payload_length", 4); ("setup_data", 8); ("pref_address", 8); ("init_size", 4);
  ("handover_offset", 4); ("kernel_info_offset", 4)
]%string.

Definition linux_boot_e820_entry_t : struct_members := [("addr", 8); ("size", 8); ("type", 4)]%string.

Definition linux_boot_params_t : struct_members := [
  ("screen_info", 0x40); ("apm_bios_info", 0x14); ("_pad2", 4); ("tboot_addr", 8); ("ist_info", 0x10);
  ("acpi_rsdp_addr", 8); ("_pad3", 8); ("hd0_info", 16); ("hd1_info", 16); ("sys_desc_table", 0x10);
  ("olpc_ofw_header", 0x10); ("ext_ramdisk_image", 4); ("ext_ramdisk_size", 4); ("ext_cmd_line_ptr", 4);
  ("_pad4", 112); ("cc_blob_address", 4); ("edid_info", 0x80); ("efi_info", 0x20); ("alt_mem_k", 4);
  ("scratch", 4); ("e820_entries", 1); ("eddbuf_entries", 1); ("edd_mbr_sig_buf_entries", 1);
  ("kbd_status", 1); ("secure_boot", 1); ("_pad5", 2); ("sentinel", 1); ("_pad6", 1);
  ("hdr", sizeof linux_setup_header_t); ("_pad7", 0x290 - 0x1f1 - sizeof linux_setup_header_t);
  ("edd_mbr_sig_buffer", 4 * 16); ("e820_table", sizeof linux_boot_e820_entry_t * 128); ("_pad8", 48);
  ("eddbuf", 6 * 0x52); ("_pad9", 276)
]%string.

(** The assertion of the header, and the offsets of the comments. *)
Lemma linux_boot_params_t_size : sizeof linux_boot_params_t = PAGE_SIZE.
Proof. reflexivity. Qed.

(** [offsetof(linux_boot_params_t, hdr.member)] *)
Definition hdr_offset (member : string) : Z :=
  offsetof linux_boot_params_t "hdr" + offsetof linux_setup_header_t member.
Definition params_offset (member : string) : Z := offsetof linux_boot_params_t member.
(** [offsetof(linux_boot_params_t, e820_table[i].member)] *)
Definition e820_offset (i : Z) (member : string) : Z :=
  offsetof linux_boot_params_t "e820_table" + i * sizeof linux_boot_e820_entry_t +
  offsetof linux_boot_e820_entry_t member.

Section code.
Context `{HW : Hardware} {PF : PollFuel}.

(** * hv/src/vmm/guest_linux_loader.c *)

Definition linux_log_category : list Z := bytes_of_string "linux".

(** The members of a structure at the address [base]: [linux_boot_params_t] for the zero
    page; the image has its header at the same offset. *)
Definition hdr_load (base : Z) (member : string) : M machine Z :=
  deref_load (member_size linux_setup_header_t member) (u64 (base + hdr_offset member)).
Definition hdr_store (base : Z) (member : string) (v : Z) : M machine () :=
  deref_store (member_size linux_setup_header_t member) (u64 (base + hdr_offset member)) v.
Definition params_store (base : Z) (member : string) (v : Z) : M machine () :=
  deref_store (member_size linux_boot_params_t member) (u64 (base + params_offset member)) v.
Definition e820_store (base i : Z) (member : string) (v : Z) : M machine () :=
  deref_store (member_size linux_boot_e820_entry_t member) (u64 (base + e820_offset i member)) v.

(** A page at the end of guest memory: its address for the guest and for the host. *)
Definition linux_setup_page (vm : Z) (panic_message : string) : M machine (Z * Z) :=
  v ← vm_get vm;
  let guestpa := u64 (u64 (u64 (vm_guest_physical_pages v - vm_used_by_initial_setup v) - 1) * PAGE_SIZE) in
  guest_page_used vm;;
  hostpa ← vmx_ept_get_host_physical_address vm guestpa;
  match hostpa with
  | None => mpanic panic_message
  | Some hostpa => mret (guestpa, P2V_IDENTITY_MAP hostpa)
  end.

(** [memcpy] of the bytes of a string that is not in guest memory. *)
Fixpoint copy_string (dest : Z) (str : list Z) : M machine () :=
  match str with
  | [] => mret ()
  | c :: str => deref_store 1 dest c;; copy_string (u64 (dest + 1)) str
  end.

(** A string read from memory; beyond the known bytes, memory reads as zero. *)
Fixpoint load_string (fuel : nat) (va : Z) : M machine (list Z) :=
  match fuel with
  | O => mout_of_fuel
  | S fuel =>
    c ← deref_load 1 va;
    if c =? 0 then mret [] else l ← load_string fuel (u64 (va + 1)); mret (c :: l)
  end.

(** The checks of the header of the image. *)
Definition linux_check_header (image : Z) : M machine () :=
  header ← hdr_load image "header";
  if negb (header =? 0x53726448) then mpanic "Linux kernel magic `HdrS` not found" else
  xloadflags ← hdr_load image "xloadflags";
  if negb (Z.land xloadflags 1 =? 1)
  then mpanic "The loaded Linux kernel doesn't have a 64-bit entry point" else mret ().

(** The check of the size of guest memory. *)
Definition linux_check_memory (vm image_size : Z) : M machine () :=
  v ← vm_get vm;
  if (vm_guest_physical_pages v <=? 0x1000000 / PAGE_SIZE) ||
     (u64 (u64 (vm_guest_physical_pages v - vm_used_by_initial_setup v) - 0x1000000 / PAGE_SIZE)
        <=? image_size / PAGE_SIZE)
  then mpanic "Not enough guest physical memory to load the Linux kernel" else mret ().

Definition linux_write_cmdline (image cmdline_page_hostva : Z) (cmdline : list Z) : M machine () :=
  let cmdline_len := Z.of_nat (length cmdline) in
  cmdline_size ← hdr_load image "cmdline_size";
  if (cmdline_size <? cmdline_len) || (PAGE_SIZE <? cmdline_len)
  then mpanic "Linux cmdline is too long" else
  copy_string cmdline_page_hostva cmdline;;
  deref_store 1 (u64 (cmdline_page_hostva + cmdline_len)) 0.

(** The lines that are printed about the image. *)
Definition linux_log_image (vm image zeropage_hostva : Z) (cmdline : list Z) : M machine () :=
  kernel_version ← hdr_load zeropage_hostva "kernel_version";
  s ← mget;
  image_version_string ← load_string (S (size (m_mem s))) (u64 (image + 0x200 + kernel_version));
  v ← vm_get vm;
  LOG linux_log_category (bytes_of_string "Loading Linux kernel " ++ [0x22] ++ bytes_of_string "%s" ++ [0x22] ++
      bytes_of_string " in vm " ++ [0x22] ++ bytes_of_string "%s" ++ [0x22])
    [ArgString (Some image_version_string); ArgString (Some (vm_name v))];;
  LOG linux_log_category (bytes_of_string "With kernel command line " ++ [0x22] ++ bytes_of_string "%s" ++ [0x22])
    [ArgString (Some cmdline)];;
  version ← hdr_load zeropage_hostva "version";
  LOG linux_log_category (bytes_of_string "Using boot protocol version %u.%u")
    [ArgInt (Z.shiftr version 8); ArgInt (Z.land version 0xf)];;
  if version <? 0x020f
  then LOG linux_log_category (bytes_of_string "WARNING : The Linux guest loader was only tested with boot protocol 2.15 : compatibility is not guaranteed") []
  else mret ().

(** The members of the zero page that do not come from the image. *)
Definition linux_fill_zeropage (vm zeropage_hostva cmdline_page_guestpa : Z) : M machine () :=
  hdr_store zeropage_hostva "vid_mode" 0xFFFF;;
  hdr_store zeropage_hostva "type_of_loader" 0xFF;;
  loadflags ← hdr_load zeropage_hostva "loadflags";
  hdr_store zeropage_hostva "loadflags" (Z.land loadflags 0x1f);;
  hdr_store zeropage_hostva "heap_end_ptr" 0;;
  hdr_store zeropage_hostva "ramdisk_image" 0;;
  params_store zeropage_hostva "ext_ramdisk_image" 0;;
  hdr_store zeropage_hostva "ramdisk_size" 0;;
  params_store zeropage_hostva "ext_ramdisk_size" 0;;
  hdr_store zeropage_hostva "cmd_line_ptr" (Z.land cmdline_page_guestpa 0xffffffff);;
  params_store zeropage_hostva "ext_cmd_line_ptr" (u32 (Z.shiftr cmdline_page_guestpa 32));;
  params_store zeropage_hostva "e820_entries" 2;;
  e820_store zeropage_hostva 0 "addr" 0;;
  e820_store zeropage_hostva 0 "size" (640 * 1024);;
  e820_store zeropage_hostva 0 "type" 1;;
  e820_store zeropage_hostva 1 "addr" 0xa0000;;
  v ← vm_get vm;
  e820_store zeropage_hostva 1 "size" (u64 (u64 (vm_guest_physical_pages v - 0xa0) * PAGE_SIZE));;
  e820_store zeropage_hostva 1 "type" 1;;
  setup_sects ← hdr_load zeropage_hostva "setup_sects";
  if setup_sects =? 0 then hdr_store zeropage_hostva "setup_sects" 4 else mret ().

(** The body of the loop that copies the kernel. *)
Definition linux_load_page (vm image_protected_kernel image_protected_kernel_size
    image_protected_kernel_pages protected_kernel_guestpa page : Z) : M machine () :=
  let page_guestpa := u64 (protected_kernel_guestpa + u64 (page * PAGE_SIZE)) in
  page_hostpa ← vmx_ept_get_host_physical_address vm page_guestpa;
  match page_hostpa with
  | None => mpanic "Unable to walk EPT to get Linux protected kernel host physical address"
  | Some page_hostpa =>
    if (page <? u64 (image_protected_kernel_pages - 1)) || (image_protected_kernel_size mod PAGE_SIZE =? 0)
    then memcpy_va (P2V_IDENTITY_MAP page_hostpa) (u64 (image_protected_kernel + page * PAGE_SIZE)) PAGE_SIZE
    else memcpy_va (P2V_IDENTITY_MAP page_hostpa) (u64 (image_protected_kernel + page * PAGE_SIZE))
           (image_protected_kernel_size mod PAGE_SIZE)
  end.

(** The initial registers of the guest. *)
Definition linux_guest_state (vm protected_kernel_guestpa zeropage_guestpa : Z) : M machine () :=
  let set_guest_state f :=
    vm_modify vm (λ v, v <| vm_vmcs_config :=
      (vm_vmcs_config v) <| guest_state := f (guest_state (vm_vmcs_config v)) |> |>) in
  vm_modify vm (λ v, v <| vm_initial_gpr_state := (vm_initial_gpr_state v) <| reg_rsi := zeropage_guestpa |> |>);;
  set_guest_state (λ g, g <| gs_rip := u64 (protected_kernel_guestpa + 0x200) |>);;
  set_guest_state (λ g, g <| gs_rsp := 0 |>);;
  cr0 ← cr0_read; set_guest_state (λ g, g <| gs_cr0 := cr0 |>);;
  cr4 ← cr4_read; set_guest_state (λ g, g <| gs_cr4 := cr4 |>);;
  efer ← rdmsr IA32_EFER; set_guest_state (λ g, g <| gs_ia32_efer := efer |>);;
  set_guest_state (λ g, g <| gs_cs := RKHV_CS |>);;
  set_guest_state (λ g, g <| gs_ds := RKHV_DS |>);;
  gdtr ← segments_sgdt; set_guest_state (λ g, g <| gs_gdtr := gdtr |>);;
  idtr ← interrupts_sidt; set_guest_state (λ g, g <| gs_idtr := idtr |>).

Definition vm_guest_linux_loader (vm image image_size : Z) (cmdline : list Z) : M machine () :=
  v ← vm_get vm;
  if negb (gs_cr3 (guest_state (vm_vmcs_config v)) =? 0)
  then mpanic "Guest identity paging already setup before loading guest Linux kernel" else
  cr3 ← vm_guest_paging_setup_identity vm;
  vm_modify vm (λ v, v <| vm_vmcs_config :=
    (vm_vmcs_config v) <| guest_state := (guest_state (vm_vmcs_config v)) <| gs_cr3 := cr3 |> |> |>);;
  jump ← hdr_load image "jump";
  let image_setup_header_size := Z.shiftr jump 8 + offsetof linux_setup_header_t "jump" + 2 in
  linux_check_header image;;
  '(zeropage_guestpa, zeropage_hostva) ←
    linux_setup_page vm "Unable to walk EPT to get Linux zeropage host physical address";
  '(cmdline_page_guestpa, cmdline_page_hostva) ←
    linux_setup_page vm "Unable to walk EPT to get Linux cmdline page host physical address";
  linux_check_memory vm image_size;;
  linux_write_cmdline image cmdline_page_hostva cmdline;;
  memset_va zeropage_hostva 0 PAGE_SIZE;;
  memcpy_va (u64 (zeropage_hostva + hdr_offset "setup_sects")) (u64 (image + hdr_offset "setup_sects"))
    image_setup_header_size;;
  linux_log_image vm image zeropage_hostva cmdline;;
  linux_fill_zeropage vm zeropage_hostva cmdline_page_guestpa;;
  setup_sects ← hdr_load zeropage_hostva "setup_sects";
  let image_protected_kernel := u64 (image + (setup_sects + 1) * 512) in
  let image_protected_kernel_size := u64 (u64 (image + image_size) - image_protected_kernel) in
  let image_protected_kernel_pages := image_protected_kernel_size / PAGE_SIZE +
    (if image_protected_kernel_size mod PAGE_SIZE =? 0 then 0 else 1) in
  protected_kernel_guestpa ← hdr_load zeropage_hostva "pref_address";
  kernel_alignment ← hdr_load zeropage_hostva "kernel_alignment";
  if kernel_alignment =? 0 then mundefined else
  if negb (protected_kernel_guestpa mod kernel_alignment =? 0)
  then mpanic "Kernel pref_address isn't aligned according to kernel_alignment" else
  mfor image_protected_kernel_pages
    (linux_load_page vm image_protected_kernel image_protected_kernel_size image_protected_kernel_pages
       protected_kernel_guestpa);;
  linux_guest_state vm protected_kernel_guestpa zeropage_guestpa;;
  LOG linux_log_category (bytes_of_string "Linux kernel successfully loaded at guest physical address %zxpq with zeropage at %zxpq")
    [ArgInt protected_kernel_guestpa; ArgInt zeropage_guestpa].

End code.

(** The offsets that the comments and the boot protocol give. *)
Lemma linux_offsets :
  hdr_offset "setup_sects" = 0x1f1 ∧ hdr_offset "jump" = 0x200 ∧ hdr_offset "header" = 0x202 ∧
  hdr_offset "pref_address" = 0x258 ∧ params_offset "e820_entries" = 0x1e8 ∧ e820_offset 0 "addr" = 0x2d0.
Proof. split_and!; reflexivity. Qed.

(** Bytes that are not zero have been written. *)
Lemma nonzero_run m a (l : nat) :
  (∀ i, 0 ≤ i < Z.of_nat l → load_byte m (a + i) ≠ 0) → (l ≤ size m)%nat.
Proof.
  intros H. set (keys := (λ i : nat, a + Z.of_nat i) <$> seq 0 l).
  assert (NoDup keys) as Hnd.
  { apply NoDup_fmap_2_strong; [|apply NoDup_seq]. intros x y _ _ Heq. lia. }
  assert (length keys = l) as Hlen by (unfold keys; by rewrite length_fmap, length_seq).
  rewrite <-Hlen, <-size_dom, <-(size_list_to_set (C:=gset Z) keys) by done. apply subseteq_size.
  intros q Hq%elem_of_list_to_set. apply list_elem_of_fmap in Hq as (i & -> & Hi).
  apply elem_of_seq in Hi. specialize (H (Z.of_nat i) ltac:(lia)). apply elem_of_dom.
  unfold load_byte in H. destruct (m !! (a + Z.of_nat i)); [by eexists|done].
Qed.

(** * The image *)

(** The size of the header, the zero page after the copy of the header, and what the
    loader reads of it. *)
Definition image_header_size (m : mem) (ia : Z) : Z :=
  Z.shiftr (load_le 2 m (ia + hdr_offset "jump")) 8 + offsetof linux_setup_header_t "jump" + 2.
Definition image_zeropage (m : mem) (ia : Z) : Z → Z :=
  λ o, if decide (hdr_offset "setup_sects" ≤ o < hdr_offset "setup_sects" + image_header_size m ia)
       then load_byte m (ia + o) else 0.
Definition image_field (m : mem) (ia : Z) (member : string) : Z :=
  page_load (member_size linux_setup_header_t member) (image_zeropage m ia) (hdr_offset member).
Definition image_setup_sects (m : mem) (ia : Z) : Z :=
  let sects := image_field m ia "setup_sects" in if sects =? 0 then 4 else sects.
(** The address of the protected-mode kernel. *)
Definition image_kernel (m : mem) (ia : Z) : Z := ia + (image_setup_sects m ia + 1) * 512.

Definition image_kernel_size (m : mem) (ia image_size : Z) : Z := ia + image_size - image_kernel m ia.
Definition image_kernel_pages (m : mem) (ia image_size : Z) : Z :=
  let size := image_kernel_size m ia image_size in
  size / PAGE_SIZE + (if size mod PAGE_SIZE =? 0 then 0 else 1).

(** The fields of the zero page that the loader writes. *)
Definition hdr_field (member : string) (v : Z) : Z * nat * Z :=
  (hdr_offset member, member_size linux_setup_header_t member, v).
Definition params_field (member : string) (v : Z) : Z * nat * Z :=
  (params_offset member, member_size linux_boot_params_t member, v).
Definition e820_field (i : Z) (member : string) (v : Z) : Z * nat * Z :=
  (e820_offset i member, member_size linux_boot_e820_entry_t member, v).

Definition linux_written_fields (loadflags cmdline_ptr pages : Z) : list (Z * nat * Z) := [
  hdr_field "vid_mode" 0xffff; hdr_field "type_of_loader" 0xff;
  hdr_field "loadflags" (Z.land loadflags 0x1f);
  hdr_field "heap_end_ptr" 0; hdr_field "ramdisk_image" 0; params_field "ext_ramdisk_image" 0;
  hdr_field "ramdisk_size" 0; params_field "ext_ramdisk_size" 0;
  hdr_field "cmd_line_ptr" (Z.land cmdline_ptr 0xffffffff);
  params_field "ext_cmd_line_ptr" (u32 (Z.shiftr cmdline_ptr 32));
  params_field "e820_entries" 2;
  e820_field 0 "addr" 0; e820_field 0 "size" 0xa0000; e820_field 0 "type" 1;
  e820_field 1 "addr" 0xa0000; e820_field 1 "size" (u64 (u64 (pages - 0xa0) * PAGE_SIZE)); e820_field 1 "type" 1
].
Definition linux_zeropage_fields (m : mem) (ia cmdline_ptr pages : Z) : list (Z * nat * Z) :=
  linux_written_fields (image_field m ia "loadflags") cmdline_ptr pages ++
  if image_field m ia "setup_sects" =? 0 then [hdr_field "setup_sects" 4] else [].

(** The zero page of the guest. *)
Definition linux_zeropage (m : mem) (ia cmdline_ptr pages : Z) : Z → Z :=
  page_fields (image_zeropage m ia) (linux_zeropage_fields m ia cmdline_ptr pages).

(** An image that the loader accepts, at the physical address [ia]. *)
Record linux_image (m : mem) (ia image_size : Z) : Prop := {
  li_window : 0 ≤ ia ∧ ia + image_size ≤ 2 ^ 39;
  li_size : image_kernel m ia ≤ ia + image_size;
  li_magic : load_le 4 m (ia + hdr_offset "header") = 0x53726448;
  li_64 : Z.testbit (load_le 2 m (ia + hdr_offset "xloadflags")) 0 = true;
  li_alignment : image_field m ia "kernel_alignment" ≠ 0;
  li_aligned : image_field m ia "pref_address" mod image_field m ia "kernel_alignment" = 0;
  li_version : ∃ l : nat, 0x200 + image_field m ia "kernel_version" + Z.of_nat l < image_size ∧
    let version := ia + 0x200 + image_field m ia "kernel_version" in
    load_byte m (version + Z.of_nat l) = 0 ∧ ∀ i, 0 ≤ i < Z.of_nat l → load_byte m (version + i) ≠ 0;
}.

Lemma image_zeropage_bound m ia o : 0 ≤ image_zeropage m ia o < 256.
Proof. unfold image_zeropage. case_decide; [apply load_byte_bound|done]. Qed.
Lemma image_field_bound m ia member :
  0 ≤ image_field m ia member < 256 ^ Z.of_nat (member_size linux_setup_header_t member).
Proof. apply page_load_bound, image_zeropage_bound. Qed.
Lemma linux_zeropage_bound m ia p n o : 0 ≤ linux_zeropage m ia p n o < 256.
Proof. apply page_fields_bound, image_zeropage_bound. Qed.
Lemma image_header_size_bound m ia : 17 ≤ image_header_size m ia ≤ 272.
Proof.
  unfold image_header_size. change (offsetof linux_setup_header_t "jump") with 15.
  pose proof (load_le_bound 2 m (ia + hdr_offset "jump")). rewrite Z.shiftr_div_pow2 by lia. zlia.
Qed.

Lemma image_setup_sects_bound m ia : 1 ≤ image_setup_sects m ia < 256.
Proof.
  unfold image_setup_sects. pose proof (image_field_bound m ia "setup_sects") as H.
  change (256 ^ Z.of_nat (member_size linux_setup_header_t "setup_sects")) with 256 in H. cbv zeta.
  destruct (Z.eqb_spec (image_field m ia "setup_sects") 0); lia.
Qed.

(** What the loader reads of the zero page when it is complete. *)
Definition linux_written_layout : list (Z * nat) := map fst (linux_written_fields 0 0 0).

Lemma linux_zeropage_load m ia p n k off :
  Forall (λ '(o, k'), off + Z.of_nat k ≤ o ∨ o + Z.of_nat k' ≤ off)
    (linux_written_layout ++ [(hdr_offset "setup_sects", 1%nat)]) →
  page_load k (linux_zeropage m ia p n) off = page_load k (image_zeropage m ia) off.
Proof.
  intros [H1 H2]%Forall_app. apply page_load_fields. unfold linux_zeropage_fields. rewrite map_app.
  apply Forall_app. split; [exact H1|]. by destruct (_ =? 0).
Qed.

Lemma linux_zeropage_setup_sects m ia p n :
  page_load 1 (linux_zeropage m ia p n) (hdr_offset "setup_sects") = image_setup_sects m ia.
Proof.
  unfold linux_zeropage, image_setup_sects, linux_zeropage_fields.
  destruct (Z.eqb_spec (image_field m ia "setup_sects") 0) as [H0|H0].
  - unfold page_fields. rewrite foldl_app. reflexivity.
  - rewrite app_nil_r. apply page_load_fields.
    change (map fst _) with linux_written_layout. by apply (bool_decide_unpack _); vm_compute.
Qed.

Lemma linux_zeropage_fields_image m ia p n :
  page_load 8 (linux_zeropage m ia p n) (hdr_offset "pref_address") = image_field m ia "pref_address" ∧
  page_load 4 (linux_zeropage m ia p n) (hdr_offset "kernel_alignment") = image_field m ia "kernel_alignment".
Proof.
  split; (rewrite linux_zeropage_load; [done|by apply (bool_decide_unpack _); vm_compute]).
Qed.

(** The VM, once its registers are set; [hw] is the processor that loads it. *)
Definition linux_guest `{HW : Hardware} (v : vm_t) (entry zeropage : Z) (hw : hw_state) : vm_t :=
  (v <| vm_initial_gpr_state := (vm_initial_gpr_state v) <| reg_rsi := zeropage |> |>)
     <| vm_vmcs_config := (vm_vmcs_config v) <| guest_state := {|
          gs_rip := entry; gs_rsp := 0;
          gs_cr0 := hw_cr0 hw; gs_cr3 := gs_cr3 (guest_state (vm_vmcs_config v)); gs_cr4 := hw_cr4 hw;
          gs_ia32_efer := hw_rdmsr IA32_EFER hw; gs_cs := RKHV_CS; gs_ds := RKHV_DS;
          gs_gdtr := hw_sgdt hw; gs_idtr := hw_sidt hw |} |> |>.

(** The tables are kept with the bytes of their pages. *)
Lemma identity_paging_same `{HW : Hardware} n host (s0 s' : machine) m :
  identity_paging s0 (n - 514) n host m →
  (∀ k o, n - 514 ≤ k < n → 0 ≤ o < PAGE_SIZE → load_byte (m_mem s') (host k + o) = load_byte m (host k + o)) →
  identity_paging s' (n - 514) n host (m_mem s').
Proof.
  intros [_ H4 H3 H2] Hs.
  assert (∀ k i, n - 514 ≤ k < n → 0 ≤ i < 512 → ram_entry host (m_mem s') k i = ram_entry host m k i) as Hsame.
  { intros k i Hk Hi. apply load_le_shift. intros b Hb. rewrite <-!Z.add_assoc. apply Hs; [done|]. unfold PAGE_SIZE. lia. }
  split; [done| | |].
  - intros i Hi. rewrite Hsame by lia. by apply H4.
  - intros j Hj. rewrite Hsame by lia. by apply H3.
  - intros j d Hj Hd. rewrite Hsame by lia. by apply H2.
Qed.

(** * The steps of the loader *)

Section loader.
Context `{HW : Hardware} {PF : PollFuel} {CON : Console}.
Context (la lv : list Z) (vm : Z) (tbl : gmap (nat * Z) Z) (lo n : Z) (host : Z → Z).
Context (m0 : mem) (ia image_size : Z).
Implicit Types (s : machine) (v : vm_t) (m : mem).
Notation guest_inv := (guest_inv la lv vm tbl lo n host).
Notation written := (written host).
Notation filled := (filled la lv vm tbl lo n host).

Hypothesis (Hbound : 0 ≤ lo ∧ n * PAGE_SIZE ≤ 2 ^ 48).
Hypothesis (Hinj : ∀ k k', lo ≤ k < n → lo ≤ k' < n → host k = host k' → k = k').
Hypothesis (Himg : linux_image m0 ia image_size).
Hypothesis (Hdisj : ∀ a k, ia ≤ a < ia + image_size → lo ≤ k < n → ¬ (host k ≤ a < host k + PAGE_SIZE)).

(** ** Strings *)

(** A string that ends at the address [a + l]. *)
Lemma wp_load_string a l fuel E (Q : list Z → machine → Prop) s :
  0 ≤ a → a + Z.of_nat l < 2 ^ 39 → (l < fuel)%nat →
  (∀ i, 0 ≤ i < Z.of_nat l → load_byte (m_mem s) (a + i) ≠ 0) → load_byte (m_mem s) (a + Z.of_nat l) = 0 →
  (∀ str, Q str s) → wp (load_string fuel (P2V_IDENTITY_MAP a)) E Q s.
Proof.
  revert a l Q. induction fuel as [|fuel IH]; intros a l Q Ha Hl Hf Hnz Hz HQ; [lia|].
  cbn [load_string]. wp_step. apply wp_load_address; [lia|lia|]. cbn [load_le]. rewrite Z.mul_0_r, Z.add_0_r.
  destruct (Z.eqb_spec (load_byte (m_mem s) a) 0) as [H0|H0]; [by apply wp_ret|].
  destruct l as [|l]; [by rewrite Z.add_0_r in Hz|]. wp_step. rewrite P2V_offset by lia.
  apply (IH (a + 1) l); [lia|lia|lia| | |].
  - intros i Hi. rewrite <-Z.add_assoc. apply Hnz. lia.
  - rewrite <-Hz. f_equal. lia.
  - intros str. by apply wp_ret.
Qed.
Lemma wp_filled_copy_string str off v k c m1 hw0 s E (Q : () → machine → Prop) :
  filled v k c m1 hw0 s → lo ≤ k < n → 0 ≤ off → off + Z.of_nat (length str) ≤ PAGE_SIZE →
  (∀ s', filled v k (page_string c off str) m1 hw0 s' → Q () s') →
  wp (copy_string (u64 (P2V_IDENTITY_MAP (host k) + off)) str) E Q s.
Proof.
  revert c off s. induction str as [|x str IH]; intros c off s Hf Hk Ho Hn HQ; cbn [copy_string length] in *.
  { apply wp_ret. by apply HQ. }
  wp_step. eapply wp_filled_store; [done|done|done|done|lia|]. intros s' Hf'.
  rewrite wrap_add_l, <-Z.add_assoc by lia. eapply IH; [done|done|lia|lia|done].
Qed.

(** ** The image is not written *)

Lemma image_size_bound : 1024 ≤ image_size ≤ 2 ^ 39.
Proof.
  destruct Himg as [Hw Hs _ _ _ _ _]. unfold image_kernel in Hs. pose proof (image_setup_sects_bound m0 ia). lia.
Qed.

Lemma written_image m a : written lo n m0 m → ia ≤ a < ia + image_size → load_byte m a = load_byte m0 a.
Proof. intros Hw Ha. apply Hw. intros k Hk. by apply Hdisj. Qed.

Lemma image_page_disjoint k : lo ≤ k < n → host k + PAGE_SIZE ≤ ia ∨ ia + image_size ≤ host k.
Proof.
  intros Hk. pose proof image_size_bound as Hs. pose proof (Hdisj (Z.max ia (host k)) k) as Hd.
  unfold PAGE_SIZE in *. lia.
Qed.

Lemma wp_image_load k off E Q s :
  written lo n m0 (m_mem s) → 0 ≤ off → off + Z.of_nat k ≤ image_size →
  Q (load_le k m0 (ia + off)) s → wp (deref_load k (u64 (P2V_IDENTITY_MAP ia + off))) E Q s.
Proof.
  intros Hw Ho Hk HQ. pose proof image_size_bound. pose proof (li_window _ _ _ Himg).
  rewrite P2V_offset by lia. apply wp_load_address; [lia|lia|].
  erewrite load_le_ext; [exact HQ|]. intros b Hb. apply written_image; [done|lia].
Qed.

Lemma wp_image_hdr_load member E Q s :
  written lo n m0 (m_mem s) → 0 ≤ hdr_offset member →
  hdr_offset member + Z.of_nat (member_size linux_setup_header_t member) ≤ 1024 →
  Q (load_le (member_size linux_setup_header_t member) m0 (ia + hdr_offset member)) s →
  wp (hdr_load (P2V_IDENTITY_MAP ia) member) E Q s.
Proof. intros Hw H0 H1 HQ. apply wp_image_load; [done|done| |done]. pose proof image_size_bound. lia. Qed.

(** ** Changes of the VM *)

Lemma wp_guest_vm_modify f v s E (Q : () → machine → Prop) :
  guest_inv v s → vm_next (f v) = vm_next v → vm_tracked_pages (f v) = vm_tracked_pages v →
  vm_flags (f v) = vm_flags v → eptp (vm_vmcs_config (f v)) = eptp (vm_vmcs_config v) →
  (∀ s', guest_inv (f v) s' → m_mem s' = m_mem s → m_hw s' = m_hw s → Q () s') →
  wp (vm_modify vm f) E Q s.
Proof.
  intros Hg Hn Ht Hf He HQ. eapply wp_vm_modify; [apply Hg|]. apply HQ; [|done|done].
  eapply guest_inv_vm; [done|done|done| |].
  - intros m [H1 H2 H3 H4]. split; unfold ept_initialized in *;
      rewrite ?Hf, ?Ht, ?He; assumption.
  - intros m gpa. unfold ept_translate, ept_initialized. by rewrite Hf, He.
Qed.

Lemma wp_linux_setup_page v k msg s E (Q : Z * Z → machine → Prop) :
  guest_inv v s → lo ≤ k < n → vm_guest_physical_pages v = n → vm_used_by_initial_setup v = n - 1 - k →
  (∀ s', guest_inv (with_used v (n - k)) s' → m_mem s' = m_mem s → m_hw s' = m_hw s →
     Q (k * PAGE_SIZE, P2V_IDENTITY_MAP (host k)) s') →
  wp (linux_setup_page vm msg) E Q s.
Proof.
  intros Hg Hk Hn Hu HQ. unfold linux_setup_page. wp_step. eapply wp_vm_get; [apply Hg|].
  rewrite Hn, Hu. cbv zeta.
  rewrite (wrap_small 64 (n - (n - 1 - k))) by (unfold PAGE_SIZE in *; lia).
  replace (n - (n - 1 - k) - 1) with k by lia.
  rewrite (wrap_small 64 k), (wrap_small 64 (k * PAGE_SIZE)) by (unfold PAGE_SIZE in *; lia). wp_step.
  unfold guest_page_used. eapply wp_guest_vm_modify; [done..|]. intros s' Hg' Hm Hh.
  wp_step. eapply wp_guest_translate; [done|done|done|]. apply wp_ret. apply HQ; [|done|done].
  rewrite Hu, wrap_small in Hg' by (unfold PAGE_SIZE in *; lia). by replace (n - 1 - k + 1) with (n - k) in Hg' by lia.
Qed.

Lemma wp_linux_check_header E (Q : () → machine → Prop) s :
  written lo n m0 (m_mem s) → Q () s → wp (linux_check_header (P2V_IDENTITY_MAP ia)) E Q s.
Proof.
  intros Hw HQ. unfold linux_check_header. wp_step. apply wp_image_hdr_load; [done|done|done|].
  change (member_size linux_setup_header_t "header") with 4%nat. rewrite (li_magic _ _ _ Himg).
  rewrite Z.eqb_refl. cbn [negb]. wp_step. apply wp_image_hdr_load; [done|done|done|].
  change (member_size linux_setup_header_t "xloadflags") with 2%nat.
  pose proof (li_64 _ _ _ Himg) as H64. rewrite (Z.land_ones _ 1) by lia.
  rewrite Z.testbit_eqb in H64 by lia. rewrite Z.div_1_r in H64. change (2 ^ 1) with 2.
  rewrite H64. by apply wp_ret.
Qed.

Lemma wp_linux_check_memory v E (Q : () → machine → Prop) s :
  guest_inv v s → vm_guest_physical_pages v = n → vm_used_by_initial_setup v = 516 →
  4612 + image_size / PAGE_SIZE < n → Q () s → wp (linux_check_memory vm image_size) E Q s.
Proof.
  intros Hg Hn Hu Hm HQ. unfold linux_check_memory. wp_step. eapply wp_vm_get; [apply Hg|].
  pose proof image_size_bound. change (0x1000000 / PAGE_SIZE) with 4096. unfold PAGE_SIZE in *. rewrite Hn, Hu.
  rewrite (wrap_small 64 (n - 516)), (wrap_small 64 (n - 516 - 4096)) by zlia.
  destruct (Z.leb_spec n 4096); [zlia|]. destruct (Z.leb_spec (n - 516 - 4096) (image_size / 0x1000)); [lia|].
  by apply wp_ret.
Qed.

Lemma P2V_zero p : page_ok p → u64 (P2V_IDENTITY_MAP p + 0) = P2V_IDENTITY_MAP p.
Proof. intros [Ha Hb]. rewrite P2V_offset, Z.add_0_r by lia. done. Qed.

(** The page of the command line. *)
Lemma wp_linux_write_cmdline v k cmdline s E (Q : () → machine → Prop) :
  guest_inv v s → lo ≤ k < n → written lo n m0 (m_mem s) →
  Z.of_nat (length cmdline) ≤ load_le 4 m0 (ia + hdr_offset "cmdline_size") →
  Z.of_nat (length cmdline) < PAGE_SIZE →
  (∀ s' c, filled v k (page_string c 0 (cmdline ++ [0])) (m_mem s) (m_hw s) s' → Q () s') →
  wp (linux_write_cmdline (P2V_IDENTITY_MAP ia) (P2V_IDENTITY_MAP (host k)) cmdline) E Q s.
Proof.
  intros Hg Hk Hw Hc Hl HQ. unfold linux_write_cmdline. cbv zeta. wp_step.
  apply wp_image_hdr_load; [done|done|done|]. change (member_size linux_setup_header_t "cmdline_size") with 4%nat.
  destruct (Z.ltb_spec (load_le 4 m0 (ia + hdr_offset "cmdline_size")) (Z.of_nat (length cmdline))); [lia|].
  destruct (Z.ltb_spec PAGE_SIZE (Z.of_nat (length cmdline))); [lia|]. cbn [orb].
  assert (page_ok (host k)) as Hok by (by eapply gi_page).
  wp_step. rewrite <-(P2V_zero (host k)) at 1 by done.
  eapply wp_filled_copy_string; [by apply filled_start|done|lia|lia|]. intros s' Hf.
  eapply wp_filled_store; [done|done|done|lia|lia|]. intros s'' Hf'. apply (HQ s'' (λ o, load_byte (m_mem s) (host k + o))).
  eapply filled_eq; [|exact Hf']. intros o Ho. unfold page_override. rewrite !page_string_lookup, length_app.
  cbn [length]. replace (0 + Z.of_nat (length cmdline)) with (Z.of_nat (length cmdline)) by lia.
  repeat case_decide; try lia; try done.
  - replace o with (Z.of_nat (length cmdline)) by lia. rewrite Z.sub_0_r, Nat2Z.id, list_lookup_total_middle; done.
  - rewrite lookup_total_app_l; [done|lia].
Qed.

(** The zero page, with the header of the image. *)
Lemma wp_linux_copy_header v k s E (Q : () → machine → Prop) :
  guest_inv v s → lo ≤ k < n → written lo n m0 (m_mem s) →
  (∀ s', filled v k (image_zeropage m0 ia) (m_mem s) (m_hw s) s' → Q () s') →
  wp (memset_va (P2V_IDENTITY_MAP (host k)) 0 PAGE_SIZE;;
      memcpy_va (u64 (P2V_IDENTITY_MAP (host k) + hdr_offset "setup_sects"))
        (u64 (P2V_IDENTITY_MAP ia + hdr_offset "setup_sects")) (image_header_size m0 ia)) E Q s.
Proof.
  intros Hg Hk Hw HQ. assert (page_ok (host k)) as Hok by (by eapply gi_page).
  pose proof image_size_bound. pose proof (li_window _ _ _ Himg). pose proof (image_header_size_bound m0 ia).
  change (hdr_offset "setup_sects") with 0x1f1. wp_step. apply wp_memset_page; [done|].
  destruct Hok as [Ha Hb]. rewrite !P2V_offset by lia. unfold PAGE_SIZE in *.
  apply wp_memcpy_address; [lia|lia|lia|zlia|lia|].
  apply HQ. set (m1 := memset (m_mem s) (host k) 0 0x1000).
  set (m2 := memcpy m1 (host k + 0x1f1) (ia + 0x1f1) (image_header_size m0 ia)).
  pose proof (image_page_disjoint k Hk) as Hdk. unfold PAGE_SIZE in Hdk.
  assert (∀ a, load_byte m2 a = if decide (host k + 0x1f1 ≤ a < host k + 0x1f1 + image_header_size m0 ia)
    then load_byte m1 (ia + 0x1f1 + (a - (host k + 0x1f1))) else load_byte m1 a) as Hm2
    by (intros a; apply load_byte_memcpy; lia).
  assert (∀ a, load_byte m1 a = if decide (host k ≤ a < host k + 0x1000) then 0 else load_byte (m_mem s) a) as Hm1
    by (intros a; apply load_byte_memset).
  apply (filled_memory la lv vm tbl lo n host Hbound v k _ (image_zeropage m0 ia) _ _ s m2 Hk (filled_start _ _ _ _ _ _ _ _ _ _ Hg)).
  - intros a Hout. specialize (Hout k ltac:(lia)). unfold PAGE_SIZE in Hout.
    rewrite Hm2, decide_False, Hm1, decide_False by lia. done.
  - unfold PAGE_SIZE. intros o Ho. unfold image_zeropage. change (hdr_offset "setup_sects") with 0x1f1. rewrite Hm2, !Hm1.
    destruct (decide (0x1f1 ≤ o < 0x1f1 + image_header_size m0 ia)).
    + rewrite decide_True, decide_False by lia. rewrite written_image by (done || lia). f_equal. lia.
    + rewrite decide_False, decide_True by lia. done.
Qed.

(** ** The zero page *)

Lemma wp_zeropage_load member v k c m1 hw0 E Q s :
  filled v k c m1 hw0 s → lo ≤ k < n → 0 ≤ hdr_offset member →
  hdr_offset member + Z.of_nat (member_size linux_setup_header_t member) ≤ PAGE_SIZE →
  Q (page_load (member_size linux_setup_header_t member) c (hdr_offset member)) s →
  wp (hdr_load (P2V_IDENTITY_MAP (host k)) member) E Q s.
Proof. intros. by eapply wp_filled_load. Qed.

Lemma wp_linux_log_image v k cmdline m1 hw0 s E (Q : () → machine → Prop) :
  filled v k (image_zeropage m0 ia) m1 hw0 s → lo ≤ k < n → written lo n m0 (m_mem s) →
  (∀ s', filled v k (image_zeropage m0 ia) m1 hw0 s' → Q () s') →
  wp (linux_log_image vm (P2V_IDENTITY_MAP ia) (P2V_IDENTITY_MAP (host k)) cmdline) E Q s.
Proof.
  intros Hf Hk Hw HQ. unfold linux_log_image. wp_step. eapply wp_zeropage_load; [done|done|done|done|].
  change (page_load _ _ (hdr_offset "kernel_version")) with (image_field m0 ia "kernel_version").
  destruct (li_version _ _ _ Himg) as (l & Hl & Hz & Hnz).
  pose proof (image_field_bound m0 ia "kernel_version") as Hkv. pose proof (li_window _ _ _ Himg) as Hwin.
  pose proof image_size_bound. set (kv := image_field m0 ia "kernel_version") in *.
  wp_step. wp_step. wp_step.
  assert (∀ i, 0 ≤ i ≤ Z.of_nat l →
    load_byte (m_mem s) (ia + (0x200 + kv) + i) = load_byte m0 (ia + 0x200 + kv + i)) as Hsame.
  { intros i Hi. rewrite <-(written_image (m_mem s)) by (done || lia). f_equal. lia. }
  assert (u64 (P2V_IDENTITY_MAP ia + 0x200 + kv) = P2V_IDENTITY_MAP (ia + (0x200 + kv))) as ->
    by (rewrite <-Z.add_assoc; apply P2V_offset; lia).
  assert (l ≤ size (m_mem s))%nat as Hsize.
  { apply (nonzero_run _ (ia + (0x200 + kv))). intros i Hi. rewrite Hsame by lia. by apply Hnz. }
  eapply (wp_load_string (ia + (0x200 + kv)) l); [lia|lia|lia| | |].
  { intros i Hi. rewrite Hsame by lia. by apply Hnz. }
  { rewrite Hsame by lia. exact Hz. }
  intros version. wp_step. eapply wp_filled_get; [done|].
  wp_step. eapply wp_filled_LOG; [done|solve_log_ok|]. intros s1 Hf1.
  wp_step. eapply wp_filled_LOG; [done|solve_log_ok|]. intros s2 Hf2.
  wp_step. eapply wp_zeropage_load; [done|done|done|done|].
  change (page_load _ _ (hdr_offset "version")) with (image_field m0 ia "version").
  pose proof (image_field_bound m0 ia "version") as Hv.
  change (256 ^ Z.of_nat (member_size linux_setup_header_t "version")) with 65536 in Hv.
  wp_step. eapply wp_filled_LOG; [done| |].
  { rewrite Z.shiftr_div_pow2, (Z.land_ones _ 4) by lia. solve_log_ok; zlia. }
  intros s3 Hf3. destruct (_ <? _); [|apply wp_ret; by apply HQ].
  eapply wp_filled_LOG; [done|solve_log_ok|]. apply HQ.
Qed.

(** One field after the others. *)
Lemma wp_field_store off size w v k c l m1 hw0 s E (Q : () → machine → Prop) :
  filled v k (page_fields c l) m1 hw0 s → lo ≤ k < n → 0 ≤ off → off + Z.of_nat size ≤ PAGE_SIZE →
  (∀ s', filled v k (page_fields c (l ++ [(off, size, w)])) m1 hw0 s' → Q () s') →
  wp (deref_store size (u64 (P2V_IDENTITY_MAP (host k) + off)) w) E Q s.
Proof.
  intros Hf Hk Ho Hs HQ. eapply wp_filled_store; [done|done|done|done|done|]. intros s' Hf'. apply HQ.
  unfold page_fields in *. by rewrite foldl_app.
Qed.

Ltac field_store :=
  eapply wp_field_store; [eassumption|assumption|discriminate|discriminate|];
  let s := fresh "s" in let Hf := fresh "Hf" in intros s Hf; cbn [app] in Hf.

Lemma wp_linux_fill_zeropage v k ptr m1 hw0 s E (Q : () → machine → Prop) :
  filled v k (image_zeropage m0 ia) m1 hw0 s → lo ≤ k < n → vm_guest_physical_pages v = n →
  (∀ s', filled v k (linux_zeropage m0 ia ptr n) m1 hw0 s' → Q () s') →
  wp (linux_fill_zeropage vm (P2V_IDENTITY_MAP (host k)) ptr) E Q s.
Proof.
  intros Hf Hk Hn HQ. unfold linux_fill_zeropage. change (image_zeropage m0 ia) with (page_fields (image_zeropage m0 ia) []) in Hf.
  wp_step. field_store. wp_step. field_store.
  wp_step. eapply wp_zeropage_load; [done|done|done|done|].
  rewrite page_load_fields by (apply (bool_decide_unpack _); vm_compute; exact I).
  change (page_load _ _ (hdr_offset "loadflags")) with (image_field m0 ia "loadflags").
  do 13 (wp_step; field_store). wp_step. eapply wp_filled_get; [eassumption|]. rewrite Hn.
  do 2 (wp_step; field_store). wp_step. eapply wp_zeropage_load; [eassumption|done|done|done|].
  rewrite page_load_fields by (apply (bool_decide_unpack _); vm_compute; exact I).
  change (page_load _ _ (hdr_offset "setup_sects")) with (image_field m0 ia "setup_sects").
  unfold linux_zeropage, linux_zeropage_fields in HQ.
  destruct (image_field m0 ia "setup_sects" =? 0); [field_store; by apply HQ|].
  apply wp_ret, HQ. rewrite app_nil_r. assumption.
Qed.

(** ** The kernel *)

Notation kernel_size := (image_kernel_size m0 ia image_size).
Notation kernel_pages := (image_kernel_pages m0 ia image_size).

(** The first [p] pages of the kernel are loaded. *)
Record loaded v (p : Z) m1 (hw0 : hw_state) s : Prop := {
  ld_inv : guest_inv v s;
  ld_bytes i : 0 ≤ i < p * PAGE_SIZE → i < kernel_size →
    load_byte (m_mem s) (host (lo + i / PAGE_SIZE) + i mod PAGE_SIZE) = load_byte m0 (image_kernel m0 ia + i);
  ld_other : written lo (lo + p) m1 (m_mem s);
  ld_hw : hw_same hw0 (m_hw s);
}.

Lemma kernel_size_bound : 0 ≤ kernel_size < 2 ^ 39.
Proof.
  unfold image_kernel_size. pose proof (li_size _ _ _ Himg). pose proof (li_window _ _ _ Himg).
  unfold image_kernel in *. pose proof (image_setup_sects_bound m0 ia). lia.
Qed.

(** The length of the copy of a page. *)
Lemma kernel_page_length p : 0 ≤ p < kernel_pages →
  (if (p <? u64 (kernel_pages - 1)) || (kernel_size mod PAGE_SIZE =? 0) then PAGE_SIZE
   else kernel_size mod PAGE_SIZE) = Z.min PAGE_SIZE (kernel_size - p * PAGE_SIZE).
Proof.
  pose proof kernel_size_bound. unfold image_kernel_pages, PAGE_SIZE. intros Hp.
  destruct (Z.eqb_spec (kernel_size mod 0x1000) 0).
  - rewrite orb_true_r. zlia.
  - rewrite orb_false_r, wrap_small by zlia.
    destruct (Z.ltb_spec p (kernel_size / 0x1000 + 1 - 1)); zlia.
Qed.

Lemma wp_linux_load_page v p m1 hw0 s E (Q : () → machine → Prop) :
  loaded v p m1 hw0 s → written lo n m0 m1 → 0 ≤ p < kernel_pages → lo + kernel_pages ≤ n →
  (∀ s', loaded v (p + 1) m1 hw0 s' → Q () s') →
  wp (linux_load_page vm (P2V_IDENTITY_MAP (image_kernel m0 ia)) kernel_size kernel_pages (lo * PAGE_SIZE) p)
    E Q s.
Proof.
  intros [Hg Hb Hw Hh] Hw1 Hp Hn HQ. unfold linux_load_page. cbv zeta.
  assert (kernel_pages * PAGE_SIZE < 2 ^ 39 + PAGE_SIZE) as Hkp.
  { pose proof kernel_size_bound. unfold image_kernel_pages, PAGE_SIZE. destruct (_ =? 0); zlia. }
  rewrite (wrap_small 64 (p * PAGE_SIZE)), (wrap_small 64 (lo * PAGE_SIZE + p * PAGE_SIZE)) by (unfold PAGE_SIZE in *; lia).
  rewrite <-Z.mul_add_distr_r. wp_step. eapply wp_guest_translate; [done|done|lia|].
  pose proof (kernel_page_length p Hp) as Hlen. pose proof kernel_size_bound as Hks.
  set (len := Z.min PAGE_SIZE (kernel_size - p * PAGE_SIZE)) in Hlen.
  assert (∀ E Q, wp (memcpy_va (P2V_IDENTITY_MAP (host (lo + p)))
    (u64 (P2V_IDENTITY_MAP (image_kernel m0 ia) + p * PAGE_SIZE)) len) E Q s →
    wp (if (p <? u64 (kernel_pages - 1)) || (kernel_size mod PAGE_SIZE =? 0)
        then memcpy_va (P2V_IDENTITY_MAP (host (lo + p)))
          (u64 (P2V_IDENTITY_MAP (image_kernel m0 ia) + p * PAGE_SIZE)) PAGE_SIZE
        else memcpy_va (P2V_IDENTITY_MAP (host (lo + p)))
          (u64 (P2V_IDENTITY_MAP (image_kernel m0 ia) + p * PAGE_SIZE)) (kernel_size mod PAGE_SIZE)) E Q s) as Hif.
  { intros E' Q'. destruct (_ || _); by rewrite Hlen. }
  apply Hif. clear Hif Hlen.
  assert (0 ≤ len ≤ PAGE_SIZE ∧ p * PAGE_SIZE + len ≤ kernel_size ∧
    ∀ i, p * PAGE_SIZE ≤ i < (p + 1) * PAGE_SIZE → i < kernel_size → i - p * PAGE_SIZE < len) as (Hl1 & Hl2 & Hl3).
  { unfold len, image_kernel_pages, PAGE_SIZE in *. destruct (Z.eqb_spec (kernel_size mod 0x1000) 0); split_and!; zlia. }
  clearbody len. pose proof (li_window _ _ _ Himg) as Hwin. pose proof (image_setup_sects_bound m0 ia) as Hss.
  assert (ia ≤ image_kernel m0 ia ∧ image_kernel m0 ia + kernel_size = ia + image_size) as [Hik1 Hik2]
    by (unfold image_kernel_size, image_kernel; lia).
  destruct (gi_page _ _ _ _ _ _ _ _ _ (lo + p) Hg ltac:(lia)) as [Ha Hok].
  rewrite P2V_offset by (unfold PAGE_SIZE in *; lia).
  apply wp_memcpy_address; [lia|unfold PAGE_SIZE in *; lia|lia|unfold PAGE_SIZE in *; zlia|lia|].
  pose proof (image_page_disjoint (lo + p) ltac:(lia)) as Hd.
  set (src := image_kernel m0 ia + p * PAGE_SIZE) in *.
  assert (∀ a, load_byte (memcpy (m_mem s) (host (lo + p)) src len) a =
    if decide (host (lo + p) ≤ a < host (lo + p) + len)
    then load_byte (m_mem s) (src + (a - host (lo + p))) else load_byte (m_mem s) a) as Hm
    by (intros a; apply load_byte_memcpy; unfold src, PAGE_SIZE in *; lia).
  set (m2 := memcpy (m_mem s) (host (lo + p)) src len) in *.
  assert (written (lo + p) (lo + p + 1) (m_mem s) m2) as Hw2.
  { intros a Hout. specialize (Hout (lo + p) ltac:(lia)). by rewrite Hm, decide_False by lia. }
  apply HQ. split; [| | |done].
  - by apply (guest_inv_written _ _ _ _ _ _ _ Hbound v s m2 (lo + p) (lo + p + 1)); [done|lia|lia|].
  - change (m_mem (s <| m_mem := m2 |>)) with m2. intros i Hi Hik.
    pose proof (Z.mod_pos_bound i PAGE_SIZE eq_refl) as Hmod. destruct (decide (i < p * PAGE_SIZE)) as [Hip|Hip].
    + rewrite (written_page la lv vm tbl lo n host Hinj v s (lo + p) (lo + p + 1) (m_mem s)); try done; try lia.
      * apply Hb; lia.
      * unfold PAGE_SIZE in *; zlia.
      * unfold PAGE_SIZE in *; zlia.
    + replace (i / PAGE_SIZE) with p by (unfold PAGE_SIZE in *; zlia).
      replace (i mod PAGE_SIZE) with (i - p * PAGE_SIZE) by (unfold PAGE_SIZE in *; zlia).
      specialize (Hl3 i ltac:(lia) Hik). rewrite Hm, decide_True by lia.
      rewrite written_image; [f_equal; unfold src; lia| |unfold src; lia].
      eapply written_trans; [done|]. by eapply written_mono; [| |done]; lia.
  - change (m_mem (s <| m_mem := m2 |>)) with m2. eapply written_trans; [eapply written_mono; [| |done]; lia|].
    eapply written_mono; [| |done]; lia.
Qed.

Lemma wp_linux_load_kernel v s E (Q : () → machine → Prop) :
  guest_inv v s → written lo n m0 (m_mem s) → lo + kernel_pages ≤ n →
  (∀ s', loaded v kernel_pages (m_mem s) (m_hw s) s' → Q () s') →
  wp (mfor kernel_pages (linux_load_page vm (P2V_IDENTITY_MAP (image_kernel m0 ia)) kernel_size kernel_pages
    (lo * PAGE_SIZE))) E Q s.
Proof.
  intros Hg Hw Hn HQ. pose proof kernel_size_bound.
  eapply wp_post; [apply (wp_for (λ p s', loaded v p (m_mem s) (m_hw s) s'))|].
  - unfold image_kernel_pages, PAGE_SIZE. destruct (_ =? 0); zlia.
  - split; [done|lia|done|done].
  - intros p s' Hp Hl. by eapply wp_linux_load_page.
  - intros []. exact HQ.
Qed.

(** ** The registers *)

Definition with_guest_state v (g : vmx_guest_state_t) : vm_t :=
  v <| vm_vmcs_config := (vm_vmcs_config v) <| guest_state := g |> |>.

Lemma with_guest_state_id v : with_guest_state v (guest_state (vm_vmcs_config v)) = v.
Proof. by destruct v as [????[] ?]. Qed.

Lemma wp_set_guest_state f v g s E (Q : () → machine → Prop) :
  guest_inv (with_guest_state v g) s →
  (∀ s', guest_inv (with_guest_state v (f g)) s' → m_mem s' = m_mem s → m_hw s' = m_hw s → Q () s') →
  wp (vm_modify vm (λ v, v <| vm_vmcs_config :=
    (vm_vmcs_config v) <| guest_state := f (guest_state (vm_vmcs_config v)) |> |>)) E Q s.
Proof. intros Hg HQ. eapply wp_guest_vm_modify; [exact Hg|reflexivity..|exact HQ]. Qed.

Ltac set_guest_state :=
  eapply wp_set_guest_state; [eassumption|];
  let s := fresh "s" in let Hg := fresh "Hg" in let Hm := fresh "Hm" in let Hh := fresh "Hh" in
  intros s Hg Hm Hh; cbv [upd set_gs_rip set_gs_rsp set_gs_cr0 set_gs_cr4 set_gs_ia32_efer set_gs_cs set_gs_ds
    set_gs_gdtr set_gs_idtr gs_rip gs_rsp gs_cr0 gs_cr3 gs_cr4 gs_ia32_efer gs_cs gs_ds gs_gdtr gs_idtr] in Hg.

Lemma wp_linux_guest_state v pref zeropage s E (Q : () → machine → Prop) :
  guest_inv v s →
  (∀ s', guest_inv (linux_guest v (u64 (pref + 0x200)) zeropage (m_hw s)) s' → m_mem s' = m_mem s →
     m_hw s' = m_hw s → Q () s') →
  wp (linux_guest_state vm pref zeropage) E Q s.
Proof.
  intros Hg HQ. unfold linux_guest_state, cr0_read, cr4_read, rdmsr, segments_sgdt, interrupts_sidt. cbv zeta.
  wp_step. eapply wp_guest_vm_modify; [exact Hg|reflexivity..|]. intros s1 Hg1 Hm1 Hh1.
  unfold linux_guest in HQ.
  change (vm_vmcs_config v) with (vm_vmcs_config (v <| vm_initial_gpr_state := (vm_initial_gpr_state v) <| reg_rsi := zeropage |> |>)) in HQ.
  set (v1 := v <| vm_initial_gpr_state := (vm_initial_gpr_state v) <| reg_rsi := zeropage |> |>) in *. clearbody v1.
  rewrite <-(with_guest_state_id v1) in Hg1. change (vm_vmcs_config v1) with (vm_vmcs_config v1) in HQ.
  destruct (guest_state (vm_vmcs_config v1)) as [g1 g2 g3 g4 g5 g6 g7 g8 g9 g10].
  do 2 (wp_step; set_guest_state). do 3 (wp_step; wp_step; wp_step; set_guest_state).
  do 2 (wp_step; set_guest_state). wp_step. wp_step. wp_step. set_guest_state. wp_step. wp_step. set_guest_state.
  apply HQ; [|congruence..].
  repeat match goal with H : m_hw _ = m_hw _ |- _ => rewrite H in *; clear H end. assumption.
Qed.

(** ** The whole loader *)

Definition with_cr3 v (cr3 : Z) : vm_t :=
  with_guest_state v ((guest_state (vm_vmcs_config v)) <| gs_cr3 := cr3 |>).

Lemma linux_guest_same v e z hw hw' : hw_same hw hw' → linux_guest v e z hw' = linux_guest v e z hw.
Proof.
  intros (_ & Hmsr & _ & H0 & _ & H4 & Hg & Hi & _). unfold linux_guest. by rewrite Hmsr, H0, H4, Hg, Hi.
Qed.

Hypothesis (Hpages : 4612 + image_size / PAGE_SIZE < n).

(** The memory of the guest when the loader returns: the tables in the last 514 pages, then
    the zero page, the command line and the kernel. *)
Record linux_loaded (cmdline : list Z) s' : Prop := {
  ll_paging : identity_paging s' (n - 514) n host (m_mem s');
  ll_zeropage o : 0 ≤ o < PAGE_SIZE →
    load_byte (m_mem s') (host (n - 515) + o) = linux_zeropage m0 ia ((n - 516) * PAGE_SIZE) n o;
  ll_cmdline o : 0 ≤ o ≤ Z.of_nat (length cmdline) →
    load_byte (m_mem s') (host (n - 516) + o) = (cmdline ++ [0]) !!! Z.to_nat o;
  ll_kernel i : 0 ≤ i < kernel_size →
    load_byte (m_mem s') (host (lo + i / PAGE_SIZE) + i mod PAGE_SIZE) = load_byte m0 (image_kernel m0 ia + i);
  ll_other : written lo n m0 (m_mem s');
}.

(** The tables are kept by what is written below them. *)
Lemma identity_paging_written v s0 s s' m h :
  guest_inv v s → lo ≤ n - 514 → h ≤ n - 514 → identity_paging s0 (n - 514) n host m → written lo h m (m_mem s') →
  identity_paging s' (n - 514) n host (m_mem s').
Proof.
  intros Hg Hlo Hh Hp Hw. eapply identity_paging_same; [exact Hp|]. intros k o Hk Ho.
  apply (written_page la lv vm tbl lo n host Hinj v s lo h); (done || lia).
Qed.

Lemma wp_guest_setup_identity v s E (Q : Z → machine → Prop) :
  guest_inv v s → lo ≤ n - 514 → vm_guest_physical_pages v = n → vm_used_by_initial_setup v = 0 →
  (∀ s', guest_inv (with_used v 514) s' → identity_paging s (n - 514) n host (m_mem s') → m_hw s' = m_hw s →
     Q ((n - 1) * PAGE_SIZE) s') →
  wp (vm_guest_paging_setup_identity vm) E Q s.
Proof.
  intros Hg Hlo Hn Hu HQ. assert (0 ≤ n - 514 ∧ n * PAGE_SIZE ≤ 2 ^ 48) as Hb by (unfold PAGE_SIZE in *; lia).
  eapply (wp_vm_guest_paging_setup_identity la lv vm v tbl s (n - 514) n host); try done.
  { apply Hg. }
  { intros k Hk. apply Hg. lia. }
  { intros k k' Hk Hk'. apply Hinj; lia. }
  intros m Hm.
  assert (∀ k, n - 514 ≤ k < n → guest_ram v (m_mem s) k (host k)) as Hram by (intros k Hk; apply Hg; lia).
  destruct (ept_inv_setup la lv vm v tbl s (n - 514) n host (gi_ept _ _ _ _ _ _ _ _ _ Hg) Hram 514 m (ip_ram _ _ _ _ _ Hm)) as [Hi Ht].
  apply HQ; [|done|done]. split; [done| |by eapply console_local; [..|apply Hg]].
  intros k Hk. destruct (gi_ram _ _ _ _ _ _ _ _ _ Hg k Hk) as [H1 H2 H3]. split; [|done|done].
  change (m_mem (setup_state s vm v 514 m)) with m. rewrite Ht; [done|unfold PAGE_SIZE in *; lia].
Qed.

(** What each step wrote is still there at the end. *)
Lemma linux_loaded_end v c cmdline s s4 s5 s6 s7 s9 :
  guest_inv v s4 → identity_paging s (n - 514) n host (m_mem s4) → written lo n m0 (m_mem s4) →
  lo + kernel_pages ≤ n - 516 → lo ≤ n - 516 →
  Forall (λ c, 0 < c < 256) cmdline → Z.of_nat (length cmdline) < PAGE_SIZE →
  filled v (n - 516) (page_string c 0 (cmdline ++ [0])) (m_mem s4) (m_hw s4) s5 →
  filled v (n - 515) (linux_zeropage m0 ia ((n - 516) * PAGE_SIZE) n) (m_mem s5) (m_hw s5) s6 →
  loaded v kernel_pages (m_mem s6) (m_hw s6) s7 → m_mem s9 = m_mem s7 → linux_loaded cmdline s9.
Proof.
  intros Hg Hp Hw Hlo Hlo' Hstr Hlen Hf5 Hf6 Hl7 Hm9.
  assert (written lo (n - 514) (m_mem s4) (m_mem s9)) as Hw9.
  { rewrite Hm9. eapply written_trans; [eapply written_mono; [| |apply Hf5]; lia|].
    eapply written_trans; [eapply written_mono; [| |apply Hf6]; lia|]. eapply written_mono; [| |apply Hl7]; lia. }
  assert (∀ k o l h m m', written l h m m' → lo ≤ l → h ≤ n → lo ≤ k < n → ¬ (l ≤ k < h) → 0 ≤ o < PAGE_SIZE →
    load_byte m' (host k + o) = load_byte m (host k + o)) as Hpage.
  { intros k o l h m m' ??????. by apply (written_page la lv vm tbl lo n host Hinj v s4 l h). }
  split.
  - eapply (identity_paging_written v s s4 s9 _ (n - 514)); [exact Hg|lia|lia|exact Hp|exact Hw9].
  - intros o Ho. rewrite Hm9, <-(fi_page _ _ _ _ _ _ _ _ _ _ _ _ _ Hf6 o Ho).
    apply (Hpage _ _ lo (lo + kernel_pages)); [apply Hl7|lia..].
  - intros o Ho. assert (0 ≤ o < PAGE_SIZE) as Ho' by lia.
    rewrite Hm9, (Hpage (n - 516) o lo (lo + kernel_pages) (m_mem s6)) by (apply Hl7 || lia).
    rewrite (Hpage (n - 516) o (n - 515) (n - 515 + 1) (m_mem s5)) by (apply Hf6 || lia).
    rewrite (fi_page _ _ _ _ _ _ _ _ _ _ _ _ _ Hf5 o Ho'), page_string_lookup, decide_True by (rewrite length_app; cbn; lia).
    rewrite Z.sub_0_r. apply Z.mod_small.
    assert (Forall (λ c, 0 ≤ c < 256) (cmdline ++ [0])) as Hb.
    { apply Forall_app. split; [eapply Forall_impl; [exact Hstr|]; cbn; lia|by repeat constructor]. }
    eapply Forall_lookup_total_1 in Hb; [exact Hb|]. rewrite length_app. cbn. lia.
  - intros i Hi. rewrite Hm9. apply Hl7; [|lia]. unfold image_kernel_pages, PAGE_SIZE in *.
    destruct (_ =? 0) eqn:?; zlia.
  - eapply written_trans; [exact Hw|]. eapply written_mono; [| |exact Hw9]; lia.
Qed.

(** Two statements at once. *)
Lemma wp_two {A} (m1 m2 : M machine ()) (k : M machine A) E Q s :
  wp (m1;; m2) E (λ _ s', wp k E Q s') s → wp (m1;; m2;; k) E Q s.
Proof. intros H. apply (wp_bind_assoc m1 (λ _, m2) (λ _, k)). by apply wp_bind. Qed.

Lemma wp_vm_guest_linux_loader v cmdline s (Q : () → machine → Prop) :
  guest_inv v s → m_mem s = m0 → vm_guest_physical_pages v = n → vm_used_by_initial_setup v = 0 →
  gs_cr3 (guest_state (vm_vmcs_config v)) = 0 →
  image_field m0 ia "pref_address" = lo * PAGE_SIZE → lo + kernel_pages ≤ n - 516 →
  Forall (λ c, 0 < c < 256) cmdline →
  Z.of_nat (length cmdline) ≤ load_le 4 m0 (ia + hdr_offset "cmdline_size") →
  Z.of_nat (length cmdline) < PAGE_SIZE →
  (∀ s', guest_inv (linux_guest (with_cr3 (with_used v 516) ((n - 1) * PAGE_SIZE)) (u64 (lo * PAGE_SIZE + 0x200))
             ((n - 515) * PAGE_SIZE) (m_hw s)) s' →
     linux_loaded cmdline s' → hw_same (m_hw s) (m_hw s') → Q () s') →
  wp (vm_guest_linux_loader vm (P2V_IDENTITY_MAP ia) image_size cmdline) no_panic Q s.
Proof.
  intros Hg Hmem Hn Hu Hcr3 Hpref Hlo Hstr Hcl Hcp HQ. unfold vm_guest_linux_loader.
  assert (0 ≤ kernel_pages) as Hkp.
  { pose proof kernel_size_bound. unfold image_kernel_pages, PAGE_SIZE. destruct (_ =? 0); zlia. }
  wp_step. eapply wp_vm_get; [apply Hg|]. rewrite Hcr3. change (negb (0 =? 0)) with false. cbv iota.
  wp_step. apply (wp_guest_setup_identity v); [done|lia|done|done|]. intros s1 Hg1 Hp1 Hh1.
  assert (written lo n m0 (m_mem s1)) as Hw1.
  { eapply written_mono; [| |rewrite <-Hmem; apply (ip_ram _ _ _ _ _ Hp1)]; lia. }
  wp_step. eapply wp_guest_vm_modify; [exact Hg1|reflexivity..|]. intros s2 Hg2 Hm2 Hh2.
  rewrite <-Hm2 in Hp1, Hw1.
  wp_step. apply wp_image_hdr_load; [done|done|done|]. cbv zeta.
  change (Z.shiftr _ 8 + offsetof linux_setup_header_t "jump" + 2) with (image_header_size m0 ia).
  wp_step. apply wp_linux_check_header; [done|].
  wp_step. eapply (wp_linux_setup_page _ (n - 515)); [exact Hg2|lia|exact Hn|cbn; lia|]. intros s3 Hg3 Hm3 Hh3.
  wp_step. eapply (wp_linux_setup_page _ (n - 516)); [exact Hg3|lia|exact Hn|cbn; lia|]. intros s4 Hg4 Hm4 Hh4.
  replace (n - (n - 516)) with 516 in Hg4 by lia.
  change (guest_inv (with_cr3 (with_used v 516) ((n - 1) * PAGE_SIZE)) s4) in Hg4.
  assert (vm_guest_physical_pages (with_cr3 (with_used v 516) ((n - 1) * PAGE_SIZE)) = n) as Hn4 by exact Hn.
  assert (vm_used_by_initial_setup (with_cr3 (with_used v 516) ((n - 1) * PAGE_SIZE)) = 516) as Hu4 by reflexivity.
  set (v4 := with_cr3 (with_used v 516) ((n - 1) * PAGE_SIZE)) in *. clearbody v4.
  assert (m_mem s4 = m_mem s2) as Hm42 by congruence. assert (m_hw s4 = m_hw s) as Hh4s by congruence.
  rewrite <-Hm42 in Hp1, Hw1. clear s1 s3 Hg1 Hg2 Hg3 Hm2 Hm3 Hm4 Hh1 Hh2 Hh3 Hh4 Hm42.
  wp_step. eapply wp_linux_check_memory; [exact Hg4|done|done|done|].
  wp_step. eapply (wp_linux_write_cmdline v4 (n - 516)); [done|lia|done|done|done|]. intros s5 c Hf5.
  assert (written lo n m0 (m_mem s5)) as Hw5.
  { eapply written_trans; [exact Hw1|]. eapply written_mono; [| |apply Hf5]; lia. }
  apply wp_two.
  eapply (wp_linux_copy_header v4 (n - 515)); [apply Hf5|lia|done|]. intros s6 Hf6.
  wp_step. eapply wp_linux_log_image; [exact Hf6|lia| |].
  { eapply written_trans; [exact Hw5|]. eapply written_mono; [| |apply Hf6]; lia. }
  clear s6 Hf6. intros s6 Hf6.
  wp_step. eapply wp_linux_fill_zeropage; [exact Hf6|lia|exact Hn4|].
  clear s6 Hf6. intros s6 Hf6.
  assert (written lo n m0 (m_mem s6)) as Hw6.
  { eapply written_trans; [exact Hw5|]. eapply written_mono; [| |apply Hf6]; lia. }
  wp_step. eapply wp_zeropage_load; [exact Hf6|lia|done|done|].
  change (member_size linux_setup_header_t "setup_sects") with 1%nat. rewrite linux_zeropage_setup_sects.
  destruct (linux_zeropage_fields_image m0 ia ((n - 516) * PAGE_SIZE) n) as [Hp Hal].
  wp_step. eapply wp_zeropage_load; [exact Hf6|lia|done|done|].
  change (member_size linux_setup_header_t "pref_address") with 8%nat. rewrite Hp.
  wp_step. eapply wp_zeropage_load; [exact Hf6|lia|done|done|].
  change (member_size linux_setup_header_t "kernel_alignment") with 4%nat. rewrite Hal.
  destruct (Z.eqb_spec (image_field m0 ia "kernel_alignment") 0) as [H0|_]; [by destruct (li_alignment _ _ _ Himg)|].
  rewrite (li_aligned _ _ _ Himg). change (negb (0 =? 0)) with false. cbv iota.
  pose proof (image_setup_sects_bound m0 ia) as Hss. pose proof (li_window _ _ _ Himg) as Hwin.
  pose proof image_size_bound as Hsz. pose proof kernel_size_bound as Hks.
  assert (u64 (P2V_IDENTITY_MAP ia + (image_setup_sects m0 ia + 1) * 512) = P2V_IDENTITY_MAP (image_kernel m0 ia)) as ->
    by (apply P2V_offset; lia).
  assert (u64 (u64 (P2V_IDENTITY_MAP ia + image_size) - P2V_IDENTITY_MAP (image_kernel m0 ia)) = kernel_size) as ->.
  { unfold image_kernel_size, image_kernel in *. rewrite P2V_offset, !P2V_address by lia. rewrite wrap_small; lia. }
  rewrite Hpref. wp_step.
  eapply (wp_linux_load_kernel v4); [apply Hf6|done|lia|]. intros s7 Hl7.
  wp_step. eapply (wp_linux_guest_state v4); [apply Hl7|]. intros s8 Hg8 Hm8 Hh8.
  eapply wp_LOG_line; [apply Hg8| |].
  { solve_log_ok; unfold PAGE_SIZE in *; lia. }
  intros s9 Hfr Hc9. assert (m_mem s9 = m_mem s7) as Hm9 by (destruct Hfr as [-> _]; exact Hm8).
  assert (hw_same (m_hw s) (m_hw s7)) as Hhw7.
  { rewrite <-Hh4s. etrans; [apply Hf5|]. etrans; [apply Hf6|]. apply Hl7. }
  apply HQ.
  - rewrite <-(linux_guest_same _ _ _ _ _ Hhw7). by eapply guest_inv_console.
  - eapply (linux_loaded_end v4 c cmdline s s4 s5 s6 s7); try done. lia.
  - etrans; [exact Hhw7|]. rewrite <-Hh8. apply Hfr.
Qed.

End loader.

(** * Properties *)

Section properties.
Context `{HW : Hardware} {PF : PollFuel} {CON : Console}.

(** A byte of the guest, at a linear address. *)
Definition guest_byte (v : vm_t) (m : mem) (gla : Z) : option Z :=
  load_byte m <$> guest_address v m (gs_cr3 (guest_state (vm_vmcs_config v))) gla.

Lemma guest_byte_page la lv vm v tbl lo n host s k o :
  guest_inv la lv vm tbl lo n host v s → 0 ≤ lo → n * PAGE_SIZE ≤ 2 ^ 39 →
  gs_cr3 (guest_state (vm_vmcs_config v)) = (n - 1) * PAGE_SIZE →
  (∀ gla, guest_walk 3 v (m_mem s) ((n - 1) * PAGE_SIZE) gla =
     if (gla / 2 ^ 39) mod 512 =? 0 then Some (gla mod 2 ^ 39) else None) →
  lo ≤ k < n → 0 ≤ o < PAGE_SIZE →
  guest_byte v (m_mem s) (k * PAGE_SIZE + o) = Some (load_byte (m_mem s) (host k + o)).
Proof.
  intros Hg Hlo Hn Hcr3 Hw Hk Ho. pose proof (gr_translate _ _ _ _ (gi_ram _ _ _ _ _ _ _ _ _ Hg k Hk)) as Ht.
  unfold guest_byte, guest_address. unfold PAGE_SIZE in *.
  rewrite Hcr3, PAGE_MASK_spec, Z.div_mul, Hw by lia.
  rewrite (Z.div_small _ (2 ^ 39)), (Z.mod_small _ (2 ^ 39)) by lia. change (0 mod 512 =? 0) with true.
  cbn [mbind option_bind]. rewrite (Z.mod_small _ (2 ^ 48)) by lia.
  rewrite ept_translate_offset by (try lia; by apply Z.mod_mul).
  by rewrite Ht.
Qed.

(** C14: on a bzImage with a 64-bit entry point whose kernel fits below the pages of the
    setup, [vm_guest_linux_loader] always returns, and the guest is ready to boot: with its
    CR3, every linear address of the first 512 GiB is its own physical address, the guest
    reads the protected-mode kernel at [pref_address], the NUL-terminated command line at
    the address that is written in the zero page, and at RSI a zero page made of the header
    of the image, of the fields of the loader (the command line, two E820 entries for all
    of the memory) and of zeros; it starts 512 bytes after the beginning of the kernel with
    the control registers and the tables of the host. Only memory of the guest is written,
    and the EPT is kept. *)
Theorem vm_guest_linux_loader_correct la lv vm v tbl lo host ia image_size cmdline s :
  let n := vm_guest_physical_pages v in
  let m := m_mem s in
  ept_inv la lv vm v tbl s → console_inv s → vm_used_by_initial_setup v = 0 →
  gs_cr3 (guest_state (vm_vmcs_config v)) = 0 → n * PAGE_SIZE ≤ 2 ^ 39 →
  (∀ k, lo ≤ k < n → guest_ram v m k (host k)) →
  (∀ k k', lo ≤ k < n → lo ≤ k' < n → host k = host k' → k = k') →
  linux_image m ia image_size →
  (∀ a k, ia ≤ a < ia + image_size → lo ≤ k < n → ¬ (host k ≤ a < host k + PAGE_SIZE)) →
  image_field m ia "pref_address" = lo * PAGE_SIZE →
  lo + image_kernel_pages m ia image_size ≤ n - 516 → 4612 + image_size / PAGE_SIZE < n →
  Forall (λ c, 0 < c < 256) cmdline →
  Z.of_nat (length cmdline) ≤ load_le 4 m (ia + hdr_offset "cmdline_size") →
  Z.of_nat (length cmdline) < PAGE_SIZE →
  ∃ s', vm_guest_linux_loader vm (P2V_IDENTITY_MAP ia) image_size cmdline s = Ok ((), s') ∧
    let zeropage := (n - 515) * PAGE_SIZE in
    let cmd := (n - 516) * PAGE_SIZE in
    let v' := linux_guest (with_cr3 (with_used v 516) ((n - 1) * PAGE_SIZE))
      (lo * PAGE_SIZE + 0x200) zeropage (m_hw s) in
    let m' := m_mem s' in
    ept_inv la lv vm v' tbl s' ∧ console_inv s' ∧
    (∀ gla, guest_walk 3 v' m' ((n - 1) * PAGE_SIZE) gla =
       if (gla / 2 ^ 39) mod 512 =? 0 then Some (gla mod 2 ^ 39) else None) ∧
    (∀ i, 0 ≤ i < image_kernel_size m ia image_size →
       guest_byte v' m' (lo * PAGE_SIZE + i) = Some (load_byte m (image_kernel m ia + i))) ∧
    (∀ i, 0 ≤ i ≤ Z.of_nat (length cmdline) →
       guest_byte v' m' (cmd + i) = Some ((cmdline ++ [0]) !!! Z.to_nat i)) ∧
    (∀ o, 0 ≤ o < PAGE_SIZE → guest_byte v' m' (zeropage + o) = Some (linux_zeropage m ia cmd n o)) ∧
    (∀ a, (∀ k, lo ≤ k < n → ¬ (host k ≤ a < host k + PAGE_SIZE)) → load_byte m' a = load_byte m a).
Proof.
  intros n m Hinv Hcon Hu Hcr3 Hn Hram Hinj Himg Hdisj Hpref Hlo Hsize Hstr Hcl Hcp.
  assert (0 ≤ lo) as Hlo0.
  { pose proof (image_field_bound m ia "pref_address"). unfold PAGE_SIZE in *. lia. }
  destruct (wp_no_panic_unit (vm_guest_linux_loader vm (P2V_IDENTITY_MAP ia) image_size cmdline) (λ s',
    guest_inv la lv vm tbl lo n host (linux_guest (with_cr3 (with_used v 516) ((n - 1) * PAGE_SIZE))
      (u64 (lo * PAGE_SIZE + 0x200)) ((n - 515) * PAGE_SIZE) (m_hw s)) s' ∧
    linux_loaded lo n host m ia image_size cmdline s') s) as (s' & Heq & Hg & [Hp Hz Hc Hk Ho]).
  { eapply (wp_vm_guest_linux_loader la lv vm tbl lo n host m ia image_size); try done. lia. }
  assert (0 ≤ image_kernel_pages m ia image_size) as Hkp.
  { pose proof (kernel_size_bound m ia image_size Himg). unfold image_kernel_pages, PAGE_SIZE. cbv zeta.
    destruct (_ =? 0); zlia. }
  exists s'. split; [exact Heq|]. cbv zeta.
  rewrite (wrap_small 64) in Hg by (unfold PAGE_SIZE in *; lia).
  set (v' := linux_guest _ _ _ _) in *.
  assert (∀ gla, guest_walk 3 v' (m_mem s') ((n - 1) * PAGE_SIZE) gla =
       if (gla / 2 ^ 39) mod 512 =? 0 then Some (gla mod 2 ^ 39) else None) as Hwalk.
  { intros gla. apply (identity_walk la lv vm v' tbl s' (n - 514) n host (gi_ept _ _ _ _ _ _ _ _ _ Hg)
      ltac:(unfold PAGE_SIZE in *; lia) (λ k Hk', gi_ram _ _ _ _ _ _ _ _ _ Hg k ltac:(lia)) eq_refl _ 516); done. }
  assert (∀ k o, lo ≤ k < n → 0 ≤ o < PAGE_SIZE →
    guest_byte v' (m_mem s') (k * PAGE_SIZE + o) = Some (load_byte (m_mem s') (host k + o))) as Hbyte.
  { intros k o. by apply (guest_byte_page la lv vm v' tbl lo n host s'). }
  split_and!; [apply Hg|apply Hg|exact Hwalk| | | |exact Ho].
  - intros i Hi.
    assert (i / PAGE_SIZE < image_kernel_pages m ia image_size).
    { unfold image_kernel_pages, PAGE_SIZE. cbv zeta. destruct (Z.eqb_spec (image_kernel_size m ia image_size mod 0x1000) 0); zlia. }
    rewrite <-Hk by exact Hi.
    replace (lo * PAGE_SIZE + i) with ((lo + i / PAGE_SIZE) * PAGE_SIZE + i mod PAGE_SIZE) by (unfold PAGE_SIZE; zlia).
    apply Hbyte; [unfold PAGE_SIZE in *; zlia|by apply Z.mod_pos_bound].
  - intros i Hi. rewrite Hbyte, Hc by lia. done.
  - intros o Hoff. rewrite Hbyte, Hz by lia. done.
Qed.
End properties.

(** * Witness *)

(** A small image at 0x20000000, beyond the memory of the guest: one sector of setup, then
    eight bytes of kernel. *)
Definition small_image_fields : list (Z * nat * Z) := [
  hdr_field "setup_sects" 1; hdr_field "jump" 0x66eb; hdr_field "header" 0x53726448;
  hdr_field "version" 0x20f; hdr_field "xloadflags" 1; hdr_field "cmdline_size" 255;
  hdr_field "kernel_alignment" 0x200000; hdr_field "pref_address" 0x1000000;
  (1024, 8%nat, 0x1122334455667788)].
Definition small_image_byte : Z → Z := page_fields (λ _, 0) small_image_fields.
Definition small_image_address : Z := 0x20000000.
Definition small_image_size : Z := 1032.
Definition small_image_memory (m : mem) : mem :=
  foldl (λ m '(off, n, w), store_le n m (small_image_address + off) w)
    (memset m small_image_address 0 small_image_size) small_image_fields.

Lemma fields_memory fields m c a size :
  Forall (λ '(off, n, _), 0 ≤ off ∧ off + Z.of_nat n ≤ size) fields →
  (∀ o, 0 ≤ o < size → load_byte m (a + o) = c o) →
  let m' := foldl (λ m '(off, n, w), store_le n m (a + off) w) m fields in
  (∀ o, 0 ≤ o < size → load_byte m' (a + o) = page_fields c fields o) ∧
  ∀ b, b < a ∨ a + size ≤ b → load_byte m' b = load_byte m b.
Proof.
  intros Hf. revert m c. induction Hf as [|[[off n] w] fields [Ho Hn] Hf IH]; intros m c Hm; [done|]. cbn [foldl].
  destruct (IH (store_le n m (a + off) w) (page_override c off n w)) as [H1 H2].
  { intros o Ho'. rewrite load_byte_store. unfold page_override. rewrite Hm by done.
    replace (a + o - (a + off)) with (o - off) by lia. repeat case_decide; (done || lia). }
  split; [exact H1|]. intros b Hb. rewrite H2 by done. apply load_byte_store_other. lia.
Qed.

Lemma small_image_memory_bytes m :
  (∀ o, 0 ≤ o < small_image_size → load_byte (small_image_memory m) (small_image_address + o) = small_image_byte o) ∧
  ∀ b, b < small_image_address ∨ small_image_address + small_image_size ≤ b →
    load_byte (small_image_memory m) b = load_byte m b.
Proof.
  destruct (fields_memory small_image_fields (memset m small_image_address 0 small_image_size) (λ _, 0)
    small_image_address small_image_size) as [H1 H2].
  { repeat constructor; cbn; discriminate. }
  { intros o Ho. rewrite load_byte_memset, decide_True by lia. done. }
  split; [exact H1|]. intros b Hb. unfold small_image_memory. rewrite H2 by exact Hb.
  rewrite load_byte_memset, decide_False by lia. done.
Qed.

Lemma small_image_load m k off : 0 ≤ off → off + Z.of_nat k ≤ small_image_size →
  load_le k (small_image_memory m) (small_image_address + off) = page_load k small_image_byte off.
Proof. intros H0 Hk. apply page_load_memory. intros o Ho. apply small_image_memory_bytes. lia. Qed.

(** The header has 119 bytes. *)
Definition small_image_zeropage : Z → Z := λ o, if decide (0x1f1 ≤ o < 0x1f1 + 119) then small_image_byte o else 0.
Lemma small_image_zeropage_eq m o :
  image_zeropage (small_image_memory m) small_image_address o = small_image_zeropage o.
Proof.
  unfold image_zeropage, small_image_zeropage, image_header_size.
  rewrite small_image_load by (vm_compute; discriminate).
  change (Z.shiftr _ 8 + _ + 2) with 119. change (hdr_offset "setup_sects") with 0x1f1.
  case_decide; [|done]. apply small_image_memory_bytes. unfold small_image_size. lia.
Qed.
Lemma small_image_field m member :
  image_field (small_image_memory m) small_image_address member =
    page_load (member_size linux_setup_header_t member) small_image_zeropage (hdr_offset member).
Proof. apply page_load_ext. intros o _. apply small_image_zeropage_eq. Qed.
Lemma small_image_kernel m : image_kernel (small_image_memory m) small_image_address = small_image_address + 1024.
Proof. unfold image_kernel, image_setup_sects. rewrite small_image_field. reflexivity. Qed.

Lemma small_image_ok m : linux_image (small_image_memory m) small_image_address small_image_size.
Proof.
  split.
  - split; discriminate.
  - rewrite small_image_kernel. discriminate.
  - rewrite small_image_load by (vm_compute; discriminate). reflexivity.
  - rewrite small_image_load by (vm_compute; discriminate). reflexivity.
  - rewrite small_image_field. discriminate.
  - rewrite !small_image_field. reflexivity.
  - rewrite small_image_field. exists 8%nat. split; [reflexivity|].
    change (page_load _ small_image_zeropage (hdr_offset "kernel_version")) with 0. cbv zeta.
    assert (∀ o, 0 ≤ o < small_image_size →
      load_byte (small_image_memory m) (small_image_address + o) = small_image_byte o) as Hb
      by apply small_image_memory_bytes.
    split.
    + rewrite <-!Z.add_assoc, Hb by (unfold small_image_size; lia). reflexivity.
    + intros i Hi. rewrite <-!Z.add_assoc, Hb by (unfold small_image_size; lia).
      assert (i = 0 ∨ i = 1 ∨ i = 2 ∨ i = 3 ∨ i = 4 ∨ i = 5 ∨ i = 6 ∨ i = 7) as Hc by lia.
      destruct Hc as [->|[->|[->|[->|[->|[->|[->| ->]]]]]]]; vm_compute; discriminate.
Qed.

Definition linux_machine : machine :=
  identity_machine <| m_mem := small_image_memory (m_mem identity_machine) |>.

#[local] Opaque identity_machine identity_vm small_image_memory small_image_byte.

Lemma linux_machine_ept : ∃ tbl,
  ept_inv [vm_arena] [vm_address] vm_address identity_vm tbl linux_machine ∧
  ∀ k, 0x18 ≤ k < 0x20000 → guest_ram identity_vm (m_mem linux_machine) k (k * PAGE_SIZE).
Proof.
  destruct identity_machine_ept as (tbl & Hinv & _). exists tbl.
  destruct (ept_inv_guest_memory [vm_arena] [vm_address] vm_address identity_vm tbl identity_machine
    (small_image_memory (m_mem identity_machine)) Hinv) as [Hi Ht].
  - intros res p a Hp Ha. apply small_image_memory_bytes. left. unfold PAGE_SIZE, small_image_address in *.
    destruct (Z.leb_spec 0x18000 p) as [Hle|Hlt]; [|lia]. destruct (identity_not_ept res p Hle Hp).
  - split; [exact Hi|]. intros k Hk. destruct (identity_machine_ram k ltac:(lia)) as [H1 H2 H3].
    split; [|exact H2|exact H3]. rewrite <-H1. apply Ht. unfold PAGE_SIZE. lia.
Qed.

Lemma linux_machine_vm :
  gs_cr3 (guest_state (vm_vmcs_config identity_vm)) = 0 ∧ m_serial_initialized linux_machine = false.
Proof. split; vm_compute; reflexivity. Qed.

(** Witness: the image is loaded in the VM of 512 MiB; its kernel is at 16 MiB, its zero
    page at 0x1fdfd000 and its command line at 0x1fdfc000. *)
Lemma vm_guest_linux_loader_correct_witness :
  ∃ s' v', vm_guest_linux_loader vm_address (P2V_IDENTITY_MAP small_image_address) small_image_size
      (bytes_of_string "quiet") linux_machine = Ok ((), s') ∧
    gs_rip (guest_state (vm_vmcs_config v')) = 0x1000200 ∧ reg_rsi (vm_initial_gpr_state v') = 0x1fdfd000 ∧
    guest_byte v' (m_mem s') 0x1000000 = Some 0x88 ∧ guest_byte v' (m_mem s') 0x1fdfc000 = Some 0x71 ∧
    guest_byte v' (m_mem s') (0x1fdfd000 + 0x1e8) = Some 2.
Proof.
  destruct linux_machine_ept as (tbl & Hinv & Hram). destruct linux_machine_vm as [Hcr3 Hser].
  destruct identity_vm_fields as (Hn & Hu & _).
  assert (m_mem linux_machine = small_image_memory (m_mem identity_machine)) as Hm by reflexivity.
  pose proof (small_image_ok (m_mem identity_machine)) as Himg.
  pose proof (small_image_field (m_mem identity_machine)) as Hfield.
  pose proof (small_image_load (m_mem identity_machine)) as Hload.
  pose proof (small_image_kernel (m_mem identity_machine)) as Hkernel.
  assert (console_inv linux_machine) as Hcon by by intros ?%(eq_trans (eq_sym Hser)).
  assert (load_byte (small_image_memory (m_mem identity_machine)) (small_image_address + 1024 + 0) = 0x88) as Hbyte
    by (rewrite <-Z.add_assoc; apply small_image_memory_bytes; vm_compute; split; [discriminate|reflexivity]).
  rewrite <-Hm in Himg, Hfield, Hload, Hkernel, Hbyte. clear Hm Hser.
  assert (image_kernel_size (m_mem linux_machine) small_image_address small_image_size = 8) as Hks
    by (unfold image_kernel_size; rewrite Hkernel; reflexivity).
  destruct (vm_guest_linux_loader_correct [vm_arena] [vm_address] vm_address identity_vm tbl 0x1000 (λ k, k * PAGE_SIZE)
    small_image_address small_image_size (bytes_of_string "quiet") linux_machine Hinv Hcon Hu Hcr3)
    as (s' & Heq & _ & _ & _ & Hk & Hc & Hz & _).
  - rewrite Hn. discriminate.
  - rewrite Hn. intros k Hk. apply Hram. lia.
  - unfold PAGE_SIZE. lia.
  - exact Himg.
  - rewrite Hn. unfold PAGE_SIZE, small_image_address, small_image_size. lia.
  - rewrite Hfield. reflexivity.
  - rewrite Hn. unfold image_kernel_pages. rewrite Hks. discriminate.
  - rewrite Hn. reflexivity.
  - repeat constructor.
  - rewrite Hload by (vm_compute; discriminate). vm_compute. discriminate.
  - reflexivity.
  - rewrite Hn in Hk, Hc, Hz. specialize (Hk 0 ltac:(rewrite Hks; lia)). specialize (Hc 0 ltac:(lia)).
    specialize (Hz 0x1e8 ltac:(unfold PAGE_SIZE; lia)). rewrite Hkernel, Hbyte in Hk.
    unfold linux_zeropage, linux_zeropage_fields in Hz. rewrite !Hfield in Hz.
    match type of Hk with guest_byte ?v' _ _ = _ => set (v0 := v') in *; exists s', v0 end.
    split; [exact Heq|]. split; [reflexivity|]. split; [reflexivity|]. split; [exact Hk|]. split; [exact Hc|exact Hz].
Defined.
