(* ===== verification/Main.v ===== *)
(** The entry point of the hypervisor (hv/src/main.c): [hvmain] sets the processor up, makes
    a VM with its memory, puts a guest in it, and launches it.

    The bytes of the guest of hv/src/vmm/guest_hello_world.asm are an argument: the assembler
    makes them. *)
From S2P Require Import Prelude Memory Machine Registers PageUse PageAllocator.
From S2P Require Import VmxInstructions VmxEpt VmManager Strings Console Uart.
From S2P Require Import GuestPaging Descriptors Vmcs Setup LinuxLoader.

Section code.
Context `{DI : DescriptorInstructions} {XI : XcrInstructions} {PF : PollFuel} {KI : KernelImage}.

(** What the build defines: [RKHV_HASH] and the program of the guest. *)
Context (RKHV_HASH vm_guest_hello_world : list Z).

Definition main_log_category : list Z := bytes_of_string "main".

(** The calls up to [vmx_setup]. The chainload page is at the address [chainload_page]. *)
Definition hvmain_setup (chainload_page : Z) (cp : chainload_page_t) : M machine () :=
  LOG main_log_category (bytes_of_string "rkhv loaded - git:" ++ RKHV_HASH ++
    bytes_of_string " - chainload_page @ %p") [ArgInt chainload_page];;
  segments_setup;;
  xsave_setup;;
  interrupts_setup;;
  mm_setup cp;;

  vmx_setup.

(** [vm->vmcs_config.guest_state.member = ...] *)
Definition set_guest_state (vm : Z) (f : vmx_guest_state_t → vmx_guest_state_t) : M machine () :=
  vm_modify vm (λ v, v <| vm_vmcs_config :=
    (vm_vmcs_config v) <| guest_state := f (guest_state (vm_vmcs_config v)) |> |>).

(** The guest when there is no Linux kernel. *)
Definition hvmain_hello_world (vm : Z) : M machine () :=
  guest_cr3 ← vm_guest_paging_setup_identity vm;
  LOG main_log_category (bytes_of_string "guest identity paging setup with PML4 @ %p") [ArgInt guest_cr3];;

  let guest_rip := 0x7c00 in
  guest_rip_hostpa ← vmx_ept_get_host_physical_address vm guest_rip;
  match guest_rip_hostpa with
  | None => mpanic "Unable to resolve guest physical address for copying guest code"
  | Some guest_rip_hostpa =>
    copy_string (P2V_IDENTITY_MAP guest_rip_hostpa) vm_guest_hello_world;;

    set_guest_state vm (λ g, g <| gs_rip := guest_rip |>);;
    set_guest_state vm (λ g, g <| gs_rsp := 0 |>);;
    cr0 ← cr0_read; set_guest_state vm (λ g, g <| gs_cr0 := cr0 |>);;
    set_guest_state vm (λ g, g <| gs_cr3 := guest_cr3 |>);;
    cr4 ← cr4_read; set_guest_state vm (λ g, g <| gs_cr4 := cr4 |>);;
    efer ← rdmsr IA32_EFER; set_guest_state vm (λ g, g <| gs_ia32_efer := efer |>);;
    set_guest_state vm (λ g, g <| gs_cs := RKHV_CS |>);;
    set_guest_state vm (λ g, g <| gs_ds := RKHV_DS |>);;
    idtr ← interrupts_sidt; set_guest_state vm (λ g, g <| gs_idtr := idtr |>);;
    gdtr ← segments_sgdt; set_guest_state vm (λ g, g <| gs_gdtr := gdtr |>)
  end.

Definition cmdline_default : list Z :=
  bytes_of_string "earlyprintk=serial,ttyS0 console=ttyS0 nokaslr noapic nolapic".

(** The choice of the guest: the image of Linux, when the boot loader found one. *)
Definition hvmain_guest (vm : Z) : M machine () :=
  '(linux_bzimage, linux_bzimage_size) ← mm_get_attachment CHAINLOAD_ATTACHMENT_LINUX_BZIMAGE;
  if negb (linux_bzimage =? 0) && (0 <? linux_bzimage_size)
  then vm_guest_linux_loader vm linux_bzimage linux_bzimage_size cmdline_default
  else hvmain_hello_world vm.

(** From the VMCS to the launch. *)
Definition hvmain_launch (vm : Z) : M machine () :=
  vmx_create_initialized_vmcs vm;;
  v ← vm_get vm;
  LOG main_log_category (bytes_of_string "new initialized VMCS created @ %p") [ArgInt (vm_vmcs_region v)];;

  com1 ← vmd_8250uart_create COM1 (bytes_of_string "COM1");
  vm_manager_register_device vm com1;;
  com2 ← vmd_8250uart_create COM2 (bytes_of_string "COM2");
  vm_manager_register_device vm com2;;

  vm_manager_launch vm.

Definition hvmain (chainload_page : Z) (cp : chainload_page_t) : M machine () :=
  hvmain_setup chainload_page cp;;

  vm ← vm_manager_create_vmx_machine (bytes_of_string "hello_vm");

  vm_manager_allocate_guest_physical_memory vm (64 * 1024 * 1024 / PAGE_SIZE);;
  v ← vm_get vm;
  LOG main_log_category (bytes_of_string "64MiB guest physical memory allocated for VM with EPT @ %p")
    [ArgInt (eptp (vm_vmcs_config v))];;

  hvmain_guest vm;;
  hvmain_launch vm.

End code.
