(* ===== verification/MainFrame.v ===== *)
(** What the steps of [hvmain] leave alone, and the laws of the processor that the whole
    sequence relies on.

    [keeps f m]: the computation [m] does not change the part [f] of the state when it
    returns. It holds for a whole function as soon as it holds for its assignments. *)
From S2P Require Import Prelude Memory Machine Registers SimpleCpu PageUse PageAllocator Arena.
From S2P Require Import VmxInstructions VmxMsr VmTracking VmxPages VmxEpt VmxEptSpec EptCorrect VmManager.
From S2P Require Import Strings Console GuestPaging Descriptors Vmcs Setup GuestMemory LinuxLoader Main.

(** * Frames *)

Section keeps.
Context {St R : Type} (f : St → R).

Definition keeps {A} (m : M St A) : Prop := ∀ s a s', m s = Ok (a, s') → f s' = f s.

Lemma keeps_ret {A} (a : A) : keeps (mret a).
Proof. by intros s ? ? [= <- <-]. Qed.
Lemma keeps_bind {A B} (m : M St A) (k : A → M St B) : keeps m → (∀ a, keeps (k a)) → keeps (m ≫= k).
Proof. intros Hm Hk s b s' (a & s1 & H1 & H2)%bind_ok_inv. by rewrite (Hk a _ _ _ H2), (Hm _ _ _ H1). Qed.
Lemma keeps_get : keeps mget.
Proof. by intros s ? ? [= <- <-]. Qed.
Lemma keeps_gets {A} (g : St → A) : keeps (mgets g).
Proof. by intros s ? ? [= <- <-]. Qed.
Lemma keeps_modify (g : St → St) : (∀ s, f (g s) = f s) → keeps (mmodify g).
Proof. by intros Hg s ? ? [= <- <-]. Qed.
Lemma keeps_panic {A} msg : keeps (mpanic (A := A) msg).
Proof. by intros s ? ?. Qed.
Lemma keeps_fault {A} va : keeps (mfault (A := A) va).
Proof. by intros s ? ?. Qed.
Lemma keeps_undefined {A} : keeps (mundefined (A := A)).
Proof. by intros s ? ?. Qed.
Lemma keeps_out_of_fuel {A} : keeps (mout_of_fuel (A := A)).
Proof. by intros s ? ?. Qed.

Lemma keeps_for_from n i (body : Z → M St ()) : (∀ i, keeps (body i)) → keeps (mfor_from n i body).
Proof.
  intros Hb. revert i. induction n as [|n IH]; intros i; [apply keeps_ret|]. by apply keeps_bind.
Qed.
Lemma keeps_for n (body : Z → M St ()) : (∀ i, keeps (body i)) → keeps (mfor n body).
Proof. apply keeps_for_from. Qed.

(** A frame is added to a postcondition. *)
Lemma wp_keeps {A} (m : M St A) E (Q : A → St → Prop) s :
  keeps m → wp m E (λ a s', f s' = f s → Q a s') s → wp m E Q s.
Proof. unfold wp. intros Hm. specialize (Hm s). destruct (m s) as [[a s']| | | |]; [|done..]. intros HQ. by apply HQ, (Hm a). Qed.
End keeps.

Create HintDb keeps.
#[export] Hint Resolve keeps_ret keeps_get keeps_gets keeps_panic keeps_fault keeps_undefined keeps_out_of_fuel : keeps.

(** The structure of the code; what is left are the functions that it calls. *)
Ltac keeps_step :=
  lazymatch goal with
  | |- keeps _ (mbind _ _) => apply keeps_bind; [|intros ?]
  | |- keeps _ (mmodify _) => apply keeps_modify; intros ?; reflexivity
  | |- keeps _ (mfor _ _) => apply keeps_for; intros ?
  | |- keeps _ (if ?b then _ else _) => destruct b
  | |- keeps _ (match ?x with _ => _ end) => destruct x
  | |- keeps _ (let '_ := ?x in _) => destruct x
  | |- keeps _ _ => solve [auto with keeps]
  end.
Ltac solve_keeps := repeat (cbv zeta; keeps_step).

(** * What preparing a guest leaves alone *)

Section rest.
Context `{DI : DescriptorInstructions} {PF : PollFuel} {KI : KernelImage}.

(** The variables of the hypervisor that describe the host. *)
Definition rest (s : machine) :=
  (m_chainload s, m_vmxon_region_valid s, m_vmxon_region s, m_msr_bitmaps_page_valid s, m_vmd_device_arena s,
   m_xsave_host_xcr0 s, m_xsave_area_size s, m_GDT s, m_IDT s).

Lemma keeps_vm_get vm : keeps rest (vm_get vm).
Proof. unfold vm_get. solve_keeps. Qed.
Lemma keeps_vm_modify vm f : keeps rest (vm_modify vm f).
Proof. unfold vm_modify. pose proof keeps_vm_get. solve_keeps. Qed.
Lemma keeps_deref_load n va : keeps rest (deref_load n va).
Proof. unfold deref_load. solve_keeps. Qed.
Lemma keeps_deref_store n va v : keeps rest (deref_store n va v).
Proof. unfold deref_store. solve_keeps. Qed.
Lemma keeps_memset_va va c n : keeps rest (memset_va va c n).
Proof. unfold memset_va. solve_keeps. Qed.
Lemma keeps_memcpy_va a b n : keeps rest (memcpy_va a b n).
Proof. unfold memcpy_va. solve_keeps. Qed.
Hint Resolve keeps_vm_get keeps_vm_modify keeps_deref_load keeps_deref_store keeps_memset_va keeps_memcpy_va : keeps.

Lemma keeps_vmx_ept_get_host_physical_address vm a : keeps rest (vmx_ept_get_host_physical_address vm a).
Proof. unfold vmx_ept_get_host_physical_address. solve_keeps. Qed.
Hint Resolve keeps_vmx_ept_get_host_physical_address : keeps.

Lemma keeps_vm_guest_paging_setup_identity vm : keeps rest (vm_guest_paging_setup_identity vm).
Proof. unfold vm_guest_paging_setup_identity, guest_page_used, ept_get_hostva. solve_keeps. Qed.
Hint Resolve keeps_vm_guest_paging_setup_identity : keeps.

Lemma keeps_copy_string str dest : keeps rest (copy_string dest str).
Proof. revert dest. induction str as [|c str IH]; intros dest; cbn [copy_string]; solve_keeps. Qed.
Lemma keeps_load_string fuel va : keeps rest (load_string fuel va).
Proof. revert va. induction fuel as [|fuel IH]; intros va; cbn [load_string]; solve_keeps. Qed.
Hint Resolve keeps_copy_string keeps_load_string : keeps.

(** ** The console *)

Lemma keeps_serial_wait fuel : keeps rest (serial_wait fuel).
Proof. induction fuel as [|fuel IH]; cbn [serial_wait]; unfold inb; solve_keeps. Qed.
Hint Resolve keeps_serial_wait : keeps.
Lemma keeps_serial_write_byte c : keeps rest (serial_write_byte c).
Proof. unfold serial_write_byte, serial_init, outb. solve_keeps. Qed.
Hint Resolve keeps_serial_write_byte : keeps.
Lemma keeps_stdio_puts str : keeps rest (stdio_puts str).
Proof.
  destruct str as [str|]; [|apply keeps_fault]. cbn [stdio_puts].
  induction str as [|c str IH]; cbn [stdio_puts_loop]; unfold stdio_putc; solve_keeps.
Qed.
Hint Resolve keeps_stdio_puts : keeps.


Lemma keeps_buffer_store buffer i v : keeps rest (buffer_store buffer i v).
Proof. unfold buffer_store. solve_keeps. Qed.
Lemma keeps_bytes_to_nul buffer : keeps rest (bytes_to_nul buffer).
Proof. induction buffer as [|c buffer IH]; cbn [bytes_to_nul]; solve_keeps. Qed.
Hint Resolve keeps_buffer_store keeps_bytes_to_nul : keeps.
Lemma keeps_string_at buffer start : keeps rest (string_at buffer start).
Proof. unfold string_at. solve_keeps. Qed.
Lemma keeps_str_itoh buffer out value size : keeps rest (str_itoh buffer out value size).
Proof.
  unfold str_itoh. generalize (@None Z) as o. revert buffer value.
  induction (Z.to_nat size) as [|n IH]; intros buffer value o; cbn [str_itoh_loop]; solve_keeps.
Qed.
Lemma keeps_str_utoa buffer value size : keeps rest (str_utoa buffer value size).
Proof.
  unfold str_utoa. destruct (size =? 0); [apply keeps_undefined|]. revert buffer value.
  induction (Z.to_nat (size - 1)) as [|n IH]; intros buffer value; cbn [str_utoa_loop]; solve_keeps.
Qed.
Hint Resolve keeps_string_at keeps_str_itoh keeps_str_utoa : keeps.

Lemma keeps_str_printf_string args : keeps rest (str_printf_string stdio_puts args).
Proof. unfold str_printf_string, va_arg_string. solve_keeps. Qed.
Lemma keeps_str_printf_pointer args : keeps rest (str_printf_pointer stdio_puts args).
Proof. unfold str_printf_pointer, va_arg_uintptr. solve_keeps. Qed.
Lemma keeps_str_printf_unsigned args : keeps rest (str_printf_unsigned stdio_puts args).
Proof. unfold str_printf_unsigned, va_arg_uintptr. solve_keeps. Qed.
Lemma keeps_str_printf_hex p l args : keeps rest (str_printf_hex stdio_puts p l args).
Proof. unfold str_printf_hex, va_arg_uintptr. solve_keeps. Qed.
Hint Resolve keeps_str_printf_string keeps_str_printf_pointer keeps_str_printf_unsigned keeps_str_printf_hex : keeps.

Lemma keeps_stdio_printf fmt args : keeps rest (stdio_printf fmt args).
Proof.
  unfold stdio_printf, str_printf_core.
  assert (∀ n z l args, (length l ≤ n)%nat → keeps rest (str_printf_core_loop stdio_putc stdio_puts z l args)) as H.
  { induction n as [|n IH]; intros z l args' Hl; (destruct l as [|c l]; [apply keeps_undefined|]); cbn [length] in Hl; [lia|].
    assert (∀ z l' args, (length l' ≤ length l)%nat → keeps rest (str_printf_core_loop stdio_putc stdio_puts z l' args))
      as IH' by (intros; apply IH; lia).
    cbn [str_printf_core_loop]. unfold stdio_putc at 1 3.
    destruct z; cbn [negb andb]; [|destruct l as [|type l]]; solve_keeps;
      apply IH'; cbn [length] in *; lia. }
  by eapply H.
Qed.
Hint Resolve keeps_stdio_printf : keeps.
Lemma keeps_LOG category fmt args : keeps rest (LOG category fmt args).
Proof. apply keeps_stdio_printf. Qed.
Hint Resolve keeps_LOG : keeps.

(** ** The guests *)

Lemma keeps_vm_guest_linux_loader vm image size cmdline : keeps rest (vm_guest_linux_loader vm image size cmdline).
Proof.
  unfold vm_guest_linux_loader, linux_guest_state, linux_load_page, linux_fill_zeropage, linux_log_image,
    linux_write_cmdline, linux_check_memory, linux_check_header, linux_setup_page, guest_page_used, hdr_load, hdr_store,
    params_store, e820_store, cr0_read, cr4_read, rdmsr, segments_sgdt, interrupts_sidt. solve_keeps.
Qed.

Lemma keeps_hvmain_hello_world code vm : keeps rest (hvmain_hello_world code vm).
Proof.
  unfold hvmain_hello_world, Main.set_guest_state, cr0_read, cr4_read, rdmsr, segments_sgdt, interrupts_sidt. solve_keeps.
Qed.

End rest.

(** * The laws of the processor *)

(** An instruction that leaves the control registers and the MSRs alone, and one that leaves
    the descriptor tables alone. *)
Definition control_kept `{HW : Hardware} (hw hw' : hw_state) : Prop :=
  (∀ a, hw_rdmsr a hw' = hw_rdmsr a hw) ∧ hw_cr0 hw' = hw_cr0 hw ∧ hw_cr4 hw' = hw_cr4 hw ∧ hw_cr3 hw' = hw_cr3 hw.
Definition tables_kept `{HW : Hardware} (hw hw' : hw_state) : Prop :=
  hw_sgdt hw' = hw_sgdt hw ∧ hw_sidt hw' = hw_sidt hw.

Class MainLaws `{DI : DescriptorInstructions} : Prop := {
  lgdt_control t hw : control_kept hw (hw_lgdt t hw);
  lidt_control t hw : control_kept hw (hw_lidt t hw);
  load_segments_control cs ds hw : control_kept hw (hw_load_segments cs ds hw);
  sti_control hw : control_kept hw (hw_sti hw);
  xsetbv_control v hw : control_kept hw (hw_xsetbv v hw);
  vmxon_control p hw : control_kept hw (snd (hw_vmxon p hw));
  cr3_cr4_write v hw : hw_cr3 (hw_cr4_write v hw) = hw_cr3 hw;
  cr4_write_tables v hw : tables_kept hw (hw_cr4_write v hw);
  xsetbv_tables v hw : tables_kept hw (hw_xsetbv v hw);
  vmxon_tables p hw : tables_kept hw (snd (hw_vmxon p hw));
  (** VMPTRLD of the current VMCS *)
  vmptrld_again p hw : hw_vmptrst hw = (0, p) → ∀ f, hw_vmread f (snd (hw_vmptrld p hw)) = hw_vmread f hw;
}.

#[export] Instance simple_main_laws : MainLaws (HW := simple_hardware).
Proof.
  split; try by repeat split.
  intros p hw Hp f. assert (cpu_current_vmcs hw = p) as Hc by (by injection Hp). cbn. by rewrite Hc.
Qed.

#[export] Instance control_kept_preorder `{HW : Hardware} : PreOrder control_kept.
Proof.
  split; [by intros hw|]. intros h1 h2 h3 (A & B & C & D) (A' & B' & C' & D').
  split_and!; [intros a; by rewrite A'|by rewrite B'|by rewrite C'|by rewrite D'].
Qed.
#[export] Instance tables_kept_preorder `{HW : Hardware} : PreOrder tables_kept.
Proof. split; [by intros hw|]. intros h1 h2 h3 [A B] [A' B']. split; [by rewrite A'|by rewrite B']. Qed.

Lemma hw_same_control `{HW : Hardware} hw hw' : hw_same hw hw' → control_kept hw hw'.
Proof. intros (_ & A & _ & B & D & C & _). by split_and!. Qed.
Lemma hw_same_tables `{HW : Hardware} hw hw' : hw_same hw hw' → tables_kept hw hw'.
Proof. intros (_ & _ & _ & _ & _ & _ & A & B & _). by split. Qed.

(** * The stages of [hvmain] *)

Section stages.
Context `{DL : DescriptorLaws} {KI : KernelImage} {XI : XcrInstructions} {SL : SetupLaws} {ML : MainLaws}.
Context (RKHV_HASH : list Z).
Implicit Types (s : machine) (hw : hw_state).

(** The machine when [hvmain] is entered: the static variables have their initial values. *)
Definition entry_machine (cp : chainload_page_t) (m : mem) (hw : hw_state) : machine :=
  mk_machine m cp SIZE_MAX SIZE_MAX 0 ∅ ∅ false 0 false 0 0 0 0 ∅ 0 ∅ ∅
    (mk_msr_state 0 0 0 0 0 0 0) false 0 0 GDT_initial IDT_initial hw.

(** The host, once it is set up: [hw0] is the processor at the entry. *)
Record host_ready (hw0 : hw_state) (cp : chainload_page_t) s : Prop := {
  hr_msr a : hw_rdmsr a (m_hw s) = hw_rdmsr a hw0;
  hr_cr0 : hw_cr0 (m_hw s) = hw_cr0 hw0;
  hr_cr3 : hw_cr3 (m_hw s) = hw_cr3 hw0;
  hr_cr4 : hw_cr4 (m_hw s) = Z.lor (xsave_cr4 hw0) CR4_VMXE;
  hr_gdtr : hw_sgdt (m_hw s) = mk_table_register 23 GDT_address;
  hr_idtr : hw_sidt (m_hw s) = mk_table_register 4095 IDT_address;
  hr_GDT : m_GDT s = GDT_loaded;
  hr_IDT : gates_set 256 (m_IDT s);
  hr_chainload : m_chainload s = cp;
  hr_bitmaps : m_msr_bitmaps_page_valid s = false;
  hr_devices : m_vmd_device_arena s = 0;
}.

Lemma host_ready_step hw0 cp s s' :
  host_ready hw0 cp s → hw_same (m_hw s) (m_hw s') → rest s' = rest s → host_ready hw0 cp s'.
Proof.
  intros [] (_ & Hmsr & _ & H0 & H3 & H4 & Hg & Hi & _) Hrest.
  injection Hrest as E1 E2 E3 E4 E5 E6 E7 E8 E9. split; try congruence.
Qed.

(** Nothing but the host is set up. *)
Record setup_done (hw0 : hw_state) (cp : chainload_page_t) (m0 : mem) s : Prop := {
  sd_host : host_ready hw0 cp s;
  sd_wf : vmm_wf [] [] s;
  sd_vmxon : m_vmxon_region_valid s = true;
  sd_console : console_inv s;
  sd_vms : m_vms s = ∅;
  sd_arena : m_vm_manager_arena s = 0;
  sd_mem a : ¬ (m_vmxon_region s ≤ a < m_vmxon_region s + PAGE_SIZE) → load_byte (m_mem s) a = load_byte m0 a;
  sd_region : page_ok (m_vmxon_region s) ∧ mm_page_used_by_chainload (m_vmxon_region s) cp = false;
}.

Lemma xsave_xcr0_bound hw : 0 ≤ xsave_xcr0 hw < 2 ^ 64.
Proof.
  unfold xsave_xcr0. destruct (hw_cpuid _ _ _) as [[[low b] c] high].
  pose proof (wrap_bound 32 low). pose proof (wrap_bound 32 high).
  rewrite Z.shiftl_mul_pow2 by lia. rewrite (lor_disjoint 32); [lia|lia|apply Z.mod_mul; lia|lia].
Qed.

(** The messages of a failed setup. *)
Definition setup_failure hw (msg : string) : Prop :=
  out_of_memory msg ∨ msg = "Unexpected value for CPUID.(EAX=0DH,ECX=0).EBX after setting XCR0"%string ∨
  vmx_unsupported hw = Some msg.

Lemma vmx_unsupported_control hw hw' : control_kept hw hw' → vmx_unsupported hw' = vmx_unsupported hw.
Proof. intros (Hmsr & _). unfold vmx_unsupported. by rewrite !Hmsr. Qed.

(** What happens to the processor up to [vmx_setup]. *)
Lemma setup_control hw0 h1 h2 h3 h4 h5 :
  hw_same hw0 h1 → hw_same (hw_lgdt GDTR h1) h2 → hw_same (xsave_hw (hw_load_segments RKHV_CS RKHV_DS h2)) h3 →
  hw_same (hw_lidt IDTR h3) h4 → hw_same (hw_sti h4) h5 →
  (∀ a, hw_rdmsr a h5 = hw_rdmsr a hw0) ∧ hw_cr0 h5 = hw_cr0 hw0 ∧ hw_cr4 h5 = xsave_cr4 hw0 ∧
  hw_cr3 h5 = hw_cr3 hw0 ∧ hw_sgdt h5 = GDTR ∧ hw_sidt h5 = IDTR.
Proof.
  intros S1 S2 S3 S4 S5. set (hs := hw_load_segments RKHV_CS RKHV_DS h2) in *.
  assert (control_kept hw0 hs) as C2.
  { etrans; [by apply hw_same_control|]. etrans; [apply (lgdt_control GDTR)|].
    etrans; [by apply hw_same_control|]. apply load_segments_control. }
  assert (control_kept (hw_cr4_write (xsave_cr4 hs) hs) h5) as C5.
  { etrans; [apply (xsetbv_control (xsave_xcr0 hs))|]. etrans; [by apply hw_same_control|].
    etrans; [apply (lidt_control IDTR)|]. etrans; [by apply hw_same_control|].
    etrans; [apply sti_control|by apply hw_same_control]. }
  destruct C2 as (M2 & A2 & B2 & D2), C5 as (M5 & A5 & B5 & D5).
  destruct (hw_same_tables _ _ S2) as [G2 _], (hw_same_tables _ _ S3) as [G3 _], (hw_same_tables _ _ S4) as [G4 I4],
    (hw_same_tables _ _ S5) as [G5 I5].
  split_and!.
  - intros a. by rewrite M5, rdmsr_cr4_write, M2.
  - by rewrite A5, cr0_cr4_write, A2.
  - rewrite B5, cr4_cr4_write. unfold xsave_cr4. by rewrite B2.
  - by rewrite D5, cr3_cr4_write, D2.
  - rewrite G5, sgdt_sti, G4, sgdt_lidt, G3. unfold xsave_hw.
    rewrite (proj1 (xsetbv_tables _ _)), (proj1 (cr4_write_tables _ _)). unfold hs.
    by rewrite sgdt_load_segments, G2, sgdt_lgdt.
  - by rewrite I5, sidt_sti, I4, sidt_lidt.
Qed.

Lemma lor_bound n a b : 0 ≤ n → 0 ≤ a < 2 ^ n → 0 ≤ b < 2 ^ n → 0 ≤ Z.lor a b < 2 ^ n.
Proof.
  intros Hn Ha Hb. rewrite <-(Z.mod_small a (2 ^ n)), <-(Z.mod_small b (2 ^ n)) by done.
  rewrite <-!Z.land_ones, <-Z.land_lor_distr_l, Z.land_ones by done. apply Z.mod_pos_bound. lia.
Qed.

Lemma items_accept_literals l items args : items_accept (literals l ++ items) args ↔ items_accept items args.
Proof. by induction l. Qed.

Lemma hello_log_ok chainload_page :
  0 ∉ RKHV_HASH → 0x25 ∉ RKHV_HASH → 0 ≤ chainload_page < 2 ^ 64 →
  log_ok main_log_category (bytes_of_string "rkhv loaded - git:" ++ RKHV_HASH ++
    bytes_of_string " - chainload_page @ %p") [ArgInt chainload_page].
Proof.
  intros H0 H1 Ha.
  exists (literals (bytes_of_string "rkhv loaded - git:") ++ literals RKHV_HASH ++
    literals (bytes_of_string " - chainload_page @ ") ++ [Conversion ConvPointer]).
  split_and!.
  - rewrite !print_format_app, !print_literals. reflexivity.
  - rewrite !Forall_app. split_and!; [by apply literals_ok; apply (bool_decide_unpack _); vm_compute|by apply literals_ok
      |by apply literals_ok; apply (bool_decide_unpack _); vm_compute|by repeat constructor].
  - by apply (bool_decide_unpack _); vm_compute.
  - by apply (bool_decide_unpack _); vm_compute.
  - rewrite !items_accept_literals. cbn. split; [lia|done].
Qed.

Lemma entry_machine_wf cp m b xcr0 size gdt idt hw :
  mmap_wf (efi_mmap_usable cp) →
  vmm_wf [] [] (((((entry_machine cp m hw) <| m_serial_initialized := b |>) <| m_xsave_host_xcr0 := xcr0 |>)
    <| m_xsave_area_size := size |>) <| m_GDT := gdt |> <| m_IDT := idt |>).
Proof.
  intros Hmmap. apply vmm_wf_nil; [| |by left].
  - split; [|done|by left]. split; [constructor|by intros a h ?%elem_of_nil|constructor].
  - split; [apply dll_nil|by intros a ?%elem_of_nil|by intros a h ?%elem_of_nil].
Qed.

Lemma wp_hvmain_setup chainload_page cp cp0 m0 hw0 E (Q : () → machine → Prop) :
  console_inv (entry_machine cp0 m0 hw0) → 0 ∉ RKHV_HASH → 0x25 ∉ RKHV_HASH → 0 ≤ chainload_page < 2 ^ 64 →
  registers_64 hw0 → mmap_wf (efi_mmap_usable cp) → chainload_typed cp → length isr_stub_table = 256%nat →
  0 ≤ GDT_address < 2 ^ 64 → 0 ≤ IDT_address < 2 ^ 64 → (∀ p hw, page_ok p → fst (hw_vmxon p hw) = 0) →
  (∀ msg, setup_failure hw0 msg → E msg) →
  (∀ s, vmx_unsupported hw0 = None → setup_done hw0 cp m0 s → Q () s) →
  wp (hvmain_setup RKHV_HASH chainload_page cp) E Q (entry_machine cp0 m0 hw0).
Proof.
  intros Hcon Hh0 Hh1 Hcp (Hr & Hr0 & Hr4) Hmmap Htyped Hlen Hga Hia Hacc HE HQ. unfold hvmain_setup.
  wp_step. apply wp_LOG_line; [done|by apply hello_log_ok|]. intros s1 [Heq1 Hs1] Hcon1.
  wp_step. apply wp_segments_setup; [done|by rewrite Heq1|done|]. intros s2 h2 Heq2 Hs2 Hcon2.
  wp_step. apply wp_xsave_setup; [done|apply xsave_xcr0_bound|by intros _; apply HE; right; left|].
  intros s3 _ Heq3 Hs3 Hcon3.
  wp_step. apply wp_interrupts_setup; [done|by rewrite Heq3, Heq2, Heq1|done|done|]. intros s4 h4 Heq4 Hs4 Hset Hcon4.
  assert (m_hw s2 = hw_load_segments RKHV_CS RKHV_DS h2) as Hh2 by (by rewrite Heq2). rewrite Hh2 in Hs3.
  assert (m_hw s4 = hw_sti h4) as Hh4 by (by rewrite Heq4).
  wp_step. apply wp_mm_setup; [done|done|]. set (sc := s4 <| m_chainload := cp |>). intros s5 [[Heq Hs5] _ Hcon5].
  assert (m_hw sc = hw_sti h4) as Hhc by exact Hh4. rewrite Hhc in Hs5.
  destruct (setup_control _ _ _ _ _ _ Hs1 Hs2 Hs3 Hs4 Hs5) as (Hmsr & H0 & H4 & H3 & Hg & Hi).
  change (m_hw (entry_machine cp0 m0 hw0)) with hw0 in *.
  assert (sc = ((((entry_machine cp m0 (m_hw sc)) <| m_serial_initialized := m_serial_initialized sc |>)
    <| m_xsave_host_xcr0 := m_xsave_host_xcr0 sc |>) <| m_xsave_area_size := m_xsave_area_size sc |>)
    <| m_GDT := GDT_loaded |> <| m_IDT := m_IDT sc |>) as Heqc.
  { unfold sc. rewrite Heq4. cbn. rewrite Heq3. cbn. rewrite Heq2. cbn. rewrite Heq1. reflexivity. }
  change (m_IDT s4) with (m_IDT sc) in Hset. clearbody sc.
  assert (m_IDT sc = m_IDT s5 ∧ m_xsave_host_xcr0 sc = m_xsave_host_xcr0 s5 ∧ m_xsave_area_size sc = m_xsave_area_size s5)
    as (Hidt & Hxcr0 & Hsize) by (by rewrite Heq).
  rewrite Hidt in Hset, Heqc. rewrite Hxcr0, Hsize in Heqc.
  assert (s5 = ((((entry_machine cp m0 (m_hw s5)) <| m_serial_initialized := m_serial_initialized s5 |>)
    <| m_xsave_host_xcr0 := m_xsave_host_xcr0 s5 |>) <| m_xsave_area_size := m_xsave_area_size s5 |>)
    <| m_GDT := GDT_loaded |> <| m_IDT := m_IDT s5 |>) as Heq5.
  { exact (eq_trans Heq (f_equal (λ s, s <| m_serial_initialized := m_serial_initialized s5 |> <| m_hw := m_hw s5 |>) Heqc)). }
  clear Heq1 Heq2 Heq3 Heq4 Heq Heqc Hs1 Hs2 Hs3 Hs4 Hs5 Hcon1 Hcon2 Hcon3 Hcon4 Hh2 Hh4 Hhc Hidt Hxcr0 Hsize s1 s2 s3 s4 sc h2 h4.
  assert (vmx_unsupported (m_hw s5) = vmx_unsupported hw0) as Hun by (unfold vmx_unsupported; by rewrite !Hmsr).
  eapply wp_mono; [apply (wp_vmx_setup [] [])|..].
  - rewrite Heq5. by apply entry_machine_wf.
  - done.
  - split; [intros a; by rewrite Hmsr|]. rewrite H0, H4. split; [done|]. unfold xsave_cr4.
    apply lor_bound; [lia|apply lor_bound; [lia|done|done]|done].
  - by rewrite Heq5.
  - done.
  - intros msg. rewrite Hun. destruct (vmx_unsupported hw0) eqn:He; intros ->; apply HE; [by right; right|by left; left].
  - intros [] s6 (Hn & region & hw & Hok & Hunowned & Hv & Hregion & _ & Hsame & Hsame' & Hwf & [Heq Hmem] & Hcon6).
    apply HQ; [by rewrite <-Hun|].
    assert (rest s6 = (cp, true, region, false, 0, m_xsave_host_xcr0 s5, m_xsave_area_size s5, GDT_loaded, m_IDT s5)) as Hrest.
    { unfold rest. rewrite Heq. cbn. rewrite Heq5. reflexivity. }
    injection Hrest as E1 E2 E3 E4 E5 E6 E7 E8 E9.
    assert (control_kept (hw_cr4_write (Z.lor (hw_cr4 (m_hw s5)) CR4_VMXE) (m_hw s5)) (m_hw s6)) as (Hmsr6 & H06 & H46 & H36).
    { etrans; [by apply hw_same_control|]. etrans; [apply (vmxon_control region)|]. by apply hw_same_control. }
    assert (tables_kept (m_hw s5) (m_hw s6)) as [Hg6 Hi6].
    { etrans; [apply (cr4_write_tables (Z.lor (hw_cr4 (m_hw s5)) CR4_VMXE))|]. etrans; [by apply hw_same_tables|].
      etrans; [apply (vmxon_tables region)|]. by apply hw_same_tables. }
    split; [split|done|done|done| | | |].
    + intros a. by rewrite Hmsr6, rdmsr_cr4_write.
    + by rewrite H06, cr0_cr4_write.
    + by rewrite H36, cr3_cr4_write.
    + by rewrite H46, cr4_cr4_write, H4.
    + by rewrite Hg6.
    + by rewrite Hi6.
    + done.
    + by rewrite E9.
    + done.
    + done.
    + done.
    + rewrite Heq. cbn. by rewrite Heq5.
    + rewrite Heq. cbn. by rewrite Heq5.
    + intros a Ha. rewrite Hregion in Ha. rewrite Hmem by done. by rewrite Heq5.
    + rewrite Hregion. split; [done|]. destruct Hunowned as [Hel _]. revert Hel. unfold owned_elsewhere. rewrite !orb_false_iff.
      intros [[Hel _] _]. revert Hel. by rewrite Heq5.
Qed.

End stages.
