(* ===== verification/MainGuest.v ===== *)
(** The VM of [hvmain] and its guest: the VM with its 64 MiB of memory, then the program that
    is copied into it. *)
From S2P Require Import Prelude Memory Machine Registers SimpleCpu PageUse PageAllocator Arena.
From S2P Require Import VmxInstructions VmxMsr VmTracking VmxPages VmxEpt VmxEptSpec EptCorrect VmManager.
From S2P Require Import Strings Console GuestPaging Descriptors Vmcs Setup GuestMemory LinuxLoader Main MainFrame.

(** * The VM with its memory *)

(** 64 MiB *)
Definition hello_pages : Z := 0x4000.

Definition host_of (hosts : list Z) (k : Z) : Z := default 0 (hosts !! Z.to_nat k).

Section memory.
Context `{DL : DescriptorLaws} {KI : KernelImage} {XI : XcrInstructions} {SL : SetupLaws} {ML : MainLaws}.
Implicit Types (s : machine) (v : vm_t) (hosts : list Z).

Lemma host_of_injective hosts : NoDup hosts →
  ∀ k k', 0 ≤ k < Z.of_nat (length hosts) → 0 ≤ k' < Z.of_nat (length hosts) →
    host_of hosts k = host_of hosts k' → k = k'.
Proof.
  intros Hnd k k' Hk Hk'. unfold host_of.
  destruct (lookup_lt_is_Some_2 hosts (Z.to_nat k)) as [x Hx]; [lia|].
  destruct (lookup_lt_is_Some_2 hosts (Z.to_nat k')) as [y Hy]; [lia|]. rewrite Hx, Hy. cbn. intros ->.
  pose proof (NoDup_lookup _ _ _ _ Hnd Hx Hy). lia.
Qed.

(** The pages that were given to a VM are memory of its guest. *)
Lemma guest_inv_hosts la lv vm v tbl s hosts :
  ept_inv la lv vm v tbl s → console_inv s → Z.of_nat (length hosts) * PAGE_SIZE ≤ 2 ^ 48 →
  pages_of VM_PAGE_TYPE_GUEST_PHYSICAL false (vm_tracked_pages v) ≡ₚ hosts → guest_memory_is v (m_mem s) hosts →
  guest_inv la lv vm tbl 0 (Z.of_nat (length hosts)) (host_of hosts) v s ∧ NoDup hosts.
Proof.
  intros Hinv Hcon Hb Hperm Hmem. pose proof Hinv as [Hwf Hvm Hv _].
  pose proof (vw_tracked _ _ _ Hwf vm v Hvm Hv) as Htr. split.
  - split; [done| |done]. intros k Hk. unfold host_of.
    destruct (lookup_lt_is_Some_2 hosts (Z.to_nat k)) as [x Hx]; [lia|]. rewrite Hx. cbn.
    assert (x ∈ pages_of VM_PAGE_TYPE_GUEST_PHYSICAL false (vm_tracked_pages v)) as Hin.
    { rewrite Hperm. by eapply list_elem_of_lookup_2. }
    split.
    + unfold PAGE_SIZE in *. rewrite Hmem by lia. unfold PAGE_SIZE. rewrite Z.div_mul, Z.mod_mul, Hx by lia. cbn. f_equal. lia.
    + by eapply tracked_page_ok.
    + intros res Hin'. exact (pages_of_disjoint _ VM_PAGE_TYPE_GUEST_PHYSICAL false VM_PAGE_TYPE_EPT res x (tr_nodup _ Htr) ltac:(congruence) Hin Hin').
  - rewrite <-Hperm. apply NoDup_pages_of, Htr.
Qed.

(** The VM when its guest can be chosen; [m0] is the memory at the entry of the hypervisor. *)
Record vm_ready hw0 cp (m0 : mem) la vm tbl host v s : Prop := {
  vr_guest : guest_inv la [vm] vm tbl 0 hello_pages host v s;
  vr_injective k k' : 0 ≤ k < hello_pages → 0 ≤ k' < hello_pages → host k = host k' → k = k';
  vr_host : host_ready hw0 cp s;
  vr_pages : vm_guest_physical_pages v = hello_pages;
  vr_vm : v = ((((zero_vm <| vm_name := vm_name v |>) <| vm_permanent_xcr0 := 1 |>)
      <| vm_tracked_pages := vm_tracked_pages v |>)
      <| vm_vmcs_config := (vm_vmcs_config zero_vm) <| eptp := eptp (vm_vmcs_config v) |> |>)
      <| vm_flags := vm_flags v |> <| vm_guest_physical_pages := hello_pages |>;
  vr_flags : Z.land (vm_flags v) VM_T_FLAG_VMCS_INITIALIZED = 0;
  vr_tracked k : 0 ≤ k < hello_pages → host k ∈ all_pages (vm_tracked_pages v);
  vr_zero k : 0 ≤ k < hello_pages → page_zero (m_mem s) (host k);
  vr_memory p a : page_ok p → mm_page_used_by_chainload p cp = true → p ≤ a < p + PAGE_SIZE →
    load_byte (m_mem s) a = load_byte m0 a;
}.

(** A page of a VM is not used by the boot loader. *)
Lemma tracked_not_chainload la lv s vm v p :
  vmm_wf la lv s → vm ∈ lv → m_vms s !! vm = Some v → p ∈ all_pages (vm_tracked_pages v) →
  mm_page_used_by_chainload p (m_chainload s) = false.
Proof.
  intros Hwf Hvm Hv Hp. pose proof (vw_private _ _ _ Hwf vm v p Hvm Hv Hp) as Hel.
  unfold owned_elsewhere in Hel. rewrite !orb_false_iff in Hel. apply Hel.
Qed.

Lemma used_by_chainload_page a cp :
  mm_page_used_by_chainload (a / PAGE_SIZE * PAGE_SIZE) cp = mm_page_used_by_chainload a cp.
Proof.
  unfold mm_page_used_by_chainload. rewrite !PAGE_MASK_spec. unfold PAGE_SIZE. by rewrite Z.div_mul by lia.
Qed.

Lemma guest_eptp la lv vm tbl n host v s :
  guest_inv la lv vm tbl 0 n host v s → 0 < n → page_ok (eptp (vm_vmcs_config v)).
Proof.
  intros [[_ _ _ He] Hram _] Hn. destruct (Hram 0 ltac:(lia)) as [Ht _ _]. unfold ept_translate in Ht.
  destruct (ept_initialized v) eqn:Hi; [|done]. pose proof (ve_tables _ _ _ He Hi) as Htbl.
  eapply et_page; [exact Htbl|]. apply (et_root _ _ _ Htbl).
Qed.

End memory.

Section create.
Context `{DL : DescriptorLaws} {KI : KernelImage} {XI : XcrInstructions} {SL : SetupLaws} {ML : MainLaws}.
Implicit Types (s : machine) (v : vm_t).

Lemma wp_hvmain_memory hw0 cp m0 name (k : Z → M machine ()) E (Q : () → machine → Prop) s :
  setup_done hw0 cp m0 s → (∀ msg, out_of_memory msg → E msg) →
  (∀ la vm tbl host v s', vm_ready hw0 cp m0 la vm tbl host v s' → wp (k vm) E Q s') →
  wp (vm ← vm_manager_create_vmx_machine name;
      vm_manager_allocate_guest_physical_memory vm (64 * 1024 * 1024 / PAGE_SIZE);;
      v ← vm_get vm;
      LOG main_log_category (bytes_of_string "64MiB guest physical memory allocated for VM with EPT @ %p")
        [ArgInt (eptp (vm_vmcs_config v))];;
      k vm) E Q s.
Proof.
  intros [Hhost Hwf Hvx Hcon Hvms Harena Hmem [Hrok Hregion]] HE HQ. change (64 * 1024 * 1024 / PAGE_SIZE) with hello_pages.
  wp_step. eapply wp_vm_manager_create_vmx_machine; [done| |by apply HE; left|by apply HE; right|].
  { by intros x ?%elem_of_nil. }
  cbv zeta. intros la vm s1 _ Hwf1 Hobj1 Hvms1 Hl1 Hf1. set (v0 := _ <| vm_permanent_xcr0 := 1 |>) in *.
  assert (m_vms s1 !! vm = Some v0) as Hv1 by (rewrite Hvms1; apply lookup_insert_eq).
  assert (rest s1 = rest s) as Hr1 by (rewrite Hf1; reflexivity).
  assert (m_hw s1 = m_hw s) as Hh1 by (rewrite Hf1; reflexivity).
  assert (m_serial_initialized s1 = m_serial_initialized s) as Hs1 by (rewrite Hf1; reflexivity).
  assert (m_mem s1 = m_mem s) as Hm1 by (rewrite Hf1; reflexivity).
  wp_step. eapply (wp_vm_manager_allocate_guest_physical_memory la [vm] vm v0 ∅);
    [| |by vm_compute|done|done| |by apply HE; left|by apply HE; right|].
  { split; [done|by left|done|]. split; [done|done|by intros k' T ?%lookup_empty_Some|by intros p ?%elem_of_nil]. }
  { done. }
  { by intros gpa Hgpa. }
  intros v tbl s2 hosts Hinv2 Hf2 Hn Hlen Hperm Hgm Hz.
  assert (rest s2 = rest s) as Hr2 by (rewrite <-Hr1, (gf_eq _ _ _ _ _ Hf2); reflexivity).
  assert (m_hw s2 = m_hw s) as Hh2 by (rewrite <-Hh1, (gf_eq _ _ _ _ _ Hf2); reflexivity).
  assert (console_inv s2) as Hcon2.
  { eapply console_local; [| |exact Hcon]; [|exact Hh2]. rewrite <-Hs1, (gf_eq _ _ _ _ _ Hf2). reflexivity. }
  assert (hello_pages = Z.of_nat (length hosts)) as Hlen' by (rewrite Hlen; reflexivity).
  destruct (guest_inv_hosts la [vm] vm v tbl s2 hosts Hinv2 Hcon2) as [Hg2 Hnd]; [by rewrite <-Hlen'|done|done|].
  pose proof (host_of_injective hosts Hnd) as Hinj. rewrite <-Hlen' in Hinj, Hg2.
  wp_step. eapply wp_vm_get; [apply Hinv2|].
  pose proof (guest_eptp _ _ _ _ _ _ _ _ Hg2 ltac:(done)) as [_ Heptp].
  wp_step. apply wp_LOG_line; [done|solve_log_ok|]. intros s3 Hf3 Hcon3. destruct (Hf3) as [Heq3 Hsame3].
  assert (m_mem s3 = m_mem s2) as Hm3 by (rewrite Heq3; reflexivity).
  assert (∀ j, 0 ≤ j < hello_pages → host_of hosts j ∈ hosts) as Hin.
  { intros j Hj. unfold host_of. destruct (lookup_lt_is_Some_2 hosts (Z.to_nat j)) as [x Hx]; [lia|]. rewrite Hx.
    by eapply list_elem_of_lookup_2. }
  eapply (HQ la vm tbl (host_of hosts) v). split; [by eapply guest_inv_console|done| |done| | | | |].
  - eapply (host_ready_step hw0 cp s); [done|by rewrite <-Hh2|]. rewrite <-Hr2, Heq3. reflexivity.
  - pose proof (gf_vm _ _ _ _ _ Hf2) as Hv. rewrite Hv at 1. rewrite Hn.
    assert (m_vm_list s = 0) as Hl0.
    { pose proof (lw_vms _ _ _ (mm_wf_lists _ _ _ (vw_mm _ _ _ Hwf))) as Hl. by inversion Hl. }
    unfold v0. rewrite Hl0. assert (vm_name v = name) as -> by (rewrite Hv; reflexivity). reflexivity.
  - destruct (gf_flags _ _ _ _ _ Hf2) as [-> | ->]; reflexivity.
  - intros j Hj. eapply pages_of_subset. rewrite Hperm. by apply Hin.
  - intros j Hj. rewrite Hm3. by apply Hz, Hin.
  - intros p a Hok Hp Ha. rewrite Hm3, (gf_mem _ _ _ _ _ Hf2), Hm1, Hmem; [done| |].
    + by apply (page_ok_disjoint p); [..|intros ->; congruence|].
    + intros q Hq. apply (page_ok_disjoint p); [done| |intros ->|done].
      * destruct Hinv2 as [Hwf2 Hvm2 Hv2 _]. eapply all_pages_ok; [|exact Hq]. apply (vw_tracked _ _ _ Hwf2 vm v Hvm2 Hv2).
      * destruct Hinv2 as [Hwf2 Hvm2 Hv2 _]. pose proof (tracked_not_chainload _ _ _ _ _ _ Hwf2 Hvm2 Hv2 Hq) as Hc.
        injection Hr2 as Hcp _ _ _ _ _ _ _ _. rewrite Hcp, (hr_chainload _ _ _ Hhost) in Hc. congruence.
Qed.
End create.

(** * The guest *)

Section guest.
Context `{DL : DescriptorLaws} {KI : KernelImage} {XI : XcrInstructions} {SL : SetupLaws} {ML : MainLaws}.
Context (hw0 : hw_state) (cp : chainload_page_t) (m0 : mem) (la : list Z) (vm : Z).
Context (tbl : gmap (nat * Z) Z) (host : Z → Z).
Implicit Types (s : machine) (v : vm_t).
Notation guest_inv lo := (guest_inv la [vm] vm tbl lo hello_pages host).

(** The registers of a guest that starts with the control registers of the host. *)
Definition host_guest_state (rip cr3 : Z) : vmx_guest_state_t := {|
  gs_rip := rip; gs_rsp := 0; gs_cr0 := hw_cr0 hw0; gs_cr3 := cr3;
  gs_cr4 := Z.lor (xsave_cr4 hw0) CR4_VMXE; gs_ia32_efer := hw_rdmsr IA32_EFER hw0;
  gs_cs := RKHV_CS; gs_ds := RKHV_DS;
  gs_gdtr := mk_table_register 23 GDT_address; gs_idtr := mk_table_register 4095 IDT_address |}.

(** A guest that can be launched: its pages from [lo] on are known. *)
Record guest_done (lo rip : Z) v s : Prop := {
  gd_guest : guest_inv lo v s;
  gd_host : host_ready hw0 cp s;
  gd_tracked k : lo ≤ k < hello_pages → host k ∈ all_pages (vm_tracked_pages v);
  gd_devices : vm_devices v = 0;
  gd_flags : Z.land (vm_flags v) VM_T_FLAG_VMCS_INITIALIZED = 0;
  gd_state : guest_state (vm_vmcs_config v) = host_guest_state rip ((hello_pages - 1) * PAGE_SIZE);
  gd_paging : identity_paging s (hello_pages - 514) hello_pages host (m_mem s);
  gd_lo : lo ≤ hello_pages - 514;
  gd_kept p a : page_ok p → mm_page_used_by_chainload p cp = true → p ≤ a < p + PAGE_SIZE →
    load_byte (m_mem s) a = load_byte m0 a;
}.

(** Writing the memory of the guest keeps what the boot loader left. *)
Lemma vm_ready_disjoint v s p a k :
  vm_ready hw0 cp m0 la vm tbl host v s → page_ok p → mm_page_used_by_chainload p cp = true → p ≤ a < p + PAGE_SIZE →
  0 ≤ k < hello_pages → ¬ (host k ≤ a < host k + PAGE_SIZE).
Proof.
  intros [Hg _ Hhost _ _ _ Htr _ _] Hok Hp Ha Hk.
  apply (page_ok_disjoint p); [done|by eapply (gi_page _ _ _ _ _ _ _ _ _ k Hg)| |done]. intros ->.
  destruct (gi_ept _ _ _ _ _ _ _ _ _ Hg) as [Hwf Hvm Hvv _].
  pose proof (tracked_not_chainload _ _ _ _ _ _ Hwf Hvm Hvv (Htr k Hk)) as Hc.
  rewrite (hr_chainload _ _ _ Hhost) in Hc. congruence.
Qed.
Lemma vm_ready_kept v s m' :
  vm_ready hw0 cp m0 la vm tbl host v s → written host 0 hello_pages (m_mem s) m' →
  ∀ p a, page_ok p → mm_page_used_by_chainload p cp = true → p ≤ a < p + PAGE_SIZE → load_byte m' a = load_byte m0 a.
Proof.
  intros Hr Hw p a Hok Hp Ha. rewrite Hw; [by apply (vr_memory _ _ _ _ _ _ _ _ _ Hr p)|].
  intros k Hk. by apply (vm_ready_disjoint v s p).
Qed.

(** The registers that are copied. *)
Definition host_registers (hw : hw_state) : Prop :=
  hw_cr0 hw = hw_cr0 hw0 ∧ hw_cr4 hw = Z.lor (xsave_cr4 hw0) CR4_VMXE ∧
  hw_rdmsr IA32_EFER hw = hw_rdmsr IA32_EFER hw0 ∧
  hw_sgdt hw = mk_table_register 23 GDT_address ∧ hw_sidt hw = mk_table_register 4095 IDT_address.
Lemma host_ready_registers s hw : host_ready hw0 cp s → hw_same (m_hw s) hw → host_registers hw.
Proof. intros [] (_ & Hmsr & _ & H0 & _ & H4 & Hg & Hi & _). unfold host_registers. by rewrite Hmsr, H0, H4, Hg, Hi. Qed.

Ltac set_guest_state :=
  eapply wp_set_guest_state; [eassumption|];
  let s := fresh "s" in let Hg := fresh "Hg" in let Hm := fresh "Hm" in let Hh := fresh "Hh" in
  intros s Hg Hm Hh; cbv [upd set_gs_rip set_gs_rsp set_gs_cr0 set_gs_cr3 set_gs_cr4 set_gs_ia32_efer set_gs_cs set_gs_ds
    set_gs_gdtr set_gs_idtr gs_rip gs_rsp gs_cr0 gs_cr3 gs_cr4 gs_ia32_efer gs_cs gs_ds gs_gdtr gs_idtr] in Hg.

(** The assignments to the registers. *)
Lemma wp_hello_state v s rip cr3 E (Q : () → machine → Prop) :
  guest_inv 0 v s → host_registers (m_hw s) →
  (∀ s', guest_inv 0 (with_guest_state v (host_guest_state rip cr3)) s' → m_mem s' = m_mem s → m_hw s' = m_hw s → Q () s') →
  wp (set_guest_state vm (λ g, g <| gs_rip := rip |>);;
      set_guest_state vm (λ g, g <| gs_rsp := 0 |>);;
      cr0 ← cr0_read; set_guest_state vm (λ g, g <| gs_cr0 := cr0 |>);;
      set_guest_state vm (λ g, g <| gs_cr3 := cr3 |>);;
      cr4 ← cr4_read; set_guest_state vm (λ g, g <| gs_cr4 := cr4 |>);;
      efer ← rdmsr IA32_EFER; set_guest_state vm (λ g, g <| gs_ia32_efer := efer |>);;
      set_guest_state vm (λ g, g <| gs_cs := RKHV_CS |>);;
      set_guest_state vm (λ g, g <| gs_ds := RKHV_DS |>);;
      idtr ← interrupts_sidt; set_guest_state vm (λ g, g <| gs_idtr := idtr |>);;
      gdtr ← segments_sgdt; set_guest_state vm (λ g, g <| gs_gdtr := gdtr |>)) E Q s.
Proof.
  intros Hg Hhost HQ. unfold Main.set_guest_state, cr0_read, cr4_read, rdmsr, segments_sgdt, interrupts_sidt.
  destruct Hhost as (H0 & H4 & He & Hgd & Hid). unfold host_guest_state in HQ.
  rewrite <-(with_guest_state_id v) in Hg. destruct (guest_state (vm_vmcs_config v)) as [g1 g2 g3 g4 g5 g6 g7 g8 g9 g10].
  rewrite <-H0, <-H4, <-He, <-Hgd, <-Hid in HQ. clear H0 H4 He Hgd Hid.
  do 2 (wp_step; set_guest_state). do 2 wp_step. wp_step. set_guest_state. wp_step. set_guest_state.
  do 3 wp_step. set_guest_state. do 3 wp_step. set_guest_state. do 2 (wp_step; set_guest_state).
  do 3 wp_step. set_guest_state. do 2 wp_step. set_guest_state.
  apply HQ; [|congruence..].
  repeat match goal with H : m_hw _ = m_hw _ |- _ => rewrite H in *; clear H end. assumption.
Qed.

(** The memory of the guest below its page tables: the program at 0x7c00, and zeros. *)
Definition hello_byte (code : list Z) (a : Z) : Z :=
  if decide (0x7c00 ≤ a < 0x7c00 + Z.of_nat (length code)) then code !!! Z.to_nat (a - 0x7c00) else 0.

Lemma wp_hvmain_hello_world code v s E (Q : () → machine → Prop) :
  vm_ready hw0 cp m0 la vm tbl host v s → Forall (λ c, 0 ≤ c < 256) code → Z.of_nat (length code) ≤ 0x400 →
  (∀ v' s', v' = with_guest_state (with_used v 514) (host_guest_state 0x7c00 ((hello_pages - 1) * PAGE_SIZE)) →
     guest_done 0 0x7c00 v' s' →
     (∀ k o, 0 ≤ k < hello_pages - 514 → 0 ≤ o < PAGE_SIZE →
        load_byte (m_mem s') (host k + o) = hello_byte code (k * PAGE_SIZE + o)) → Q () s') →
  wp (hvmain_hello_world code vm) E Q s.
Proof.
  intros Hready Hcode Hlen HQ. pose proof Hready as [Hg Hinj Hhost Hpages Hv Hfl Htr Hz _].
  apply (wp_keeps rest); [apply keeps_hvmain_hello_world|]. unfold hvmain_hello_world.
  assert (0 ≤ 0 ∧ hello_pages * PAGE_SIZE ≤ 2 ^ 48) as Hbound by (by vm_compute).
  wp_step. apply (wp_guest_setup_identity la [vm] vm tbl 0 hello_pages host Hbound Hinj v); [done|by vm_compute|done|by rewrite Hv|].
  intros s1 Hg1 Hp1 Hh1.
  wp_step. apply wp_LOG_line; [apply Hg1|solve_log_ok; by vm_compute|]. intros s2 Hf2 Hcon2.
  pose proof (guest_inv_console la [vm] vm tbl 0 hello_pages host (with_used v 514) s1 s2 Hg1 Hf2 Hcon2) as Hg2.
  destruct Hf2 as [Heq2 Hsame2]. assert (m_mem s2 = m_mem s1) as Hm2 by (by rewrite Heq2).
  cbv zeta. wp_step. eapply wp_vmx_ept_get_host_physical_address; [apply Hg2|done|].
  change 0x7c00 with (7 * PAGE_SIZE + 0xc00) at 1.
  rewrite ept_translate_offset, (gr_translate _ _ _ _ (gi_ram _ _ _ _ _ _ _ _ _ Hg2 7 ltac:(done))) by done.
  cbn [fmap option_fmap option_map].
  pose proof (gi_page _ _ _ _ _ _ _ _ _ 7 Hg2 ltac:(done)) as [_ Hh7].
  rewrite <-P2V_offset by lia. wp_step.
  eapply (wp_filled_copy_string la [vm] vm tbl 0 hello_pages host Hbound); [by apply filled_start|done|done|unfold PAGE_SIZE; lia|].
  intros s3 Hf3. assert (hw_same (m_hw s) (m_hw s3)) as Hsame3.
  { rewrite <-Hh1. etrans; [exact Hsame2|apply Hf3]. }
  apply (wp_hello_state (with_used v 514)); [apply Hf3|by eapply host_ready_registers|].
  intros s4 Hg4 Hm4 Hh4 Hrest. set (v4 := with_guest_state _ _) in *.
  assert (∀ o, 0 ≤ o < PAGE_SIZE → load_byte (m_mem s4) (host 7 + o) =
    page_string (λ o, load_byte (m_mem s2) (host 7 + o)) 0xc00 code o) as H7 by (rewrite Hm4; apply Hf3).
  assert (written host 7 8 (m_mem s1) (m_mem s4)) as Hw by (rewrite Hm4, <-Hm2; apply Hf3).
  assert (identity_paging s4 (hello_pages - 514) hello_pages host (m_mem s4)) as Hp4.
  { apply (identity_paging_written la [vm] vm tbl 0 hello_pages host Hinj v4 s s4 s4 (m_mem s1) 8); try done.
    by eapply written_mono; [..|exact Hw]. }
  assert (∀ k o, 0 ≤ k < hello_pages - 514 → 0 ≤ o < PAGE_SIZE → load_byte (m_mem s1) (host k + o) = 0) as Hz1.
  { intros k o Hk Ho. rewrite (ip_ram _ _ _ _ _ Hp1).
    - apply (Hz k); lia.
    - intros k' Hk'. apply (guest_pages_disjoint la [vm] vm tbl 0 hello_pages host Hinj v s k k'); (done || lia). }
  apply (HQ v4); [done|split|].
  - done.
  - eapply host_ready_step; [exact Hhost|by rewrite Hh4|done].
  - exact Htr.
  - change (vm_devices v = 0). by rewrite Hv.
  - exact Hfl.
  - reflexivity.
  - exact Hp4.
  - by vm_compute.
  - apply (vm_ready_kept v s); [exact Hready|]. apply (written_trans host 0 hello_pages _ (m_mem s1)).
    + intros a Ha. apply (ip_ram _ _ _ _ _ Hp1). intros k Hk. apply Ha. unfold hello_pages in *. lia.
    + by eapply written_mono; [..|exact Hw].
  - intros k o Hk Ho. destruct (decide (k = 7)) as [->|Hne].
    + rewrite H7, page_string_lookup by done. unfold hello_byte. unfold PAGE_SIZE in *.
      repeat case_decide; try lia; [|by rewrite Hm2, Hz1].
      rewrite Forall_forall in Hcode. replace (7 * 4096 + o - 0x7c00) with (o - 0xc00) by lia.
      apply Z.mod_small, Hcode. apply list_elem_of_lookup_total_2. lia.
    + rewrite (written_page la [vm] vm tbl 0 hello_pages host Hinj v s 7 8 (m_mem s1)) by (done || lia).
      rewrite Hz1 by lia. unfold hello_byte, PAGE_SIZE in *. rewrite decide_False; [done|lia].
Qed.

End guest.

(** * The image of Linux *)

(** The loader only depends on the bytes of the image. *)
Section image.
Context (m m' : mem) (ia size : Z).
Hypothesis (Himg : linux_image m ia size).
Hypothesis (Hsame : ∀ a, ia ≤ a < ia + size → load_byte m' a = load_byte m a).

Lemma image_load_same k off : 0 ≤ off → off + Z.of_nat k ≤ 1024 → load_le k m' (ia + off) = load_le k m (ia + off).
Proof.
  intros Ho Hk. pose proof (image_size_bound m ia size Himg). apply load_le_ext. intros a Ha. apply Hsame. lia.
Qed.
Lemma image_zeropage_same o : image_zeropage m' ia o = image_zeropage m ia o.
Proof.
  pose proof (image_header_size_bound m ia) as Hb. pose proof (image_size_bound m ia size Himg).
  assert (image_header_size m' ia = image_header_size m ia) as E
    by (unfold image_header_size; by rewrite image_load_same).
  unfold image_zeropage. rewrite E. change (hdr_offset "setup_sects") with 0x1f1 in *.
  case_decide; [|done]. apply Hsame. lia.
Qed.
Lemma image_field_same member : image_field m' ia member = image_field m ia member.
Proof. apply page_load_ext. intros o _. apply image_zeropage_same. Qed.
Lemma image_kernel_same : image_kernel m' ia = image_kernel m ia.
Proof. unfold image_kernel, image_setup_sects. by rewrite image_field_same. Qed.

Lemma linux_image_same : linux_image m' ia size.
Proof.
  destruct Himg as [Hw Hs Hm H64 Ha Hal (l & Hl & Hz & Hnz)]. split.
  - done.
  - by rewrite image_kernel_same.
  - by rewrite image_load_same.
  - by rewrite image_load_same.
  - by rewrite image_field_same.
  - by rewrite !image_field_same.
  - rewrite image_field_same. exists l. pose proof (image_field_bound m ia "kernel_version") as Hb.
    split; [done|]. cbv zeta in *. split; [rewrite Hsame; [done|lia]|]. intros i Hi. rewrite Hsame; [by apply Hnz|lia].
Qed.

Lemma linux_zeropage_same p n o : linux_zeropage m' ia p n o = linux_zeropage m ia p n o.
Proof.
  unfold linux_zeropage, linux_zeropage_fields. rewrite !image_field_same.
  generalize (linux_written_fields (image_field m ia "loadflags") p n ++
    if image_field m ia "setup_sects" =? 0 then [hdr_field "setup_sects" 4] else []) as l.
  intros l. assert (∀ c c' : Z → Z, (∀ o, c o = c' o) → page_fields c l o = page_fields c' l o) as H.
  { induction l as [|[[off k] w] l IH]; intros c c' Hc; cbn [page_fields foldl]; [apply Hc|]. apply IH.
    intros o'. unfold page_override. by rewrite Hc. }
  apply H, image_zeropage_same.
Qed.
End image.

Section linux.
Context `{DL : DescriptorLaws} {KI : KernelImage} {XI : XcrInstructions} {SL : SetupLaws} {ML : MainLaws}.
Context (hw0 : hw_state) (cp : chainload_page_t) (m0 : mem) (la : list Z) (vm : Z).
Context (tbl : gmap (nat * Z) Z) (host : Z → Z).
Implicit Types (s : machine) (v : vm_t).

(** An image that fits into the guest, at the page [lo]. *)
Record image_fits (m : mem) (ia size lo : Z) : Prop := {
  if_image : linux_image m ia size;
  if_address : image_field m ia "pref_address" = lo * PAGE_SIZE;
  if_kernel : lo + image_kernel_pages m ia size ≤ hello_pages - 516;
  if_size : 4612 + size / PAGE_SIZE < hello_pages;
  if_cmdline : Z.of_nat (length cmdline_default) ≤ load_le 4 m (ia + hdr_offset "cmdline_size");
}.

Definition linux_vm (v : vm_t) (lo : Z) (hw : hw_state) : vm_t :=
  linux_guest (with_cr3 (with_used v 516) ((hello_pages - 1) * PAGE_SIZE)) (u64 (lo * PAGE_SIZE + 0x200))
    ((hello_pages - 515) * PAGE_SIZE) hw.

(** What the guest finds in its memory. *)
Record linux_content (m : mem) (ia size lo : Z) (m' : mem) : Prop := {
  lc_zeropage o : 0 ≤ o < PAGE_SIZE →
    load_byte m' (host (hello_pages - 515) + o) = linux_zeropage m ia ((hello_pages - 516) * PAGE_SIZE) hello_pages o;
  lc_cmdline o : 0 ≤ o ≤ Z.of_nat (length cmdline_default) →
    load_byte m' (host (hello_pages - 516) + o) = (cmdline_default ++ [0]) !!! Z.to_nat o;
  lc_kernel i : 0 ≤ i < image_kernel_size m ia size →
    load_byte m' (host (lo + i / PAGE_SIZE) + i mod PAGE_SIZE) = load_byte m (image_kernel m ia + i);
}.

Lemma wp_hvmain_linux ia size lo v s E (Q : () → machine → Prop) :
  vm_ready hw0 cp m0 la vm tbl host v s → image_fits m0 ia size lo →
  (∀ a, ia ≤ a < ia + size → mm_page_used_by_chainload a cp = true) →
  (∀ s', guest_done hw0 cp m0 la vm tbl host lo (lo * PAGE_SIZE + 0x200) (linux_vm v lo (m_hw s)) s' →
     linux_content m0 ia size lo (m_mem s') → Q () s') →
  wp (vm_guest_linux_loader vm (P2V_IDENTITY_MAP ia) size cmdline_default) E Q s.
Proof.
  intros Hready [Himg Hpref Hk Hsz Hcmd] Hused HQ. pose proof Hready as [Hg Hinj Hhost Hpages Hv Hfl Htr _ Hmem].
  pose proof (image_size_bound m0 ia size Himg) as Hb. pose proof (li_window _ _ _ Himg) as Hw.
  pose proof (image_field_bound m0 ia "pref_address") as Hfb.
  assert (0 ≤ image_kernel_pages m0 ia size) as Hkp.
  { pose proof (kernel_size_bound m0 ia size Himg). unfold image_kernel_pages, PAGE_SIZE. cbv zeta. destruct (_ =? 0); zlia. }
  assert (0 ≤ lo) as Hlo by (unfold PAGE_SIZE in *; lia).
  assert (∀ a, ia ≤ a < ia + size → ∃ p, page_ok p ∧ mm_page_used_by_chainload p cp = true ∧ p ≤ a < p + PAGE_SIZE) as Hpage.
  { intros a Ha. exists (a / PAGE_SIZE * PAGE_SIZE). rewrite used_by_chainload_page. unfold page_ok, PAGE_SIZE.
    split; [split; zlia|]. split; [by apply Hused|zlia]. }
  assert (∀ a, ia ≤ a < ia + size → load_byte (m_mem s) a = load_byte m0 a) as Hsame.
  { intros a Ha. destruct (Hpage a Ha) as (p & Hok & Hp & Hap). by apply (Hmem p). }
  assert (∀ a k, ia ≤ a < ia + size → lo ≤ k < hello_pages → ¬ (host k ≤ a < host k + PAGE_SIZE)) as Hdisj.
  { intros a k Ha Hk'. destruct (Hpage a Ha) as (p & Hok & Hp & Hap).
    apply (vm_ready_disjoint hw0 cp m0 la vm tbl host v s p); (done || lia). }
  pose proof (linux_image_same m0 (m_mem s) ia size Himg Hsame) as Himg'.
  pose proof (image_kernel_same m0 (m_mem s) ia size Himg Hsame) as Hkern.
  assert (guest_inv la [vm] vm tbl lo hello_pages host v s) as Hg'.
  { destruct Hg as [He Hram Hcon]. split; [done| |done]. intros k Hk'. apply Hram. lia. }
  apply (wp_keeps rest); [apply keeps_vm_guest_linux_loader|].
  assert (image_kernel_size (m_mem s) ia size = image_kernel_size m0 ia size) as Hks
    by (unfold image_kernel_size; by rewrite Hkern).
  assert (image_kernel_pages (m_mem s) ia size = image_kernel_pages m0 ia size) as Hkps
    by (unfold image_kernel_pages; by rewrite Hks).
  assert (0 ≤ lo ∧ hello_pages * PAGE_SIZE ≤ 2 ^ 48) as Hbound by (split; [done|by vm_compute]).
  assert (lo ≤ hello_pages - 516) as Hlo' by lia.
  eapply wp_mono; [apply (wp_vm_guest_linux_loader la [vm] vm tbl lo hello_pages host (m_mem s) ia size Hbound
    (λ k k' Hk1 Hk2, Hinj k k' ltac:(lia) ltac:(lia)) Himg' Hdisj Hsz v) |done|intros a s' H; exact H].
  - exact Hg'.
  - reflexivity.
  - exact Hpages.
  - by rewrite Hv.
  - by rewrite Hv.
  - by rewrite (image_field_same m0 _ ia size).
  - by rewrite Hkps.
  - by repeat constructor.
  - rewrite (image_load_same m0 _ ia size) by (done || by vm_compute). exact Hcmd.
  - by vm_compute.
  - intros s' Hgs Hll Hhs Hrest. apply HQ.
    + split; [exact Hgs|eapply host_ready_step; [exact Hhost|done|done]|intros k Hk'; apply Htr; lia
        |change (vm_devices v = 0); by rewrite Hv|exact Hfl| | | |].
      * unfold linux_vm, linux_guest, host_guest_state. cbn. destruct (host_ready_registers _ _ _ _ Hhost (reflexivity _)) as (-> & -> & -> & -> & ->).
        rewrite wrap_small; [done|]. unfold hello_pages, PAGE_SIZE in *. lia.
      * apply Hll.
      * lia.
      * apply (vm_ready_kept hw0 cp m0 la vm tbl host v s); [exact Hready|]. eapply written_mono; [exact Hlo|reflexivity|apply Hll].
    + destruct Hll as [_ Hz Hc Hkl _]. split.
      * intros o Ho. rewrite Hz by done. by apply (linux_zeropage_same m0 _ ia size).
      * exact Hc.
      * intros i Hi. rewrite Hkl by (by rewrite Hks). rewrite Hkern. apply Hsame. unfold image_kernel_size in Hi.
        pose proof (image_setup_sects_bound m0 ia). unfold image_kernel in *. lia.
Qed.

End linux.
