(* ===== verification/MainLaunch.v ===== *)
(** The launch of [hvmain]: the VMCS, the serial ports of the guest and the switch to the VM. *)
From S2P Require Import Prelude Memory Machine Registers SimpleCpu PageUse PageAllocator Arena.
From S2P Require Import VmxInstructions VmxMsr VmTracking VmxPages VmxEpt VmxEptSpec EptCorrect VmManager.
From S2P Require Import Strings Console Uart IoPorts GuestPaging Descriptors Vmcs Setup GuestMemory LinuxLoader.
From S2P Require Import Main MainFrame MainGuest.

Section launch.
Context `{DL : DescriptorLaws} {KI : KernelImage} {XI : XcrInstructions} {SL : SetupLaws} {ML : MainLaws}.
Context {VL : VmxLaws} {VLS : VmcsLaws}.
Context (vm : Z) (tbl : gmap (nat * Z) Z) (host : Z → Z) (lo : Z).
Context (Hlo : 0 ≤ lo).
Implicit Types (s : machine) (v : vm_t) (m : mem) (la l : list Z).
Notation guest_inv la := (guest_inv la [vm] vm tbl lo hello_pages host).

(** * The VMCS *)

(** The guest keeps its memory when the pages of its VM are kept. *)
Lemma guest_inv_same la la' v v' s s' :
  guest_inv la v s → vmm_wf la' [vm] s' → m_vms s' !! vm = Some v' →
  vm_tracked_pages v' = vm_tracked_pages v → ept_initialized v' = ept_initialized v →
  eptp (vm_vmcs_config v') = eptp (vm_vmcs_config v) →
  (∀ p a, p ∈ all_pages (vm_tracked_pages v) → p ≤ a < p + PAGE_SIZE →
     load_byte (m_mem s') a = load_byte (m_mem s) a) →
  console_inv s' → guest_inv la' v' s'.
Proof.
  intros [He Hram _] Hwf Hv Ht Hi Hp Hm Hcon.
  destruct (ept_inv_guest_memory la [vm] vm v tbl s (m_mem s') He) as [[_ _ _ [A B C D]] Htr].
  { intros res p a Hin. apply Hm. by eapply pages_of_subset. }
  assert (∀ m a, ept_translate v' m a = ept_translate v m a) as Htv by (intros; unfold ept_translate; by rewrite Hi, Hp).
  split; [|intros k Hk|done].
  - split; [done|by left|done|]. split.
    + by rewrite Hi, Hp.
    + by rewrite Hi.
    + by rewrite Ht.
    + by rewrite Ht.
  - destruct (Hram k Hk) as [R1 R2 R3]. split; [|done|by rewrite Ht].
    rewrite Htv, Htr; [done|]. unfold hello_pages, PAGE_SIZE in *. lia.
Qed.

(** What the launch may change of a VM. *)
Definition launched_vm v (region device : Z) : vm_t :=
  ((v <| vm_vmcs_region := region |>) <| vm_flags := Z.lor (vm_flags v) VM_T_FLAG_VMCS_INITIALIZED |>)
    <| vm_devices := device |>.

(** * The serial ports *)

Lemma wp_uart_attach la v l port_base port_name (k : M machine ()) E (Q : () → machine → Prop) s :
  guest_inv la v s → vm_devices_wf v l s → Forall (λ d, d < device_end s) l →
  m_vmd_device_arena s = 0 ∨ m_vmd_device_arena s ∈ la → (∀ msg, out_of_memory msg → E msg) →
  (∀ la' device uart s', let v' := v <| vm_devices := device |> in
     guest_inv la' v' s' → vm_devices_wf v' (device :: l) s' → m_vmd_device_arena s' ∈ la' →
     device_end s ≤ device < uart ∧ uart < device_end s' →
     s' = s <| m_devices := <[device := (uart_device port_base uart) <| dev_next := vm_devices v |>]> (m_devices s) |>
            <| m_uarts := <[uart := new_uart port_base port_name]> (m_uarts s) |>
            <| m_vms := <[vm := v']> (m_vms s) |>
            <| m_last_returned_region_index := m_last_returned_region_index s' |>
            <| m_last_returned_page_index := m_last_returned_page_index s' |>
            <| m_arenas := m_arenas s' |> <| m_arena_head := m_arena_head s' |>
            <| m_vmd_device_arena := m_vmd_device_arena s' |> → wp k E Q s') →
  wp (device ← vmd_8250uart_create port_base port_name; vm_manager_register_device vm device;; k) E Q s.
Proof.
  intros Hg [Hl Hd] Hfresh Ha HE HQ. pose proof (gi_ept _ _ _ _ _ _ _ _ _ Hg) as [Hwf Hvm Hv He].
  wp_step. eapply (wp_vmd_8250uart_create la [vm]); [done|done|by apply HE; left|by apply HE; right|]. cbv zeta.
  intros la' device uart s1 Hdev Hf Ha1 Hwf1 Hend.
  set (s2 := s1 <| m_devices := _ |> <| m_uarts := _ |>) in *.
  assert (m_vms s2 = m_vms s) as Hvs by (unfold s2; simpl; by rewrite Hf).
  wp_step. eapply (wp_vm_manager_register_device vm v); [by rewrite Hvs|apply lookup_insert_eq|done|].
  set (s3 := s2 <| m_devices := _ |> <| m_vms := _ |>). set (v' := v <| vm_devices := device |>) in *.
  assert (s3 = s <| m_devices := <[device := (uart_device port_base uart) <| dev_next := vm_devices v |>]> (m_devices s) |>
            <| m_uarts := <[uart := new_uart port_base port_name]> (m_uarts s) |>
            <| m_vms := <[vm := v']> (m_vms s) |>
            <| m_last_returned_region_index := m_last_returned_region_index s3 |>
            <| m_last_returned_page_index := m_last_returned_page_index s3 |>
            <| m_arenas := m_arenas s3 |> <| m_arena_head := m_arena_head s3 |>
            <| m_vmd_device_arena := m_vmd_device_arena s3 |>) as Heq.
  { unfold s3, s2. cbn. rewrite insert_insert_eq. rewrite Hf. reflexivity. }
  assert (vmm_wf la' [vm] s3) as Hwf3.
  { pose proof (vmm_wf_devices la' [vm] s2 (m_vmd_device_arena s2)
      (<[device := (uart_device port_base uart) <| dev_next := vm_devices v |>]> (m_devices s2)) (m_uarts s2) Hwf1) as Hwf2.
    refine (vmm_wf_update_same la' [vm] _ vm v v' Hwf2 _ _ eq_refl eq_refl); [by left|exact (eq_trans (f_equal (.!! vm) Hvs) Hv)]. }
  assert (guest_inv la' v' s3) as Hg3.
  { eapply (guest_inv_same la la' v v' s s3); [exact Hg|exact Hwf3|apply lookup_insert_eq|done..| |].
    - intros p a _ _. by rewrite Heq.
    - eapply console_local; [| |apply Hg]; by rewrite Heq. }
  apply (HQ la' device uart s3); [exact Hg3| |done|exact Hend|exact Heq].
  assert (device ∉ l) as Hnin by (intros Hin; rewrite Forall_forall in Hfresh; specialize (Hfresh device Hin); lia).
  destruct (vm_devices_wf_register vm v device (uart_device port_base uart) l s) as [Hl' Hd'];
    [by split|done|done|apply uart_device_wf|].
  split; rewrite Heq; assumption.
Qed.

(** * The launch *)

(** The VM [v] is the current one, its VMCS is filled and its serial ports are attached. *)
Record launched (hw0 : hw_state) la v (rip com1 uart1 com2 uart2 : Z) s : Prop := {
  lh_current : m_current_vm s = vm;
  lh_vmcs : hw_vmptrst (m_hw s) = (0, vm_vmcs_region v);
  lh_guest : guest_inv la v s;
  lh_state : guest_state (vm_vmcs_config v) = host_guest_state hw0 rip ((hello_pages - 1) * PAGE_SIZE);
  lh_fields f : f ∈ default_vmcs_fields (vm_vmcs_config v) (vm_vmcs_region v) (hw_cr0 hw0) (hw_cr3 hw0)
      (Z.lor (xsave_cr4 hw0) CR4_VMXE) GDTR IDTR (hw_rdmsr IA32_EFER hw0) 0xc093 0xa09b →
    ∃ r, hw_vmread (field_encoding f) (m_hw s) = (0, r) ∧ field_final hw0 f r;
  lh_paging gla : guest_walk 3 v (m_mem s) ((hello_pages - 1) * PAGE_SIZE) gla =
    if (gla / 2 ^ 39) mod 512 =? 0 then Some (gla mod 2 ^ 39) else None;
  lh_devices : vm_devices_wf v [com2; com1] s;
  lh_com1 : m_devices s !! com1 = Some (uart_device COM1 uart1);
  lh_com2 : m_devices s !! com2 = Some ((uart_device COM2 uart2) <| dev_next := com1 |>);
  lh_uart1 : m_uarts s !! uart1 = Some (new_uart COM1 (bytes_of_string "COM1"));
  lh_uart2 : m_uarts s !! uart2 = Some (new_uart COM2 (bytes_of_string "COM2"));
  lh_backup e : e ∈ VMX_MSR_LIST → is_rwbk e = true →
    msr_get e (m_msr_host_backup s) = hw_rdmsr (msr_addr e) hw0;
}.

(** After the VMCS. *)
Record has_vmcs (hw0 : hw_state) la v s : Prop := {
  hv_guest : guest_inv la v s;
  hv_vmcs : hw_vmptrst (m_hw s) = (0, vm_vmcs_region v);
  hv_region : page_ok (vm_vmcs_region v);
  hv_msrs a : hw_rdmsr a (m_hw s) = hw_rdmsr a hw0;
  hv_fields f : f ∈ default_vmcs_fields (vm_vmcs_config v) (vm_vmcs_region v) (hw_cr0 hw0) (hw_cr3 hw0)
      (Z.lor (xsave_cr4 hw0) CR4_VMXE) GDTR IDTR (hw_rdmsr IA32_EFER hw0) 0xc093 0xa09b →
    ∃ r, hw_vmread (field_encoding f) (m_hw s) = (0, r) ∧ field_final hw0 f r;
}.

Lemma has_vmcs_step hw0 la la' v v' s s' :
  has_vmcs hw0 la v s → guest_inv la' v' s' → vm_vmcs_region v' = vm_vmcs_region v →
  vm_vmcs_config v' = vm_vmcs_config v → hw_same (m_hw s) (m_hw s') → has_vmcs hw0 la' v' s'.
Proof.
  intros [_ Hp Hok Hm Hf] Hg Hr Hc (Hvmread & Hmsr & Hptr & _). split; rewrite ?Hr, ?Hc; [done|by rewrite Hptr|done| |].
  - intros a. by rewrite Hmsr.
  - intros f Hin. destruct (Hf f Hin) as (r & H1 & H2). exists r. by rewrite Hvmread.
Qed.

Lemma vmcs_flag_ept flags :
  Z.land (Z.lor flags VM_T_FLAG_VMCS_INITIALIZED) VM_T_FLAG_EPT_PML4_INITIALIZED =
  Z.land flags VM_T_FLAG_EPT_PML4_INITIALIZED.
Proof. rewrite Z.land_lor_distr_l. change (Z.land VM_T_FLAG_VMCS_INITIALIZED _) with 0. apply Z.lor_0_r. Qed.

(** The VMCS of the guest. *)
Lemma wp_hvmain_vmcs hw0 cp m0 la rip v (k : M machine ()) E (Q : () → machine → Prop) s :
  guest_done hw0 cp m0 la vm tbl host lo rip v s → vmcs_accepted → (∀ msg, out_of_memory msg → E msg) →
  (∀ region s', let v' := (v <| vm_vmcs_region := region |>)
       <| vm_flags := Z.lor (vm_flags v) VM_T_FLAG_VMCS_INITIALIZED |> in
     has_vmcs hw0 la v' s' → page_unowned la [vm] region s → m_vmd_device_arena s' = 0 →
     (∀ a, ¬ (region ≤ a < region + PAGE_SIZE) → load_byte (m_mem s') a = load_byte (m_mem s) a) → wp k E Q s') →
  wp (vmx_create_initialized_vmcs vm;;
      v ← vm_get vm;
      LOG main_log_category (bytes_of_string "new initialized VMCS created @ %p") [ArgInt (vm_vmcs_region v)];;
      k) E Q s.
Proof.
  intros [Hg Hh Htr _ Hfl Hst _ _ _] Hacc HE HQ. pose proof (gi_ept _ _ _ _ _ _ _ _ _ Hg) as [Hwf Hvm Hv He].
  wp_step. apply (wp_vmx_create_initialized_vmcs la [vm] vm v 0xc093 0xa09b); [done|done|done|done|apply Hg|done|..].
  - by rewrite Hst.
  - rewrite Hst, (hr_GDT _ _ _ Hh). by vm_compute.
  - rewrite Hst, (hr_GDT _ _ _ Hh). by vm_compute.
  - apply HE. by left.
  - intros region s1 [Hok Hun Hvms Hcur Hbv Hf Hwf1 _ Hbn Hcon Heq Hmem Hmsr].
    set (v1 := (v <| vm_vmcs_region := region |>) <| vm_flags := _ |>) in *.
    assert (m_vms s1 !! vm = Some v1) as Hv1 by (rewrite Hvms; apply lookup_insert_eq).
    destruct (Hbn (hr_bitmaps _ _ _ Hh)) as [Hb _]. clear Hbn.
    assert (has_vmcs hw0 la v1 s1) as Hhv.
    { split; [|done|done|intros a; by rewrite Hmsr, (hr_msr _ _ _ Hh)|].
      - eapply (guest_inv_same la la v v1 s s1); [done|done|done|done|unfold ept_initialized; cbn; by rewrite vmcs_flag_ept|done| |done].
        intros p a Hp Ha. apply Hmem. destruct Hun as [_ Hun]. intros Ha'.
        assert (p = region) as ->; [|by eapply Hun].
        destruct (decide (p = region)) as [|Hne]; [done|]. exfalso. revert Ha'. apply (page_ok_disjoint p); try done.
        eapply all_pages_ok; [|exact Hp]. apply (vw_tracked _ _ _ Hwf vm v Hvm Hv).
      - intros f Hin. unfold initial_fields in Hf. rewrite Hb, (hr_cr0 _ _ _ Hh), (hr_cr3 _ _ _ Hh), (hr_cr4 _ _ _ Hh),
          (hr_gdtr _ _ _ Hh), (hr_idtr _ _ _ Hh), (hr_msr _ _ _ Hh) in Hf.
        destruct (Hf f Hin) as (r & H1 & H2). exists r. split; [done|].
        revert H2. unfold field_final. by rewrite (hr_msr _ _ _ Hh). }
    wp_step. eapply wp_vm_get; [done|]. change (vm_vmcs_region v1) with region. pose proof Hok as [_ Hok'].
    wp_step. apply wp_LOG_line; [done|solve_log_ok|]. intros s2 Hf2 Hcon2.
    apply (HQ region s2); [|done| |].
    + eapply has_vmcs_step; [exact Hhv| |done|done|apply Hf2]. by eapply guest_inv_console; [apply Hhv|..].
    + destruct Hf2 as [Heq2 _]. rewrite Heq2, Heq. exact (hr_devices _ _ _ Hh).
    + destruct Hf2 as [Heq2 _]. intros a Ha. rewrite Heq2. by apply Hmem.
Qed.

(** The switch to the VM. *)
Definition switched s backup hw b : machine :=
  (((s <| m_msr_host_backup := backup |>) <| m_hw := hw |>) <| m_current_vm := vm |>) <| m_serial_initialized := b |>.

Lemma vmm_wf_switched la lv s backup hw b : vmm_wf la lv s → vmm_wf la lv (switched s backup hw b).
Proof. intros [[[] ? ?] Haw ? ? ? ?]. split; first [done|by split; apply Haw|by split; [split|..]]. Qed.

Lemma has_vmcs_switched hw0 la v s backup h b :
  has_vmcs hw0 la v s → vmcs_accepted → hw_same (m_hw s) h →
  let s' := switched s backup (snd (hw_vmptrld (vm_vmcs_region v) h)) b in
  console_inv s' → has_vmcs hw0 la v s'.
Proof.
  intros [Hg Hcur Hok Hmsr Hf] [Hacc _] (Hvmread & Hmsr' & Hptr & _) s' Hcon.
  pose proof (gi_ept _ _ _ _ _ _ _ _ _ Hg) as [Hwf Hvm Hv He].
  destruct (Hacc (vm_vmcs_region v) h Hok) as [_ Hld].
  destruct (vmptrld_registers (vm_vmcs_region v) h) as (Hmsr'' & _).
  split.
  - eapply (guest_inv_same la la v v s s'); [exact Hg| |done..]. by apply vmm_wf_switched.
  - by apply vmptrst_vmptrld.
  - done.
  - intros a. by rewrite <-Hmsr, <-Hmsr', <-Hmsr''.
  - intros f Hin. destruct (Hf f Hin) as (r & H1 & H2). exists r. split; [|done].
    change (m_hw s') with (snd (hw_vmptrld (vm_vmcs_region v) h)).
    rewrite vmptrld_again by congruence. by rewrite Hvmread.
Qed.

Lemma wp_hvmain_vm_manager_launch hw0 la v E (Q : () → machine → Prop) s :
  has_vmcs hw0 la v s → vmcs_accepted →
  (∀ s' backup hw b, has_vmcs hw0 la v s' →
     (∀ e, e ∈ VMX_MSR_LIST → is_rwbk e = true → msr_get e backup = hw_rdmsr (msr_addr e) hw0) →
     s' = switched s backup hw b → Q () s') →
  wp (vm_manager_launch vm) E Q s.
Proof.
  intros Hhv Hacc HQ. pose proof Hhv as [Hg Hcur Hok Hmsr Hf]. pose proof (gi_ept _ _ _ _ _ _ _ _ _ Hg) as [Hwf Hvm Hv He].
  unfold vm_manager_launch. wp_step. apply wp_vmx_msr_vmlaunch. intros backup Hb.
  wp_step. eapply wp_vm_get; [exact Hv|].
  wp_step. apply wp_LOG_line; [by eapply console_local; [| |apply Hg]|solve_log_ok|]. intros s2 [Heq2 Hs2] Hcon2.
  destruct (proj1 Hacc (vm_vmcs_region v) (m_hw s2) Hok) as [_ Hld].
  wp_step. apply (wp_vm_get _ v); [by rewrite Heq2|].
  wp_step. apply wp_vmptrld; [done|]. do 2 wp_step.
  set (h := snd (hw_vmptrld (vm_vmcs_region v) (m_hw s2))). set (s3 := (s2 <| m_hw := h |>) <| m_current_vm := vm |>).
  assert (s3 = switched s backup h (m_serial_initialized s2)) as Heq3.
  { exact (f_equal (λ s, (s <| m_hw := h |>) <| m_current_vm := vm |>) Heq2). }
  assert (console_inv s3) as Hcon3.
  { eapply (console_inv_keeps (λ c, snd (hw_vmptrld (vm_vmcs_region v) c)) s2); [apply vmptrld_console|done|done|done]. }
  clearbody s3. subst s3.
  pose proof (has_vmcs_switched hw0 la v s backup (m_hw s2) (m_serial_initialized s2) Hhv Hacc Hs2 Hcon3) as Hhv3.
  wp_step. apply (wp_vm_get _ v); [exact Hv|].
  apply wp_LOG_line; [exact Hcon3|solve_log_ok|]. intros s4 Hf4 Hcon4.
  apply (HQ s4 backup (m_hw s4) (m_serial_initialized s4)).
  - eapply has_vmcs_step; [exact Hhv3| |done|done|apply Hf4]. by eapply guest_inv_console; [apply Hhv3|..].
  - intros e H1 H2. by rewrite Hb.
  - destruct Hf4 as [Heq4 _]. exact Heq4.
Qed.

(** The whole of [hvmain_launch]. *)
Lemma wp_hvmain_launch hw0 cp m0 la rip v E (Q : () → machine → Prop) s :
  guest_done hw0 cp m0 la vm tbl host lo rip v s → vmcs_accepted → (∀ msg, out_of_memory msg → E msg) →
  (∀ la' region com1 uart1 com2 uart2 s',
     launched hw0 la' (launched_vm v region com2) rip com1 uart1 com2 uart2 s' →
     (∀ k o, lo ≤ k < hello_pages → 0 ≤ o < PAGE_SIZE → load_byte (m_mem s') (host k + o) = load_byte (m_mem s) (host k + o)) →
     (∀ p a, page_ok p → mm_page_used_by_chainload p cp = true → p ≤ a < p + PAGE_SIZE →
        load_byte (m_mem s') a = load_byte m0 a) →
     Q () s') →
  wp (hvmain_launch vm) E Q s.
Proof.
  intros Hdone Hacc HE HQ. pose proof Hdone as [Hg Hh Htr Hdev Hfl Hst Hpaging Hle Hkept].
  unfold hvmain_launch. eapply wp_hvmain_vmcs; [exact Hdone|done|done|]. cbv zeta.
  intros region s1 Hhv1 [Hel Hun] Harena Hmem. set (v1 := (v <| vm_vmcs_region := region |>) <| vm_flags := _ |>) in *.
  eapply (wp_uart_attach la v1 []); [apply Hhv1| |constructor|by left|done|].
  { split; [|by intros p d ?%elem_of_nil]. change (vm_devices v1) with (vm_devices v). rewrite Hdev. constructor. }
  cbv zeta. intros la2 com1 uart1 s2 Hg2 Hd2 Ha2 Hend2 Heq2. set (v2 := v1 <| vm_devices := com1 |>) in *.
  eapply (wp_uart_attach la2 v2 [com1]); [exact Hg2|exact Hd2|by repeat constructor; lia|by right|done|].
  cbv zeta. intros la3 com2 uart2 s3 Hg3 Hd3 Ha3 Hend3 Heq3. set (v3 := v2 <| vm_devices := com2 |>) in *.
  assert (m_hw s3 = m_hw s1) as Hhw3 by (by rewrite Heq3; cbn; rewrite Heq2).
  assert (has_vmcs hw0 la3 v3 s3) as Hhv3.
  { eapply has_vmcs_step; [exact Hhv1|exact Hg3|done|done|by rewrite Hhw3]. }
  eapply wp_hvmain_vm_manager_launch; [exact Hhv3|done|].
  intros s4 backup hw b Hhv4 Hb Heq4.
  assert (m_mem s4 = m_mem s1) as Hm4 by (by rewrite Heq4; cbn; rewrite Heq3; cbn; rewrite Heq2).
  assert (m_devices s4 = m_devices s3) as Hds4 by (by rewrite Heq4).
  assert (m_uarts s4 = m_uarts s3) as Hus4 by (by rewrite Heq4).
  assert (∀ k o, lo ≤ k < hello_pages → 0 ≤ o < PAGE_SIZE → load_byte (m_mem s4) (host k + o) = load_byte (m_mem s) (host k + o)) as Hmem4.
  { intros k o Hk Ho. rewrite Hm4. apply Hmem. pose proof (gi_ept _ _ _ _ _ _ _ _ _ Hg) as [Hwf Hvm Hv _].
    apply (page_ok_disjoint (host k)); [by eapply (gi_page _ _ _ _ _ _ _ _ _ k Hg)|apply Hhv1| |lia].
    intros Heq. apply (Hun vm v); [by left|done|]. rewrite <-Heq. by apply Htr. }
  apply (HQ la3 region com1 uart1 com2 uart2 s4); [|exact Hmem4|].
  2: { intros p a Hok Hp Ha. rewrite Hm4, Hmem; [by apply (Hkept p)|].
    apply (page_ok_disjoint p); [done|apply Hhv1| |done]. intros ->. unfold owned_elsewhere in Hel. revert Hel.
    rewrite (hr_chainload _ _ _ Hh). change (vm_vmcs_region v1) with region in Hp. by rewrite Hp. }
  change (launched_vm v region com2) with v3.
  split.
  - by rewrite Heq4.
  - apply Hhv4.
  - apply Hhv4.
  - exact Hst.
  - apply Hhv4.
  - intros gla. apply (identity_walk la3 [vm] vm v3 tbl s4 (hello_pages - 514) hello_pages host (gi_ept _ _ _ _ _ _ _ _ _ (hv_guest _ _ _ _ Hhv4))
      ltac:(by vm_compute) (λ k Hk, gi_ram _ _ _ _ _ _ _ _ _ (hv_guest _ _ _ _ Hhv4) k ltac:(lia)) eq_refl _ (vm_used_by_initial_setup v3)).
    eapply (identity_paging_same hello_pages host s); [exact Hpaging|]. intros k o Hk Ho. apply Hmem4; [lia|done].
  - destruct Hd3 as [A B]. split; by rewrite Hds4.
  - rewrite Hds4, Heq3. cbn. rewrite lookup_insert_ne by lia. rewrite Heq2. cbn. rewrite lookup_insert_eq.
    change (vm_devices v1) with (vm_devices v). by rewrite Hdev.
  - rewrite Hds4, Heq3. cbn. by rewrite lookup_insert_eq.
  - rewrite Hus4, Heq3. cbn. rewrite lookup_insert_ne by lia. rewrite Heq2. cbn. by rewrite lookup_insert_eq.
  - rewrite Hus4, Heq3. cbn. by rewrite lookup_insert_eq.
  - intros e H1 H2. rewrite Heq4. by apply Hb.
Qed.

End launch.
