(* ===== verification/MainCorrect.v ===== *)
(** The correctness of the entry point: from the jump of the boot loader to the switch to
    the VM. *)
From S2P Require Import Prelude Memory Machine Registers SimpleCpu PageUse PageAllocator Arena.
From S2P Require Import VmxInstructions VmxMsr VmTracking VmxPages VmxEpt VmxEptSpec EptCorrect VmManager.
From S2P Require Import Strings Console Uart IoPorts GuestPaging Descriptors Vmcs Setup GuestMemory LinuxLoader.
From S2P Require Import Main MainFrame MainGuest MainLaunch.

(** The image of Linux that the boot loader left: its physical address and its size. *)
Definition linux_attachment (cp : chainload_page_t) : option (Z * Z) :=
  let '(va, size) := mm_get_attachment_loop CHAINLOAD_ATTACHMENT_LINUX_BZIMAGE (attachments cp) in
  if negb (va =? 0) && (0 <? size) then Some (V2P_IDENTITY_MAP va, size) else None.

(** The first page of the kernel of Linux. *)
Definition linux_first_page (m : mem) (ia : Z) : Z := image_field m ia "pref_address" / PAGE_SIZE.

(** What the boot loader promises of its memory [m0] and of the chainload page. *)
Record chainload_wf (cp : chainload_page_t) (m0 : mem) : Prop := {
  cw_mmap : mmap_wf (efi_mmap_usable cp);
  cw_typed : chainload_typed cp;
  cw_attachments : Forall attachment_wf (attachments cp);
  cw_image : match linux_attachment cp with
             | Some (ia, size) => image_fits m0 ia size (linux_first_page m0 ia)
             | None => True
             end;
}.

(** The arguments of the build. *)
Record build_wf `{KI : KernelImage} (RKHV_HASH vm_guest_hello_world : list Z) : Prop := {
  bw_hash : 0 ∉ RKHV_HASH ∧ 0x25 ∉ RKHV_HASH;
  bw_guest : Forall (λ c, 0 ≤ c < 256) vm_guest_hello_world ∧ Z.of_nat (length vm_guest_hello_world) ≤ 0x400;
  bw_isr : length isr_stub_table = 256%nat;
  bw_tables : 0 ≤ GDT_address < 2 ^ 64 ∧ 0 ≤ IDT_address < 2 ^ 64;
}.

(** The guest that [hvmain] chooses is in the memory [m] of the VM, and starts at [rip]:
    the image of Linux when there is one, the program of the build otherwise. *)
Definition guest_loaded (code : list Z) (cp : chainload_page_t) (m0 : mem) (host : Z → Z) (lo rip rsi : Z)
    (m : mem) : Prop :=
  match linux_attachment cp with
  | Some (ia, size) =>
    lo = linux_first_page m0 ia ∧ rip = image_field m0 ia "pref_address" + 0x200 ∧
    rsi = (hello_pages - 515) * PAGE_SIZE ∧ linux_content host m0 ia size lo m
  | None =>
    lo = 0 ∧ rip = 0x7c00 ∧ rsi = 0 ∧
    ∀ k o, 0 ≤ k < hello_pages - 514 → 0 ≤ o < PAGE_SIZE →
      load_byte m (host k + o) = hello_byte code (k * PAGE_SIZE + o)
  end.

Section guest.
Context `{DL : DescriptorLaws} {KI : KernelImage} {XI : XcrInstructions} {SL : SetupLaws} {ML : MainLaws}.
Context (hw0 : hw_state) (cp : chainload_page_t) (m0 : mem).
Implicit Types (s : machine) (v : vm_t).

Lemma linux_attachment_used ia size a :
  Forall attachment_wf (attachments cp) → linux_attachment cp = Some (ia, size) → ia ≤ a < ia + size →
  mm_page_used_by_chainload a cp = true.
Proof.
  intros Hwf. unfold linux_attachment.
  destruct (mm_get_attachment_loop _ _) as [va sz] eqn:Hl. destruct (_ && _); [|done]. intros [= <- <-] Ha.
  pose proof (mm_get_attachment_loop_used _ _ va sz (a - V2P_IDENTITY_MAP va) Hwf Hl ltac:(lia)) as Hu.
  replace (V2P_IDENTITY_MAP va + (a - V2P_IDENTITY_MAP va)) with a in Hu by lia.
  unfold mm_page_used_by_chainload. rewrite Hu. by rewrite orb_true_r.
Qed.

(** [hvmain_guest] loads the guest. *)
Lemma wp_hvmain_guest code la vm tbl host v E (Q : () → machine → Prop) s :
  vm_ready hw0 cp m0 la vm tbl host v s → chainload_wf cp m0 →
  Forall (λ c, 0 ≤ c < 256) code → Z.of_nat (length code) ≤ 0x400 →
  (∀ lo rip v' s', 0 ≤ lo → guest_done hw0 cp m0 la vm tbl host lo rip v' s' →
     guest_loaded code cp m0 host lo rip (reg_rsi (vm_initial_gpr_state v')) (m_mem s') →
     Q () s') →
  wp (hvmain_guest code vm) E Q s.
Proof.
  intros Hr [_ _ Hwf Hi] Hcode Hlen HQ. pose proof (hr_chainload _ _ _ (vr_host _ _ _ _ _ _ _ _ _ Hr)) as Hcp.
  unfold hvmain_guest, mm_get_attachment. do 3 wp_step. rewrite Hcp. wp_step.
  pose proof (linux_attachment_used) as Hused. unfold guest_loaded, linux_attachment in *.
  destruct (mm_get_attachment_loop _ _) as [va size] eqn:Hl. destruct (negb (va =? 0) && (0 <? size)) eqn:Hb.
  - apply andb_true_iff in Hb as [_ Hsz%Z.ltb_lt].
    destruct (mm_get_attachment_loop_found _ _ _ _ Hwf Hl Hsz) as (pa & Hok & Hend & ->).
    rewrite V2P_P2V_page in * by done. 
    apply (wp_hvmain_linux hw0 cp m0 la vm tbl host pa size (linux_first_page m0 pa) v); [done|done| |].
    + intros a. by apply (Hused pa size a Hwf).
    + intros s' Hd Hc. pose proof (image_field_bound m0 pa "pref_address") as [Hge _].
      pose proof (if_address _ _ _ _ Hi) as Hlo.
      apply (HQ (linux_first_page m0 pa) (linux_first_page m0 pa * PAGE_SIZE + 0x200) (linux_vm v (linux_first_page m0 pa) (m_hw s)) s').
      * unfold PAGE_SIZE in *. lia.
      * exact Hd.
      * split_and!; [done|by rewrite Hlo|done|exact Hc].
  - apply (wp_hvmain_hello_world hw0 cp m0 la vm tbl host code v); [done..|].
    intros v' s' Hv' Hd Hm. apply (HQ 0 0x7c00 v' s'); [done|done|].
    split_and!; [done|done| |done]. rewrite Hv'. cbn. by rewrite (vr_vm _ _ _ _ _ _ _ _ _ Hr).
Qed.
End guest.

(** * Properties *)

Section properties.
Context `{DL : DescriptorLaws} {KI : KernelImage} {XI : XcrInstructions} {SL : SetupLaws} {ML : MainLaws}.
Context {VL : VmxLaws} {VLS : VmcsLaws}.

(** The VM [vm] runs the guest: everything that is true of the state after [hvmain]. *)
Definition guest_running (code : list Z) (cp : chainload_page_t) (m0 : mem) (hw0 : hw_state) (vm : Z) (s : machine) : Prop :=
  ∃ la tbl host lo rip v com1 uart1 com2 uart2,
    launched vm tbl host lo hw0 la v rip com1 uart1 com2 uart2 s ∧
    (∀ k k', lo ≤ k < hello_pages → lo ≤ k' < hello_pages → host k = host k' → k = k') ∧
    guest_loaded code cp m0 host lo rip (reg_rsi (vm_initial_gpr_state v)) (m_mem s) ∧
    (∀ i value, 0 ≤ i < COM_PORTS_LEN →
       vm_outb vm (COM1 + i) value s = vmd_8250uart_outb_handler vm uart1 (COM1 + i) value s ∧
       vm_outb vm (COM2 + i) value s = vmd_8250uart_outb_handler vm uart2 (COM2 + i) value s ∧
       vm_inb vm (COM1 + i) s = vmd_8250uart_inb_handler vm uart1 (COM1 + i) s ∧
       vm_inb vm (COM2 + i) s = vmd_8250uart_inb_handler vm uart2 (COM2 + i) s).

(** What was loaded stays when the bytes of the guest are kept. *)
Lemma guest_loaded_same code cp m0 host lo rip rsi m m' :
  chainload_wf cp m0 → guest_loaded code cp m0 host lo rip rsi m →
  (∀ k o, lo ≤ k < hello_pages → 0 ≤ o < PAGE_SIZE → load_byte m' (host k + o) = load_byte m (host k + o)) →
  guest_loaded code cp m0 host lo rip rsi m'.
Proof.
  intros [_ _ _ Hi] Hl Hm. unfold guest_loaded in *. destruct (linux_attachment cp) as [[ia size]|].
  - destruct Hl as (-> & -> & -> & [Hz Hc Hk]). destruct Hi as [Himg Hlo Hfit _ _].
    pose proof (kernel_size_bound m0 ia size Himg) as Hs.
    assert (∀ i, 0 ≤ i < image_kernel_size m0 ia size → i / PAGE_SIZE < image_kernel_pages m0 ia size) as Hp.
    { intros i Hi. unfold image_kernel_pages, PAGE_SIZE. destruct (Z.eqb_spec (image_kernel_size m0 ia size mod 4096) 0); zlia. }
    assert (0 ≤ image_kernel_pages m0 ia size) as Hkp.
    { unfold image_kernel_pages, PAGE_SIZE. destruct (_ =? 0); zlia. }
    split_and!; [done..|]. split.
    + intros o Ho. rewrite Hm; [by apply Hz|lia|done].
    + intros o Ho. assert (o < PAGE_SIZE) by (change (Z.of_nat (length cmdline_default)) with 61 in Ho; unfold PAGE_SIZE; lia).
      rewrite Hm; [by apply Hc|lia|lia].
    + intros i Hi. specialize (Hp i Hi). assert (0 ≤ i / PAGE_SIZE ∧ 0 ≤ i mod PAGE_SIZE < PAGE_SIZE) by (unfold PAGE_SIZE; zlia).
      rewrite Hm; [by apply Hk|lia|lia].
  - destruct Hl as (-> & -> & -> & Hb). split_and!; [done..|]. intros k o Hk Ho. rewrite Hm; [by apply Hb|lia|done].
Qed.

(** The ports of the two devices reach them. *)
Lemma launched_ports vm tbl host lo hw0 la v rip com1 uart1 com2 uart2 s i value :
  launched vm tbl host lo hw0 la v rip com1 uart1 com2 uart2 s → 0 ≤ i < COM_PORTS_LEN →
  vm_outb vm (COM1 + i) value s = vmd_8250uart_outb_handler vm uart1 (COM1 + i) value s ∧
  vm_outb vm (COM2 + i) value s = vmd_8250uart_outb_handler vm uart2 (COM2 + i) value s ∧
  vm_inb vm (COM1 + i) s = vmd_8250uart_inb_handler vm uart1 (COM1 + i) s ∧
  vm_inb vm (COM2 + i) s = vmd_8250uart_inb_handler vm uart2 (COM2 + i) s.
Proof.
  intros [_ _ Hg _ _ _ Hd H1 H2 _ _ _] Hi. pose proof (ei_lookup _ _ _ _ _ _ (gi_ept _ _ _ _ _ _ _ _ _ Hg)) as Hv.
  unfold vm_outb, vm_inb. rewrite !(vm_out_eq _ _ _ _ _ _ _ _ _ Hv Hd), !(vm_in_eq _ _ _ _ _ _ _ _ Hv Hd).
  cbn [first_handler]. rewrite H1, H2. unfold COM_PORTS_LEN in Hi.
  assert (i = 0 ∨ i = 1 ∨ i = 2 ∨ i = 3 ∨ i = 4 ∨ i = 5 ∨ i = 6 ∨ i = 7) as Hcases by lia.
  destruct_or! Hcases; subst i; by split_and!.
Qed.

(** The pages that the boot loader uses keep their bytes. *)
Definition chainload_kept (cp : chainload_page_t) (m m' : mem) : Prop :=
  ∀ p a, page_ok p → mm_page_used_by_chainload p cp = true → p ≤ a < p + PAGE_SIZE → load_byte m' a = load_byte m a.

Lemma wp_hvmain RKHV_HASH code chainload_page cp cp0 m0 hw0 :
  console_inv (entry_machine cp0 m0 hw0) → registers_64 hw0 → 0 ≤ chainload_page < 2 ^ 64 →
  build_wf RKHV_HASH code → chainload_wf cp m0 →
  (∀ p hw, page_ok p → fst (hw_vmxon p hw) = 0) → vmcs_accepted →
  wp (hvmain RKHV_HASH code chainload_page cp) (setup_failure hw0)
    (λ _ s', ∃ vm, vmx_unsupported hw0 = None ∧ guest_running code cp m0 hw0 vm s' ∧ chainload_kept cp m0 (m_mem s'))
    (entry_machine cp0 m0 hw0).
Proof.
  intros Hcon Hregs Hpage [[Hh0 Hh1] [Hc1 Hc2] Hisr [Hgdt Hidt]] Hcw Hvmxon Hacc.
  unfold hvmain. wp_step. apply wp_hvmain_setup; try done; [apply Hcw|apply Hcw|]. intros s1 Hun Hdone.
  eapply wp_hvmain_memory; [exact Hdone|by left|]. intros la vm tbl host v s2 Hr.
  wp_step. eapply wp_hvmain_guest; [exact Hr|done..|]. intros lo rip v' s3 Hlo Hd Hl.
  eapply (wp_hvmain_launch vm tbl host lo Hlo hw0 cp m0 la rip v'); [exact Hd|done|by left|].
  intros la' region com1 uart1 com2 uart2 s4 Hlh Hm Hkept. exists vm. split; [done|]. split; [|exact Hkept].
  exists la', tbl, host, lo, rip, (launched_vm v' region com2), com1, uart1, com2, uart2. split; [done|].
  split; [intros k k' Hk Hk'; apply (vr_injective _ _ _ _ _ _ _ _ _ Hr); lia|]. split.
  - by eapply guest_loaded_same.
  - intros i value Hi. by eapply launched_ports.
Qed.

End properties.

(** Witness: a machine with 80 MiB of memory and a small image of Linux. *)
Definition main_chainload : chainload_page_t :=
  mk_chainload_page [] 0x1000 [mk_attachment small_image_address small_image_size CHAINLOAD_ATTACHMENT_LINUX_BZIMAGE] []
    (small_mmap 0x5000).
Definition main_memory : mem := small_image_memory (m_mem (small_machine 5)).
Definition main_cpu : hw_state := m_hw (setup_machine 0x34040).

#[local] Opaque small_image_memory small_image_byte.

Lemma main_chainload_wf : chainload_wf main_chainload main_memory.
Proof.
  split.
  - by apply small_mmap_wf.
  - split; [by apply small_mmap_typed|constructor].
  - apply Forall_singleton. unfold attachment_wf, attachment_range, page_ok. by split_and!.
  - assert (linux_attachment main_chainload = Some (small_image_address, small_image_size)) as -> by reflexivity.
    assert (linux_first_page main_memory small_image_address = 0x1000) as ->
      by (unfold linux_first_page, main_memory; rewrite small_image_field; reflexivity).
    split.
    + apply small_image_ok.
    + unfold main_memory. rewrite small_image_field. reflexivity.
    + unfold image_kernel_pages, image_kernel_size, main_memory. rewrite small_image_kernel. discriminate.
    + reflexivity.
    + unfold main_memory. rewrite small_image_load by (vm_compute; discriminate). discriminate.
Qed.

Lemma main_build_wf : build_wf [] [].
Proof. split; [split; by intros ?%elem_of_nil|by split|reflexivity|by split_and!]. Qed.

