(* ===== verification/BootFirmware.v ===== *)
(** The boot loader: its state, the services of the firmware, and what is built on them
    (boot/src/string.c, stdio.c and fs.c).

    The services of UEFI, the constants and the types of its headers are not part of the
    repository: they are the class [Firmware]. What the boot loader relies on is [FirmwareLaws],
    in the words of the UEFI specification. *)
From S2P Require Import Prelude Memory Machine Strings.

(** * common/include/rkhv/chainload.h: assignments to members *)

#[export] Instance set_md_physical_address : Setter md_physical_address := λ f r, mk_mmap_desc (f (md_physical_address r)) (md_pages r) (md_usable r).
#[export] Instance set_md_pages : Setter md_pages := λ f r, mk_mmap_desc (md_physical_address r) (f (md_pages r)) (md_usable r).
#[export] Instance set_md_usable : Setter md_usable := λ f r, mk_mmap_desc (md_physical_address r) (md_pages r) (f (md_usable r)).
#[export] Instance set_ptr_physical_address : Setter ptr_physical_address := λ f r, mk_page_table_region (f (ptr_physical_address r)) (ptr_pages r).
#[export] Instance set_ptr_pages : Setter ptr_pages := λ f r, mk_page_table_region (ptr_physical_address r) (f (ptr_pages r)).
#[export] Instance set_at_physical_address : Setter at_physical_address := λ f r, mk_attachment (f (at_physical_address r)) (at_size r) (at_attachment_type r).
#[export] Instance set_at_size : Setter at_size := λ f r, mk_attachment (at_physical_address r) (f (at_size r)) (at_attachment_type r).
#[export] Instance set_at_attachment_type : Setter at_attachment_type := λ f r, mk_attachment (at_physical_address r) (at_size r) (f (at_attachment_type r)).
#[export] Instance set_rkhv_sections : Setter rkhv_sections := λ f r, mk_chainload_page (f (rkhv_sections r)) (chainload_page_physical_address r) (attachments r) (page_table_regions r) (efi_mmap_usable r).
#[export] Instance set_chainload_page_physical_address : Setter chainload_page_physical_address := λ f r, mk_chainload_page (rkhv_sections r) (f (chainload_page_physical_address r)) (attachments r) (page_table_regions r) (efi_mmap_usable r).
#[export] Instance set_attachments : Setter attachments := λ f r, mk_chainload_page (rkhv_sections r) (chainload_page_physical_address r) (f (attachments r)) (page_table_regions r) (efi_mmap_usable r).
#[export] Instance set_page_table_regions : Setter page_table_regions := λ f r, mk_chainload_page (rkhv_sections r) (chainload_page_physical_address r) (attachments r) (f (page_table_regions r)) (efi_mmap_usable r).
#[export] Instance set_efi_mmap_usable : Setter efi_mmap_usable := λ f r, mk_chainload_page (rkhv_sections r) (chainload_page_physical_address r) (attachments r) (page_table_regions r) (f (efi_mmap_usable r)).

(** * The firmware *)

Inductive EFI_MEMORY_TYPE :=
  | EfiReservedMemoryType | EfiLoaderCode | EfiLoaderData | EfiBootServicesCode
  | EfiBootServicesData | EfiRuntimeServicesCode | EfiRuntimeServicesData
  | EfiConventionalMemory | EfiUnusableMemory | EfiACPIReclaimMemory | EfiACPIMemoryNVS
  | EfiMemoryMappedIO | EfiMemoryMappedIOPortSpace | EfiPalCode | EfiOtherMemory (type : Z).

(** The members that the code reads. *)
Record EFI_MEMORY_DESCRIPTOR := mk_efi_descriptor {
  Type_ : EFI_MEMORY_TYPE;
  PhysicalStart : Z;
  NumberOfPages : Z;
}.

(** What [GetMemoryMap] writes through its pointers. *)
Record memory_map := mk_memory_map {
  MemoryMapSize : Z;
  MemoryMap : list EFI_MEMORY_DESCRIPTOR;
  MapKey : Z;
  DescriptorSize : Z;
}.

(** Each service gives its status, then what it writes through its pointers. [efi_image] is
    the handle of the image. *)
Class Firmware := {
  efi_state : Type;
  EFI_PAGE_SIZE : Z;
  EFI_ERROR : Z → bool;
  EFI_ERROR_MASK : Z;
  EFI_SUCCESS : Z;
  EFI_BUFFER_TOO_SMALL : Z;
  EFI_UNSUPPORTED : Z;
  EFI_OUT_OF_RESOURCES : Z;
  EFI_NOT_FOUND : Z;
  EFI_FILE_MODE_READ : Z;
  EFI_LOADED_IMAGE_PROTOCOL_GUID : Z;
  EFI_SIMPLE_FILE_SYSTEM_PROTOCOL_GUID : Z;
  EFI_FILE_INFO_ID : Z;
  (** Boot services *)
  efi_AllocatePages : EFI_MEMORY_TYPE → Z → efi_state → Z * Z * efi_state;
  efi_AllocatePool : EFI_MEMORY_TYPE → Z → efi_state → Z * Z * efi_state;
  efi_FreePool : Z → efi_state → Z * efi_state;
  efi_HandleProtocol : Z → Z → efi_state → Z * Z * efi_state;
  efi_WaitForEvent : efi_state → Z * efi_state;
  efi_GetMemoryMap : memory_map → option Z → efi_state → Z * memory_map * efi_state;
  efi_ExitBootServices : Z → Z → efi_state → Z * efi_state;
  (** The console *)
  efi_OutputString : list Z → efi_state → Z * efi_state;
  efi_ClearScreen : efi_state → Z * efi_state;
  efi_ReadKeyStroke : efi_state → Z * efi_state;
  (** Protocols: the device of an image, volumes and files; a file is read at an address *)
  efi_DeviceHandle : Z → efi_state → Z;
  efi_OpenVolume : Z → efi_state → Z * Z * efi_state;
  efi_Open : Z → list Z → Z → efi_state → Z * Z * efi_state;
  efi_Read : Z → Z → Z → mem → efi_state → Z * Z * mem * efi_state;
  efi_GetInfo : Z → Z → Z → option Z → efi_state → Z * Z * efi_state;
  efi_FileSize : Z → efi_state → Z;
  efi_Close : Z → efi_state → Z * efi_state;
}.

(** * State *)

(** The regions of the pool are those of the chainload page. *)
Record paging_page_table_pool_t := mk_pool {
  pool_size : Z;
  pool_capacity : Z;
}.
#[export] Instance set_pool_size : Setter pool_size := λ f r, mk_pool (f (pool_size r)) (pool_capacity r).
#[export] Instance set_pool_capacity : Setter pool_capacity := λ f r, mk_pool (pool_size r) (f (pool_capacity r)).

Section state.
Context `{HW : Hardware} `{FW : Firmware}.

(** The firmware maps all of the memory at its physical addresses: memory is accessed
    without a window. The chainload page and the memory map are kept as structures. *)
Record boot_machine := mk_boot {
  b_mem : mem;
  b_chainload : chainload_page_t;
  b_pool : paging_page_table_pool_t;
  b_hw : hw_state;
  b_efi : efi_state;
}.
End state.
#[export] Instance set_b_mem `{HW : Hardware} `{FW : Firmware} : Setter b_mem := λ f r, mk_boot (f (b_mem r)) (b_chainload r) (b_pool r) (b_hw r) (b_efi r).
#[export] Instance set_b_chainload `{HW : Hardware} `{FW : Firmware} : Setter b_chainload := λ f r, mk_boot (b_mem r) (f (b_chainload r)) (b_pool r) (b_hw r) (b_efi r).
#[export] Instance set_b_pool `{HW : Hardware} `{FW : Firmware} : Setter b_pool := λ f r, mk_boot (b_mem r) (b_chainload r) (f (b_pool r)) (b_hw r) (b_efi r).
#[export] Instance set_b_hw `{HW : Hardware} `{FW : Firmware} : Setter b_hw := λ f r, mk_boot (b_mem r) (b_chainload r) (b_pool r) (f (b_hw r)) (b_efi r).
#[export] Instance set_b_efi `{HW : Hardware} `{FW : Firmware} : Setter b_efi := λ f r, mk_boot (b_mem r) (b_chainload r) (b_pool r) (b_hw r) (f (b_efi r)).

Section code.
Context `{HW : Hardware} `{FW : Firmware}.

(** * Memory *)

Definition boot_load (n : nat) (a : Z) : M boot_machine Z := mgets (λ s, load_le n (b_mem s) a).
Definition boot_store (n : nat) (a v : Z) : M boot_machine () :=
  mmodify (λ s, s <| b_mem := store_le n (b_mem s) a v |>).
Definition boot_memset (a c n : Z) : M boot_machine () :=
  mmodify (λ s, s <| b_mem := memset (b_mem s) a c n |>).

(** * Calls of the firmware *)

(** A call without a result. *)
Definition efi_call (f : efi_state → Z * efi_state) : M boot_machine Z :=
  s ← mget;
  let '(status, efi) := f (b_efi s) in
  mmodify (λ s, s <| b_efi := efi |>);;
  mret status.
(** A call that writes a result through a pointer. *)
Definition efi_call_out {A} (f : efi_state → Z * A * efi_state) : M boot_machine (Z * A) :=
  s ← mget;
  let '(status, a, efi) := f (b_efi s) in
  mmodify (λ s, s <| b_efi := efi |>);;
  mret (status, a).

(** A function that returns an [EFI_STATUS] is in [efi A]: [inl] is a status that is an
    error, [inr] the results of a call that is not. *)
Abbreviation efi A := (M boot_machine (Z + A)).
Definition efi_return {A} (a : A) : efi A := mret (inr a).
Definition efi_fail {A} (status : Z) : efi A := mret (inl status).
Definition efi_lift {A} (m : M boot_machine A) : efi A := a ← m; efi_return a.

(** The status of a call. *)
Definition efi_status (m : M boot_machine Z) : efi () :=
  status ← m; if EFI_ERROR status then efi_fail status else efi_return ().
Definition efi_status_out {A} (m : M boot_machine (Z * A)) : efi A :=
  '(status, a) ← m; if EFI_ERROR status then efi_fail status else efi_return a.

(** * boot/src/main.h *)

Definition SECTION_PAGES : Z := 0x100000 / EFI_PAGE_SIZE.
Definition STACK_PAGES : Z := 0x100000 / EFI_PAGE_SIZE.
Definition PAGE_TABLE_POOL_DEFAULT_CAPACITY : Z := RKHV_MAX_PAGE_TABLE_REGIONS.

(** [RETURN_EFI(m); k] *)
Definition RETURN_EFI {A B} (m : efi A) (k : A → efi B) : efi B :=
  r ← m; match r with inl status => efi_fail status | inr a => k a end.

End code.

Declare Scope efi_scope.
Notation "x '←!' m ; k" := (RETURN_EFI m (λ x, k))
  (at level 20, m at level 100, k at level 200, only parsing) : efi_scope.
Notation "' x '←!' m ; k" := (RETURN_EFI m (λ z, match z with x => k end))
  (at level 20, x pattern, m at level 100, k at level 200, only parsing) : efi_scope.
Notation "m ;! k" := (RETURN_EFI m (λ _, k)) (at level 100, k at level 200, only parsing) : efi_scope.
#[global] Open Scope efi_scope.

Abbreviation efi A := (M boot_machine (Z + A)).

Section code.
Context `{HW : Hardware} `{FW : Firmware}.

(** * boot/src/string.c *)

(** The loop, for the indices below [n]. [out_string] is the index of the first digit. *)
Fixpoint str_itouh_loop (n : nat) (buffer : list Z) (out_string value : Z) : M boot_machine (list Z) :=
  match n with
  | O => mret buffer
  | S n' =>
    buffer ← buffer_store buffer (out_string + Z.of_nat n') (hex_digit (Z.land value 0xf));
    str_itouh_loop n' buffer out_string (Z.shiftr value 4)
  end.
Definition str_itouh (buffer : list Z) (out_string value out_len : Z) : M boot_machine (list Z) :=
  str_itouh_loop (Z.to_nat out_len) buffer out_string value.

(** * boot/src/stdio.c *)

Definition boot_stdio_puts (str : list Z) : efi () := efi_status (efi_call (efi_OutputString str)).

(** The banner; [RKHV_HASH] is a constant of the build. *)
Definition STDIO_BANNER (RKHV_HASH : list Z) : list Z :=
  let line := replicate 80 0x23 ++ [0x0D; 0x0A] in
  let empty_line := [0x23] ++ replicate 78 0x20 ++ [0x23; 0x0D; 0x0A] in
  line ++ empty_line ++
  [0x23] ++ replicate 21 0x20 ++ bytes_of_string "rkhv - EFI bootloader - git:" ++ RKHV_HASH ++
  replicate 22 0x20 ++ [0x23; 0x0D; 0x0A] ++ empty_line ++ line.

Definition stdio_print_banner (RKHV_HASH : list Z) : efi () :=
  efi_status (efi_call efi_ClearScreen);!
  boot_stdio_puts (STDIO_BANNER RKHV_HASH);!
  efi_return ().

Definition stdio_read_key : efi () :=
  efi_status (efi_call efi_WaitForEvent);!
  efi_status (efi_call efi_ReadKeyStroke);!
  efi_return ().

Definition stdio_perror (location : list Z) (status : Z) : efi () :=
  let buffer := bytes_of_string ": EFI_ERR(0xxx)" ++ [0x0D; 0x0A] in
  let error := u8 (Z.land (Z.land (Z.lnot EFI_ERROR_MASK) status) 0xff) in
  buffer ←! efi_lift (str_itouh buffer 12 error 2);
  boot_stdio_puts location;!
  boot_stdio_puts buffer;!
  efi_return ().

(** [VERIFY_EFI(m); k]: an error is printed, and a key is waited for. [location] is the file
    and the line. *)
Definition VERIFY_EFI {A B} (location : list Z) (m : efi A) (k : A → efi B) : efi B :=
  r ← m;
  match r with
  | inl status =>
    stdio_perror location status;;
    stdio_read_key;;
    efi_fail status
  | inr a => k a
  end.

(** * boot/src/fs.c *)

Definition fs_get_volume (image : Z) : efi Z :=
  loaded_image ←! efi_status_out (efi_call_out (efi_HandleProtocol image EFI_LOADED_IMAGE_PROTOCOL_GUID));
  s ←! efi_lift mget;
  simple_fs ←! efi_status_out (efi_call_out
    (efi_HandleProtocol (efi_DeviceHandle loaded_image (b_efi s)) EFI_SIMPLE_FILE_SYSTEM_PROTOCOL_GUID));
  volume ←! efi_status_out (efi_call_out (efi_OpenVolume simple_fs));
  efi_return volume.

(** [file->Read(file, &size, address)]: the size that was read. *)
Definition efi_read_file (file size address : Z) : efi Z :=
  efi_status_out (
    s ← mget;
    let '(status, size, m, efi) := efi_Read file size address (b_mem s) (b_efi s) in
    mmodify (λ s, (s <| b_mem := m |>) <| b_efi := efi |>);;
    mret (status, size)).

(** The physical address and the size that was read. *)
Definition fs_read_entier_file_to_pages (volume : Z) (filename : list Z) (memory_type : EFI_MEMORY_TYPE)
    (pages : Z) : efi (Z * Z) :=
  file ←! efi_status_out (efi_call_out (efi_Open volume filename EFI_FILE_MODE_READ));
  physical_address ←! efi_status_out (efi_call_out (efi_AllocatePages memory_type pages));
  let buffer_size := u64 (pages * EFI_PAGE_SIZE) in
  read_bytes ←! efi_read_file file buffer_size physical_address;
  efi_status (efi_call (efi_Close file));!
  efi_return (physical_address, read_bytes).

(** The physical address and the size of the attachment. *)
Definition fs_read_attachment (volume : Z) (filename : list Z) : efi (Z * Z) :=
  file ←! efi_status_out (efi_call_out (efi_Open volume filename EFI_FILE_MODE_READ));
  '(_, info_size) ←! efi_lift (efi_call_out (efi_GetInfo file EFI_FILE_INFO_ID 0 None));
  info ←! efi_status_out (efi_call_out (efi_AllocatePool EfiLoaderData info_size));
  info_size ←! efi_status_out (efi_call_out (efi_GetInfo file EFI_FILE_INFO_ID info_size (Some info)));
  s ←! efi_lift mget;
  let attachment_size := efi_FileSize info (b_efi s) in
  let pages := attachment_size / EFI_PAGE_SIZE + (if attachment_size mod EFI_PAGE_SIZE =? 0 then 0 else 1) in
  physical_address ←! efi_status_out (efi_call_out (efi_AllocatePages EfiLoaderData pages));
  attachment_size ←! efi_read_file file attachment_size physical_address;
  efi_status (efi_call (efi_FreePool info));!
  efi_status (efi_call (efi_Close file));!
  efi_return (physical_address, attachment_size).

End code.

(** * The firmware, in the words of the UEFI specification *)

(** [n] pages at [a]. *)
Definition run_page (a n p : Z) : Prop := ∃ i, 0 ≤ i < n ∧ p = a + i * PAGE_SIZE.

Lemma run_page_ok a n p : a mod PAGE_SIZE = 0 → 0 ≤ a → a + n * PAGE_SIZE ≤ 2 ^ 39 → run_page a n p → page_ok p.
Proof. intros Ha H0 Hb (i & Hi & ->). unfold page_ok, PAGE_SIZE in *. split; [zlia|lia]. Qed.
(** A byte of a page in a run of pages makes the page one of the run. *)
Lemma run_page_byte a n p b :
  a mod PAGE_SIZE = 0 → page_ok p → p ≤ b < p + PAGE_SIZE → a ≤ b < a + n * PAGE_SIZE → run_page a n p.
Proof.
  intros Ha [Hp _] Hb Hr. exists ((p - a) / PAGE_SIZE). unfold PAGE_SIZE in *. split; zlia.
Qed.
(** Every byte of the run is in one of its pages. *)
Lemma run_page_of_byte a n b : a mod PAGE_SIZE = 0 → a ≤ b < a + n * PAGE_SIZE →
  ∃ p, run_page a n p ∧ p ≤ b < p + PAGE_SIZE.
Proof.
  intros Ha Hb. exists (a + (b - a) / PAGE_SIZE * PAGE_SIZE). unfold run_page, PAGE_SIZE in *.
  split; [exists ((b - a) / 0x1000); split|]; zlia.
Qed.
Lemma run_page_app a n n' p :
  0 ≤ n → 0 ≤ n' → run_page a (n + n') p ↔ run_page a n p ∨ run_page (a + n * PAGE_SIZE) n' p.
Proof.
  intros Hn Hn'. unfold run_page. split.
  - intros (i & Hi & ->). destruct (decide (i < n)); [left; exists i; lia|right; exists (i - n); lia].
  - intros [(i & Hi & ->)|(i & Hi & ->)]; [exists i|exists (n + i)]; lia.
Qed.

(** The pages that were given out, and the attempts to leave the boot services that can still
    fail: [ExitBootServices] fails when the memory map has changed, and it stops changing. *)
Class FirmwareState `{FW : Firmware} := {
  efi_allocated : efi_state → Z → Prop;
  efi_attempts : efi_state → nat;
}.

(** A call that gives out no page. *)
Definition efi_quiet `{FirmwareState} (efi efi' : efi_state) : Prop :=
  (efi_attempts efi' ≤ efi_attempts efi)%nat ∧ ∀ p, efi_allocated efi' p ↔ efi_allocated efi p.
Definition call_quiet `{FirmwareState} (f : efi_state → Z * efi_state) : Prop := ∀ efi, efi_quiet efi (snd (f efi)).
Definition call_out_quiet `{FirmwareState} {A} (f : efi_state → Z * A * efi_state) : Prop :=
  ∀ efi, efi_quiet efi (snd (f efi)).

(** A descriptor of memory: physical addresses have at most 52 bits. *)
Definition efi_descriptor_wf (desc : EFI_MEMORY_DESCRIPTOR) : Prop :=
  PhysicalStart desc mod PAGE_SIZE = 0 ∧ 0 ≤ PhysicalStart desc ∧ 0 ≤ NumberOfPages desc ∧
  PhysicalStart desc + NumberOfPages desc * PAGE_SIZE ≤ 2 ^ 52.

(** The pages of a successful allocation are aligned and were free; the memory of the machine
    is in the first 512 GiB, which is what the boot loader maps for the hypervisor. A file is
    read into the buffer and nowhere else. *)
Class FirmwareLaws `{FS : FirmwareState} := {
  EFI_PAGE_SIZE_eq : EFI_PAGE_SIZE = PAGE_SIZE;
  EFI_SUCCESS_eq : EFI_ERROR EFI_SUCCESS = false;
  EFI_errors : Forall (λ status, EFI_ERROR status = true)
    [EFI_BUFFER_TOO_SMALL; EFI_UNSUPPORTED; EFI_OUT_OF_RESOURCES; EFI_NOT_FOUND];
  AllocatePages_pages type n efi status a efi' :
    efi_AllocatePages type n efi = (status, a, efi') →
    (efi_attempts efi' ≤ efi_attempts efi)%nat ∧
    ∀ p, efi_allocated efi' p ↔
      if EFI_ERROR status then efi_allocated efi p else efi_allocated efi p ∨ run_page a n p;
  AllocatePages_success type n efi status a efi' :
    efi_AllocatePages type n efi = (status, a, efi') → EFI_ERROR status = false → 0 < n →
    a mod PAGE_SIZE = 0 ∧ 0 ≤ a ∧ a + n * PAGE_SIZE ≤ 2 ^ 39 ∧
    ∀ p, run_page a n p → ¬ efi_allocated efi p;
  AllocatePool_quiet type n : call_out_quiet (efi_AllocatePool type n);
  FreePool_quiet a : call_quiet (efi_FreePool a);
  HandleProtocol_quiet h g : call_out_quiet (efi_HandleProtocol h g);
  WaitForEvent_quiet : call_quiet efi_WaitForEvent;
  GetMemoryMap_quiet mm a : call_out_quiet (efi_GetMemoryMap mm a);
  GetMemoryMap_success mm a efi status mm' efi' :
    efi_GetMemoryMap mm (Some a) efi = (status, mm', efi') → EFI_ERROR status = false →
    0 < DescriptorSize mm' ∧ MemoryMapSize mm' / DescriptorSize mm' ≤ Z.of_nat (length (MemoryMap mm')) ∧
    Forall efi_descriptor_wf (MemoryMap mm');
  ExitBootServices_quiet image key : call_quiet (efi_ExitBootServices image key);
  ExitBootServices_fails image key efi status efi' :
    efi_ExitBootServices image key efi = (status, efi') → status ≠ EFI_SUCCESS →
    (efi_attempts efi' < efi_attempts efi)%nat;
  OutputString_quiet str : call_quiet (efi_OutputString str);
  ClearScreen_quiet : call_quiet efi_ClearScreen;
  ReadKeyStroke_quiet : call_quiet efi_ReadKeyStroke;
  OpenVolume_quiet fs : call_out_quiet (efi_OpenVolume fs);
  Open_quiet volume name mode : call_out_quiet (efi_Open volume name mode);
  GetInfo_quiet file id n a : call_out_quiet (efi_GetInfo file id n a);
  FileSize_nonneg info efi : 0 ≤ efi_FileSize info efi;
  Close_quiet file : call_quiet (efi_Close file);
  Read_quiet file n a m efi status n' m' efi' :
    efi_Read file n a m efi = (status, n', m', efi') →
    efi_quiet efi efi' ∧ ∀ b, ¬ (a ≤ b < a + n) → load_byte m' b = load_byte m b;
  Read_size file n a m efi status n' m' efi' :
    efi_Read file n a m efi = (status, n', m', efi') → EFI_ERROR status = false → 0 ≤ n' ≤ n;
}.

(** * Rules *)

Section rules.
Context `{HW : Hardware} `{FW : Firmware}.
Implicit Types (s : boot_machine).

Lemma wp_RETURN_EFI {A B} (m : efi A) (k : A → efi B) E Q s :
  wp m E (λ r s', match r with inl status => Q (inl status) s' | inr a => wp (k a) E Q s' end) s →
  wp (RETURN_EFI m k) E Q s.
Proof.
  intros H. unfold RETURN_EFI. apply wp_bind. eapply wp_post; [exact H|].
  intros [status|a] s' HQ; [by apply wp_ret|done].
Qed.

Lemma wp_efi_lift {A} (m : M boot_machine A) E (Q : Z + A → boot_machine → Prop) s :
  wp m E (λ a s', Q (inr a) s') s → wp (efi_lift m) E Q s.
Proof. intros H. apply wp_bind. eapply wp_post; [exact H|]. intros a s' HQ. by apply wp_ret. Qed.

Lemma wp_mlift_ok {A} (a : A) E (Q : A → boot_machine → Prop) s : Q a s → wp (mlift (Ok a)) E Q s.
Proof. done. Qed.

Lemma wp_efi_load n a E (Q : Z + Z → boot_machine → Prop) s :
  Q (inr (load_le n (b_mem s) a)) s → wp (efi_lift (boot_load n a)) E Q s.
Proof. intros HQ. by apply wp_efi_lift. Qed.

Lemma wp_efi_store n a v E (Q : Z + () → boot_machine → Prop) s :
  Q (inr ()) (s <| b_mem := store_le n (b_mem s) a v |>) → wp (efi_lift (boot_store n a v)) E Q s.
Proof. intros HQ. by apply wp_efi_lift. Qed.

(** A call of the firmware that gives a result. *)
Lemma wp_efi_call_out {A} (f : efi_state → Z * A * efi_state) E (Q : Z + A → boot_machine → Prop) s :
  (∀ status a efi', f (b_efi s) = (status, a, efi') →
     Q (if EFI_ERROR status then inl status else inr a) (s <| b_efi := efi' |>)) →
  wp (efi_status_out (efi_call_out f)) E Q s.
Proof.
  intros HQ. destruct (f (b_efi s)) as [[status a] efi'] eqn:Hf. specialize (HQ status a efi' eq_refl).
  unfold efi_status_out, efi_call_out, wp, mbind, M_bind, mget, mmodify, mret, M_ret. rewrite Hf.
  by destruct (EFI_ERROR status).
Qed.

End rules.

(** A step through code that returns a status. *)
Ltac efi_step :=
  lazymatch goal with
  | |- wp (RETURN_EFI _ _) _ _ _ => apply wp_RETURN_EFI
  | |- wp (efi_lift (boot_load _ _)) _ _ _ => apply wp_efi_load
  | |- wp (efi_lift (boot_store _ _ _)) _ _ _ => apply wp_efi_store
  | |- wp (efi_lift _) _ _ _ => apply wp_efi_lift
  | |- wp (efi_return _) _ _ _ => apply wp_ret
  | |- wp (efi_fail _) _ _ _ => apply wp_ret
  | |- wp (boot_memset _ _ _) _ _ _ => apply wp_modify
  | |- _ => wp_step
  end.
