(* ===== verification/BootPaging.v ===== *)
(** The page tables that the boot loader builds for the hypervisor (boot/src/paging.c).

    Tables are taken from the firmware and recorded in the regions of the chainload page;
    [paging_map_page] adds a page of 4 KiB, [paging_map_physical] maps the first 512 GiB of
    physical memory at 0 and at [RKHV_PHYSICAL_MEMORY_BASE]. The tables of the processor and
    those of an EPT have the same shape, and the same bits for "present", for a large page and
    for the address: the translation is [ept_walk] of VmxEptSpec.v. *)
From S2P Require Import Prelude Memory Machine Registers SimpleCpu PageUse.
From S2P Require Import VmxEpt VmxEptSpec EptCorrect GuestPaging BootFirmware.

Inductive paging_permission_t := PAGING_RX | PAGING_RO | PAGING_RW | PAGING_PERMISSION_MAX.

Section code.
Context `{HW : Hardware} `{FW : Firmware}.

Definition paging_check_for_supported_level : M boot_machine bool :=
  s ← mget;
  let cr0 := hw_cr0 (b_hw s) in
  let cr4 := hw_cr4 (b_hw s) in
  let ia32_efer := hw_rdmsr IA32_EFER (b_hw s) in
  mret (truthy (Z.land cr0 CR0_PG) && truthy (Z.land cr4 CR4_PAE) &&
        negb (truthy (Z.land cr4 CR4_LA57)) && truthy (Z.land ia32_efer IA32_EFER_LME)).

(** The loop over the regions: the region that the pages extend is replaced. *)
Fixpoint collapse_region (pages_physical_address pages_count : Z)
    (pool : list chainload_page_table_region_t) : option (list chainload_page_table_region_t) :=
  match pool with
  | [] => None
  | iter :: pool =>
    if u64 (pages_physical_address + u64 (EFI_PAGE_SIZE * pages_count)) =? ptr_physical_address iter then
      Some (iter <| ptr_physical_address := pages_physical_address |>
                 <| ptr_pages := u64 (ptr_pages iter + pages_count) |> :: pool)
    else if pages_physical_address =? u64 (ptr_physical_address iter + u64 (EFI_PAGE_SIZE * ptr_pages iter)) then
      Some (iter <| ptr_pages := u64 (ptr_pages iter + pages_count) |> :: pool)
    else cons iter <$> collapse_region pages_physical_address pages_count pool
  end.

Definition set_regions (pool : list chainload_page_table_region_t) : M boot_machine () :=
  mmodify (λ s, s <| b_chainload := (b_chainload s) <| page_table_regions := pool |> |>).

Definition paging_allocate_page (pages_count : Z) : efi Z :=
  pages_physical_address ←! efi_status_out (efi_call_out (efi_AllocatePages EfiLoaderData pages_count));
  s ←! efi_lift mget;
  let pool := page_table_regions (b_chainload s) in
  let size := pool_size (b_pool s) in
  (if Z.of_nat (length pool) <? size then mundefined else
   match collapse_region pages_physical_address pages_count (take (Z.to_nat size) pool) with
   | Some collapsed => efi_lift (set_regions (collapsed ++ drop (Z.to_nat size) pool))
   | None =>
     if pool_capacity (b_pool s) <=? size then efi_fail EFI_BUFFER_TOO_SMALL
     else if Z.of_nat (length pool) <=? size then mundefined
     else
       efi_lift (mmodify (λ s, s <| b_pool := (b_pool s) <| pool_size := u64 (size + 1) |> |>));!
       efi_lift (set_regions (<[Z.to_nat size := mk_page_table_region pages_physical_address pages_count]> pool))
   end);!
  efi_lift (boot_memset pages_physical_address 0 (u64 (EFI_PAGE_SIZE * pages_count)));!
  efi_return pages_physical_address.

Definition paging_allocate_pml4 : efi Z := paging_allocate_page 1.

(** [&table[i]] for a table of 64-bit entries *)
Definition table_ptr (table i : Z) : Z := u64 (table + 8 * i).

Definition PERMISSION_MASK (permission : paging_permission_t) : M boot_machine Z :=
  match permission with
  | PAGING_RX => mret 0
  | PAGING_RO => mret PTE_EXECUTE_DISABLE
  | PAGING_RW => mret (Z.lor PTE_EXECUTE_DISABLE PTE_READ_WRITE)
  | PAGING_PERMISSION_MAX => mundefined
  end.

Definition paging_map_page (pml4 physical_address virtual_address : Z)
    (permission : paging_permission_t) : efi () :=
  let pml4_index := LINEAR_ADDRESS_GET_PML4 virtual_address in
  let pdpt_index := LINEAR_ADDRESS_GET_DIRECTORY_PTR virtual_address in
  let pd_index := LINEAR_ADDRESS_GET_DIRECTORY virtual_address in
  let pt_index := LINEAR_ADDRESS_GET_TABLE virtual_address in

  pml4e ←! efi_lift (boot_load 8 (table_ptr pml4 pml4_index));
  pdpt ←! (
    if truthy (Z.land pml4e PML4E_PRESENT) then efi_return (Z.land pml4e PML4E_PHYSICAL_ADDRESS_PDPT)
    else
      pdpt ←! paging_allocate_page 1;
      efi_lift (boot_store 8 (table_ptr pml4 pml4_index)
        (Z.lor (Z.lor PML4E_PRESENT PML4E_READ_WRITE) (Z.land pdpt PML4E_PHYSICAL_ADDRESS_PDPT)));!
      efi_return pdpt);

  pdpte ←! efi_lift (boot_load 8 (table_ptr pdpt pdpt_index));
  pd ←! (
    if truthy (Z.land pdpte PDPTE_PRESENT) then
      if truthy (Z.land pdpte PDPTE_PAGE_SIZE) then efi_fail EFI_UNSUPPORTED
      else efi_return (Z.land pdpte PDPTE_PHYSICAL_ADDRESS_PD)
    else
      pd ←! paging_allocate_page 1;
      efi_lift (boot_store 8 (table_ptr pdpt pdpt_index)
        (Z.lor (Z.lor PDPTE_PRESENT PDPTE_READ_WRITE) (Z.land pd PDPTE_PHYSICAL_ADDRESS_PD)));!
      efi_return pd);

  pde ←! efi_lift (boot_load 8 (table_ptr pd pd_index));
  pt ←! (
    if truthy (Z.land pde PDE_PRESENT) then
      if truthy (Z.land pde PDE_PAGE_SIZE) then efi_fail EFI_UNSUPPORTED
      else efi_return (Z.land pde PDE_PHYSICAL_ADDRESS_PT)
    else
      pt ←! paging_allocate_page 1;
      efi_lift (boot_store 8 (table_ptr pd pd_index)
        (Z.lor (Z.lor PDE_PRESENT PDE_READ_WRITE) (Z.land pt PDE_PHYSICAL_ADDRESS_PT)));!
      efi_return pt);

  pte ←! efi_lift (boot_load 8 (table_ptr pt pt_index));
  if truthy (Z.land pte PTE_PRESENT) then efi_fail EFI_OUT_OF_RESOURCES
  else
  mask ←! efi_lift (PERMISSION_MASK permission);
  efi_lift (boot_store 8 (table_ptr pt pt_index)
    (Z.lor (Z.lor PTE_PRESENT (Z.land physical_address PTE_PHYSICAL_ADDRESS_PAGE)) mask));!
  efi_return ().

Definition paging_map_physical (pml4 : Z) : efi () :=
  pml4e ←! efi_lift (boot_load 8 (table_ptr pml4 0));
  if truthy (Z.land pml4e PML4E_PRESENT) then efi_fail EFI_OUT_OF_RESOURCES
  else
  pdpt ←! paging_allocate_page 1;
  pds ←! paging_allocate_page PAGE_TABLE_ENTRIES;
  efi_lift (boot_store 8 (table_ptr pml4 (LINEAR_ADDRESS_GET_PML4 0))
    (Z.lor (Z.lor PML4E_PRESENT PML4E_READ_WRITE) (Z.land pdpt PML4E_PHYSICAL_ADDRESS_PDPT)));!
  efi_lift (boot_store 8 (table_ptr pml4 (LINEAR_ADDRESS_GET_PML4 RKHV_PHYSICAL_MEMORY_BASE))
    (Z.lor (Z.lor PML4E_PRESENT PML4E_READ_WRITE) (Z.land pdpt PML4E_PHYSICAL_ADDRESS_PDPT)));!
  efi_lift (mfor PAGE_TABLE_ENTRIES (λ pdpt_index,
    let pd_base := pdpt_index * PAGE_TABLE_ENTRIES in
    boot_store 8 (table_ptr pdpt pdpt_index)
      (Z.lor (Z.lor PDPTE_PRESENT PDPTE_READ_WRITE)
             (Z.land (table_ptr pds pd_base) PDPTE_PHYSICAL_ADDRESS_PD));;
    mfor PAGE_TABLE_ENTRIES (λ pd_index,
      boot_store 8 (table_ptr pds (pd_base + pd_index))
        (Z.lor (Z.lor (Z.lor PDE_PRESENT PDE_READ_WRITE) PDE_PAGE_SIZE)
               (Z.land (u64 (Z.shiftl (pd_base + pd_index) LINEAR_ADDRESS_D_SHIFT)) PDE_PHYSICAL_ADDRESS_PAGE)))));!
  efi_return ().

End code.

(** * The pool of page tables *)

Section pool.
Context `{HW : Hardware} `{FL : FirmwareLaws}.
Implicit Types (s : boot_machine) (r : chainload_page_table_region_t).

Definition region_page r (p : Z) : Prop := ∃ i, 0 ≤ i < ptr_pages r ∧ p = ptr_physical_address r + i * PAGE_SIZE.
Definition region_wf r : Prop :=
  ptr_physical_address r mod PAGE_SIZE = 0 ∧ 0 ≤ ptr_physical_address r ∧ 0 < ptr_pages r ∧
  ptr_physical_address r + ptr_pages r * PAGE_SIZE ≤ 2 ^ 39.
Definition pool_regions s : list chainload_page_table_region_t :=
  take (Z.to_nat (pool_size (b_pool s))) (page_table_regions (b_chainload s)).

(** The pages that are recorded for the hypervisor. *)
Definition pool_page s (p : Z) : Prop := Exists (λ r, region_page r p) (pool_regions s).

Record pool_wf s : Prop := {
  pw_size : 0 ≤ pool_size (b_pool s) ≤ pool_capacity (b_pool s);
  pw_capacity : pool_capacity (b_pool s) ≤ Z.of_nat (length (page_table_regions (b_chainload s))) < 2 ^ 63;
  pw_regions : Forall region_wf (pool_regions s);
  pw_unused : Forall (λ r, r = mk_page_table_region 0 0)
    (drop (Z.to_nat (pool_size (b_pool s))) (page_table_regions (b_chainload s)));
  pw_allocated p : pool_page s p → efi_allocated (b_efi s) p;
}.

Lemma region_page_ok r p : region_wf r → region_page r p → page_ok p.
Proof.
  intros (Ha & Hn & Hp & Hb) (i & Hi & ->). unfold page_ok, PAGE_SIZE in *. split; [zlia|lia].
Qed.

Lemma pool_page_ok s p : pool_wf s → pool_page s p → page_ok p.
Proof.
  intros Hwf (r & Hr & Hp)%Exists_exists. eapply region_page_ok; [|exact Hp].
  pose proof (pw_regions _ Hwf) as H. rewrite Forall_forall in H. by apply H.
Qed.

(** The members of the regions fit into 64 bits. *)
Lemma pool_wf_typed s :
  pool_wf s →
  Forall (λ r, 0 ≤ ptr_physical_address r < 2 ^ 64 ∧ 0 ≤ ptr_pages r < 2 ^ 64) (page_table_regions (b_chainload s)).
Proof.
  intros [_ _ Hreg Hun _]. rewrite <-(take_drop (Z.to_nat (pool_size (b_pool s))) (page_table_regions _)).
  apply Forall_app. split.
  - eapply Forall_impl; [exact Hreg|]. intros r (_ & H1 & H2 & H3). unfold PAGE_SIZE in *. lia.
  - eapply Forall_impl; [exact Hun|]. by intros r ->.
Qed.

Lemma collapse_region_spec a n pool pool' :
  a mod PAGE_SIZE = 0 → 0 ≤ a → 0 < n → a + n * PAGE_SIZE ≤ 2 ^ 39 →
  Forall region_wf pool → collapse_region a n pool = Some pool' →
  length pool' = length pool ∧ Forall region_wf pool' ∧
  ∀ p, Exists (λ r, region_page r p) pool' ↔ Exists (λ r, region_page r p) pool ∨ run_page a n p.
Proof.
  intros Ha Ha0 Hn Hb. revert pool'. induction pool as [|r pool IH]; intros pool' Hwf; cbn [collapse_region]; [done|].
  apply Forall_cons in Hwf as [[Hra [Hr0 [Hrn Hrb]]] Hwf]. rewrite EFI_PAGE_SIZE_eq. unfold PAGE_SIZE in *.
  rewrite !(wrap_small 64 (0x1000 * _)) by lia. rewrite !(wrap_small 64 (_ + 0x1000 * _)) by lia.
  destruct (Z.eqb_spec (a + 0x1000 * n) (ptr_physical_address r)) as [Heq|_].
  { intros [= <-]. rewrite wrap_small by lia. split; [done|]. split.
    - constructor; [|done]. unfold region_wf. cbn. unfold PAGE_SIZE. split_and!; lia.
    - intros p. rewrite !Exists_cons. unfold region_page, run_page. cbn. unfold PAGE_SIZE. split.
      + intros [(i & Hi & ->)|Hp]; [|tauto]. destruct (decide (i < n)); [right; by exists i; lia|].
        left. left. exists (i - n). lia.
      + intros [[(i & Hi & ->)|Hp]|(i & Hi & ->)]; [|tauto|].
        * left. exists (i + n). lia.
        * left. exists i. lia. }
  destruct (Z.eqb_spec a (ptr_physical_address r + 0x1000 * ptr_pages r)) as [Heq|_].
  { intros [= <-]. rewrite wrap_small by lia. split; [done|]. split.
    - constructor; [|done]. unfold region_wf. cbn. unfold PAGE_SIZE. split_and!; lia.
    - intros p. rewrite !Exists_cons. unfold region_page, run_page. cbn. unfold PAGE_SIZE. split.
      + intros [(i & Hi & ->)|Hp]; [|tauto]. destruct (decide (i < ptr_pages r)); [left; left; exists i; lia|].
        right. exists (i - ptr_pages r). lia.
      + intros [[(i & Hi & ->)|Hp]|(i & Hi & ->)]; [|tauto|].
        * left. exists i. lia.
        * left. exists (i + ptr_pages r). lia. }
  destruct (collapse_region a n pool) as [l|]; [|done]. intros [= <-].
  destruct (IH l Hwf eq_refl) as (Hl & Hw & Hp). split; [cbn; congruence|]. split.
  - constructor; [|done]. by unfold region_wf, PAGE_SIZE.
  - intros p. rewrite !Exists_cons, Hp. tauto.
Qed.

Lemma chainload_regions_id (c : chainload_page_t) : c = c <| page_table_regions := page_table_regions c |>.
Proof. by destruct c. Qed.

(** What building the tables does not change: pages that were given out for something else
    keep their bytes. *)
Record boot_frame s s' : Prop := {
  bf_chainload : b_chainload s' = (b_chainload s) <| page_table_regions := page_table_regions (b_chainload s') |>;
  bf_capacity : pool_capacity (b_pool s') = pool_capacity (b_pool s);
  bf_hw : b_hw s' = b_hw s;
  bf_attempts : (efi_attempts (b_efi s') ≤ efi_attempts (b_efi s))%nat;
  bf_allocated p : efi_allocated (b_efi s) p → efi_allocated (b_efi s') p;
  bf_pool p : pool_page s p → pool_page s' p;
  bf_new p : pool_page s' p → pool_page s p ∨ ¬ efi_allocated (b_efi s) p;
  bf_mem p a : page_ok p → efi_allocated (b_efi s) p → ¬ pool_page s p →
    p ≤ a < p + PAGE_SIZE → load_byte (b_mem s') a = load_byte (b_mem s) a;
}.
#[export] Instance boot_frame_preorder : PreOrder boot_frame.
Proof.
  split.
  - intros s. split; try done; [apply chainload_regions_id|auto].
  - intros s1 s2 s3 [A1 A2 A3 A0 A4 A5 A6 A7] [B1 B2 B3 B0 B4 B5 B6 B7]. split; try congruence; [|lia|auto..| |].
    + rewrite B1, A1. done.
    + intros p [Hp|Hp]%B6; [by apply A6|]. right. auto.
    + intros p a Hok Hp Hn Ha. rewrite (B7 p a), (A7 p a); auto. intros [?|?]%A6; auto.
Qed.

Lemma pool_wf_mem s m : pool_wf s → pool_wf (s <| b_mem := m |>).
Proof. intros [H1 H2 H3 H5 H4]. split; [exact H1|exact H2|exact H3|exact H5|exact H4]. Qed.
Lemma boot_frame_mem s s' m :
  boot_frame s s' →
  (∀ p a, page_ok p → efi_allocated (b_efi s) p → ¬ pool_page s p → p ≤ a < p + PAGE_SIZE →
     load_byte m a = load_byte (b_mem s) a) →
  boot_frame s (s' <| b_mem := m |>).
Proof. intros [H1 H2 H3 H0 H4 H5 H6 H7] Hm. split; [exact H1|exact H2|exact H3|exact H0|exact H4|exact H5|exact H6|exact Hm]. Qed.

(** The regions after the pages were recorded. *)
Lemma pool_wf_recorded s s' a n regions :
  pool_wf s → b_chainload s' = (b_chainload s) <| page_table_regions := regions |> →
  pool_capacity (b_pool s') = pool_capacity (b_pool s) → b_hw s' = b_hw s →
  length regions = length (page_table_regions (b_chainload s)) →
  0 ≤ pool_size (b_pool s') ≤ pool_capacity (b_pool s) →
  Forall region_wf (pool_regions s') →
  Forall (λ r, r = mk_page_table_region 0 0) (drop (Z.to_nat (pool_size (b_pool s'))) regions) →
  (∀ p, pool_page s' p ↔ pool_page s p ∨ run_page a n p) →
  (∀ p, efi_allocated (b_efi s') p ↔ efi_allocated (b_efi s) p ∨ run_page a n p) →
  (∀ p, run_page a n p → ¬ efi_allocated (b_efi s) p) → b_mem s' = b_mem s →
  (efi_attempts (b_efi s') ≤ efi_attempts (b_efi s))%nat →
  pool_wf s' ∧ boot_frame s s'.
Proof.
  intros [H1 H2 H3 H5 H4] Hc Hcap Hhw Hlen Hsize Hreg Hun Hp Ha Hnew Hm Hat. split; split.
  - by rewrite Hcap.
  - rewrite Hcap, Hc. cbn. by rewrite Hlen.
  - done.
  - by rewrite Hc.
  - intros p [Hpp|Hr]%Hp; apply Ha; auto.
  - by rewrite Hc.
  - done.
  - done.
  - done.
  - intros p Hpp. apply Ha. auto.
  - intros p Hpp. apply Hp. auto.
  - intros p [?|?]%Hp; auto.
  - intros p a' _ _ _ _. by rewrite Hm.
Qed.

(** A state that differs in what the firmware gave out. *)
Lemma boot_frame_allocated s efi' :
  (efi_attempts efi' ≤ efi_attempts (b_efi s))%nat →
  (∀ p, efi_allocated (b_efi s) p → efi_allocated efi' p) → boot_frame s (s <| b_efi := efi' |>).
Proof. intros Hat Ha. split; try done; [apply (chainload_regions_id (b_chainload s))|by left]. Qed.

(** An allocation fails, or gives zeroed pages that nobody had and records them. *)
Lemma wp_paging_allocate_page n E (Q : Z + Z → boot_machine → Prop) s :
  pool_wf s → 0 < n < 2 ^ 40 →
  (∀ status s', EFI_ERROR status = true → pool_wf s' → boot_frame s s' → b_mem s' = b_mem s →
     (∀ p, pool_page s' p ↔ pool_page s p) → Q (inl status) s') →
  (∀ a s', a mod PAGE_SIZE = 0 → 0 ≤ a → a + n * PAGE_SIZE ≤ 2 ^ 39 → pool_wf s' → boot_frame s s' →
     (∀ p, run_page a n p → ¬ efi_allocated (b_efi s) p) → (∀ p, pool_page s' p ↔ pool_page s p ∨ run_page a n p) →
     b_mem s' = memset (b_mem s) a 0 (n * PAGE_SIZE) → Q (inr a) s') →
  wp (paging_allocate_page n) E Q s.
Proof.
  intros Hwf Hn HQe HQ. unfold paging_allocate_page. apply wp_RETURN_EFI.
  apply wp_efi_call_out. intros status a efi' Halloc. set (s1 := s <| b_efi := efi' |>).
  pose proof (AllocatePages_pages _ _ _ _ _ _ Halloc) as [Hat Ha]. cbv zeta in Ha.
  destruct (EFI_ERROR status) eqn:Herr.
  { destruct Hwf as [H1 H2 H3 H5 H4].
    apply HQe; [done| | |done|done].
    - split; try done. intros p Hp. apply Ha. by apply H4.
    - apply boot_frame_allocated; [done|]. intros p Hp. by apply Ha. }
  destruct (AllocatePages_success _ _ _ _ _ _ Halloc Herr ltac:(lia)) as (Hal & Ha0 & Hab & Hfree).
  assert (∀ p, efi_allocated (b_efi s1) p ↔ efi_allocated (b_efi s) p ∨ run_page a n p) as Hgot' by exact Ha.
  assert (∀ p, run_page a n p → ¬ efi_allocated (b_efi s) p) as Hfree' by exact Hfree.
  apply wp_RETURN_EFI, wp_efi_lift. wp_step.
  pose proof Hwf as [Hsize Hcap Hreg Hun Hall].
  change (page_table_regions (b_chainload s1)) with (page_table_regions (b_chainload s)).
  change (pool_size (b_pool s1)) with (pool_size (b_pool s)).
  change (pool_capacity (b_pool s1)) with (pool_capacity (b_pool s)).
  set (pool := page_table_regions (b_chainload s)) in *. set (size := pool_size (b_pool s)) in *.
  apply wp_RETURN_EFI. destruct (Z.ltb_spec (Z.of_nat (length pool)) size) as [|_]; [lia|].
  assert (∀ s2, pool_wf s2 → boot_frame s s2 → (∀ p, pool_page s2 p ↔ pool_page s p ∨ run_page a n p) →
    b_mem s2 = b_mem s → wp (efi_lift (boot_memset a 0 (u64 (EFI_PAGE_SIZE * n)));! efi_return a) E Q s2) as Hend.
  { intros s2 Hwf2 Hf2 Hp2 Hm2. do 4 efi_step.
    rewrite EFI_PAGE_SIZE_eq, (wrap_small 64 (PAGE_SIZE * n)) by (unfold PAGE_SIZE in *; lia).
    apply HQ; try done.
    - by apply pool_wf_mem.
    - apply boot_frame_mem; [done|]. intros p b Hok Hp _ Hb. cbn. rewrite Hm2.
      rewrite load_byte_memset, decide_False; [done|]. intros Hr.
      apply (Hfree' p); [|done]. apply (run_page_byte _ _ _ b); try done. by rewrite Z.mul_comm.
    - cbn. by rewrite Hm2, (Z.mul_comm n). }
  assert (pool_regions s = take (Z.to_nat size) pool) as Hregs by done.
  destruct (collapse_region a n (take (Z.to_nat size) pool)) as [pool'|] eqn:Hcol.
  - rewrite Hregs in Hreg.
    destruct (collapse_region_spec a n _ _ Hal Ha0 (proj1 Hn) Hab Hreg Hcol) as (Hl & Hw & Hp).
    unfold set_regions. do 2 efi_step.
    set (s2 := s1 <| b_chainload := _ |>).
    assert (pool_regions s2 = pool') as Hregs2.
    { unfold pool_regions. cbn. fold size. apply take_app_length'. rewrite Hl. symmetry. apply length_take_le. lia. }
    assert (∀ p, pool_page s2 p ↔ pool_page s p ∨ run_page a n p) as Hp2.
    { intros p. unfold pool_page. by rewrite Hregs2, Hregs. }
    destruct (pool_wf_recorded s s2 a n (pool' ++ drop (Z.to_nat size) pool)) as [Hwf2 Hf2]; try done.
    { rewrite length_app, Hl, length_take_le, length_drop by lia. fold pool. lia. }
    { by rewrite Hregs2. }
    { cbn. fold size. rewrite drop_app_length'; [done|]. rewrite Hl. symmetry. apply length_take_le. lia. }
    by apply Hend.
  - destruct (Z.leb_spec (pool_capacity (b_pool s)) size) as [Hfull|Hroom].
    { efi_step. apply HQe; [|split; [exact Hsize|exact Hcap|exact Hreg|exact Hun|]| |done|done].
      - pose proof EFI_errors as He. by apply Forall_cons in He as [? _].
      - intros p Hp. apply Hgot'. left. by apply Hall.
      - apply boot_frame_allocated; [done|]. intros p Hp. apply Hgot'. by left. }
    destruct (Z.leb_spec (Z.of_nat (length pool)) size) as [|_]; [lia|].
    unfold set_regions. do 5 efi_step.
    rewrite (wrap_small 64 (size + 1)) by lia. set (s2 := _ <| b_chainload := _ |>).
    assert (pool_regions s2 = take (Z.to_nat size) pool ++ [mk_page_table_region a n]) as Hregs2.
    { unfold pool_regions. cbn. replace (Z.to_nat (size + 1)) with (S (Z.to_nat size)) by lia.
      rewrite (take_S_r _ _ (mk_page_table_region a n)) by (apply list_lookup_insert_eq; lia).
      f_equal. apply take_insert_ge. lia. }
    assert (∀ p, pool_page s2 p ↔ pool_page s p ∨ run_page a n p) as Hp2.
    { intros p. unfold pool_page. rewrite Hregs2, Exists_app, Exists_cons, Exists_nil, Hregs.
      change (region_page (mk_page_table_region a n) p) with (run_page a n p). tauto. }
    destruct (pool_wf_recorded s s2 a n (<[Z.to_nat size := mk_page_table_region a n]> pool)) as [Hwf2 Hf2]; try done.
    { by rewrite length_insert. }
    { cbn. lia. }
    { rewrite Hregs2, Forall_app, Forall_singleton. split; [by rewrite <-Hregs|].
      unfold region_wf; cbn. split_and!; [done|lia..]. }
    { cbn. replace (Z.to_nat (size + 1)) with (S (Z.to_nat size)) by lia.
      rewrite drop_insert_lt by lia. replace (S (Z.to_nat size)) with (Z.to_nat size + 1)%nat by lia.
      rewrite <-drop_drop. by apply Forall_drop. }
    by apply Hend.
Qed.

End pool.
