(* ===== verification/BootMain.v ===== *)
(** The main function of the boot loader (boot/src/main.c).

    [efi_main] loads the sections and the attachments, builds the page tables, leaves the boot
    services and converts the memory map, then jumps to the hypervisor: its result is what
    boot/src/chainload.asm leaves in the registers. *)
From S2P Require Import Prelude Memory Machine Registers Strings.
From S2P Require Import BootFirmware BootPaging.

(** * boot/src/chainload.asm *)

(** The registers at the entry of the hypervisor; the others are 0. *)
Record rkhv_entry_t := mk_rkhv_entry {
  entry_rip : Z;
  entry_rdi : Z;
  entry_rsp : Z;
  entry_cr3 : Z;
  entry_ia32_efer : Z;
}.

Section code.
Context `{HW : Hardware} `{FW : Firmware}.

Definition IA32_EFER_NXE : Z := Z.shiftl 1 11.

(** The window at 0 is left and its entry is cleared. *)
Definition chainload (chainload_page pml4 : Z) : M boot_machine rkhv_entry_t :=
  boot_store 8 pml4 0;;
  s ← mget;
  mret (mk_rkhv_entry RKHV_RX_BASE chainload_page RKHV_STACK_TOP pml4
         (Z.lor (hw_rdmsr IA32_EFER (b_hw s)) IA32_EFER_NXE)).

(** * The memory map *)

(** The [switch] on the type of a descriptor. *)
Definition efi_usable (type : EFI_MEMORY_TYPE) : bool :=
  match type with
  | EfiLoaderCode | EfiLoaderData | EfiBootServicesCode | EfiBootServicesData
  | EfiConventionalMemory => true
  | _ => false
  end.

(** The loop from the descriptor [efi_mmap_index] on; [pages] has 63 bits. *)
Fixpoint convert_mmap (descs : list EFI_MEMORY_DESCRIPTOR) (efi_mmap_index out_mmap_index : Z)
    (out : list chainload_mmap_desc_t) : outcome (list chainload_mmap_desc_t) :=
  match descs with
  | [] => Ok out
  | desc :: descs =>
    let usable := efi_usable (Type_ desc) in
    match out !! Z.to_nat out_mmap_index with
    | None => Undefined
    | Some prev =>
      if negb (efi_mmap_index =? 0) && eqb (md_usable prev) usable &&
         (u64 (md_physical_address prev + u64 (md_pages prev * EFI_PAGE_SIZE)) =? PhysicalStart desc)
      then
        convert_mmap descs (efi_mmap_index + 1) out_mmap_index
          (<[Z.to_nat out_mmap_index := prev <| md_pages := wrap 63 (md_pages prev + NumberOfPages desc) |>]> out)
      else
        let out_mmap_index := if negb (efi_mmap_index =? 0) then out_mmap_index + 1 else out_mmap_index in
        if RKHV_MAX_EFI_MMAP_DESCRIPTORS <=? out_mmap_index then Ok out
        else
          convert_mmap descs (efi_mmap_index + 1) out_mmap_index
            (<[Z.to_nat out_mmap_index := mk_mmap_desc (PhysicalStart desc) (wrap 63 (NumberOfPages desc)) usable]> out)
    end
  end.

(** * efi_main *)

Record section_t := mk_section_t {
  section_filename : list Z;
  section_memory_type : EFI_MEMORY_TYPE;
  section_virtual_address : Z;
  section_size_in_pages : Z;
  section_permission : paging_permission_t;
}.

(** [filename] is [None] for [NULL]. *)
Record attachment_t := mk_attachment_t {
  attachment_filename : option (list Z);
  attachment_type : Z;
}.

Definition zero_chainload_page : chainload_page_t :=
  mk_chainload_page
    (replicate (Z.to_nat RKHV_MAX_SECTIONS) (mk_section 0 0)) 0
    (replicate (Z.to_nat RKHV_MAX_ATTACHMENTS) (mk_attachment 0 0 0))
    (replicate (Z.to_nat RKHV_MAX_PAGE_TABLE_REGIONS) (mk_page_table_region 0 0))
    (replicate (Z.to_nat RKHV_MAX_EFI_MMAP_DESCRIPTORS) (mk_mmap_desc 0 0 false)).

Definition modify_chainload (f : chainload_page_t → chainload_page_t) : efi () :=
  efi_lift (mmodify (λ s, s <| b_chainload := f (b_chainload s) |>)).
(** [array[index] = v] for an array of the chainload page *)
Definition array_store {A} (l : list A) (index : Z) (v : A) : outcome (list A) :=
  if (0 <=? index) && (index <? Z.of_nat (length l)) then Ok (<[Z.to_nat index := v]> l) else Undefined.
Definition store_section (index : Z) (v : chainload_section_t) : efi () :=
  s ←! efi_lift mget;
  l ←! efi_lift (mlift (array_store (rkhv_sections (b_chainload s)) index v));
  modify_chainload (λ c, c <| rkhv_sections := l |>).
Definition store_attachment (index : Z) (f : chainload_attachment_t → chainload_attachment_t) : efi () :=
  s ←! efi_lift mget;
  match attachments (b_chainload s) !! Z.to_nat index with
  | None => mundefined
  | Some v => modify_chainload (λ c, c <| attachments := <[Z.to_nat index := f v]> (attachments c) |>)
  end.

(** [for (i = start; i < start + n; i++) body(i)], left at the first error. *)
Fixpoint efi_for (n : nat) (i : Z) (body : Z → efi ()) : efi () :=
  match n with
  | O => efi_return ()
  | S n => body i;! efi_for n (i + 1) body
  end.

End code.

Section main.
Context `{HW : Hardware} `{FW : Firmware}.

(** What the build defines: [RKHV_HASH], [RKHV_EFI_PATH] and the name of the file. *)
Context (RKHV_HASH RKHV_EFI_PATH FILE : list Z).

Local Notation "x '←[' line ']' m ; k" := (VERIFY_EFI (FILE ++ bytes_of_string line) m (λ x, k))
  (at level 20, line at level 0, m at level 100, k at level 200, only parsing).
Local Notation "'VERIFY' line m ; k" := (VERIFY_EFI (FILE ++ bytes_of_string line) m (λ _, k))
  (at level 20, line at level 0, m at level 100, k at level 200, only parsing).
Local Abbreviation puts str := (boot_stdio_puts (bytes_of_string str)).
Local Definition CRLF : list Z := [0x0D; 0x0A].

Definition sections : list section_t := [
  mk_section_t ([0x5c] ++ RKHV_EFI_PATH ++ bytes_of_string "\rkhv.rx") EfiLoaderCode RKHV_RX_BASE SECTION_PAGES PAGING_RX;
  mk_section_t ([0x5c] ++ RKHV_EFI_PATH ++ bytes_of_string "\rkhv.ro") EfiLoaderData RKHV_RO_BASE SECTION_PAGES PAGING_RO;
  mk_section_t ([0x5c] ++ RKHV_EFI_PATH ++ bytes_of_string "\rkhv.rw") EfiLoaderData RKHV_RW_BASE SECTION_PAGES PAGING_RW;
  mk_section_t (bytes_of_string "stack") EfiLoaderData RKHV_STACK_BASE STACK_PAGES PAGING_RW ].

(** The body of the loop over the sections: the physical address of the section. *)
Definition load_section (volume section_index : Z) (section : section_t) : efi Z :=
  let total_size_in_pages := section_size_in_pages section in
  let total_size := u64 (total_size_in_pages * EFI_PAGE_SIZE) in
  '(physical_address, initialized_size) ←! (
    if bool_decide (head (section_filename section) = Some 0x5c) then
      VERIFY ":52" (puts "Loading ");
      VERIFY ":53" (boot_stdio_puts (section_filename section));
      VERIFY ":54" (puts "...");
      r ←[":56"] (fs_read_entier_file_to_pages volume (section_filename section)
                    (section_memory_type section) total_size_in_pages);
      efi_return r
    else
      VERIFY ":60" (puts "Allocating ");
      VERIFY ":61" (boot_stdio_puts (section_filename section));
      physical_address ←[":62"] (efi_status_out (efi_call_out
        (efi_AllocatePages (section_memory_type section) total_size_in_pages)));
      efi_return (physical_address, 0));
  let buffer := bytes_of_string " : 0xxxxxxxxx / 0xxxxxxxxx B @ 0xxxxxxxxxxxxxxxxx physical" ++ CRLF in
  buffer ←! efi_lift (str_itouh buffer 5 initialized_size 8);
  buffer ←! efi_lift (str_itouh buffer 18 total_size 8);
  buffer ←! efi_lift (str_itouh buffer 33 physical_address 16);
  VERIFY ":72" (boot_stdio_puts buffer);
  efi_lift (boot_memset (u64 (physical_address + initialized_size)) 0 (u64 (total_size - initialized_size)));!
  store_section section_index (mk_section physical_address total_size_in_pages);!
  efi_return physical_address.

Fixpoint load_sections (volume section_index : Z) (l : list section_t) : efi (list Z) :=
  match l with
  | [] => efi_return []
  | section :: l =>
    physical_address ←! load_section volume section_index section;
    physical_addresses ←! load_sections volume (section_index + 1) l;
    efi_return (physical_address :: physical_addresses)
  end.

(** The elements that are not given are zero. *)
Definition attachments_ : list attachment_t := [
  mk_attachment_t (Some ([0x5c] ++ RKHV_EFI_PATH ++ bytes_of_string "\linux-bzImage")) CHAINLOAD_ATTACHMENT_LINUX_BZIMAGE;
  mk_attachment_t None CHAINLOAD_ATTACHMENT_END;
  mk_attachment_t None 0; mk_attachment_t None 0 ].

Definition load_attachment (volume attachment_index : Z) (filename : list Z) (type : Z) : efi () :=
  VERIFY ":96" (puts "Loading attachment ");
  VERIFY ":97" (boot_stdio_puts filename);
  VERIFY ":98" (puts "...");
  read_attachment_ret ←! efi_lift (fs_read_attachment volume filename);
  match read_attachment_ret with
  | inl status =>
    if status =? EFI_NOT_FOUND then
      VERIFY ":104" (boot_stdio_puts (bytes_of_string " : Not Found" ++ CRLF));
      store_attachment attachment_index (λ a, a <| at_size := 0 |>);!
      store_attachment attachment_index (λ a, a <| at_attachment_type := wrap 8 type |>)
    else VERIFY ":108" (efi_fail (A := ()) status); efi_return ()
  | inr (physical_address, attachment_size) =>
    let buffer := bytes_of_string " : 0xxxxxxxxx B @ 0xxxxxxxxxxxxxxxxx physical" ++ CRLF in
    buffer ←! efi_lift (str_itouh buffer 5 attachment_size 8);
    buffer ←! efi_lift (str_itouh buffer 20 physical_address 16);
    VERIFY ":113" (boot_stdio_puts buffer);
    store_attachment attachment_index (λ a, a <| at_physical_address := physical_address |>);!
    store_attachment attachment_index (λ a, a <| at_size := wrap 56 attachment_size |>);!
    store_attachment attachment_index (λ a, a <| at_attachment_type := wrap 8 type |>)
  end.

Fixpoint load_attachments (volume attachment_index : Z) (l : list attachment_t) : efi () :=
  match l with
  | [] => efi_return ()
  | attachment :: l =>
    match attachment_filename attachment, attachment_type attachment =? CHAINLOAD_ATTACHMENT_END with
    | Some filename, false =>
      load_attachment volume attachment_index filename (attachment_type attachment);!
      load_attachments volume (attachment_index + 1) l
    | _, _ => store_attachment attachment_index (λ a, a <| at_attachment_type := CHAINLOAD_ATTACHMENT_END |>)
    end
  end.

(** The body of the loop that maps the sections. *)
Definition map_section (pml4 : Z) (section : section_t) (physical_address : Z) : efi () :=
  let buffer := bytes_of_string "Building page table mapping 0xxxxxxxxxxxxxxxxx virtual to 0xxxxxxxxxxxxxxxxx physical" ++ CRLF in
  buffer ←! efi_lift (str_itouh buffer 30 (section_virtual_address section) 16);
  buffer ←! efi_lift (str_itouh buffer 60 physical_address 16);
  VERIFY ":137" (boot_stdio_puts buffer);
  efi_for (Z.to_nat (section_size_in_pages section)) 0 (λ page_index,
    VERIFY ":139" (paging_map_page pml4
        (u64 (physical_address + u64 (page_index * EFI_PAGE_SIZE)))
        (u64 (section_virtual_address section + u64 (page_index * EFI_PAGE_SIZE)))
        (section_permission section));
    efi_return ()).

Fixpoint map_sections (pml4 : Z) (l : list (section_t * Z)) : efi () :=
  match l with
  | [] => efi_return ()
  | (section, physical_address) :: l =>
    map_section pml4 section physical_address;! map_sections pml4 l
  end.

(** The [do ... while] loop that leaves the boot services; [mm] holds the variables that
    [GetMemoryMap] writes. The status of its first call is not read. *)
Fixpoint exit_boot_services (fuel : nat) (image_handle : Z) (mm : memory_map) : efi memory_map :=
  match fuel with
  | O => mout_of_fuel
  | S fuel =>
    '(_, mm) ←! efi_lift (efi_call_out (efi_GetMemoryMap mm None));
    let mmap_size := u64 (MemoryMapSize mm + u64 (4 * DescriptorSize mm)) in
    mmap ←[":166"] (efi_status_out (efi_call_out (efi_AllocatePool EfiLoaderData mmap_size)));
    mm ←[":167"] (efi_status_out (efi_call_out (efi_GetMemoryMap
      (mk_memory_map mmap_size (MemoryMap mm) (MapKey mm) (DescriptorSize mm)) (Some mmap))));
    exit_boot_services_ret ←! efi_lift (efi_call (efi_ExitBootServices image_handle (MapKey mm)));
    if exit_boot_services_ret =? EFI_SUCCESS then efi_return mm
    else
      VERIFY ":172" (stdio_perror (bytes_of_string "ExitBootServices failed ") exit_boot_services_ret);
      VERIFY ":173" (efi_status (efi_call (efi_FreePool mmap)));
      exit_boot_services fuel image_handle mm
  end.

(** The descriptors that the last loop reads. *)
Definition mmap_descriptors (mm : memory_map) : outcome (list EFI_MEMORY_DESCRIPTOR) :=
  if DescriptorSize mm =? 0 then Undefined
  else
    let n := MemoryMapSize mm / DescriptorSize mm in
    if Z.of_nat (length (MemoryMap mm)) <? n then Undefined else Ok (take (Z.to_nat n) (MemoryMap mm)).

Definition store_mmap (mm : memory_map) : efi () :=
  s ←! efi_lift mget;
  descs ←! efi_lift (mlift (mmap_descriptors mm));
  out ←! efi_lift (mlift (convert_mmap descs 0 0 (efi_mmap_usable (b_chainload s))));
  modify_chainload (λ c, c <| efi_mmap_usable := out |>).

(** The three parts of [efi_main]. First the pages of the chainload page, of the sections and
    of the attachments: the chainload page and the addresses of the sections. *)
Definition efi_load (image_handle : Z) : efi (Z * list Z) :=
  VERIFY ":20" (stdio_print_banner RKHV_HASH);
  chainload_page ←[":23"] (efi_status_out (efi_call_out
    (efi_AllocatePages EfiLoaderData (PAGE_SIZE / EFI_PAGE_SIZE))));
  modify_chainload (λ _, zero_chainload_page);!
  modify_chainload (λ c, c <| chainload_page_physical_address := chainload_page |>);!
  volume ←[":30"] (fs_get_volume image_handle);
  sections_physical_addresses ←! load_sections volume 0 sections;
  load_attachments volume 0 attachments_;!
  VERIFY ":121" (efi_status (efi_call (efi_Close volume)));
  efi_return (chainload_page, sections_physical_addresses).

(** Then the page tables. *)
Definition efi_map (sections_physical_addresses : list Z) : efi Z :=
  efi_lift (mmodify (λ s, s <| b_pool := mk_pool 0 PAGE_TABLE_POOL_DEFAULT_CAPACITY |>));!
  pml4 ←[":130"] paging_allocate_pml4;
  map_sections pml4 (zip sections sections_physical_addresses);!
  VERIFY ":147" (boot_stdio_puts (bytes_of_string "Building page table identity mapping for physical memory" ++ CRLF));
  VERIFY ":148" (paging_map_physical pml4);
  supported ←! efi_lift paging_check_for_supported_level;
  (if negb supported then
     VERIFY ":151" (boot_stdio_puts (bytes_of_string "Invalid paging setup by firmware, only Level-4 paging is supported" ++ CRLF));
     VERIFY ":152" (efi_fail (A := ()) EFI_UNSUPPORTED);
     efi_return ()
   else efi_return ());!
  efi_return pml4.

(** Then the memory map and the jump. [mm] holds what the uninitialised variables of the loop
    contain. *)
Definition efi_main (fuel : nat) (image_handle : Z) (mm : memory_map) : efi rkhv_entry_t :=
  '(chainload_page, sections_physical_addresses) ←! efi_load image_handle;
  pml4 ←! efi_map sections_physical_addresses;
  VERIFY ":155" (boot_stdio_puts (bytes_of_string "Exiting boot services and chainloading to rkhv..." ++ CRLF));
  mm ←! exit_boot_services fuel image_handle mm;
  store_mmap mm;!
  efi_lift (chainload (P2V_IDENTITY_MAP chainload_page) pml4).

End main.
