(* ===== verification/SimpleFirmware.v ===== *)
(** A concrete firmware.

    Pages are given out from address 0 upwards, files are one byte long, those whose name ends
    with an e (as linux-bzImage does) are missing, and the memory map
    changes a given number of times before the boot services are left. It shows that the
    hypotheses made on the firmware can hold. *)
From S2P Require Import Prelude Memory Machine Registers SimpleCpu PageUse BootFirmware BootPaging BootMain.

(** The number of pages that were given out, and of changes of the memory map to come. *)
Record firmware_state := mk_firmware_state { fw_pages : nat; fw_changes : nat }.

Definition simple_memory_map : list EFI_MEMORY_DESCRIPTOR := [
  mk_efi_descriptor EfiConventionalMemory 0 0x90;
  mk_efi_descriptor EfiBootServicesData 0x90000 0x10;
  mk_efi_descriptor EfiReservedMemoryType 0xA0000 0x60;
  mk_efi_descriptor EfiConventionalMemory 0x100000 0x100000;
  mk_efi_descriptor (EfiOtherMemory 0x80000000) 0x100100000 0x10 ].

#[export] Instance simple_firmware : Firmware := {|
  efi_state := firmware_state;
  EFI_PAGE_SIZE := 0x1000;
  EFI_ERROR := λ status, Z.testbit status 63;
  EFI_ERROR_MASK := 0x8000000000000000;
  EFI_SUCCESS := 0;
  EFI_BUFFER_TOO_SMALL := 0x8000000000000005;
  EFI_UNSUPPORTED := 0x8000000000000003;
  EFI_OUT_OF_RESOURCES := 0x8000000000000009;
  EFI_NOT_FOUND := 0x800000000000000E;
  EFI_FILE_MODE_READ := 1;
  EFI_LOADED_IMAGE_PROTOCOL_GUID := 1;
  EFI_SIMPLE_FILE_SYSTEM_PROTOCOL_GUID := 2;
  EFI_FILE_INFO_ID := 3;
  efi_AllocatePages := λ type n efi,
    if (0 <=? n) && ((Z.of_nat (fw_pages efi) + n) * 0x1000 <=? 2 ^ 39)
    then (0, Z.of_nat (fw_pages efi) * 0x1000, mk_firmware_state (fw_pages efi + Z.to_nat n) (fw_changes efi))
    else (0x8000000000000009, 0, efi);
  efi_AllocatePool := λ type n efi, (0, 0x10, efi);
  efi_FreePool := λ a efi, (0, efi);
  efi_HandleProtocol := λ h g efi, (0, 1, efi);
  efi_WaitForEvent := λ efi, (0, efi);
  efi_GetMemoryMap := λ mm a efi,
    match a with
    | None => (0x8000000000000005, mk_memory_map (48 * 5) (MemoryMap mm) (MapKey mm) 48, efi)
    | Some _ => (0, mk_memory_map (48 * 5) simple_memory_map (Z.of_nat (fw_changes efi)) 48, efi)
    end;
  efi_ExitBootServices := λ image key efi,
    match fw_changes efi with
    | O => (0, efi)
    | S n => (0x8000000000000002, mk_firmware_state (fw_pages efi) n)
    end;
  efi_OutputString := λ str efi, (0, efi);
  efi_ClearScreen := λ efi, (0, efi);
  efi_ReadKeyStroke := λ efi, (0, efi);
  efi_DeviceHandle := λ image efi, 1;
  efi_OpenVolume := λ fs efi, (0, 1, efi);
  efi_Open := λ volume name mode efi,
    if bool_decide (last name = Some 0x65) then (0x800000000000000E, 0, efi) else (0, 1, efi);
  efi_Read := λ file n a m efi, if 1 <=? n then (0, 1, store_le 1 m a 0x42, efi) else (0x8000000000000007, 0, m, efi);
  efi_GetInfo := λ file id n a efi, (0, 100, efi);
  efi_FileSize := λ info efi, 1;
  efi_Close := λ file efi, (0, efi);
|}.

#[export] Instance simple_firmware_state : FirmwareState (FW := simple_firmware) := {|
  efi_allocated := λ efi p, run_page 0 (Z.of_nat (fw_pages efi)) p;
  efi_attempts := fw_changes;
|}.

#[export] Instance simple_firmware_laws : FirmwareLaws (FW := simple_firmware).
Proof.
  split; try (intros; intros ?; done); try (intros volume name mode efi; cbn; by case_bool_decide).
  - done.
  - done.
  - repeat constructor.
  - intros type n efi status a efi'. cbn [efi_AllocatePages simple_firmware].
    destruct (_ && _) eqn:H; intros [= <- <- <-]; [|done]. apply andb_prop in H as [Hn%Z.leb_le _].
    split; [done|]. intros p. cbn -[Z.mul Z.add run_page]. rewrite Nat2Z.inj_add, Z2Nat.id by done.
    rewrite run_page_app by lia. by rewrite Z.add_0_l.
  - intros type n efi status a efi'. cbn [efi_AllocatePages simple_firmware].
    destruct (_ && _) eqn:H; intros [= <- <- <-] Herr Hn; [|done]. apply andb_prop in H as [_ Hb%Z.leb_le].
    unfold PAGE_SIZE. split_and!; [by apply Z.mod_mul|lia|lia|].
    intros p (i & Hi & ->) (j & Hj & Heq). unfold PAGE_SIZE in *. lia.
  - intros mm [a|] efi; by split.
  - intros mm a efi status mm' efi'. intros [= <- <- <-] _. split; [done|]. split; [by vm_compute|].
    repeat constructor; by vm_compute.
  - intros image key efi. unfold efi_quiet. cbn. destruct (fw_changes efi) eqn:H; cbn; [by rewrite H|]. split; [lia|done].
  - intros image key efi status efi'. cbn. destruct (fw_changes efi) eqn:H; intros [= <- <-] Hs; cbn; [done|lia].
  - intros file n a m efi status n' m' efi'. cbn [efi_Read simple_firmware].
    destruct (Z.leb_spec 1 n); intros [= <- <- <- <-]; (split; [done|]); [|done].
    intros b Hb. change (load_byte (store_le 1 m a 0x42) b = load_byte m b). apply load_byte_store_other. lia.
  - intros file n a m efi status n' m' efi'. cbn [efi_Read simple_firmware].
    destruct (Z.leb_spec 1 n); intros [= <- <- <- <-] Herr; [lia|done].
Qed.

(** Before the boot loader runs: no page was given out, and 4-level paging is enabled. *)
Definition boot_start (changes : nat) : boot_machine (FW := simple_firmware) :=
  mk_boot ∅ (mk_chainload_page [] 0 [] [] []) (mk_pool 0 0)
    (initial_cpu <| cpu_msrs := {[IA32_EFER := 0x500]} |>) (mk_firmware_state 0 changes).

(** The page 0 is the root of the tables, without entries. *)
Definition boot_root : boot_machine (FW := simple_firmware) :=
  mk_boot ∅ (zero_chainload_page <| page_table_regions :=
      mk_page_table_region 0 1 :: replicate 15 (mk_page_table_region 0 0) |>)
    (mk_pool 1 RKHV_MAX_PAGE_TABLE_REGIONS) initial_cpu (mk_firmware_state 1 0).
