(* ===== verification/BootTables.v ===== *)
(** Correctness of the page tables that the boot loader builds (boot/src/paging.c).

    [page_entry root va m] is the entry that translates [va], with its level. [paging_map_page]
    adds one page of 4 KiB to it, or fails and leaves it as it is; [paging_map_physical] adds
    the two windows on physical memory. All of the tables are recorded for the hypervisor, and
    pages that were given out for something else keep their bytes. *)
From S2P Require Import Prelude Memory Machine Registers SimpleCpu PageUse.
From S2P Require Import VmxEpt VmxEptSpec EptCorrect GuestPaging BootFirmware BootPaging BootMain SimpleFirmware.

(** * Entries *)

Definition page_entry (root va : Z) (m : mem) : option (nat * Z) := walk_leaf 3 m root (va mod 2 ^ 48).

(** The entry that points to the table [x]. *)
Definition table_entry (x : Z) : Z :=
  Z.lor (Z.lor PTE_PRESENT PTE_READ_WRITE) (Z.land x PTE_PHYSICAL_ADDRESS_PAGE).

Definition permission_mask (permission : paging_permission_t) : Z :=
  match permission with
  | PAGING_RO => PTE_EXECUTE_DISABLE
  | PAGING_RW => Z.lor PTE_EXECUTE_DISABLE PTE_READ_WRITE
  | _ => 0
  end.

(** The entry of a page. *)
Definition leaf_entry (x : Z) (permission : paging_permission_t) : Z :=
  Z.lor (Z.lor PTE_PRESENT (Z.land x PTE_PHYSICAL_ADDRESS_PAGE)) (permission_mask permission).

Lemma lor_bound_64 a b : 0 ≤ a < 2 ^ 64 → 0 ≤ b < 2 ^ 64 → 0 ≤ Z.lor a b < 2 ^ 64.
Proof.
  intros Ha Hb. split; [apply Z.lor_nonneg; lia|].
  rewrite <-(Z.mod_small a (2 ^ 64)), <-(Z.mod_small b (2 ^ 64)), <-!Z.land_ones, <-Z.land_lor_distr_l by done.
  rewrite Z.land_ones by done. by apply Z.mod_pos_bound.
Qed.

Lemma land_page_bound x : 0 ≤ Z.land x PTE_PHYSICAL_ADDRESS_PAGE < 2 ^ 64.
Proof. rewrite land_PTE_PHYSICAL_ADDRESS_PAGE. zlia. Qed.

Lemma permission_mask_bound permission : 0 ≤ permission_mask permission < 2 ^ 64.
Proof. by destruct permission. Qed.

Lemma next_table_entry_bound x : 0 ≤ table_entry x < 256 ^ 8.
Proof. apply lor_bound_64; [done|apply land_page_bound]. Qed.
Lemma leaf_entry_bound x permission : 0 ≤ leaf_entry x permission < 256 ^ 8.
Proof. apply lor_bound_64; [apply lor_bound_64; [done|apply land_page_bound]|apply permission_mask_bound]. Qed.

Lemma table_entry_readable x : entry_readable (table_entry x) = true.
Proof.
  unfold entry_readable, table_entry. rewrite Z.land_lor_distr_l, <-Z.land_assoc.
  by rewrite (Z.land_0_r x : Z.land x (Z.land PTE_PHYSICAL_ADDRESS_PAGE EPT_PTE_READ) = 0).
Qed.
Lemma leaf_entry_readable x permission : entry_readable (leaf_entry x permission) = true.
Proof.
  unfold entry_readable, leaf_entry. rewrite !Z.land_lor_distr_l, <-Z.land_assoc.
  rewrite (Z.land_0_r x : Z.land x (Z.land PTE_PHYSICAL_ADDRESS_PAGE EPT_PTE_READ) = 0).
  by destruct permission.
Qed.
Lemma table_entry_large x n : entry_large n (table_entry x) = false.
Proof.
  assert (truthy (Z.land (table_entry x) EPT_PDE_PAGE_SIZE) = false) as H; [|by destruct n as [|[|[|]]]].
  unfold table_entry. rewrite Z.land_lor_distr_l, <-Z.land_assoc.
  by rewrite (Z.land_0_r x : Z.land x (Z.land PTE_PHYSICAL_ADDRESS_PAGE EPT_PDE_PAGE_SIZE) = 0).
Qed.
Lemma table_entry_table x : page_ok x → entry_table (table_entry x) = x.
Proof.
  intros Hok. unfold entry_table, table_entry. rewrite (page_ok_mask x), Z.land_lor_distr_l by done.
  change (Z.land (Z.lor PTE_PRESENT PTE_READ_WRITE) EPT_PTE_PHYSICAL_ADDRESS_PAGE) with 0.
  rewrite Z.lor_0_l. by apply (page_ok_mask x).
Qed.

(** The page that the entry of a page translates to. *)
Lemma leaf_entry_table x permission : page_ok x → entry_table (leaf_entry x permission) = x.
Proof.
  intros Hok. unfold entry_table, leaf_entry. rewrite (page_ok_mask x), !Z.land_lor_distr_l by done.
  change (Z.land PTE_PRESENT EPT_PTE_PHYSICAL_ADDRESS_PAGE) with 0.
  change EPT_PTE_PHYSICAL_ADDRESS_PAGE with PTE_PHYSICAL_ADDRESS_PAGE. rewrite page_ok_mask by done.
  rewrite Z.lor_0_l. replace (Z.land (permission_mask permission) PTE_PHYSICAL_ADDRESS_PAGE) with 0
    by (by destruct permission). apply Z.lor_0_r.
Qed.

(** * One level *)

Section levels.
Context `{HW : Hardware} `{FL : FirmwareLaws}.
Implicit Types (s : boot_machine) (tbl : gmap (nat * Z) Z).

(** The tables are a tree, and their pages are recorded. *)
Record paging_inv (root : Z) tbl s : Prop := {
  pi_tables : ept_tables_wf root tbl (b_mem s);
  pi_pool k T : tbl !! k = Some T → pool_page s T;
  pi_wf : pool_wf s;
}.

(** The translations are kept. *)
Definition entries_kept (root : Z) s s' : Prop := ∀ va, page_entry root va (b_mem s') = page_entry root va (b_mem s).
#[export] Instance entries_kept_preorder root : PreOrder (entries_kept root).
Proof. split; [done|]. intros s1 s2 s3 H1 H2 va. by rewrite H2. Qed.

(** One level of [paging_map_page]. *)
Definition paging_next_table (check_large : bool) (table i e : Z) : efi Z :=
  if truthy (Z.land e PTE_PRESENT) then
    if check_large then
      if truthy (Z.land e PDE_PAGE_SIZE) then efi_fail EFI_UNSUPPORTED
      else efi_return (Z.land e PTE_PHYSICAL_ADDRESS_PAGE)
    else efi_return (Z.land e PTE_PHYSICAL_ADDRESS_PAGE)
  else
    next ←! paging_allocate_page 1;
    efi_lift (boot_store 8 (table_ptr table i) (table_entry next));!
    efi_return next.

Lemma table_ptr_small T i : page_ok T → 0 ≤ i < 512 → table_ptr T i = T + 8 * i.
Proof. intros [Ha Hb] Hi. unfold table_ptr. apply wrap_small. unfold PAGE_SIZE in *. lia. Qed.

Lemma tables_kept_outside root tbl m m' :
  ept_tables_wf root tbl m →
  (∀ k T a, tbl !! k = Some T → T ≤ a < T + PAGE_SIZE → load_byte m' a = load_byte m a) →
  ept_tables_wf root tbl m' ∧ ∀ va, page_entry root va m' = page_entry root va m.
Proof.
  intros Hwf Hm. assert (∀ k T i, tbl !! k = Some T → 0 ≤ i < 512 → ept_entry m' T i = ept_entry m T i) as Hs.
  { intros k T i HT Hi. apply ept_entry_ext; [done|]. intros a. by apply (Hm k). }
  split; [by eapply ept_tables_wf_frame|]. intros va. unfold page_entry.
  eapply walk_leaf_frame; [exact Hwf|by intros ???? _; apply Hs|].
  rewrite level_prefix_root by (apply Z.mod_pos_bound; lia). apply (et_root _ _ _ Hwf).
Qed.

(** Pages that were allocated are not tables, and the tables are as before. *)
Lemma paging_inv_allocated root tbl s s' a n :
  paging_inv root tbl s → pool_wf s' → boot_frame s s' → a mod PAGE_SIZE = 0 →
  (∀ p, run_page a n p → ¬ efi_allocated (b_efi s) p) →
  b_mem s' = memset (b_mem s) a 0 (n * PAGE_SIZE) →
  paging_inv root tbl s' ∧ entries_kept root s s' ∧
  ∀ p, run_page a n p → page_zero (b_mem s') p ∧ ∀ k, tbl !! k ≠ Some p.
Proof.
  intros [Ht Hp Hwf] Hwf' Hf Hal Hnew Hm.
  assert (∀ p, run_page a n p → ∀ k, tbl !! k ≠ Some p) as Hfresh.
  { intros p Hr k HT. apply (Hnew p Hr), (pw_allocated _ Hwf). by eapply Hp. }
  destruct (tables_kept_outside root tbl (b_mem s) (b_mem s')) as [Ht' Hk]; [done| |].
  { intros k T b HT Hb. rewrite Hm, load_byte_memset, decide_False; [done|]. intros Hb'.
    apply (Hfresh T) with k; [|done]. eapply run_page_byte; [done|by eapply et_page|done|done]. }
  split_and!; [|exact Hk|].
  - split; [done| |done]. intros k T HT. eapply (bf_pool _ _ Hf), Hp, HT.
  - intros p Hr. split; [|by apply Hfresh]. intros b Hb. rewrite Hm, load_byte_memset, decide_True; [done|].
    destruct Hr as (i & Hi & ->). unfold PAGE_SIZE in *. lia.
Qed.

(** A failed allocation. *)
Lemma paging_inv_same root tbl s s' :
  paging_inv root tbl s → pool_wf s' → boot_frame s s' → b_mem s' = b_mem s →
  paging_inv root tbl s' ∧ entries_kept root s s'.
Proof.
  intros [Ht Hp Hwf] Hwf' Hf Hm. split; [|intros va; by rewrite Hm].
  split; [by rewrite Hm| |done]. intros k T HT. eapply (bf_pool _ _ Hf), Hp, HT.
Qed.

(** A write to a table, and the frame. *)
Lemma boot_frame_store root tbl s T i e :
  paging_inv root tbl s → page_ok T → pool_page s T → 0 ≤ i < 512 →
  boot_frame s (s <| b_mem := store_le 8 (b_mem s) (T + 8 * i) e |>).
Proof.
  intros Hinv Hok HT Hi. apply (boot_frame_mem s s); [done|]. intros p a Hp _ Hn Ha.
  apply ept_store_outside; [done..|]. apply (page_ok_disjoint p T a); [done..| |done]. by intros ->.
Qed.

(** The state after an entry was made to point to a new table. *)
Lemma paging_inv_new_table root tbl s n va T p :
  paging_inv root tbl s → 0 ≤ va < 2 ^ 48 →
  tbl !! (S n, level_prefix (S n) va) = Some T →
  entry_readable (ept_entry (b_mem s) T (level_index (S n) va)) = false →
  page_ok p → pool_page s p → page_zero (b_mem s) p → (∀ k, tbl !! k ≠ Some p) →
  let s' := s <| b_mem := store_le 8 (b_mem s) (T + 8 * level_index (S n) va) (table_entry p) |> in
  paging_inv root (<[(n, level_prefix n va) := p]> tbl) s' ∧ boot_frame s s' ∧ entries_kept root s s'.
Proof.
  intros Hinv Hva HT Hr Hok Hp Hzero Hfresh s'. pose proof Hinv as [Ht Hpool Hwf].
  pose proof (et_page _ _ _ Ht _ _ HT) as HTok. pose proof (level_index_bound (S n) va) as Hidx.
  assert (entry_written tbl (b_mem s) (b_mem s') T (level_index (S n) va) (table_entry p)) as Hw.
  { apply ept_store_written; [apply (et_page _ _ _ Ht)|done|done|apply next_table_entry_bound]. }
  assert (entry_table (table_entry p) = p) as Hpt by by apply table_entry_table.
  assert (∀ i, 0 ≤ i < 512 → ept_entry (b_mem s') (entry_table (table_entry p)) i = 0) as Hz.
  { intros i Hi'. rewrite Hpt, <-(ept_entry_zero (b_mem s) p i Hi' Hzero).
    apply ept_entry_ext; [done|]. intros a Ha. apply ept_store_outside; [done..|].
    apply (page_ok_disjoint p T a); [done..| |done]. intros ->. by apply (Hfresh (S n, level_prefix (S n) va)). }
  split_and!.
  - split; [| |by apply pool_wf_mem].
    + rewrite level_prefix_split, <-Hpt.
      eapply ept_tables_wf_new_table; eauto using table_entry_readable, table_entry_large; rewrite Hpt; done.
    + intros k T'. rewrite lookup_insert. case_decide; [by intros [= <-]|]. apply Hpool.
  - eapply boot_frame_store; [done..| |done]. by eapply Hpool.
  - intros va'. unfold page_entry. eapply walk_leaf_new_table; eauto using table_entry_large.
    rewrite level_prefix_root by (apply Z.mod_pos_bound; lia). apply (et_root _ _ _ Ht).
Qed.

(** The status of a mapping that fails because the page is mapped. *)
Definition mapped_status (leaf : option (nat * Z)) (status : Z) : Prop :=
  EFI_ERROR status = true ∧
  match leaf with
  | None => True
  | Some (O, _) => status = EFI_OUT_OF_RESOURCES
  | Some _ => status = EFI_UNSUPPORTED
  end.

Lemma EFI_unsupported_error : EFI_ERROR EFI_UNSUPPORTED = true.
Proof. pose proof EFI_errors as H. rewrite !Forall_cons in H. apply H. Qed.
Lemma EFI_out_of_resources_error : EFI_ERROR EFI_OUT_OF_RESOURCES = true.
Proof. pose proof EFI_errors as H. rewrite !Forall_cons in H. apply H. Qed.

Lemma wp_paging_next_table root tbl E (Q : Z + Z → boot_machine → Prop) s check n va T :
  paging_inv root tbl s → 0 ≤ va < 2 ^ 48 → (n ≤ 2)%nat → check = (n <=? 1)%nat →
  tbl !! (S n, level_prefix (S n) va) = Some T →
  (∀ status tbl' s', mapped_status (page_entry root va (b_mem s)) status →
     paging_inv root tbl' s' → boot_frame s s' → entries_kept root s s' → Q (inl status) s') →
  (∀ tbl' s' T', paging_inv root tbl' s' → boot_frame s s' → entries_kept root s s' →
     tbl' !! (n, level_prefix n va) = Some T' → Q (inr T') s') →
  wp (paging_next_table check T (level_index (S n) va) (ept_entry (b_mem s) T (level_index (S n) va))) E Q s.
Proof.
  intros Hinv Hva Hn Hc HT HQe HQ. pose proof Hinv as [Ht Hpool Hwf].
  set (i := level_index (S n) va). set (e := ept_entry (b_mem s) T i). unfold paging_next_table.
  assert (page_entry root va (b_mem s) = walk_leaf (S n) (b_mem s) T va) as Hroot.
  { unfold page_entry. rewrite Z.mod_small by done. apply (walk_leaf_from_root _ tbl); [done|done|lia|done]. }
  cbn [walk_leaf] in Hroot. fold i e in Hroot.
  change (truthy (Z.land e PTE_PRESENT)) with (entry_readable e).
  destruct (entry_readable e) eqn:Hr.
  { assert (entry_large (S n) e = false → wp (efi_return (Z.land e PTE_PHYSICAL_ADDRESS_PAGE)) E Q s) as Hgo.
    { intros Hl. apply wp_ret. eapply HQ; [done..|]. by apply (walk_child_prefix _ _ _ Ht). }
    destruct n as [|[|[|n]]]; subst check; cbn [Nat.leb]; [| |by apply Hgo|lia];
      (destruct (truthy (Z.land e PDE_PAGE_SIZE)) eqn:Hl; [|by apply Hgo]);
      apply wp_ret; eapply HQe; try done; rewrite Hroot; cbn [entry_large];
      change EPT_PDE_PAGE_SIZE with PDE_PAGE_SIZE; rewrite Hl;
      (split; [apply EFI_unsupported_error|done]). }
  efi_step. apply wp_paging_allocate_page; [done|lia| |].
  { intros status s' Herr Hwf' Hf Hm Hp. destruct (paging_inv_same root tbl s s') as [Hi' Hk']; [done..|].
    by eapply (HQe status tbl); [rewrite Hroot|..]. }
  intros p s1 Hal H0 Hb Hwf1 Hf1 Hnew Hpp Hm1.
  assert (run_page p 1 p) as Hrun by (exists 0; lia).
  assert (page_ok p) as Hok by (unfold page_ok, PAGE_SIZE in *; lia).
  destruct (paging_inv_allocated root tbl s s1 p 1) as (Hinv1 & Hk1 & Hpage); auto.
  destruct (Hpage p Hrun) as [Hz1 Hfresh]. rewrite Z.mul_1_l in Hm1.
  do 2 efi_step. efi_step.
  rewrite table_ptr_small by (apply (et_page _ _ _ Ht _ _ HT) || apply level_index_bound).
  destruct (paging_inv_new_table root tbl s1 n va T p) as (Hinv2 & Hf2 & Hk2);
    [done|done|done| |done| |done|done|].
  { rewrite <-Hr. f_equal. apply ept_entry_ext; [apply level_index_bound|]. intros a Ha.
    rewrite Hm1, load_byte_memset, decide_False; [done|]. intros Ha'.
    apply (page_ok_disjoint T p a); [by apply (et_page _ _ _ Ht _ _ HT)|done| |done|done].
    intros ->. by apply (Hfresh (S n, level_prefix (S n) va)). }
  { apply Hpp. by right. }
  eapply HQ; [exact Hinv2|by etrans|by etrans|apply lookup_insert_eq].
Qed.

End levels.

(** * paging_map_page *)

Lemma level_index_mod n va : (n ≤ 3)%nat → level_index n (va mod 2 ^ 48) = level_index n va.
Proof.
  intros Hn. unfold level_index, level_shift.
  destruct n as [|[|[|[|n]]]]; [..|lia]; cbn -[Z.pow Z.div Z.modulo];
    change (2 ^ 48) with (2 ^ 12 * 2 ^ 9 * 2 ^ 9 * 2 ^ 9 * 2 ^ 9);
    Z.div_mod_to_equations; lia.
Qed.

Section map_page.
Context `{HW : Hardware} `{FL : FirmwareLaws}.
Implicit Types (s : boot_machine) (tbl : gmap (nat * Z) Z).

(** One page was added. *)
Definition entries_mapped (root va leaf : Z) s s' : Prop :=
  ∀ va', page_entry root va' (b_mem s') =
    if (va' mod 2 ^ 48) / 4096 =? (va mod 2 ^ 48) / 4096 then Some (0%nat, leaf)
    else page_entry root va' (b_mem s).

Lemma paging_inv_leaf root tbl s va e T :
  paging_inv root tbl s → 0 ≤ va < 2 ^ 48 → tbl !! (0%nat, level_prefix 0 va) = Some T →
  entry_readable e = true → 0 ≤ e < 256 ^ 8 →
  let s' := s <| b_mem := store_le 8 (b_mem s) (T + 8 * level_index 0 va) e |> in
  paging_inv root tbl s' ∧ boot_frame s s' ∧ entries_mapped root va e s s'.
Proof.
  intros Hinv Hva HT Hr He s'. pose proof Hinv as [Ht Hpool Hwf].
  pose proof (et_page _ _ _ Ht _ _ HT) as HTok. pose proof (level_index_bound 0 va) as Hidx.
  assert (entry_written tbl (b_mem s) (b_mem s') T (level_index 0 va) e) as Hw.
  { apply ept_store_written; [apply (et_page _ _ _ Ht)|done..]. }
  split_and!.
  - split; [by eapply ept_tables_wf_leaf|exact Hpool|by apply pool_wf_mem].
  - eapply boot_frame_store; [done..| |done]. by eapply Hpool.
  - intros va'. unfold page_entry. rewrite (Z.mod_small va), (level_page va) by done.
    eapply walk_leaf_leaf; eauto.
    rewrite level_prefix_root by (apply Z.mod_pos_bound; lia). apply (et_root _ _ _ Ht).
Qed.

Lemma wp_PERMISSION_MASK permission E (Q : Z + Z → boot_machine → Prop) s :
  permission ≠ PAGING_PERMISSION_MAX → Q (inr (permission_mask permission)) s →
  wp (efi_lift (PERMISSION_MASK permission)) E Q s.
Proof. intros Hp HQ. apply wp_efi_lift. by destruct permission. Qed.

Lemma wp_paging_map_page root tbl pa va permission E (Q : Z + () → boot_machine → Prop) s :
  paging_inv root tbl s → permission ≠ PAGING_PERMISSION_MAX →
  (∀ status tbl' s', mapped_status (page_entry root va (b_mem s)) status →
     paging_inv root tbl' s' → boot_frame s s' → entries_kept root s s' → Q (inl status) s') →
  (∀ tbl' s', page_entry root va (b_mem s) = None → paging_inv root tbl' s' → boot_frame s s' →
     entries_mapped root va (leaf_entry pa permission) s s' → Q (inr ()) s') →
  wp (paging_map_page root pa va permission) E Q s.
Proof.
  intros Hinv Hperm HQe HQ. unfold paging_map_page. cbv zeta.
  rewrite GET_PML4_level, GET_DIRECTORY_PTR_level, GET_DIRECTORY_level, GET_TABLE_level.
  rewrite <-(level_index_mod 3 va), <-(level_index_mod 2 va), <-(level_index_mod 1 va), <-(level_index_mod 0 va) by lia.
  assert (page_entry root va = page_entry root (va mod 2 ^ 48)) as Hpe.
  { unfold page_entry. by rewrite Z.mod_mod. }
  assert (∀ e s s', entries_mapped root (va mod 2 ^ 48) e s s' → entries_mapped root va e s s') as Hem.
  { intros e s1 s2 H va'. rewrite (H va'). by rewrite Z.mod_mod. }
  assert (0 ≤ va mod 2 ^ 48 < 2 ^ 48) as Hw by (apply Z.mod_pos_bound; lia).
  rewrite Hpe in HQe, HQ. clear Hpe. set (w := va mod 2 ^ 48) in *. clearbody w.
  assert (∀ n T s (k : Z → efi ()) Q, page_ok T →
    wp (k (ept_entry (b_mem s) T (level_index n w))) E Q s →
    wp (RETURN_EFI (efi_lift (boot_load 8 (table_ptr T (level_index n w)))) k) E Q s) as Hload.
  { intros n T s1 k Q' HT Hk. do 2 efi_step. by rewrite table_ptr_small by (done || apply level_index_bound). }
  assert (tbl !! (3%nat, level_prefix 3 w) = Some root) as HT3.
  { rewrite level_prefix_root by done. apply (et_root _ _ _ (pi_tables _ _ _ Hinv)). }
  apply Hload; [by apply (et_page _ _ _ (pi_tables _ _ _ Hinv) _ _ HT3)|]. efi_step.
  apply (wp_paging_next_table root tbl E _ s false 2 w root); [done|done|lia|done|done|exact HQe|].
  intros tbl2 s2 T2 Hinv2 Hf2 Hk2 HT2. apply Hload; [by apply (et_page _ _ _ (pi_tables _ _ _ Hinv2) _ _ HT2)|]. efi_step.
  apply (wp_paging_next_table root tbl2 E _ s2 true 1 w T2); [done|done|lia|done|done| |].
  { intros status tbl' s' Hst Hi' Hf' Hk'. rewrite (Hk2 w) in Hst. eapply HQe; [done|exact Hi'|by etrans..]. }
  intros tbl1 s1 T1 Hinv1 Hf1 Hk1 HT1. apply Hload; [by apply (et_page _ _ _ (pi_tables _ _ _ Hinv1) _ _ HT1)|]. efi_step.
  assert (boot_frame s s1) as Hfs1 by (by etrans). assert (entries_kept root s s1) as Hks1 by (by etrans).
  apply (wp_paging_next_table root tbl1 E _ s1 true 0 w T1); [done|done|lia|done|done| |].
  { intros status tbl' s' Hst Hi' Hf' Hk'. rewrite (Hks1 w) in Hst. eapply HQe; [done|exact Hi'|by etrans..]. }
  intros tbl0 s0 T0 Hinv0 Hf0 Hk0 HT0. pose proof (pi_tables _ _ _ Hinv0) as Ht0.
  pose proof (et_page _ _ _ Ht0 _ _ HT0) as Hok0. apply Hload; [done|].
  assert (boot_frame s s0) as Hfs0 by (by etrans). assert (entries_kept root s s0) as Hks0 by (by etrans).
  assert (page_entry root w (b_mem s) = walk_leaf 0 (b_mem s0) T0 w) as Hleaf.
  { rewrite <-(Hks0 w). unfold page_entry. rewrite Z.mod_small by done.
    apply (walk_leaf_from_root _ tbl0); [done|done|lia|done]. }
  cbn [walk_leaf] in Hleaf. set (e := ept_entry (b_mem s0) T0 (level_index 0 w)) in *.
  change (truthy (Z.land e PTE_PRESENT)) with (entry_readable e).
  destruct (entry_readable e) eqn:Hr.
  { efi_step. eapply HQe; [|exact Hinv0|done|done]. rewrite Hleaf. split; [apply EFI_out_of_resources_error|done]. }
  efi_step. apply wp_PERMISSION_MASK; [done|]. do 2 efi_step. efi_step.
  rewrite table_ptr_small by (done || apply level_index_bound).
  destruct (paging_inv_leaf root tbl0 s0 w (leaf_entry pa permission) T0) as (Hinv' & Hf' & Hm');
    [done|done|done|apply leaf_entry_readable|apply leaf_entry_bound|].
  eapply HQ; [done|exact Hinv'|by etrans|]. apply Hem. intros va'. refine (eq_trans (Hm' va') _).
  case_match; [done|]. apply Hks0.
Qed.

End map_page.

(** C15: [paging_map_page] succeeds when the page was not mapped: then the entry of its virtual
    addresses is the physical page with the permission that was asked for, and no other
    translation changes. Otherwise it returns an error, [EFI_OUT_OF_RESOURCES] when a page of
    4 KiB and [EFI_UNSUPPORTED] when a large page is mapped there, and no translation changes.
    The tables stay a tree of recorded pages, and pages that were given out for something else
    keep their bytes. *)
Theorem paging_map_page_correct `{HW : Hardware} `{FL : FirmwareLaws} (root : Z) tbl pa va permission s
    (Hinv : paging_inv root tbl s) (Hperm : permission ≠ PAGING_PERMISSION_MAX) :
  ∃ r s' tbl', paging_map_page root pa va permission s = Ok (r, s') ∧
    paging_inv root tbl' s' ∧ boot_frame s s' ∧
    match r with
    | inl status => mapped_status (page_entry root va (b_mem s)) status ∧ entries_kept root s s'
    | inr () => page_entry root va (b_mem s) = None ∧
                entries_mapped root va (leaf_entry pa permission) s s'
    end.
Proof.
  assert (wp (paging_map_page root pa va permission) (λ _, False) (λ r s', ∃ tbl',
    paging_inv root tbl' s' ∧ boot_frame s s' ∧
    match r with
    | inl status => mapped_status (page_entry root va (b_mem s)) status ∧ entries_kept root s s'
    | inr () => page_entry root va (b_mem s) = None ∧ entries_mapped root va (leaf_entry pa permission) s s'
    end) s) as H.
  { apply (wp_paging_map_page root tbl); [done|done|intros status tbl' s'|intros tbl' s']; by exists tbl'. }
  unfold wp in H. destruct (paging_map_page root pa va permission s) as [[r s']| | | |]; try done.
  destruct H as (tbl' & H). by exists r, s', tbl'.
Qed.

(** * A root without entries *)

Lemma boot_root_inv : paging_inv 0 {[(3%nat, 0) := 0]} boot_root.
Proof.
  assert (∀ p, pool_page boot_root p ↔ run_page 0 1 p) as Hp.
  { intros p. unfold pool_page, pool_regions. change (take _ _) with [mk_page_table_region 0 1].
    rewrite Exists_cons, Exists_nil. unfold region_page, run_page. cbn. tauto. }
  split.
  - apply ept_tables_wf_root; [done|]. intros i Hi. by apply ept_entry_zero.
  - intros k T [_ <-]%lookup_singleton_Some. apply Hp. by exists 0.
  - split; [by vm_compute|by vm_compute| | |].
    + change (pool_regions boot_root) with [mk_page_table_region 0 1]. repeat constructor; by vm_compute.
    + change (Forall (λ r, r = mk_page_table_region 0 0) (replicate 15 (mk_page_table_region 0 0))). by repeat constructor.
    + intros p Hpp. by apply Hp.
Qed.

(** Witness: the page at 0x5000 becomes the first page of the code of the hypervisor; a second
    mapping of it fails. *)
Lemma paging_map_page_correct_witness :
  ∃ s1 s2, paging_map_page 0 0x5000 RKHV_RX_BASE PAGING_RX boot_root = Ok (inr (), s1) ∧
    page_entry 0 (RKHV_RX_BASE + 0x123) (b_mem s1) = Some (0%nat, 0x5001) ∧
    paging_map_page 0 0x7000 RKHV_RX_BASE PAGING_RW s1 = Ok (inl EFI_OUT_OF_RESOURCES, s2).
Proof.
  assert (PAGING_RX ≠ PAGING_PERMISSION_MAX) as HRX by done. assert (PAGING_RW ≠ PAGING_PERMISSION_MAX) as HRW by done.
  destruct (paging_map_page_correct 0 _ 0x5000 RKHV_RX_BASE PAGING_RX boot_root boot_root_inv HRX)
    as (r & s1 & tbl1 & H1 & Hinv1 & _ & Hr).
  assert (match paging_map_page 0 0x5000 RKHV_RX_BASE PAGING_RX boot_root with Ok (inr (), _) => true | _ => false end = true) as Hok
    by (by vm_compute).
  rewrite H1 in Hok. destruct r as [?|[]]; [done|]. destruct Hr as [_ Hm].
  destruct (paging_map_page_correct 0 _ 0x7000 RKHV_RX_BASE PAGING_RW s1 Hinv1 HRW) as (r & s2 & tbl2 & H2 & _ & _ & Hr).
  exists s1, s2. split; [exact H1|]. split; [exact (Hm (RKHV_RX_BASE + 0x123))|]. rewrite H2.
  pose proof (Hm RKHV_RX_BASE) as Hm'. destruct r as [status|[]].
  - destruct Hr as [[_ Hst] _]. rewrite Hm' in Hst. cbn in Hst. by rewrite Hst.
  - destruct Hr as [Hn _]. rewrite Hm' in Hn. done.
Defined.
