(* ===== verification/BootPhysical.v ===== *)
(** The windows on physical memory that the boot loader maps ([paging_map_physical] of
    boot/src/paging.c) and the jump to the hypervisor (boot/src/chainload.asm).

    The table of level 2 is shared by the entries 0 and 2 of the root, so the tables are no
    longer a tree: the walk is proved from the contents of the tables ([physical_tables]). *)
From S2P Require Import Prelude Memory Machine Registers SimpleCpu PageUse.
From S2P Require Import VmxEpt VmxEptSpec EptCorrect GuestPaging BootFirmware BootPaging BootTables BootMain SimpleFirmware.

(** * Entries *)

(** The entry of the page [j] of 2 MiB. *)
Definition physical_entry (j : Z) : Z :=
  Z.lor (Z.lor (Z.lor PDE_PRESENT PDE_READ_WRITE) PDE_PAGE_SIZE)
        (Z.land (u64 (Z.shiftl j LINEAR_ADDRESS_D_SHIFT)) PDE_PHYSICAL_ADDRESS_PAGE).

Lemma physical_entry_add j : 0 ≤ j < 2 ^ 18 → physical_entry j = j * 2 ^ 21 + 0x83.
Proof.
  intros Hj. unfold physical_entry. change LINEAR_ADDRESS_D_SHIFT with 21.
  rewrite Z.shiftl_mul_pow2, wrap_small by lia.
  assert (Z.land (j * 2 ^ 21) PDE_PHYSICAL_ADDRESS_PAGE = j * 2 ^ 21) as ->.
  { change PDE_PHYSICAL_ADDRESS_PAGE with (Z.shiftl (Z.ones 31) 21).
    rewrite (land_mask_range 21 31) by lia. rewrite Z.div_mul, Z.mod_small by lia. done. }
  rewrite (lor_disjoint_l 21); [done|lia| |by vm_compute]. apply Z.mod_mul. lia.
Qed.
Lemma physical_entry_bound j : 0 ≤ j < 2 ^ 18 → 0 ≤ physical_entry j < 256 ^ 8.
Proof. intros Hj. rewrite physical_entry_add by done. lia. Qed.
Lemma physical_entry_readable j : 0 ≤ j < 2 ^ 18 → entry_readable (physical_entry j) = true.
Proof.
  intros Hj. unfold entry_readable, truthy. rewrite physical_entry_add by done.
  change EPT_PTE_READ with (Z.ones 1). rewrite Z.land_ones by lia.
  replace ((j * 2 ^ 21 + 0x83) mod 2 ^ 1) with 1; [done|]. zlia.
Qed.
Lemma physical_entry_large j : 0 ≤ j < 2 ^ 18 → entry_large 1 (physical_entry j) = true.
Proof.
  intros Hj. cbn [entry_large]. unfold truthy. rewrite physical_entry_add by done.
  rewrite (land_mask_range 7 1) by lia.
  replace ((j * 2 ^ 21 + 0x83) / 2 ^ 7) with (j * 2 ^ 14 + 1) by zlia.
  replace ((j * 2 ^ 14 + 1) mod 2 ^ 1) with 1 by zlia. done.
Qed.

(** The address that an address [w] with the low 39 bits of [pa] translates to. *)
Lemma physical_entry_address w pa :
  0 ≤ pa < 2 ^ 39 → w mod 2 ^ 39 = pa → leaf_address w (1%nat, physical_entry (pa / 2 ^ 21)) = pa.
Proof.
  intros Hpa Hw. cbn [leaf_address large_address]. rewrite physical_entry_add by zlia.
  change EPT_PDE_PHYSICAL_ADDRESS_PAGE with (Z.shiftl (Z.ones 31) 21).
  rewrite (land_mask_range 21 31) by lia.
  replace ((pa / 2 ^ 21 * 2 ^ 21 + 0x83) / 2 ^ 21) with (pa / 2 ^ 21) by zlia.
  rewrite (Z.mod_small (pa / 2 ^ 21)) by zlia.
  change (Z.lor _ GUEST_PHYSICAL_ADDRESS_OFFSET_MASK) with (Z.ones 21).
  rewrite Z.land_ones by lia. rewrite (lor_disjoint 21); [zlia|lia|by apply Z.mod_mul|].
  by apply Z.mod_pos_bound.
Qed.

(** * The tables *)

(** [m'] is [m] with the windows; [low] when the window at 0 is still there. *)
Record physical_tables (low : bool) (root pdpt pds : Z) (tbl : gmap (nat * Z) Z) (m m' : mem) : Prop := {
  pt_root0 : ept_entry m' root 0 = if low then table_entry pdpt else 0;
  pt_root2 : ept_entry m' root 2 = table_entry pdpt;
  pt_root i : 0 ≤ i < 512 → i ≠ 0 → i ≠ 2 → ept_entry m' root i = ept_entry m root i;
  pt_pdpt i : 0 ≤ i < 512 → ept_entry m' pdpt i = table_entry (pds + i * PAGE_SIZE);
  pt_pds i j : 0 ≤ i < 512 → 0 ≤ j < 512 →
    ept_entry m' (pds + i * PAGE_SIZE) j = physical_entry (i * 512 + j);
  pt_other n p T i : (n < 3)%nat → tbl !! (n, p) = Some T → 0 ≤ i < 512 →
    ept_entry m' T i = ept_entry m T i;
}.

(** The translation with the windows. *)
Definition physical_page_entry (low : bool) (va : Z) (old : option (nat * Z)) : option (nat * Z) :=
  let w := va mod 2 ^ 48 in
  if w <? 2 ^ 39 then if low then Some (1%nat, physical_entry (w / 2 ^ 21)) else None
  else if (RKHV_PHYSICAL_MEMORY_BASE <=? w) && (w <? RKHV_PHYSICAL_MEMORY_BASE + 2 ^ 39)
       then Some (1%nat, physical_entry ((w - RKHV_PHYSICAL_MEMORY_BASE) / 2 ^ 21))
  else old.

(** Where the windows are. *)
Lemma physical_page_entry_window low pa w old :
  0 ≤ pa < 2 ^ 39 → (w = pa ∧ low = true) ∨ w = RKHV_PHYSICAL_MEMORY_BASE + pa →
  leaf_address w <$> physical_page_entry low w old = Some pa.
Proof.
  change RKHV_PHYSICAL_MEMORY_BASE with (2 ^ 40). unfold physical_page_entry.
  change RKHV_PHYSICAL_MEMORY_BASE with (2 ^ 40). intros Hpa [[-> ->]| ->].
  - rewrite (Z.mod_small pa (2 ^ 48)), (proj2 (Z.ltb_lt _ _)) by lia. cbn [fmap option_fmap option_map].
    f_equal. apply physical_entry_address; [done|]. apply Z.mod_small. lia.
  - rewrite (Z.mod_small (2 ^ 40 + pa) (2 ^ 48)), (proj2 (Z.ltb_ge _ _)), (proj2 (Z.leb_le _ _)), (proj2 (Z.ltb_lt _ _)) by lia.
    cbn [andb fmap option_fmap option_map]. replace (2 ^ 40 + pa - 2 ^ 40) with pa by lia.
    f_equal. apply physical_entry_address; [done|]. zlia.
Qed.
Lemma physical_page_entry_outside low w old :
  2 ^ 39 ≤ w mod 2 ^ 48 →
  ¬ (RKHV_PHYSICAL_MEMORY_BASE ≤ w mod 2 ^ 48 < RKHV_PHYSICAL_MEMORY_BASE + 2 ^ 39) →
  physical_page_entry low w old = old.
Proof.
  intros Hw Hout. unfold physical_page_entry. rewrite (proj2 (Z.ltb_ge _ _)) by done.
  destruct (Z.leb_spec RKHV_PHYSICAL_MEMORY_BASE (w mod 2 ^ 48)); [|done].
  by rewrite (proj2 (Z.ltb_ge _ _)) by lia.
Qed.

Lemma walk_leaf_S n m T w :
  walk_leaf (S n) m T w =
    let e := ept_entry m T (level_index (S n) w) in
    if entry_readable e then
      if entry_large (S n) e then Some (S n, e) else walk_leaf n m (entry_table e) w
    else None.
Proof. done. Qed.

Section walk.
Context (low : bool) (root pdpt pds : Z) (tbl : gmap (nat * Z) Z) (m m' : mem).
Context (Hpdpt : page_ok pdpt) (Hpds : ∀ i, 0 ≤ i < 512 → page_ok (pds + i * PAGE_SIZE)).

Lemma physical_walk_pdpt w :
  physical_tables low root pdpt pds tbl m m' → 0 ≤ w < 2 ^ 48 →
  walk_leaf 2 m' pdpt w = Some (1%nat, physical_entry ((w mod 2 ^ 39) / 2 ^ 21)).
Proof.
  intros [_ _ _ H2 H1 _] Hw. rewrite (walk_leaf_S 1). cbv zeta. pose proof (level_index_bound 2 w) as Hi2. pose proof (level_index_bound 1 w) as Hi1.
  rewrite H2, table_entry_readable, table_entry_large, table_entry_table by auto. rewrite (walk_leaf_S 0). cbv zeta. rewrite H1 by auto.
  assert (level_index 2 w * 512 + level_index 1 w = (w mod 2 ^ 39) / 2 ^ 21) as ->.
  { unfold level_index. change (level_shift 2) with 30. change (level_shift 1) with 21. zlia. }
  assert (0 ≤ (w mod 2 ^ 39) / 2 ^ 21 < 2 ^ 18) as Hj by zlia.
  by rewrite physical_entry_readable, physical_entry_large.
Qed.

Lemma physical_walk va :
  ept_tables_wf root tbl m → physical_tables low root pdpt pds tbl m m' →
  page_entry root va m' = physical_page_entry low va (page_entry root va m).
Proof.
  intros Ht Hpt. unfold page_entry, physical_page_entry. set (w := va mod 2 ^ 48).
  assert (0 ≤ w < 2 ^ 48) as Hw by (apply Z.mod_pos_bound; lia). clearbody w.
  pose proof (physical_walk_pdpt w Hpt Hw) as Hpd. pose proof Hpt as [H0 H2 Hi _ _ Ho].
  rewrite !(walk_leaf_S 2). cbv zeta.
  assert (level_index 3 w = w / 2 ^ 39) as Hidx.
  { unfold level_index. change (level_shift 3) with 39. apply Z.mod_small. zlia. }
  rewrite Hidx. change RKHV_PHYSICAL_MEMORY_BASE with (2 ^ 40).
  destruct (Z.ltb_spec w (2 ^ 39)) as [Hlow|Hlow].
  { rewrite (Z.div_small w), H0 by lia. destruct low; [|done].
    rewrite table_entry_readable, table_entry_large, table_entry_table by done. rewrite Hpd.
    by rewrite Z.mod_small by lia. }
  destruct (Z.leb_spec (2 ^ 40) w) as [Hge|Hlt]; cbn [andb].
  1: destruct (Z.ltb_spec w (2 ^ 40 + 2 ^ 39)) as [Hin|Hout].
  { replace (w / 2 ^ 39) with 2 by zlia. rewrite H2, table_entry_readable, table_entry_large, table_entry_table by done.
    rewrite Hpd. by replace (w mod 2 ^ 39) with (w - 2 ^ 40) by zlia. }
  all: rewrite Hi by zlia; destruct (entry_readable _) eqn:Hr; [|done]; change (entry_large 3 _) with false; cbv iota;
    apply (walk_leaf_frame root tbl m Ht m' 2); [intros n' p T i Hn'; apply Ho; lia|];
    rewrite <-Hidx in *; apply (walk_child_prefix _ _ _ Ht); [|done..];
    rewrite level_prefix_root by lia; apply (et_root _ _ _ Ht).
Qed.

End walk.

(** * The loops *)

Section loops.
Context `{HW : Hardware} `{FL : FirmwareLaws}.
Implicit Types (s : boot_machine).
Context (pdpt pds : Z) (Hpdpt : page_ok pdpt) (Hal : pds mod PAGE_SIZE = 0) (H0 : 0 ≤ pds).
Context (Hend : pds + 512 * PAGE_SIZE ≤ 2 ^ 39) (Hdisj : ¬ (pds ≤ pdpt < pds + 512 * PAGE_SIZE)).

(** The tables after [n] entries of the table of level 2 and [k] of those of level 1. *)
Record filled (n k : Z) (m m' : mem) : Prop := {
  fl_pdpt i : 0 ≤ i < n → ept_entry m' pdpt i = table_entry (pds + i * PAGE_SIZE);
  fl_pds j : 0 ≤ j < k → load_le 8 m' (pds + 8 * j) = physical_entry j;
  fl_outside a : ¬ (pdpt ≤ a < pdpt + PAGE_SIZE) → ¬ (pds ≤ a < pds + 512 * PAGE_SIZE) →
    load_byte m' a = load_byte m a;
}.

Lemma physical_tables_disjoint : pdpt + PAGE_SIZE ≤ pds ∨ pds + 512 * PAGE_SIZE ≤ pdpt.
Proof. destruct Hpdpt as [Hpa Hpb]. unfold PAGE_SIZE in *. zlia. Qed.

Lemma filled_pdpt n k m m' :
  filled n k m m' → 0 ≤ n < 512 → k ≤ 2 ^ 18 →
  filled (n + 1) k m (store_le 8 m' (pdpt + 8 * n) (table_entry (pds + n * PAGE_SIZE))).
Proof.
  intros [H2 H1 Ho] Hn Hk. pose proof physical_tables_disjoint. unfold PAGE_SIZE in *. split.
  - intros i Hi. unfold ept_entry. destruct (decide (i = n)) as [->|].
    + apply (load_store_same_small 8), next_table_entry_bound.
    + rewrite load_store_other by lia. apply H2. lia.
  - intros j Hj. rewrite load_store_other; [by apply H1|]. lia.
  - intros a Ha1 Ha2. unfold PAGE_SIZE in *. rewrite load_byte_store_other by lia. by apply Ho.
Qed.

Lemma filled_pds n k m m' :
  filled n k m m' → 0 ≤ k < 2 ^ 18 → n ≤ 512 →
  filled n (k + 1) m (store_le 8 m' (pds + 8 * k) (physical_entry k)).
Proof.
  intros [H2 H1 Ho] Hk Hn. pose proof physical_tables_disjoint. unfold PAGE_SIZE in *. split.
  - intros i Hi. unfold ept_entry. rewrite load_store_other; [by apply H2|]. lia.
  - intros j Hj. destruct (decide (j = k)) as [->|].
    + by apply (load_store_same_small 8), physical_entry_bound.
    + rewrite load_store_other by lia. apply H1. lia.
  - intros a Ha1 Ha2. unfold PAGE_SIZE in *. rewrite load_byte_store_other by lia. by apply Ho.
Qed.

Lemma wp_fill_physical E (Q : () → boot_machine → Prop) s :
  (∀ m', filled 512 (2 ^ 18) (b_mem s) m' → Q () (s <| b_mem := m' |>)) →
  wp (mfor PAGE_TABLE_ENTRIES (λ pdpt_index,
    let pd_base := pdpt_index * PAGE_TABLE_ENTRIES in
    boot_store 8 (table_ptr pdpt pdpt_index)
      (Z.lor (Z.lor PDPTE_PRESENT PDPTE_READ_WRITE)
             (Z.land (table_ptr pds pd_base) PDPTE_PHYSICAL_ADDRESS_PD));;
    mfor PAGE_TABLE_ENTRIES (λ pd_index,
      boot_store 8 (table_ptr pds (pd_base + pd_index))
        (Z.lor (Z.lor (Z.lor PDE_PRESENT PDE_READ_WRITE) PDE_PAGE_SIZE)
               (Z.land (u64 (Z.shiftl (pd_base + pd_index) LINEAR_ADDRESS_D_SHIFT)) PDE_PHYSICAL_ADDRESS_PAGE))))) E Q s.
Proof.
  intros HQ. change PAGE_TABLE_ENTRIES with 512.
  assert (∀ k, 0 ≤ k < 2 ^ 18 → table_ptr pds k = pds + 8 * k) as Hptr.
  { intros k Hk. unfold table_ptr. apply wrap_small. unfold PAGE_SIZE in *. lia. }
  eapply wp_post; [eapply (wp_for (λ i s', ∃ m', s' = s <| b_mem := m' |> ∧ filled i (i * 512) (b_mem s) m')); [lia| |]|].
  - exists (b_mem s). split; [by destruct s|]. split; [lia..|done].
  - intros i s' Hi (m1 & -> & Hf). cbv zeta. wp_step. apply wp_modify.
    rewrite table_ptr_small, Hptr by (done || lia).
    eapply wp_post; [eapply (wp_for (λ l s', ∃ m', s' = s <| b_mem := m' |> ∧ filled (i + 1) (i * 512 + l) (b_mem s) m')); [lia| |]|].
    + eexists. split; [reflexivity|]. cbn [b_mem upd set_b_mem]. rewrite Z.add_0_r.
      replace (pds + 8 * (i * 512)) with (pds + i * PAGE_SIZE) by (unfold PAGE_SIZE; lia).
      apply filled_pdpt; [done|lia..].
    + intros l s' Hl (m2 & -> & Hf2). apply wp_modify. rewrite Hptr by lia.
      eexists. split; [reflexivity|]. cbn [b_mem upd set_b_mem].
      rewrite Z.add_assoc. apply filled_pds; [done|lia..].
    + intros [] s' (m2 & -> & Hf2). exists m2. split; [done|]. by replace ((i + 1) * 512) with (i * 512 + 512) by lia.
  - intros [] s' (m' & -> & Hf). by apply HQ.
Qed.

(** The memory at the end of [paging_map_physical]. *)
Lemma physical_tables_filled root tbl m m' :
  ept_tables_wf root tbl m → (∀ k, tbl !! k ≠ Some pdpt) →
  (∀ p k, run_page pds 512 p → tbl !! k ≠ Some p) →
  filled 512 (2 ^ 18)
    (store_le 8 (store_le 8 m (root + 8 * 0) (table_entry pdpt)) (root + 8 * 2) (table_entry pdpt)) m' →
  physical_tables true root pdpt pds tbl m m' ∧
  ∀ a, ¬ (root ≤ a < root + PAGE_SIZE) → ¬ (pdpt ≤ a < pdpt + PAGE_SIZE) →
    ¬ (pds ≤ a < pds + 512 * PAGE_SIZE) → load_byte m' a = load_byte m a.
Proof.
  intros Ht Hn1 Hn2 Hfl. set (m4 := store_le 8 _ (root + 8 * 2) _) in Hfl.
  pose proof (et_root _ _ _ Ht) as Hroot. pose proof (et_page _ _ _ Ht _ _ Hroot) as Hrok.
  assert (∀ k T, tbl !! k = Some T → ∀ i, 0 ≤ i < 512 → ept_entry m' T i = ept_entry m4 T i) as Htbl.
  { intros k T HT i Hi. pose proof (et_page _ _ _ Ht _ _ HT) as Hok. apply ept_entry_ext; [done|].
    intros a Ha. apply (fl_outside _ _ _ _ Hfl).
    - apply (page_ok_disjoint T pdpt a); try done. intros ->. by apply (Hn1 k).
    - intros Ha'. apply (Hn2 T k); [|done]. by eapply run_page_byte. }
  assert (∀ k T i, tbl !! k = Some T → 0 ≤ i < 512 → T ≠ root → ept_entry m4 T i = ept_entry m T i) as Hm4.
  { intros k T i HT Hi Hne. pose proof (et_page _ _ _ Ht _ _ HT) as [Hok1 Hok2]. destruct Hrok as [Hr1 Hr2].
    unfold m4, ept_entry, PAGE_SIZE in *.
    assert (T + 4096 ≤ root ∨ root + 4096 ≤ T) by zlia. by rewrite !load_store_other by lia. }
  split; [split|].
  - rewrite (Htbl _ _ Hroot) by lia. unfold m4, ept_entry. rewrite load_store_other by lia.
    apply (load_store_same_small 8), next_table_entry_bound.
  - rewrite (Htbl _ _ Hroot) by lia. apply (load_store_same_small 8), next_table_entry_bound.
  - intros i Hi H0' H2'. rewrite (Htbl _ _ Hroot) by lia. unfold m4, ept_entry. by rewrite !load_store_other by lia.
  - intros i Hi. by apply (fl_pdpt _ _ _ _ Hfl).
  - intros i j Hi Hj. unfold ept_entry, PAGE_SIZE. replace (pds + i * 0x1000 + 8 * j) with (pds + 8 * (i * 512 + j)) by lia.
    apply (fl_pds _ _ _ _ Hfl). lia.
  - intros n p T i Hn HT Hi. rewrite (Htbl _ _ HT) by done. apply (Hm4 _ _ _ HT Hi). intros ->.
    pose proof (et_inj _ _ _ Ht _ _ _ HT Hroot) as [= -> _]. lia.
  - intros a Ha1 Ha2 Ha3. rewrite (fl_outside _ _ _ _ Hfl) by done. unfold m4, PAGE_SIZE in *.
    by rewrite !load_byte_store_other by lia.
Qed.

End loops.

(** * paging_map_physical *)

Section map_physical.
Context `{HW : Hardware} `{FL : FirmwareLaws}.
Implicit Types (s : boot_machine) (tbl : gmap (nat * Z) Z).

(** The tables translate as [old] does, apart from the windows, and are recorded. *)
Record physical_inv (low : bool) (root : Z) (old : Z → option (nat * Z)) s : Prop := {
  ph_tables : ∃ tbl m pdpt pds,
    ept_tables_wf root tbl m ∧ (∀ va, page_entry root va m = old va) ∧
    physical_tables low root pdpt pds tbl m (b_mem s) ∧
    (page_ok pdpt ∧ pool_page s pdpt ∧ pdpt ≠ root) ∧
    (∀ i, 0 ≤ i < 512 → page_ok (pds + i * PAGE_SIZE) ∧ pool_page s (pds + i * PAGE_SIZE) ∧ pds + i * PAGE_SIZE ≠ root) ∧
    ∀ k T, tbl !! k = Some T → pool_page s T;
  ph_wf : pool_wf s;
}.

Lemma physical_inv_entry low root old s va :
  physical_inv low root old s → page_entry root va (b_mem s) = physical_page_entry low va (old va).
Proof.
  intros [(tbl & m & pdpt & pds & Ht & Hold & Hpt & (Hok & _) & Hpds & _) _].
  rewrite <-Hold. apply (physical_walk _ _ pdpt pds tbl); [done|by intros i Hi; apply Hpds|done..].
Qed.

(** Memory that keeps the recorded pages keeps the tables. *)
Lemma physical_inv_ext low root old s m' :
  physical_inv low root old s →
  (∀ p a, pool_page s p → p ≤ a < p + PAGE_SIZE → load_byte m' a = load_byte (b_mem s) a) →
  physical_inv low root old (s <| b_mem := m' |>).
Proof.
  intros [(tbl & m & pdpt & pds & Ht & Hold & Hpt & Hpdpt & Hpds & Hpool) Hwf] Hm.
  split; [|by apply pool_wf_mem]. exists tbl, m, pdpt, pds.
  split; [exact Ht|]. split; [exact Hold|]. split; [|split; [exact Hpdpt|split; [exact Hpds|exact Hpool]]].
  assert (∀ p i, pool_page s p → 0 ≤ i < 512 → ept_entry m' p i = ept_entry (b_mem s) p i) as He.
  { intros p i Hp Hi. apply ept_entry_ext; [done|]. intros a. by apply Hm. }
  assert (pool_page s root) as Hroot by (eapply Hpool, (et_root _ _ _ Ht)).
  destruct Hpt as [H0 H2 Hi H1 Hd Ho]. split; cbn [b_mem upd set_b_mem].
  - by rewrite He.
  - by rewrite He.
  - intros i ???. rewrite He by done. auto.
  - intros i ?. rewrite He by (done || apply Hpdpt). auto.
  - intros i j ??. rewrite He by (done || by apply Hpds). auto.
  - intros n p T i ???. rewrite He by (done || by eapply Hpool). eauto.
Qed.

Lemma wp_paging_map_physical root tbl E (Q : Z + () → boot_machine → Prop) s :
  paging_inv root tbl s →
  (∀ status s', EFI_ERROR status = true → paging_inv root tbl s' → boot_frame s s' →
     entries_kept root s s' → Q (inl status) s') →
  (∀ s', physical_inv true root (λ va, page_entry root va (b_mem s)) s' → boot_frame s s' →
     entry_readable (ept_entry (b_mem s) root 0) = false → Q (inr ()) s') →
  wp (paging_map_physical root) E Q s.
Proof.
  intros Hinv HQe HQ. unfold paging_map_physical.
  pose proof (et_page _ _ _ (pi_tables _ _ _ Hinv) _ _ (et_root _ _ _ (pi_tables _ _ _ Hinv))) as Hroot.
  do 2 efi_step. rewrite table_ptr_small by (done || lia). fold (ept_entry (b_mem s) root 0).
  change (truthy (Z.land (ept_entry (b_mem s) root 0) PML4E_PRESENT)) with (entry_readable (ept_entry (b_mem s) root 0)).
  destruct (entry_readable _) eqn:Hr.
  { efi_step. by apply HQe; [apply EFI_out_of_resources_error|..]. }
  efi_step. apply wp_paging_allocate_page; [apply Hinv|lia| |].
  { intros status s' Herr Hwf' Hf Hm Hp. destruct (paging_inv_same root tbl s s') as [Hi' Hk']; auto. }
  intros pdpt s1 Hal1 Hpos1 Hb1 Hwf1 Hf1 Hnew1 Hpp1 Hm1.
  destruct (paging_inv_allocated root tbl s s1 pdpt 1 Hinv Hwf1 Hf1 Hal1 Hnew1 Hm1) as (Hinv1 & Hk1 & Hpage1).
  efi_step. apply (wp_paging_allocate_page PAGE_TABLE_ENTRIES); [exact Hwf1|change PAGE_TABLE_ENTRIES with 512; lia| |].
  { intros status s' Herr Hwf' Hf Hm Hp. destruct (paging_inv_same root tbl s1 s') as [Hi' Hk']; auto.
    apply HQe; [done|done|by etrans..]. }
  intros pds s2 Hal2 Hpos2 Hb2 Hwf2 Hf2 Hnew2 Hpp2 Hm2. change PAGE_TABLE_ENTRIES with 512 in * |-.
  destruct (paging_inv_allocated root tbl s1 s2 pds 512 Hinv1 Hwf2 Hf2 Hal2 Hnew2 Hm2) as (Hinv2 & Hk2 & Hpage2).
  assert (run_page pdpt 1 pdpt) as Hrun1 by (exists 0; lia).
  assert (page_ok pdpt) as Hok1 by (apply (run_page_ok pdpt 1); [exact Hal1|lia|lia|exact Hrun1]).
  assert (∀ i, 0 ≤ i < 512 → run_page pds 512 (pds + i * PAGE_SIZE)) as Hrun2 by (intros i Hi; exists i; split; [exact Hi|reflexivity]).
  assert (pool_page s1 pdpt) as Hp1 by (apply Hpp1; right; exact Hrun1).
  assert (¬ (pds ≤ pdpt < pds + 512 * PAGE_SIZE)) as Hdisj.
  { intros H. apply (Hnew2 pdpt); [|by apply (pw_allocated _ Hwf1)].
    refine (run_page_byte pds 512 pdpt pdpt Hal2 Hok1 _ H). clear. unfold PAGE_SIZE. lia. }
  change (LINEAR_ADDRESS_GET_PML4 0) with 0. change (LINEAR_ADDRESS_GET_PML4 RKHV_PHYSICAL_MEMORY_BASE) with 2.
  rewrite (table_ptr_small root 0), (table_ptr_small root 2) by (exact Hroot || lia). do 6 efi_step.
  apply (wp_fill_physical pdpt pds); [assumption..|]. intros m' Hfl. efi_step.
  cbn [b_mem upd set_b_mem] in Hfl.
  destruct (physical_tables_filled pdpt pds) with (root := root) (tbl := tbl) (m := b_mem s2) (m' := m') as [Hpt Hout];
    [assumption..|apply Hinv2|by apply (Hpage1 pdpt)|by intros p k Hp; apply Hpage2|exact Hfl|].
  assert (boot_frame s s2) as Hf by (etrans; [exact Hf1|exact Hf2]).
  assert (∀ k T, tbl !! k = Some T → pool_page s T) as Hpool by apply Hinv.
  assert (∀ p, pool_page s p ∨ p = pdpt ∨ run_page pds 512 p → pool_page s2 p) as Hpool2.
  { intros p [Hp|[->|Hp]]; apply Hpp2; [left; apply Hpp1; by left|by left|by right]. }
  pose proof (et_root _ _ _ (pi_tables _ _ _ Hinv)) as Hrt.
  apply HQ; [|..|reflexivity].
  - split; [|by apply (pool_wf_mem s2)]. exists tbl, (b_mem s2), pdpt, pds.
    split; [apply Hinv2|]. split; [intros va; exact (eq_trans (Hk2 va) (Hk1 va))|]. split; [exact Hpt|].
    split; [|split].
    + split; [exact Hok1|split]; [apply Hpool2; right; left; reflexivity|].
      intros Heq. apply (proj2 (Hpage1 pdpt Hrun1) (3%nat, 0)). rewrite Heq. exact Hrt.
    + intros i Hi. split; [by apply (run_page_ok pds 512); auto|split]; [apply Hpool2; auto|].
      intros Heq. apply (proj2 (Hpage2 _ (Hrun2 i Hi)) (3%nat, 0)). by rewrite Heq.
    + intros k T HT. apply Hpool2. left. by eapply Hpool.
  - apply (boot_frame_mem s s2); [exact Hf|]. intros p a Hok Ha Hn Hin.
    rewrite Hout; [by apply (bf_mem _ _ Hf p)|..].
    + apply (page_ok_disjoint p root a); [done..| |done]. intros ->. by eapply Hn, Hpool.
    + apply (page_ok_disjoint p pdpt a); [done..| |done]. intros ->. by apply (Hnew1 pdpt).
    + intros Hin'. apply (Hnew2 p); [exact (run_page_byte pds 512 p a Hal2 Hok Hin Hin')|]. by apply (bf_allocated _ _ Hf1).
Qed.

End map_physical.

(** C17: [paging_map_physical] fails when the first entry of the root is used, or when memory
    runs out, and then no translation changes. Otherwise every physical address of the first
    512 GiB is mapped to itself and at [RKHV_PHYSICAL_MEMORY_BASE]; the other translations are
    kept; and the translations only depend on pages that are recorded for the hypervisor. *)
Theorem paging_map_physical_correct `{HW : Hardware} `{FL : FirmwareLaws} (root : Z) tbl s
    (Hinv : paging_inv root tbl s) :
  ∃ r s', paging_map_physical root s = Ok (r, s') ∧ boot_frame s s' ∧ pool_wf s' ∧
    match r with
    | inl status => EFI_ERROR status = true ∧ entries_kept root s s'
    | inr () =>
      entry_readable (ept_entry (b_mem s) root 0) = false ∧
      (∀ pa w, 0 ≤ pa < 2 ^ 39 → w = pa ∨ w = RKHV_PHYSICAL_MEMORY_BASE + pa →
         leaf_address w <$> page_entry root w (b_mem s') = Some pa) ∧
      (∀ w, 2 ^ 39 ≤ w mod 2 ^ 48 →
         ¬ (RKHV_PHYSICAL_MEMORY_BASE ≤ w mod 2 ^ 48 < RKHV_PHYSICAL_MEMORY_BASE + 2 ^ 39) →
         page_entry root w (b_mem s') = page_entry root w (b_mem s)) ∧
      ∀ m' w, (∀ p a, pool_page s' p → p ≤ a < p + PAGE_SIZE → load_byte m' a = load_byte (b_mem s') a) →
        page_entry root w m' = page_entry root w (b_mem s')
    end.
Proof.
  assert (wp (paging_map_physical root) (λ _, False) (λ r s', boot_frame s s' ∧ pool_wf s' ∧
    match r with
    | inl status => EFI_ERROR status = true ∧ entries_kept root s s'
    | inr () => entry_readable (ept_entry (b_mem s) root 0) = false ∧
                physical_inv true root (λ va, page_entry root va (b_mem s)) s'
    end) s) as H.
  { apply (wp_paging_map_physical root tbl); [done|by intros status s' ? [? ? ?] ? ?|]. intros s' Hph Hf Hr.
    split; [done|]. split; [apply Hph|done]. }
  unfold wp in H. destruct (paging_map_physical root s) as [[r s']| | | |]; try done.
  destruct H as (Hf & Hwf & H). exists r, s'. split; [done|]. split; [done|]. split; [done|].
  destruct r as [status|[]]; [done|]. destruct H as [Hr Hph]. split; [done|].
  pose proof (λ w, physical_inv_entry _ _ _ _ w Hph) as He. cbn beta in He. split; [|split].
  - intros pa w Hpa Hw. rewrite He. apply physical_page_entry_window; [done|]. destruct Hw; auto.
  - intros w Hw Hout. rewrite He. by apply physical_page_entry_outside.
  - intros m' w Hm. rewrite He. exact (physical_inv_entry _ _ _ _ w (physical_inv_ext _ _ _ _ m' Hph Hm)).
Qed.

(** Witness: the tables are built over an empty root. *)
Lemma paging_map_physical_correct_witness :
  ∃ r s', paging_map_physical 0 boot_root = Ok (r, s') ∧ pool_wf s' ∧
    match r with
    | inl status => EFI_ERROR status = true
    | inr () => leaf_address 0x10000345678 <$> page_entry 0 0x10000345678 (b_mem s') = Some 0x345678
    end.
Proof.
  destruct (paging_map_physical_correct 0 _ boot_root boot_root_inv) as (r & s' & H & _ & Hwf & Hr).
  exists r, s'. split; [exact H|]. split; [exact Hwf|]. destruct r as [status|[]]; [apply Hr|].
  destruct Hr as (_ & Hw & _). apply (Hw 0x345678 0x10000345678); [lia|by right].
Defined.
