(* ===== verification/BootMmap.v ===== *)
(** Correctness of the memory map that the boot loader leaves for the hypervisor (the last loop
    of [efi_main], boot/src/main.c).

    [merge_runs] is the reference: consecutive descriptors of adjacent memory that are both
    usable, or both not, become one. [convert_mmap] computes it up to the size of the table,
    and the table satisfies what the page allocator of the hypervisor relies on. *)
From S2P Require Import Prelude Memory Machine PageUse PageAllocator BootFirmware BootMain SimpleFirmware.

(** * The reference *)

Section mmap.
Context `{HW : Hardware} `{FL : FirmwareLaws}.
Implicit Types (d : EFI_MEMORY_DESCRIPTOR) (r : chainload_mmap_desc_t).

Definition run_of d : chainload_mmap_desc_t :=
  mk_mmap_desc (PhysicalStart d) (NumberOfPages d) (efi_usable (Type_ d)).
Definition run_end r : Z := md_physical_address r + md_pages r * PAGE_SIZE.
Definition run_extends r d : bool :=
  eqb (md_usable r) (efi_usable (Type_ d)) && (run_end r =? PhysicalStart d).

Fixpoint merge_from r (l : list EFI_MEMORY_DESCRIPTOR) : list chainload_mmap_desc_t :=
  match l with
  | [] => [r]
  | d :: l =>
    if run_extends r d then merge_from (r <| md_pages := md_pages r + NumberOfPages d |>) l
    else r :: merge_from (run_of d) l
  end.
Definition merge_runs (l : list EFI_MEMORY_DESCRIPTOR) : list chainload_mmap_desc_t :=
  match l with [] => [] | d :: l => merge_from (run_of d) l end.

(** The runs that fit, in the first entries of the table. *)
Definition table_of (runs out : list chainload_mmap_desc_t) : list chainload_mmap_desc_t :=
  take (Z.to_nat RKHV_MAX_EFI_MMAP_DESCRIPTORS) runs ++ drop (length runs) out.

Definition run_wf r : Prop :=
  md_physical_address r mod PAGE_SIZE = 0 ∧ 0 ≤ md_physical_address r ∧ 0 ≤ md_pages r ∧ run_end r ≤ 2 ^ 52.

Lemma run_of_wf d : efi_descriptor_wf d → run_wf (run_of d).
Proof. done. Qed.

Lemma run_extends_wf r d :
  run_wf r → efi_descriptor_wf d → run_extends r d = true →
  run_wf (r <| md_pages := md_pages r + NumberOfPages d |>).
Proof.
  unfold run_wf, efi_descriptor_wf, run_end. cbn. intros (? & ? & ? & ?) (? & ? & ? & ?).
  unfold run_extends, run_end. intros [_ Heq%Z.eqb_eq]%andb_prop. split_and!; lia.
Qed.

(** The test of the loop, without the widths. *)
Lemma run_extends_code r d :
  run_wf r →
  eqb (md_usable r) (efi_usable (Type_ d)) &&
    (u64 (md_physical_address r + u64 (md_pages r * EFI_PAGE_SIZE)) =? PhysicalStart d) = run_extends r d.
Proof.
  unfold run_wf, run_end. intros (? & ? & ? & ?). unfold run_extends, run_end.
  rewrite EFI_PAGE_SIZE_eq. unfold PAGE_SIZE in *.
  rewrite (wrap_small 64 (md_pages r * 0x1000)), wrap_small by lia. done.
Qed.

Lemma merge_from_cons r l : ∃ r' l', merge_from r l = r' :: l'.
Proof.
  revert r. induction l as [|d l IH]; intros r; cbn; [by exists r, []|].
  case_match; [apply IH|by eexists _, _].
Qed.

(** Only the entries after the first [length pre + 1] of the old table are read. *)
Lemma table_of_middle pre runs y z rest :
  runs ≠ [] → table_of (pre ++ runs) (pre ++ y :: rest) = table_of (pre ++ runs) (pre ++ z :: rest).
Proof.
  intros Hne. destruct runs as [|x l]; [done|]. unfold table_of. f_equal.
  rewrite length_app. by rewrite !drop_app_add'.
Qed.

Lemma convert_mmap_from descs r pre rest i :
  0 < i → length (pre ++ r :: rest) = 231%nat → run_wf r → Forall efi_descriptor_wf descs →
  convert_mmap descs i (Z.of_nat (length pre)) (pre ++ r :: rest) =
    Ok (table_of (pre ++ merge_from r descs) (pre ++ r :: rest)).
Proof.
  revert r pre rest i. induction descs as [|d descs IH]; intros r pre rest i Hi Hlen Hr Hwf;
    pose proof Hlen as Hlen'; rewrite length_app in Hlen'; cbn [length] in Hlen'; cbn [convert_mmap merge_from].
  { unfold table_of. change (Z.to_nat RKHV_MAX_EFI_MMAP_DESCRIPTORS) with 231%nat.
    rewrite take_ge by (rewrite length_app; cbn; lia).
    rewrite length_app, drop_app_add' by done. cbn. by rewrite <-app_assoc. }
  apply Forall_cons in Hwf as [Hd Hwf].
  rewrite Nat2Z.id, list_lookup_middle by done. rewrite (proj2 (Z.eqb_neq i 0)) by lia. cbn [negb andb].
  rewrite (run_extends_code r d Hr). destruct (run_extends r d) eqn:He.
  - pose proof (run_extends_wf r d Hr Hd He) as Hr'.
    assert (wrap 63 (md_pages r + NumberOfPages d) = md_pages r + NumberOfPages d) as ->.
    { apply wrap_small. unfold run_wf, run_end in Hr'. cbn in Hr'. unfold PAGE_SIZE in Hr'. lia. }
    rewrite insert_app_r_alt, Nat.sub_diag by done. cbn [insert list_insert].
    rewrite IH; [|lia|by rewrite length_app in *|done|done].
    f_equal. apply table_of_middle. destruct (merge_from_cons (r <| md_pages := md_pages r + NumberOfPages d |>) descs) as (? & ? & ->). done.
  - destruct (Z.leb_spec RKHV_MAX_EFI_MMAP_DESCRIPTORS (Z.of_nat (length pre) + 1)) as [Hfull|Hroom];
      [change RKHV_MAX_EFI_MMAP_DESCRIPTORS with 231 in Hfull|change RKHV_MAX_EFI_MMAP_DESCRIPTORS with 231 in Hroom].
    + assert (rest = []) as -> by (destruct rest; cbn in *; [done|lia]).
      unfold table_of. change (Z.to_nat RKHV_MAX_EFI_MMAP_DESCRIPTORS) with 231%nat.
      rewrite take_app_ge by lia. replace (231 - length pre)%nat with 1%nat by lia. cbn [take].
      rewrite drop_ge by (rewrite !length_app; cbn; lia). by rewrite app_nil_r.
    + destruct rest as [|r0 rest]; [cbn in *; lia|].
      rewrite (wrap_small 63 (NumberOfPages d)) by (unfold efi_descriptor_wf, PAGE_SIZE in Hd; lia).
      rewrite !(cons_middle r), !app_assoc.
      replace (Z.of_nat (length pre) + 1) with (Z.of_nat (length (pre ++ [r]))) by (rewrite length_app; cbn; lia).
      rewrite Nat2Z.id, insert_app_r_alt, Nat.sub_diag by done. cbn [insert list_insert].
      change (mk_mmap_desc _ _ _) with (run_of d).
      rewrite (IH (run_of d) (pre ++ [r]) rest (i + 1)); [|lia| |by apply run_of_wf|done].
      * f_equal. apply table_of_middle. by destruct (merge_from_cons (run_of d) descs) as (? & ? & ->).
      * rewrite !length_app. cbn in *. lia.
Qed.

Definition out_zero : list chainload_mmap_desc_t := efi_mmap_usable zero_chainload_page.

Lemma convert_mmap_table descs :
  Forall efi_descriptor_wf descs → convert_mmap descs 0 0 out_zero = Ok (table_of (merge_runs descs) out_zero).
Proof.
  intros Hwf. destruct descs as [|d descs]; [done|]. apply Forall_cons in Hwf as [Hd Hwf].
  change out_zero with ([] ++ mk_mmap_desc 0 0 false :: replicate 230 (mk_mmap_desc 0 0 false)).
  cbn [convert_mmap merge_runs]. cbn [app lookup list_lookup Z.to_nat Z.eqb negb andb].
  change (RKHV_MAX_EFI_MMAP_DESCRIPTORS <=? 0) with false. cbv iota. cbn [insert list_insert].
  rewrite (wrap_small 63 (NumberOfPages d)) by (unfold efi_descriptor_wf, PAGE_SIZE in Hd; lia).
  change (mk_mmap_desc _ _ (efi_usable _)) with (run_of d).
  refine (eq_trans (convert_mmap_from descs (run_of d) [] (replicate 230 (mk_mmap_desc 0 0 false)) (0 + 1) _ _ _ _) _);
    [lia|done|by apply run_of_wf|done|].
  f_equal. apply (table_of_middle []). by destruct (merge_from_cons (run_of d) descs) as (? & ? & ->).
Qed.

(** The pages of a run, of the runs and of the descriptors that are usable or not. *)
Definition runs_page (u : bool) (l : list chainload_mmap_desc_t) (p : Z) : Prop :=
  Exists (λ r, md_usable r = u ∧ run_page (md_physical_address r) (md_pages r) p) l.
Definition efi_page (u : bool) (l : list EFI_MEMORY_DESCRIPTOR) (p : Z) : Prop :=
  Exists (λ d, efi_usable (Type_ d) = u ∧ run_page (PhysicalStart d) (NumberOfPages d) p) l.

Lemma merge_from_pages u r descs p :
  run_wf r → Forall efi_descriptor_wf descs →
  runs_page u (merge_from r descs) p ↔
  (md_usable r = u ∧ run_page (md_physical_address r) (md_pages r) p) ∨ efi_page u descs p.
Proof.
  unfold runs_page, efi_page. revert r. induction descs as [|d descs IH]; intros r Hr Hwf; cbn [merge_from].
  { rewrite Exists_cons, !Exists_nil. done. }
  apply Forall_cons in Hwf as [Hd Hwf]. rewrite (Exists_cons _ d).
  destruct (run_extends r d) eqn:He.
  - rewrite IH by (done || by apply run_extends_wf). cbn. pose proof He as [Hu Heq%Z.eqb_eq]%andb_prop.
    apply eqb_prop in Hu. unfold run_end in Heq. destruct Hr as (_ & _ & Hr & _), Hd as (_ & _ & Hd & _).
    rewrite run_page_app, Heq, Hu by done. tauto.
  - rewrite Exists_cons, IH by (done || by apply run_of_wf). done.
Qed.

Lemma merge_runs_pages u descs p :
  Forall efi_descriptor_wf descs → runs_page u (merge_runs descs) p ↔ efi_page u descs p.
Proof.
  destruct descs as [|d descs]; cbn [merge_runs]; [unfold runs_page, efi_page; by rewrite !Exists_nil|].
  intros [Hd Hwf]%Forall_cons. rewrite merge_from_pages by (done || by apply run_of_wf).
  unfold efi_page. rewrite Exists_cons. done.
Qed.

Lemma merge_from_wf r descs : run_wf r → Forall efi_descriptor_wf descs → Forall run_wf (merge_from r descs).
Proof.
  revert r. induction descs as [|d descs IH]; intros r Hr Hwf; cbn [merge_from]; [by constructor|].
  apply Forall_cons in Hwf as [Hd Hwf]. case_match; [apply IH; [by apply run_extends_wf|done]|].
  constructor; [done|]. apply IH; [by apply run_of_wf|done].
Qed.
Lemma merge_runs_wf descs : Forall efi_descriptor_wf descs → Forall run_wf (merge_runs descs).
Proof.
  destruct descs as [|d descs]; [by constructor|]. intros [Hd Hwf]%Forall_cons.
  apply merge_from_wf; [by apply run_of_wf|done].
Qed.

(** Runs that follow each other could not be one. *)
Lemma merge_from_maximal r descs i r1 r2 :
  merge_from r descs !! i = Some r1 → merge_from r descs !! S i = Some r2 →
  ¬ (md_usable r1 = md_usable r2 ∧ run_end r1 = md_physical_address r2).
Proof.
  revert r i. induction descs as [|d descs IH]; intros r i; cbn [merge_from]; [by destruct i|].
  destruct (run_extends r d) eqn:He; [apply IH|]. destruct i as [|i]; [|apply IH].
  cbn. intros [= <-] H2. assert (md_usable r2 = efi_usable (Type_ d) ∧ md_physical_address r2 = PhysicalStart d) as [-> ->].
  { revert H2. change (PhysicalStart d) with (md_physical_address (run_of d)).
    change (efi_usable (Type_ d)) with (md_usable (run_of d)). generalize (run_of d) as q. clear.
    induction descs as [|d descs IH]; intros q; cbn [merge_from]; [by intros [= <-]|].
    case_match; [|by intros [= <-]]. intros H2. by apply IH in H2. }
  intros [Hu Heq]. unfold run_extends in He. by rewrite Hu, Heq, eqb_reflx, Z.eqb_refl in He.
Qed.

(** The first run starts at the first descriptor and holds it. *)
Lemma merge_from_head r descs : Forall efi_descriptor_wf descs →
  ∃ n l, merge_from r descs = r <| md_pages := n |> :: l ∧ md_pages r ≤ n.
Proof.
  revert r. induction descs as [|d descs IH]; intros r Hwf; cbn [merge_from].
  { exists (md_pages r), []. by destruct r. }
  apply Forall_cons in Hwf as [(_ & _ & Hd & _) Hwf]. destruct (run_extends r d).
  - destruct (IH (r <| md_pages := md_pages r + NumberOfPages d |>) Hwf) as (n & l & -> & Hn).
    exists n, l. cbn in *. split; [done|lia].
  - exists (md_pages r), (merge_from (run_of d) descs). by destruct r.
Qed.

(** The table entry by entry. *)
Lemma table_of_lookup runs i r :
  table_of runs out_zero !! i = Some r → r = mk_mmap_desc 0 0 false ∨ r ∈ runs.
Proof.
  unfold table_of. rewrite lookup_app. destruct (take _ runs !! i) as [r'|] eqn:Hr.
  - intros [= <-]. right. apply list_elem_of_lookup_2 in Hr. by eapply subseteq_take.
  - intros Hd%list_elem_of_lookup_2%subseteq_drop. left. unfold out_zero in Hd. cbn -[replicate] in Hd.
    by apply elem_of_replicate in Hd as [-> _].
Qed.

Lemma table_of_length runs : length (table_of runs out_zero) = 231%nat.
Proof.
  unfold table_of. rewrite length_app, length_take, length_drop.
  change (length out_zero) with 231%nat. change (Z.to_nat RKHV_MAX_EFI_MMAP_DESCRIPTORS) with 231%nat. lia.
Qed.

(** What the table says is usable was usable for the firmware. *)
Lemma table_usable_page descs p :
  Forall efi_descriptor_wf descs → runs_page true (table_of (merge_runs descs) out_zero) p → efi_page true descs p.
Proof.
  intros Hwf (r & Hr & Hu & Hp)%Exists_exists. apply merge_runs_pages; [done|].
  apply list_elem_of_lookup_1 in Hr as [i Hr]. apply table_of_lookup in Hr as [->|Hr]; [done|].
  apply Exists_exists. by exists r.
Qed.

(** Usable memory is in the first 512 GiB. *)
Definition descriptor_low d : Prop :=
  efi_usable (Type_ d) = true → PhysicalStart d + NumberOfPages d * PAGE_SIZE ≤ 2 ^ 39.
Definition run_low r : Prop := md_usable r = true → run_end r ≤ 2 ^ 39.

Lemma merge_from_low r descs : run_low r → Forall descriptor_low descs → Forall run_low (merge_from r descs).
Proof.
  revert r. induction descs as [|d descs IH]; intros r Hr Hwf; cbn [merge_from]; [by constructor|].
  apply Forall_cons in Hwf as [Hd Hwf]. destruct (run_extends r d) eqn:He.
  - apply IH; [|done]. apply andb_prop in He as [Hu%eqb_prop Heq%Z.eqb_eq].
    unfold run_low, run_end, descriptor_low in *. cbn. rewrite Hu. intros H. specialize (Hd H). lia.
  - constructor; [done|]. by apply IH.
Qed.
Lemma merge_runs_low descs : Forall descriptor_low descs → Forall run_low (merge_runs descs).
Proof. destruct descs as [|d descs]; [by constructor|]. intros [Hd Hl]%Forall_cons. by apply merge_from_low. Qed.

(** When the memory of the first descriptor is usable and all of the usable memory is in the
    window, the table is one that the page allocator of the hypervisor can work with. *)
Lemma table_mmap_wf d descs :
  Forall efi_descriptor_wf (d :: descs) → Forall descriptor_low (d :: descs) →
  efi_usable (Type_ d) = true → 0 < NumberOfPages d →
  mmap_wf (table_of (merge_runs (d :: descs)) out_zero).
Proof.
  intros Hwf Hlow Hu Hn. pose proof Hwf as [Hd Hwf']%Forall_cons.
  pose proof (merge_runs_wf _ Hwf) as Hruns. pose proof (merge_runs_low _ Hlow) as Hrl.
  rewrite Forall_forall in Hruns, Hrl. split.
  - apply table_of_length.
  - cbn [merge_runs]. destruct (merge_from_head (run_of d) descs Hwf') as (n & l & -> & Hle).
    eexists. split; [done|]. cbn in *. split; [done|lia].
  - intros i r [->|Hr]%table_of_lookup; [done|]. apply Hruns in Hr as (? & ? & ? & ?).
    unfold run_end, PAGE_SIZE in *. lia.
  - intros i r [->|Hin]%table_of_lookup Hur; [done|].
    pose proof (Hruns _ Hin) as (Ha & H0 & _ & _). split_and!; [done|done|]. by apply (Hrl r).
Qed.

Lemma table_typed descs :
  Forall efi_descriptor_wf descs →
  Forall (λ r, 0 ≤ md_physical_address r < 2 ^ 64 ∧ 0 ≤ md_pages r < 2 ^ 63) (table_of (merge_runs descs) out_zero).
Proof.
  intros Hwf. pose proof (merge_runs_wf _ Hwf) as Hruns. rewrite Forall_forall in Hruns.
  apply Forall_lookup. intros i r [->|(_ & H1 & H2 & H3)%Hruns]%table_of_lookup; [done|].
  unfold run_end, PAGE_SIZE in *. lia.
Qed.

(** C16: the loop that converts the memory map computes its reference [merge_runs], cut to the
    231 entries of the table and followed by empty entries: the runs have the pages of the
    descriptors, usable or not, and runs that follow each other could not be merged. When the
    first descriptor is usable and usable memory is in the window, the table satisfies the
    assumption [mmap_wf] of the page allocator of the hypervisor. *)
Theorem convert_mmap_correct descs (Hwf : Forall efi_descriptor_wf descs) :
  convert_mmap descs 0 0 out_zero = Ok (table_of (merge_runs descs) out_zero) ∧
  (∀ u p, runs_page u (merge_runs descs) p ↔ efi_page u descs p) ∧
  (∀ i r1 r2, merge_runs descs !! i = Some r1 → merge_runs descs !! S i = Some r2 →
     ¬ (md_usable r1 = md_usable r2 ∧ run_end r1 = md_physical_address r2)) ∧
  (∀ p, runs_page true (table_of (merge_runs descs) out_zero) p → efi_page true descs p) ∧
  (∀ d, head descs = Some d → efi_usable (Type_ d) = true → 0 < NumberOfPages d →
     Forall descriptor_low descs → mmap_wf (table_of (merge_runs descs) out_zero)).
Proof.
  split; [by apply convert_mmap_table|]. split; [intros u p; by apply merge_runs_pages|].
  split; [intros i r1 r2; destruct descs; [done|apply merge_from_maximal]|].
  split; [intros p; by apply table_usable_page|].
  intros d Hd Hu Hn Hl. destruct descs as [|d' descs]; [done|]. injection Hd as ->. by apply table_mmap_wf.
Qed.

End mmap.

(** Witness: five descriptors of the firmware, of which the first two are merged. *)
Lemma convert_mmap_correct_witness :
  convert_mmap simple_memory_map 0 0 out_zero =
    Ok ([mk_mmap_desc 0 0xA0 true; mk_mmap_desc 0xA0000 0x60 false;
         mk_mmap_desc 0x100000 0x100000 true; mk_mmap_desc 0x100100000 0x10 false] ++
        replicate 227 (mk_mmap_desc 0 0 false)) ∧
  mmap_wf (table_of (merge_runs simple_memory_map) out_zero).
Proof.
  assert (Forall efi_descriptor_wf simple_memory_map) as Hwf by (repeat constructor; by vm_compute).
  destruct (convert_mmap_correct simple_memory_map Hwf) as (H & _ & _ & _ & Hmmap).
  split; [rewrite H; by vm_compute|]. apply (Hmmap (mk_efi_descriptor EfiConventionalMemory 0 0x90)); [done|done|done|].
  repeat constructor; intros _; by vm_compute.
Defined.
