(* ===== verification/BootLoad.v ===== *)
(** The loading stage of the boot loader: rules for the calls of the firmware, and what
    [load_section] and [load_attachment] (boot/src/main.c) leave in memory.

    [wpe m Q s]: from [s], [m] returns an error status or a result in [Q]; it always returns.
    [VERIFY_EFI] and [RETURN_EFI] have the same rule. *)
From S2P Require Import Prelude Memory Machine Registers Strings PageAllocator.
From S2P Require Import BootFirmware BootPaging BootMain.

(** * Rules *)

Section rules.
Context `{HW : Hardware} `{FL : FirmwareLaws}.
Implicit Types (s : boot_machine).

Definition wpe {A} (m : efi A) (Q : A → boot_machine → Prop) s : Prop :=
  wp m (λ _, False) (λ r s', match r with inl status => EFI_ERROR status = true | inr a => Q a s' end) s.

Lemma wpe_RETURN_EFI {A B} (m : efi A) (k : A → efi B) Q s :
  wpe m (λ a s', wpe (k a) Q s') s → wpe (RETURN_EFI m k) Q s.
Proof. intros H. apply wp_RETURN_EFI. eapply wp_post; [exact H|]. by intros [status|a] s' HQ. Qed.
Lemma wpe_return {A} (a : A) Q s : Q a s → wpe (efi_return a) Q s.
Proof. intros HQ. by apply wp_ret. Qed.
Lemma wpe_fail {A} status (Q : A → boot_machine → Prop) s : EFI_ERROR status = true → wpe (efi_fail status) Q s.
Proof. intros HQ. by apply wp_ret. Qed.
Lemma wpe_lift {A} (m : M boot_machine A) Q s : wp m (λ _, False) Q s → wpe (efi_lift m) Q s.
Proof. intros H. by apply wp_efi_lift. Qed.
Lemma wpe_post {A} (m : efi A) (Q Q' : A → boot_machine → Prop) s :
  wpe m Q s → (∀ a s', Q a s' → Q' a s') → wpe m Q' s.
Proof. intros H HQ. eapply wp_post; [exact H|]. intros [status|a] s'; [done|apply HQ]. Qed.

(** Calls. *)
Lemma wpe_call_out {A} (f : efi_state → Z * A * efi_state) Q s :
  (∀ status a efi', f (b_efi s) = (status, a, efi') → EFI_ERROR status = false → Q a (s <| b_efi := efi' |>)) →
  wpe (efi_status_out (efi_call_out f)) Q s.
Proof.
  intros HQ. apply wp_efi_call_out. intros status a efi' Hf.
  destruct (EFI_ERROR status) eqn:He; [done|by eapply HQ].
Qed.
Lemma wpe_quiet_out {A} (f : efi_state → Z * A * efi_state) Q s :
  call_out_quiet f → (∀ a efi', efi_quiet (b_efi s) efi' → Q a (s <| b_efi := efi' |>)) →
  wpe (efi_status_out (efi_call_out f)) Q s.
Proof.
  intros Hf HQ. apply wpe_call_out. intros status a efi' Heq _. apply HQ.
  specialize (Hf (b_efi s)). by rewrite Heq in Hf.
Qed.
Lemma wp_quiet_call f E (Q : Z → boot_machine → Prop) s :
  call_quiet f →
  (∀ status efi', f (b_efi s) = (status, efi') → efi_quiet (b_efi s) efi' → Q status (s <| b_efi := efi' |>)) →
  wp (efi_call f) E Q s.
Proof.
  intros Hf HQ. specialize (Hf (b_efi s)). destruct (f (b_efi s)) as [status efi'] eqn:Heq.
  unfold efi_call, wp, mbind, M_bind, mget, mmodify, mret, M_ret. rewrite Heq. by apply HQ.
Qed.
Lemma wpe_quiet f Q s :
  call_quiet f → (∀ efi', efi_quiet (b_efi s) efi' → Q () (s <| b_efi := efi' |>)) →
  wpe (efi_status (efi_call f)) Q s.
Proof.
  intros Hf HQ. apply wp_bind. apply wp_quiet_call; [done|]. intros status efi' _ Hq.
  destruct (EFI_ERROR status) eqn:He; apply wp_ret; [done|by apply HQ].
Qed.
Lemma wpe_puts str Q s :
  (∀ efi', efi_quiet (b_efi s) efi' → Q () (s <| b_efi := efi' |>)) → wpe (boot_stdio_puts str) Q s.
Proof. apply wpe_quiet, OutputString_quiet. Qed.

Lemma efi_quiet_refl efi : efi_quiet efi efi.
Proof. by split. Qed.
Lemma efi_quiet_trans e1 e2 e3 : efi_quiet e1 e2 → efi_quiet e2 e3 → efi_quiet e1 e3.
Proof. intros [A1 A2] [B1 B2]. split; [lia|]. intros p. by rewrite B2. Qed.

(** Digits are written inside the buffer. *)
Lemma wp_str_itouh buffer o v n E (Q : list Z → boot_machine → Prop) s :
  0 ≤ o → o + n ≤ Z.of_nat (length buffer) →
  (∀ buffer', length buffer' = length buffer → Q buffer' s) → wp (str_itouh buffer o v n) E Q s.
Proof.
  intros Ho Hn HQ. unfold str_itouh. assert (Z.of_nat (Z.to_nat n) + o ≤ Z.of_nat (length buffer) ∨ Z.to_nat n = 0%nat) as Hb by lia.
  clear Hn. revert buffer v HQ Hb. induction (Z.to_nat n) as [|k IH]; intros buffer v HQ Hb; cbn [str_itouh_loop].
  { apply wp_ret. by apply HQ. }
  wp_step. unfold buffer_store. destruct (andb _ _) eqn:He.
  - apply wp_ret. apply IH; rewrite length_insert; [done|lia].
  - apply andb_false_iff in He as [He%Z.leb_gt|He%Z.ltb_ge]; lia.
Qed.

Lemma wpe_str_itouh buffer o v n Q s :
  0 ≤ o → o + n ≤ Z.of_nat (length buffer) →
  (∀ buffer', length buffer' = length buffer → Q buffer' s) → wpe (efi_lift (str_itouh buffer o v n)) Q s.
Proof. intros. apply wpe_lift. by apply wp_str_itouh. Qed.

(** The console. *)
Lemma wpe_stdio_perror location status Q s :
  (∀ efi', efi_quiet (b_efi s) efi' → Q () (s <| b_efi := efi' |>)) → wpe (stdio_perror location status) Q s.
Proof.
  intros HQ. unfold stdio_perror. apply wpe_RETURN_EFI, wpe_str_itouh; [lia|by vm_compute|].
  intros buffer _. apply wpe_RETURN_EFI, wpe_puts. intros e1 H1. apply wpe_RETURN_EFI, wpe_puts. intros e2 H2.
  apply wpe_return. apply (HQ e2). by eapply efi_quiet_trans.
Qed.
Lemma wpe_stdio_print_banner hash Q s :
  (∀ efi', efi_quiet (b_efi s) efi' → Q () (s <| b_efi := efi' |>)) → wpe (stdio_print_banner hash) Q s.
Proof.
  intros HQ. unfold stdio_print_banner. apply wpe_RETURN_EFI, wpe_quiet; [apply ClearScreen_quiet|]. intros e1 H1.
  apply wpe_RETURN_EFI, wpe_puts. intros e2 H2. apply wpe_return, (HQ e2). by eapply efi_quiet_trans.
Qed.
Lemma wpe_stdio_read_key s : wpe stdio_read_key (λ _ _, True) s.
Proof.
  unfold stdio_read_key. apply wpe_RETURN_EFI, wpe_quiet; [apply WaitForEvent_quiet|]. intros e1 H1.
  apply wpe_RETURN_EFI, wpe_quiet; [apply ReadKeyStroke_quiet|]. intros e2 H2. by apply wpe_return.
Qed.

Lemma wpe_VERIFY_EFI {A B} location (m : efi A) (k : A → efi B) Q s :
  wpe m (λ a s', wpe (k a) Q s') s → wpe (VERIFY_EFI location m k) Q s.
Proof.
  intros H. unfold VERIFY_EFI. apply wp_bind. eapply wp_post; [exact H|]. intros [status|a] s' HQ; [|exact HQ].
  apply wp_bind. eapply wp_post; [apply (wpe_stdio_perror location status (λ _ _, True)); done|].
  intros _ s1 _. apply wp_bind. eapply wp_post; [apply wpe_stdio_read_key|]. intros _ s2 _. by apply wpe_fail.
Qed.

End rules.

(** A step through the loader. *)
Ltac wpe_step :=
  lazymatch goal with
  | |- wpe (RETURN_EFI _ _) _ _ => apply wpe_RETURN_EFI
  | |- wpe (VERIFY_EFI _ _ _) _ _ => apply wpe_VERIFY_EFI
  | |- wpe (efi_return _) _ _ => apply wpe_return
  | |- wpe (efi_lift mget) _ _ => apply wpe_lift, wp_get
  | |- wpe (efi_lift (mmodify _)) _ _ => apply wpe_lift, wp_modify
  | |- wpe (efi_lift (boot_memset _ _ _)) _ _ => apply wpe_lift, wp_modify
  | |- wpe (modify_chainload _) _ _ => apply wpe_lift, wp_modify
  | |- wpe (boot_stdio_puts _) _ _ => apply wpe_puts
  end.

(** * The loading stage *)

Section load.
Context `{HW : Hardware} `{FL : FirmwareLaws}.
Implicit Types (s : boot_machine).

(** What the stage keeps: pages that were given out keep their bytes. *)
Record load_frame s s' : Prop := {
  lf_hw : b_hw s' = b_hw s;
  lf_attempts : (efi_attempts (b_efi s') ≤ efi_attempts (b_efi s))%nat;
  lf_allocated p : efi_allocated (b_efi s) p → efi_allocated (b_efi s') p;
  lf_mem p a : page_ok p → efi_allocated (b_efi s) p → p ≤ a < p + PAGE_SIZE →
    load_byte (b_mem s') a = load_byte (b_mem s) a;
}.
#[export] Instance load_frame_preorder : PreOrder load_frame.
Proof.
  split; [done|]. intros s1 s2 s3 [A1 A2 A3 A4] [B1 B2 B3 B4]. split; [congruence|lia|auto|].
  intros p a Hok Hp Ha. rewrite (B4 p a), (A4 p a); auto.
Qed.

(** The whole state: what else may change is the chainload page and the pool. *)
Lemma load_frame_quiet s s' efi' :
  load_frame s s' → efi_quiet (b_efi s') efi' → load_frame s (s' <| b_efi := efi' |>).
Proof. intros [A1 A2 A3 A4] [B1 B2]. split; [done|cbn; lia| |done]. intros p Hp. apply B2. auto. Qed.
Lemma load_frame_chainload s s' c : load_frame s s' → load_frame s (s' <| b_chainload := c |>).
Proof. by intros [A1 A2 A3 A4]. Qed.
(** A write to pages that were not given out in the first state. *)
Lemma load_frame_mem s s' m a n :
  load_frame s s' → a mod PAGE_SIZE = 0 → (∀ p, run_page a n p → ¬ efi_allocated (b_efi s) p) →
  (∀ b, ¬ (a ≤ b < a + n * PAGE_SIZE) → load_byte m b = load_byte (b_mem s') b) →
  load_frame s (s' <| b_mem := m |>).
Proof.
  intros [A1 A2 A3 A4] Hal Hn Hm. split; [done|done|done|]. intros p b Hok Hp Hb. cbn.
  rewrite Hm; [by apply (A4 p)|]. intros Hr. apply (Hn p); [|done]. by eapply run_page_byte.
Qed.

Lemma wpe_AllocatePages type n Q s :
  (∀ a efi', (0 < n → a mod PAGE_SIZE = 0 ∧ 0 ≤ a ∧ a + n * PAGE_SIZE ≤ 2 ^ 39 ∧
      ∀ p, run_page a n p → ¬ efi_allocated (b_efi s) p) →
     (efi_attempts efi' ≤ efi_attempts (b_efi s))%nat →
     (∀ p, efi_allocated efi' p ↔ efi_allocated (b_efi s) p ∨ run_page a n p) →
     Q a (s <| b_efi := efi' |>)) →
  wpe (efi_status_out (efi_call_out (efi_AllocatePages type n))) Q s.
Proof.
  intros HQ. apply wpe_call_out. intros status a efi' Heq Herr.
  pose proof (AllocatePages_pages _ _ _ _ _ _ Heq) as [Hat Ha]. rewrite Herr in Ha.
  apply HQ; [|done..]. intros Hn. by eapply AllocatePages_success.
Qed.

(** Pages were given out. *)
Lemma load_frame_allocated s efi' :
  (efi_attempts efi' ≤ efi_attempts (b_efi s))%nat →
  (∀ p, efi_allocated (b_efi s) p → efi_allocated efi' p) → load_frame s (s <| b_efi := efi' |>).
Proof. done. Qed.

Lemma wpe_read_file file size a Q s :
  (∀ size' m' efi', 0 ≤ size' ≤ size → efi_quiet (b_efi s) efi' →
     (∀ b, ¬ (a ≤ b < a + size) → load_byte m' b = load_byte (b_mem s) b) →
     Q size' ((s <| b_mem := m' |>) <| b_efi := efi' |>)) →
  wpe (efi_read_file file size a) Q s.
Proof.
  intros HQ. unfold efi_read_file, efi_status_out, wpe, wp, mbind, M_bind, mget, mmodify, mret, M_ret.
  destruct (efi_Read file size a (b_mem s) (b_efi s)) as [[[status size'] m'] efi'] eqn:Heq.
  destruct (EFI_ERROR status) eqn:Herr; cbn; [done|].
  destruct (Read_quiet _ _ _ _ _ _ _ _ _ Heq) as [Hq Hm]. apply HQ; [by eapply Read_size|done|done].
Qed.

(** A section of [n] pages at [a] as it was loaded: the bytes from [size] on are zero. *)
Record section_at (a n size : Z) s : Prop := {
  sa_aligned : a mod PAGE_SIZE = 0;
  sa_bounds : 0 ≤ a ∧ a + n * PAGE_SIZE ≤ 2 ^ 39;
  sa_size : 0 ≤ size ≤ n * PAGE_SIZE;
  sa_allocated p : run_page a n p → efi_allocated (b_efi s) p;
  sa_zero b : a + size ≤ b < a + n * PAGE_SIZE → load_byte (b_mem s) b = 0;
}.

Lemma section_at_frame a n size s s' : load_frame s s' → section_at a n size s → section_at a n size s'.
Proof.
  intros Hf [H1 H2 H3 H4 H5]. split; [done..|intros p Hp; by apply (lf_allocated _ _ Hf), H4|].
  intros b Hb. destruct (run_page_of_byte a n b) as (p & Hp & Hin); [done|lia|].
  rewrite (lf_mem _ _ Hf p b); [by apply H5|by apply (run_page_ok a n); try lia|by apply H4|done].
Qed.

(** The pages that a section gets, and the size of what was read there. *)
Record sourced (n : Z) s (r : Z * Z) s' : Prop := {
  so_frame : load_frame s s';
  so_chainload : b_chainload s' = b_chainload s;
  so_bounds : fst r mod PAGE_SIZE = 0 ∧ 0 ≤ fst r ∧ fst r + n * PAGE_SIZE ≤ 2 ^ 39;
  so_size : 0 ≤ snd r ≤ n * PAGE_SIZE;
  so_pages p : run_page (fst r) n p → ¬ efi_allocated (b_efi s) p ∧ efi_allocated (b_efi s') p;
}.

Lemma sourced_allocated n s a size m efi1 efi2 :
  (0 < n → a mod PAGE_SIZE = 0 ∧ 0 ≤ a ∧ a + n * PAGE_SIZE ≤ 2 ^ 39 ∧
     ∀ p, run_page a n p → ¬ efi_allocated (b_efi s) p) →
  (efi_attempts efi1 ≤ efi_attempts (b_efi s))%nat →
  (∀ p, efi_allocated efi1 p ↔ efi_allocated (b_efi s) p ∨ run_page a n p) → 0 < n →
  0 ≤ size ≤ n * PAGE_SIZE → (∀ b, ¬ (a ≤ b < a + n * PAGE_SIZE) → load_byte m b = load_byte (b_mem s) b) →
  efi_quiet efi1 efi2 → sourced n s (a, size) ((s <| b_mem := m |>) <| b_efi := efi2 |>).
Proof.
  intros Ha Hat Hp Hn Hs Hm [Hq1 Hq2]. destruct (Ha Hn) as (Ha1 & Ha2 & Ha3 & Ha4).
  split; try done.
  - assert (load_frame s (s <| b_mem := m |>)) as [B1 B2 B3 B4] by (by eapply load_frame_mem).
    split; [done|cbn; lia| |exact B4]. intros p Hpp. apply Hq2, Hp. by left.
  - intros p Hr. split; [by apply Ha4|]. apply Hq2, Hp. by right.
Qed.

(** Console calls and the like before the pages were given out. *)
Lemma sourced_quiet n s e r s' :
  efi_quiet (b_efi s) e → sourced n (s <| b_efi := e |>) r s' → sourced n s r s'.
Proof.
  intros [Hq1 Hq2] [[A1 A2 A3 A4] H2 H3 H4 H5]. cbn in A1, A2, A3, A4, H2, H5. split; [split|..]; try done.
  - lia.
  - intros p Hp. by apply A3, Hq2.
  - intros p a Hok Hp. by apply A4, Hq2.
  - intros p Hp. rewrite <-Hq2. by apply H5.
Qed.

Lemma wpe_fs_read_entier_file_to_pages volume filename type n Q s :
  0 < n < 2 ^ 40 → (∀ r s', sourced n s r s' → Q r s') →
  wpe (fs_read_entier_file_to_pages volume filename type n) Q s.
Proof.
  intros Hn HQ. unfold fs_read_entier_file_to_pages.
  wpe_step. apply wpe_quiet_out; [apply Open_quiet|]. intros file e1 Hq1.
  wpe_step. apply wpe_AllocatePages. intros a e2 Ha Hat Hp. cbn [b_efi upd set_b_efi] in *.
  wpe_step. rewrite EFI_PAGE_SIZE_eq, (wrap_small 64 (n * PAGE_SIZE)) by (unfold PAGE_SIZE; lia).
  apply wpe_read_file. intros size m e3 Hs Hq3 Hm. cbn [b_efi b_mem upd set_b_efi set_b_mem] in *.
  wpe_step. apply wpe_quiet; [apply Close_quiet|]. intros e4 Hq4. cbn [b_efi b_mem upd set_b_efi set_b_mem] in *.
  wpe_step. apply HQ, (sourced_quiet n s e1); [done|].
  refine (sourced_allocated n (s <| b_efi := e1 |>) a size m e2 e4 Ha Hat Hp _ Hs Hm _); [lia|by eapply efi_quiet_trans].
Qed.

Context (FILE : list Z).

(** The section and the entry of the chainload page; other pages are kept. *)
Record section_loaded (section_index : Z) (section : section_t) (a : Z) s s' : Prop := {
  sl_frame : load_frame s s';
  sl_at : ∃ size, section_at a (section_size_in_pages section) size s' ∧
            (head (section_filename section) ≠ Some 0x5c → size = 0);
  sl_fresh p : run_page a (section_size_in_pages section) p → ¬ efi_allocated (b_efi s) p;
  sl_chainload : b_chainload s' = (b_chainload s) <| rkhv_sections :=
    <[Z.to_nat section_index := mk_section a (section_size_in_pages section)]> (rkhv_sections (b_chainload s)) |>;
}.

Lemma wpe_store_section index v Q s :
  0 ≤ index < Z.of_nat (length (rkhv_sections (b_chainload s))) →
  Q () (s <| b_chainload := (b_chainload s) <| rkhv_sections :=
          <[Z.to_nat index := v]> (rkhv_sections (b_chainload s)) |> |>) →
  wpe (store_section index v) Q s.
Proof.
  intros Hi HQ. unfold store_section. wpe_step. wpe_step. wpe_step. apply wpe_lift.
  unfold array_store. rewrite (proj2 (Z.leb_le 0 index)), (proj2 (Z.ltb_lt index _)) by lia. cbn [andb].
  apply wp_mlift_ok. wpe_step. exact HQ.
Qed.

Lemma wpe_load_section volume section_index section Q s :
  0 < section_size_in_pages section < 2 ^ 30 →
  0 ≤ section_index < Z.of_nat (length (rkhv_sections (b_chainload s))) →
  (∀ a s', section_loaded section_index section a s s' → Q a s') →
  wpe (load_section FILE volume section_index section) Q s.
Proof.
  intros Hn Hidx HQ. unfold load_section. cbv zeta. set (n := section_size_in_pages section) in *.
  rewrite EFI_PAGE_SIZE_eq, (wrap_small 64 (n * PAGE_SIZE)) by (unfold PAGE_SIZE; lia).
  wpe_step. eapply (wpe_post _ (λ r s', sourced n s r s' ∧ (head (section_filename section) ≠ Some 0x5c → snd r = 0))).
  { destruct (bool_decide _) eqn:Hfile.
    - apply bool_decide_eq_true in Hfile.
      wpe_step. wpe_step. intros e1 Hq1. wpe_step. wpe_step. intros e2 Hq2. wpe_step. wpe_step. intros e3 Hq3.
      wpe_step. apply wpe_fs_read_entier_file_to_pages; [lia|]. intros r s' Hr. wpe_step. split; [|done].
      eapply sourced_quiet; [|exact Hr]. exact (efi_quiet_trans _ _ _ Hq1 (efi_quiet_trans _ _ _ Hq2 Hq3)).
    - wpe_step. wpe_step. intros e1 Hq1. wpe_step. wpe_step. intros e2 Hq2. wpe_step.
      apply wpe_AllocatePages. intros a e3 Ha Hat Hp. wpe_step. split; [|done].
      apply (sourced_quiet n s e2); [exact (efi_quiet_trans _ _ _ Hq1 Hq2)|].
      refine (sourced_allocated n (s <| b_efi := e2 |>) a 0 (b_mem s) e3 e3 Ha Hat Hp _ _ _ _); try done; [lia|].
      unfold PAGE_SIZE. lia. }
  intros [a size] s1 [[Hf Hc Hb Hs Hp] Hz]. cbn in Hb, Hs, Hp, Hz.
  wpe_step. apply wpe_str_itouh; [lia|by vm_compute|]. intros b1 Hl1.
  wpe_step. apply wpe_str_itouh; [lia|rewrite Hl1; by vm_compute|]. intros b2 Hl2.
  wpe_step. apply wpe_str_itouh; [lia|rewrite Hl2, Hl1; by vm_compute|]. intros b3 Hl3.
  wpe_step. wpe_step. intros e1 Hq1. wpe_step. wpe_step. wpe_step.
  apply wpe_store_section; [cbn; by rewrite Hc|]. wpe_step.
  rewrite !wrap_small by (unfold PAGE_SIZE in *; lia).
  change (b_chainload (s1 <| b_efi := e1 |> <| b_mem := _ |>)) with (b_chainload s1). rewrite Hc.
  change (b_mem (s1 <| b_efi := e1 |>)) with (b_mem s1).
  destruct Hb as (Hb1 & Hb2 & Hb3). apply HQ. split; [| |by intros p Hr; apply Hp|done].
  - apply load_frame_chainload. apply (load_frame_mem s (s1 <| b_efi := e1 |>) _ a n);
      [by apply load_frame_quiet|done|by intros p Hr; apply Hp|].
    intros b Hout. by rewrite load_byte_memset, decide_False by lia.
  - exists size. split; [|done]. fold n. split; [done|done|done| |].
    + intros p Hr. apply Hq1, Hp, Hr.
    + intros b Hin. change (load_byte (memset (b_mem s1) (a + size) 0 (n * PAGE_SIZE - size)) b = 0).
      by rewrite load_byte_memset, decide_True by lia.
Qed.

(** A loaded section, at the address that was returned. *)
Definition section_ready s (section : section_t) (a : Z) : Prop :=
  ∃ size, section_at a (section_size_in_pages section) size s ∧
    (head (section_filename section) ≠ Some 0x5c → size = 0).
Definition section_entry_of (section : section_t) (a : Z) : chainload_section_t :=
  mk_section a (section_size_in_pages section).

Record sections_loaded (n : nat) (l : list section_t) (addresses : list Z) s s' : Prop := {
  ss_frame : load_frame s s';
  ss_ready : Forall2 (section_ready s') l addresses;
  ss_chainload : b_chainload s' = (b_chainload s) <| rkhv_sections :=
    take n (rkhv_sections (b_chainload s)) ++ zip_with section_entry_of l addresses ++
    drop (n + length l) (rkhv_sections (b_chainload s)) |>;
}.

Lemma section_ready_frame s s' section a : load_frame s s' → section_ready s section a → section_ready s' section a.
Proof. intros Hf (size & H & Hz). exists size. split; [by eapply section_at_frame|done]. Qed.

Lemma chainload_sections_id (c : chainload_page_t) : c = c <| rkhv_sections := rkhv_sections c |>.
Proof. by destruct c. Qed.

Lemma wpe_load_sections volume n l Q s :
  Forall (λ section, 0 < section_size_in_pages section < 2 ^ 30) l →
  (n + length l ≤ length (rkhv_sections (b_chainload s)))%nat →
  (∀ addresses s', sections_loaded n l addresses s s' → Q addresses s') →
  wpe (load_sections FILE volume (Z.of_nat n) l) Q s.
Proof.
  revert n Q s. induction l as [|section l IH]; intros n Q s Hl Hn HQ; cbn [load_sections].
  { wpe_step. apply HQ. split; [done|by constructor|]. cbn [zip_with]. rewrite Nat.add_0_r, app_nil_l, take_drop.
    apply chainload_sections_id. }
  apply Forall_cons in Hl as [Hs Hl]. cbn [length] in Hn.
  wpe_step. apply wpe_load_section; [done|lia|]. intros a s1 [Hf1 Hat1 _ Hc1].
  rewrite Nat2Z.id in Hc1. wpe_step. replace (Z.of_nat n + 1) with (Z.of_nat (S n)) by lia.
  assert (length (rkhv_sections (b_chainload s1)) = length (rkhv_sections (b_chainload s))) as Hlen
    by (rewrite Hc1; apply length_insert).
  apply IH; [done|lia|]. intros addresses s2 [Hf2 Hr2 Hc2]. wpe_step. apply HQ. split.
  - by etrans.
  - constructor; [|done]. by eapply section_ready_frame.
  - rewrite Hc2, Hc1. cbn [rkhv_sections upd set_rkhv_sections zip_with length].
    rewrite (take_S_r _ n (section_entry_of section a)) by (apply list_lookup_insert_eq; lia).
    rewrite take_insert_ge, drop_insert_lt by lia. rewrite <-app_assoc. by rewrite Nat.add_succ_r.
Qed.

(** ** Attachments *)

(** The chainload page is kept, and so is the memory that was given out. *)
Definition kept s s' : Prop := load_frame s s' ∧ b_chainload s' = b_chainload s.
#[export] Instance kept_preorder : PreOrder kept.
Proof.
  split; [by intros s|]. intros s1 s2 s3 [A1 A2] [B1 B2]. split; [by etrans|congruence].
Qed.
Lemma kept_quiet s efi' : efi_quiet (b_efi s) efi' → kept s (s <| b_efi := efi' |>).
Proof. intros Hq. split; [by apply load_frame_quiet|done]. Qed.

(** [wpf m P s]: [m] returns a result in [P] or an error status, and keeps what [kept] says in
    both cases. *)
Definition wpf {A} (m : efi A) (P : A → Prop) s : Prop :=
  wp m (λ _, False) (λ r s', kept s s' ∧ match r with inl status => EFI_ERROR status = true | inr a => P a end) s.

Lemma wpf_bind {A B} (m : efi A) (k : A → efi B) (R : A → Prop) P s :
  wpf m R s → (∀ a s', kept s s' → R a → wpf (k a) P s') → wpf (RETURN_EFI m k) P s.
Proof.
  intros Hm Hk. apply wp_RETURN_EFI. eapply wp_post; [exact Hm|]. intros [status|a] s' [Hc Hr]; [done|].
  eapply wp_post; [by apply Hk|]. intros r s'' [Hc' Hr']. split; [by etrans|done].
Qed.
Lemma wpf_return {A} (a : A) (P : A → Prop) s : P a → wpf (efi_return a) P s.
Proof. intros Ha. by apply wp_ret. Qed.
Lemma wpf_lift_get {A} (k : boot_machine → efi A) P s : wpf (k s) P s → wpf (RETURN_EFI (efi_lift mget) k) P s.
Proof. intros H. apply wp_RETURN_EFI, wp_efi_lift, wp_get. exact H. Qed.
Lemma wpf_quiet_out {A} (f : efi_state → Z * A * efi_state) s :
  call_out_quiet f → wpf (efi_status_out (efi_call_out f)) (λ _, True) s.
Proof.
  intros Hf. apply wp_efi_call_out. intros status a efi' Heq. specialize (Hf (b_efi s)). rewrite Heq in Hf.
  split; [by apply kept_quiet|]. by destruct (EFI_ERROR status) eqn:?.
Qed.
Lemma wpf_quiet f s : call_quiet f → wpf (efi_status (efi_call f)) (λ _, True) s.
Proof.
  intros Hf. apply wp_bind, wp_quiet_call; [done|]. intros status efi' _ Hq.
  destruct (EFI_ERROR status) eqn:He; apply wp_ret; (split; [by apply kept_quiet|done]).
Qed.
Lemma wpf_lift_quiet_out {A} (f : efi_state → Z * A * efi_state) s :
  call_out_quiet f → wpf (efi_lift (efi_call_out f)) (λ _, True) s.
Proof.
  intros Hf. specialize (Hf (b_efi s)).
  unfold wpf, efi_lift, efi_call_out, wp, mbind, M_bind, mget, mmodify, mret, M_ret.
  destruct (f (b_efi s)) as [[status a] efi']. cbn in *. split; [by apply kept_quiet|done].
Qed.

(** The volumes have no file of this name. *)
Definition file_missing (filename : list Z) : Prop :=
  ∀ volume efi, fst (fst (efi_Open volume filename EFI_FILE_MODE_READ efi)) = EFI_NOT_FOUND.

Lemma EFI_not_found_error : EFI_ERROR EFI_NOT_FOUND = true.
Proof. pose proof EFI_errors as H. rewrite !Forall_cons in H. apply H. Qed.

Lemma wpf_open volume filename s :
  wpf (efi_status_out (efi_call_out (efi_Open volume filename EFI_FILE_MODE_READ))) (λ _, ¬ file_missing filename) s.
Proof.
  apply wp_efi_call_out. intros status a efi' Heq. pose proof (Open_quiet volume filename EFI_FILE_MODE_READ (b_efi s)) as Hq.
  rewrite Heq in Hq. split; [by apply kept_quiet|]. destruct (EFI_ERROR status) eqn:He; [done|].
  intros Hmiss. specialize (Hmiss volume (b_efi s)). rewrite Heq in Hmiss. cbn in Hmiss. subst status.
  by rewrite EFI_not_found_error in He.
Qed.

(** Pages are allocated and a file is read into them. *)
Lemma wpf_alloc_read {B} type n file size (k : Z → Z → efi B) P s :
  0 ≤ n → 0 ≤ size ≤ n * PAGE_SIZE →
  (∀ a size' s', kept s s' → attachment_range a size' → wpf (k a size') P s') →
  wpf (a ←! efi_status_out (efi_call_out (efi_AllocatePages type n));
       size' ←! efi_read_file file size a; k a size') P s.
Proof.
  intros Hn Hs Hk. apply wp_RETURN_EFI, wp_efi_call_out. intros status a e1 Heq.
  pose proof (AllocatePages_pages _ _ _ _ _ _ Heq) as [Hat Hp].
  assert (EFI_ERROR status = false → 0 < n → a mod PAGE_SIZE = 0 ∧ 0 ≤ a ∧ a + n * PAGE_SIZE ≤ 2 ^ 39 ∧
    ∀ p, run_page a n p → ¬ efi_allocated (b_efi s) p) as Hsucc by (intros He H0; by eapply AllocatePages_success).
  assert (∀ m e2, efi_quiet e1 e2 → (∀ b, ¬ (a ≤ b < a + size) → load_byte m b = load_byte (b_mem s) b) →
    (EFI_ERROR status = false) → kept s ((s <| b_mem := m |>) <| b_efi := e2 |>)) as Hch.
  { intros m e2 [Hq1 Hq2] Hm Herr. split; [|done].
    assert (load_frame s (s <| b_mem := m |>)) as [B1 B2 B3 B4].
    { destruct (decide (n = 0)) as [->|].
      - split; [done..|]. intros p b _ _ _. apply Hm. lia.
      - destruct (Hsucc Herr) as (H1 & _ & _ & H4); [lia|].
        apply (load_frame_mem s s m a n); [done|done|done|]. intros b Hb. apply Hm. lia. }
    split; [done|cbn; lia| |exact B4]. intros p Hpp. apply Hq2, Hp. destruct (EFI_ERROR status); [done|by left]. }
  destruct (EFI_ERROR status) eqn:Herr.
  { split; [|done]. split; [|done]. apply load_frame_allocated; [done|]. intros p. apply Hp. }
  unfold wpf, RETURN_EFI, efi_read_file, efi_status_out, wp, mbind, M_bind, mget, mmodify, mret, M_ret.
  cbn [b_mem b_efi upd set_b_mem set_b_efi].
  destruct (efi_Read file size a (b_mem s) e1) as [[[status2 size'] m'] e2] eqn:Hr.
  destruct (Read_quiet _ _ _ _ _ _ _ _ _ Hr) as [Hq Hm].
  destruct (EFI_ERROR status2) eqn:He2; cbn; [split; [by apply Hch|done]|].
  pose proof (Read_size _ _ _ _ _ _ _ _ _ Hr He2) as Hsize.
  assert (attachment_range a size') as Hrange.
  { split; [lia|]. intros H0. destruct (Hsucc eq_refl) as (H1 & H2 & H3 & _); [unfold PAGE_SIZE in *; lia|].
    unfold page_ok, PAGE_SIZE in *. split; [split; [exact H1|]|]; lia. }
  specialize (Hk a size' _ (Hch m' e2 Hq Hm eq_refl) Hrange).
  eapply wp_post; [exact Hk|]. intros r s'' [Hc' Hr']. split; [|done]. etrans; [|exact Hc']. by apply Hch.
Qed.

Lemma wpf_fs_read_attachment volume filename s :
  wpf (fs_read_attachment volume filename)
    (λ r, attachment_range (fst r) (snd r) ∧ ¬ file_missing filename) s.
Proof.
  unfold fs_read_attachment. eapply wpf_bind; [apply wpf_open|]. intros file s1 _ Hfound.
  eapply wpf_bind; [apply wpf_lift_quiet_out, GetInfo_quiet|]. intros [? info_size] s2 _ _.
  eapply wpf_bind; [apply wpf_quiet_out, AllocatePool_quiet|]. intros info s3 _ _.
  eapply wpf_bind; [apply wpf_quiet_out, GetInfo_quiet|]. intros info_size' s4 _ _.
  apply wpf_lift_get. cbv zeta. pose proof (FileSize_nonneg info (b_efi s4)) as Hsz.
  rewrite EFI_PAGE_SIZE_eq. apply wpf_alloc_read.
  - unfold PAGE_SIZE. case_match; zlia.
  - unfold PAGE_SIZE. case_match; zlia.
  - intros a size s5 _ Hr. eapply wpf_bind; [apply wpf_quiet, FreePool_quiet|]. intros _ s6 _ _.
    eapply wpf_bind; [apply wpf_quiet, Close_quiet|]. intros _ s7 _ _. by apply wpf_return.
Qed.

Lemma wpe_puts_kept str Q s : (∀ s', kept s s' → Q () s') → wpe (boot_stdio_puts str) Q s.
Proof. intros HQ. apply wpe_puts. intros e1 Hq. by apply HQ, kept_quiet. Qed.

(** The array of the attachments is [l]. *)
Definition attachments_are (l : list chainload_attachment_t) s s' : Prop :=
  load_frame s s' ∧ b_chainload s' = (b_chainload s) <| attachments := l |>.

Lemma attachments_are_kept s s' : kept s s' → attachments_are (attachments (b_chainload s)) s s'.
Proof. intros [H1 H2]. split; [done|]. rewrite H2. by destruct (b_chainload s). Qed.
Lemma attachments_are_trans l l' s s1 s2 :
  attachments_are l s s1 → attachments_are l' s1 s2 → attachments_are l' s s2.
Proof. intros [A1 A2] [B1 B2]. split; [by etrans|]. by rewrite B2, A2. Qed.
Lemma attachments_are_step l s s1 s2 : attachments_are l s s1 → kept s1 s2 → attachments_are l s s2.
Proof. intros [A1 A2] [B1 B2]. split; [by etrans|congruence]. Qed.

(** The entry [index] is assigned. *)
Lemma wpe_store_attachment l v index f s0 Q s :
  attachments_are l s0 s → l !! Z.to_nat index = Some v →
  (∀ s', attachments_are (<[Z.to_nat index := f v]> l) s0 s' → Q () s') → wpe (store_attachment index f) Q s.
Proof.
  intros [Hf Hc] Hv HQ. unfold store_attachment. wpe_step. wpe_step. rewrite Hc. cbn [attachments upd set_attachments].
  rewrite Hv. wpe_step. apply HQ. split; [by apply load_frame_chainload|]. cbn. rewrite Hc. done.
Qed.
Lemma wpe_store_attachment_step l v index f s0 (k : () → efi ()) Q s :
  attachments_are l s0 s → l !! Z.to_nat index = Some v →
  (∀ s', attachments_are (<[Z.to_nat index := f v]> l) s0 s' → wpe (k ()) Q s') →
  wpe (RETURN_EFI (store_attachment index f) k) Q s.
Proof. intros Hc Hi HQ. wpe_step. by eapply wpe_store_attachment. Qed.

Lemma wpe_load_attachment volume index filename type v Q s :
  attachments (b_chainload s) !! Z.to_nat index = Some v →
  (∀ a s', attachment_wf a → (file_missing filename → at_size a = 0) → attachments_are (<[Z.to_nat index := a]> (attachments (b_chainload s))) s s' → Q () s') →
  wpe (load_attachment FILE volume index filename type) Q s.
Proof.
  intros Hv HQ. unfold load_attachment. set (l := attachments (b_chainload s)) in *.
  pose proof (lookup_lt_Some _ _ _ Hv) as Hi.
  wpe_step. apply wpe_puts_kept. intros s1 H1. wpe_step. apply wpe_puts_kept. intros s2 H2.
  wpe_step. apply wpe_puts_kept. intros s3 H3.
  assert (kept s s3) as H03 by (etrans; [exact H1|by etrans]). clear H1 H2 H3.
  wpe_step. apply wpe_lift. eapply wp_post; [apply wpf_fs_read_attachment|].
  intros r s4 [H4 Hr]. assert (kept s s4) as H04 by (by etrans).
  destruct r as [status|[a size]].
  - destruct (status =? EFI_NOT_FOUND); [|by wpe_step; apply wpe_fail].
    wpe_step. apply wpe_puts_kept. intros s5 H5.
    assert (attachments_are l s s5) as H05 by (by apply attachments_are_kept; etrans).
    eapply wpe_store_attachment_step; [exact H05|exact Hv|]. intros s6 H6.
    eapply wpe_store_attachment; [exact H6|by apply list_lookup_insert_eq|]. intros s7 H7. rewrite list_insert_insert_eq in H7.
    eapply HQ; [| |exact H7]; [by split|done].
  - cbv zeta. wpe_step. apply wpe_str_itouh; [lia|by vm_compute|]. intros b1 Hl1.
    wpe_step. apply wpe_str_itouh; [lia|rewrite Hl1; by vm_compute|]. intros b2 Hl2.
    wpe_step. apply wpe_puts_kept. intros s5 H5.
    assert (attachments_are l s s5) as H05 by (by apply attachments_are_kept; etrans).
    eapply wpe_store_attachment_step; [exact H05|exact Hv|]. intros s6 H6.
    eapply wpe_store_attachment_step; [exact H6|by apply list_lookup_insert_eq|]. intros s7 H7. rewrite list_insert_insert_eq in H7.
    eapply wpe_store_attachment; [exact H7|by apply list_lookup_insert_eq|]. intros s8 H8. rewrite list_insert_insert_eq in H8.
    destruct Hr as [[Hr1 Hr2] Hfound]. cbn [fst snd] in *. eapply HQ; [|done|exact H8].
    unfold attachment_wf. cbn. destruct (decide (0 < size)) as [H0|].
    + destruct (Hr2 H0) as [Hok Hend]. assert (size < 2 ^ 56) by (destruct Hok; lia). rewrite wrap_small by lia. by split.
    + assert (size = 0) as -> by lia. by split.
Qed.

(** The array stays well formed, and empty when no file is found. *)
Definition attachments_changed (files : list attachment_t) s s' : Prop :=
  ∃ l, attachments_are l s s' ∧ length l = length (attachments (b_chainload s)) ∧
    (Forall attachment_wf (attachments (b_chainload s)) → Forall attachment_wf l) ∧
    (Forall (λ x, ∀ filename, attachment_filename x = Some filename → file_missing filename) files →
     Forall (λ a, at_size a = 0) (attachments (b_chainload s)) → Forall (λ a, at_size a = 0) l).

Lemma wpe_load_attachments volume l n Q s :
  (n + length l ≤ length (attachments (b_chainload s)))%nat →
  (∀ s', attachments_changed l s s' → Q () s') → wpe (load_attachments FILE volume (Z.of_nat n) l) Q s.
Proof.
  revert n Q s. induction l as [|x l IH]; intros n Q s Hn HQ; cbn [load_attachments].
  { wpe_step. apply HQ. exists (attachments (b_chainload s)). split; [by apply attachments_are_kept|done]. }
  cbn [length] in Hn. destruct (lookup_lt_is_Some_2 (attachments (b_chainload s)) n) as [v Hv]; [lia|].
  assert (attachments (b_chainload s) !! Z.to_nat (Z.of_nat n) = Some v) as Hv' by (by rewrite Nat2Z.id).
  assert (∀ Q f, (∀ a, at_physical_address (f a) = at_physical_address a ∧ at_size (f a) = at_size a) →
    (∀ s', attachments_changed (x :: l) s s' → Q () s') → wpe (store_attachment (Z.of_nat n) f) Q s) as Hend.
  { intros Q' f Hsame HQ'. eapply wpe_store_attachment; [by apply attachments_are_kept|exact Hv'|]. intros s' Hs'.
    destruct (Hsame v) as [Ha Hz]. apply HQ'. eexists. split; [exact Hs'|]. split; [apply length_insert|]. split.
    - intros Hall. apply Forall_insert; [done|]. unfold attachment_wf. rewrite Ha, Hz. by eapply (Forall_lookup_1 attachment_wf).
    - intros _ Hall. apply Forall_insert; [done|]. rewrite Hz. by eapply (Forall_lookup_1 (λ a, at_size a = 0)). }
  destruct (attachment_filename x) as [filename|] eqn:Hname; [destruct (_ =? _)|].
  - by apply Hend.
  - wpe_step. eapply wpe_load_attachment; [exact Hv'|]. intros a s1 Ha Hmiss H1.
    assert (length (attachments (b_chainload s1)) = length (attachments (b_chainload s))) as Hlen
      by (rewrite (proj2 H1); apply length_insert).
    replace (Z.of_nat n + 1) with (Z.of_nat (S n)) by lia. apply IH; [rewrite Hlen; lia|].
    intros s2 (l2 & H2 & Hl2 & Hwf2 & Hz2). apply HQ. exists l2. split; [by eapply attachments_are_trans|].
    split; [congruence|]. split.
    + intros Hall. apply Hwf2. rewrite (proj2 H1). by apply Forall_insert.
    + intros [Hx Hfiles]%Forall_cons Hall. apply Hz2; [done|]. rewrite (proj2 H1).
      apply Forall_insert; [done|]. by apply Hmiss, Hx.
  - by apply Hend.
Qed.

End load.
