(* ===== verification/BootCorrect.v ===== *)
(** Correctness of the boot loader ([efi_main] of boot/src/main.c).

    [efi_main] returns an error, or jumps to the hypervisor with its sections mapped, physical
    memory at [RKHV_PHYSICAL_MEMORY_BASE] and nothing else, with tables that are in pages the
    page allocator of the hypervisor never gives out, and with the memory map for which the
    firmware left its boot services. *)
From S2P Require Import Prelude Memory Machine Registers Strings PageUse PageAllocator.
From S2P Require Import VmxEpt VmxEptSpec EptCorrect BootFirmware BootPaging BootTables.
From S2P Require Import SimpleFirmware BootPhysical BootMain BootMmap BootLoad.

(** * The mapping of the sections *)

Section sections.
Context `{HW : Hardware} `{FL : FirmwareLaws}.
Implicit Types (s : boot_machine) (section : section_t).

(** The entry of [va] when [n] pages of the section are mapped to pages from [a] on. *)
Definition section_entry section (a n va : Z) : option (nat * Z) :=
  let i := (va mod 2 ^ 48 - section_virtual_address section mod 2 ^ 48) / PAGE_SIZE in
  if (0 <=? i) && (i <? n) then Some (0%nat, leaf_entry (a + i * PAGE_SIZE) (section_permission section)) else None.
Definition over (new old : option (nat * Z)) : option (nat * Z) :=
  match new with Some e => Some e | None => old end.
Fixpoint sections_entry (l : list (section_t * Z)) (old : option (nat * Z)) (va : Z) : option (nat * Z) :=
  match l with
  | [] => old
  | (section, a) :: l => sections_entry l (over (section_entry section a (section_size_in_pages section) va) old) va
  end.

(** The virtual addresses of a section do not wrap around. *)
Record section_ok section : Prop := {
  sk_size : 0 < section_size_in_pages section < 2 ^ 30;
  sk_va : section_virtual_address section mod PAGE_SIZE = 0 ∧ 0 ≤ section_virtual_address section;
  sk_end : section_virtual_address section mod 2 ^ 48 + section_size_in_pages section * PAGE_SIZE ≤ 2 ^ 48;
  sk_high : section_virtual_address section + section_size_in_pages section * PAGE_SIZE ≤ 2 ^ 64;
  sk_permission : section_permission section ≠ PAGING_PERMISSION_MAX;
}.

(** The tables of the boot loader and what they translate. *)
Definition mapped (root : Z) (entry : Z → option (nat * Z)) s : Prop :=
  (∃ tbl, paging_inv root tbl s) ∧ ∀ va, page_entry root va (b_mem s) = entry va.

Lemma section_page_address section i :
  section_ok section → 0 ≤ i < section_size_in_pages section →
  u64 (section_virtual_address section + u64 (i * PAGE_SIZE)) mod 2 ^ 48 =
    section_virtual_address section mod 2 ^ 48 + i * PAGE_SIZE.
Proof.
  intros [H1 [H2 H3] H4 H5 _] Hi. unfold PAGE_SIZE in *.
  rewrite (wrap_small 64 (i * 0x1000)), wrap_small by lia.
  rewrite <-Z.add_mod_idemp_l by lia. apply Z.mod_small. pose proof (Z.mod_pos_bound (section_virtual_address section) (2 ^ 48)). lia.
Qed.

Lemma section_entry_step section a i va :
  section_ok section → 0 ≤ i < section_size_in_pages section →
  (if (va mod 2 ^ 48) / 4096 =? (section_virtual_address section mod 2 ^ 48 + i * PAGE_SIZE) / 4096
   then Some (0%nat, leaf_entry (a + i * PAGE_SIZE) (section_permission section)) else section_entry section a i va) =
  section_entry section a (i + 1) va.
Proof.
  intros [H1 [H2 H3] H4 H5 _] Hi. unfold section_entry, PAGE_SIZE in *.
  set (w := va mod 2 ^ 48). assert (0 ≤ w < 2 ^ 48) as Hw by (apply Z.mod_pos_bound; lia). clearbody w.
  assert ((section_virtual_address section mod 2 ^ 48) mod 4096 = 0) as Hb by zlia.
  set (b := section_virtual_address section mod 2 ^ 48) in *. clearbody b.
  assert ((w - b) / 4096 = w / 4096 - b / 4096) as -> by zlia.
  assert ((b + i * 4096) / 4096 = b / 4096 + i) as -> by zlia.
  destruct (Z.eqb_spec (w / 4096) (b / 4096 + i)) as [->|Hne].
  - replace (b / 4096 + i - b / 4096) with i by lia.
    by rewrite (proj2 (Z.leb_le 0 i)), (proj2 (Z.ltb_lt i (i + 1))) by lia.
  - destruct (Z.leb_spec 0 (w / 4096 - b / 4096)); cbn [andb]; [|done].
    destruct (Z.ltb_spec (w / 4096 - b / 4096) i), (Z.ltb_spec (w / 4096 - b / 4096) (i + 1)); (done || lia).
Qed.

Lemma wpe_efi_for (Inv : Z → boot_machine → Prop) (body : Z → efi ()) n i0 s :
  Inv i0 s →
  (∀ i s, i0 ≤ i < i0 + Z.of_nat n → Inv i s → wpe (body i) (λ _ s', Inv (i + 1) s') s) →
  wpe (efi_for n i0 body) (λ _ s', Inv (i0 + Z.of_nat n) s') s.
Proof.
  revert i0 s. induction n as [|n IH]; intros i0 s H0 Hstep; cbn [efi_for].
  - wpe_step. by rewrite Z.add_0_r.
  - wpe_step. eapply wpe_post; [apply Hstep; [lia|done]|]. intros [] s' H'. cbn beta.
    replace (i0 + Z.of_nat (S n)) with (i0 + 1 + Z.of_nat n) by lia. apply IH; [done|].
    intros. apply Hstep; [lia|done].
Qed.

(** What stays between the calls: tables, frame and chainload page. *)
Lemma mapped_quiet root entry s efi' :
  efi_quiet (b_efi s) efi' → mapped root entry s → mapped root entry (s <| b_efi := efi' |>).
Proof.
  intros [_ Hq] [(tbl & [Ht Hp [W1 W2 W3 W5 W4]]) He]. split; [|done]. exists tbl. split; [done|exact Hp|].
  split; [exact W1|exact W2|exact W3|exact W5|]. intros p Hpp. by apply Hq, W4.
Qed.
Lemma boot_frame_quiet s s' efi' :
  boot_frame s s' → efi_quiet (b_efi s') efi' → boot_frame s (s' <| b_efi := efi' |>).
Proof.
  intros [H1 H2 H3 H4 H5 H6 H7 H8] [Hq1 Hq2]. split; [exact H1|exact H2|exact H3|cbn; lia| |exact H6|exact H7|exact H8].
  intros p Hp. apply Hq2. auto.
Qed.

Context (FILE : list Z).

Lemma wpe_map_section root section a old Q s :
  section_ok section → 0 ≤ a → a + section_size_in_pages section * PAGE_SIZE ≤ 2 ^ 39 →
  mapped root old s →
  (∀ s', mapped root (λ va, over (section_entry section a (section_size_in_pages section) va) (old va)) s' →
     boot_frame s s' → Q () s') →
  wpe (map_section FILE root section a) Q s.
Proof.
  intros Hok Ha Hend Hm HQ. unfold map_section. cbv zeta.
  wpe_step. apply wpe_str_itouh; [lia|by vm_compute|]. intros b1 Hl1.
  wpe_step. apply wpe_str_itouh; [lia|rewrite Hl1; by vm_compute|]. intros b2 Hl2.
  wpe_step. wpe_step. intros e1 Hq1. rewrite EFI_PAGE_SIZE_eq. pose proof (sk_size _ Hok) as Hs.
  eapply wpe_post; [eapply (wpe_efi_for (λ i s', boot_frame s s' ∧
    mapped root (λ va, over (section_entry section a i va) (old va)) s'))|].
  - split; [by apply boot_frame_quiet|]. destruct (mapped_quiet _ _ _ _ Hq1 Hm) as [Hi He]. split; [done|].
    intros va. rewrite He. unfold section_entry. case_match; [|done]. lia.
  - intros i s1 Hi [Hf1 [(tbl & Hinv) He]]. wpe_step.
    apply (wp_paging_map_page root tbl); [done|apply Hok|by intros status ? ? [? _]|].
    intros tbl' s2 _ Hinv' Hf2 Hm2. wpe_step. split; [by etrans|]. split; [by exists tbl'|].
    intros va. rewrite (Hm2 va), section_page_address by (done || lia).
    rewrite (wrap_small 64 (i * PAGE_SIZE)), wrap_small by (unfold PAGE_SIZE in *; lia).
    rewrite <-section_entry_step by (done || lia). case_match; [done|]. by rewrite He.
  - intros [] s' [Hf Hm']. rewrite Z2Nat.id, Z.add_0_l in Hm' by lia. by apply HQ.
Qed.

Lemma wpe_map_sections root l old Q s :
  Forall (λ x, section_ok (fst x) ∧ 0 ≤ snd x ∧ snd x + section_size_in_pages (fst x) * PAGE_SIZE ≤ 2 ^ 39) l →
  mapped root old s →
  (∀ s', mapped root (λ va, sections_entry l (old va) va) s' → boot_frame s s' → Q () s') →
  wpe (map_sections FILE root l) Q s.
Proof.
  revert old s. induction l as [|[section a] l IH]; intros old s Hl Hm HQ; cbn [map_sections].
  { wpe_step. by apply HQ. }
  apply Forall_cons in Hl as [(H1 & H2 & H3) Hl]. wpe_step. eapply wpe_map_section; [done..|].
  intros s1 Hm1 Hf1. eapply IH; [done|exact Hm1|]. intros s2 Hm2 Hf2. apply HQ; [exact Hm2|by etrans].
Qed.

End sections.

(** * Leaving the boot services *)

Section exit.
Context `{HW : Hardware} `{FL : FirmwareLaws}.
Implicit Types (s : boot_machine).
Context (FILE : list Z).

(** The map that the firmware gave, with the key for which it left the boot services. *)
Definition exit_map (image : Z) (mm : memory_map) (efi' : efi_state) : Prop :=
  ∃ mm0 a efi0 status efi1, efi_GetMemoryMap mm0 (Some a) efi0 = (status, mm, efi1) ∧
    EFI_ERROR status = false ∧ efi_ExitBootServices image (MapKey mm) efi1 = (EFI_SUCCESS, efi').

Lemma wpe_exit_boot_services fuel image mm Q s :
  (efi_attempts (b_efi s) < fuel)%nat →
  (∀ mm' efi', efi_quiet (b_efi s) efi' → exit_map image mm' efi' → Q mm' (s <| b_efi := efi' |>)) →
  wpe (exit_boot_services FILE fuel image mm) Q s.
Proof.
  revert mm s. induction fuel as [|fuel IH]; intros mm s Hf HQ; [lia|]. cbn [exit_boot_services].
  wpe_step. apply wpe_lift. pose proof (GetMemoryMap_quiet mm None (b_efi s)) as Hq1.
  destruct (efi_GetMemoryMap mm None (b_efi s)) as [[status1 mm1] e1] eqn:Heq1. cbn [snd] in Hq1.
  unfold efi_call_out. wp_step. wp_step. rewrite Heq1. wp_step. wp_step. wp_step. cbv zeta.
  wpe_step. apply wpe_quiet_out; [apply AllocatePool_quiet|]. intros a e2 Hq2.
  wpe_step. apply wpe_call_out. intros status3 mm3 e3 Heq3 Herr3.
  pose proof (GetMemoryMap_quiet (mk_memory_map (u64 (MemoryMapSize mm1 + u64 (4 * DescriptorSize mm1))) (MemoryMap mm1) (MapKey mm1) (DescriptorSize mm1)) (Some a) e2) as Hq3.
  cbn [b_efi upd set_b_efi] in Heq3, Hq2. rewrite Heq3 in Hq3. cbn [snd] in Hq3.
  wpe_step. apply wpe_lift, wp_quiet_call; [apply ExitBootServices_quiet|]. intros status4 e4 Heq4 Hq4.
  cbn [b_efi upd set_b_efi] in Heq4, Hq4.
  pose proof (efi_quiet_trans _ _ _ Hq1 (efi_quiet_trans _ _ _ Hq2 (efi_quiet_trans _ _ _ Hq3 Hq4))) as Hq.
  destruct (Z.eqb_spec status4 EFI_SUCCESS) as [->|Hne].
  { wpe_step. apply (HQ mm3 e4); [done|]. by exists (mk_memory_map (u64 (MemoryMapSize mm1 + u64 (4 * DescriptorSize mm1))) (MemoryMap mm1) (MapKey mm1) (DescriptorSize mm1)), a, e2, status3, e3. }
  pose proof (ExitBootServices_fails _ _ _ _ _ Heq4 Hne) as Hlt.
  wpe_step. apply wpe_stdio_perror. intros e5 Hq5. cbn [b_efi upd set_b_efi] in Hq5.
  wpe_step. apply wpe_quiet; [apply FreePool_quiet|]. intros e6 Hq6. cbn [b_efi upd set_b_efi] in Hq6.
  apply IH.
  - cbn [b_efi upd set_b_efi]. destruct Hq1, Hq2, Hq3, Hq5, Hq6. lia.
  - intros mm' efi' Hq' Hmap. apply (HQ mm' efi'); [|done].
    exact (efi_quiet_trans _ _ _ Hq (efi_quiet_trans _ _ _ Hq5 (efi_quiet_trans _ _ _ Hq6 Hq'))).
Qed.

(** The conversion of that map. *)
Definition mmap_converted (mm : memory_map) (table : list chainload_mmap_desc_t) : Prop :=
  ∃ descs, mmap_descriptors mm = Ok descs ∧ Forall efi_descriptor_wf descs ∧
    table = table_of (merge_runs descs) out_zero.

Lemma wpe_store_mmap image mm efi' Q s :
  exit_map image mm efi' → efi_mmap_usable (b_chainload s) = out_zero →
  (∀ table, mmap_converted mm table → Q () (s <| b_chainload := (b_chainload s) <| efi_mmap_usable := table |> |>)) →
  wpe (store_mmap mm) Q s.
Proof.
  intros (mm0 & a & e0 & status & e1 & Heq & Herr & _) Hz HQ.
  destruct (GetMemoryMap_success _ _ _ _ _ _ Heq Herr) as (Hd & Hlen & Hwf). unfold store_mmap.
  wpe_step. wpe_step. assert (∃ descs, mmap_descriptors mm = Ok descs ∧ Forall efi_descriptor_wf descs) as (descs & Hds & Hdw).
  { unfold mmap_descriptors. rewrite (proj2 (Z.eqb_neq _ _)) by lia. cbv zeta.
    rewrite (proj2 (Z.ltb_ge _ _)) by done. eexists. split; [done|]. by apply Forall_take. }
  rewrite Hds. wpe_step. apply wpe_lift, wp_mlift_ok. wpe_step. rewrite Hz, convert_mmap_table by done.
  apply wpe_lift, wp_mlift_ok. wpe_step. apply HQ. by exists descs.
Qed.

End exit.

(** * Between the stages *)

Section stages.
Context `{HW : Hardware} `{FL : FirmwareLaws}.
Implicit Types (s : boot_machine).

(** A loaded section that no table was put into. *)
Definition section_safe s (section : section_t) (a : Z) : Prop :=
  section_ready s section a ∧ ∀ p, run_page a (section_size_in_pages section) p → ¬ pool_page s p.

Lemma section_safe_boot_frame s s' section a : boot_frame s s' → section_safe s section a → section_safe s' section a.
Proof.
  intros Hf [(size & [H1 H2 H3 H4 H5] & Hz) Hn].
  split; [exists size; split; [split; try done|done]|].
  - intros p Hp. by apply (bf_allocated _ _ Hf), H4.
  - intros b Hb. destruct (run_page_of_byte a (section_size_in_pages section) b) as (p & Hp & Hin); [done|lia|].
    rewrite (bf_mem _ _ Hf p b); [by apply H5|by eapply run_page_ok; [..|exact Hp]; lia || done|by apply H4|by apply Hn|done].
  - intros p Hp [Hpp|Hpp]%(bf_new _ _ Hf); [by apply (Hn p)|]. by apply Hpp, H4.
Qed.

(** A step that keeps memory and the regions of the tables. *)
Record calm s s' : Prop := {
  cm_mem : b_mem s' = b_mem s;
  cm_pool : b_pool s' = b_pool s;
  cm_regions : page_table_regions (b_chainload s') = page_table_regions (b_chainload s);
  cm_quiet : efi_quiet (b_efi s) (b_efi s');
}.

Lemma calm_pool_page s s' p : calm s s' → pool_page s' p ↔ pool_page s p.
Proof. intros [_ Hp Hr _]. unfold pool_page, pool_regions. by rewrite Hp, Hr. Qed.
Lemma calm_pool_wf s s' : calm s s' → pool_wf s → pool_wf s'.
Proof.
  intros Hc [H1 H2 H3 H5 H4]. pose proof Hc as [_ Hp Hr [_ Hq]]. split.
  - by rewrite Hp.
  - by rewrite Hp, Hr.
  - unfold pool_regions. by rewrite Hp, Hr.
  - by rewrite Hp, Hr.
  - intros p Hpp. apply Hq, H4. by apply (calm_pool_page s s').
Qed.
Lemma calm_physical_inv low root old s s' : calm s s' → physical_inv low root old s → physical_inv low root old s'.
Proof.
  intros Hc [(tbl & m & pdpt & pds & Ht & Hold & Hpt & Hpd & Hpds & Hpool) Hwf].
  split; [|by apply (calm_pool_wf s)]. exists tbl, m, pdpt, pds. rewrite (cm_mem _ _ Hc), (calm_pool_page s s') by done.
  split; [done|]. split; [done|]. split; [done|]. split; [done|].
  split; [intros i Hi|intros k T HT]; rewrite (calm_pool_page s s') by done; auto. by eapply Hpool.
Qed.
Lemma calm_section_safe s s' section a : calm s s' → section_safe s section a → section_safe s' section a.
Proof.
  intros Hc [(size & [H1 H2 H3 H4 H5] & Hz) Hn]. pose proof Hc as [Hm _ _ [_ Hq]].
  split; [exists size; split; [split; try done|done]|].
  - intros p Hp. by apply Hq, H4.
  - by rewrite Hm.
  - intros p Hp. rewrite (calm_pool_page s s') by done. by apply Hn.
Qed.

(** The hypervisor sees the pages of the tables as used. *)
Lemma run_page_in_page_run a n p : 0 < n → 0 ≤ a → a + n * PAGE_SIZE ≤ 2 ^ 39 → run_page a n p → in_page_run p a n = true.
Proof.
  intros Hn Ha Hb (i & Hi & ->). unfold in_page_run, PAGE_SIZE in *.
  rewrite (wrap_small 64 ((n - 1) * 0x1000)), wrap_small by lia.
  rewrite (proj2 (Z.leb_le _ _)), (proj2 (Z.leb_le _ _)) by lia. done.
Qed.

Lemma page_ok_PAGE_MASK p : page_ok p → Z.land p PAGE_MASK = p.
Proof. intros [Hp _]. rewrite PAGE_MASK_spec. unfold PAGE_SIZE in Hp. zlia. Qed.

Lemma pool_page_used s p : pool_wf s → pool_page s p → mm_page_used_by_chainload p (b_chainload s) = true.
Proof.
  intros Hwf Hp. pose proof (pool_page_ok s p Hwf Hp) as Hok. unfold mm_page_used_by_chainload. cbv zeta.
  rewrite (page_ok_PAGE_MASK p Hok). apply orb_true_intro. right. apply existsb_exists.
  apply Exists_exists in Hp as (r & Hr & Hrp). exists r.
  pose proof (pw_regions _ Hwf) as Hreg. rewrite Forall_forall in Hreg. destruct (Hreg r Hr) as (_ & H0 & Hn & Hb).
  split; [apply list_elem_of_In; by eapply subseteq_take|].
  rewrite (proj2 (Z.ltb_lt _ _)) by done. by apply run_page_in_page_run.
Qed.

(** The jump: the window at 0 is gone. *)
Lemma physical_inv_clear root old s :
  page_ok root → physical_inv true root old s →
  physical_inv false root old (s <| b_mem := store_le 8 (b_mem s) root 0 |>).
Proof.
  intros Hok [(tbl & m & pdpt & pds & Ht & Hold & Hpt & Hpd & Hpds & Hpool) Hwf].
  split; [|by apply pool_wf_mem]. exists tbl, m, pdpt, pds.
  assert (∀ p i, page_ok p → p ≠ root → 0 ≤ i < 512 → ept_entry (store_le 8 (b_mem s) root 0) p i = ept_entry (b_mem s) p i) as He.
  { intros p i [Hp1 Hp2] Hne Hi. unfold ept_entry. apply load_store_other. destruct Hok as [Hr1 Hr2].
    unfold PAGE_SIZE in *. assert (p + 4096 ≤ root ∨ root + 4096 ≤ p) by zlia. lia. }
  split; [done|]. split; [done|]. split; [|done]. destruct Hpt as [H0 H2 Hi H1 Hd Ho].
  assert (∀ i, 0 < i < 512 → ept_entry (store_le 8 (b_mem s) root 0) root i = ept_entry (b_mem s) root i) as Hr.
  { intros i Hi'. unfold ept_entry. apply load_store_other. lia. }
  split; cbn [b_mem upd set_b_mem].
  - unfold ept_entry. rewrite Z.mul_0_r, Z.add_0_r. by apply (load_store_same_small 8).
  - rewrite Hr by lia. done.
  - intros i ???. rewrite Hr by lia. auto.
  - intros i ?. rewrite He; [auto|apply Hpd..|done].
  - intros i j ??. rewrite He; [auto|by apply Hpds..|done].
  - intros n p T i Hn HT Hi'. pose proof (et_root _ _ _ Ht) as Hrt. rewrite He; [eauto|by eapply et_page| |done].
    intros ->. pose proof (et_inj _ _ _ Ht _ _ _ HT Hrt) as [= -> _]. lia.
Qed.

Lemma section_safe_store root s section a e :
  page_ok root → pool_page s root → section_safe s section a →
  section_safe (s <| b_mem := store_le 8 (b_mem s) root e |>) section a.
Proof.
  intros Hok Hroot [(size & [H1 H2 H3 H4 H5] & Hz) Hn]. split; [exists size; split; [split; try done|done]|done].
  intros b Hb. change (load_byte (store_le 8 (b_mem s) root e) b = 0).
  rewrite load_byte_store_other; [by apply H5|].
  destruct (run_page_of_byte a (section_size_in_pages section) b) as (p & Hp & Hin); [done|lia|].
  assert (page_ok p) as Hpok by (eapply run_page_ok; [..|exact Hp]; lia || done).
  assert (p ≠ root) as Hne by (intros ->; by apply (Hn root)).
  destruct Hok, Hpok. unfold PAGE_SIZE in *. zlia.
Qed.

End stages.

(** * The stages of efi_main *)

Section main.
Context `{HW : Hardware} `{FL : FirmwareLaws}.
Implicit Types (s : boot_machine).
Context (RKHV_HASH RKHV_EFI_PATH FILE : list Z).
Abbreviation sections := (sections RKHV_EFI_PATH).

Lemma SECTION_PAGES_eq : SECTION_PAGES = 256.
Proof. unfold SECTION_PAGES. by rewrite EFI_PAGE_SIZE_eq. Qed.
Lemma STACK_PAGES_eq : STACK_PAGES = 256.
Proof. unfold STACK_PAGES. by rewrite EFI_PAGE_SIZE_eq. Qed.

Lemma sections_ok : Forall section_ok sections.
Proof.
  unfold BootMain.sections. rewrite SECTION_PAGES_eq, STACK_PAGES_eq.
  repeat constructor; cbn -[Z.mul Z.add Z.pow]; try done.
Qed.

Lemma wpe_fs_get_volume image Q s :
  (∀ volume efi', efi_quiet (b_efi s) efi' → Q volume (s <| b_efi := efi' |>)) → wpe (fs_get_volume image) Q s.
Proof.
  intros HQ. unfold fs_get_volume. wpe_step. apply wpe_quiet_out; [apply HandleProtocol_quiet|]. intros image' e1 Hq1.
  wpe_step. wpe_step. wpe_step. apply wpe_quiet_out; [apply HandleProtocol_quiet|]. intros fs e2 Hq2.
  wpe_step. apply wpe_quiet_out; [apply OpenVolume_quiet|]. intros volume e3 Hq3. wpe_step.
  apply (HQ volume e3). exact (efi_quiet_trans _ _ _ Hq1 (efi_quiet_trans _ _ _ Hq2 Hq3)).
Qed.

(** The only attachment. *)
Definition linux_filename : list Z := [0x5c] ++ RKHV_EFI_PATH ++ bytes_of_string "\linux-bzImage".
Lemma attachments_missing : file_missing linux_filename →
  Forall (λ x, ∀ filename, attachment_filename x = Some filename → file_missing filename) (attachments_ RKHV_EFI_PATH).
Proof. intros Hm. repeat constructor; [by intros filename [= <-]|done..]. Qed.

(** The state after everything was loaded. *)
Record loaded (cp : Z) (addresses : list Z) s : Prop := {
  ld_page : page_ok cp ∧ efi_allocated (b_efi s) cp;
  ld_ready : Forall2 (section_ready s) sections addresses;
  ld_sections : rkhv_sections (b_chainload s) = zip_with section_entry_of sections addresses;
  ld_address : chainload_page_physical_address (b_chainload s) = cp;
  ld_regions : page_table_regions (b_chainload s) = replicate 16 (mk_page_table_region 0 0);
  ld_mmap : efi_mmap_usable (b_chainload s) = out_zero;
  ld_attachments : Forall attachment_wf (attachments (b_chainload s));
  ld_missing : file_missing linux_filename → Forall (λ a, at_size a = 0) (attachments (b_chainload s));
}.

Lemma wpe_efi_load image Q s :
  (∀ cp addresses s', loaded cp addresses s' → b_hw s' = b_hw s →
     (efi_attempts (b_efi s') ≤ efi_attempts (b_efi s))%nat → Q (cp, addresses) s') →
  wpe (efi_load RKHV_HASH RKHV_EFI_PATH FILE image) Q s.
Proof.
  intros HQ. unfold efi_load.
  wpe_step. apply wpe_stdio_print_banner. intros e1 Hq1.
  wpe_step. rewrite EFI_PAGE_SIZE_eq. change (PAGE_SIZE / PAGE_SIZE) with 1. apply wpe_AllocatePages.
  intros cp e2 Hcp Hat Hp. destruct (Hcp eq_refl) as (Hcp1 & Hcp2 & Hcp3 & _). cbn [b_efi upd set_b_efi] in Hat, Hp.
  do 4 wpe_step. wpe_step. apply wpe_fs_get_volume. intros volume e3 Hq3. cbn [b_efi upd set_b_efi set_b_chainload] in Hq3.
  assert (run_page cp 1 cp) as Hrun by (exists 0; lia).
  wpe_step. apply (wpe_load_sections FILE volume 0).
  { eapply Forall_impl; [apply sections_ok|]. intros section Hs. apply Hs. }
  { done. }
  intros addresses s3 [Hf3 Hr3 Hc3]. cbn [take] in Hc3.
  wpe_step. apply (wpe_load_attachments FILE volume _ 0); [by rewrite Hc3|].
  intros s4 (l4 & [Hf4 Hc4] & Hl4 & Hwf4 & Hz4). wpe_step. apply wpe_quiet; [apply Close_quiet|]. intros e5 Hq5. wpe_step.
  set (s0 := _ <| b_efi := e3 |>) in *.
  assert (efi_allocated (b_efi s0) cp) as Hcpa by (apply Hq3, Hp; by right).
  assert (load_frame s0 (s4 <| b_efi := e5 |>)) as Hf by (apply load_frame_quiet; [by etrans|done]).
  assert (b_chainload s4 = mk_chainload_page (zip_with section_entry_of sections addresses) cp
    l4 (replicate 16 (mk_page_table_region 0 0)) out_zero) as Hc.
  { rewrite Hc4. rewrite Hc3. cbn [b_chainload]. unfold s0. cbn -[replicate BootMain.sections]. by rewrite app_nil_r. }
  apply HQ.
  - split; cbn [b_chainload upd set_b_efi].
    + split; [exact (run_page_ok cp 1 cp Hcp1 Hcp2 Hcp3 Hrun)|exact (lf_allocated _ _ Hf cp Hcpa)].
    + refine (Forall2_impl _ _ _ _ Hr3 _). intros section a Hsec. apply (section_ready_frame s3); [|done].
      by apply load_frame_quiet.
    + by rewrite Hc.
    + by rewrite Hc.
    + by rewrite Hc.
    + by rewrite Hc.
    + rewrite Hc. apply Hwf4. rewrite Hc3. cbn. by repeat constructor.
    + intros Hmiss. rewrite Hc. apply Hz4; [by apply attachments_missing|]. rewrite Hc3. cbn. by repeat constructor.
  - apply (lf_hw _ _ Hf).
  - pose proof (lf_attempts _ _ Hf) as Ha. cbn [b_efi upd set_b_efi] in *. unfold s0 in Ha.
    cbn [b_efi upd set_b_efi] in Ha. destruct Hq1, Hq3. lia.
Qed.

(** The first table. *)
Lemma wpe_paging_allocate_pml4 Q s :
  pool_wf s →
  (∀ root s', page_ok root → mapped root (λ _, None) s' → boot_frame s s' → Q root s') →
  wpe paging_allocate_pml4 Q s.
Proof.
  intros Hwf HQ. apply wp_paging_allocate_page; [done|lia|done|].
  intros root s' Hal H0 Hend Hwf' Hf Hnew Hpool Hm. assert (run_page root 1 root) as Hrun by (exists 0; lia).
  assert (page_ok root) as Hok by exact (run_page_ok root 1 root Hal H0 Hend Hrun).
  assert (∀ i, 0 ≤ i < 512 → ept_entry (b_mem s') root i = 0) as Hz.
  { intros i Hi. apply ept_entry_zero; [done|]. intros a Ha. rewrite Hm, load_byte_memset, decide_True; [done|lia]. }
  apply HQ; [done| |done]. split; [|intros va; by apply walk_leaf_root].
  exists {[(3%nat, 0) := root]}. split; [by apply ept_tables_wf_root| |done].
  intros k T [_ <-]%lookup_singleton_Some. apply Hpool. by right.
Qed.

(** The four bits that [paging_check_for_supported_level] tests. *)
Definition level_4_paging s : Prop :=
  truthy (Z.land (hw_cr0 (b_hw s)) CR0_PG) = true ∧ truthy (Z.land (hw_cr4 (b_hw s)) CR4_PAE) = true ∧
  truthy (Z.land (hw_cr4 (b_hw s)) CR4_LA57) = false ∧
  truthy (Z.land (hw_rdmsr IA32_EFER (b_hw s)) IA32_EFER_LME) = true.

Lemma wpe_paging_check_for_supported_level Q s :
  (∀ supported, (supported = true → level_4_paging s) → Q supported s) →
  wpe (efi_lift paging_check_for_supported_level) Q s.
Proof.
  intros HQ. apply wpe_lift. unfold paging_check_for_supported_level. wp_step. wp_step. cbv zeta. wp_step.
  apply HQ. rewrite !andb_true_iff, negb_true_iff. unfold level_4_paging. tauto.
Qed.

(** The addresses of the sections are what the loops rely on. *)
Lemma sections_zip_ok s addresses :
  Forall2 (section_ready s) sections addresses →
  Forall (λ x, section_ok (fst x) ∧ 0 ≤ snd x ∧ snd x + section_size_in_pages (fst x) * PAGE_SIZE ≤ 2 ^ 39)
    (zip sections addresses).
Proof.
  pose proof sections_ok as Hok. intros H. induction H as [|section a l1 l2 (size & Hat & _) H IH]; [constructor|].
  apply Forall_cons in Hok as [Hs Hok]. constructor; [|by apply IH]. split; [done|apply Hat].
Qed.

Record tables_built (addresses : list Z) (root : Z) s s' : Prop := {
  tb_inv : physical_inv true root (sections_entry (zip sections addresses) None) s';
  tb_root : page_ok root ∧ pool_page s' root;
  tb_frame : boot_frame (s <| b_pool := mk_pool 0 PAGE_TABLE_POOL_DEFAULT_CAPACITY |>) s';
  tb_level : level_4_paging s';
}.

Lemma physical_inv_root low root old s : physical_inv low root old s → page_ok root ∧ pool_page s root.
Proof.
  intros [(tbl & m & pdpt & pds & Ht & _ & _ & _ & _ & Hpool) _]. pose proof (et_root _ _ _ Ht) as Hr.
  split; [by eapply et_page|by eapply Hpool].
Qed.

Lemma wpe_efi_map cp addresses Q s :
  loaded cp addresses s → (∀ root s', tables_built addresses root s s' → Q root s') →
  wpe (efi_map RKHV_EFI_PATH FILE addresses) Q s.
Proof.
  intros Hld HQ. unfold efi_map. wpe_step. wpe_step. set (s0 := s <| b_pool := _ |>).
  assert (pool_wf s0) as Hwf0.
  { split; [by vm_compute| |constructor| |by intros p ?%Exists_nil];
      change (page_table_regions (b_chainload s0)) with (page_table_regions (b_chainload s)); rewrite (ld_regions _ _ _ Hld);
      [by vm_compute|]. by apply Forall_drop, Forall_replicate. }
  wpe_step. apply wpe_paging_allocate_pml4; [done|]. intros root s1 Hok Hm1 Hf1.
  wpe_step. eapply wpe_map_sections; [by eapply sections_zip_ok, Hld|exact Hm1|]. intros s2 Hm2 Hf2.
  wpe_step. wpe_step. intros e3 Hq3. destruct (mapped_quiet _ _ _ _ Hq3 Hm2) as [[tbl Hinv] He].
  assert (boot_frame s0 (s2 <| b_efi := e3 |>)) as Hf3 by (apply boot_frame_quiet; [by etrans|done]).
  set (s3 := s2 <| b_efi := e3 |>) in *. clearbody s3.
  wpe_step. apply (wp_paging_map_physical root tbl); [done|done|]. intros s4 Hph Hf4 _.
  wpe_step. apply wpe_paging_check_for_supported_level. intros supported Hsup. wpe_step.
  destruct supported; cbn [negb].
  - do 2 wpe_step. apply HQ. split; [|by eapply physical_inv_root|by etrans|by apply Hsup].
    destruct Hph as [(tbl' & m & pdpt & pds & Ht & Hold & Hrest) Hwf]. split; [|done].
    exists tbl', m, pdpt, pds. split; [done|]. split; [|done]. intros va. rewrite Hold. apply He.
  - wpe_step. wpe_step. intros e5 Hq5. wpe_step. apply wpe_fail. apply EFI_unsupported_error.
Qed.

(** What the jump to the hypervisor relies on. The tables translate as stated whatever is
    written to pages that the hypervisor does not see as used. *)
Record boot_done (image : Z) (entry : rkhv_entry_t) (cp : Z) (addresses : list Z) (mm : memory_map) s : Prop := {
  bd_registers : entry_rip entry = RKHV_RX_BASE ∧ entry_rdi entry = P2V_IDENTITY_MAP cp ∧
    entry_rsp entry = RKHV_STACK_TOP;
  bd_page : page_ok cp ∧ efi_allocated (b_efi s) cp ∧ chainload_page_physical_address (b_chainload s) = cp;
  bd_sections : rkhv_sections (b_chainload s) = zip_with section_entry_of sections addresses;
  bd_ready : Forall2 (section_safe s) sections addresses;
  bd_tables m' va :
    (∀ p a, page_ok p → mm_page_used_by_chainload p (b_chainload s) = true → p ≤ a < p + PAGE_SIZE →
       load_byte m' a = load_byte (b_mem s) a) →
    page_entry (entry_cr3 entry) va m' =
      physical_page_entry false va (sections_entry (zip sections addresses) None va);
  bd_map : exit_map image mm (b_efi s) ∧ mmap_converted mm (efi_mmap_usable (b_chainload s));
  bd_attachments : Forall attachment_wf (attachments (b_chainload s));
  bd_missing : file_missing linux_filename → Forall (λ a, at_size a = 0) (attachments (b_chainload s));
  bd_level : level_4_paging s;
  bd_pool : pool_wf s;
}.

Lemma efi_main_correct_rule fuel image mm s :
  (efi_attempts (b_efi s) < fuel)%nat →
  wpe (efi_main RKHV_HASH RKHV_EFI_PATH FILE fuel image mm)
    (λ entry s', ∃ cp addresses mm', boot_done image entry cp addresses mm' s') s.
Proof.
  intros Hfuel. unfold efi_main. wpe_step. apply wpe_efi_load. intros cp addresses s1 Hld Hhw1 Hat1.
  wpe_step. eapply wpe_efi_map; [exact Hld|]. intros root s2 [Hinv2 [Hok Hroot] Hf2 Hlv2].
  wpe_step. wpe_step. intros e3 Hq3. set (s3 := s2 <| b_efi := e3 |>).
  wpe_step. apply wpe_exit_boot_services.
  { pose proof (bf_attempts _ _ Hf2) as H. destruct Hq3. cbn [b_efi upd set_b_pool set_b_efi] in H |- *. unfold s3. cbn. lia. }
  intros mm' e4 Hq4 Hexit. pose proof (bf_chainload _ _ Hf2) as Hc2.
  wpe_step. eapply wpe_store_mmap; [exact Hexit| |].
  { cbn [b_chainload upd set_b_efi]. unfold s3. cbn [b_chainload upd set_b_efi]. rewrite Hc2. apply (ld_mmap _ _ _ Hld). }
  intros table Htable. set (s5 := _ <| b_chainload := _ |>).
  assert (calm s2 s5) as Hcalm by (split; [done|done|done|exact (efi_quiet_trans _ _ _ Hq3 Hq4)]).
  set (s6 := s5 <| b_mem := store_le 8 (b_mem s5) root 0 |>).
  assert (physical_inv false root (sections_entry (zip sections addresses) None) s6) as Hinv6
    by (apply physical_inv_clear; [done|by eapply calm_physical_inv]).
  assert (Forall2 (section_safe s6) sections addresses) as Hsafe.
  { refine (Forall2_impl _ _ _ _ (ld_ready _ _ _ Hld) _). intros section a Hready.
    apply section_safe_store; [done|by apply (calm_pool_page s2)|]. apply (calm_section_safe s2); [done|].
    eapply section_safe_boot_frame; [exact Hf2|]. split; [by apply (section_ready_frame s1)|by intros p _ ?%Exists_nil]. }
  apply wpe_lift. unfold chainload. wp_step. apply wp_modify. wp_step. wp_step. wp_step.
  exists cp, addresses, mm'. change (boot_done image (mk_rkhv_entry RKHV_RX_BASE (P2V_IDENTITY_MAP cp) RKHV_STACK_TOP root
    (Z.lor (hw_rdmsr IA32_EFER (b_hw s6)) IA32_EFER_NXE)) cp addresses mm' s6).
  assert (b_chainload s6 = ((b_chainload s1) <| page_table_regions := page_table_regions (b_chainload s2) |>) <| efi_mmap_usable := table |>) as Hc6.
  { unfold s6, s5, s3. cbn [b_chainload upd set_b_mem set_b_chainload set_b_efi]. by rewrite Hc2. }
  split; [done| |by rewrite Hc6; apply Hld|exact Hsafe| |split; [exact Hexit|by rewrite Hc6]|rewrite Hc6; apply (ld_attachments _ _ _ Hld)|rewrite Hc6; apply (ld_missing _ _ _ Hld)|exact Hlv2|apply Hinv6].
  - split; [apply Hld|split; [|by rewrite Hc6; apply (ld_address _ _ _ Hld)]].
    apply (cm_quiet _ _ Hcalm), (bf_allocated _ _ Hf2), (ld_page _ _ _ Hld).
  - intros m' va Hm'. cbn [entry_cr3].
    refine (physical_inv_entry _ _ _ _ va (physical_inv_ext _ _ _ s6 m' Hinv6 _)).
    intros p a Hp Ha. apply (Hm' p); [by eapply pool_page_ok; [apply Hinv6|]| |done].
    apply pool_page_used; [apply Hinv6|done].
Qed.

(** * The entries by address *)

Lemma RKHV_bases_48 :
  RKHV_RX_BASE mod 2 ^ 48 = 0xff0000000000 ∧ RKHV_RO_BASE mod 2 ^ 48 = 0xff0000100000 ∧
  RKHV_RW_BASE mod 2 ^ 48 = 0xff0000200000 ∧ RKHV_STACK_BASE mod 2 ^ 48 = 0xfffffff00000.
Proof. by vm_compute. Qed.

Lemma section_entry_in section a n off :
  section_ok section → 0 ≤ off < section_size_in_pages section * PAGE_SIZE → n = section_size_in_pages section →
  section_entry section a n (section_virtual_address section + off) =
    Some (0%nat, leaf_entry (a + off / PAGE_SIZE * PAGE_SIZE) (section_permission section)).
Proof.
  intros [H1 [H2 H3] H4 H5 _] Hoff ->. unfold section_entry, PAGE_SIZE in *.
  rewrite <-Z.add_mod_idemp_l by lia. set (b := section_virtual_address section mod 2 ^ 48) in *.
  assert (0 ≤ b) by (by apply Z.mod_pos_bound). rewrite (Z.mod_small (b + off)) by lia.
  replace (b + off - b) with off by lia.
  assert (0 ≤ off / 0x1000 < section_size_in_pages section) by zlia.
  by rewrite (proj2 (Z.leb_le _ _)), (proj2 (Z.ltb_lt _ _)) by lia.
Qed.

Lemma section_entry_out section a n b va :
  va mod 2 ^ 48 < section_virtual_address section mod 2 ^ 48 ∨
    section_virtual_address section mod 2 ^ 48 + n * PAGE_SIZE ≤ va mod 2 ^ 48 →
  over (section_entry section a n va) b = b.
Proof.
  intros H. unfold section_entry, PAGE_SIZE in *.
  destruct (Z.leb_spec 0 ((va mod 2 ^ 48 - section_virtual_address section mod 2 ^ 48) / 0x1000)); [|done].
  rewrite (proj2 (Z.ltb_ge _ _)); [done|]. zlia.
Qed.

(** Each section is mapped at its address with its permission. *)
Lemma sections_entry_lookup addresses (i : nat) section a off :
  length addresses = 4%nat → sections !! i = Some section → addresses !! i = Some a →
  0 ≤ off < section_size_in_pages section * PAGE_SIZE →
  physical_page_entry false (section_virtual_address section + off)
    (sections_entry (zip sections addresses) None (section_virtual_address section + off)) =
  Some (0%nat, leaf_entry (a + off / PAGE_SIZE * PAGE_SIZE) (section_permission section)).
Proof.
  intros Hlen Hs Ha Hoff. destruct addresses as [|a0 [|a1 [|a2 [|a3 [|]]]]]; try done.
  pose proof sections_ok as Hok. rewrite Forall_forall in Hok.
  assert (section_ok section) as Hsok by (by apply Hok; eapply list_elem_of_lookup_2).
  assert (section_size_in_pages section = 256) as Hsize.
  { destruct i as [|[|[|[|i]]]]; try done; injection Hs as <-; apply SECTION_PAGES_eq || apply STACK_PAGES_eq. }
  rewrite Hsize in Hoff. pose proof (section_entry_in section a _ off Hsok ltac:(by rewrite Hsize) eq_refl) as Hin.
  set (va := section_virtual_address section + off) in *.
  assert (va mod 2 ^ 48 = section_virtual_address section mod 2 ^ 48 + off) as Hva.
  { unfold va. rewrite <-Z.add_mod_idemp_l by lia. apply Z.mod_small.
    pose proof (sk_end _ Hsok) as He. rewrite Hsize in He. pose proof (Z.mod_pos_bound (section_virtual_address section) (2 ^ 48)). lia. }
  assert (∀ old, physical_page_entry false va old = old) as ->.
  { intros old. unfold physical_page_entry. rewrite Hva. change RKHV_PHYSICAL_MEMORY_BASE with (2 ^ 40).
    assert (2 ^ 41 ≤ section_virtual_address section mod 2 ^ 48).
    { destruct i as [|[|[|[|i]]]]; try done; injection Hs as <-; by vm_compute. }
    unfold PAGE_SIZE in Hoff. rewrite (proj2 (Z.ltb_ge _ _)), (proj2 (Z.ltb_ge _ (2 ^ 40 + 2 ^ 39))) by lia.
    by rewrite andb_false_r. }
  unfold PAGE_SIZE in Hoff. unfold BootMain.sections. cbn [zip zip_with sections_entry].
  destruct i as [|[|[|[|i]]]]; [..|done]; injection Hs as <-; injection Ha as ->;
    cbn [section_virtual_address section_size_in_pages app] in Hva, Hin, Hsize |- *; rewrite ?SECTION_PAGES_eq, ?STACK_PAGES_eq in Hin; rewrite ?SECTION_PAGES_eq, ?STACK_PAGES_eq;
    repeat lazymatch goal with |- over (section_entry ?sec ?a ?n ?va) ?b = _ =>
      first [by rewrite Hin|rewrite (section_entry_out sec a n b va); [|rewrite Hva; cbn [section_virtual_address];
        destruct RKHV_bases_48 as (? & ? & ? & ?); unfold PAGE_SIZE; lia]] end.
Qed.

(** The translations of the tables at [cr3]: the sections, and physical memory at its base. *)
Record host_mapping (cr3 : Z) (addresses : list Z) (m : mem) : Prop := {
  hm_section (i : nat) section a off : sections !! i = Some section → addresses !! i = Some a →
    0 ≤ off < section_size_in_pages section * PAGE_SIZE →
    page_entry cr3 (section_virtual_address section + off) m =
      Some (0%nat, leaf_entry (a + off / PAGE_SIZE * PAGE_SIZE) (section_permission section));
  hm_physical pa : 0 ≤ pa < 2 ^ 39 →
    leaf_address (RKHV_PHYSICAL_MEMORY_BASE + pa) <$> page_entry cr3 (RKHV_PHYSICAL_MEMORY_BASE + pa) m = Some pa;
  hm_low va : 0 ≤ va < 2 ^ 39 → page_entry cr3 va m = None;
}.

Lemma boot_done_mapping image entry cp addresses mm s m :
  boot_done image entry cp addresses mm s →
  (∀ p a, page_ok p → mm_page_used_by_chainload p (b_chainload s) = true → p ≤ a < p + PAGE_SIZE →
     load_byte m a = load_byte (b_mem s) a) →
  host_mapping (entry_cr3 entry) addresses m.
Proof.
  intros Hd Hm. pose proof (λ va, bd_tables _ _ _ _ _ _ Hd m va Hm) as Ht.
  pose proof (Forall2_length _ _ _ (bd_ready _ _ _ _ _ _ Hd)) as Hlen. split.
  - intros i section a off Hs Ha Hoff. rewrite Ht. by apply (sections_entry_lookup addresses i).
  - intros pa Hpa. rewrite Ht. apply physical_page_entry_window; [done|by right].
  - intros va Hva. rewrite Ht. unfold physical_page_entry. rewrite (Z.mod_small va) by lia.
    by rewrite (proj2 (Z.ltb_lt _ _)) by lia.
Qed.

(** The hypervisor sees the pages of the sections as used. *)
Lemma section_page_used image entry cp addresses mm s (i : nat) section a p :
  boot_done image entry cp addresses mm s → sections !! i = Some section → addresses !! i = Some a →
  run_page a (section_size_in_pages section) p →
  page_ok p ∧ mm_page_used_by_chainload p (b_chainload s) = true.
Proof.
  intros Hd Hs Ha Hp. pose proof (bd_ready _ _ _ _ _ _ Hd) as Hready.
  destruct (Forall2_lookup_lr _ _ _ _ _ _ Hready Hs Ha) as [(size & [H1 [H2 H3] _ _ _] & _) _].
  assert (page_ok p) as Hok by (eapply run_page_ok; [exact H1|exact H2|exact H3|exact Hp]). split; [done|].
  unfold mm_page_used_by_chainload. cbv zeta. rewrite (page_ok_PAGE_MASK p Hok), (bd_sections _ _ _ _ _ _ Hd).
  assert (section_entry_of section a ∈ zip_with section_entry_of sections addresses) as Hin.
  { eapply list_elem_of_lookup_2. by rewrite lookup_zip_with, Hs; cbn; rewrite Ha. }
  assert (0 < section_size_in_pages section) as H0 by (destruct Hp as (k & Hk & _); lia).
  apply orb_true_intro. left. apply orb_true_intro. left. apply orb_true_intro. right.
  apply existsb_exists. exists (section_entry_of section a). split; [by apply list_elem_of_In|].
  cbn [sec_pages sec_physical_address section_entry_of]. rewrite (proj2 (Z.ltb_lt _ _)) by done.
  by apply run_page_in_page_run.
Qed.

End main.


