(* ===== verification/BootToGuest.v ===== *)
(** From the boot loader to the guest: [hvmain] (hv/src/main.c) runs on the memory, the
    chainload page and the tables that [efi_main] (boot/src/main.c) leaves. *)
From S2P Require Import Prelude Memory Machine Registers SimpleCpu PageUse PageAllocator.
From S2P Require Import VmxInstructions EptCorrect Strings Console Descriptors Vmcs Setup LinuxLoader.
From S2P Require Import Main MainFrame MainGuest MainLaunch MainCorrect.
From S2P Require Import BootFirmware BootPaging BootMain SimpleFirmware BootTables BootMmap BootLoad BootCorrect.

(** What the page allocator of the hypervisor needs of the memory map of the firmware: it
    starts with usable memory, and all of the usable memory is in the window. *)
Definition memory_map_usable (mm : memory_map) : Prop :=
  ∀ descs, mmap_descriptors mm = Ok descs →
    Forall descriptor_low descs ∧
    ∃ d rest, descs = d :: rest ∧ efi_usable (Type_ d) = true ∧ 0 < NumberOfPages d.

(** The image of Linux fits into the guest, when there is one. *)
Definition linux_image_fits (cp : chainload_page_t) (m : mem) : Prop :=
  match linux_attachment cp with
  | Some (ia, size) => image_fits m ia size (linux_first_page m ia)
  | None => True
  end.

Section composition.
Context `{DL : DescriptorLaws} {KI : KernelImage} {XI : XcrInstructions} {SL : SetupLaws} {ML : MainLaws}.
Context {VL : VmxLaws} {VLS : VmcsLaws} `{FL : FirmwareLaws}.

(** Without the file, the guest is the program of the build. *)
Lemma linux_attachment_empty (cp : chainload_page_t) :
  Forall (λ a, at_size a = 0) (attachments cp) → linux_attachment cp = None.
Proof.
  unfold linux_attachment. induction 1 as [|a l Ha _ IH]; cbn [mm_get_attachment_loop]; [done|].
  destruct (_ =? CHAINLOAD_ATTACHMENT_END); [done|]. destruct (_ =? _); [|done]. by rewrite Ha.
Qed.

(** The chainload page of the boot loader is one that the hypervisor can work with. *)
Lemma boot_done_chainload_wf RKHV_EFI_PATH image entry cp addresses mm s :
  boot_done RKHV_EFI_PATH image entry cp addresses mm s → memory_map_usable mm →
  file_missing (linux_filename RKHV_EFI_PATH) ∨ linux_image_fits (b_chainload s) (b_mem s) → chainload_wf (b_chainload s) (b_mem s).
Proof.
  intros Hd Hmm Himg. destruct (bd_map _ _ _ _ _ _ _ Hd) as [_ (descs & Hds & Hwf & Htable)].
  destruct (Hmm descs Hds) as [Hlow (d & rest & -> & Hu & Hn)].
  split; [rewrite Htable; by apply table_mmap_wf| |apply (bd_attachments _ _ _ _ _ _ _ Hd)|].
  { split; [rewrite Htable; by apply table_typed|]. by apply pool_wf_typed, (bd_pool _ _ _ _ _ _ _ Hd). }
  destruct Himg as [Hmiss|Himg]; [|exact Himg].
  by rewrite (linux_attachment_empty _ (bd_missing _ _ _ _ _ _ _ Hd Hmiss)).
Qed.


End composition.

Lemma simple_memory_map_usable key : memory_map_usable (mk_memory_map (48 * 5) simple_memory_map key 48).
Proof.
  assert (mmap_descriptors (mk_memory_map (48 * 5) simple_memory_map key 48) = Ok simple_memory_map) as Hd by reflexivity.
  intros descs Heq. assert (descs = simple_memory_map) as -> by congruence. split.
  - repeat constructor; intros _; by vm_compute.
  - by exists (mk_efi_descriptor EfiConventionalMemory 0 0x90); eexists.
Qed.
Lemma simple_file_missing : file_missing (linux_filename []).
Proof. by intros volume efi. Qed.

